(* ===== verification/_CoqProject ===== *)
-Q . S2P
Prelude.v
Config.v
Memory.v
CString.v
Heap.v
PhysMem.v
KernelHeap.v
HeapViews.v
Paging.v
KState.v
Disk.v
PParser.v
Fat16.v
Fat16Proofs.v
Vfs.v
VfsProofs.v
Gdt.v
Terminal.v
Idt.v
Keyboard.v
System.v
Elf.v
ElfProofs.v
Task.v
TaskProofs.v
UserMemory.v
Process.v
ProcessProofs.v
LoadProofs.v
LaunchProofs.v
StartProofs.v
Isr80h.v
LifeProofs.v
Isr80hProofs.v
Kernel.v
KernelProofs.v
MainProofs.v
UserLib.v
UserProc.v
UserString.v
UserIO.v
Shell.v
ShellProofs.v
Echo.v
TestLib.v
