(* ===== verification/Prelude.v ===== *)
(** * ConiferOS: a verification library for the kernel and its programs

    ConiferOS is a small 32-bit x86 kernel.  The boot code (assembly) enters
    [kernel_main], which sets up the terminal, the segment table, the kernel
    heap, the file systems, the disk, the interrupt tables, the page tables, the
    system calls and the keyboard, loads the shell as a process and runs its
    task.  From then on the kernel runs only in interrupts: system calls through
    interrupt 0x80, keys, and processor exceptions.

    ** The library

    Paths are those under [src/src/] of the repository.  A definition has the
    name of the C function it models; a loop body or a C expression that needed
    a name of its own is introduced where it is used.  A file [XProofs.v] holds
    the theorems of [X.v]; the other files hold theirs after the definitions.

    - [Prelude]: machine integers as [Z] with their conversions, the outcomes of
      C code, the state monad [M], its weakest precondition [wp], loops, and the
      lemmas and tactics every file uses.
    - [Config]: the constants of [config.h] and [status.h].
    - [Memory], [CString]: [memory/memory.c] and [string/string.c], on the bytes
      of an object; an access outside the object is a [Fault].
    - [Heap]: [memory/heap/heap.c], the table with one byte per 4 KB block.
    - [PhysMem], [KernelHeap]: physical memory, the kernel's heap over it
      ([memory/heap/kernel_heap.c]) and the interface [Allocator] with its laws,
      which [Heap] discharges and the file-system stack is proved against.
    - [HeapViews]: the same heap under a second view that discharges the laws,
      in which other components' allocations and a reserve of free blocks stay
      untouched; the theorems on the file-system stack, used at this view, say
      what they leave alone.
    - [Paging]: [memory/paging/paging.c], page tables as words of physical memory.
    - [KState]: the structs the file-system stack keeps on the heap, in a store
      indexed by address, and the state of that stack.
    - [Disk]: [disk/disk.c] and [disk/disk_stream.c] over the port interface
      [PortIO]; [AtaDrive] is what an ATA drive documents, as laws on the ports.
    - [PParser]: [fs/pparser.c].
    - [Fat16], [Fat16Proofs]: [fs/fat/fat16.c].
    - [Vfs], [VfsProofs]: [fs/file.c]; a [struct filesystem] is a record of
      functions.
    - [Gdt]: [gdt/gdt.c] and the segment table of [kernel.c].
    - [Terminal]: [print/print.c].
    - [Idt]: the tables of [idt/idt.c] and [isr80h/isr80h.c].
    - [Keyboard]: [keyboard/keyboard.c] and [keyboard/ps2_keyboard.c].
    - [System]: the structs of [task/task.h], [task/process.h] and
      [loader/formats/elf_file.h], and the state in which tasks run: the
      file-system stack over the real heap and memory, the page-directory
      register, the segment registers, the stores of tasks, processes and ELF
      files, the terminal and the interrupt tables.
    - [Elf], [ElfProofs]: [loader/formats/elf_file.c].
    - [Task], [TaskProofs], [UserMemory]: [task/task.c] and the page-table switch
      of [kernel.c]; [UserMemory] has the theorems on the task's address space.
    - [Process], [ProcessProofs]: [task/process.c].
    - [LoadProofs], [LaunchProofs], [StartProofs]: [process_load] through every
      layer: the file read into memory, the task with its page tables, and the
      address space the program finds.
    - [LifeProofs]: what a program in user mode can do to memory, and its end.
    - [Isr80h], [Isr80hProofs]: the routines of the [isr80h] directory and the
      handlers of [idt/idt.c].
    - [Kernel], [KernelProofs]: [kernel.c], the boot sequence and the smoke tests
      on the machine with its segment and task registers.
    - [MainProofs]: [kernel_main] as a whole, from reset to the shell.

    The programs, whose paths are those under [src/user_programs/]:

    - [UserLib]: [itoa] of [stdlib/src/stdlib.c] on its buffer.
    - [UserProc]: a program's memory, byte by byte, and the system calls of
      [stdlib/src/coniferos.asm] as the program sees them.
    - [UserString]: [stdlib/src/string.c] and [memory.c] on that memory.
    - [UserIO]: [stdlib/src/stdio.c], [coniferos.c] and the allocation functions of
      [stdlib.c].
    - [Shell], [ShellProofs]: [shell/src/shell.c].
    - [Echo]: [echo/src/echo.c].
    - [TestLib]: [test_stdlib/tstlib.c].

    ** How C is modelled

    A w-bit integer is a [Z] in its range; [u8], [u16], [u32], [s8], [s32] stand
    where C converts or an operation can wrap.  A function that touches state is
    a computation of [M St]: it returns [Ok] of a value and a state, or [Fault]
    (an access outside an object, a null dereference, other undefined behaviour),
    [Panic] (the kernel's [panic], which prints and stops), or [Diverge] (a loop
    that used up its fuel).  Error codes are the C values.

    Strings and arrays local to a component are lists of bytes.  Structs on the
    kernel heap live in typed stores by address, and their addresses come from
    the allocator, so leaks and double frees are visible.  Memory that crosses
    components as raw bytes (page tables, stacks, executables, argument blocks,
    user strings) is physical memory, and user addresses reach it through the
    processor's page walk [Task.walk] on the current page directory.  [task_exec]
    does not return in C; here it records the registers given to the processor,
    and system calls that end in it yield [None].  The EFLAGS among them are the
    kernel's own, with interrupts enabled, as [task_enter_userland] pushes them;
    what the kernel's flags are at each such point is an arbitrary sequence in the
    state, [System.kernel_flags], of which the theorems assume nothing.  The cells
    of the frame buffer are kept apart from physical memory ([Terminal]).

    A user program runs on a memory of bytes by virtual address, where an access
    outside what it was given is a [Fault].  What the kernel will answer to its
    requests, the keys typed and the pages granted, are lists of the state that
    calls take from; what it showed and which programs it started are traces that
    calls append to.  An endless loop of [main] is modelled up to any number of
    turns.

    The devices behind the ports, the allocator of the file-system stack and the
    addresses the linker and the compiler choose (the literals and local arrays of
    a program among them) are parameters.  Theorems with
    such parameters have witnesses with a simulated drive and the real heap.

    ** What the theorems show

    - Memory.  The block heap refines an abstract allocator, keeps its invariant,
      the flags of the chains included, over every sequence of operations, and
      undoes an allocation by a free; every outcome of an allocation is
      characterised, the overrun of a request that meets the end of the table and
      the request of 0 bytes included.  [kzalloc] returns fresh zeroed memory, null,
      or overruns the table.  [init_page_tables] builds the identity map, mappings change exactly
      the pages of their range, entries read back as stored, and rounding to
      pages is exact with its wrap-around.
    - Files.  Disk reads and stream sessions return the bytes of the disk across
      sector boundaries.  Path parsing is characterised for every string, is
      inverse to printing, and its frees release what it allocated.  Mounting, the
      directory scan, names and cluster reads of FAT16 are specified, and
      [fopen], [fread], [fclose] return the contents of a file of a volume
      through every layer, and past its end what the cluster holds there.  Bad
      descriptors change nothing.
    - Devices.  Printing what fits on the screen refines typing on an abstract
      screen, and backspace is specified on each branch; the keyboard ring refines a queue, and every scan
      code's effect is given; encoded segment descriptors and gates decode, as the
      processor reads them, to what was meant.
    - Tasks.  The processor is handed over round robin; a saved context is the one
      resumed, but for the flags; which removals keep the list well formed.
    - User memory and system calls.  Reading a task's stack and copying its
      strings go through the task's page tables and restore them.  The system
      calls for allocating and freeing keep heap, page tables and bookkeeping in
      step; arguments reach the new process; the print call is specified from the
      interrupt to the return, and unknown calls are answered with 0.
    - Programs in memory.  Which ELF files are accepted and what is recorded of
      them.  Loading a program of the volume makes a process and a task; through
      the task's page tables the program reads the bytes of its file at the
      addresses of its segments, its stack and its arguments.  The statement is
      for a program in the root directory, of one cluster, with at most five
      arguments and enough of the heap free; loading leaves all memory allocated
      before as it was.
    - The life of a program.  Over every sequence of stores in user mode and of
      calls that allocate and release, a program whose writable segments end
      inside its file changes no memory but its own; its reads are not confined,
      every page being mapped readable.  The kernel may fault in such a call, but
      only if the program releases the null pointer or asks for more blocks than
      are free at the end of the heap.  The end of a program releases what it
      allocated, its file and its stack, and resumes the first task of the list; the
      process, its arguments, its task and its page tables are never released.  The
      sequences have no other system call, and no allocation of 0 bytes or of more
      than 4294963200: those are answered with memory that stays free, and isolation
      does not survive their release.
    - Boot.  From the machine the boot code leaves, with a FAT16 disk, the kernel
      initialises every component: tables decode as meant, the volume is mounted,
      the heap has lost exactly the blocks accounted for.  If the disk holds
      0:/shell.elf, [kernel_main] reaches user mode at the program's entry point,
      with the program's bytes in its address space.
    - The user library.  Its string functions agree with the kernel's; [itoa]
      prints decimals; [strtok] splits, [printf] formats and the line input edits
      as their reference functions do.
    - Programs.  A session of the shell starts exactly the programs the typed lines
      name, with their arguments; the echo program prints its arguments.

    Where the code departs from its comments or its purpose, the theorems state
    what it does; [Example]s next to them exhibit the consequences on concrete
    states.

    ** Bounds and fuel

    A [while] loop has 2^32 iterations of binary fuel: a loop over a 32-bit
    counter or over distinct addresses cannot make more, and the theorems on such
    loops prove that they end with a result.  [disk_stream_read] recurses once per
    sector, with fuel for two more sectors than its length spans.  Loops with a C
    bound are structural on that bound.  The nesting of [terminal_write_char] and
    [terminal_backspace] is two, as a blank is no backspace.

    ** Not modelled

    Assembly (the boot sector, interrupt stubs, port instructions, [enable_paging],
    [gdt_load], [tss_load]): the model takes what each does to the machine as a
    primitive, and so for [task_enter_userland], whose effect is
    [Task.task_enter_userland].  Interrupts arrive only
    between kernel entries, as the kernel runs with them disabled.  Write
    protection plays no part in the kernel, which runs in ring 0 without it; for
    accesses in user mode [StartProofs.user_access] checks the flags of both levels.  The
    one-function Rust library is not C and a parameter of [kernel_main].  The test
    programs in assembly are left out.  The depth of the stacks is not bounded.
    The two levels are connected by the system calls' specifications and not by a
    simulation: the state of [UserProc] abstracts from which physical pages stand
    behind a program's memory. *)
From stdpp Require Import base gmap list numbers strings.
#[local] Open Scope Z_scope.

#[global] Arguments Z.eqb : simpl never.
#[global] Arguments Z.ltb : simpl never.
#[global] Arguments Z.leb : simpl never.
#[global] Arguments Z.gtb : simpl never.
#[global] Arguments Z.geb : simpl never.
#[global] Arguments Z.land : simpl never.
#[global] Arguments Z.lor : simpl never.
#[global] Arguments Z.shiftl : simpl never.
#[global] Arguments Z.shiftr : simpl never.
#[global] Arguments Z.of_nat : simpl never.
#[global] Arguments Z.to_nat : simpl never.

(** ** Machine integers

    Every C integer is a [Z]; a value of a w-bit type is kept in range by the
    conversions below, applied where C converts or an operation may wrap. *)

Definition u8 (z : Z) : Z := z mod 256.
Definition u16 (z : Z) : Z := z mod 65536.
Definition u32 (z : Z) : Z := z mod 4294967296.

(** Two's complement reading of a w-bit pattern: [char], [int]. *)
Definition s8 (z : Z) : Z := (z + 128) mod 256 - 128.
Definition s32 (z : Z) : Z := (z + 2147483648) mod 4294967296 - 2147483648.

(** C booleans: [int] values 0 and 1. *)
Definition c_bool (b : bool) : Z := if b then 1 else 0.

(** ** Outcomes and the kernel's state monad

    A C function that may perform an access outside its object (undefined
    behaviour) yields [Fault]; [panic] never returns and yields [Panic]; a loop
    that exhausts the fuel below yields [Diverge]. *)

Inductive outcome (A : Type) : Type :=
| Ok (a : A)
| Fault
| Panic (msg : string)
| Diverge.
Arguments Ok {A} a.
Arguments Fault {A}.
Arguments Panic {A} msg.
Arguments Diverge {A}.

#[export] Instance outcome_ret : MRet outcome := @Ok.
#[export] Instance outcome_bind : MBind outcome := fun A B f m =>
  match m with
  | Ok a => f a
  | Fault => Fault
  | Panic msg => Panic msg
  | Diverge => Diverge
  end.

(** Reading an array cell: out of range is a fault. *)
Definition of_option {A} (o : option A) : outcome A :=
  match o with Some a => Ok a | None => Fault end.

(** [M St A]: a computation over the state [St] returning an [A]. *)
Definition M (St A : Type) : Type := St -> outcome (A * St).

#[export] Instance M_ret {St} : MRet (M St) := fun A a s => Ok (a, s).
#[export] Instance M_bind {St} : MBind (M St) := fun A B f m s =>
  match m s with
  | Ok (a, s') => f a s'
  | Fault => Fault
  | Panic msg => Panic msg
  | Diverge => Diverge
  end.

Definition get_state {St} : M St St := fun s => Ok (s, s).
Definition put_state {St} (s' : St) : M St unit := fun _ => Ok (tt, s').
Definition gets {St A} (f : St -> A) : M St A := fun s => Ok (f s, s).
Definition modify {St} (f : St -> St) : M St unit := fun s => Ok (tt, f s).
Definition fault {St A} : M St A := fun _ => Fault.
Definition panic {St A} (msg : string) : M St A := fun _ => Panic msg.
Definition lift_outcome {St A} (o : outcome A) : M St A := fun s => a ← o; Ok (a, s).

(** A computation on a part of the state. *)
Definition zoom {St T A} (part : St -> T) (update : T -> St -> St) (m : M T A) : M St A := fun s =>
  match m (part s) with
  | Ok (a, t) => Ok (a, update t s)
  | Fault => Fault
  | Panic msg => Panic msg
  | Diverge => Diverge
  end.

(** Total correctness: [m], run from [s], returns and establishes [Q]. *)
Definition wp {St A} (m : M St A) (s : St) (Q : A -> St -> Prop) : Prop :=
  match m s with Ok (a, s') => Q a s' | _ => False end.

(** ** Loops

    A C [while] loop whose body either continues with a new loop state or
    leaves the loop with a result.  The fuel is binary, 2^32 iterations, one
    more than a loop driven by a 32-bit counter can make, so closed runs
    evaluate and the termination theorems ask only for a measure below 2^32. *)

Fixpoint iterate {A B} (fuel : positive) (f : A -> A + B) (a : A) : A + B :=
  match fuel with
  | xH => f a
  | xO p => match iterate p f a with inl a' => iterate p f a' | inr b => inr b end
  | xI p =>
      match f a with
      | inl a1 => match iterate p f a1 with
                  | inl a2 => iterate p f a2
                  | inr b => inr b
                  end
      | inr b => inr b
      end
  end.

Definition while_fuel : positive := 4294967296.

(** [None]: still looping after 2^32 iterations. *)
Definition while {A B} (f : A -> A + B) (a : A) : option B :=
  match iterate while_fuel f a with inl _ => None | inr b => Some b end.

(** A loop over a monadic body: [inl] continues, [inr] leaves. *)
Definition loop_step {St X R} (body : X -> M St (X + R)) (xs : X * St)
    : (X * St) + outcome (R * St) :=
  match body (fst xs) (snd xs) with
  | Ok (inl x', s') => inl (x', s')
  | Ok (inr r, s') => inr (Ok (r, s'))
  | Fault => inr Fault
  | Panic msg => inr (Panic msg)
  | Diverge => inr Diverge
  end.

Definition loop_m {St X R} (body : X -> M St (X + R)) (x : X) : M St R := fun s =>
  match while (loop_step body) (x, s) with
  | Some o => o
  | None => Diverge
  end.

(** A [for (i = lo; i < lo + n; i++)] loop over a monadic body. *)
Fixpoint for_loop {St} (n : nat) (i : Z) (body : Z -> M St unit) : M St unit :=
  match n with
  | O => mret tt
  | S n' => body i ≫= fun _ => for_loop n' (i + 1) body
  end.

(** ** Tactics and hint databases *)

Create HintDb kernel.
Create Rewrite HintDb kernel.

(** Linear arithmetic over division and modulo by constants. *)
Ltac zlia := Z.to_euclidean_division_equations; lia.

(** Case analysis on every boolean comparison of the goal and hypotheses. *)
Ltac case_bools :=
  repeat match goal with
  | |- context [Z.eqb ?a ?b] => destruct (Z.eqb_spec a b)
  | |- context [Z.ltb ?a ?b] => destruct (Z.ltb_spec a b)
  | |- context [Z.leb ?a ?b] => destruct (Z.leb_spec a b)
  | H : context [Z.eqb ?a ?b] |- _ => destruct (Z.eqb_spec a b)
  | H : context [Z.ltb ?a ?b] |- _ => destruct (Z.ltb_spec a b)
  | H : context [Z.leb ?a ?b] |- _ => destruct (Z.leb_spec a b)
  end.

(** ** Lemmas on machine integers *)

Lemma u8_range z : 0 <= u8 z < 256.
Proof. unfold u8. zlia. Qed.
Lemma u32_range z : 0 <= u32 z < 4294967296.
Proof. unfold u32. zlia. Qed.
Lemma s8_range z : -128 <= s8 z < 128.
Proof. unfold s8. zlia. Qed.
Lemma s32_range z : -2147483648 <= s32 z < 2147483648.
Proof. unfold s32. zlia. Qed.

Lemma u8_small z : 0 <= z < 256 -> u8 z = z.
Proof. apply Z.mod_small. Qed.
Lemma u16_small z : 0 <= z < 65536 -> u16 z = z.
Proof. apply Z.mod_small. Qed.
Lemma u32_small z : 0 <= z < 4294967296 -> u32 z = z.
Proof. apply Z.mod_small. Qed.
Lemma s32_small z : -2147483648 <= z < 2147483648 -> s32 z = z.
Proof. intros. unfold s32. rewrite Z.mod_small; lia. Qed.

(** A byte is determined by its signed reading. *)
Lemma s8_inj a b : 0 <= a < 256 -> 0 <= b < 256 -> s8 a = s8 b -> a = b.
Proof. unfold s8. zlia. Qed.

Lemma s8_zero b : 0 <= b < 256 -> s8 b = 0 <-> b = 0.
Proof. unfold s8. zlia. Qed.

#[export] Hint Resolve u8_range u32_range s8_range s32_range : kernel.
#[export] Hint Rewrite u8_small u16_small u32_small s32_small using lia : kernel.

(** ** Lemmas on bit masks *)

(** A number below 2^n has no bit from [n] on. *)
Lemma testbit_high n x i : 0 <= n <= i -> 0 <= x < 2 ^ n -> Z.testbit x i = false.
Proof.
  intros Hi Hx. rewrite <- (Z.mod_small x (2 ^ n)) by done.
  apply Z.mod_pow2_bits_high. lia.
Qed.

(** A multiple of 2^n has no bit below [n]. *)
Lemma testbit_low n x i : 0 <= i < n -> x mod 2 ^ n = 0 -> Z.testbit x i = false.
Proof.
  intros Hi Hx. rewrite <- (Z.mod_pow2_bits_low x n i) by lia. rewrite Hx. apply Z.bits_0.
Qed.

(** Setting flag bits below bit [n] of a multiple of 2^n adds them. *)
Lemma lor_low_bits n a f :
  0 <= n -> a mod 2 ^ n = 0 -> 0 <= f < 2 ^ n -> Z.lor a f = a + f.
Proof.
  intros Hn Ha Hf. rewrite <- Z.add_lor_land.
  assert (Z.land a f = 0) as ->; [|lia].
  apply Z.bits_inj'. intros i Hi. rewrite Z.land_spec, Z.bits_0.
  destruct (Z.lt_ge_cases i n).
  - by rewrite (testbit_low n a i) by lia.
  - rewrite (testbit_high n f i) by lia. apply andb_false_r.
Qed.

(** Masking with [~(2^n - 1)] of a 32-bit word clears the low [n] bits. *)
Lemma land_high_bits n x :
  0 <= n <= 32 -> 0 <= x < 2 ^ 32 -> Z.land x (2 ^ 32 - 2 ^ n) = x - x mod 2 ^ n.
Proof.
  intros Hn Hx.
  assert (Hm : 2 ^ 32 - 2 ^ n = Z.shiftl (Z.ones (32 - n)) n).
  { rewrite Z.shiftl_mul_pow2, Z.ones_equiv by lia.
    replace (2 ^ 32) with (2 ^ (32 - n) * 2 ^ n) by (rewrite <- Z.pow_add_r by lia; f_equal; lia).
    lia. }
  assert (Hs : x - x mod 2 ^ n = Z.shiftl (Z.shiftr x n) n).
  { rewrite Z.shiftl_mul_pow2, Z.shiftr_div_pow2 by lia.
    pose proof (Z.div_mod x (2 ^ n) ltac:(lia)). lia. }
  rewrite Hm, Hs. apply Z.bits_inj'. intros i Hi.
  rewrite Z.land_spec. destruct (Z.lt_ge_cases i n).
  - rewrite !Z.shiftl_spec_low by lia. apply andb_false_r.
  - rewrite !Z.shiftl_spec_high by lia. rewrite Z.shiftr_spec by lia.
    replace (i - n + n) with i by lia. rewrite Z.testbit_ones by lia.
    destruct (Z.lt_ge_cases i 32).
    + assert ((0 <=? i - n) && (i - n <? 32 - n) = true) as -> by lia. apply andb_true_r.
    + by rewrite (testbit_high 32 x i) by lia.
Qed.

(** ** Lemmas on loops *)

(** The unary reading of [iterate]: [n] iterations, one after the other. *)
Fixpoint iterate_nat {A B} (n : nat) (f : A -> A + B) (a : A) : A + B :=
  match n with
  | O => inl a
  | S n' => match f a with inl a' => iterate_nat n' f a' | inr b => inr b end
  end.

Lemma iterate_nat_add {A B} n m (f : A -> A + B) a :
  iterate_nat (n + m) f a =
  match iterate_nat n f a with inl a' => iterate_nat m f a' | inr b => inr b end.
Proof.
  revert a. induction n as [|n IH]; intros a; simpl; [done|].
  destruct (f a); [apply IH | done].
Qed.

Lemma iterate_iterate_nat {A B} p (f : A -> A + B) a :
  iterate p f a = iterate_nat (Pos.to_nat p) f a.
Proof.
  revert a. induction p as [p IH|p IH|]; intros a; cbn [iterate].
  - replace (Pos.to_nat p~1) with (1 + (Pos.to_nat p + Pos.to_nat p))%nat by lia.
    rewrite (iterate_nat_add 1). cbn [iterate_nat].
    destruct (f a) as [a'|]; [|done].
    rewrite iterate_nat_add, <- IH. destruct (iterate p f a'); auto.
  - replace (Pos.to_nat p~0) with (Pos.to_nat p + Pos.to_nat p)%nat by lia.
    rewrite iterate_nat_add, <- IH. destruct (iterate p f a); auto.
  - change (Pos.to_nat 1) with 1%nat. simpl. by destruct (f a).
Qed.

(** Loops with equal bodies are equal. *)
Lemma while_ext {A B} (f g : A -> A + B) a : (forall x, f x = g x) -> while f a = while g a.
Proof.
  intros H. unfold while.
  assert (E : forall p x, iterate p f x = iterate p g x).
  { induction p as [p IH|p IH|]; intros x; cbn [iterate]; rewrite ?H, ?IH; [|case_match; auto|done].
    destruct (g x); [|done]. rewrite IH. case_match; auto. }
  by rewrite E.
Qed.

(** Total correctness of a [while] loop: an invariant indexed by a bound on the
    iterations left, below the fuel, gives a result. *)
Lemma while_rule_idx {A B} (Inv : nat -> A -> Prop) (Q : B -> Prop) (f : A -> A + B) n a :
  (forall n x, Inv n x -> match f x with
                          | inl x' => exists n', (n' < n)%nat /\ Inv n' x'
                          | inr b => Q b
                          end) ->
  Inv n a -> Z.of_nat n < 4294967296 ->
  exists b, while f a = Some b /\ Q b.
Proof.
  intros Hstep Ha Hn.
  assert (H : forall k m x, Inv m x -> (m < k)%nat ->
            exists b, iterate_nat k f x = inr b /\ Q b).
  { induction k as [|k IH]; intros m x Hx Hlt; simpl; [lia|].
    specialize (Hstep m x Hx). destruct (f x) as [x'|b]; [|by eauto].
    destruct Hstep as (m' & ? & Hx'). apply (IH m'); [done|lia]. }
  assert (Hf : Z.pos while_fuel = 4294967296) by reflexivity.
  unfold while. generalize dependent while_fuel. intros p Hp.
  destruct (H (Pos.to_nat p) n a Ha) as (b & Hb & HQ); [lia|].
  exists b. by rewrite iterate_iterate_nat, Hb.
Qed.

(** The same with an integer measure. *)
Lemma while_rule {A B} (Inv : A -> Prop) (Q : B -> Prop) (meas : A -> Z)
    (f : A -> A + B) a :
  (forall x, Inv x -> match f x with
                      | inl x' => Inv x' /\ 0 <= meas x' < meas x
                      | inr b => Q b
                      end) ->
  Inv a -> 0 <= meas a < 4294967296 ->
  exists b, while f a = Some b /\ Q b.
Proof.
  intros Hstep Ha Hm.
  apply (while_rule_idx (fun n x => Inv x /\ Z.of_nat n = meas x) Q f (Z.to_nat (meas a)));
    [|split; [done|lia]|lia].
  intros n x [Hx Hn]. specialize (Hstep x Hx). destruct (f x) as [x'|b]; [|done].
  destruct Hstep as [Hx' Hlt]. exists (Z.to_nat (meas x')). split; [lia|split; [done|lia]].
Qed.

(** ** Lemmas on the monad *)

Lemma wp_ret {St A} (a : A) (s : St) (Q : A -> St -> Prop) :
  Q a s -> wp (mret a) s Q.
Proof. done. Qed.

Lemma wp_bind {St A B} (m : M St A) (k : A -> M St B) s Q :
  wp m s (fun a s' => wp (k a) s' Q) -> wp (m ≫= k) s Q.
Proof.
  unfold wp, mbind, M_bind. destruct (m s) as [[a s']| | |]; auto.
Qed.

Lemma wp_mono {St A} (m : M St A) s (P Q : A -> St -> Prop) :
  wp m s P -> (forall a s', P a s' -> Q a s') -> wp m s Q.
Proof. unfold wp. destruct (m s) as [[a s']| | |]; auto. Qed.

Lemma wp_zoom {St T A} (part : St -> T) update (m : M T A) s (Q : A -> St -> Prop) :
  wp m (part s) (fun a t => Q a (update t s)) -> wp (zoom part update m) s Q.
Proof. unfold wp, zoom. by destruct (m (part s)) as [[a t]| | |]. Qed.

Lemma wp_gets {St A} (f : St -> A) s (Q : A -> St -> Prop) : Q (f s) s -> wp (gets f) s Q.
Proof. done. Qed.

Lemma wp_modify {St} (f : St -> St) s (Q : unit -> St -> Prop) : Q tt (f s) -> wp (modify f) s Q.
Proof. done. Qed.

Lemma wp_get_state {St} (s : St) (Q : St -> St -> Prop) : Q s s -> wp get_state s Q.
Proof. done. Qed.

Lemma wp_lift {St A} (o : outcome A) a (s : St) (Q : A -> St -> Prop) :
  o = Ok a -> Q a s -> wp (lift_outcome o) s Q.
Proof. by intros ->. Qed.

(** A computation that satisfies [wp] returns. *)
Lemma wp_run {St A} (m : M St A) s Q :
  wp m s Q -> exists a s', m s = Ok (a, s') /\ Q a s'.
Proof. unfold wp. destruct (m s) as [[a s']| | |]; [eauto|done..]. Qed.

Lemma wp_of_run {St A} (m : M St A) s a s' (Q : A -> St -> Prop) : m s = Ok (a, s') -> Q a s' -> wp m s Q.
Proof. intros H HQ. unfold wp. by rewrite H. Qed.

(** A computation with one possible outcome. *)
Lemma wp_eq {St A} (m : M St A) s a s1 :
  wp m s (fun x s' => x = a /\ s' = s1) -> m s = Ok (a, s1).
Proof. intros H. by destruct (wp_run _ _ _ H) as (x & s' & Hr & -> & ->). Qed.

(** The first step of a computation. *)
Lemma bind_run {St A B} (m : M St A) (f : A -> M St B) s a s' :
  m s = Ok (a, s') -> (m ≫= f) s = f a s'.
Proof. intros H. unfold mbind, M_bind. by rewrite H. Qed.

(** A [loop_m]: an invariant indexed by a bound on the iterations left. *)
Lemma wp_loop_idx {St X R} (Inv : nat -> X -> St -> Prop) (body : X -> M St (X + R))
    n x s (Q : R -> St -> Prop) :
  Inv n x s -> Z.of_nat n < 4294967296 ->
  (forall n x s, Inv n x s -> wp (body x) s (fun r s' =>
     match r with
     | inl x' => exists n', (n' < n)%nat /\ Inv n' x' s'
     | inr r => Q r s'
     end)) ->
  wp (loop_m body x) s Q.
Proof.
  intros Hx Hm Hbody. unfold wp, loop_m.
  destruct (while_rule_idx (fun n xs => Inv n (fst xs) (snd xs))
    (fun o => match o with Ok (r, s') => Q r s' | _ => False end)
    (loop_step body) n (x, s)) as (o & -> & Ho); [|done|done|done].
  intros m [x1 s1] H1. specialize (Hbody _ _ _ H1). unfold wp in Hbody. unfold loop_step. simpl in *.
  destruct (body x1 s1) as [[[x2|r] s2]| | |]; done.
Qed.

(** The same with an integer measure. *)
Lemma wp_loop_m {St X R} (Inv : X -> St -> Prop) (meas : X -> St -> Z)
    (body : X -> M St (X + R)) x s (Q : R -> St -> Prop) :
  Inv x s -> 0 <= meas x s < 4294967296 ->
  (forall x s, Inv x s -> wp (body x) s (fun r s' =>
     match r with
     | inl x' => Inv x' s' /\ 0 <= meas x' s' < meas x s
     | inr r => Q r s'
     end)) ->
  wp (loop_m body x) s Q.
Proof.
  intros Hx Hm Hbody.
  apply (wp_loop_idx (fun n x s => Inv x s /\ Z.of_nat n = meas x s) body (Z.to_nat (meas x s)));
    [split; [done|lia]|lia|].
  intros n x1 s1 [H1 Hn]. eapply wp_mono; [by apply Hbody|]. intros [x2|r] s2; [|done].
  intros [H2 Hlt]. exists (Z.to_nat (meas x2 s2)). split; [lia|split; [done|lia]].
Qed.

(** A [for] loop: an invariant indexed by the counter. *)
Lemma wp_for_loop {St} (Inv : Z -> St -> Prop) n i (body : Z -> M St unit) s :
  Inv i s ->
  (forall j s', i <= j < i + Z.of_nat n -> Inv j s' ->
     wp (body j) s' (fun _ s'' => Inv (j + 1) s'')) ->
  wp (for_loop n i body) s (fun _ s' => Inv (i + Z.of_nat n) s').
Proof.
  revert i s. induction n as [|n IH]; intros i s Hi Hbody.
  { apply wp_ret. by replace (i + Z.of_nat 0) with i by lia. }
  apply wp_bind. eapply wp_mono; [apply Hbody; [lia|done]|].
  intros [] s' Hs'. replace (i + Z.of_nat (S n)) with (i + 1 + Z.of_nat n) by lia.
  apply IH; [done|]. intros j s'' ??. apply Hbody; [lia|done].
Qed.

(** ** Lemmas on lists *)

(** Overwriting the slice [[k, k + length v)] of a list. *)
Definition splice {A} (k : nat) (v l : list A) : list A :=
  take k l ++ v ++ drop (k + length v) l.

Lemma length_splice {A} k (v l : list A) :
  (k + length v <= length l)%nat -> length (splice k v l) = length l.
Proof. intros. unfold splice. rewrite !length_app, length_take, length_drop. lia. Qed.

Lemma lookup_splice_in {A} k (v l : list A) i :
  (k + length v <= length l)%nat -> (i < length v)%nat ->
  splice k v l !! (k + i)%nat = v !! i.
Proof.
  intros. unfold splice.
  rewrite lookup_app_r by (rewrite length_take; lia).
  rewrite length_take, lookup_app_l by lia. f_equal. lia.
Qed.

Lemma lookup_splice_out {A} k (v l : list A) i :
  (k + length v <= length l)%nat -> (i < k \/ k + length v <= i)%nat ->
  splice k v l !! i = l !! i.
Proof.
  intros Hk Hi. unfold splice. destruct (decide (i < k)%nat) as [?|?].
  - rewrite lookup_app_l by (rewrite length_take; lia). apply lookup_take_lt. lia.
  - rewrite lookup_app_r by (rewrite length_take; lia).
    rewrite lookup_app_r by (rewrite length_take; lia).
    rewrite length_take, lookup_drop. f_equal. lia.
Qed.

Lemma splice_cons {A} k (x : A) v l :
  (k < length l)%nat -> splice k (x :: v) l = splice (S k) v (<[k := x]> l).
Proof.
  intros Hk. unfold splice. cbn [length].
  rewrite (take_S_r _ k x) by (by rewrite list_lookup_insert_eq).
  rewrite take_insert_ge, drop_insert_lt by lia. rewrite <- app_assoc. simpl.
  by rewrite Nat.add_succ_r.
Qed.

Lemma splice_nil {A} k (l : list A) : splice k [] l = l.
Proof. unfold splice. simpl. by rewrite Nat.add_0_r, take_drop. Qed.

Lemma splice_splice {A} k (v w l : list A) :
  length v = length w -> (k + length v <= length l)%nat ->
  splice k w (splice k v l) = splice k w l.
Proof.
  intros Hl Hk. apply list_eq. intros i.
  destruct (decide (k <= i < k + length w)%nat) as [Hi|Hi].
  - replace i with (k + (i - k))%nat by lia.
    rewrite !lookup_splice_in; rewrite ?length_splice; try lia; done.
  - rewrite !lookup_splice_out; rewrite ?length_splice; try lia; done.
Qed.

(** Overwriting a slice with what it holds changes nothing. *)
Lemma splice_same {A} k (v l : list A) :
  (k + length v <= length l)%nat ->
  (forall j, (j < length v)%nat -> l !! (k + j)%nat = v !! j) ->
  splice k v l = l.
Proof.
  intros Hk H. apply list_eq. intros i.
  destruct (decide (k <= i < k + length v)%nat) as [Hi|Hi].
  - replace i with (k + (i - k))%nat by lia. rewrite lookup_splice_in by lia.
    by rewrite H by lia.
  - by rewrite lookup_splice_out by lia.
Qed.
