(* ===== verification/Config.v ===== *)
(** * Kernel-wide constants

    [src/config.h] and [src/status.h] of the kernel: sizes, fixed addresses and
    error codes.  Functions return an error as the negated code. *)
From stdpp Require Import base numbers.
#[local] Open Scope Z_scope.

(** ** src/config.h *)

Definition KERNEL_CODE_SELECTOR : Z := 0x08.
Definition KERNEL_DATA_SELECTOR : Z := 0x10.
Definition KERNEL_HEAP_SIZE : Z := 104857600.
Definition HEAP_BLOCK_SIZE : Z := 4096.
Definition KERNEL_HEAP_ADDRESS : Z := 0x01000000.
Definition KERNEL_HEAP_TABLE_ADDR : Z := 0x00007E00.
Definition MAX_FILE_PATH_CHARS : Z := 128.
Definition MAX_FILESYSTEMS : Z := 12.
Definition MAX_OPEN_FILES : Z := 512.
Definition TOTAL_GDT_SEGMENTS : Z := 6.
Definition KERNEL_STACK_ADDR : Z := 0x600000.
Definition TASK_LOAD_VIRTUAL_ADDRESS : Z := 0x400000.
Definition TASK_STACK_SIZE : Z := 1024 * 16.
Definition TASK_STACK_VIRT_ADDR : Z := 0x3FF000.
Definition TASK_STACK_VIRT_ADDR_END : Z := TASK_STACK_VIRT_ADDR - TASK_STACK_SIZE.
Definition COMMAND_LINE_ARG_VIRTUAL_ADDR : Z := 0x02000000.
Definition USER_CODE_SEGMENT : Z := 0x1b.
Definition USER_DATA_SEGMENT : Z := 0x23.
Definition KERNEL_DATA_SEGMENT : Z := 0x10.
Definition PROCESS_MAX_ALLOCATIONS : Z := 1024.
Definition MAX_PROCESSES : Z := 12.
Definition MAX_ISR80H_COMMANDS : Z := 1024.
Definition KEYBOARD_BUFFER_SIZE : Z := 1024.
Definition MAX_CMMD_ARG_LEN : Z := 32.
Definition MAX_NUM_ARGS : Z := 5.

(** ** src/status.h *)

Definition STATUS_OK : Z := 0.
Definition EIO : Z := 1.
Definition EINVARG : Z := 2.
Definition ENOMEM : Z := 3.
Definition EBADPATH : Z := 4.
Definition EFSNOTUS : Z := 5.
Definition ERDONLY : Z := 6.
Definition EUNIMP : Z := 7.
Definition EISTAKEN : Z := 8.
Definition EIFORMAT : Z := 9.
