(* ===== verification/Memory.v ===== *)
(** * Byte-array primitives: [src/memory/memory.c]

    A pointer argument is the list of bytes readable (or writable) from it to
    the end of its object; an access past that end is a [Fault].  The bytes are
    unsigned, and a [char] is the signed reading [s8] of a byte, as the
    compiler for this target has it. *)
From stdpp Require Import base list numbers.
From S2P Require Import Prelude.
#[local] Open Scope Z_scope.

Module Memory.

(** ** Operations *)

Fixpoint memset_loop (n : nat) (i : nat) (c : Z) (s : list Z) : outcome (list Z) :=
  match n with
  | O => Ok s
  | S n' =>
      if decide (i < length s)%nat
      then memset_loop n' (S i) c (<[i := u8 c]> s)
      else Fault
  end.

Definition memset (s : list Z) (c : Z) (n : Z) : outcome (list Z) :=
  memset_loop (Z.to_nat n) 0 c s.

Fixpoint memcmp_loop (n : nat) (c1 c2 : list Z) : outcome Z :=
  match n with
  | O => Ok 0
  | S n' =>
      match c1, c2 with
      | b1 :: c1', b2 :: c2' =>
          if negb (s8 b1 =? s8 b2)
          then Ok (if s8 b1 <? s8 b2 then -1 else 1)
          else memcmp_loop n' c1' c2'
      | _, _ => Fault
      end
  end.

Definition memcmp (s1 s2 : list Z) (n : Z) : outcome Z :=
  memcmp_loop (Z.to_nat n) s1 s2.

(** The areas do not overlap: two objects. *)
Fixpoint memcpy_loop (n : nat) (d s : list Z) : outcome (list Z) :=
  match n with
  | O => Ok d
  | S n' =>
      match d, s with
      | _ :: d', b :: s' => r ← memcpy_loop n' d' s'; Ok (b :: r)
      | _, _ => Fault
      end
  end.

Definition memcpy (dest src : list Z) (n : Z) : outcome (list Z) :=
  memcpy_loop (Z.to_nat n) dest src.

(** ** Properties *)

Lemma memset_loop_spec n i c s :
  (i + n <= length s)%nat ->
  memset_loop n i c s = Ok (take i s ++ replicate n (u8 c) ++ drop (i + n) s).
Proof.
  revert i s. induction n as [|n IH]; intros i s H; simpl.
  { by rewrite Nat.add_0_r, take_drop. }
  destruct (decide _) as [Hi|]; [|lia].
  rewrite IH by (rewrite length_insert; lia). f_equal.
  rewrite (take_S_r _ i (u8 c)) by (by rewrite list_lookup_insert_eq).
  rewrite take_insert_ge, drop_insert_lt by lia.
  rewrite <- app_assoc. simpl. by rewrite Nat.add_succ_r.
Qed.

Lemma memset_ok s c n :
  0 <= n <= Z.of_nat (length s) ->
  memset s c n = Ok (replicate (Z.to_nat n) (u8 c) ++ drop (Z.to_nat n) s).
Proof. intros. unfold memset. rewrite memset_loop_spec by lia. done. Qed.

Lemma memcpy_ok dest src n :
  0 <= n <= Z.of_nat (length dest) -> n <= Z.of_nat (length src) ->
  memcpy dest src n = Ok (take (Z.to_nat n) src ++ drop (Z.to_nat n) dest).
Proof.
  unfold memcpy. intros [_ Hd] Hs.
  assert (Hd' : (Z.to_nat n <= length dest)%nat) by lia.
  assert (Hs' : (Z.to_nat n <= length src)%nat) by lia.
  clear Hd Hs. revert dest src Hd' Hs'.
  induction (Z.to_nat n) as [|k IH]; intros [|d dest] [|b src] ??; simpl in *;
    try lia; auto.
  rewrite IH by lia. done.
Qed.

(** The order [memcmp] decides: signed, byte by byte. *)
Fixpoint signed_lt (l1 l2 : list Z) : Prop :=
  match l1, l2 with
  | b1 :: t1, b2 :: t2 => s8 b1 < s8 b2 \/ s8 b1 = s8 b2 /\ signed_lt t1 t2
  | _, _ => False
  end.

Lemma memcmp_loop_spec n s1 s2 :
  (n <= length s1)%nat -> (n <= length s2)%nat ->
  Forall (fun b => 0 <= b < 256) s1 -> Forall (fun b => 0 <= b < 256) s2 ->
  exists r, memcmp_loop n s1 s2 = Ok r /\
    (r = 0 <-> take n s1 = take n s2) /\
    (r < 0 <-> signed_lt (take n s1) (take n s2)) /\
    (r > 0 <-> signed_lt (take n s2) (take n s1)).
Proof.
  revert s1 s2. induction n as [|n IH]; intros [|b1 s1] [|b2 s2] H1 H2 F1 F2;
    simpl in *; try lia; try (exists 0; split; [done|intuition lia]).
  inversion_clear F1 as [|?? Hb1 F1']. inversion_clear F2 as [|?? Hb2 F2'].
  destruct (Z.eqb_spec (s8 b1) (s8 b2)) as [E|E]; simpl.
  - destruct (IH s1 s2) as (r & -> & Hz & Hn & Hp); [lia|lia|done|done|].
    apply s8_inj in E; [subst|done|done].
    exists r. split; [done|]. rewrite Hz, Hn, Hp.
    repeat split; intros; try congruence; intuition (try congruence; try lia).
  - assert (b1 <> b2) by congruence.
    destruct (Z.ltb_spec (s8 b1) (s8 b2)); eexists; (split; [done|]);
      repeat split; intros; try congruence; try lia; intuition (try congruence; lia).
Qed.

(** [memcmp] returns 0 exactly on equal areas and otherwise orders them by the
    signed value of the first differing byte. *)
Lemma memcmp_spec s1 s2 n :
  0 <= n <= Z.of_nat (length s1) -> n <= Z.of_nat (length s2) ->
  Forall (fun b => 0 <= b < 256) s1 -> Forall (fun b => 0 <= b < 256) s2 ->
  exists r, memcmp s1 s2 n = Ok r /\
    (r = 0 <-> take (Z.to_nat n) s1 = take (Z.to_nat n) s2) /\
    (r < 0 <-> signed_lt (take (Z.to_nat n) s1) (take (Z.to_nat n) s2)) /\
    (r > 0 <-> signed_lt (take (Z.to_nat n) s2) (take (Z.to_nat n) s1)).
Proof. intros. apply memcmp_loop_spec; auto; lia. Qed.

End Memory.
