(* ===== verification/CString.v ===== *)
(** * C strings: [src/string/string.c]

    As in [Memory], a pointer is the list of bytes from it to the end of its
    object.  The loops walk that list; running off its end is a [Fault]. *)
From stdpp Require Import base list numbers.
From S2P Require Import Prelude Memory.
#[local] Open Scope Z_scope.

Module CString.

(** ** Operations *)

(** The argument and the result are [char] values. *)
Definition tolower (c1 : Z) : Z :=
  if (c1 >=? 65) && (c1 <=? 90) then s8 (c1 + 32) else c1.

Fixpoint strlen_loop (i : Z) (ptr : list Z) : outcome Z :=
  match ptr with
  | [] => Fault
  | b :: ptr' => if negb (b =? 0) then strlen_loop (i + 1) ptr' else Ok i
  end.

Definition strlen (ptr : list Z) : outcome Z := strlen_loop 0 ptr.

Fixpoint strnlen_loop (n : nat) (i : Z) (s : list Z) : outcome Z :=
  match n with
  | O => Ok i
  | S n' =>
      match s with
      | [] => Fault
      | b :: s' => if b =? 0 then Ok i else strnlen_loop n' (i + 1) s'
      end
  end.

Definition strnlen (s : list Z) (maxlen : Z) : outcome Z :=
  strnlen_loop (Z.to_nat maxlen) 0 s.

Fixpoint strnlen_terminator_loop (n : nat) (i : Z) (s : list Z) (terminator : Z)
    : outcome Z :=
  match n with
  | O => Ok i
  | S n' =>
      match s with
      | [] => Fault
      | b :: s' =>
          if (b =? 0) || (s8 b =? terminator) then Ok i
          else strnlen_terminator_loop n' (i + 1) s' terminator
      end
  end.

(** [terminator] is a [char]. *)
Definition strnlen_terminator (s : list Z) (maxlen terminator : Z) : outcome Z :=
  strnlen_terminator_loop (Z.to_nat maxlen) 0 s terminator.

Definition is_digit (c : Z) : bool := (c >? 47) && (c <? 58).

Definition ctoi (c : Z) : Z := if is_digit c then c - 48 else -1.

(** [*p = 0]. *)
Definition write_nul (dest : list Z) : outcome (list Z) :=
  match dest with [] => Fault | _ :: d => Ok (0 :: d) end.

Fixpoint strcpy (dest src : list Z) : outcome (list Z) :=
  match src with
  | [] => Fault
  | b :: src' =>
      if negb (b =? 0) then
        match dest with
        | [] => Fault
        | _ :: dest' => r ← strcpy dest' src'; Ok (b :: r)
        end
      else write_nul dest
  end.

Fixpoint strncmp_loop (n : nat) (s1 s2 : list Z) : outcome Z :=
  match n with
  | O => Ok 0
  | S n' =>
      match s1, s2 with
      | u1 :: s1', u2 :: s2' =>
          if negb (u1 =? u2) then Ok (u1 - u2)
          else if u1 =? 0 then Ok 0
          else strncmp_loop n' s1' s2'
      | _, _ => Fault
      end
  end.

Definition strncmp (s1 s2 : list Z) (n : Z) : outcome Z :=
  strncmp_loop (Z.to_nat n) s1 s2.

(** [tolower] takes a [char]: the [unsigned char] operand is converted. *)
Fixpoint strnicmp_loop (n : nat) (s1 s2 : list Z) : outcome Z :=
  match n with
  | O => Ok 0
  | S n' =>
      match s1, s2 with
      | u1 :: s1', u2 :: s2' =>
          if negb (u1 =? u2) && negb (tolower (s8 u1) =? tolower (s8 u2))
          then Ok (tolower (s8 u1) - tolower (s8 u2))
          else if u1 =? 0 then Ok 0
          else strnicmp_loop n' s1' s2'
      | _, _ => Fault
      end
  end.

Definition strnicmp (s1 s2 : list Z) (n : Z) : outcome Z :=
  strnicmp_loop (Z.to_nat n) s1 s2.

Fixpoint strncpy_loop (n : nat) (dest src : list Z) : outcome (list Z) :=
  match n with
  | O => write_nul dest
  | S n' =>
      match src with
      | [] => Fault
      | b :: src' =>
          if b =? 0 then write_nul dest
          else match dest with
               | [] => Fault
               | _ :: dest' => r ← strncpy_loop n' dest' src'; Ok (b :: r)
               end
      end
  end.

Definition strncpy (dest src : list Z) (n : Z) : outcome (list Z) :=
  strncpy_loop (Z.to_nat n) dest src.

(** ** C strings in a buffer *)

Definition nonzero (b : Z) : Prop := b <> 0.

(** The buffer holds the string [s] followed by its terminating null byte. *)
Definition cstring (buf s : list Z) : Prop :=
  Forall nonzero s /\ exists rest, buf = s ++ 0 :: rest.

(** ** Lengths *)

Lemma strlen_loop_spec s rest i :
  Forall nonzero s -> strlen_loop i (s ++ 0 :: rest) = Ok (i + Z.of_nat (length s)).
Proof.
  revert i. induction s as [|b s IH]; intros i Hs; simpl.
  { f_equal. lia. }
  inversion_clear Hs as [|?? Hb Hs']. unfold nonzero in Hb.
  destruct (Z.eqb_spec b 0) as [|_]; [done|]. simpl. rewrite IH by done. f_equal. lia.
Qed.

Lemma strlen_cstring buf s :
  cstring buf s -> strlen buf = Ok (Z.of_nat (length s)).
Proof. intros [Hs [rest ->]]. unfold strlen. by rewrite strlen_loop_spec. Qed.

Lemma strnlen_loop_spec s rest n i :
  Forall nonzero s ->
  strnlen_loop n i (s ++ 0 :: rest) = Ok (i + Z.of_nat (n `min` length s)).
Proof.
  revert n i. induction s as [|b s IH]; intros [|n] i Hs; simpl; try (f_equal; lia).
  inversion_clear Hs as [|?? Hb Hs']. unfold nonzero in Hb.
  destruct (Z.eqb_spec b 0) as [|_]; [done|]. rewrite IH by done. f_equal. lia.
Qed.

Lemma strnlen_cstring buf s n :
  cstring buf s -> 0 <= n ->
  strnlen buf n = Ok (Z.min n (Z.of_nat (length s))).
Proof.
  intros [Hs [rest ->]] Hn. unfold strnlen. rewrite strnlen_loop_spec by done.
  f_equal. lia.
Qed.

(** ** Copies *)

Lemma strcpy_cstring dest buf s :
  cstring buf s -> (length s < length dest)%nat ->
  strcpy dest buf = Ok (s ++ 0 :: drop (S (length s)) dest).
Proof.
  intros [Hs [rest ->]]. revert dest.
  induction Hs as [|b s Hb Hs IH]; intros [|d dest] Hl; simpl in *; try lia.
  - by rewrite drop_0.
  - unfold nonzero in Hb. destruct (Z.eqb_spec b 0) as [|_]; [done|]. simpl.
    rewrite IH by lia. done.
Qed.

(** [strncpy] stores the first [n] bytes of the string and then a null byte:
    [min n (strlen s) + 1] bytes of the destination. *)
Lemma strncpy_cstring dest buf s n :
  cstring buf s -> 0 <= n ->
  (Z.to_nat n `min` length s < length dest)%nat ->
  strncpy dest buf n =
    Ok (take (Z.to_nat n) s ++ 0 :: drop (S (Z.to_nat n `min` length s)) dest).
Proof.
  intros [Hs [rest ->]] _. unfold strncpy. revert dest.
  generalize (Z.to_nat n) as k. intros k. revert k.
  induction Hs as [|b s Hb Hs IH]; intros [|k] [|d dest] Hl; simpl in *; try lia;
    rewrite ?drop_0; try done.
  unfold nonzero in Hb. destruct (Z.eqb_spec b 0) as [|_]; [done|].
  rewrite IH by lia. done.
Qed.

(** A destination of exactly [n] bytes does not hold a string of [n] or more
    characters: the terminating store is outside it. *)
Lemma strncpy_full_faults dest buf s n :
  cstring buf s -> 0 <= n ->
  length dest = Z.to_nat n -> (Z.to_nat n <= length s)%nat ->
  strncpy dest buf n = Fault.
Proof.
  intros [Hs [rest ->]] _. unfold strncpy. generalize (Z.to_nat n) as k.
  revert dest. induction Hs as [|b s Hb Hs IH]; intros [|d dest] [|k] Hd Hk;
    simpl in *; try lia; try done.
  unfold nonzero in Hb. destruct (Z.eqb_spec b 0) as [|_]; [done|].
  rewrite (IH dest k) by lia. done.
Qed.

(** ** Comparisons *)

(** Lexicographic order on strings of unsigned bytes. *)
Fixpoint lex_lt (l1 l2 : list Z) : Prop :=
  match l1, l2 with
  | _, [] => False
  | [], _ :: _ => True
  | b1 :: t1, b2 :: t2 => b1 < b2 \/ b1 = b2 /\ lex_lt t1 t2
  end.

(** A character of a string: an unsigned byte other than the terminator. *)
Definition char_byte (b : Z) : Prop := 0 < b < 256.

Lemma char_byte_nonzero s : Forall char_byte s -> Forall nonzero s.
Proof. apply Forall_impl. unfold char_byte, nonzero. lia. Qed.

Lemma strncmp_loop_spec n s1 s2 r1 r2 :
  Forall char_byte s1 -> Forall char_byte s2 ->
  exists r, strncmp_loop n (s1 ++ 0 :: r1) (s2 ++ 0 :: r2) = Ok r /\
    (r = 0 <-> take n s1 = take n s2) /\ (r < 0 <-> lex_lt (take n s1) (take n s2)).
Proof.
  intros F1. revert n s2. induction F1 as [|u1 s1 H1 F1 IH];
    intros [|n] [|u2 s2] F2; simpl;
    try (exists 0; split; [done|]; simpl; intuition (congruence || lia));
    try (inversion_clear F2 as [|?? H2 F2']); unfold char_byte in *.
  - destruct (Z.eqb_spec 0 u2); [lia|]; simpl.
    eexists; split; [done|]; intuition (congruence || lia).
  - destruct (Z.eqb_spec u1 0); [lia|]; simpl.
    eexists; split; [done|]; intuition (congruence || lia).
  - destruct (Z.eqb_spec u1 u2) as [->|]; simpl.
    + destruct (Z.eqb_spec u2 0); [lia|].
      destruct (IH n s2 F2') as (r & -> & Hz & Hn). exists r. split; [done|].
      rewrite Hz, Hn. split; [|intuition lia]. split; congruence.
    + eexists; split; [done|]. split; [split; intros; [lia|congruence]|intuition lia].
Qed.

(** [strncmp] is 0 exactly when the first [n] characters agree, and otherwise
    has the sign of the unsigned lexicographic order. *)
Lemma strncmp_cstring b1 b2 s1 s2 n :
  cstring b1 s1 -> cstring b2 s2 -> Forall char_byte s1 -> Forall char_byte s2 ->
  exists r, strncmp b1 b2 n = Ok r /\
    (r = 0 <-> take (Z.to_nat n) s1 = take (Z.to_nat n) s2) /\
    (r < 0 <-> lex_lt (take (Z.to_nat n) s1) (take (Z.to_nat n) s2)).
Proof.
  intros [_ [? ->]] [_ [? ->]] ??. unfold strncmp. by apply strncmp_loop_spec.
Qed.

(** The lower-case reading [strnicmp] compares. *)
Definition lower (b : Z) : Z := tolower (s8 b).

Lemma lower_zero : lower 0 = 0.
Proof. done. Qed.

Lemma lower_nonzero b : char_byte b -> lower b <> 0.
Proof.
  unfold char_byte, lower, tolower, s8. intros.
  destruct (_ && _) eqn:E; [|zlia].
  apply andb_true_iff in E as [E1 E2]. zlia.
Qed.

Lemma strnicmp_loop_spec n s1 s2 r1 r2 :
  Forall char_byte s1 -> Forall char_byte s2 ->
  exists r, strnicmp_loop n (s1 ++ 0 :: r1) (s2 ++ 0 :: r2) = Ok r /\
    (r = 0 <-> lower <$> take n s1 = lower <$> take n s2).
Proof.
  intros F1. revert n s2. induction F1 as [|u1 s1 H1 F1 IH];
    intros [|n] [|u2 s2] F2; simpl;
    try (exists 0; split; [done|]; simpl; intuition (congruence || lia));
    try (inversion_clear F2 as [|?? H2 F2']);
    try pose proof (lower_nonzero _ H1) as L1; try pose proof (lower_nonzero _ H2) as L2;
    unfold char_byte in *; fold (lower 0); try fold (lower u1); try fold (lower u2).
  - destruct (Z.eqb_spec 0 u2); [lia|]; simpl. rewrite lower_zero.
    destruct (Z.eqb_spec 0 (lower u2)); [lia|]; simpl.
    eexists; split; [done|]; intuition (congruence || lia).
  - destruct (Z.eqb_spec u1 0); [lia|]; simpl. rewrite lower_zero.
    destruct (Z.eqb_spec (lower u1) 0); [lia|]; simpl.
    eexists; split; [done|]; intuition (congruence || lia).
  - destruct (negb (u1 =? u2) && negb (lower u1 =? lower u2)) eqn:E.
    + apply andb_true_iff in E as [_ E]. destruct (Z.eqb_spec (lower u1) (lower u2)); [done|].
      eexists; split; [done|]. split; intros; [lia|congruence].
    + assert (lower u1 = lower u2) as ->.
      { destruct (Z.eqb_spec u1 u2) as [->|]; [done|]. simpl in E.
        by destruct (Z.eqb_spec (lower u1) (lower u2)). }
      destruct (Z.eqb_spec u1 0); [lia|].
      destruct (IH n s2 F2') as (r & -> & Hz). exists r. split; [done|].
      rewrite Hz. unfold fmap. split; [by intros ->|by intros [= ?]].
Qed.

(** [strnicmp] is 0 exactly when the first [n] characters agree up to case. *)
Lemma strnicmp_cstring b1 b2 s1 s2 n :
  cstring b1 s1 -> cstring b2 s2 -> Forall char_byte s1 -> Forall char_byte s2 ->
  exists r, strnicmp b1 b2 n = Ok r /\
    (r = 0 <-> lower <$> take (Z.to_nat n) s1 = lower <$> take (Z.to_nat n) s2).
Proof.
  intros [_ [? ->]] [_ [? ->]] ??. unfold strnicmp. by apply strnicmp_loop_spec.
Qed.

End CString.
