(* ===== verification/Heap.v ===== *)
(** * The block heap: [src/memory/heap/heap.c]

    A heap is a table with one byte per 4096-byte block.  The low nibble of an
    entry is its type (free or taken), bit 6 marks the first block of an
    allocation and bit 7 says that the next block belongs to it too
    ([src/memory/heap/README.md]).  The operations are those of the C file; a
    store or load outside the table is a [Fault]. *)
From stdpp Require Import base gmap list numbers.
From S2P Require Import Prelude Config Memory.
#[local] Open Scope Z_scope.

Module Heap.

(** ** Data *)

Definition HEAP_BLOCK_TABLE_ENTRY_FREE : Z := 0x00.
Definition HEAP_BLOCK_TABLE_ENTRY_TAKEN : Z := 0x01.
Definition HEAP_BLOCK_IS_FIRST : Z := 0x40.
Definition HEAP_BLOCK_HAS_NEXT : Z := 0x80.

Record heap_entry_table := HeapTable {
  entries : list Z;          (* hbte_t *entries: the object it points to *)
  total_entries : Z
}.

Record heap_desc := HeapDesc {
  table : heap_entry_table;
  start_addr : Z
}.

Definition set_entries (h : heap_desc) (es : list Z) : heap_desc :=
  HeapDesc (HeapTable es (total_entries (table h))) (start_addr h).

(** ** Operations *)

Definition heap_valid_alignment (ptr : Z) : bool := ptr mod HEAP_BLOCK_SIZE =? 0.

Definition heap_valid_table (heap_start_addr end_addr : Z) (t : heap_entry_table) : bool :=
  let heap_size := u32 (end_addr - heap_start_addr) in
  let heap_total_blocks := heap_size / HEAP_BLOCK_SIZE in
  if negb (heap_total_blocks =? total_entries t) then false else true.

(** Returns the error code and the heap descriptor after the call. *)
Definition heap_create (heap : heap_desc) (start end_addr : Z) (t : heap_entry_table)
    : outcome (Z * heap_desc) :=
  if negb (heap_valid_alignment start && heap_valid_alignment end_addr)
  then Ok (- EINVARG, heap)
  else
    let heap := HeapDesc t start in
    if negb (heap_valid_table start end_addr t)
    then Ok (- EINVARG, heap)
    else
      es ← Memory.memset (entries t) HEAP_BLOCK_TABLE_ENTRY_FREE (total_entries t);
      Ok (0, set_entries heap es).

Definition align_upper_block_boundary (val : Z) : Z :=
  if val mod HEAP_BLOCK_SIZE =? 0 then val
  else u32 (val - val mod HEAP_BLOCK_SIZE + HEAP_BLOCK_SIZE).

Definition heap_get_entry_type (entry : Z) : Z := Z.land entry 0x0f.

(** The scan of [heap_get_start_block_index]: [n] entries left, [es] the table
    from index [i] on, [bs] and [bc] the locals; yields the final [bs]. *)
Fixpoint start_block_loop (n : nat) (es : list Z) (i bs bc total_blocks : Z) : outcome Z :=
  match n with
  | O => Ok bs
  | S n' =>
      match es with
      | [] => Fault
      | e :: es' =>
          if negb (heap_get_entry_type e =? HEAP_BLOCK_TABLE_ENTRY_FREE)
          then start_block_loop n' es' (i + 1) (-1) 0 total_blocks
          else
            let bs := if bs =? -1 then s32 i else bs in
            let bc := bc + 1 in
            if u32 bc =? total_blocks then Ok bs
            else start_block_loop n' es' (i + 1) bs bc total_blocks
      end
  end.

Definition heap_get_start_block_index (heap : heap_desc) (total_blocks : Z) : outcome Z :=
  bs ← start_block_loop (Z.to_nat (total_entries (table heap)))
         (entries (table heap)) 0 (-1) 0 total_blocks;
  Ok (if bs =? -1 then - ENOMEM else bs).

Definition heap_block_to_address (heap : heap_desc) (block_index : Z) : Z :=
  u32 (start_addr heap + u32 (block_index * HEAP_BLOCK_SIZE)).

(** Pointer difference and division of [int]s: the quotient truncates. *)
Definition heap_address_to_block (heap : heap_desc) (addr : Z) : Z :=
  s32 (addr - start_addr heap) `quot` HEAP_BLOCK_SIZE.

(** [entries[i] = e]. *)
Definition write_entry (es : list Z) (i e : Z) : outcome (list Z) :=
  if (0 <=? i) && (i <? Z.of_nat (length es)) then Ok (<[Z.to_nat i := e]> es)
  else Fault.

(** [entries[i]]. *)
Definition read_entry (es : list Z) (i : Z) : outcome Z :=
  if 0 <=? i then of_option (es !! Z.to_nat i) else Fault.

Fixpoint mark_taken_loop (n : nat) (i end_block_index entry : Z) (es : list Z)
    : outcome (list Z) :=
  match n with
  | O => Ok es
  | S n' =>
      es' ← write_entry es i entry;
      let entry := HEAP_BLOCK_TABLE_ENTRY_TAKEN in
      let entry := if negb (i =? end_block_index - 1)
                   then Z.lor entry HEAP_BLOCK_HAS_NEXT else entry in
      mark_taken_loop n' (i + 1) end_block_index entry es'
  end.

Definition heap_mark_blocks_taken (heap : heap_desc) (start_block_index total_blocks : Z)
    : outcome (Z * heap_desc) :=
  let end_block_index := s32 (start_block_index + total_blocks - 1) in
  let entry := Z.lor HEAP_BLOCK_TABLE_ENTRY_TAKEN HEAP_BLOCK_IS_FIRST in
  let entry := if total_blocks >? 1 then Z.lor entry HEAP_BLOCK_HAS_NEXT else entry in
  es ← mark_taken_loop (Z.to_nat (end_block_index - start_block_index + 1))
         start_block_index end_block_index entry (entries (table heap));
  Ok (0, set_entries heap es).

Fixpoint mark_free_loop (n : nat) (i : Z) (es : list Z) : outcome (list Z) :=
  match n with
  | O => Ok es
  | S n' =>
      entry ← read_entry es i;
      es' ← write_entry es i HEAP_BLOCK_TABLE_ENTRY_FREE;
      if Z.land entry HEAP_BLOCK_HAS_NEXT =? 0 then Ok es'
      else mark_free_loop n' (i + 1) es'
  end.

Definition heap_mark_blocks_free (heap : heap_desc) (start_block_index : Z)
    : outcome (Z * heap_desc) :=
  es ← mark_free_loop (Z.to_nat (s32 (total_entries (table heap)) - start_block_index))
         start_block_index (entries (table heap));
  Ok (0, set_entries heap es).

(** The result 0 is the null pointer. *)
Definition heap_malloc_blocks (heap : heap_desc) (total_blocks : Z)
    : outcome (Z * heap_desc) :=
  start_block ← heap_get_start_block_index heap total_blocks;
  if start_block <? 0 then Ok (0, heap)
  else
    let addr := heap_block_to_address heap start_block in
    '(_, heap') ← heap_mark_blocks_taken heap start_block total_blocks;
    Ok (addr, heap').

Definition heap_malloc (heap : heap_desc) (size : Z) : outcome (Z * heap_desc) :=
  let aligned_size := align_upper_block_boundary size in
  let total_blocks := aligned_size / HEAP_BLOCK_SIZE in
  heap_malloc_blocks heap total_blocks.

Definition heap_free (heap : heap_desc) (ptr : Z) : outcome (Z * heap_desc) :=
  '(_, heap') ← heap_mark_blocks_free heap (heap_address_to_block heap ptr);
  Ok (0, heap').

(** ** What the table says: free runs and allocation chains *)

Definition is_free (e : Z) : bool := heap_get_entry_type e =? HEAP_BLOCK_TABLE_ENTRY_FREE.

(** Entries [k .. k+n-1] exist and are free. *)
Definition free_run (es : list Z) (k n : nat) : Prop :=
  forall j, (k <= j < k + n)%nat -> exists e, es !! j = Some e /\ is_free e = true.

(** First fit: the lowest index where [n] free blocks start. *)
Definition first_fit (es : list Z) (n k : nat) : Prop :=
  free_run es k n /\ forall k', (k' < k)%nat -> ~ free_run es k' n.

Definition no_fit (es : list Z) (n : nat) : Prop := forall k, ~ free_run es k n.

(** The number of free entries at the end of the table. *)
Fixpoint leading_free (l : list Z) : nat :=
  match l with
  | e :: l' => if is_free e then S (leading_free l') else O
  | [] => O
  end.
Definition trailing_free (es : list Z) : nat := leading_free (reverse es).

(** The entries of an allocation of [n] blocks: first, middle..., last. *)
Fixpoint chain_tail (m : nat) : list Z :=
  match m with
  | O => []
  | S O => [0x01]
  | S m' => 0x81 :: chain_tail m'
  end.
Definition chain (n : nat) : list Z :=
  match n with
  | O => []
  | S O => [0x41]
  | S m => 0xC1 :: chain_tail m
  end.

(** The allocation of [n] blocks that starts at block [k]. *)
Definition chain_at (es : list Z) (k n : nat) : Prop :=
  forall j, (j < n)%nat -> es !! (k + j)%nat = chain n !! j.

Lemma length_chain_tail m : length (chain_tail m) = m.
Proof. induction m as [|[|m] IH]; simpl in *; lia. Qed.

Lemma length_chain n : length (chain n) = n.
Proof. destruct n as [|[|n]]; try done. cbn [chain length]. by rewrite length_chain_tail. Qed.

(** ** The scan *)

Lemma trailing_free_snoc es e :
  trailing_free (es ++ [e]) = if is_free e then S (trailing_free es) else O.
Proof. unfold trailing_free. by rewrite reverse_snoc. Qed.

Lemma trailing_free_le es : (trailing_free es <= length es)%nat.
Proof.
  induction es as [|e es IH] using rev_ind; [done|].
  rewrite trailing_free_snoc, length_app. destruct (is_free e); simpl; lia.
Qed.

Lemma free_run_app_l es es' k n :
  free_run es k n -> free_run (es ++ es') k n.
Proof.
  intros H j Hj. destruct (H j Hj) as (e & He & Hf). exists e.
  by rewrite (lookup_app_l_Some _ _ _ _ He).
Qed.

Lemma free_run_app_l_inv es es' k n :
  (k + n <= length es)%nat -> free_run (es ++ es') k n -> free_run es k n.
Proof.
  intros Hl H j Hj. destruct (H j Hj) as (e & He & Hf). exists e.
  by rewrite lookup_app_l in He by lia.
Qed.

Lemma free_run_bound es k n : (0 < n)%nat -> free_run es k n -> (k + n <= length es)%nat.
Proof.
  intros Hn H. destruct (H (k + n - 1)%nat) as (e & He & _); [lia|].
  apply lookup_lt_Some in He. lia.
Qed.

(** A free run that reaches the end of the table is part of the trailing one. *)
Lemma trailing_free_run es t :
  (t <= length es)%nat -> (free_run es (length es - t) t <-> (t <= trailing_free es)%nat).
Proof.
  revert t. induction es as [|e es IH] using rev_ind; intros t Ht.
  { simpl in Ht. assert (t = 0%nat) as -> by lia. split; [lia|]. intros _ j Hj. lia. }
  rewrite length_app in *. simpl in Ht. rewrite trailing_free_snoc.
  destruct t as [|t]; [split; [lia|intros _ j Hj; lia]|].
  replace (length es + length [e] - S t)%nat with (length es - t)%nat by (simpl; lia).
  assert (Hlast : (es ++ [e]) !! length es = Some e) by (by rewrite list_lookup_middle).
  split.
  - intros H. destruct (H (length es)) as (e' & He' & Hf); [lia|].
    assert (e' = e) as -> by congruence. rewrite Hf.
    apply le_n_S, IH; [lia|]. apply (free_run_app_l_inv _ [e]); [lia|].
    intros j' Hj'. apply H. lia.
  - intros H j Hj. destruct (is_free e) eqn:Hf; [|lia].
    destruct (decide (j = length es)) as [->|]; [by eauto|].
    destruct (proj2 (IH t ltac:(lia)) ltac:(lia) j) as (e' & He' & Hf'); [lia|].
    exists e'. by rewrite (lookup_app_l_Some _ _ _ _ He').
Qed.

Lemma no_fit_snoc es e n :
  no_fit es n -> (trailing_free (es ++ [e]) < n)%nat -> no_fit (es ++ [e]) n.
Proof.
  intros Hno Ht k Hk. assert (Hn : (0 < n)%nat) by lia.
  pose proof (free_run_bound _ _ _ Hn Hk) as Hb. rewrite length_app in Hb. simpl in Hb.
  destruct (decide (k + n <= length es)%nat) as [Hin|Hout].
  - apply (Hno k). by eapply free_run_app_l_inv.
  - apply (Nat.lt_irrefl n). eapply Nat.le_lt_trans; [|exact Ht].
    apply trailing_free_run; rewrite length_app; simpl; [lia|].
    by replace (length es + 1 - n)%nat with k by lia.
Qed.

(** The loop, started after the prefix [pre] with the locals that describe it. *)
Lemma start_block_loop_spec suf pre n :
  (0 < n)%nat -> Z.of_nat (length (pre ++ suf)) < 2147483648 -> Z.of_nat n < 4294967296 ->
  no_fit pre n -> (trailing_free pre < n)%nat ->
  let t := trailing_free pre in
  let bs := if decide (t = 0%nat) then -1 else Z.of_nat (length pre - t) in
  exists r, start_block_loop (length suf) suf (Z.of_nat (length pre)) bs (Z.of_nat t)
              (Z.of_nat n) = Ok r /\
    ((exists k, r = Z.of_nat k /\ first_fit (pre ++ suf) n k) \/
     (no_fit (pre ++ suf) n /\
      r = if decide (trailing_free (pre ++ suf) = 0%nat) then -1
          else Z.of_nat (length (pre ++ suf) - trailing_free (pre ++ suf)))).
Proof.
  intros Hn. revert pre. induction suf as [|e suf IH]; intros pre Hlen Hn32 Hno Ht t bs.
  { exists bs. rewrite app_nil_r. split; [done|]. by right. }
  pose proof (trailing_free_le pre) as Htl.
  replace (pre ++ e :: suf) with ((pre ++ [e]) ++ suf) in * by (by rewrite <- app_assoc).
  assert (Hlp : Z.of_nat (length pre) + 1 = Z.of_nat (length (pre ++ [e])))
    by (rewrite length_app; simpl; lia).
  rewrite length_app in Hlen. rewrite length_app in Hlen. simpl in Hlen.
  specialize (IH (pre ++ [e])). cbn zeta in IH.
  cbn [length start_block_loop].
  change (heap_get_entry_type e =? HEAP_BLOCK_TABLE_ENTRY_FREE) with (is_free e).
  pose proof (trailing_free_snoc pre e) as Hts.
  destruct (is_free e) eqn:Hf; simpl negb; cbv iota.
  - destruct (decide (S t = n)) as [Heq|Hne].
    + exists (Z.of_nat (length pre - t)). split.
      * rewrite u32_small by lia. destruct (Z.eqb_spec (Z.of_nat t + 1) (Z.of_nat n)); [|lia].
        f_equal. unfold bs. destruct (decide (t = 0%nat)) as [->|].
        -- rewrite Z.eqb_refl, s32_small by lia. f_equal. lia.
        -- destruct (Z.eqb_spec (Z.of_nat (length pre - t)) (-1)); [lia|done].
      * left. eexists. split; [done|].
        assert (Hrun : free_run (pre ++ [e]) (length pre - t) n).
        { replace (length pre - t)%nat with (length (pre ++ [e]) - n)%nat
            by (rewrite length_app; simpl; lia).
          apply trailing_free_run; [rewrite length_app; simpl; lia|]. rewrite Hts. lia. }
        split; [by apply free_run_app_l|]. intros k' Hk' Hr. apply (Hno k').
        eapply free_run_app_l_inv; [|rewrite <- app_assoc in Hr; exact Hr]. lia.
    + destruct IH as (r & Hr & Hspec).
      { rewrite length_app. lia. } { done. }
      { apply no_fit_snoc; [done|]. rewrite Hts. lia. }
      { rewrite Hts. lia. }
      rewrite Hts in Hr. exists r. split; [|done].
      rewrite u32_small by lia.
      destruct (Z.eqb_spec (Z.of_nat t + 1) (Z.of_nat n)); [lia|].
      rewrite <- Hr. f_equal; [lia| |lia].
      unfold bs. destruct (decide (t = 0%nat)) as [Ht0|Ht0].
      * rewrite Z.eqb_refl, s32_small by lia.
        destruct (decide _); [lia|]. lia.
      * destruct (Z.eqb_spec (Z.of_nat (length pre - t)) (-1)); [lia|].
        destruct (decide _); [lia|]. lia.
  - destruct IH as (r & Hr & Hspec).
    { rewrite length_app. lia. } { done. }
    { apply no_fit_snoc; [done|]. rewrite Hts. lia. }
    { rewrite Hts. lia. }
    rewrite Hts in Hr. exists r. split; [|done].
    rewrite <- Hr. f_equal; lia.
Qed.

(** A heap whose table is as long as it says, small enough for [int] indices. *)
Definition heap_ok (h : heap_desc) : Prop :=
  Z.of_nat (length (entries (table h))) = total_entries (table h) /\
  total_entries (table h) <= 262144 /\
  0 < start_addr h /\ start_addr h mod HEAP_BLOCK_SIZE = 0 /\
  start_addr h + total_entries (table h) * HEAP_BLOCK_SIZE <= 4294967296.

(** The index the scan returns: first fit when a fit exists, and otherwise the
    start of the free run at the end of the table, if there is one. *)
Lemma heap_get_start_block_index_spec h n :
  heap_ok h -> (0 < n)%nat -> Z.of_nat n < 4294967296 ->
  let es := entries (table h) in
  exists r, heap_get_start_block_index h (Z.of_nat n) = Ok r /\
    ((exists k, r = Z.of_nat k /\ first_fit es n k) \/
     (no_fit es n /\
      r = if decide (trailing_free es = 0%nat) then - ENOMEM
          else Z.of_nat (length es - trailing_free es))).
Proof.
  intros (Hlen & Hmax & _) Hn Hn32. cbn zeta. unfold heap_get_start_block_index.
  set (es := entries (table h)) in *.
  destruct (start_block_loop_spec es [] n) as (r & Hr & Hspec);
    [done|simpl; lia|done| |done|].
  { intros k Hk. apply free_run_bound in Hk; simpl in Hk; lia. }
  change (trailing_free []) with 0%nat in Hr. simpl in Hr. rewrite <- Hlen, Nat2Z.id.
  change (Z.of_nat 0) with 0 in Hr. rewrite Hr. simpl. eexists. split; [done|].
  destruct Hspec as [(k & -> & Hk)|[Hno ->]].
  - left. exists k. destruct (Z.eqb_spec (Z.of_nat k) (-1)); [lia|]. done.
  - right. split; [done|]. simpl. destruct (decide _); [done|].
    destruct (Z.eqb_spec (Z.of_nat (length es - trailing_free es)) (-1)); [lia|done].
Qed.

(** A request for no block never matches the count: the scan runs to the end of
    the table and yields the free run there, if there is one. *)
Lemma start_block_loop_zero suf pre :
  Z.of_nat (length (pre ++ suf)) < 2147483648 ->
  let bs := fun l : list Z => if decide (trailing_free l = 0%nat) then -1
                              else Z.of_nat (length l - trailing_free l) in
  start_block_loop (length suf) suf (Z.of_nat (length pre)) (bs pre)
    (Z.of_nat (trailing_free pre)) 0 = Ok (bs (pre ++ suf)).
Proof.
  cbn zeta. revert pre. induction suf as [|e suf IH]; intros pre Hlen.
  { by rewrite app_nil_r. }
  pose proof (trailing_free_le pre) as Htl. pose proof (trailing_free_snoc pre e) as Hts.
  replace (pre ++ e :: suf) with ((pre ++ [e]) ++ suf) in * by (by rewrite <- app_assoc).
  rewrite <- (IH (pre ++ [e]) Hlen). rewrite Hts. rewrite !length_app in *. simpl in Hlen.
  cbn [length start_block_loop].
  change (heap_get_entry_type e =? HEAP_BLOCK_TABLE_ENTRY_FREE) with (is_free e).
  destruct (is_free e); simpl negb; cbv iota; [|f_equal; lia].
  rewrite u32_small by lia.
  destruct (Z.eqb_spec (Z.of_nat (trailing_free pre) + 1) 0); [lia|].
  f_equal; [lia| |lia]. destruct (decide (trailing_free pre = 0%nat)) as [Ht|Ht].
  - rewrite Z.eqb_refl, s32_small by lia. destruct (decide _); lia.
  - destruct (Z.eqb_spec (Z.of_nat (length pre - trailing_free pre)) (-1)); [lia|].
    destruct (decide _); lia.
Qed.

(** ** Marking *)

Lemma write_entry_ok es (i : nat) e :
  (i < length es)%nat -> write_entry es (Z.of_nat i) e = Ok (<[i := e]> es).
Proof.
  intros. unfold write_entry.
  destruct (Z.leb_spec 0 (Z.of_nat i)); [|lia].
  destruct (Z.ltb_spec (Z.of_nat i) (Z.of_nat (length es))); [|lia].
  simpl. by rewrite Nat2Z.id.
Qed.

Lemma write_entry_oob es i e :
  Z.of_nat (length es) <= i -> write_entry es i e = Fault.
Proof.
  intros. unfold write_entry. destruct (Z.ltb_spec i (Z.of_nat (length es))); [lia|].
  by rewrite andb_false_r.
Qed.

(** The loop stores [entry] and then the rest of the chain. *)
Lemma mark_taken_loop_spec m i entry es :
  (i + S m <= length es)%nat ->
  mark_taken_loop (S m) (Z.of_nat i) (Z.of_nat (i + m)) entry es =
    Ok (splice i (entry :: chain_tail m) es).
Proof.
  revert i entry es. induction m as [|m IH]; intros i entry es Hl.
  { cbn [mark_taken_loop]. rewrite write_entry_ok by lia. simpl.
    by rewrite splice_cons, splice_nil by lia. }
  cbn [mark_taken_loop]. rewrite write_entry_ok by lia. cbn [mbind outcome_bind].
  replace (Z.of_nat i + 1) with (Z.of_nat (S i)) by lia.
  replace (Z.of_nat (i + S m)) with (Z.of_nat (S i + m)) by lia.
  rewrite splice_cons by lia.
  destruct m as [|m].
  - destruct (Z.eqb_spec (Z.of_nat i) (Z.of_nat (S i + 0) - 1)); [|lia].
    change (negb true) with false. cbv iota.
    etransitivity; [apply IH; rewrite length_insert; lia|]. done.
  - destruct (Z.eqb_spec (Z.of_nat i) (Z.of_nat (S i + S m) - 1)); [lia|].
    change (negb false) with true. cbv iota.
    etransitivity; [apply IH; rewrite length_insert; lia|]. done.
Qed.

(** A loop that would run past the end of the table faults. *)
Lemma mark_taken_loop_oob n i e entry es :
  (i <= length es)%nat -> (length es < i + n)%nat ->
  mark_taken_loop n (Z.of_nat i) e entry es = Fault.
Proof.
  revert i entry es. induction n as [|n IH]; intros i entry es Hi Hl; [lia|].
  cbn [mark_taken_loop]. destruct (decide (i < length es)%nat) as [Hlt|].
  - rewrite write_entry_ok by done. cbn [mbind outcome_bind].
    replace (Z.of_nat i + 1) with (Z.of_nat (S i)) by lia.
    apply IH; rewrite length_insert; lia.
  - by rewrite write_entry_oob by lia.
Qed.

Lemma heap_mark_blocks_taken_spec h (k n : nat) :
  heap_ok h -> (0 < n)%nat -> (k + n <= length (entries (table h)))%nat ->
  heap_mark_blocks_taken h (Z.of_nat k) (Z.of_nat n) =
    Ok (0, set_entries h (splice k (chain n) (entries (table h)))).
Proof.
  intros (Hlen & Hmax & _) Hn Hk. unfold heap_mark_blocks_taken.
  destruct n as [|m]; [lia|].
  rewrite s32_small by lia.
  replace (Z.of_nat k + Z.of_nat (S m) - 1) with (Z.of_nat (k + m)) by lia.
  replace (Z.to_nat (Z.of_nat (k + m) - Z.of_nat k + 1)) with (S m) by lia.
  rewrite mark_taken_loop_spec by lia. simpl. do 4 f_equal.
  destruct m as [|m]; [done|].
  rewrite Z.gtb_ltb. destruct (Z.ltb_spec 1 (Z.of_nat (S (S m)))); [done|lia].
Qed.

Lemma heap_mark_blocks_taken_oob h (k n : nat) :
  heap_ok h -> Z.of_nat n < 1048576 -> (k <= length (entries (table h)))%nat ->
  (length (entries (table h)) < k + n)%nat ->
  heap_mark_blocks_taken h (Z.of_nat k) (Z.of_nat n) = Fault.
Proof.
  intros (Hlen & Hmax & _) Hn Hk Hout. unfold heap_mark_blocks_taken.
  rewrite s32_small by lia.
  rewrite mark_taken_loop_oob; [done|done|]. lia.
Qed.

(** ** Allocation *)

(** The number of blocks that hold [size] bytes. *)
Definition blocks_for (size : Z) : nat := Z.to_nat ((size + 4095) / 4096).

Lemma align_upper_block_boundary_spec val :
  0 <= val <= 4294963200 ->
  align_upper_block_boundary val = HEAP_BLOCK_SIZE * Z.of_nat (blocks_for val).
Proof.
  intros Hv. unfold align_upper_block_boundary, blocks_for, HEAP_BLOCK_SIZE.
  destruct (Z.eqb_spec (val mod 4096) 0); [zlia|].
  rewrite u32_small by zlia. zlia.
Qed.

Lemma blocks_for_pos size : 0 < size -> (0 < blocks_for size)%nat.
Proof. unfold blocks_for. zlia. Qed.

Lemma heap_malloc_blocks_for h size :
  0 < size <= 4294963200 ->
  heap_malloc h size = heap_malloc_blocks h (Z.of_nat (blocks_for size)).
Proof.
  intros. unfold heap_malloc. rewrite align_upper_block_boundary_spec by lia.
  f_equal. unfold HEAP_BLOCK_SIZE. zlia.
Qed.

(** The address of block [k]. *)
Definition block_addr (h : heap_desc) (k : nat) : Z :=
  start_addr h + Z.of_nat k * HEAP_BLOCK_SIZE.

Lemma heap_block_to_address_spec h (k : nat) :
  heap_ok h -> (k < length (entries (table h)))%nat ->
  heap_block_to_address h (Z.of_nat k) = block_addr h k.
Proof.
  intros (Hlen & Hmax & H0 & _ & Hend) Hk.
  unfold heap_block_to_address, block_addr, HEAP_BLOCK_SIZE in *.
  rewrite (u32_small (_ * _)) by lia. apply u32_small. lia.
Qed.

Lemma heap_address_to_block_spec h (k : nat) :
  heap_ok h -> (k < length (entries (table h)))%nat ->
  heap_address_to_block h (block_addr h k) = Z.of_nat k.
Proof.
  intros (Hlen & Hmax & _) Hk. unfold heap_address_to_block, block_addr, HEAP_BLOCK_SIZE.
  rewrite s32_small by lia.
  replace (start_addr h + Z.of_nat k * 4096 - start_addr h) with (Z.of_nat k * 4096) by lia.
  apply Z.quot_mul. lia.
Qed.

(** The three ways an allocation of [n > 0] blocks can end. *)
Lemma heap_malloc_fit h size k :
  heap_ok h -> 0 < size <= 4294963200 ->
  first_fit (entries (table h)) (blocks_for size) k ->
  heap_malloc h size =
    Ok (block_addr h k,
        set_entries h (splice k (chain (blocks_for size)) (entries (table h)))).
Proof.
  intros Hok Hsize Hfit. pose proof (blocks_for_pos size ltac:(lia)) as Hn.
  assert (Hn32 : Z.of_nat (blocks_for size) < 1048576) by (unfold blocks_for; zlia).
  pose proof (free_run_bound _ _ _ Hn (proj1 Hfit)) as Hb.
  rewrite heap_malloc_blocks_for by done. unfold heap_malloc_blocks.
  destruct (heap_get_start_block_index_spec h (blocks_for size)) as (r & -> & Hr);
    [done|done|lia|].
  assert (r = Z.of_nat k) as ->.
  { destruct Hr as [(k' & -> & Hk')|[Hno _]]; [|by destruct (Hno k), Hfit].
    destruct Hfit as [Hrun Hmin], Hk' as [Hrun' Hmin'].
    f_equal. destruct (Nat.lt_trichotomy k k') as [?|[?|?]]; [|done|].
    - by destruct (Hmin' k).
    - by destruct (Hmin k'). }
  cbn [mbind outcome_bind]. destruct (Z.ltb_spec (Z.of_nat k) 0); [lia|].
  rewrite heap_mark_blocks_taken_spec by done. simpl.
  by rewrite heap_block_to_address_spec by (done || lia).
Qed.

Lemma heap_malloc_full h size :
  heap_ok h -> 0 < size <= 4294963200 ->
  no_fit (entries (table h)) (blocks_for size) -> trailing_free (entries (table h)) = 0%nat ->
  heap_malloc h size = Ok (0, h).
Proof.
  intros Hok Hsize Hno Ht. pose proof (blocks_for_pos size ltac:(lia)) as Hn.
  assert (Hn32 : Z.of_nat (blocks_for size) < 1048576) by (unfold blocks_for; zlia).
  rewrite heap_malloc_blocks_for by done. unfold heap_malloc_blocks.
  destruct (heap_get_start_block_index_spec h (blocks_for size)) as (r & -> & Hr);
    [done|done|lia|].
  destruct Hr as [(k & -> & [Hk _])|[_ ->]]; [by destruct (Hno k)|].
  rewrite Ht. done.
Qed.

Lemma heap_malloc_overrun h size :
  heap_ok h -> 0 < size <= 4294963200 ->
  no_fit (entries (table h)) (blocks_for size) ->
  (0 < trailing_free (entries (table h)))%nat ->
  heap_malloc h size = Fault.
Proof.
  intros Hok Hsize Hno Ht. pose proof (blocks_for_pos size ltac:(lia)) as Hn.
  assert (Hn32 : Z.of_nat (blocks_for size) < 1048576) by (unfold blocks_for; zlia).
  set (es := entries (table h)) in *. pose proof (trailing_free_le es) as Htl.
  rewrite heap_malloc_blocks_for by done. unfold heap_malloc_blocks.
  destruct (heap_get_start_block_index_spec h (blocks_for size)) as (r & -> & Hr);
    [done|done|lia|].
  fold es in Hr. destruct Hr as [(k & -> & [Hk _])|[_ ->]]; [by destruct (Hno k)|].
  destruct (decide _); [lia|]. cbn [mbind outcome_bind].
  destruct (Z.ltb_spec (Z.of_nat (length es - trailing_free es)) 0); [lia|].
  rewrite heap_mark_blocks_taken_oob; [done|done|done| |]; fold es; [lia|].
  destruct (decide (blocks_for size <= trailing_free es)%nat) as [Hle|]; [|lia].
  destruct (Hno (length es - blocks_for size)%nat).
  apply trailing_free_run; [lia|done].
Qed.

(** A request of 0 bytes, or one so large that rounding it up wraps around to 0,
    takes no block: it is answered by null when the last block is taken and
    otherwise by the address of the free run at the end of the table. *)
Definition empty_request (size : Z) : Prop := size = 0 \/ 4294963200 < size < 4294967296.

Lemma heap_malloc_empty h size :
  heap_ok h -> empty_request size ->
  let es := entries (table h) in
  heap_malloc h size =
    Ok (if decide (trailing_free es = 0%nat) then 0
        else block_addr h (length es - trailing_free es), h).
Proof.
  intros Hok Hsize es. pose proof (trailing_free_le es) as Htl.
  assert (Hal : align_upper_block_boundary size = 0).
  { unfold empty_request, align_upper_block_boundary, HEAP_BLOCK_SIZE in *.
    destruct Hsize as [->|Hs]; [done|]. destruct (Z.eqb_spec (size mod 4096) 0); [zlia|].
    unfold u32. zlia. }
  unfold heap_malloc. rewrite Hal. unfold heap_malloc_blocks, heap_get_start_block_index.
  fold es. destruct (id Hok) as (Hlen & Hmax & _). fold es in Hlen.
  pose proof (start_block_loop_zero es [] ltac:(simpl; lia)) as Hloop. cbn zeta in Hloop.
  change (trailing_free []) with 0%nat in Hloop. simpl in Hloop.
  change (Z.of_nat 0) with 0 in Hloop.
  rewrite <- Hlen, Nat2Z.id. change (0 / HEAP_BLOCK_SIZE) with 0. rewrite Hloop.
  cbn [mbind outcome_bind]. destruct (decide _) as [Ht|Ht]; [done|].
  destruct (Z.eqb_spec (Z.of_nat (length es - trailing_free es)) (-1)); [lia|].
  destruct (Z.ltb_spec (Z.of_nat (length es - trailing_free es)) 0); [lia|].
  rewrite heap_block_to_address_spec by (done || (fold es; lia)).
  unfold heap_mark_blocks_taken. rewrite s32_small by lia.
  replace (Z.to_nat _) with 0%nat by lia. simpl. by destruct h as [[??]?].
Qed.

(** ** Release *)

Definition has_next (e : Z) : bool := negb (Z.land e HEAP_BLOCK_HAS_NEXT =? 0).

(** [e] heads a run of [S m] entries exactly when its HAS_NEXT bit says so. *)
Definition heads (e : Z) (m : nat) : Prop := has_next e = negb (m =? 0)%nat.

Lemma chain_tail_cons m : exists e, chain_tail (S m) = e :: chain_tail m /\ heads e m.
Proof. destruct m; eexists; done. Qed.

Lemma chain_cons m : exists e, chain (S m) = e :: chain_tail m /\ heads e m.
Proof. destruct m; eexists; done. Qed.

Lemma read_entry_ok es (i : nat) e :
  es !! i = Some e -> read_entry es (Z.of_nat i) = Ok e.
Proof.
  intros H. unfold read_entry. destruct (Z.leb_spec 0 (Z.of_nat i)); [|lia].
  by rewrite Nat2Z.id, H.
Qed.

Lemma mark_free_loop_spec m fuel i e es :
  heads e m -> (S m <= fuel)%nat ->
  (forall j, (j < S m)%nat -> es !! (i + j)%nat = (e :: chain_tail m) !! j) ->
  mark_free_loop fuel (Z.of_nat i) es = Ok (splice i (replicate (S m) 0) es).
Proof.
  revert fuel i e es. induction m as [|m IH]; intros [|fuel] i e es Hh Hf Hes; try lia;
    pose proof (Hes 0%nat ltac:(lia)) as He; rewrite Nat.add_0_r in He; simpl in He;
    pose proof (lookup_lt_Some _ _ _ He) as Hlt;
    cbn [mark_free_loop]; rewrite (read_entry_ok _ _ _ He); cbn [mbind outcome_bind];
    rewrite write_entry_ok by done; cbn [mbind outcome_bind];
    unfold heads, has_next in Hh;
    destruct (Z.land e HEAP_BLOCK_HAS_NEXT =? 0) eqn:E; try done.
  - cbn [replicate]. by rewrite splice_cons, splice_nil by done.
  - destruct (chain_tail_cons m) as (e' & Hc & Hh').
    replace (Z.of_nat i + 1) with (Z.of_nat (S i)) by lia.
    change (replicate (S (S m)) 0) with (0 :: replicate (S m) 0).
    rewrite splice_cons by done. apply (IH fuel (S i) e'); [done|lia|].
    intros j Hj. rewrite list_lookup_insert_ne by lia.
    replace (S i + j)%nat with (i + S j)%nat by lia.
    rewrite Hes by lia. by rewrite Hc.
Qed.

Lemma chain_at_bound es k n : (0 < n)%nat -> chain_at es k n -> (k + n <= length es)%nat.
Proof.
  intros Hn H. specialize (H (n - 1)%nat ltac:(lia)).
  destruct (lookup_lt_is_Some_2 (chain n) (n - 1)) as [x Hx]; [rewrite length_chain; lia|].
  rewrite Hx in H. apply lookup_lt_Some in H. lia.
Qed.

(** Freeing the address of an allocation frees its blocks and no others. *)
Lemma heap_free_chain h (k n : nat) :
  heap_ok h -> (0 < n)%nat -> chain_at (entries (table h)) k n ->
  heap_free h (block_addr h k) =
    Ok (0, set_entries h (splice k (replicate n 0) (entries (table h)))).
Proof.
  intros Hok Hn Hc. pose proof (chain_at_bound _ _ _ Hn Hc) as Hb.
  unfold heap_free, heap_mark_blocks_free.
  rewrite heap_address_to_block_spec by (done || lia).
  destruct Hok as (Hlen & Hmax & _). destruct n as [|m]; [lia|].
  destruct (chain_cons m) as (e & He & Hh).
  rewrite (mark_free_loop_spec m _ k e); [done|done| |].
  - rewrite s32_small by lia. lia.
  - intros j Hj. by rewrite Hc, He.
Qed.

(** Allocating writes a chain that a later free recognises. *)
Lemma splice_chain_at es k n :
  (k + n <= length es)%nat -> chain_at (splice k (chain n) es) k n.
Proof.
  intros Hk j Hj. apply lookup_splice_in; rewrite length_chain; lia.
Qed.

(** A chain outside the slice written survives. *)
Lemma splice_chain_other es k v k' n' :
  (k + length v <= length es)%nat -> (k' + n' <= k \/ k + length v <= k')%nat ->
  chain_at es k' n' -> chain_at (splice k v es) k' n'.
Proof.
  intros Hk Hd Hc j Hj. rewrite lookup_splice_out by lia. by apply Hc.
Qed.

(** ** The abstract allocator

    Its state is the finite map from the first block of each live allocation to
    its number of blocks. *)

(** [k] and [n] blocks from there do not meet the live allocation at [k']. *)
Definition apart (k n k' n' : nat) : Prop := (k + n <= k' \/ k' + n' <= k)%nat.

Inductive alloc_event :=
| EvMalloc (n : nat) (result : option nat)
| EvFree (k : nat).

Inductive alloc_step (N : nat) : gmap nat nat -> alloc_event -> gmap nat nat -> Prop :=
| step_malloc (L : gmap nat nat) k n :
    (0 < n)%nat -> (k + n <= N)%nat ->
    (forall k' n', L !! k' = Some n' -> apart k n k' n') ->
    alloc_step N L (EvMalloc n (Some k)) (<[k := n]> L)
| step_malloc_fail (L : gmap nat nat) n :
    (0 < n)%nat ->
    (forall k, (k + n <= N)%nat -> exists k' n', L !! k' = Some n' /\ ~ apart k n k' n') ->
    alloc_step N L (EvMalloc n None) L
| step_free (L : gmap nat nat) k n :
    L !! k = Some n -> alloc_step N L (EvFree k) (delete k L).

(** The table represents the live allocations [L]. *)
Record heap_rep (h : heap_desc) (L : gmap nat nat) : Prop := {
  rep_ok : heap_ok h;
  rep_live k n : L !! k = Some n -> (0 < n)%nat /\ chain_at (entries (table h)) k n;
  rep_free i e : entries (table h) !! i = Some e ->
    e = 0 \/ exists k n, L !! k = Some n /\ (k <= i < k + n)%nat
}.

Lemma chain_tail_entry m j e :
  chain_tail m !! j = Some e -> is_free e = false /\ Z.testbit e 6 = false.
Proof.
  revert j. induction m as [|m IH]; intros j H; [done|].
  destruct m as [|m].
  - destruct j; [|done]. injection H as <-. done.
  - change (chain_tail (S (S m))) with (0x81 :: chain_tail (S m)) in H.
    destruct j; [|by apply IH in H]. injection H as <-. done.
Qed.

Lemma chain_entry n j e :
  chain n !! j = Some e -> is_free e = false /\ Z.testbit e 6 = (j =? 0)%nat.
Proof.
  destruct n as [|[|m]]; intros H; [done| |].
  - destruct j; [|done]. injection H as <-. done.
  - change (chain (S (S m))) with (0xC1 :: chain_tail (S m)) in H.
    destruct j; [injection H as <-; done|]. by apply chain_tail_entry in H.
Qed.

Lemma chain_at_entry es k n i :
  chain_at es k n -> (k <= i < k + n)%nat ->
  exists e, es !! i = Some e /\ is_free e = false /\ Z.testbit e 6 = (i =? k)%nat.
Proof.
  intros Hc Hi. specialize (Hc (i - k)%nat ltac:(lia)).
  replace (k + (i - k))%nat with i in Hc by lia.
  destruct (lookup_lt_is_Some_2 (chain n) (i - k)) as [e He]; [rewrite length_chain; lia|].
  exists e. rewrite Hc. split; [done|].
  destruct (chain_entry _ _ _ He) as [Hf Hb]. split; [done|]. rewrite Hb.
  destruct (Nat.eqb_spec (i - k) 0), (Nat.eqb_spec i k); try done; lia.
Qed.

(** Two live allocations do not overlap: only first blocks carry bit 6. *)
Lemma rep_disjoint h L k1 n1 k2 n2 :
  heap_rep h L -> L !! k1 = Some n1 -> L !! k2 = Some n2 -> k1 <> k2 -> apart k1 n1 k2 n2.
Proof.
  intros Hrep H1 H2 Hne. unfold apart.
  destruct (rep_live _ _ Hrep _ _ H1) as [P1 C1], (rep_live _ _ Hrep _ _ H2) as [P2 C2].
  destruct (decide (k1 + n1 <= k2 \/ k2 + n2 <= k1)%nat) as [|Hov]; [done|exfalso].
  pose (m := (k1 `max` k2)%nat).
  destruct (chain_at_entry _ _ _ m C1) as (e1 & E1 & _ & B1); [lia|].
  destruct (chain_at_entry _ _ _ m C2) as (e2 & E2 & _ & B2); [lia|].
  assert (e1 = e2) as -> by congruence. rewrite B1 in B2.
  destruct (Nat.eqb_spec m k1), (Nat.eqb_spec m k2); try done; lia.
Qed.

(** A free run does not meet a live allocation, and conversely. *)
Lemma free_run_apart h L k n :
  heap_rep h L -> (0 < n)%nat ->
  free_run (entries (table h)) k n <->
  (k + n <= length (entries (table h)))%nat /\
  (forall k' n', L !! k' = Some n' -> apart k n k' n').
Proof.
  intros Hrep Hn. split.
  - intros Hrun. split; [by apply free_run_bound|]. intros k' n' Hk'.
    destruct (rep_live _ _ Hrep _ _ Hk') as [Hn' Hc]. unfold apart.
    destruct (decide (k + n <= k' \/ k' + n' <= k)%nat) as [|Hov]; [done|exfalso].
    destruct (Hrun (k `max` k')%nat) as (e & He & Hf); [lia|].
    destruct (chain_at_entry _ _ _ (k `max` k') Hc) as (e' & He' & Hf' & _); [lia|].
    congruence.
  - intros [Hb Hap] j Hj. destruct (lookup_lt_is_Some_2 (entries (table h)) j) as [e He];
      [lia|].
    exists e. split; [done|].
    destruct (rep_free _ _ Hrep _ _ He) as [->|(k' & n' & Hk' & Hin)]; [done|].
    specialize (Hap _ _ Hk'). unfold apart in Hap. lia.
Qed.

Lemma set_entries_ok h es :
  heap_ok h -> length es = length (entries (table h)) -> heap_ok (set_entries h es).
Proof. unfold heap_ok. intros (?&?&?&?&?) Hl. simpl. rewrite Hl. auto. Qed.

Lemma heap_rep_malloc h L k n :
  heap_rep h L -> (0 < n)%nat -> free_run (entries (table h)) k n ->
  heap_rep (set_entries h (splice k (chain n) (entries (table h)))) (<[k := n]> L).
Proof.
  intros Hrep Hn Hrun. set (es := entries (table h)) in *.
  destruct (proj1 (free_run_apart _ _ _ _ Hrep Hn) Hrun) as [Hb Hap]. fold es in Hb.
  assert (Hlc : (k + length (chain n) <= length es)%nat) by (by rewrite length_chain).
  split; simpl.
  - apply set_entries_ok; [apply Hrep|]. by apply length_splice.
  - intros k' n' H'. destruct (decide (k' = k)) as [->|Hne].
    + rewrite lookup_insert_eq in H'. injection H' as <-.
      split; [done|]. by apply splice_chain_at.
    + rewrite lookup_insert_ne in H' by done.
      destruct (rep_live _ _ Hrep _ _ H') as [Hn' Hc']. split; [done|].
      apply splice_chain_other; [done| |done]. rewrite length_chain.
      specialize (Hap _ _ H'). unfold apart in Hap. lia.
  - intros i e He. destruct (decide (k <= i < k + n)%nat) as [Hi|Hi].
    + right. exists k, n. by rewrite lookup_insert_eq.
    + rewrite lookup_splice_out in He by (rewrite ?length_chain; lia).
      destruct (rep_free _ _ Hrep _ _ He) as [->|(k' & n' & H' & Hin)]; [by left|].
      right. exists k', n'. split; [|done]. rewrite lookup_insert_ne; [done|]. intros <-.
      specialize (Hap _ _ H'). unfold apart in Hap.
      pose proof (rep_live _ _ Hrep _ _ H'). lia.
Qed.

Lemma heap_rep_free h L k n :
  heap_rep h L -> L !! k = Some n ->
  heap_rep (set_entries h (splice k (replicate n 0) (entries (table h)))) (delete k L).
Proof.
  intros Hrep Hk. set (es := entries (table h)) in *.
  destruct (rep_live _ _ Hrep _ _ Hk) as [Hn Hc].
  pose proof (chain_at_bound _ _ _ Hn Hc) as Hb. fold es in Hb.
  assert (Hlc : (k + length (replicate n 0%Z) <= length es)%nat) by (by rewrite length_replicate).
  split; simpl.
  - apply set_entries_ok; [apply Hrep|]. by apply length_splice.
  - intros k' n' H'. apply lookup_delete_Some in H' as [Hne H'].
    destruct (rep_live _ _ Hrep _ _ H') as [Hn' Hc']. split; [done|].
    apply splice_chain_other; [done| |done]. rewrite length_replicate.
    pose proof (rep_disjoint _ _ _ _ _ _ Hrep Hk H' Hne) as Hd. unfold apart in Hd. lia.
  - intros i e He. destruct (decide (k <= i < k + n)%nat) as [Hi|Hi].
    + left. replace i with (k + (i - k))%nat in He by lia.
      rewrite lookup_splice_in in He by (rewrite ?length_replicate; lia).
      by apply lookup_replicate in He as [-> _].
    + rewrite lookup_splice_out in He by (rewrite ?length_replicate; lia).
      destruct (rep_free _ _ Hrep _ _ He) as [->|(k' & n' & H' & Hin)]; [by left|].
      right. exists k', n'. split; [|done]. rewrite lookup_delete_ne; [done|]. intros <-.
      assert (n' = n) as -> by congruence. lia.
Qed.

(** The scan decides whether there is a fit. *)
Lemma fit_or_none h n :
  heap_ok h -> (0 < n)%nat -> Z.of_nat n < 4294967296 ->
  (exists k, first_fit (entries (table h)) n k) \/ no_fit (entries (table h)) n.
Proof.
  intros Hok Hn H32.
  destruct (heap_get_start_block_index_spec h n Hok Hn H32)
    as (r & _ & [(k & _ & Hk)|[Hno _]]); eauto.
Qed.

(** Which result an event reports: the address of its first block, or null. *)
Definition result_addr (h : heap_desc) (r : option nat) : Z :=
  match r with Some k => block_addr h k | None => 0 end.

(** ** Reachable heaps *)

Inductive heap_reach : heap_desc -> gmap nat nat -> Prop :=
| reach_create h0 start end_addr t h :
    0 < start -> start <= end_addr <= 4294967296 ->
    Z.of_nat (length (entries t)) = total_entries t -> total_entries t <= 262144 ->
    heap_create h0 start end_addr t = Ok (0, h) ->
    heap_reach h ∅
| reach_malloc h L size k h' :
    heap_reach h L -> 0 < size <= 4294963200 ->
    heap_malloc h size = Ok (block_addr h k, h') ->
    heap_reach h' (<[k := blocks_for size]> L)
| reach_malloc_null h L size h' :
    heap_reach h L -> 0 < size <= 4294963200 ->
    heap_malloc h size = Ok (0, h') ->
    heap_reach h' L
| reach_free h L k n rc h' :
    heap_reach h L -> L !! k = Some n ->
    heap_free h (block_addr h k) = Ok (rc, h') ->
    heap_reach h' (delete k L).

Lemma heap_create_rep h0 start end_addr t h :
  0 < start -> start <= end_addr <= 4294967296 ->
  Z.of_nat (length (entries t)) = total_entries t -> total_entries t <= 262144 ->
  heap_create h0 start end_addr t = Ok (0, h) -> heap_rep h ∅.
Proof.
  intros H0 He Hlen Hmax. unfold heap_create, heap_valid_alignment.
  destruct (Z.eqb_spec (start mod HEAP_BLOCK_SIZE) 0) as [Ha|]; [|done].
  destruct (Z.eqb_spec (end_addr mod HEAP_BLOCK_SIZE) 0) as [Hb|]; [|done]. simpl.
  unfold heap_valid_table.
  destruct (Z.eqb_spec (u32 (end_addr - start) / HEAP_BLOCK_SIZE) (total_entries t))
    as [Ht|]; [|done]. simpl.
  rewrite Memory.memset_ok by lia. simpl. intros [= <-].
  rewrite drop_ge by lia. rewrite app_nil_r. unfold HEAP_BLOCK_SIZE in *.
  split; simpl.
  - repeat split; simpl; rewrite ?length_replicate; try lia; try done.
    rewrite <- Ht, u32_small by lia. unfold HEAP_BLOCK_SIZE. zlia.
  - intros k n. by rewrite lookup_empty.
  - intros i e Hi. apply lookup_replicate in Hi as [-> _]. by left.
Qed.

(** What a successful call of [heap_malloc] did. *)
Lemma heap_malloc_inv h L size p h' :
  heap_rep h L -> 0 < size <= 4294963200 -> heap_malloc h size = Ok (p, h') ->
  (exists k, p = block_addr h k /\ first_fit (entries (table h)) (blocks_for size) k /\
     h' = set_entries h (splice k (chain (blocks_for size)) (entries (table h)))) \/
  (p = 0 /\ h' = h /\ no_fit (entries (table h)) (blocks_for size)).
Proof.
  intros Hrep Hsize Hm. pose proof (rep_ok _ _ Hrep) as Hok.
  destruct (fit_or_none h (blocks_for size)) as [[k Hk]|Hno];
    [done|apply blocks_for_pos; lia|unfold blocks_for; zlia| |].
  - left. exists k. rewrite (heap_malloc_fit _ _ _ Hok Hsize Hk) in Hm.
    by injection Hm as <- <-.
  - right. destruct (decide (trailing_free (entries (table h)) = 0%nat)) as [Ht|Ht].
    + rewrite heap_malloc_full in Hm by done. by injection Hm as <- <-.
    + rewrite heap_malloc_overrun in Hm by (done || lia). done.
Qed.

Lemma block_addr_inj h k k' : block_addr h k = block_addr h k' -> k = k'.
Proof. unfold block_addr, HEAP_BLOCK_SIZE. lia. Qed.

Lemma block_addr_pos h k : heap_ok h -> 0 < block_addr h k.
Proof. unfold heap_ok, block_addr, HEAP_BLOCK_SIZE. lia. Qed.

Lemma heap_reach_rep h L : heap_reach h L -> heap_rep h L.
Proof.
  induction 1 as [h0 start e t h ???? Hc|h L size k h' _ IH Hs Hm
                 |h L size h' _ IH Hs Hm|h L k n rc h' _ IH Hk Hf].
  - by eapply heap_create_rep.
  - destruct (heap_malloc_inv _ _ _ _ _ IH Hs Hm) as [(k' & E & Hfit & ->)|(E & _)].
    + apply block_addr_inj in E as <-. apply heap_rep_malloc; [done| |apply Hfit].
      apply blocks_for_pos; lia.
    + pose proof (block_addr_pos h k (rep_ok _ _ IH)). lia.
  - destruct (heap_malloc_inv _ _ _ _ _ IH Hs Hm) as [(k' & E & _)|(_ & -> & _)]; [|done].
    pose proof (block_addr_pos h k' (rep_ok _ _ IH)). lia.
  - destruct (rep_live _ _ IH _ _ Hk) as [Hn Hch].
    rewrite (heap_free_chain h k n) in Hf by (done || apply IH). injection Hf as <- <-.
    by apply heap_rep_free.
Qed.

(** Entries of a free run of a represented heap are literally 0. *)
Lemma rep_free_run_zero h L k n :
  heap_rep h L -> (0 < n)%nat -> free_run (entries (table h)) k n ->
  forall j, (j < n)%nat -> entries (table h) !! (k + j)%nat = Some 0.
Proof.
  intros Hrep Hn Hrun j Hj.
  destruct (proj1 (free_run_apart _ _ _ _ Hrep Hn) Hrun) as [_ Hap].
  destruct (Hrun (k + j)%nat) as (e & He & _); [lia|]. rewrite He.
  destruct (rep_free _ _ Hrep _ _ He) as [->|(k' & n' & H' & Hin)]; [done|].
  specialize (Hap _ _ H'). unfold apart in Hap. lia.
Qed.

(** Blocks within the table that are not free meet a live allocation. *)
Lemma no_room_overlap h L k n :
  heap_rep h L -> (0 < n)%nat -> (k + n <= length (entries (table h)))%nat ->
  ~ free_run (entries (table h)) k n ->
  exists k' n', L !! k' = Some n' /\ ~ apart k n k' n'.
Proof.
  intros Hrep Hn Hk Hno.
  assert (Hdec : forall k' n', Decision (apart k n k' n')) by (unfold apart; apply _).
  destruct (decide (map_Forall (fun k' n' => apart k n k' n') L)) as [Hall|Hex].
  - destruct Hno. apply (free_run_apart _ _ _ _ Hrep Hn). by split.
  - apply map_not_Forall in Hex as (k' & n' & ? & ?); [eauto|apply _].
Qed.

Lemma set_entries_set_entries h es es' :
  set_entries (set_entries h es) es' = set_entries h es'.
Proof. done. Qed.

Lemma set_entries_id h : set_entries h (entries (table h)) = h.
Proof. by destruct h as [[es n] s]. Qed.

Lemma block_addr_set_entries h es k : block_addr (set_entries h es) k = block_addr h k.
Proof. done. Qed.

(** ** Counting free blocks *)

Fixpoint free_count (es : list Z) : nat :=
  match es with
  | [] => O
  | e :: es' => if is_free e then S (free_count es') else free_count es'
  end.

Lemma free_count_app l1 l2 : free_count (l1 ++ l2) = (free_count l1 + free_count l2)%nat.
Proof. induction l1 as [|e l1 IH]; simpl; [done|]. destruct (is_free e); lia. Qed.

Lemma free_count_le l : (free_count l <= length l)%nat.
Proof. induction l as [|e l IH]; simpl; [done|]. destruct (is_free e); lia. Qed.

(** All entries free, or none. *)
Lemma free_count_all l :
  (forall i e, l !! i = Some e -> is_free e = true) -> free_count l = length l.
Proof.
  induction l as [|e l IH]; intros H; [done|]. simpl. rewrite (H 0%nat e eq_refl).
  f_equal. apply IH. intros i e' Hi. by apply (H (S i)).
Qed.

Lemma free_count_none l :
  (forall i e, l !! i = Some e -> is_free e = false) -> free_count l = 0%nat.
Proof.
  induction l as [|e l IH]; intros H; [done|]. simpl. rewrite (H 0%nat e eq_refl).
  apply IH. intros i e' Hi. by apply (H (S i)).
Qed.

Lemma free_count_splice k v es :
  (k + length v <= length es)%nat ->
  (free_count (splice k v es) + free_count (take (length v) (drop k es)) =
   free_count es + free_count v)%nat.
Proof.
  intros Hk. unfold splice.
  rewrite <- (take_drop k es) at 4. rewrite <- (take_drop (length v) (drop k es)) at 2.
  rewrite !free_count_app, drop_drop. lia.
Qed.

Lemma free_count_malloc es k n :
  free_run es k n -> (k + n <= length es)%nat ->
  free_count es = (free_count (splice k (chain n) es) + n)%nat.
Proof.
  intros Hrun Hk. pose proof (length_chain n) as Hl.
  pose proof (free_count_splice k (chain n) es ltac:(lia)) as H. rewrite Hl in H.
  rewrite (free_count_none (chain n)) in H by (intros i e He; by apply chain_entry in He as [? _]).
  rewrite (free_count_all (take n (drop k es))) in H.
  - rewrite length_take, length_drop in H. lia.
  - intros i e He. apply lookup_take_Some in He as [He Hi]. rewrite lookup_drop in He.
    destruct (Hrun (k + i)%nat) as (e' & He' & Hf); [lia|]. congruence.
Qed.

Lemma free_count_free es k n :
  chain_at es k n -> (k + n <= length es)%nat ->
  free_count (splice k (replicate n 0) es) = (free_count es + n)%nat.
Proof.
  intros Hc Hk. pose proof (free_count_splice k (replicate n 0) es) as H.
  rewrite length_replicate in H. specialize (H Hk).
  rewrite (free_count_all (replicate n 0)), length_replicate in H
    by (intros i e He; by apply lookup_replicate in He as [-> _]).
  rewrite (free_count_none (take n (drop k es))) in H; [lia|].
  intros i e He. apply lookup_take_Some in He as [He Hi]. rewrite lookup_drop in He.
  destruct (chain_at_entry _ _ _ (k + i) Hc) as (e' & He' & Hf & _); [lia|]. congruence.
Qed.

(** One free block is enough for a one-block request. *)
Lemma free_count_fit es :
  (0 < free_count es)%nat <-> exists k, free_run es k 1.
Proof.
  split.
  - induction es as [|e es IH]; simpl; [lia|]. destruct (is_free e) eqn:E; intros H.
    + exists 0%nat. intros [|j] Hj; [|lia]. eauto.
    + destruct (IH H) as [k Hk]. exists (S k). intros [|j] Hj; [lia|].
      simpl. apply Hk. lia.
  - intros [k Hk]. destruct (Hk k) as (e & He & Hf); [lia|].
    rewrite <- (take_drop_middle _ _ _ He), free_count_app. simpl. rewrite Hf. lia.
Qed.

(** The entry of block [j] of an allocation of [n] blocks, flag by flag. *)
Definition chain_flags (n j : nat) : Z :=
  Z.lor HEAP_BLOCK_TABLE_ENTRY_TAKEN
    (Z.lor (if decide (j = 0%nat) then HEAP_BLOCK_IS_FIRST else 0)
           (if decide (S j < n)%nat then HEAP_BLOCK_HAS_NEXT else 0)).

Lemma chain_tail_lookup m j :
  (j < m)%nat -> chain_tail m !! j = Some (if decide (S j < m)%nat then 0x81 else 0x01).
Proof.
  revert j. induction m as [|[|m] IH]; intros j Hj; [lia| |].
  { assert (j = 0%nat) as -> by lia. done. }
  destruct j as [|j]; [done|]. change (chain_tail (S m) !! j = Some (if decide (S (S j) < S (S m))%nat then 0x81 else 0x01)).
  rewrite IH by lia. do 2 case_decide; (done || lia).
Qed.

Lemma chain_flags_spec n j : (j < n)%nat -> chain n !! j = Some (chain_flags n j).
Proof.
  intros Hj. unfold chain_flags. destruct n as [|[|m]]; [lia| |].
  { assert (j = 0%nat) as -> by lia. done. }
  destruct j as [|j]; [done|].
  change (chain (S (S m)) !! S j) with (chain_tail (S m) !! j).
  rewrite chain_tail_lookup by lia. destruct (decide (S j = 0%nat)); [lia|].
  do 2 case_decide; (done || lia).
Qed.

(** ** Theorems *)

(** A heap of four free blocks, for the witnesses. *)
Definition heap4 : heap_desc := HeapDesc (HeapTable [0; 0; 0; 0] 4) 0x1000000.

Lemma heap4_reach : heap_reach heap4 ∅.
Proof.
  apply (reach_create heap4 0x1000000 0x1004000 (HeapTable [9; 9; 9; 9] 4)); try done; simpl; lia.
Qed.

(** C33 (functional).  [heap_malloc] on every branch, for a request of 1 byte up
    to 4 GB less a block: with a fit, the lowest free run of [blocks_for size]
    blocks is chosen, exactly its entries are overwritten by the allocation
    chain (IS_FIRST, HAS_NEXT flags) and its address is returned; without a fit
    the call returns null and changes nothing when the last block is taken; and
    when the table ends in a free run that is too short, the scan still returns
    that run and marking it stores outside the table. *)
Theorem heap_malloc_outcome h L size :
  heap_rep h L -> 0 < size <= 4294963200 ->
  let n := blocks_for size in
  let es := entries (table h) in
  (exists k, first_fit es n k /\
     heap_malloc h size = Ok (block_addr h k, set_entries h (splice k (chain n) es))) \/
  (no_fit es n /\ trailing_free es = 0%nat /\ heap_malloc h size = Ok (0, h)) \/
  (no_fit es n /\ (0 < trailing_free es)%nat /\ heap_malloc h size = Fault).
Proof.
  intros Hrep Hsize n es. pose proof (rep_ok _ _ Hrep) as Hok.
  destruct (fit_or_none h (blocks_for size)) as [[k Hk]|Hno];
    [done|apply blocks_for_pos; lia|unfold blocks_for; zlia| |].
  - left. exists k. split; [done|]. by apply heap_malloc_fit.
  - right. destruct (decide (trailing_free es = 0%nat)) as [Ht|Ht].
    + left. repeat split; [done..|]. by apply heap_malloc_full.
    + right. repeat split; [done|lia|]. apply heap_malloc_overrun; [done|lia|done|fold es; lia].
Qed.

Lemma heap_malloc_outcome_witness :
  exists k, first_fit [0; 0; 0; 0] 2 k /\
    heap_malloc heap4 5000 =
      Ok (block_addr heap4 k, set_entries heap4 (splice k [0xC1; 0x01] [0; 0; 0; 0])).
Proof.
  destruct (heap_malloc_outcome heap4 ∅ 5000) as [H|[(_ & _ & H)|(_ & _ & H)]];
    [apply heap_reach_rep, heap4_reach|lia|exact H
    |vm_compute in H; discriminate|vm_compute in H; discriminate].
Defined.

(** C1 (refinement).  The table implements the abstract allocator.  A request
    of 1 byte up to 4 GB less a block either makes the abstract allocator's step,
    handing out blocks apart from every live allocation (or null, only when no
    such blocks exist), or, exactly when nothing fits and the table ends in a free
    run, stores outside the table; a request of 0 bytes, or one that wraps around
    to 0, takes nothing: it returns null or the address of the free run at the end
    of the table, which stays free; and the release of a live allocation is the
    abstract free.  The representation is preserved throughout. *)
Theorem heap_refines_allocator h L :
  heap_rep h L ->
  let es := entries (table h) in
  (forall size, 0 < size <= 4294963200 ->
     (exists r L' h', heap_malloc h size = Ok (result_addr h r, h') /\
        alloc_step (length es) L (EvMalloc (blocks_for size) r) L' /\ heap_rep h' L') \/
     (heap_malloc h size = Fault /\ no_fit es (blocks_for size) /\
        (0 < trailing_free es)%nat)) /\
  (forall size, empty_request size ->
     heap_malloc h size =
       Ok (if decide (trailing_free es = 0%nat) then 0
           else block_addr h (length es - trailing_free es), h)) /\
  (forall k n, L !! k = Some n ->
     exists h' L', heap_free h (block_addr h k) = Ok (0, h') /\
       alloc_step (length es) L (EvFree k) L' /\ heap_rep h' L').
Proof.
  intros Hrep es. pose proof (rep_ok _ _ Hrep) as Hok.
  split; [|split; [intros size Hs; by apply heap_malloc_empty|]].
  - intros size Hs. pose proof (blocks_for_pos size ltac:(lia)) as Hn.
    destruct (fit_or_none h (blocks_for size)) as [[k Hk]|Hno];
      [done|done|unfold blocks_for; zlia| |].
    + left. exists (Some k). do 2 eexists. split; [by apply heap_malloc_fit|].
      destruct Hk as [Hrun _]. destruct (proj1 (free_run_apart _ _ _ _ Hrep Hn) Hrun).
      split; [by constructor|]. by apply heap_rep_malloc.
    + destruct (decide (trailing_free es = 0%nat)) as [Ht|Ht].
      * left. exists None, L, h. split; [by apply heap_malloc_full|]. split; [|done].
        constructor; [done|]. intros k Hk. by apply (no_room_overlap h L k (blocks_for size)).
      * right. split; [|split; [done|lia]]. apply heap_malloc_overrun; [done..|fold es; lia].
  - intros k n Hk. destruct (rep_live _ _ Hrep _ _ Hk) as [Hn Hc]. do 2 eexists.
    split; [apply (heap_free_chain h k n); [done|done|done]|].
    split; [by econstructor|]. by apply heap_rep_free.
Qed.

Lemma heap_refines_allocator_witness :
  exists h', heap_free (set_entries heap4 [0; 0xC1; 0x01; 0]) 0x1001000 = Ok (0, h') /\
    heap_rep h' (delete 1%nat {[1%nat := 2%nat]}).
Proof.
  assert (Hrep : heap_rep (set_entries heap4 [0; 0xC1; 0x01; 0]) {[1%nat := 2%nat]}).
  { split.
    - unfold heap_ok. simpl. unfold HEAP_BLOCK_SIZE. repeat split; (done || lia).
    - intros k n H. apply lookup_singleton_Some in H as [<- <-].
      split; [lia|]. intros [|[|j]] Hj; [done|done|lia].
    - intros i e Hi. destruct i as [|[|[|[|i]]]]; try (by injection Hi as <-; left).
      + right. exists 1%nat, 2%nat. split; [done|lia].
      + right. exists 1%nat, 2%nat. split; [done|lia].
      + done. }
  destruct (heap_refines_allocator _ _ Hrep) as (_ & _ & Hfree).
  destruct (Hfree 1%nat 2%nat eq_refl) as (h' & L' & Hf & Hstep & Hr).
  exists h'. split; [exact Hf|]. inversion Hstep; subst. exact Hr.
Defined.

(** C20 (invariant).  In every heap reachable by creation, allocation and release
    of live allocations, the live allocations lie inside the pool and are pairwise
    apart; the entries of each carry the flags of its chain: TAKEN on all of them,
    IS_FIRST on the first and on no other, HAS_NEXT on all but the last; and the
    entry of a block outside all of them is 0, so an entry is taken exactly when
    its block belongs to a live allocation. *)
Theorem heap_reach_invariant h L :
  heap_reach h L ->
  let es := entries (table h) in
  (forall k n, L !! k = Some n -> (0 < n)%nat /\ (k + n <= length es)%nat) /\
  (forall k1 n1 k2 n2, L !! k1 = Some n1 -> L !! k2 = Some n2 -> k1 <> k2 ->
     apart k1 n1 k2 n2) /\
  (forall k n j, L !! k = Some n -> (j < n)%nat ->
     es !! (k + j)%nat = Some (chain_flags n j)) /\
  (forall i e, es !! i = Some e ->
     (forall k n, L !! k = Some n -> ~ (k <= i < k + n)%nat) -> e = 0).
Proof.
  intros Hreach es. pose proof (heap_reach_rep _ _ Hreach) as Hrep.
  split; [|split; [|split]].
  - intros k n H. destruct (rep_live _ _ Hrep _ _ H) as [Hn Hc]. split; [done|].
    by apply chain_at_bound.
  - intros. by eapply rep_disjoint.
  - intros k n j H Hj. destruct (rep_live _ _ Hrep _ _ H) as [_ Hc].
    unfold es. rewrite (Hc j Hj). by apply chain_flags_spec.
  - intros i e He Hout. destruct (rep_free _ _ Hrep _ _ He) as [->|(k & n & H & Hi)]; [done|].
    by destruct (Hout _ _ H).
Qed.

Lemma heap_reach_invariant_witness :
  heap_reach (set_entries heap4 [0x41; 0xC1; 0x81; 0x01]) (<[1%nat := 3%nat]> (<[0%nat := 1%nat]> ∅)) /\
  [0x41; 0xC1; 0x81; 0x01] !! 2%nat = Some (chain_flags 3 1) /\ apart 0 1 1 3.
Proof.
  assert (Hr : heap_reach (set_entries heap4 [0x41; 0xC1; 0x81; 0x01])
                 (<[1%nat := 3%nat]> (<[0%nat := 1%nat]> ∅))).
  { apply (reach_malloc (set_entries heap4 [0x41; 0; 0; 0]) _ 12288 1); [|lia|reflexivity].
    apply (reach_malloc heap4 _ 1 0); [apply heap4_reach|lia|reflexivity]. }
  split; [exact Hr|].
  destruct (heap_reach_invariant _ _ Hr) as (_ & Hap & Hflags & _).
  split; [apply (Hflags 1%nat 3%nat 1%nat); [reflexivity|lia]|].
  apply Hap; [reflexivity|reflexivity|lia].
Defined.

(** Freeing what [heap_malloc] just returned restores the heap
    descriptor, table included. *)
Theorem heap_malloc_free_roundtrip h L size p h' :
  heap_rep h L -> 0 < size <= 4294963200 ->
  heap_malloc h size = Ok (p, h') -> p <> 0 ->
  heap_free h' p = Ok (0, h).
Proof.
  intros Hrep Hs Hm Hp. pose proof (blocks_for_pos size ltac:(lia)) as Hn.
  destruct (heap_malloc_inv _ _ _ _ _ Hrep Hs Hm) as [(k & -> & [Hrun _] & ->)|(-> & _)]; [|done].
  pose proof (free_run_bound _ _ _ Hn Hrun) as Hb.
  pose proof (heap_rep_malloc _ _ _ _ Hrep Hn Hrun) as Hrep'.
  set (n := blocks_for size) in *.
  rewrite <- (block_addr_set_entries h (splice k (chain n) (entries (table h))) k).
  rewrite (heap_free_chain _ k n); [|apply Hrep'|done|by apply splice_chain_at].
  rewrite set_entries_set_entries. simpl.
  rewrite splice_splice by (rewrite ?length_chain, ?length_replicate; done).
  rewrite splice_same, set_entries_id; [done|by rewrite length_replicate|].
  rewrite length_replicate. intros j Hj.
  rewrite (rep_free_run_zero _ _ _ _ Hrep Hn Hrun) by done.
  by rewrite lookup_replicate_2.
Qed.

Lemma heap_malloc_free_roundtrip_witness :
  heap_free (set_entries heap4 [0xC1; 0x81; 0x01; 0]) 0x1000000 = Ok (0, heap4).
Proof.
  apply (heap_malloc_free_roundtrip heap4 ∅ 9000);
    [apply heap_reach_rep, heap4_reach|lia|reflexivity|lia].
Defined.

End Heap.
