(* ===== verification/PhysMem.v ===== *)
(** * Physical memory

    The bytes of the 4 GB physical address space, with the 8- and 32-bit
    little-endian accesses the compiled kernel makes.  Memory that a model run
    never wrote reads as 0; the theorems quantify over every memory. *)
From stdpp Require Import base gmap list numbers.
From S2P Require Import Prelude.
#[local] Open Scope Z_scope.

Module PhysMem.

(** ** Accesses *)

Definition load8 (m : gmap Z Z) (a : Z) : Z := u8 (default 0 (m !! a)).
Definition store8 (m : gmap Z Z) (a v : Z) : gmap Z Z := <[a := u8 v]> m.

Definition load32 (m : gmap Z Z) (a : Z) : Z :=
  load8 m a + load8 m (a + 1) * 256 + load8 m (a + 2) * 65536 + load8 m (a + 3) * 16777216.

Definition store32 (m : gmap Z Z) (a v : Z) : gmap Z Z :=
  store8 (store8 (store8 (store8 m a v)
    (a + 1) (v / 256)) (a + 2) (v / 65536)) (a + 3) (v / 16777216).

Definition load16 (m : gmap Z Z) (a : Z) : Z := load8 m a + load8 m (a + 1) * 256.

(** The [n] bytes from address [a] on, and a buffer written there. *)
Definition bytes_at (m : gmap Z Z) (a : Z) (n : nat) : list Z :=
  map (fun i => load8 m (u32 (a + i))) (seqZ 0 (Z.of_nat n)).

Fixpoint store_bytes (m : gmap Z Z) (a : Z) (bs : list Z) : gmap Z Z :=
  match bs with
  | [] => m
  | b :: bs' => store_bytes (store8 m (u32 a) b) (a + 1) bs'
  end.

(** [memset] of [src/memory/memory.c] on a region of physical memory. *)
Fixpoint memset_loop (n : nat) (i : Z) (m : gmap Z Z) (s c : Z) : gmap Z Z :=
  match n with
  | O => m
  | S n' => memset_loop n' (i + 1) (store8 m (u32 (s + i)) c) s c
  end.

Definition memset (m : gmap Z Z) (s c n : Z) : gmap Z Z :=
  memset_loop (Z.to_nat n) 0 m s c.

(** ** Laws *)

Lemma load8_range m a : 0 <= load8 m a < 256.
Proof. apply u8_range. Qed.

Lemma load8_store8_eq m a v : load8 (store8 m a v) a = u8 v.
Proof.
  unfold load8, store8. rewrite lookup_insert_eq. simpl. unfold u8. zlia.
Qed.

Lemma load8_store8_ne m a b v : a <> b -> load8 (store8 m a v) b = load8 m b.
Proof. intros. unfold load8, store8. by rewrite lookup_insert_ne. Qed.

Lemma load32_range m a : 0 <= load32 m a < 4294967296.
Proof.
  unfold load32. pose proof (load8_range m a). pose proof (load8_range m (a + 1)).
  pose proof (load8_range m (a + 2)). pose proof (load8_range m (a + 3)). lia.
Qed.

Lemma load16_range m a : 0 <= load16 m a < 65536.
Proof. unfold load16. pose proof (load8_range m a). pose proof (load8_range m (a + 1)). lia. Qed.

(** Simplify a byte load over the stores of the goal, addresses by [lia]. *)
Ltac mem_simpl :=
  repeat first [rewrite load8_store8_eq | rewrite load8_store8_ne by lia].

Lemma load32_store32_eq m a v : load32 (store32 m a v) a = u32 v.
Proof. unfold load32, store32. mem_simpl. unfold u8, u32. zlia. Qed.

Lemma load8_store32_ne m a b v :
  b < a \/ a + 4 <= b -> load8 (store32 m a v) b = load8 m b.
Proof. intros. unfold store32. by mem_simpl. Qed.

Lemma load32_store32_ne m a b v :
  b + 4 <= a \/ a + 4 <= b -> load32 (store32 m a v) b = load32 m b.
Proof. intros. unfold load32. rewrite !load8_store32_ne by lia. done. Qed.

(** Two memories that agree on a word agree on its load. *)
Lemma load32_ext m m' a :
  (forall b, a <= b < a + 4 -> load8 m b = load8 m' b) -> load32 m a = load32 m' a.
Proof. intros H. unfold load32. rewrite !H by lia. done. Qed.

Lemma load8_memset_loop n i m s c a :
  0 <= s -> 0 <= i -> s + i + Z.of_nat n <= 4294967296 ->
  load8 (memset_loop n i m s c) a =
    if bool_decide (s + i <= a < s + i + Z.of_nat n) then u8 c else load8 m a.
Proof.
  revert i m. induction n as [|n IH]; intros i m Hs Hi Hn; simpl.
  { rewrite bool_decide_false by lia. done. }
  rewrite IH by lia. rewrite u32_small by lia.
  destruct (decide (a = s + i)) as [->|Hne].
  - rewrite bool_decide_false by lia. rewrite bool_decide_true by lia.
    apply load8_store8_eq.
  - rewrite load8_store8_ne by lia.
    destruct (decide (s + i <= a < s + i + Z.of_nat (S n))).
    + by rewrite !bool_decide_true by lia.
    + by rewrite !bool_decide_false by lia.
Qed.

(** [memset] writes its region and nothing else. *)
Lemma load8_memset m s c n a :
  0 <= s -> 0 <= n -> s + n <= 4294967296 ->
  load8 (memset m s c n) a = if bool_decide (s <= a < s + n) then u8 c else load8 m a.
Proof.
  intros. unfold memset. rewrite load8_memset_loop by lia.
  replace (s + 0) with s by lia. by rewrite Z2Nat.id.
Qed.

(** ** Buffers *)

Lemma length_bytes_at m a n : length (bytes_at m a n) = n.
Proof. unfold bytes_at. rewrite length_map, length_seqZ. lia. Qed.

Lemma lookup_bytes_at m a n i :
  (i < n)%nat -> bytes_at m a n !! i = Some (load8 m (u32 (a + Z.of_nat i))).
Proof.
  intros Hi. unfold bytes_at. rewrite list_lookup_fmap, lookup_seqZ_lt by lia. done.
Qed.

(** A buffer written reads back, and nothing else changes. *)
Lemma load8_store_bytes bs : forall m a b,
  0 <= a -> a + Z.of_nat (length bs) <= 4294967296 ->
  load8 (store_bytes m a bs) b =
    if decide (a <= b < a + Z.of_nat (length bs))
    then u8 (default 0 (bs !! Z.to_nat (b - a))) else load8 m b.
Proof.
  induction bs as [|x bs IH]; intros m a b Ha Hl; cbn [store_bytes length] in *.
  { by rewrite decide_False by lia. }
  rewrite IH, (u32_small a) by lia. destruct (decide (b = a)) as [->|Hne].
  - rewrite decide_False, decide_True by lia. rewrite Z.sub_diag. simpl. apply load8_store8_eq.
  - rewrite load8_store8_ne by done.
    destruct (decide (a + 1 <= b < a + 1 + Z.of_nat (length bs))) as [Hin|Hout].
    + rewrite decide_True by lia. replace (Z.to_nat (b - a)) with (S (Z.to_nat (b - (a + 1)))) by lia.
      done.
    + by rewrite decide_False by lia.
Qed.

(** The byte ranges [[a, a+n)] of two memories agree. *)
Definition same_region (m m' : gmap Z Z) (a n : Z) : Prop :=
  forall b, a <= b < a + n -> load8 m b = load8 m' b.

Lemma same_region_load32 m m' a n b :
  same_region m m' a n -> a <= b -> b + 4 <= a + n -> load32 m b = load32 m' b.
Proof. intros H ??. apply load32_ext. intros c ?. apply H. lia. Qed.

Lemma same_region_trans m1 m2 m3 a n :
  same_region m1 m2 a n -> same_region m2 m3 a n -> same_region m1 m3 a n.
Proof. intros H1 H2 b Hb. by rewrite H1, H2. Qed.

#[export] Instance same_region_refl a n : Reflexive (fun m m' => same_region m m' a n).
Proof. by intros m b Hb. Qed.

End PhysMem.
