(* ===== verification/KernelHeap.v ===== *)
(** * The kernel heap: [src/memory/heap/kernel_heap.c]

    One heap for the whole kernel, at a fixed address, over physical memory; and
    the interface [Allocator] under which the other components use it. *)
From stdpp Require Import base gmap list numbers.
From S2P Require Import Prelude Config Memory Heap PhysMem.
#[local] Open Scope Z_scope.

(** ** The allocator interface

    The operations, a view of the allocator's state, and the laws that connect
    them: [alloc_rep s L] says that in the state [s] the live allocations are [L],
    from address to number of 4096-byte blocks, and [alloc_free s] is the number
    of blocks the caller may still ask for.  The laws cover requests of at most
    one block, which is all the clients of the interface make.  An allocator can
    have several views; [AllocatorExhausted] is for those that count every free
    block. *)

Class Allocator (St : Type) := {
  kzalloc : Z -> M St Z;
  kfree : Z -> M St Z
}.

Class AllocatorView (St : Type) := {
  alloc_rep : St -> gmap Z nat -> Prop;
  alloc_free : St -> nat
}.

Class AllocatorLaws (St : Type) `{Allocator St} `{AllocatorView St} := {
  kzalloc_some s L size f :
    alloc_rep s L -> 0 < size <= HEAP_BLOCK_SIZE -> alloc_free s = S f ->
    wp (kzalloc size) s (fun p s' =>
      alloc_rep s' (<[p := 1%nat]> L) /\ alloc_free s' = f /\ L !! p = None /\
      0 < p <= 2147479552 /\ p mod HEAP_BLOCK_SIZE = 0);
  kfree_live s L p n :
    alloc_rep s L -> L !! p = Some n ->
    wp (kfree p) s (fun rc s' =>
      rc = 0 /\ alloc_rep s' (delete p L) /\ alloc_free s' = (alloc_free s + n)%nat)
}.

Class AllocatorExhausted (St : Type) `{Allocator St} `{AllocatorView St} := {
  kzalloc_none s L size :
    alloc_rep s L -> 0 < size <= HEAP_BLOCK_SIZE -> alloc_free s = 0%nat ->
    kzalloc size s = Ok (0, s)
}.

Module KernelHeap.

(** ** State and operations *)

Record kmem := KMem {
  kernel_heap : Heap.heap_desc;
  mem : gmap Z Z
}.

(** [entries_mem]: the bytes found at KERNEL_HEAP_TABLE_ADDR.  A failure is
    only printed; the return value is [heap_create]'s. *)
Definition kernel_heap_init (kernel_heap : Heap.heap_desc) (entries_mem : list Z)
    : outcome (Z * Heap.heap_desc) :=
  let kernel_heap_table :=
    Heap.HeapTable entries_mem (KERNEL_HEAP_SIZE / HEAP_BLOCK_SIZE) in
  let end_addr := KERNEL_HEAP_ADDRESS + KERNEL_HEAP_SIZE in
  Heap.heap_create kernel_heap KERNEL_HEAP_ADDRESS end_addr kernel_heap_table.

Definition kmalloc (size : Z) : M kmem Z := fun k =>
  '(p, h) ← Heap.heap_malloc (kernel_heap k) size; Ok (p, KMem h (mem k)).

Definition kfree (ptr : Z) : M kmem Z := fun k =>
  '(rc, h) ← Heap.heap_free (kernel_heap k) ptr; Ok (rc, KMem h (mem k)).

Definition kzalloc (size : Z) : M kmem Z :=
  ptr ← kmalloc size;
  if ptr =? 0 then mret 0
  else
    _ ← modify (fun k => KMem (kernel_heap k) (PhysMem.memset (mem k) ptr 0 size));
    mret ptr.


(** The live blocks of the table, by address. *)
Definition live_addrs (h : Heap.heap_desc) (B : gmap nat nat) : gmap Z nat :=
  kmap (Heap.block_addr h) B.

(** The heap lies in the lower half of the address space: its addresses are not
    mistaken for error codes. *)
Definition low_heap (h : Heap.heap_desc) : Prop :=
  Heap.start_addr h + Heap.total_entries (Heap.table h) * HEAP_BLOCK_SIZE <= 2147483648.

Definition kmem_rep (k : kmem) (L : gmap Z nat) : Prop :=
  exists B, Heap.heap_rep (kernel_heap k) B /\ L = live_addrs (kernel_heap k) B /\
    low_heap (kernel_heap k).

#[export] Instance kmem_allocator : Allocator kmem := {
  kzalloc := kzalloc;
  kfree := kfree
}.

#[export] Instance kmem_view : AllocatorView kmem := {
  alloc_rep := kmem_rep;
  alloc_free k := Heap.free_count (Heap.entries (Heap.table (kernel_heap k)))
}.

(** ** The interface holds *)

#[export] Instance block_addr_Inj h : Inj (=) (=) (Heap.block_addr h).
Proof. intros k k'. apply Heap.block_addr_inj. Qed.

Lemma block_addr_aligned h k :
  Heap.heap_ok h -> Heap.block_addr h k mod HEAP_BLOCK_SIZE = 0.
Proof.
  intros (_ & _ & _ & Ha & _). unfold Heap.block_addr, HEAP_BLOCK_SIZE in *. zlia.
Qed.

Lemma block_addr_range h k :
  Heap.heap_ok h -> (k < length (Heap.entries (Heap.table h)))%nat ->
  0 < Heap.block_addr h k <= 4294963200 /\
  (low_heap h -> Heap.block_addr h k <= 2147479552).
Proof.
  intros (Hlen & _ & H0 & _ & He) Hk.
  unfold low_heap, Heap.block_addr, HEAP_BLOCK_SIZE in *. lia.
Qed.

Lemma blocks_for_one size : 0 < size <= HEAP_BLOCK_SIZE -> Heap.blocks_for size = 1%nat.
Proof. unfold Heap.blocks_for, HEAP_BLOCK_SIZE. intros. zlia. Qed.

Lemma kzalloc_full k B size :
  Heap.heap_rep (kernel_heap k) B -> 0 < size <= HEAP_BLOCK_SIZE ->
  Heap.free_count (Heap.entries (Heap.table (kernel_heap k))) = 0%nat ->
  kzalloc size k = Ok (0, k).
Proof.
  intros Hrep Hsize Hfree. pose proof (blocks_for_one _ Hsize) as Hn.
  pose proof (Heap.rep_ok _ _ Hrep) as Hok. unfold HEAP_BLOCK_SIZE in Hsize.
  assert (Hnone : forall b, ~ Heap.free_run (Heap.entries (Heap.table (kernel_heap k))) b 1).
  { intros b Hb. assert (0 < 0)%nat; [|lia]. rewrite <- Hfree at 2.
    apply Heap.free_count_fit. eauto. }
  unfold kzalloc, kmalloc, mbind, M_bind.
  rewrite (Heap.heap_malloc_full _ size Hok); [destruct k; done|lia|by rewrite Hn|].
  set (es := Heap.entries (Heap.table (kernel_heap k))) in *.
  pose proof (Heap.trailing_free_le es) as Hle.
  destruct (Heap.trailing_free es) as [|t] eqn:Et; [done|].
  destruct (Hnone (length es - 1)%nat). apply Heap.trailing_free_run; lia.
Qed.

(** The address [a] lies in a block of the heap that is free. *)
Definition in_free (k : kmem) (a : Z) : Prop :=
  exists b, Heap.free_run (Heap.entries (Heap.table (kernel_heap k))) b 1 /\
    Heap.block_addr (kernel_heap k) b <= a < Heap.block_addr (kernel_heap k) b + HEAP_BLOCK_SIZE.

Abbreviation free_total k := (Heap.free_count (Heap.entries (Heap.table (kernel_heap k)))).

(** The free blocks at the end of the heap, which first fit takes last. *)
Definition reserve (k : kmem) : nat := Heap.trailing_free (Heap.entries (Heap.table (kernel_heap k))).

(** What an allocation of [size] bytes at [p] does to the heap and to memory. *)
Record new_block (k k' : kmem) (L : gmap Z nat) (p size : Z) : Prop := {
  nb_rep : kmem_rep k' (<[p := Heap.blocks_for size]> L);
  nb_fresh : L !! p = None;
  nb_range : 0 < p /\ p + HEAP_BLOCK_SIZE * Z.of_nat (Heap.blocks_for size) <= 2147483648 /\
    p mod HEAP_BLOCK_SIZE = 0;
  nb_free a : p <= a < p + HEAP_BLOCK_SIZE * Z.of_nat (Heap.blocks_for size) -> in_free k a /\ ~ in_free k' a;
  nb_mono a : in_free k' a -> in_free k a;
  nb_count : free_total k = (free_total k' + Heap.blocks_for size)%nat;
  nb_reserve r : (r + Heap.blocks_for size <= reserve k)%nat \/
    Heap.blocks_for size = 1%nat /\ (r <= reserve k)%nat /\ (r < free_total k)%nat -> (r <= reserve k')%nat;
  nb_load a : PhysMem.load8 (mem k') a = if bool_decide (p <= a < p + size) then 0 else PhysMem.load8 (mem k) a;
  nb_start : Heap.start_addr (kernel_heap k') = Heap.start_addr (kernel_heap k)
}.

Lemma blocks_for_bounds size : 0 < size <= 4294963200 ->
  (0 < Heap.blocks_for size)%nat /\ size <= 4096 * Z.of_nat (Heap.blocks_for size) /\
  Z.of_nat (Heap.blocks_for size) < 4294967296.
Proof. unfold Heap.blocks_for. intros. zlia. Qed.

(** A block taken by first fit is not free any more, and no other block became free. *)
Lemma splice_free es b n c : Heap.free_run (splice b (Heap.chain n) es) c 1 -> (b + n <= length es)%nat ->
  Heap.free_run es c 1 /\ ~ (b <= c < b + n)%nat.
Proof.
  intros Hc Hl. destruct (Hc c) as (e & He & Hfe); [lia|].
  destruct (decide (b <= c < b + n)%nat) as [Hin|Hout].
  - replace c with (b + (c - b))%nat in He by lia.
    rewrite lookup_splice_in in He by (rewrite Heap.length_chain; lia).
    apply Heap.chain_entry in He as [He _]. congruence.
  - split; [|done]. intros j Hj. replace j with c by lia. exists e. split; [|done].
    rewrite lookup_splice_out in He by (rewrite Heap.length_chain; lia). done.
Qed.

(** First fit leaves the end of the table alone as long as it can. *)
Lemma first_fit_low es n b r : Heap.first_fit es n b -> (0 < n)%nat ->
  (r + n <= Heap.trailing_free es)%nat \/
  n = 1%nat /\ (r <= Heap.trailing_free es)%nat /\ (r < Heap.free_count es)%nat ->
  (b + n + r <= length es)%nat.
Proof.
  intros [Hrun Hfirst] Hn [Hr|(-> & Hr & Hc)].
  - pose proof (Heap.trailing_free_le es). pose proof (proj2 (Heap.trailing_free_run es (Heap.trailing_free es) ltac:(lia)) ltac:(lia)) as Ht.
    assert (~ (length es - Heap.trailing_free es < b)%nat); [|lia]. intros Hlt. apply (Hfirst _ Hlt).
    intros j Hj. apply Ht. lia.
  - pose proof (Heap.trailing_free_le es).
    assert (Hlow : (0 < Heap.free_count (take (length es - r) es))%nat).
    { assert (E : Heap.free_count es = (Heap.free_count (take (length es - r) es) + Heap.free_count (drop (length es - r) es))%nat).
      { by rewrite <- Heap.free_count_app, take_drop. }
      pose proof (Heap.free_count_le (drop (length es - r) es)) as Hd. rewrite length_drop in Hd. lia. }
    apply Heap.free_count_fit in Hlow as [c Hc']. pose proof (Heap.free_run_bound _ _ _ Nat.lt_0_1 Hc') as Hb.
    rewrite length_take in Hb. assert (~ (c < b)%nat); [|lia]. intros Hlt. apply (Hfirst c Hlt).
    intros j Hj. destruct (Hc' j Hj) as (e & He & Hf). exists e. split; [|done]. by apply lookup_take_Some in He as [? _].
Qed.

Lemma splice_trailing es n b r : (r <= Heap.trailing_free es)%nat -> (b + n + r <= length es)%nat ->
  (r <= Heap.trailing_free (splice b (Heap.chain n) es))%nat.
Proof.
  intros Hr Hl. assert (Hlen : length (splice b (Heap.chain n) es) = length es).
  { apply length_splice. rewrite Heap.length_chain. lia. }
  apply Heap.trailing_free_run; [lia|]. rewrite Hlen. intros j Hj.
  apply Heap.trailing_free_run in Hr; [|lia]. destruct (Hr j Hj) as (e & He & Hf). exists e. split; [|done].
  rewrite lookup_splice_out by (rewrite Heap.length_chain; lia). done.
Qed.

(** An allocation of any size for which a run of blocks is free. *)
Lemma kzalloc_fits k L size b0 :
  kmem_rep k L -> 0 < size <= 4294963200 ->
  Heap.free_run (Heap.entries (Heap.table (kernel_heap k))) b0 (Heap.blocks_for size) ->
  exists p k', kzalloc size k = Ok (p, k') /\ new_block k k' L p size.
Proof.
  intros (B & Hrep & -> & Hlow) Hsize Hrun0. pose proof (Heap.rep_ok _ _ Hrep) as Hok.
  destruct (blocks_for_bounds _ Hsize) as (Hn & Hns & Hn32).
  destruct (Heap.fit_or_none (kernel_heap k) (Heap.blocks_for size)) as [[b Hb]|Hno];
    [done|lia|lia| |by destruct (Hno b0)].
  pose proof Hb as [Hrun _]. pose proof (Heap.free_run_bound _ _ _ Hn Hrun) as Hbound.
  pose proof (Heap.heap_rep_malloc _ _ _ _ Hrep Hn Hrun) as Hrep'.
  pose proof (proj1 (Heap.free_run_apart _ _ _ _ Hrep Hn) Hrun) as [_ Hap].
  pose proof (Heap.heap_malloc_fit _ size b Hok ltac:(lia) Hb) as Hm.
  set (n := Heap.blocks_for size) in *. pose proof (Heap.block_addr_pos _ b Hok) as Hpos.
  assert (Hend : Heap.block_addr (kernel_heap k) b + 4096 * Z.of_nat n <= 2147483648).
  { destruct Hok as (Hl & _). unfold low_heap, Heap.block_addr, HEAP_BLOCK_SIZE in *. lia. }
  do 2 eexists. split.
  { unfold kzalloc, kmalloc, mbind, M_bind. rewrite Hm. cbn [mbind outcome_bind].
    destruct (Z.eqb_spec (Heap.block_addr (kernel_heap k) b) 0); [lia|]. reflexivity. }
  constructor; unfold in_free, reserve; cbn [kernel_heap mem Heap.table Heap.entries Heap.set_entries];
    change (Heap.block_addr (Heap.set_entries _ _)) with (Heap.block_addr (kernel_heap k)); fold n.
  - eexists. split; [exact Hrep'|]. split; [|exact Hlow]. unfold live_addrs.
    rewrite <- (kmap_insert (Heap.block_addr (kernel_heap k))). done.
  - unfold live_addrs. rewrite (lookup_kmap (Heap.block_addr (kernel_heap k))).
    destruct (B !! b) as [n'|] eqn:E; [|done]. specialize (Hap _ _ E).
    pose proof (Heap.rep_live _ _ Hrep _ _ E). unfold Heap.apart in Hap. lia.
  - split; [lia|]. split; [unfold HEAP_BLOCK_SIZE; lia|by apply block_addr_aligned].
  - unfold HEAP_BLOCK_SIZE. intros a Ha. split.
    + exists (b + Z.to_nat ((a - Heap.block_addr (kernel_heap k) b) / 4096))%nat. split.
      * intros j Hj. apply Hrun. zlia.
      * unfold Heap.block_addr, HEAP_BLOCK_SIZE in *. zlia.
    + intros (c & Hc & Hac). apply splice_free in Hc as [_ Hc]; [|done]. apply Hc.
      unfold Heap.block_addr, HEAP_BLOCK_SIZE in *. lia.
  - intros a (c & Hc & Hac). apply splice_free in Hc as [Hc _]; [|done]. by exists c.
  - by apply Heap.free_count_malloc.
  - intros r Hr. apply splice_trailing; [lia|]. by apply first_fit_low.
  - intros a. rewrite PhysMem.load8_memset by lia. done.
  - done.
Qed.

(** The memory asked for is within the block. *)
Lemma nb_size k k' L p size : new_block k k' L p size -> 0 < size <= 4294963200 ->
  forall a, p <= a < p + size -> in_free k a /\ ~ in_free k' a.
Proof.
  intros Hb Hs a Ha. apply (nb_free _ _ _ _ _ Hb). pose proof (blocks_for_bounds _ Hs).
  unfold HEAP_BLOCK_SIZE. lia.
Qed.

Lemma kzalloc_run k L size b0 :
  kmem_rep k L -> 0 < size <= 4294963200 ->
  Heap.free_run (Heap.entries (Heap.table (kernel_heap k))) b0 (Heap.blocks_for size) ->
  exists p k', kzalloc size k = Ok (p, k') /\
    kmem_rep k' (<[p := Heap.blocks_for size]> L) /\ L !! p = None /\
    0 < p /\ p + size <= 2147483648 /\ p mod HEAP_BLOCK_SIZE = 0 /\
    (forall a, p <= a < p + HEAP_BLOCK_SIZE * Z.of_nat (Heap.blocks_for size) ->
       in_free k a /\ ~ in_free k' a) /\
    (forall a, in_free k' a -> in_free k a) /\
    (forall a, PhysMem.load8 (mem k') a =
       if bool_decide (p <= a < p + size) then 0 else PhysMem.load8 (mem k) a).
Proof.
  intros Hrep Hsize Hrun. destruct (kzalloc_fits k L size b0 Hrep Hsize Hrun) as (p & k' & Hz & [? ? (? & ? & ?) ? ? ? ? ?]).
  pose proof (blocks_for_bounds _ Hsize). exists p, k'. unfold HEAP_BLOCK_SIZE in *. split_and!; try done. lia.
Qed.

(** A request of at most one block, with a free block. *)
Lemma kzalloc_page k L size :
  kmem_rep k L -> 0 < size <= HEAP_BLOCK_SIZE -> (0 < free_total k)%nat ->
  exists p k', kzalloc size k = Ok (p, k') /\ new_block k k' L p size.
Proof.
  intros Hrep Hsize Hf. apply Heap.free_count_fit in Hf as [b Hb]. apply (kzalloc_fits k L size b); [done| |].
  - unfold HEAP_BLOCK_SIZE in Hsize. lia.
  - by rewrite blocks_for_one.
Qed.

(** A request for which the free blocks at the end of the heap are enough. *)
Lemma reserve_run k n : (n <= reserve k)%nat ->
  exists b, Heap.free_run (Heap.entries (Heap.table (kernel_heap k))) b n.
Proof.
  unfold reserve. set (es := Heap.entries (Heap.table (kernel_heap k))). intros Hr. exists (length es - n)%nat.
  pose proof (Heap.trailing_free_le es). apply Heap.trailing_free_run; [lia|done].
Qed.

Lemma kzalloc_reserve k L size :
  kmem_rep k L -> 0 < size <= 4294963200 -> (Heap.blocks_for size <= reserve k)%nat ->
  exists p k', kzalloc size k = Ok (p, k') /\ new_block k k' L p size.
Proof. intros Hrep Hsize Hr. destruct (reserve_run k _ Hr) as [b Hb]. by apply (kzalloc_fits k L size b). Qed.

Lemma kzalloc_block k L size f :
  kmem_rep k L -> 0 < size <= HEAP_BLOCK_SIZE -> free_total k = S f ->
  exists p k', kzalloc size k = Ok (p, k') /\
    kmem_rep k' (<[p := 1%nat]> L) /\ free_total k' = f /\
    L !! p = None /\ 0 < p <= 2147479552 /\ p mod HEAP_BLOCK_SIZE = 0 /\
    (forall a, PhysMem.load8 (mem k') a =
       if bool_decide (p <= a < p + size) then 0 else PhysMem.load8 (mem k) a).
Proof.
  intros Hrep Hsize Hf. destruct (kzalloc_page k L size Hrep Hsize ltac:(lia)) as (p & k' & Hz & [H1 ? (? & H3 & ?) ? ? H6 ? ?]).
  rewrite (blocks_for_one _ Hsize) in *. unfold HEAP_BLOCK_SIZE in *. exists p, k'. split_and!; try done; lia.
Qed.

(** ** Releasing *)

Lemma kfree_block k B b n :
  Heap.heap_rep (kernel_heap k) B -> B !! b = Some n ->
  let h := kernel_heap k in
  let h' := Heap.set_entries h (splice b (replicate n 0) (Heap.entries (Heap.table h))) in
  kfree (Heap.block_addr h b) k = Ok (0, KMem h' (mem k)) /\ Heap.heap_rep h' (delete b B).
Proof.
  intros Hrep Hb. cbn zeta. destruct (Heap.rep_live _ _ Hrep _ _ Hb) as [Hn Hc].
  split; [|by apply Heap.heap_rep_free].
  unfold kfree. rewrite (Heap.heap_free_chain _ b n); [done|apply Hrep|done|done].
Qed.

Lemma reserve_le_free k : (reserve k <= free_total k)%nat.
Proof.
  unfold reserve. set (es := Heap.entries (Heap.table (kernel_heap k))). pose proof (Heap.trailing_free_le es) as Hl.
  pose proof (proj2 (Heap.trailing_free_run es (Heap.trailing_free es) Hl) ltac:(lia)) as Ht.
  rewrite <- (take_drop (length es - Heap.trailing_free es) es) at 2. rewrite Heap.free_count_app.
  rewrite (Heap.free_count_all (drop _ es)); [rewrite length_drop; lia|].
  intros i e Hi. rewrite lookup_drop in Hi. pose proof (lookup_lt_Some _ _ _ Hi).
  destruct (Ht (length es - Heap.trailing_free es + i)%nat) as (e' & He' & Hf); [lia|]. congruence.
Qed.

Lemma free_trailing es n b : (b + n <= length es)%nat ->
  (Heap.trailing_free es <= Heap.trailing_free (splice b (replicate n (0 : Z)) es))%nat.
Proof.
  intros Hl. pose proof (Heap.trailing_free_le es) as Ht.
  assert (Hlen : length (splice b (replicate n (0 : Z)) es) = length es) by (apply length_splice; rewrite length_replicate; lia).
  apply Heap.trailing_free_run; [lia|]. rewrite Hlen. intros j Hj. destruct (decide (b <= j < b + n)%nat) as [Hin|Hout].
  - exists 0. split; [|done]. replace j with (b + (j - b))%nat by lia.
    rewrite lookup_splice_in by (rewrite length_replicate; lia). apply lookup_replicate_2. lia.
  - rewrite lookup_splice_out by (rewrite length_replicate; lia).
    apply (proj2 (Heap.trailing_free_run es (Heap.trailing_free es) Ht) ltac:(lia)). lia.
Qed.

(** What the release of the allocation of [n] blocks at [p] does: nothing to memory,
    and no other block becomes free. *)
Record freed_block (k k' : kmem) (L : gmap Z nat) (p : Z) (n : nat) : Prop := {
  fb_rep : kmem_rep k' (delete p L);
  fb_mem : mem k' = mem k;
  fb_count : free_total k' = (free_total k + n)%nat;
  fb_reserve : (reserve k <= reserve k')%nat;
  fb_free a : in_free k' a -> in_free k a \/ p <= a < p + HEAP_BLOCK_SIZE * Z.of_nat n;
  fb_start : Heap.start_addr (kernel_heap k') = Heap.start_addr (kernel_heap k)
}.

Lemma splice_freed es b n c : Heap.free_run (splice b (replicate n (0 : Z)) es) c 1 -> (b + n <= length es)%nat ->
  Heap.free_run es c 1 \/ (b <= c < b + n)%nat.
Proof.
  intros Hc Hl. destruct (decide (b <= c < b + n)%nat) as [Hin|Hout]; [by right|left].
  intros j Hj. destruct (Hc j Hj) as (e & He & Hf). exists e. split; [|done].
  rewrite lookup_splice_out in He by (rewrite length_replicate; lia). done.
Qed.

Lemma kfree_freed k L p n : kmem_rep k L -> L !! p = Some n ->
  exists k', kfree p k = Ok (0, k') /\ freed_block k k' L p n.
Proof.
  intros (B & Hrep & -> & Hlow) Hp. unfold live_addrs in Hp.
  apply lookup_kmap_Some in Hp as (b & -> & Hb); [|apply _].
  destruct (kfree_block _ _ _ _ Hrep Hb) as [Hr Hrep']. destruct (Heap.rep_live _ _ Hrep _ _ Hb) as [Hn Hc].
  pose proof (Heap.chain_at_bound _ _ _ Hn Hc) as Hbd.
  eexists. split; [exact Hr|]. constructor; cbn [mem kernel_heap Heap.start_addr Heap.set_entries]; try done.
  - eexists. split; [exact Hrep'|]. split; [|exact Hlow]. unfold live_addrs.
    rewrite <- (kmap_delete (Heap.block_addr (kernel_heap k))). done.
  - by apply Heap.free_count_free.
  - by apply free_trailing.
  - intros a (c & Hf & Hac). apply splice_freed in Hf as [Hf|Hf]; [left; by exists c|right|done].
    cbn [kernel_heap] in Hac. unfold Heap.block_addr, HEAP_BLOCK_SIZE in *. cbn [Heap.start_addr Heap.set_entries] in Hac. lia.
Qed.

Lemma kfree_live_mem k L p n :
  kmem_rep k L -> L !! p = Some n ->
  exists k', kfree p k = Ok (0, k') /\ kmem_rep k' (delete p L) /\ mem k' = mem k /\
    free_total k' = (free_total k + n)%nat /\ (reserve k <= reserve k')%nat.
Proof. intros Hrep Hp. destruct (kfree_freed _ _ _ _ Hrep Hp) as (k' & Hr & []). by exists k'. Qed.

(** A live allocation is not free. *)
Lemma live_not_free k L p n a :
  kmem_rep k L -> L !! p = Some n -> p <= a < p + HEAP_BLOCK_SIZE * Z.of_nat n -> ~ in_free k a.
Proof.
  intros (B & Hrep & -> & _) Hp Ha (c & Hc & Hac). unfold live_addrs in Hp.
  apply lookup_kmap_Some in Hp as (b & -> & Hb); [|apply _].
  apply (proj1 (Heap.free_run_apart _ _ _ _ Hrep Nat.lt_0_1)) in Hc as [_ Hap]. specialize (Hap _ _ Hb).
  unfold Heap.apart, Heap.block_addr, HEAP_BLOCK_SIZE in *. lia.
Qed.

(** Live allocations lie in the lower half of the address space, apart from each
    other. *)
Lemma live_range k L p n : kmem_rep k L -> L !! p = Some n ->
  0 < p /\ p + HEAP_BLOCK_SIZE * Z.of_nat n <= 2147483648 /\ Heap.start_addr (kernel_heap k) <= p.
Proof.
  intros (B & Hrep & -> & Hlow) Hp. unfold live_addrs in Hp.
  apply lookup_kmap_Some in Hp as (b & -> & Hb); [|apply _].
  pose proof (Heap.rep_ok _ _ Hrep) as Hok. split; [by apply Heap.block_addr_pos|].
  destruct (Heap.rep_live _ _ Hrep _ _ Hb) as [Hn Hc]. pose proof (Heap.chain_at_bound _ _ _ Hn Hc).
  destruct Hok as (Hl & _). unfold low_heap, Heap.block_addr, HEAP_BLOCK_SIZE in *. lia.
Qed.

Lemma live_aligned k L p n : kmem_rep k L -> L !! p = Some n -> p mod HEAP_BLOCK_SIZE = 0.
Proof.
  intros (B & Hrep & -> & _) Hp. unfold live_addrs in Hp. apply lookup_kmap_Some in Hp as (b & -> & _); [|apply _].
  by apply block_addr_aligned, (Heap.rep_ok _ _ Hrep).
Qed.

Lemma in_free_start k a : in_free k a -> Heap.start_addr (kernel_heap k) <= a.
Proof. intros (b & _ & Hb). unfold Heap.block_addr, HEAP_BLOCK_SIZE in Hb. lia. Qed.

Lemma live_apart k L p n q n' a : kmem_rep k L -> L !! p = Some n -> L !! q = Some n' -> p <> q ->
  p <= a < p + HEAP_BLOCK_SIZE * Z.of_nat n -> ~ (q <= a < q + HEAP_BLOCK_SIZE * Z.of_nat n').
Proof.
  intros (B & Hrep & -> & _) Hp Hq Hne Ha Hb. unfold live_addrs in Hp, Hq.
  apply lookup_kmap_Some in Hp as (b & -> & Hp); [|apply _]. apply lookup_kmap_Some in Hq as (c & -> & Hq); [|apply _].
  pose proof (Heap.rep_disjoint _ _ _ _ _ _ Hrep Hp Hq ltac:(congruence)) as Hap.
  unfold Heap.apart, Heap.block_addr, HEAP_BLOCK_SIZE in *. lia.
Qed.

(** ** Growth *)

(** Between two states only allocations were made, and memory was written only in
    what they returned. *)
Record extends (k k' : kmem) : Prop := {
  ext_mem a : ~ in_free k a -> PhysMem.load8 (mem k') a = PhysMem.load8 (mem k) a;
  ext_free a : in_free k' a -> in_free k a;
  ext_count : (free_total k' <= free_total k)%nat;
  ext_reserve r : (r + (free_total k - free_total k') <= reserve k)%nat -> (r <= reserve k')%nat;
  ext_start : Heap.start_addr (kernel_heap k') = Heap.start_addr (kernel_heap k)
}.

#[export] Instance extends_preorder : PreOrder extends.
Proof.
  split.
  - intros k. constructor; [done|done|lia|lia|done].
  - intros k1 k2 k3 [H1 H2 H3 H4 S1] [H5 H6 H7 H8 S2]. constructor; [|auto|lia| |congruence].
    + intros a Ha. rewrite H5, H1; [done|done|auto].
    + intros r Hr. apply H8, H4. lia.
Qed.

Lemma new_block_extends k k' L p size : new_block k k' L p size -> 0 < size <= 4294963200 -> extends k k'.
Proof.
  intros Hb Hs. constructor.
  - intros a Ha. rewrite (nb_load _ _ _ _ _ Hb), bool_decide_false; [done|].
    intros Hin. by destruct (nb_size _ _ _ _ _ Hb Hs a Hin).
  - apply (nb_mono _ _ _ _ _ Hb).
  - pose proof (nb_count _ _ _ _ _ Hb). lia.
  - intros r Hr. apply (nb_reserve _ _ _ _ _ Hb). pose proof (nb_count _ _ _ _ _ Hb). left. lia.
  - apply Hb.
Qed.

Definition set_mem (k : kmem) (m : gmap Z Z) : kmem := KMem (kernel_heap k) m.

(** Writing to what was allocated since [k]. *)
Lemma extends_write k k' m : extends k k' ->
  (forall a, ~ in_free k a -> PhysMem.load8 m a = PhysMem.load8 (mem k') a) -> extends k (set_mem k' m).
Proof.
  intros [H1 H2 H3 H4 H5] Hm. constructor; [|exact H2|exact H3|exact H4|exact H5].
  intros a Ha. cbn [mem set_mem]. by rewrite Hm, H1.
Qed.

#[export] Instance kmem_laws : AllocatorLaws kmem.
Proof.
  split.
  - intros k L size f Hrep Hsize Hf.
    destruct (kzalloc_block _ _ _ _ Hrep Hsize Hf) as (p & k' & Hr & ? & ? & ? & ? & ? & _).
    unfold wp. simpl. by rewrite Hr.
  - intros k L p n Hrep Hp. destruct (kfree_live_mem k L p n Hrep Hp) as (k' & Hr & ? & _ & ? & _).
    unfold wp. simpl. by rewrite Hr.
Qed.

#[export] Instance kmem_exhausted : AllocatorExhausted kmem.
Proof. split. intros k L size (B & Hrep & -> & _) Hsize Hf. by eapply kzalloc_full. Qed.

(** ** Theorems *)

(** The heap [kernel_heap_init] sets up: 25600 free blocks from 16 MB. *)
Definition kernel_heap_blocks : nat := Z.to_nat 25600.
Definition fresh_heap : Heap.heap_desc :=
  Heap.HeapDesc (Heap.HeapTable (replicate kernel_heap_blocks 0) 25600) KERNEL_HEAP_ADDRESS.

Lemma kernel_heap_blocks_Z : Z.of_nat kernel_heap_blocks = 25600.
Proof. unfold kernel_heap_blocks. lia. Qed.

Lemma kernel_heap_init_fresh h0 (entries_mem : list Z) :
  length entries_mem = kernel_heap_blocks ->
  kernel_heap_init h0 entries_mem = Ok (0, fresh_heap).
Proof.
  intros Hlen. unfold kernel_heap_init, Heap.heap_create.
  change (KERNEL_HEAP_SIZE / HEAP_BLOCK_SIZE) with 25600.
  change (negb _) with false. cbv iota.
  change (Heap.heap_valid_table _ _ _) with true. cbn [negb].
  pose proof kernel_heap_blocks_Z as HZ.
  cbn [Heap.entries Heap.total_entries]. rewrite Memory.memset_ok by lia.
  rewrite drop_ge, app_nil_r by lia. cbn [mbind outcome_bind]. done.
Qed.

#[local] Opaque Heap.heap_create.

Lemma kernel_heap_init_reach h0 (entries_mem : list Z) :
  length entries_mem = kernel_heap_blocks ->
  exists h, kernel_heap_init h0 entries_mem = Ok (0, h) /\ Heap.heap_reach h ∅ /\
    h = fresh_heap.
Proof.
  intros Hlen. pose proof (kernel_heap_init_fresh h0 _ Hlen) as Hi.
  exists fresh_heap. split; [exact Hi|]. split; [|reflexivity].
  assert (Hlz : Z.of_nat (length entries_mem) = 25600)
    by (rewrite Hlen; apply kernel_heap_blocks_Z).
  revert Hi Hlz. clear Hlen. generalize fresh_heap. intros h Hi Hlz.
  apply (Heap.reach_create h0 KERNEL_HEAP_ADDRESS (KERNEL_HEAP_ADDRESS + KERNEL_HEAP_SIZE)
    (Heap.HeapTable entries_mem (KERNEL_HEAP_SIZE / HEAP_BLOCK_SIZE))).
  - unfold KERNEL_HEAP_ADDRESS. lia.
  - unfold KERNEL_HEAP_ADDRESS, KERNEL_HEAP_SIZE. lia.
  - exact Hlz.
  - change (25600 <= 262144). lia.
  - exact Hi.
Qed.

(** A request of 0 bytes takes nothing, yet while the last block of the heap is
    free it is answered by the address of a free block, which the next request
    can be given as well. *)
Lemma kzalloc_zero k L :
  kmem_rep k L -> (0 < reserve k)%nat ->
  exists p, kzalloc 0 k = Ok (p, k) /\ 0 < p /\ p mod HEAP_BLOCK_SIZE = 0 /\ in_free k p.
Proof.
  intros (B & Hrep & _ & _) Hr. pose proof (Heap.rep_ok _ _ Hrep) as Hok. unfold reserve in Hr.
  set (es := Heap.entries (Heap.table (kernel_heap k))) in *.
  pose proof (Heap.trailing_free_le es) as Hle.
  set (b := (length es - Heap.trailing_free es)%nat).
  pose proof (Heap.block_addr_pos _ b Hok) as Hpos.
  exists (Heap.block_addr (kernel_heap k) b). split_and!; [|done|by apply block_addr_aligned|].
  - unfold kzalloc, kmalloc, mbind, M_bind.
    rewrite Heap.heap_malloc_empty by (done || by left). fold es.
    destruct (decide _); [lia|]. cbn [mbind outcome_bind]. fold b.
    destruct (Z.eqb_spec (Heap.block_addr (kernel_heap k) b) 0); [lia|]. by destruct k.
  - exists b. split; [|unfold HEAP_BLOCK_SIZE; lia]. fold es. intros j Hj.
    apply (proj2 (Heap.trailing_free_run es _ Hle) (le_n _)). lia.
Qed.

Example kzalloc_zero_shared :
  match (a ← kzalloc 0; b ← kzalloc 4096; mret (a, b)) (KMem Heap.heap4 ∅) with
  | Ok (r, _) => r = (0x1000000, 0x1000000)
  | _ => False
  end.
Proof. vm_compute. reflexivity. Qed.

(** C21 (safety).  [kzalloc] of 1 byte up to 4 GB less a block, on every outcome.
    With a run of free blocks long enough it returns the block-aligned, non-null
    address of the first such run, which no live allocation meets; the bytes asked
    for read as zero afterwards, every byte outside them is unchanged, and the live
    allocations are the old ones and the new one.  Without one it returns null and
    changes nothing when the last block is taken, and overruns the table when the
    table ends in a free run. *)
Theorem kzalloc_fresh_zeroed k B size :
  Heap.heap_rep (kernel_heap k) B -> 0 < size <= 4294963200 ->
  let h := kernel_heap k in
  let es := Heap.entries (Heap.table h) in
  let n := Heap.blocks_for size in
  (exists b k', kzalloc size k = Ok (Heap.block_addr h b, k') /\ Heap.first_fit es n b /\
    Heap.heap_rep (kernel_heap k') (<[b := n]> B) /\
    (forall b' n', B !! b' = Some n' -> Heap.apart b n b' n') /\
    0 < Heap.block_addr h b /\ Heap.block_addr h b mod HEAP_BLOCK_SIZE = 0 /\
    (forall a, PhysMem.load8 (mem k') a =
       if bool_decide (Heap.block_addr h b <= a < Heap.block_addr h b + size)
       then 0 else PhysMem.load8 (mem k) a)) \/
  (kzalloc size k = Ok (0, k) /\ Heap.no_fit es n /\ Heap.trailing_free es = 0%nat) \/
  (kzalloc size k = Fault /\ Heap.no_fit es n /\ (0 < Heap.trailing_free es)%nat).
Proof.
  intros Hrep Hsize h es n. pose proof (Heap.rep_ok _ _ Hrep) as Hok.
  destruct (blocks_for_bounds _ Hsize) as (Hn & Hns & Hn32).
  unfold kzalloc, kmalloc, mbind, M_bind. fold h in Hrep, Hok |- *.
  destruct (Heap.fit_or_none h n) as [[b Hb]|Hno]; [done|done|done| |].
  - left. pose proof (Heap.block_addr_pos _ b Hok) as Hpos. destruct (id Hb) as [Hrun _].
    pose proof (Heap.free_run_bound _ _ _ Hn Hrun) as Hbound.
    exists b. eexists. rewrite (Heap.heap_malloc_fit h size b Hok Hsize Hb). cbn [mbind outcome_bind].
    destruct (Z.eqb_spec (Heap.block_addr h b) 0); [unfold h in *; lia|]. split; [reflexivity|].
    split_and!; [done|by apply Heap.heap_rep_malloc|by apply (Heap.free_run_apart _ _ _ _ Hrep Hn)
                |done|by apply block_addr_aligned|].
    intros a. cbn [mem]. destruct (id Hok) as (Hlen & _ & _ & _ & Hend).
    rewrite PhysMem.load8_memset by (unfold Heap.block_addr, HEAP_BLOCK_SIZE, n, es, h in *; lia). done.
  - right. destruct (decide (Heap.trailing_free es = 0%nat)) as [Ht|Ht].
    + left. rewrite Heap.heap_malloc_full by done. by destruct k.
    + right. rewrite Heap.heap_malloc_overrun by (done || (fold es; lia)). split_and!; [done|done|lia].
Qed.

Lemma kzalloc_fresh_zeroed_witness :
  exists b k', kzalloc 5000 (KMem Heap.heap4 {[ 0x1000003 := 7 ]}) =
                 Ok (Heap.block_addr Heap.heap4 b, k') /\
    Heap.heap_rep (kernel_heap k') (<[b := 2%nat]> ∅).
Proof.
  destruct (kzalloc_fresh_zeroed (KMem Heap.heap4 {[ 0x1000003 := 7 ]}) ∅ 5000)
    as [(b & k' & Hr & _ & Hrep & _)|[(Hr & _)|(Hr & _)]];
    [apply Heap.heap_reach_rep, Heap.heap4_reach|lia| | |].
  2,3: apply (f_equal (fun o => match o with Ok (p, _) => p | _ => 0 end)) in Hr;
    vm_compute in Hr; discriminate.
  exists b, k'. split; [exact Hr|exact Hrep].
Defined.

(** Boot-time initialisation succeeds whatever bytes the table
    area holds and yields a heap of 25600 free blocks starting at 16 MB, from
    which the reachable-heap invariants hold. *)
Lemma kernel_heap_init_ok h0 (entries_mem : list Z) :
  length entries_mem = kernel_heap_blocks ->
  exists h, kernel_heap_init h0 entries_mem = Ok (0, h) /\ Heap.heap_reach h ∅ /\
    Z.of_nat (Heap.free_count (Heap.entries (Heap.table h))) = 25600 /\
    Heap.start_addr h = KERNEL_HEAP_ADDRESS.
Proof.
  intros Hlen. destruct (kernel_heap_init_reach h0 _ Hlen) as (h & Hi & Hreach & ->).
  exists fresh_heap. split; [exact Hi|]. split; [exact Hreach|]. split; [|reflexivity].
  cbn [fresh_heap Heap.table Heap.entries].
  rewrite Heap.free_count_all, length_replicate; [apply kernel_heap_blocks_Z|].
  intros i e He. by apply lookup_replicate in He as [-> _].
Qed.

Lemma kernel_heap_init_ok_witness :
  exists h, kernel_heap_init Heap.heap4 (replicate kernel_heap_blocks 0xFF) = Ok (0, h) /\
    Heap.start_addr h = 0x1000000.
Proof.
  destruct (kernel_heap_init_ok Heap.heap4 (replicate kernel_heap_blocks 0xFF)) as (h & Hi & _ & _ & Hs);
    [apply length_replicate|].
  exists h. split; [exact Hi|exact Hs].
Defined.

End KernelHeap.
