(* ===== verification/HeapViews.v ===== *)
(** * A view of the kernel heap for clients that must not disturb others

    The file-system stack is proved against [AllocatorLaws].  The view below
    discharges the laws for the same heap with a stronger state: allocations [L0]
    of other components stay live and their memory stays as it was in [m0], and
    [r] blocks at the end of the heap stay free.  Every theorem on the stack,
    used at this view, then also says that the stack leaves these alone. *)
From stdpp Require Import base gmap list numbers.
From S2P Require Import Prelude Config Heap PhysMem KernelHeap.
#[local] Open Scope Z_scope.

Module HeapViews.
Import KernelHeap.

Section Guarded.
Context (L0 : gmap Z nat) (m0 : gmap Z Z) (r : nat).

(** The memory of the guarded allocations. *)
Definition guarded (m : gmap Z Z) : Prop :=
  forall p n a, L0 !! p = Some n -> p <= a < p + HEAP_BLOCK_SIZE * Z.of_nat n ->
    PhysMem.load8 m a = PhysMem.load8 m0 a.

Record guarded_rep (k : kmem) (L : gmap Z nat) : Prop := {
  gr_rep : kmem_rep k (L ∪ L0);
  gr_apart : L ##ₘ L0;
  gr_mem : guarded (mem k);
  gr_reserve : (r <= reserve k)%nat
}.

Definition guarded_view : AllocatorView kmem :=
  {| alloc_rep := guarded_rep; alloc_free k := (free_total k - r)%nat |}.

Lemma guarded_alloc k L size f :
  guarded_rep k L -> 0 < size <= HEAP_BLOCK_SIZE -> (free_total k - r)%nat = S f ->
  exists p k', kzalloc size k = Ok (p, k') /\ guarded_rep k' (<[p := 1%nat]> L) /\
    (free_total k' - r)%nat = f /\ L !! p = None /\ 0 < p <= 2147479552 /\ p mod HEAP_BLOCK_SIZE = 0.
Proof.
  intros [H1 H2 H3 H4] Hs Hf. destruct (kzalloc_page k _ size H1 Hs ltac:(lia)) as (p & k' & Hz & Hb).
  pose proof (blocks_for_one _ Hs) as Hone. pose proof Hb as [B1 B2 (B3 & B4 & B5) B6 _ B7 B8 B9].
  rewrite Hone in *. apply lookup_union_None in B2 as [B2 B2']. exists p, k'. split; [done|].
  unfold HEAP_BLOCK_SIZE in *. split; [|split_and!; [lia|done|lia|lia|done]]. constructor.
  - by rewrite <- insert_union_l.
  - by apply map_disjoint_insert_l_2.
  - intros q n a Hq Ha. rewrite B9, bool_decide_false; [by eapply H3|]. intros Hin.
    apply (live_not_free k _ q n a H1); [by apply lookup_union_Some_r|done|]. apply B6. lia.
  - apply B8. right. split; [done|]. lia.
Qed.

Lemma guarded_free k L p n :
  guarded_rep k L -> L !! p = Some n ->
  exists k', kfree p k = Ok (0, k') /\ guarded_rep k' (delete p L) /\
    (free_total k' - r)%nat = (free_total k - r + n)%nat.
Proof.
  intros [H1 H2 H3 H4] Hp. destruct (kfree_live_mem k (L ∪ L0) p n H1) as (k' & Hr & F1 & F2 & F3 & F4).
  { by apply lookup_union_Some_l. }
  pose proof (reserve_le_free k). exists k'. split; [done|]. split; [|lia].
  assert (Hp0 : L0 !! p = None) by (by eapply map_disjoint_Some_l).
  constructor.
  - by rewrite delete_union, (delete_id L0) in F1.
  - by apply map_disjoint_delete_l.
  - unfold guarded. by rewrite F2.
  - lia.
Qed.

Lemma guarded_laws : @AllocatorLaws kmem kmem_allocator guarded_view.
Proof.
  split.
  - intros k L size f Hrep Hs Hf. destruct (guarded_alloc k L size f Hrep Hs Hf) as (p & k' & Hz & H).
    unfold wp. simpl. by rewrite Hz.
  - intros k L p n Hrep Hp. destruct (guarded_free k L p n Hrep Hp) as (k' & Hr & H).
    unfold wp. simpl. by rewrite Hr.
Qed.

End Guarded.

(** The guard can grow by an allocation of another component. *)
Lemma guarded_rep_guard L0 m0 r k L k' p size :
  guarded_rep L0 m0 r k L -> new_block k k' (L ∪ L0) p size -> 0 < size <= 4294963200 ->
  (Heap.blocks_for size <= r)%nat ->
  guarded_rep (<[p := Heap.blocks_for size]> L0) (mem k') (r - Heap.blocks_for size) k' L /\
  guarded L0 m0 (mem k').
Proof.
  intros [H1 H2 H3 H4] Hb Hs Hr. pose proof Hb as [B1 B2 _ B6 _ _ B8 B9].
  apply lookup_union_None in B2 as [B2 B2']. split.
  - constructor.
    + by rewrite insert_union_r in B1.
    + by apply map_disjoint_insert_r_2.
    + done.
    + apply B8. lia.
  - intros q n a Hq Ha. rewrite B9, bool_decide_false; [by eapply H3|]. intros Hin.
    apply (live_not_free k _ q n a H1); [by apply lookup_union_Some_r|done|].
    by apply (nb_size _ _ _ _ _ Hb Hs).
Qed.

(** ** Guards in sequence *)

Lemma guarded_refl L0 m : guarded L0 m m.
Proof. done. Qed.

Lemma guarded_trans L0 L1 m0 m1 m2 : guarded L0 m0 m1 -> L0 ⊆ L1 -> guarded L1 m1 m2 -> guarded L0 m0 m2.
Proof. intros H1 HL H2 p n a Hp Ha. rewrite (H2 p n a), (H1 p n a); try done. by eapply lookup_weaken. Qed.

(** Writes to memory that was free leave the guarded memory alone. *)
Lemma guarded_extends L0 m0 r k L k' :
  guarded_rep L0 m0 r k L -> (forall a, ~ in_free k a -> PhysMem.load8 (mem k') a = PhysMem.load8 (mem k) a) ->
  guarded L0 m0 (mem k').
Proof.
  intros [H1 H2 H3 _] Hm p n a Hp Ha. rewrite Hm; [by eapply H3|].
  eapply live_not_free; [exact H1|by apply lookup_union_Some_r|exact Ha].
Qed.

End HeapViews.
