(* ===== verification/Paging.v ===== *)
(** * Two-level page tables: [src/memory/paging/paging.c]

    Page directories and page tables are arrays of 1024 32-bit words in physical
    memory, allocated from the kernel heap.  A dereference of the null pointer
    is a [Fault]; every other address is a physical address, as the kernel's own
    page tables map memory one to one. *)
From stdpp Require Import base gmap list numbers.
From S2P Require Import Prelude Config Heap PhysMem KernelHeap.
Import KernelHeap.
#[local] Open Scope Z_scope.

Module Paging.

(** ** Constants of [paging.h] *)

Definition PAGING_CACHE_DISABLE : Z := 0x10.
Definition PAGING_WRITE_THROUGH : Z := 0x08.
Definition PAGING_USER_SUPERVISOR : Z := 0x04.
Definition PAGING_READ_WRITE : Z := 0x02.
Definition PAGING_PRESENT : Z := 0x01.
Definition PGD_ENTRY_TABLE_ADDR : Z := 0xfffff000.
Definition PAGING_TABLE_ENTRIES : Z := 1024.
Definition PAGING_DIR_ENTRIES : Z := 1024.
Definition PAGING_PAGE_SIZE : Z := 4096.
Definition PAGE_TABLE_ENTRY_FLAGS_MASK : Z := 0x00000FFF.

(** ** Word accesses through a C pointer *)

(** [base[index]] for a [uint32_t *]. *)
Definition read_word (base index : Z) : M kmem Z :=
  if base =? 0 then fault
  else gets (fun k => PhysMem.load32 (mem k) (u32 (base + 4 * index))).

Definition write_word (base index v : Z) : M kmem unit :=
  if base =? 0 then fault
  else modify (fun k =>
    KMem (kernel_heap k) (PhysMem.store32 (mem k) (u32 (base + 4 * index)) v)).

(** ** Operations *)

(** The inner loop of [init_page_tables]: [offset] is an [int] that wraps. *)
Fixpoint fill_table (n : nat) (b pte offset flags : Z) : M kmem unit :=
  match n with
  | O => mret tt
  | S n' =>
      _ ← write_word pte b (u32 (Z.lor (s32 (offset + b * PAGING_PAGE_SIZE)) flags));
      fill_table n' (b + 1) pte offset flags
  end.

(** The outer loop: one page table per directory entry. *)
Fixpoint fill_directory (n : nat) (i offset pgd flags : Z) : M kmem unit :=
  match n with
  | O => mret tt
  | S n' =>
      pte ← kzalloc (4 * PAGING_TABLE_ENTRIES);
      _ ← fill_table (Z.to_nat PAGING_TABLE_ENTRIES) 0 pte offset flags;
      let offset := s32 (offset + PAGING_TABLE_ENTRIES * PAGING_PAGE_SIZE) in
      _ ← write_word pgd i (Z.lor (Z.lor pte flags) PAGING_READ_WRITE);
      fill_directory n' (i + 1) offset pgd flags
  end.

(** Returns the address of the new [struct paging_desc]. *)
Definition init_page_tables (flags : Z) : M kmem Z :=
  pgd ← kzalloc (4 * PAGING_DIR_ENTRIES);
  _ ← fill_directory (Z.to_nat PAGING_DIR_ENTRIES) 0 0 pgd flags;
  paging ← kzalloc 4;
  _ ← write_word paging 0 pgd;
  mret paging.

Definition get_pgd (paging : Z) : M kmem Z := read_word paging 0.

(** The processor's page-directory register and the file's [current_pgd]. *)
Record cpu := Cpu { cr3 : Z; current_pgd : Z }.

Definition paging_load_pgd (pgd : Z) (c : cpu) : cpu := Cpu pgd (current_pgd c).

Definition paging_switch (paging_desc : Z) (c : cpu) : M kmem cpu :=
  pgd ← read_word paging_desc 0;
  let c := paging_load_pgd pgd c in
  pgd' ← read_word paging_desc 0;
  mret (Cpu (cr3 c) pgd').

Definition paging_is_aligned (addr : Z) : bool := addr mod PAGING_PAGE_SIZE =? 0.

(** The result code and the two out-parameters, given their values before. *)
Definition paging_get_indexes (virtual_address pgd_index table_index : Z) : Z * Z * Z :=
  if negb (paging_is_aligned virtual_address)
  then (- EINVARG, pgd_index, table_index)
  else (0,
        virtual_address / (PAGING_TABLE_ENTRIES * PAGING_PAGE_SIZE),
        virtual_address mod (PAGING_TABLE_ENTRIES * PAGING_PAGE_SIZE) / PAGING_PAGE_SIZE).

Definition paging_set (pgd virtual_address val : Z) : M kmem Z :=
  if negb (paging_is_aligned virtual_address) then mret (- EINVARG)
  else
    let '(rc, pgd_index, table_index) := paging_get_indexes virtual_address 0 0 in
    if rc <? 0 then mret rc
    else
      pgd_entry ← read_word pgd pgd_index;
      let table := Z.land pgd_entry PGD_ENTRY_TABLE_ADDR in
      _ ← write_word table table_index val;
      mret 0.

Fixpoint free_tables_loop (n : nat) (i paging : Z) : M kmem unit :=
  match n with
  | O => mret tt
  | S n' =>
      pgd ← read_word paging 0;
      pgd_entry ← read_word pgd i;
      let page_table := u32 (pgd_entry * Z.lnot PAGE_TABLE_ENTRY_FLAGS_MASK) in
      _ ← kfree page_table;
      free_tables_loop n' (i + 1) paging
  end.

Definition free_page_tables (paging : Z) : M kmem unit :=
  _ ← free_tables_loop (Z.to_nat PAGING_DIR_ENTRIES) 0 paging;
  pgd ← read_word paging 0;
  _ ← kfree pgd;
  _ ← kfree paging;
  mret tt.

Fixpoint map_range_loop (n : nat) (paging_desc virt phys pg_prot : Z) : M kmem Z :=
  match n with
  | O => mret 0
  | S n' =>
      pgd ← read_word paging_desc 0;
      rc ← paging_set pgd virt (u32 (Z.lor phys pg_prot));
      if rc <? 0 then mret rc
      else map_range_loop n' paging_desc (u32 (virt + PAGING_PAGE_SIZE))
             (u32 (phys + PAGING_PAGE_SIZE)) pg_prot
  end.

Definition paging_map_range (paging_desc virt_addr phys_addr num_pages pg_prot : Z) : M kmem Z :=
  if negb (paging_is_aligned virt_addr) || negb (paging_is_aligned phys_addr)
  then mret (- EINVARG)
  else map_range_loop (Z.to_nat num_pages) paging_desc virt_addr phys_addr pg_prot.

Definition paging_create_mapping (paging_desc virt_addr phys_addr phys_end_addr pg_prot : Z)
    : M kmem Z :=
  if negb (paging_is_aligned virt_addr) || negb (paging_is_aligned phys_addr)
     || negb (paging_is_aligned phys_end_addr)
  then mret (- EINVARG)
  else if phys_end_addr <? phys_addr then mret (- EINVARG)
  else
    let total_bytes := u32 (phys_end_addr - phys_addr) in
    let total_pages := s32 (total_bytes / PAGING_PAGE_SIZE) in
    paging_map_range paging_desc virt_addr phys_addr total_pages pg_prot.

Definition paging_align_address (addr : Z) : Z :=
  if paging_is_aligned addr then addr
  else u32 (addr + PAGING_PAGE_SIZE - addr mod PAGING_PAGE_SIZE).

Definition paging_align_to_lower_page (addr : Z) : Z :=
  if paging_is_aligned addr then addr
  else u32 (addr - addr mod PAGING_PAGE_SIZE).

(** A [uint32_t]: an error code comes back converted. *)
Definition paging_get_pte (task_page_directory virt_addr : Z) : M kmem Z :=
  let '(rc, directory_index, table_index) := paging_get_indexes virt_addr 0 0 in
  if rc <? 0 then mret (u32 rc)
  else
    page_directory_entry ← read_word task_page_directory directory_index;
    let page_table := Z.land page_directory_entry PGD_ENTRY_TABLE_ADDR in
    read_word page_table table_index.

Definition paging_get_physical_address (task_page_directory virt_addr : Z) : M kmem Z :=
  let virt_addr_aligned := paging_align_to_lower_page virt_addr in
  let difference := u32 (virt_addr - virt_addr_aligned) in
  pte ← paging_get_pte task_page_directory virt_addr_aligned;
  mret (u32 (Z.land pte 0xfffff000 + difference)).

(** ** Well-formed page tables *)

(** The page table that entry [i] of the directory at [pgd] points to. *)
Definition table_of (m : gmap Z Z) (pgd i : Z) : Z :=
  Z.land (PhysMem.load32 m (pgd + 4 * i)) PGD_ENTRY_TABLE_ADDR.

(** Where the entry for the page at [va] is stored, and its value. *)
Definition pte_addr (m : gmap Z Z) (pgd va : Z) : Z :=
  table_of m pgd (va / 4194304) + 4 * (va mod 4194304 / 4096).
Definition pte (m : gmap Z Z) (pgd va : Z) : Z := PhysMem.load32 m (pte_addr m pgd va).

(** A page address: aligned and in the 4 GB space. *)
Definition page (va : Z) : Prop := 0 <= va < 4294967296 /\ va mod 4096 = 0.

(** The directory and its 1024 tables are distinct non-null pages. *)
Record pt_wf (m : gmap Z Z) (pgd : Z) : Prop := {
  wf_pgd : page pgd /\ pgd <> 0;
  wf_table i : 0 <= i < 1024 -> table_of m pgd i <> 0 /\ table_of m pgd i <> pgd;
  wf_inj i j : 0 <= i < 1024 -> 0 <= j < 1024 ->
    table_of m pgd i = table_of m pgd j -> i = j
}.

Lemma table_of_page m pgd i : page (table_of m pgd i).
Proof.
  unfold table_of, page. pose proof (PhysMem.load32_range m (pgd + 4 * i)) as Hr.
  generalize dependent (PhysMem.load32 m (pgd + 4 * i)). intros x Hx.
  change PGD_ENTRY_TABLE_ADDR with (2 ^ 32 - 2 ^ 12).
  rewrite land_high_bits by lia. change (2 ^ 12) with 4096. zlia.
Qed.

(** Two distinct pages do not overlap. *)
Lemma page_apart a b : page a -> page b -> a <> b -> a + 4096 <= b \/ b + 4096 <= a.
Proof. unfold page. zlia. Qed.

Lemma page_bound a : page a -> 0 <= a <= 4294963200.
Proof. unfold page. zlia. Qed.

(** The indices of a page address are in range. *)
Lemma page_indexes va :
  page va -> 0 <= va / 4194304 < 1024 /\ 0 <= va mod 4194304 / 4096 < 1024.
Proof. unfold page. intros. zlia. Qed.

(** Page addresses with the same indices are equal. *)
Lemma page_indexes_inj va va' :
  page va -> page va' -> va / 4194304 = va' / 4194304 ->
  va mod 4194304 / 4096 = va' mod 4194304 / 4096 -> va = va'.
Proof. unfold page. intros. zlia. Qed.

(** Two memories that agree on the directory have the same tables. *)
Lemma table_of_ext m m' pgd i :
  PhysMem.same_region m m' pgd 4096 -> 0 <= i < 1024 -> table_of m pgd i = table_of m' pgd i.
Proof.
  intros H Hi. unfold table_of. f_equal.
  apply (PhysMem.same_region_load32 _ _ pgd 4096); [done|lia|lia].
Qed.

Lemma pt_wf_ext m m' pgd :
  PhysMem.same_region m m' pgd 4096 -> pt_wf m pgd -> pt_wf m' pgd.
Proof.
  intros Hs [H1 H2 H3]. split; [done| |].
  - intros i Hi. rewrite <- (table_of_ext m m') by done. by apply H2.
  - intros i j Hi Hj. rewrite <- !(table_of_ext m m') by done. by apply H3.
Qed.

(** Entries of different pages are stored at different words. *)
Lemma pte_addr_apart m pgd va va' :
  pt_wf m pgd -> page va -> page va' -> va <> va' ->
  pte_addr m pgd va + 4 <= pte_addr m pgd va' \/ pte_addr m pgd va' + 4 <= pte_addr m pgd va.
Proof.
  intros Hwf Hv Hv' Hne. unfold pte_addr.
  destruct (page_indexes _ Hv) as [Hi Hj], (page_indexes _ Hv') as [Hi' Hj'].
  destruct (decide (va / 4194304 = va' / 4194304)) as [E|E].
  - rewrite E. assert (va mod 4194304 / 4096 <> va' mod 4194304 / 4096); [|lia].
    intros E'. apply Hne. by apply page_indexes_inj.
  - destruct (page_apart (table_of m pgd (va / 4194304)) (table_of m pgd (va' / 4194304)));
      [apply table_of_page|apply table_of_page| |lia|lia].
    intros E'. apply E. by apply (wf_inj _ _ Hwf).
Qed.

(** The entry of a page is outside the directory. *)
Lemma pte_addr_outside_pgd m pgd va :
  pt_wf m pgd -> page va -> pte_addr m pgd va + 4 <= pgd \/ pgd + 4096 <= pte_addr m pgd va.
Proof.
  intros Hwf Hv. unfold pte_addr. destruct (page_indexes _ Hv) as [Hi Hj].
  destruct (wf_table _ _ Hwf _ Hi) as [_ Hne], (wf_pgd _ _ Hwf) as [Hp _].
  destruct (page_apart _ _ (table_of_page m pgd (va / 4194304)) Hp Hne); lia.
Qed.

Lemma pte_addr_range m pgd va : page va -> 0 <= pte_addr m pgd va <= 4294967292.
Proof.
  intros Hv. unfold pte_addr. destruct (page_indexes _ Hv) as [Hi Hj].
  pose proof (page_bound _ (table_of_page m pgd (va / 4194304))). lia.
Qed.

(** ** Storing one entry *)

Definition set_pte (m : gmap Z Z) (pgd va v : Z) : gmap Z Z :=
  PhysMem.store32 m (pte_addr m pgd va) v.

Lemma set_pte_directory m pgd va v :
  pt_wf m pgd -> page va -> PhysMem.same_region m (set_pte m pgd va v) pgd 4096.
Proof.
  intros Hwf Hv b Hb. unfold set_pte. rewrite PhysMem.load8_store32_ne; [done|].
  pose proof (pte_addr_outside_pgd _ _ _ Hwf Hv). lia.
Qed.

Lemma set_pte_wf m pgd va v : pt_wf m pgd -> page va -> pt_wf (set_pte m pgd va v) pgd.
Proof. intros Hwf Hv. eapply pt_wf_ext; [by apply set_pte_directory|done]. Qed.

Lemma pte_addr_set m pgd va v va' :
  pt_wf m pgd -> page va -> page va' ->
  pte_addr (set_pte m pgd va v) pgd va' = pte_addr m pgd va'.
Proof.
  intros Hwf Hv Hv'. unfold pte_addr. f_equal. symmetry.
  apply table_of_ext; [by apply set_pte_directory|by apply page_indexes].
Qed.

Lemma pte_set_eq m pgd va v :
  pt_wf m pgd -> page va -> pte (set_pte m pgd va v) pgd va = u32 v.
Proof.
  intros. unfold pte. rewrite pte_addr_set by done. apply PhysMem.load32_store32_eq.
Qed.

Lemma pte_set_ne m pgd va v va' :
  pt_wf m pgd -> page va -> page va' -> va <> va' ->
  pte (set_pte m pgd va v) pgd va' = pte m pgd va'.
Proof.
  intros. unfold pte. rewrite pte_addr_set by done. apply PhysMem.load32_store32_ne.
  by apply pte_addr_apart.
Qed.

(** ** The operations on well-formed tables *)


Lemma aligned_page va : page va -> paging_is_aligned va = true.
Proof. intros [_ H]. unfold paging_is_aligned, PAGING_PAGE_SIZE. by rewrite H. Qed.

Lemma read_word_ok base i k :
  base <> 0 -> 0 <= base + 4 * i < 4294967296 ->
  read_word base i k = Ok (PhysMem.load32 (mem k) (base + 4 * i), k).
Proof.
  intros Hb Hi. unfold read_word. destruct (Z.eqb_spec base 0); [done|].
  unfold gets. by rewrite u32_small by lia.
Qed.

Lemma write_word_ok base i v k :
  base <> 0 -> 0 <= base + 4 * i < 4294967296 ->
  write_word base i v k = Ok (tt, set_mem k (PhysMem.store32 (mem k) (base + 4 * i) v)).
Proof.
  intros Hb Hi. unfold write_word. destruct (Z.eqb_spec base 0); [done|].
  unfold modify, set_mem. by rewrite u32_small by lia.
Qed.

Lemma get_indexes_ok va a b :
  page va -> paging_get_indexes va a b = (0, va / 4194304, va mod 4194304 / 4096).
Proof. intros H. unfold paging_get_indexes. by rewrite aligned_page. Qed.

Lemma paging_get_pte_ok pgd va k :
  pt_wf (mem k) pgd -> page va -> paging_get_pte pgd va k = Ok (pte (mem k) pgd va, k).
Proof.
  intros Hwf Hv. unfold paging_get_pte. rewrite get_indexes_ok by done.
  destruct (page_indexes _ Hv) as [Hi Hj], (wf_pgd _ _ Hwf) as [Hp Hp0].
  pose proof (page_bound _ Hp) as Hpb.
  pose proof (page_bound _ (table_of_page (mem k) pgd (va / 4194304))) as Htb.
  cbn [Z.ltb Z.compare]. unfold mbind, M_bind.
  destruct (Z.ltb_spec 0 0); [lia|].
  rewrite read_word_ok by lia. fold (table_of (mem k) pgd (va / 4194304)).
  rewrite read_word_ok; [done|by apply (wf_table _ _ Hwf)|lia].
Qed.

Lemma paging_set_ok pgd va v k :
  pt_wf (mem k) pgd -> page va ->
  paging_set pgd va v k = Ok (0, set_mem k (set_pte (mem k) pgd va v)).
Proof.
  intros Hwf Hv. unfold paging_set. rewrite aligned_page by done. cbn [negb].
  rewrite get_indexes_ok by done. destruct (Z.ltb_spec 0 0); [lia|].
  destruct (page_indexes _ Hv) as [Hi Hj], (wf_pgd _ _ Hwf) as [Hp Hp0].
  pose proof (page_bound _ Hp) as Hpb.
  pose proof (page_bound _ (table_of_page (mem k) pgd (va / 4194304))) as Htb.
  unfold mbind, M_bind. rewrite read_word_ok by lia.
  fold (table_of (mem k) pgd (va / 4194304)).
  rewrite write_word_ok; [done|by apply (wf_table _ _ Hwf)|lia].
Qed.

(** The [struct paging_desc] at [d] holds a well-formed directory [pgd] and is
    in a page of its own. *)
Record desc_wf (m : gmap Z Z) (d pgd : Z) : Prop := {
  desc_page : page d /\ d <> 0;
  desc_load : PhysMem.load32 m d = pgd;
  desc_pt : pt_wf m pgd;
  desc_apart i : 0 <= i < 1024 -> table_of m pgd i <> d
}.

Lemma read_desc_ok d pgd k :
  desc_wf (mem k) d pgd -> read_word d 0 k = Ok (pgd, k).
Proof.
  intros Hd. destruct (desc_page _ _ _ Hd) as [Hp H0]. pose proof (page_bound _ Hp).
  rewrite read_word_ok by lia. replace (d + 4 * 0) with d by lia.
  by rewrite (desc_load _ _ _ Hd).
Qed.

(** The pages of the page tables. *)
Definition in_tables (m : gmap Z Z) (pgd a : Z) : Prop :=
  exists i, 0 <= i < 1024 /\ table_of m pgd i <= a < table_of m pgd i + 4096.

Lemma set_pte_outside m pgd va v a :
  page va -> ~ in_tables m pgd a -> PhysMem.load8 (set_pte m pgd va v) a = PhysMem.load8 m a.
Proof.
  intros Hv Ha. unfold set_pte. apply PhysMem.load8_store32_ne.
  destruct (page_indexes _ Hv) as [Hi Hj].
  destruct (decide (a < pte_addr m pgd va \/ pte_addr m pgd va + 4 <= a)) as [|Hn]; [done|].
  destruct Ha. exists (va / 4194304). split; [done|]. unfold pte_addr in Hn. lia.
Qed.

Lemma set_pte_desc m d pgd va v :
  desc_wf m d pgd -> page va -> desc_wf (set_pte m pgd va v) d pgd.
Proof.
  intros [[Hd H0] Hl Hwf Hap] Hv.
  assert (Ht : forall i, 0 <= i < 1024 ->
            table_of (set_pte m pgd va v) pgd i = table_of m pgd i).
  { intros i Hi. symmetry. apply table_of_ext; [by apply set_pte_directory|done]. }
  split; [done| |by apply set_pte_wf|].
  - etransitivity; [|exact Hl]. apply PhysMem.load32_ext. intros b Hb. apply set_pte_outside; [done|].
    intros (i & Hi & Hin).
    destruct (page_apart _ _ (table_of_page m pgd i) Hd (Hap i Hi)); lia.
  - intros i Hi. rewrite Ht by done. by apply Hap.
Qed.

Lemma map_range_loop_S n d virt phys prot k :
  map_range_loop (S n) d virt phys prot k =
  (pgd ← read_word d 0;
   rc ← paging_set pgd virt (u32 (Z.lor phys prot));
   if rc <? 0 then mret rc
   else map_range_loop n d (u32 (virt + PAGING_PAGE_SIZE)) (u32 (phys + PAGING_PAGE_SIZE)) prot) k.
Proof. done. Qed.

(** [paging_map_range]: which entries it stores, for [n] pages. *)
Lemma map_range_loop_ok n d pgd va pa prot k :
  desc_wf (mem k) d pgd -> page va -> page pa -> 0 <= prot < 4096 ->
  va + Z.of_nat n * 4096 <= 4294967296 -> pa + Z.of_nat n * 4096 <= 4294967296 ->
  exists m', map_range_loop n d va pa prot k = Ok (0, set_mem k m') /\
    desc_wf m' d pgd /\
    (forall i, 0 <= i < 1024 -> table_of m' pgd i = table_of (mem k) pgd i) /\
    (forall a, ~ in_tables (mem k) pgd a -> PhysMem.load8 m' a = PhysMem.load8 (mem k) a) /\
    (forall va', page va' -> pte m' pgd va' =
       if bool_decide (va <= va' < va + Z.of_nat n * 4096)
       then pa + (va' - va) + prot else pte (mem k) pgd va').
Proof.
  revert va pa k. induction n as [|n IH]; intros va pa k Hd Hv Hp Hprot Hvn Hpn.
  { exists (mem k). split; [by destruct k|]. split; [exact Hd|].
    split; [done|]. split; [done|].
    intros va' _. rewrite bool_decide_false by lia. done. }
  rewrite map_range_loop_S. unfold mbind, M_bind. rewrite (read_desc_ok _ _ _ Hd).
  pose proof (desc_pt _ _ _ Hd) as Hwf. rewrite paging_set_ok by done.
  destruct (Z.ltb_spec 0 0); [lia|].
  assert (Hval : u32 (Z.lor pa prot) = pa + prot).
  { rewrite (lor_low_bits 12); [|lia|exact (proj2 Hp)|exact Hprot].
    apply u32_small. unfold page in Hp. zlia. }
  destruct n as [|n].
  { eexists. split; [reflexivity|].
    split; [by apply set_pte_desc|].
    split; [intros i Hi; symmetry; apply table_of_ext; [by apply set_pte_directory|done]|].
    split; [intros a Ha; by apply set_pte_outside|].
    intros va' Hv'. destruct (decide (va' = va)) as [->|Hne].
    - rewrite bool_decide_true by lia. rewrite pte_set_eq, Hval by done.
      unfold page in *. rewrite u32_small by zlia. lia.
    - rewrite bool_decide_false by (unfold page in *; zlia). by apply pte_set_ne. }
  destruct (IH (va + 4096) (pa + 4096) (set_mem k (set_pte (mem k) pgd va (u32 (Z.lor pa prot)))))
    as (m' & Hr & Hd' & Ht' & Hout & Hpte).
  { by apply set_pte_desc. }
  { unfold page in *. zlia. } { unfold page in *. zlia. } { done. } { lia. } { lia. }
  assert (Ht : forall i, 0 <= i < 1024 ->
    table_of (set_pte (mem k) pgd va (u32 (Z.lor pa prot))) pgd i = table_of (mem k) pgd i).
  { intros i Hi. symmetry. apply table_of_ext; [by apply set_pte_directory|done]. }
  exists m'. unfold PAGING_PAGE_SIZE. rewrite (u32_small (va + 4096)), (u32_small (pa + 4096)) by (unfold page in *; lia).
  rewrite Hr. simpl in *.
  split; [done|]. split; [done|].
  split; [intros i Hi; rewrite Ht', Ht by done; done|].
  split.
  - intros a Ha. rewrite Hout; [by apply set_pte_outside|].
    intros (i & Hi & Hin). apply Ha. exists i. by rewrite <- Ht.
  - intros va' Hv'. rewrite Hpte by done. destruct (decide (va' = va)) as [->|Hne].
    + rewrite bool_decide_false by lia. rewrite bool_decide_true by lia.
      rewrite pte_set_eq, Hval by done. unfold page in *. rewrite u32_small by zlia. lia.
    + rewrite pte_set_ne by done.
      destruct (decide (va + 4096 <= va' < va + 4096 + Z.of_nat (S n) * 4096)).
      * rewrite !bool_decide_true by lia. lia.
      * rewrite !bool_decide_false; [done| |lia]. unfold page in *. zlia.
Qed.

(** ** Building the tables *)

(** The entry [init_page_tables] stores for the page at [x]: the [int] sum wraps
    to the same 32-bit word. *)
Lemma identity_entry x flags :
  0 <= flags < 4096 -> x mod 4096 = 0 ->
  u32 (Z.lor (s32 x) flags) = u32 x + flags.
Proof.
  intros Hf Hx. rewrite (lor_low_bits 12); [|lia| |exact Hf].
  - unfold u32, s32. zlia.
  - change (2 ^ 12) with 4096. unfold s32. zlia.
Qed.

(** The inner loop fills [n] entries of the table at [p] from index [b] on. *)
Lemma fill_table_ok n b p offset flags k :
  page p -> p <> 0 -> 0 <= flags < 4096 -> offset mod 4096 = 0 ->
  0 <= b -> b + Z.of_nat n <= 1024 ->
  exists m', fill_table n b p offset flags k = Ok (tt, set_mem k m') /\
    (forall j, b <= j < b + Z.of_nat n ->
       PhysMem.load32 m' (p + 4 * j) = u32 (offset + j * 4096) + flags) /\
    (forall a, ~ (p + 4 * b <= a < p + 4096) -> PhysMem.load8 m' a = PhysMem.load8 (mem k) a).
Proof.
  intros Hp H0 Hf Hoff. revert b k. induction n as [|n IH]; intros b k Hb Hn.
  { exists (mem k). split; [by destruct k|]. split; [lia|done]. }
  pose proof (page_bound _ Hp) as Hpb. cbn [fill_table]. unfold mbind, M_bind.
  rewrite write_word_ok by lia.
  set (v := u32 (Z.lor (s32 (offset + b * PAGING_PAGE_SIZE)) flags)).
  destruct (IH (b + 1) (set_mem k (PhysMem.store32 (mem k) (p + 4 * b) v)))
    as (m' & Hr & Hin & Hout); [lia|lia|].
  exists m'. split; [exact Hr|]. split.
  - intros j Hj. destruct (decide (j = b)) as [->|]; [|apply Hin; lia].
    rewrite (PhysMem.load32_ext _ (PhysMem.store32 (mem k) (p + 4 * b) v)).
    + rewrite PhysMem.load32_store32_eq. unfold v, PAGING_PAGE_SIZE.
      rewrite identity_entry by (done || zlia).
      apply u32_small. unfold u32. zlia.
    + intros c Hc. rewrite Hout by lia. done.
  - intros a Ha. rewrite Hout by lia. simpl. apply PhysMem.load8_store32_ne. lia.
Qed.

(** The state after [i] iterations of the outer loop: [T] lists the page tables
    built so far, all live blocks of the heap [L]. *)
Record dir_built (k : kmem) (L : gmap Z nat) (pgd flags : Z) (T : list Z) : Prop := {
  built_rep : kmem_rep k L;
  built_pgd : L !! pgd = Some 1%nat;
  built_live t : t ∈ T -> L !! t = Some 1%nat /\ page t /\ t <> 0 /\ t <> pgd;
  built_nodup : NoDup T;
  built_entry j t : T !! j = Some t ->
    PhysMem.load32 (mem k) (pgd + 4 * Z.of_nat j) = t + Z.lor flags PAGING_READ_WRITE;
  built_pte j t b : T !! j = Some t -> 0 <= b < 1024 ->
    PhysMem.load32 (mem k) (t + 4 * b) = u32 (Z.of_nat j * 4194304 + b * 4096) + flags
}.

(** The directory and the tables lie in blocks that were free in [k0]. *)
Record built_since (k0 k : kmem) (pgd : Z) (T : list Z) : Prop := {
  since_extends : extends k0 k;
  since_pgd a : pgd <= a < pgd + 4096 -> in_free k0 a /\ ~ in_free k a;
  since_tables t a : t ∈ T -> t <= a < t + 4096 -> in_free k0 a /\ ~ in_free k a
}.

(** A table [t] more, and an entry of the directory. *)
Lemma built_since_step k0 k k1 m pgd T t L :
  built_since k0 k pgd T -> new_block k k1 L t (4 * PAGING_TABLE_ENTRIES) ->
  (forall a, ~ (t <= a < t + 4096) -> ~ (pgd <= a < pgd + 4096) -> PhysMem.load8 m a = PhysMem.load8 (mem k1) a) ->
  built_since k0 (set_mem k1 m) pgd (T ++ [t]).
Proof.
  intros [H1 H2 H3] Hn Hm. pose proof (new_block_extends _ _ _ _ _ Hn ltac:(unfold PAGING_TABLE_ENTRIES; lia)) as He.
  assert (Ht : forall a, t <= a < t + 4096 -> in_free k a /\ ~ in_free k1 a).
  { intros a Ha. apply (nb_size _ _ _ _ _ Hn); unfold PAGING_TABLE_ENTRIES; lia. }
  constructor.
  - apply extends_write; [by etrans|]. intros a Ha. apply Hm.
    + intros Hin. by apply Ha, (ext_free _ _ H1), Ht.
    + intros Hin. by apply Ha, H2.
  - intros a Ha. destruct (H2 a Ha) as [Ha1 Ha2]. split; [done|]. intros Hf. by apply Ha2, (ext_free _ _ He).
  - intros u a Hu Ha. apply elem_of_app in Hu as [Hu|Hu%list_elem_of_singleton]; [|subst u].
    + destruct (H3 u a Hu Ha) as [Ha1 Ha2]. split; [done|]. intros Hf. by apply Ha2, (ext_free _ _ He).
    + destruct (Ht a Ha). split; [by apply (ext_free _ _ H1)|done].
Qed.

(** A word of a live page is not touched by writes inside another page. *)
Lemma load32_other_page m m' p q a :
  page p -> page q -> p <> q -> p <= a -> a + 4 <= p + 4096 ->
  (forall c, ~ (q <= c < q + 4096) -> PhysMem.load8 m' c = PhysMem.load8 m c) ->
  PhysMem.load32 m' a = PhysMem.load32 m a.
Proof.
  intros Hp Hq Hne H1 H2 H. apply PhysMem.load32_ext. intros c Hc. apply H.
  destruct (page_apart p q Hp Hq Hne); lia.
Qed.

Lemma flags_rw_range flags : 0 <= flags < 256 -> 0 <= Z.lor flags PAGING_READ_WRITE < 256.
Proof.
  intros H. assert (E : Z.lor flags PAGING_READ_WRITE = (Z.lor flags PAGING_READ_WRITE) mod 2 ^ 8).
  { rewrite <- Z.land_ones by lia. apply Z.bits_inj'. intros i Hi.
    rewrite Z.land_spec, Z.lor_spec, Z.testbit_ones by lia.
    destruct (Z.lt_ge_cases i 8).
    - assert ((0 <=? i) && (i <? 8) = true) as -> by lia. by rewrite andb_true_r.
    - rewrite (testbit_high 8 flags i) by (change (2 ^ 8) with 256; lia).
      rewrite (testbit_high 8 PAGING_READ_WRITE i); [done|lia|].
      unfold PAGING_READ_WRITE. change (2 ^ 8) with 256. lia. }
  rewrite E. change (2 ^ 8) with 256. zlia.
Qed.

Lemma u32_s32_add x y : u32 (s32 x + y) = u32 (x + y).
Proof. unfold u32, s32. zlia. Qed.

(** One iteration, for directory entry [i = length T]. *)
Lemma dir_built_step k L pgd flags T f :
  dir_built k L pgd flags T -> (length T < 1024)%nat -> page pgd -> pgd <> 0 ->
  0 <= flags < 256 ->
  Heap.free_count (Heap.entries (Heap.table (kernel_heap k))) = S f ->
  let i := Z.of_nat (length T) in
  exists t k', (pte ← kzalloc (4 * PAGING_TABLE_ENTRIES);
      _ ← fill_table (Z.to_nat PAGING_TABLE_ENTRIES) 0 pte (s32 (i * 4194304)) flags;
      write_word pgd i (Z.lor (Z.lor pte flags) PAGING_READ_WRITE)) k = Ok (tt, k') /\
    dir_built k' (<[t := 1%nat]> L) pgd flags (T ++ [t]) /\ L !! t = None /\
    Heap.free_count (Heap.entries (Heap.table (kernel_heap k'))) = f /\
    (forall k0, built_since k0 k pgd T -> built_since k0 k' pgd (T ++ [t])).
Proof.
  intros Hb Hlen Hpgd Hpgd0 Hfl Hfree i.
  pose proof (flags_rw_range _ Hfl) as Hrw.
  destruct (kzalloc_page k L (4 * PAGING_TABLE_ENTRIES)) as (t & k1 & Hz & Hnb);
    [apply Hb|unfold PAGING_TABLE_ENTRIES, HEAP_BLOCK_SIZE; lia|lia|].
  pose proof Hnb as [Hrep1 Hfresh (Htr1 & Htr2 & Hta) _ _ Hf1 _ Hm1].
  change (Heap.blocks_for (4 * PAGING_TABLE_ENTRIES)) with 1%nat in Hrep1, Htr2, Hf1.
  change HEAP_BLOCK_SIZE with 4096 in Htr2.
  assert (Ht : page t) by (unfold page, HEAP_BLOCK_SIZE in *; lia).
  assert (Hnp : t <> pgd) by (intros ->; rewrite (built_pgd _ _ _ _ _ Hb) in Hfresh; done).
  destruct (fill_table_ok (Z.to_nat PAGING_TABLE_ENTRIES) 0 t (s32 (i * 4194304)) flags k1)
    as (m2 & Hft & Hin & Hout);
    [done|lia|lia|unfold s32; zlia|lia|unfold PAGING_TABLE_ENTRIES; lia|].
  pose proof (page_bound _ Hpgd) as Hpb.
  set (v := Z.lor (Z.lor t flags) PAGING_READ_WRITE).
  exists t, (KMem (kernel_heap k1) (PhysMem.store32 m2 (pgd + 4 * i) v)).
  split.
  { unfold mbind, M_bind. rewrite Hz, Hft. by rewrite write_word_ok by lia. }
  split; [|split; [exact Hfresh|split; [cbn [kernel_heap]; lia|]]].
  2:{ intros k0 Hs. apply (built_since_step k0 k k1 _ pgd T t L Hs Hnb). intros a Ha1 Ha2.
      rewrite PhysMem.load8_store32_ne by lia. apply Hout. lia. }
  assert (Hv : v = t + Z.lor flags PAGING_READ_WRITE).
  { unfold v. rewrite <- Z.lor_assoc. apply (lor_low_bits 12); [lia|exact (proj2 Ht)|].
    change (2 ^ 12) with 4096. lia. }
  (* bytes outside the new table and the directory entry are unchanged *)
  assert (Hframe : forall p a, page p -> p <> t -> p <> pgd -> p <= a -> a + 4 <= p + 4096 ->
    PhysMem.load32 (PhysMem.store32 m2 (pgd + 4 * i) v) a = PhysMem.load32 (mem k) a).
  { intros p a Hp Hpt Hpp Ha1 Ha2.
    rewrite (load32_other_page m2 _ p pgd a); [|done|done|done|done|done|].
    - rewrite (load32_other_page (mem k1) _ p t a); [|done|done|done|done|done|].
      + apply (load32_other_page (mem k) _ p t a); [done|done|done|done|done|].
        intros c Hc. rewrite Hm1. rewrite bool_decide_false; [done|].
        unfold PAGING_TABLE_ENTRIES. lia.
      + intros c Hc. apply Hout. lia.
    - intros c Hc. apply PhysMem.load8_store32_ne. lia. }
  assert (Hdir : forall a, pgd <= a -> a + 4 <= pgd + 4096 ->
    PhysMem.load32 m2 a = PhysMem.load32 (mem k) a).
  { intros a Ha1 Ha2. rewrite (load32_other_page (mem k1) _ pgd t a); [|done..|].
    - apply (load32_other_page (mem k) _ pgd t a); [done..|].
      intros c Hc. rewrite Hm1. rewrite bool_decide_false; [done|].
      unfold PAGING_TABLE_ENTRIES. lia.
    - intros c Hc. apply Hout. lia. }
  assert (HtT : t ∉ T).
  { intros Hel. destruct (built_live _ _ _ _ _ Hb _ Hel) as [Hl _]. congruence. }
  split.
  - destruct Hrep1 as (B & HB & HL). exists B. split; [exact HB|exact HL].
  - rewrite lookup_insert_ne by done. apply Hb.
  - intros t' Ht'. apply elem_of_app in Ht' as [Ht'|Ht'%list_elem_of_singleton].
    + destruct (built_live _ _ _ _ _ Hb _ Ht') as (? & ? & ? & ?).
      rewrite lookup_insert_ne; [done|]. intros ->. done.
    + subst t'. rewrite lookup_insert_eq. repeat split; (done || apply Ht || lia).
  - apply list.NoDup_app. split; [apply Hb|]. split; [|apply NoDup_singleton].
    intros x Hx ->%list_elem_of_singleton. done.
  - intros j t' Hj. apply lookup_app_Some in Hj as [Hj|[Hge Hj]]; cbn [mem].
    + pose proof (lookup_lt_Some _ _ _ Hj).
      rewrite PhysMem.load32_store32_ne by lia. rewrite Hdir by lia.
      by apply (built_entry _ _ _ _ _ Hb).
    + apply list_lookup_singleton_Some in Hj as [Hj ->].
      replace (Z.of_nat j) with i by lia. rewrite PhysMem.load32_store32_eq, Hv.
      apply u32_small. lia.
  - intros j t' b Hj Hb'. apply lookup_app_Some in Hj as [Hj|[Hge Hj]]; cbn [mem].
    + pose proof (list_elem_of_lookup_2 _ _ _ Hj) as Hel.
      destruct (built_live _ _ _ _ _ Hb _ Hel) as (_ & Hp' & _ & Hnp').
      rewrite (Hframe t') by (done || lia || (intros ->; done)).
      by apply (built_pte _ _ _ _ _ Hb).
    + apply list_lookup_singleton_Some in Hj as [Hj ->].
      rewrite (load32_other_page m2 _ t' pgd); [|done|done|done|lia|lia|].
      * rewrite Hin by (unfold PAGING_TABLE_ENTRIES; lia). rewrite u32_s32_add.
        replace (Z.of_nat j) with i by lia. done.
      * intros c Hc. apply PhysMem.load8_store32_ne. lia.
Qed.

Lemma fill_directory_S n i offset pgd flags k :
  fill_directory (S n) i offset pgd flags k =
  ((pte ← kzalloc (4 * PAGING_TABLE_ENTRIES);
    _ ← fill_table (Z.to_nat PAGING_TABLE_ENTRIES) 0 pte offset flags;
    write_word pgd i (Z.lor (Z.lor pte flags) PAGING_READ_WRITE)) ≫= fun _ =>
   fill_directory n (i + 1) (s32 (offset + PAGING_TABLE_ENTRIES * PAGING_PAGE_SIZE)) pgd flags) k.
Proof.
  cbn [fill_directory]. unfold mbind, M_bind.
  destruct (kzalloc _ k) as [[p k1]| | |]; try done.
  destruct (fill_table _ _ _ _ _ k1) as [[u k2]| | |]; done.
Qed.

Lemma s32_s32_add x y : s32 (s32 x + y) = s32 (x + y).
Proof. unfold s32. zlia. Qed.

Lemma fill_directory_ok n k L pgd flags T f :
  dir_built k L pgd flags T -> (length T + n = 1024)%nat -> page pgd -> pgd <> 0 ->
  0 <= flags < 256 ->
  Heap.free_count (Heap.entries (Heap.table (kernel_heap k))) = (n + f)%nat ->
  exists T' L' k',
    fill_directory n (Z.of_nat (length T)) (s32 (Z.of_nat (length T) * 4194304)) pgd flags k
      = Ok (tt, k') /\
    dir_built k' L' pgd flags T' /\ length T' = 1024%nat /\ L ⊆ L' /\
    Heap.free_count (Heap.entries (Heap.table (kernel_heap k'))) = f /\
    (forall k0, built_since k0 k pgd T -> built_since k0 k' pgd T').
Proof.
  revert k L T. induction n as [|n IH]; intros k L T Hb Hlen Hp H0 Hfl Hf.
  { exists T, L, k. split; [done|]. split; [done|]. split; [lia|]. split; [done|]. split; [lia|done]. }
  destruct (dir_built_step k L pgd flags T (n + f) Hb ltac:(lia) Hp H0 Hfl Hf)
    as (t & k1 & Hr & Hb1 & Hfresh & Hf1 & Hs1).
  destruct (IH k1 _ _ Hb1) as (T' & L' & k' & Hr' & Hb' & Hl' & HL' & Hf' & Hs');
    [rewrite length_app; simpl; lia|done|done|done|done|].
  exists T', L', k'. split; [|split; [done|split; [done|split; [|by eauto]]]];
    [|etrans; [by apply insert_subseteq|exact HL']].
  rewrite fill_directory_S. unfold mbind at 1, M_bind at 1. rewrite Hr, <- Hr'.
  rewrite length_app. simpl length. f_equal; [lia|].
  rewrite s32_s32_add. unfold PAGING_TABLE_ENTRIES, PAGING_PAGE_SIZE. f_equal. lia.
Qed.

(** The tables built are well-formed and map every page to itself. *)
Lemma dir_built_wf k L pgd flags T :
  dir_built k L pgd flags T -> length T = 1024%nat -> page pgd -> pgd <> 0 ->
  0 <= flags < 256 ->
  pt_wf (mem k) pgd /\
  (forall i, 0 <= i < 1024 -> exists t, T !! Z.to_nat i = Some t /\ table_of (mem k) pgd i = t) /\
  (forall va, page va -> pte (mem k) pgd va = va + flags).
Proof.
  intros Hb Hlen Hp H0 Hfl.
  assert (Htab : forall i, 0 <= i < 1024 ->
            exists t, T !! Z.to_nat i = Some t /\ table_of (mem k) pgd i = t).
  { intros i Hi. destruct (lookup_lt_is_Some_2 T (Z.to_nat i)) as [t Ht]; [lia|].
    exists t. split; [done|]. unfold table_of.
    pose proof (built_entry _ _ _ _ _ Hb _ _ Ht) as He. rewrite Z2Nat.id in He by lia.
    rewrite He. pose proof (list_elem_of_lookup_2 _ _ _ Ht) as Hel.
    destruct (built_live _ _ _ _ _ Hb _ Hel) as (_ & Hpt & _).
    pose proof (flags_rw_range _ Hfl). pose proof (page_bound _ Hpt).
    change PGD_ENTRY_TABLE_ADDR with (2 ^ 32 - 2 ^ 12).
    rewrite land_high_bits; [|lia|change (2 ^ 32) with 4294967296; lia].
    change (2 ^ 12) with 4096. unfold page in Hpt. zlia. }
  split; [split|split; [done|]].
  - done.
  - intros i Hi. destruct (Htab i Hi) as (t & Ht & ->).
    pose proof (list_elem_of_lookup_2 _ _ _ Ht) as Hel.
    by destruct (built_live _ _ _ _ _ Hb _ Hel) as (_ & _ & ? & ?).
  - intros i j Hi Hj. destruct (Htab i Hi) as (t & Ht & ->), (Htab j Hj) as (t' & Ht' & ->).
    intros ->. pose proof (built_nodup _ _ _ _ _ Hb) as Hnd.
    assert (Z.to_nat i = Z.to_nat j) by (eapply NoDup_lookup; eauto). lia.
  - intros va Hva. destruct (page_indexes _ Hva) as [Hi Hj].
    destruct (Htab _ Hi) as (t & Ht & Hte). unfold pte, pte_addr. rewrite Hte.
    rewrite (built_pte _ _ _ _ _ Hb _ _ _ Ht) by done. rewrite Z2Nat.id by lia.
    unfold page in Hva. replace (va / 4194304 * 4194304 + va mod 4194304 / 4096 * 4096) with va by zlia.
    rewrite u32_small by lia. done.
Qed.

(** The new directory, without tables yet. *)
Lemma built_since_start k k1 L pgd : new_block k k1 L pgd (4 * PAGING_DIR_ENTRIES) -> built_since k k1 pgd [].
Proof.
  intros Hn. constructor.
  - eapply new_block_extends; [exact Hn|unfold PAGING_DIR_ENTRIES; lia].
  - intros a Ha. apply (nb_size _ _ _ _ _ Hn); unfold PAGING_DIR_ENTRIES; lia.
  - intros t a Ht. by apply not_elem_of_nil in Ht.
Qed.

(** The descriptor behind the finished tables. *)
Lemma built_since_desc k0 k k1 m pgd T d L :
  built_since k0 k pgd T -> new_block k k1 L d 4 ->
  (forall a, ~ (d <= a < d + 4096) -> PhysMem.load8 m a = PhysMem.load8 (mem k) a) ->
  (forall i, 0 <= i < 1024 -> table_of m pgd i = table_of (mem k) pgd i) ->
  (forall i, 0 <= i < 1024 -> exists t, T !! Z.to_nat i = Some t /\ table_of (mem k) pgd i = t) ->
  extends k0 (set_mem k1 m) /\
  (forall a, d <= a < d + 4096 \/ pgd <= a < pgd + 4096 \/ in_tables m pgd a -> in_free k0 a /\ ~ in_free k1 a).
Proof.
  intros [H1 H2 H3] Hn Hm Ht HT. pose proof (new_block_extends _ _ _ _ _ Hn ltac:(lia)) as He.
  assert (Hd : forall a, d <= a < d + 4096 -> in_free k a /\ ~ in_free k1 a).
  { intros a Ha. apply (nb_free _ _ _ _ _ Hn). exact Ha. }
  assert (Hold : forall a, in_free k0 a /\ ~ in_free k a -> in_free k0 a /\ ~ in_free k1 a).
  { intros a [Ha1 Ha2]. split; [done|]. intros Hf. by apply Ha2, (ext_free _ _ He). }
  split.
  - apply extends_write; [by etrans|]. intros a Ha.
    assert (Hna : ~ (d <= a < d + 4096)) by (intros Hin; by apply Ha, (ext_free _ _ H1), Hd).
    rewrite Hm by done. rewrite (nb_load _ _ _ _ _ Hn), bool_decide_false by lia. done.
  - intros a [Ha|[Ha|(i & Hi & Ha)]].
    + destruct (Hd a Ha). split; [by apply (ext_free _ _ H1)|done].
    + by apply Hold, H2.
    + apply Hold. rewrite Ht in Ha by done. destruct (HT i Hi) as (u & Hu & Eu). rewrite Eu in Ha.
      apply (H3 u); [by eapply list_elem_of_lookup_2|done].
Qed.

(** [init_page_tables] with 1026 free blocks: what it returns and leaves. *)
Lemma init_page_tables_ok k L flags f :
  kmem_rep k L -> 0 <= flags < 256 ->
  Heap.free_count (Heap.entries (Heap.table (kernel_heap k))) = (1026 + f)%nat ->
  exists d pgd k' L', init_page_tables flags k = Ok (d, k') /\
    kmem_rep k' L' /\ L ⊆ L' /\ (L !! d = None /\ L' !! d = Some 1%nat) /\ L !! pgd = None /\
    Heap.free_count (Heap.entries (Heap.table (kernel_heap k'))) = f /\
    desc_wf (mem k') d pgd /\
    (forall va, page va -> pte (mem k') pgd va = va + flags) /\
    (forall i, 0 <= i < 1024 ->
       PhysMem.load32 (mem k') (pgd + 4 * i) = table_of (mem k') pgd i + Z.lor flags PAGING_READ_WRITE) /\
    extends k k' /\
    (forall a, d <= a < d + 4096 \/ pgd <= a < pgd + 4096 \/ in_tables (mem k') pgd a ->
       in_free k a /\ ~ in_free k' a).
Proof.
  intros Hrep Hfl Hf.
  destruct (kzalloc_page k L (4 * PAGING_DIR_ENTRIES)) as (pgd & k1 & Hz & Hnb);
    [done|unfold PAGING_DIR_ENTRIES, HEAP_BLOCK_SIZE; lia|lia|].
  pose proof Hnb as [Hrep1 Hfresh (Hpr1 & Hpr2 & Hpa) _ _ Hf1 _ _].
  change (Heap.blocks_for (4 * PAGING_DIR_ENTRIES)) with 1%nat in Hrep1, Hpr2, Hf1.
  change HEAP_BLOCK_SIZE with 4096 in Hpr2.
  assert (Hpgd : page pgd) by (unfold page, HEAP_BLOCK_SIZE in *; lia).
  assert (Hpgd0 : pgd <> 0) by lia.
  destruct (fill_directory_ok (Z.to_nat PAGING_DIR_ENTRIES) k1 (<[pgd := 1%nat]> L) pgd flags [] (S f))
    as (T & L2 & k2 & Hfd & Hb & HT & HL2 & Hf2 & Hs2); [|done|done|done|done| |].
  { split; [done|by rewrite lookup_insert_eq| |apply NoDup_nil_2| |]; intros *.
    - by intros ?%not_elem_of_nil.
    - done.
    - done. }
  { unfold PAGING_DIR_ENTRIES. lia. }
  destruct (dir_built_wf _ _ _ _ _ Hb HT Hpgd Hpgd0 Hfl) as (Hwf & Htab & Hpte).
  destruct (kzalloc_page k2 L2 4) as (d & k3 & Hz3 & Hnb3); [apply Hb|unfold HEAP_BLOCK_SIZE; lia|lia|].
  pose proof Hnb3 as [Hrep3 Hfresh3 (Hdr1 & Hdr2 & Hda) _ _ Hf3 _ Hm3].
  change (Heap.blocks_for 4) with 1%nat in Hrep3, Hdr2, Hf3. change HEAP_BLOCK_SIZE with 4096 in Hdr2.
  assert (Hd : page d) by (unfold page, HEAP_BLOCK_SIZE in *; lia).
  assert (HL : L ⊆ L2) by (etrans; [by apply insert_subseteq|exact HL2]).
  set (m4 := PhysMem.store32 (mem k3) d pgd).
  exists d, pgd, (set_mem k3 m4), (<[d := 1%nat]> L2).
  assert (Hrun : init_page_tables flags k = Ok (d, set_mem k3 m4)).
  { unfold init_page_tables, mbind, M_bind. rewrite Hz.
    change (s32 (Z.of_nat (length []) * 4194304)) with 0 in Hfd.
    change (Z.of_nat (length [])) with 0 in Hfd. rewrite Hfd, Hz3.
    rewrite write_word_ok by lia. replace (d + 4 * 0) with d by lia. done. }
  assert (Hdp : d <> pgd).
  { intros ->. rewrite (built_pgd _ _ _ _ _ Hb) in Hfresh3. done. }
  assert (Hdt : forall i, 0 <= i < 1024 -> table_of (mem k2) pgd i <> d).
  { intros i Hi ->%eq_sym. destruct (Htab i Hi) as (t & Ht & Hte).
    destruct (built_live _ _ _ _ _ Hb t (list_elem_of_lookup_2 _ _ _ Ht)) as [HtL _]. congruence. }
  assert (Hfr : forall a, ~ (d <= a < d + 4096) -> PhysMem.load8 m4 a = PhysMem.load8 (mem k2) a).
  { intros a Ha. unfold m4. rewrite PhysMem.load8_store32_ne by lia.
    rewrite Hm3, bool_decide_false by lia. done. }
  assert (Hsame : PhysMem.same_region (mem k2) m4 pgd 4096).
  { intros a Ha. apply eq_sym, Hfr. destruct (page_apart d pgd); [done..|lia|lia]. }
  assert (Htab4 : forall i, 0 <= i < 1024 -> table_of m4 pgd i = table_of (mem k2) pgd i).
  { intros i Hi. by rewrite (table_of_ext (mem k2) m4). }
  split; [exact Hrun|]. split; [destruct Hrep3 as (B & HB & HBL); by exists B|].
  split; [etrans; [exact HL|by apply insert_subseteq]|].
  split; [split; [by eapply lookup_weaken_None|apply lookup_insert_eq]|]. split; [done|]. split; [cbn [kernel_heap set_mem]; lia|].
  pose proof (built_since_start k k1 L pgd Hnb) as Hs1. apply Hs2 in Hs1.
  split; [|split; [|split; [|by eapply (built_since_desc k k2 k3 m4 pgd T d L2)]]].
  - split; [by split; [|lia]| |by eapply pt_wf_ext|].
    + unfold set_mem; simpl. unfold m4. rewrite PhysMem.load32_store32_eq.
      apply u32_small. lia.
    + intros i Hi. simpl. rewrite Htab4 by done. by apply Hdt.
  - intros va Hva. simpl. rewrite <- (Hpte va Hva).
    destruct (page_indexes _ Hva) as [Hi Hj]. unfold pte, pte_addr. rewrite Htab4 by done.
    apply (load32_other_page _ _ (table_of (mem k2) pgd (va / 4194304)) d);
      [apply table_of_page|done|by apply Hdt|lia|lia|exact Hfr].
  - intros i Hi. simpl. rewrite Htab4 by done. destruct (Htab i Hi) as (t & Ht & ->).
    rewrite <- (PhysMem.same_region_load32 _ _ pgd 4096 (pgd + 4 * i) Hsame) by lia.
    rewrite <- (built_entry _ _ _ _ _ Hb _ _ Ht). do 2 f_equal. lia.
Qed.

(** ** Address translation *)

(** The page an address lies in. *)
Definition page_of (a : Z) : Z := a - a mod 4096.

Lemma page_of_page a : 0 <= a < 4294967296 -> page (page_of a).
Proof. unfold page, page_of. zlia. Qed.

(** Rounding down is the page of the address, for every address. *)
Lemma align_lower_page_of a :
  0 <= a < 4294967296 -> paging_align_to_lower_page a = page_of a.
Proof.
  intros Ha. unfold paging_align_to_lower_page, paging_is_aligned, PAGING_PAGE_SIZE, page_of.
  destruct (Z.eqb_spec (a mod 4096) 0) as [->|]; [lia|]. rewrite u32_small; zlia.
Qed.

(** The frame bits of an entry whose frame is [p]. *)
Lemma frame_bits p flags :
  page p -> 0 <= flags < 4096 -> Z.land (p + flags) PGD_ENTRY_TABLE_ADDR = p.
Proof.
  intros Hp Hf. pose proof (page_bound _ Hp).
  change PGD_ENTRY_TABLE_ADDR with (2 ^ 32 - 2 ^ 12).
  rewrite land_high_bits; [|lia|change (2 ^ 32) with 4294967296; lia].
  change (2 ^ 12) with 4096. unfold page in Hp. zlia.
Qed.

(** Translation reads the entry of the page and adds the offset in the page. *)
Lemma physical_address_pte pgd a k :
  pt_wf (mem k) pgd -> 0 <= a < 4294967296 ->
  paging_get_physical_address pgd a k =
    Ok (u32 (Z.land (pte (mem k) pgd (page_of a)) PGD_ENTRY_TABLE_ADDR + a mod 4096), k).
Proof.
  intros Hwf Ha. unfold paging_get_physical_address. rewrite align_lower_page_of by done.
  unfold mbind, M_bind. rewrite paging_get_pte_ok by (done || by apply page_of_page).
  unfold PGD_ENTRY_TABLE_ADDR, page_of.
  replace (u32 (a - (a - a mod 4096))) with (a mod 4096); [done|].
  rewrite u32_small; zlia.
Qed.

Lemma physical_address_frame pgd a k p flags :
  pt_wf (mem k) pgd -> 0 <= a < 4294967296 -> page p -> 0 <= flags < 4096 ->
  pte (mem k) pgd (page_of a) = p + flags ->
  paging_get_physical_address pgd a k = Ok (p + a mod 4096, k).
Proof.
  intros Hwf Ha Hp Hf He. rewrite physical_address_pte, He, frame_bits by done.
  rewrite u32_small; [done|]. pose proof (page_bound _ Hp). zlia.
Qed.

(** An unaligned argument is refused before anything is touched. *)
Lemma paging_set_unaligned pgd va v k :
  va mod 4096 <> 0 -> paging_set pgd va v k = Ok (- EINVARG, k).
Proof.
  intros H. unfold paging_set, paging_is_aligned, PAGING_PAGE_SIZE.
  by destruct (Z.eqb_spec (va mod 4096) 0).
Qed.

(** [paging_create_mapping] on aligned, ordered arguments is the mapping loop. *)
Lemma create_mapping_loop d va pa pe prot k :
  page va -> page pa -> page pe -> pa <= pe ->
  paging_create_mapping d va pa pe prot k =
    map_range_loop (Z.to_nat ((pe - pa) / 4096)) d va pa prot k.
Proof.
  intros Hv Hp He Hle. unfold paging_create_mapping, paging_map_range.
  rewrite !aligned_page by done. cbn [negb orb]. destruct (Z.ltb_spec pe pa); [lia|].
  unfold PAGING_PAGE_SIZE, page in *. rewrite u32_small, s32_small by zlia. done.
Qed.

(** The tables the kernel builds at boot, from its fresh heap. *)
Lemma boot_heap_rep (m : gmap Z Z) : kmem_rep (KMem fresh_heap m) ∅.
Proof.
  exists ∅. split; [|split; [symmetry; apply kmap_empty|]].
  2:{ unfold low_heap, KERNEL_HEAP_ADDRESS, HEAP_BLOCK_SIZE.
      cbn [kernel_heap fresh_heap Heap.start_addr Heap.table Heap.total_entries].
      unfold KERNEL_HEAP_ADDRESS. lia. }
  apply Heap.heap_reach_rep.
  destruct (kernel_heap_init_reach Heap.heap4 (replicate kernel_heap_blocks 0)) as (h & _ & Hr & ->);
    [apply length_replicate|exact Hr].
Qed.

Lemma boot_heap_reserve (m : gmap Z Z) : reserve (KMem fresh_heap m) = kernel_heap_blocks.
Proof.
  unfold reserve. cbn [kernel_heap fresh_heap Heap.table Heap.entries].
  set (es := replicate kernel_heap_blocks 0). assert (Hl : (length es <= Heap.trailing_free es)%nat).
  { apply Heap.trailing_free_run; [done|]. rewrite Nat.sub_diag. unfold es. intros i Hi. rewrite length_replicate in Hi.
    exists 0. split; [apply lookup_replicate_2; lia|done]. }
  pose proof (Heap.trailing_free_le es) as Hu. unfold es in *. rewrite length_replicate in *. lia.
Qed.

Lemma boot_heap_free (m : gmap Z Z) :
  Heap.free_count (Heap.entries (Heap.table (kernel_heap (KMem fresh_heap m))))
    = (1026 + Z.to_nat 24574)%nat.
Proof.
  cbn [kernel_heap fresh_heap Heap.table Heap.entries]. rewrite Heap.free_count_all.
  - rewrite length_replicate. unfold kernel_heap_blocks. lia.
  - intros i e He. by apply lookup_replicate in He as [-> _].
Qed.

Lemma boot_tables : exists d pgd k,
  init_page_tables 7 (KMem fresh_heap ∅) = Ok (d, k) /\ desc_wf (mem k) d pgd.
Proof.
  destruct (init_page_tables_ok (KMem fresh_heap ∅) ∅ 7 (Z.to_nat 24574))
    as (d & pgd & k & L & Hr & _ & _ & _ & _ & _ & Hd & _);
    [apply boot_heap_rep|lia|apply boot_heap_free|].
  exists d, pgd, k. split; [exact Hr|exact Hd].
Qed.

(** ** Theorems *)

(** Storing an entry with [paging_set] and reading entries back
    with [paging_get_pte]: the page that was set reads the stored word, every
    other page reads what it read before, and the tables stay well-formed; an
    unaligned address is refused with [-EINVARG] and changes nothing. *)
Lemma paging_set_get_pte pgd va va' v k :
  pt_wf (mem k) pgd -> 0 <= va < 4294967296 -> page va' ->
  exists rc k', paging_set pgd va v k = Ok (rc, k') /\
    rc = (if bool_decide (va mod 4096 = 0) then 0 else - EINVARG) /\
    kernel_heap k' = kernel_heap k /\ pt_wf (mem k') pgd /\
    (rc = 0 -> va' = va -> paging_get_pte pgd va' k' = Ok (u32 v, k')) /\
    (rc <> 0 \/ va' <> va ->
       exists e, paging_get_pte pgd va' k = Ok (e, k) /\ paging_get_pte pgd va' k' = Ok (e, k')).
Proof.
  intros Hwf Hva Hva'. case_bool_decide as Hal.
  - assert (Hp : page va) by done. exists 0. eexists. split; [by apply paging_set_ok|].
    pose proof (set_pte_wf _ _ va v Hwf Hp) as Hwf'.
    split; [done|]. split; [done|]. split; [done|]. split.
    + intros _ ->. rewrite paging_get_pte_ok by done. simpl. by rewrite pte_set_eq.
    + intros [?|Hne]; [done|]. exists (pte (mem k) pgd va').
      rewrite !paging_get_pte_ok by done. simpl. by rewrite pte_set_ne by congruence.
  - exists (- EINVARG), k. rewrite paging_set_unaligned by done.
    split; [done|]. split; [done|]. split; [done|]. split; [done|]. split; [done|].
    intros _. exists (pte (mem k) pgd va').
    by rewrite paging_get_pte_ok.
Qed.

Lemma paging_set_get_pte_witness : exists pgd k k',
  paging_set pgd 0x400000 0x1234007 k = Ok (0, k') /\
  paging_get_pte pgd 0x400000 k' = Ok (0x1234007, k').
Proof.
  destruct boot_tables as (d & pgd & k & _ & Hd).
  destruct (paging_set_get_pte pgd 0x400000 0x400000 0x1234007 k)
    as (rc & k' & Hs & Hrc & _ & _ & Hg & _);
    [exact (desc_pt _ _ _ Hd)|lia|split; [lia|reflexivity]|].
  exists pgd, k, k'. rewrite bool_decide_true in Hrc by reflexivity. subst rc.
  split; [exact Hs|]. rewrite Hg by reflexivity. reflexivity.
Defined.

(** C22 (functional).  Started on a heap with at least 1026 free blocks,
    [init_page_tables] succeeds, keeps every live allocation live, and the
    directory it builds translates every 32-bit address to itself; its entries
    carry exactly the flags asked for. *)
Theorem init_page_tables_identity k L flags f :
  kmem_rep k L -> 0 <= flags < 256 ->
  Heap.free_count (Heap.entries (Heap.table (kernel_heap k))) = (1026 + f)%nat ->
  exists d pgd k' L', init_page_tables flags k = Ok (d, k') /\
    get_pgd d k' = Ok (pgd, k') /\ desc_wf (mem k') d pgd /\
    kmem_rep k' L' /\ L ⊆ L' /\ L !! d = None /\ L !! pgd = None /\
    Heap.free_count (Heap.entries (Heap.table (kernel_heap k'))) = f /\
    (forall a, 0 <= a < 4294967296 -> paging_get_physical_address pgd a k' = Ok (a, k')) /\
    (forall va, page va -> paging_get_pte pgd va k' = Ok (va + flags, k')).
Proof.
  intros Hrep Hfl Hf.
  destruct (init_page_tables_ok _ _ _ _ Hrep Hfl Hf)
    as (d & pgd & k' & L' & Hr & Hrep' & HL & [Hd _] & Hp & Hf' & Hwf & Hpte & _).
  exists d, pgd, k', L'. pose proof (desc_pt _ _ _ Hwf) as Hpt.
  split; [done|]. split; [by apply read_desc_ok|]. split; [done|].
  split; [done|]. split; [done|]. split; [done|]. split; [done|]. split; [done|]. split.
  - intros a Ha. pose proof (page_of_page _ Ha) as Hpa.
    rewrite (physical_address_frame _ _ _ (page_of a) flags); [|done|done|done|lia|by apply Hpte].
    do 2 f_equal. unfold page_of. lia.
  - intros va Hva. rewrite paging_get_pte_ok by done. by rewrite Hpte.
Qed.

Lemma init_page_tables_identity_witness : exists d pgd k,
  init_page_tables 7 (KMem fresh_heap ∅) = Ok (d, k) /\
  paging_get_physical_address pgd 0xb8000 k = Ok (0xb8000, k).
Proof.
  destruct (init_page_tables_identity (KMem fresh_heap ∅) ∅ 7 (Z.to_nat 24574))
    as (d & pgd & k & L & Hr & _ & _ & _ & _ & _ & _ & _ & Ha & _);
    [apply boot_heap_rep|lia|apply boot_heap_free|].
  exists d, pgd, k. split; [exact Hr|]. apply Ha. lia.
Defined.

(** C10 (functional).  [paging_create_mapping] implements the map update it
    promises: with page-aligned, ordered arguments whose ranges fit the address
    space, every address of the virtual range translates to the address at the
    same distance in the physical range, with exactly the protection bits given,
    every other address translates as before, the entry of every other page keeps
    its value, flags included, and no byte outside the page tables changes; otherwise the call returns [-EINVARG] and changes nothing. *)
Theorem paging_create_mapping_spec d pgd va pa pe prot k :
  desc_wf (mem k) d pgd -> 0 <= prot < 4096 ->
  0 <= va < 4294967296 -> 0 <= pa < 4294967296 -> 0 <= pe < 4294967296 ->
  va + (pe - pa) <= 4294967296 ->
  exists rc k', paging_create_mapping d va pa pe prot k = Ok (rc, k') /\
    rc = (if bool_decide (page va /\ page pa /\ page pe /\ pa <= pe) then 0 else - EINVARG) /\
    desc_wf (mem k') d pgd /\ kernel_heap k' = kernel_heap k /\
    (rc <> 0 -> k' = k) /\
    (rc = 0 ->
      (forall a, ~ in_tables (mem k) pgd a -> PhysMem.load8 (mem k') a = PhysMem.load8 (mem k) a) /\
      (forall a, 0 <= a < 4294967296 ->
        exists x, paging_get_physical_address pgd a k = Ok (x, k) /\
        paging_get_physical_address pgd a k' =
          Ok (if bool_decide (va <= a < va + (pe - pa)) then pa + (a - va) else x, k')) /\
      (forall p, page p ->
        exists e, paging_get_pte pgd p k = Ok (e, k) /\
        paging_get_pte pgd p k' =
          Ok (if bool_decide (va <= p < va + (pe - pa)) then pa + (p - va) + prot else e, k'))).
Proof.
  intros Hd Hprot Hva Hpa Hpe Hfit. case_bool_decide as Hal.
  - destruct Hal as (Hv & Hp & He & Hle).
    assert (Hn : Z.of_nat (Z.to_nat ((pe - pa) / 4096)) * 4096 = pe - pa)
      by (unfold page in *; zlia).
    destruct (map_range_loop_ok (Z.to_nat ((pe - pa) / 4096)) d pgd va pa prot k)
      as (m' & Hr & Hd' & Ht & Hout & Hpte); [done|done|done|done|rewrite Hn; unfold page in *; lia|rewrite Hn; unfold page in *; lia|].
    rewrite Hn in Hpte. pose proof (desc_pt _ _ _ Hd) as Hwf.
    pose proof (desc_pt _ _ _ Hd') as Hwf'.
    exists 0, (set_mem k m'). split; [by rewrite create_mapping_loop|].
    split; [done|]. split; [done|]. split; [done|]. split; [done|]. intros _.
    split; [exact Hout|]. split.
    + intros a Ha. pose proof (page_of_page _ Ha) as Hpo.
      eexists. split; [by apply physical_address_pte|].
      destruct (decide (va <= a < va + (pe - pa))) as [Hin|Hin].
      * rewrite bool_decide_true by done.
        assert (va <= page_of a < va + (pe - pa)) by (unfold page_of, page in *; zlia).
        rewrite (physical_address_frame _ _ (set_mem k m') (pa + (page_of a - va)) prot);
          [|done|done|unfold page_of, page in *; zlia|done|].
        -- do 2 f_equal. unfold page_of. lia.
        -- simpl. rewrite Hpte by done. by rewrite bool_decide_true.
      * rewrite bool_decide_false by done. rewrite physical_address_pte by done.
        simpl. rewrite Hpte by done. rewrite bool_decide_false; [done|].
        unfold page_of, page in *. zlia.
    + intros p Hpp. eexists. split; [by apply paging_get_pte_ok|].
      rewrite paging_get_pte_ok by done. simpl. by rewrite Hpte.
  - exists (- EINVARG), k. split; [|done].
    unfold paging_create_mapping, paging_is_aligned, PAGING_PAGE_SIZE.
    destruct (Z.eqb_spec (va mod 4096) 0), (Z.eqb_spec (pa mod 4096) 0),
      (Z.eqb_spec (pe mod 4096) 0); try done. simpl.
    destruct (Z.ltb_spec pe pa); [done|]. destruct Hal. unfold page. done.
Qed.

Lemma paging_create_mapping_spec_witness : exists d pgd k k',
  paging_create_mapping d 0x400000 0x1234000 0x1236000 7 k = Ok (0, k') /\
  paging_get_physical_address pgd 0x401abc k' = Ok (0x1235abc, k') /\
  exists e, paging_get_pte pgd 0x402000 k = Ok (e, k) /\ paging_get_pte pgd 0x402000 k' = Ok (e, k').
Proof.
  destruct boot_tables as (d & pgd & k & _ & Hd).
  destruct (paging_create_mapping_spec d pgd 0x400000 0x1234000 0x1236000 7 k)
    as (rc & k' & Hr & Hrc & _ & _ & _ & Hok); [exact Hd|lia..|].
  rewrite bool_decide_true in Hrc
    by (unfold page; repeat split; try lia; reflexivity). subst rc.
  destruct (Hok eq_refl) as (_ & Ht & He).
  destruct (Ht 0x401abc) as (x & _ & Hx); [lia|].
  destruct (He 0x402000) as (e & He1 & He2); [by split|]. rewrite bool_decide_false in He2 by lia.
  exists d, pgd, k, k'. split; [exact Hr|]. split; [|by exists e].
  rewrite Hx, bool_decide_true by lia. reflexivity.
Defined.

(** C34 (bounds).  Rounding to pages on every 32-bit address: down is the
    greatest page boundary not above it; up is the least boundary not below it,
    except that in the last page of the address space it wraps to 0. *)
Theorem paging_align_bounds a :
  0 <= a < 4294967296 ->
  page (paging_align_to_lower_page a) /\
  paging_align_to_lower_page a <= a < paging_align_to_lower_page a + 4096 /\
  page (paging_align_address a) /\
  (a <= 4294963200 -> a <= paging_align_address a < a + 4096) /\
  (4294963200 < a -> paging_align_address a = 0).
Proof.
  intros Ha. rewrite align_lower_page_of by done. split; [by apply page_of_page|].
  split; [unfold page_of; zlia|].
  unfold paging_align_address, paging_is_aligned, PAGING_PAGE_SIZE.
  destruct (Z.eqb_spec (a mod 4096) 0); unfold page, u32; zlia.
Qed.

Lemma paging_align_bounds_witness :
  paging_align_address 0xfffff001 = 0 /\ page (paging_align_address 0x1001).
Proof.
  split; [apply (paging_align_bounds 0xfffff001); lia|apply (paging_align_bounds 0x1001); lia].
Defined.

(** The addresses [free_page_tables] hands to [kfree] are not those of the page
    tables: the flag bits are multiplied away instead of masked.  Here entry 0 of
    the directory at 0x1000000 points to the table at 0x1001000, and the first
    [kfree] is given an address beyond the heap. *)
Definition freeing_state : kmem :=
  KMem Heap.heap4 (PhysMem.store32 (PhysMem.store32 ∅ 0x1003000 0x1000000) 0x1000000 0x1001007).

Example free_page_tables_wrong_address :
  Z.land 0x1001007 (Z.lnot PAGE_TABLE_ENTRY_FLAGS_MASK) = 0x1001000 /\
  u32 (0x1001007 * Z.lnot PAGE_TABLE_ENTRY_FLAGS_MASK) = 0xfeff9000 /\
  free_page_tables 0x1003000 freeing_state = Fault.
Proof. vm_compute. repeat split. Qed.

End Paging.
