(* ===== verification/KState.v ===== *)
(** * Kernel objects and the state the file-system stack shares

    The structs the kernel allocates on its heap, kept in a typed store indexed
    by address.  [kzalloc] of a struct puts its zeroed value in the store,
    [kfree] removes it, and an access through an address that holds no value of
    the expected type (null, freed, another type) is a [Fault].  The allocator
    is the one of [KernelHeap], used through the [Allocator] interface only. *)
From stdpp Require Import base gmap list numbers.
From S2P Require Import Prelude Config KernelHeap.
#[local] Open Scope Z_scope.

(** ** Structs *)

(** [struct disk_stream] of [disk_stream.h]. *)
Record disk_stream := DiskStream { ds_pos : Z; ds_disk : Z }.

(** [struct path_root] and [struct path_part] of [pparser.h]. *)
Record path_root := PathRoot { drive_no : Z; pr_first : Z }.
Record path_part := PathPart { pp_part : Z; pp_next : Z }.

(** [struct fat_directory] of [fat16.c]: [fd_entry] is the address of an array
    of 32-byte directory entries. *)
Record fat_directory := FatDirectory {
  fd_entry : Z; fd_total : Z; fd_sector : Z; fd_end_sector : Z }.

Inductive fat_dir_entry_type := FAT_ITEM_TYPE_DIRECTORY | FAT_ITEM_TYPE_FILE.

(** [struct fat_easy_directory_entry]: [fe_item] is the union of the two pointers. *)
Record fat_easy_directory_entry := FatEasy { fe_item : Z; fe_type : fat_dir_entry_type }.

Record fat_file_descriptor := FatFile { easy_directory_entry : Z; ff_pos : Z }.

(** [struct fat_private]: [header] is the packed on-disk header, 62 bytes. *)
Record fat_private := FatPrivate {
  header : list Z;
  root_directory : fat_directory;
  cluster_read_stream : Z;
  fat_read_stream : Z;
  directory_stream : Z }.

(** [struct file_descriptor] of [file.h]. *)
Record file_descriptor := FileDescriptor {
  fdesc_index : Z; fdesc_filesystem : Z; fdesc_disk : Z; fdesc_private : Z }.

(** [struct disk] of [disk.h]: the one disk is a global. *)
Inductive disk_type := REAL.
Record disk := Disk {
  d_type : disk_type; d_id : Z; d_sector_size : Z; d_filesystem : Z; d_fs_private : Z }.

(** ** The typed store *)

Inductive obj :=
| OStream (x : disk_stream)
| ORoot (x : path_root)
| OPart (x : path_part)
| ODirectory (x : fat_directory)
| OEasy (x : fat_easy_directory_entry)
| OFatFile (x : fat_file_descriptor)
| OPrivate (x : fat_private)
| OFile (x : file_descriptor)
| OBytes (x : list Z).

(** The types of the structs the store holds. *)
Class Object (T : Type) := {
  to_obj : T -> obj;
  of_obj : obj -> option T;
  of_to_obj x : of_obj (to_obj x) = Some x
}.

#[export] Program Instance stream_object : Object disk_stream :=
  {| to_obj := OStream; of_obj o := match o with OStream x => Some x | _ => None end |}.
Solve All Obligations with done.
#[export] Program Instance root_object : Object path_root :=
  {| to_obj := ORoot; of_obj o := match o with ORoot x => Some x | _ => None end |}.
Solve All Obligations with done.
#[export] Program Instance part_object : Object path_part :=
  {| to_obj := OPart; of_obj o := match o with OPart x => Some x | _ => None end |}.
Solve All Obligations with done.
#[export] Program Instance directory_object : Object fat_directory :=
  {| to_obj := ODirectory; of_obj o := match o with ODirectory x => Some x | _ => None end |}.
Solve All Obligations with done.
#[export] Program Instance easy_object : Object fat_easy_directory_entry :=
  {| to_obj := OEasy; of_obj o := match o with OEasy x => Some x | _ => None end |}.
Solve All Obligations with done.
#[export] Program Instance fat_file_object : Object fat_file_descriptor :=
  {| to_obj := OFatFile; of_obj o := match o with OFatFile x => Some x | _ => None end |}.
Solve All Obligations with done.
#[export] Program Instance private_object : Object fat_private :=
  {| to_obj := OPrivate; of_obj o := match o with OPrivate x => Some x | _ => None end |}.
Solve All Obligations with done.
#[export] Program Instance file_object : Object file_descriptor :=
  {| to_obj := OFile; of_obj o := match o with OFile x => Some x | _ => None end |}.
Solve All Obligations with done.
#[export] Program Instance bytes_object : Object (list Z) :=
  {| to_obj := OBytes; of_obj o := match o with OBytes x => Some x | _ => None end |}.
Solve All Obligations with done.

(** ** The state *)

(** [A]: the allocator; [D]: the devices behind the I/O ports.  The arrays
    [filesystems] and [file_descriptors] and the struct [disk] are globals. *)
Record kst (A D : Type) := KSt {
  k_alloc : A;
  objs : gmap Z obj;
  dev : D;
  the_disk : disk;
  filesystems : list Z;
  file_descriptors : list Z
}.
Arguments KSt {A D}.
Arguments k_alloc {A D}.
Arguments objs {A D}.
Arguments dev {A D}.
Arguments the_disk {A D}.
Arguments filesystems {A D}.
Arguments file_descriptors {A D}.

Section State.
Context {A D : Type}.
#[local] Abbreviation St := (kst A D).

Definition set_heap (s : St) (a : A) (o : gmap Z obj) : St :=
  KSt a o (dev s) (the_disk s) (filesystems s) (file_descriptors s).
Definition set_dev (s : St) (d : D) : St :=
  KSt (k_alloc s) (objs s) d (the_disk s) (filesystems s) (file_descriptors s).
Definition set_disk (s : St) (d : disk) : St :=
  KSt (k_alloc s) (objs s) (dev s) d (filesystems s) (file_descriptors s).
Definition set_filesystems (s : St) (l : list Z) : St :=
  KSt (k_alloc s) (objs s) (dev s) (the_disk s) l (file_descriptors s).
Definition set_file_descriptors (s : St) (l : list Z) : St :=
  KSt (k_alloc s) (objs s) (dev s) (the_disk s) (filesystems s) l.

(** ** Accesses through pointers *)

(** [*p] for a [T *p]. *)
Definition load {T} `{Object T} (p : Z) : M St T := fun s =>
  match objs s !! p ≫= of_obj with
  | Some x => Ok (x, s)
  | None => Fault
  end.

(** [*p = x]. *)
Definition store {T} `{Object T} (p : Z) (x : T) : M St unit := fun s =>
  match objs s !! p ≫= @of_obj T _ with
  | Some _ => Ok (tt, set_heap s (k_alloc s) (<[p := to_obj x]> (objs s)))
  | None => Fault
  end.

Context `{Allocator A}.

(** [p = kzalloc(size)] for an object whose zeroed value is [x]. *)
Definition zalloc {T} `{Object T} (size : Z) (x : T) : M St Z := fun s =>
  match kzalloc size (k_alloc s) with
  | Ok (p, a) =>
      Ok (p, set_heap s a (if p =? 0 then objs s else <[p := to_obj x]> (objs s)))
  | Fault => Fault
  | Panic msg => Panic msg
  | Diverge => Diverge
  end.

(** [kfree(p)]. *)
Definition free (p : Z) : M St unit := fun s =>
  match kfree p (k_alloc s) with
  | Ok (_, a) => Ok (tt, set_heap s a (delete p (objs s)))
  | Fault => Fault
  | Panic msg => Panic msg
  | Diverge => Diverge
  end.

(** ** Live objects *)

Context `{AllocatorView A}.

(** Every object of the store is in a live allocation. *)
Definition live (s : St) (L : gmap Z nat) : Prop :=
  alloc_rep (k_alloc s) L /\ dom (objs s) ⊆ dom L.

Definition free_blocks (s : St) : nat := alloc_free (k_alloc s).

Lemma live_fresh s L p : live s L -> L !! p = None -> objs s !! p = None.
Proof.
  intros [_ Hd] Hp. apply not_elem_of_dom. intros Hin. apply Hd in Hin.
  by apply elem_of_dom in Hin as [? ?]; congruence.
Qed.

Lemma live_set_dev s L d : live s L -> live (set_dev s d) L.
Proof. done. Qed.

(** Only the allocator and which addresses hold objects matter. *)
Lemma live_dom s s' L :
  live s L -> k_alloc s' = k_alloc s -> dom (objs s') ⊆ dom (objs s) -> live s' L.
Proof. intros [Hr Hd] Ha Ho. split; [by rewrite Ha|]. set_solver. Qed.

(** Overwriting an object keeps the same allocations live. *)
Lemma live_store s L p o :
  live s L -> is_Some (objs s !! p) -> live (set_heap s (k_alloc s) (<[p := o]> (objs s))) L.
Proof.
  intros [Hr Hd] Hp. split; [done|]. simpl. rewrite dom_insert. apply union_subseteq.
  split; [|done]. apply singleton_subseteq_l, Hd. by apply elem_of_dom.
Qed.

Lemma wp_load {T} `{Object T} p (x : T) s (Q : T -> St -> Prop) :
  objs s !! p = Some (to_obj x) -> Q x s -> wp (load p) s Q.
Proof. intros Hp HQ. unfold wp, load. rewrite Hp. simpl. by rewrite of_to_obj. Qed.

Lemma wp_store {T} `{Object T} p (x y : T) s (Q : unit -> St -> Prop) :
  objs s !! p = Some (to_obj x) ->
  Q tt (set_heap s (k_alloc s) (<[p := to_obj y]> (objs s))) -> wp (store p y) s Q.
Proof. intros Hp HQ. unfold wp, store. rewrite Hp. simpl. by rewrite of_to_obj. Qed.

Context `{!AllocatorLaws A}.

(** A successful allocation of at most a block. *)
Lemma wp_zalloc {T} `{Object T} size (x : T) s L f (Q : Z -> St -> Prop) :
  live s L -> 0 < size <= HEAP_BLOCK_SIZE -> free_blocks s = S f ->
  (forall p a, let s' := set_heap s a (<[p := to_obj x]> (objs s)) in
     live s' (<[p := 1%nat]> L) -> free_blocks s' = f -> L !! p = None ->
     objs s !! p = None -> 0 < p <= 2147479552 -> Q p s') ->
  wp (zalloc size x) s Q.
Proof.
  intros Hl Hs Hf HQ. pose proof Hl as [Hr Hd].
  pose proof (kzalloc_some _ _ _ _ Hr Hs Hf) as Hw.
  apply wp_run in Hw as (p & a & Hz & Hr' & Hf' & Hfresh & Hp & _).
  unfold wp, zalloc. rewrite Hz. destruct (Z.eqb_spec p 0); [lia|].
  apply HQ; [|done|done|by eapply live_fresh|done]. split; [done|]. simpl.
  rewrite !dom_insert. revert Hd. clear. set_solver.
Qed.

(** Without a free block the result is null and nothing changes. *)
Lemma wp_zalloc_full `{!AllocatorExhausted A} {T} `{Object T} size (x : T) s L (Q : Z -> St -> Prop) :
  live s L -> 0 < size <= HEAP_BLOCK_SIZE -> free_blocks s = 0%nat ->
  Q 0 s -> wp (zalloc size x) s Q.
Proof.
  intros [Hr Hd] Hs Hf HQ. unfold wp, zalloc.
  rewrite (kzalloc_none _ _ _ Hr Hs Hf). by destruct s.
Qed.

Lemma wp_free p n s L (Q : unit -> St -> Prop) :
  live s L -> L !! p = Some n ->
  (forall a, let s' := set_heap s a (delete p (objs s)) in
     live s' (delete p L) -> free_blocks s' = (free_blocks s + n)%nat -> Q tt s') ->
  wp (free p) s Q.
Proof.
  intros [Hr Hd] Hp HQ. pose proof (kfree_live _ _ _ _ Hr Hp) as Hw.
  apply wp_run in Hw as (rc & a & Hz & _ & Hr' & Hf').
  unfold wp, free. rewrite Hz. apply HQ; [|done]. split; [done|]. simpl.
  rewrite !dom_delete. revert Hd. clear. set_solver.
Qed.

End State.

(** [live] after overwriting objects. *)
Ltac solve_live :=
  eapply live_dom; [eassumption|reflexivity|simpl; rewrite ?dom_insert; clear; set_solver].
