(* ===== verification/Disk.v ===== *)
(** * The ATA disk and disk streams: [src/disk/disk.c], [src/disk/disk_stream.c]

    The I/O ports are the interface [PortIO]; [AtaDrive] states what an ATA
    drive documents about programmed-I/O reads, and the driver's theorems are
    proved against it.  A stream turns sector reads into byte reads. *)
From stdpp Require Import base gmap list numbers.
From S2P Require Import Prelude Config Heap KernelHeap KState.
#[local] Open Scope Z_scope.

(** ** The ports *)

(** The instructions behind [insb], [insw] and [outb] of [io.h]. *)
Class PortIO (D : Type) := {
  insb : Z -> D -> Z * D;
  insw : Z -> D -> Z * D;
  outb : Z -> Z -> D -> D
}.

Module Disk.

Definition BUSY_BIT : Z := 0x0008.
Definition ATA_COMMAND_IO_PORT : Z := 0x01F7.
Definition ATA_DATA_PORT : Z := 0x01F0.
Definition ATA_READ_SECTORS : Z := 0x0020.
Definition DISK_SECTOR_SIZE : Z := 512.

(** The address of the global [struct disk disk]. *)
Definition disk_addr : Z := 1.

Section Driver.
Context {A D : Type} `{Allocator A} `{PortIO D}.
#[local] Abbreviation St := (kst A D).

Definition port_in8 (port : Z) : M St Z := fun s =>
  let '(v, d) := insb port (dev s) in Ok (u8 v, set_dev s d).
Definition port_in16 (port : Z) : M St Z := fun s =>
  let '(v, d) := insw port (dev s) in Ok (u16 v, set_dev s d).
Definition port_out8 (port val : Z) : M St unit := fun s =>
  Ok (tt, set_dev s (outb port (u8 val) (dev s))).

(** ** [disk.c] *)

(** [while (!(c & BUSY_BIT)) c = insb(0x1F7);] *)
Definition wait_ready (c : Z) : M St unit :=
  loop_m (fun c =>
    if Z.land c BUSY_BIT =? 0
    then c' ← port_in8 ATA_COMMAND_IO_PORT; mret (inl (s8 c'))
    else mret (inr tt)) c.

(** [*ptr = v; ptr++] for an [unsigned short *ptr] into [buf]. *)
Definition put_word (buf : list Z) (i : Z) (v : Z) : outcome (list Z) :=
  if decide (Z.to_nat i + 1 < length buf)%nat
  then Ok (<[S (Z.to_nat i) := v / 256]> (<[Z.to_nat i := v mod 256]> buf))
  else Fault.

(** [n] words from the data port into [buf] from byte [i] on. *)
Fixpoint read_words (n : nat) (i : Z) (buf : list Z) : M St (list Z) :=
  match n with
  | O => mret buf
  | S n' =>
      w ← port_in16 ATA_DATA_PORT;
      buf ← lift_outcome (put_word buf i w);
      read_words n' (i + 2) buf
  end.

(** [total] sectors; [i] is the byte offset of [ptr] in [buf]. *)
Fixpoint read_sectors (n : nat) (i : Z) (buf : list Z) : M St (list Z) :=
  match n with
  | O => mret buf
  | S n' =>
      c ← port_in8 ATA_COMMAND_IO_PORT;
      _ ← wait_ready (s8 c);
      buf ← read_words (Z.to_nat (DISK_SECTOR_SIZE / 2)) i buf;
      read_sectors n' (i + DISK_SECTOR_SIZE) buf
  end.

(** The result code and the buffer. *)
Definition disk_read_sector (lba total : Z) (buf : list Z) : M St (Z * list Z) :=
  _ ← port_out8 0x1F6 (Z.lor (Z.shiftr lba 24) 0xE0);
  _ ← port_out8 0x1F2 total;
  _ ← port_out8 0x1F3 (Z.land lba 0xFF);
  _ ← port_out8 0x1F4 (Z.shiftr lba 8);
  _ ← port_out8 0x1F5 (Z.shiftr lba 16);
  _ ← port_out8 ATA_COMMAND_IO_PORT ATA_READ_SECTORS;
  buf ← read_sectors (Z.to_nat total) 0 buf;
  mret (0, buf).

(** [fs_resolve] is the one of [file.c]. *)
Definition disk_search_and_init (fs_resolve : Z -> M St Z) : M St unit :=
  _ ← modify (fun s => set_disk s (Disk REAL 0 DISK_SECTOR_SIZE 0 0));
  fs ← fs_resolve disk_addr;
  modify (fun s =>
    let d := the_disk s in
    set_disk s (Disk (d_type d) (d_id d) (d_sector_size d) fs (d_fs_private d))).

Definition disk_get (index : Z) : Z := if negb (index =? 0) then 0 else disk_addr.

(** [lba] is converted to the [int] parameter of [disk_read_sector]. *)
Definition disk_read_block (idisk lba total : Z) (buf : list Z) : M St (Z * list Z) :=
  if negb (idisk =? disk_addr) then mret (- EIO, buf)
  else disk_read_sector (s32 lba) total buf.

(** ** [disk_stream.c] *)

Definition sizeof_disk_stream : Z := 8.

Definition get_disk_stream (disk_index : Z) : M St Z :=
  let disk := disk_get disk_index in
  if disk =? 0 then mret 0
  else
    p ← zalloc sizeof_disk_stream (DiskStream 0 0);
    x ← load p;
    _ ← store p (DiskStream 0 (ds_disk x));
    x ← load p;
    _ ← store p (DiskStream (ds_pos x) disk);
    mret p.

Definition disk_stream_seek (stream pos : Z) : M St Z :=
  x ← load stream;
  _ ← store stream (DiskStream pos (ds_disk x));
  mret 0.

(** [for (i = lo; i < hi; i++) *out++ = buf[i];] with [n = hi - lo]: the part of
    [out] that was written, and the rest. *)
Fixpoint copy_out (n : nat) (i : Z) (buf out : list Z) : outcome (list Z * list Z) :=
  match n with
  | O => Ok ([], out)
  | S n' =>
      if i <? 0 then Fault
      else
        b ← of_option (buf !! Z.to_nat i);
        match out with
        | [] => Fault
        | _ :: out' => '(w, rest) ← copy_out n' (i + 1) buf out'; Ok (b :: w, rest)
        end
  end.

(** The recursion makes at most [total / 512 + 2] calls. *)
Fixpoint disk_stream_read_rec (fuel : nat) (stream : Z) (out : list Z) (total : Z)
    : M St (Z * list Z) :=
  match fuel with
  | O => fun _ => Diverge
  | S fuel' =>
      x ← load stream;
      let sector := Z.quot (ds_pos x) DISK_SECTOR_SIZE in
      let offset := Z.rem (ds_pos x) DISK_SECTOR_SIZE in
      let buf := replicate (Z.to_nat DISK_SECTOR_SIZE) 0 in
      '(rc, buf) ← disk_read_block (ds_disk x) (u32 sector) 1 buf;
      if rc <? 0 then mret (rc, out)
      else if s32 (offset + total) >? DISK_SECTOR_SIZE then
        '(w, rest) ← lift_outcome (copy_out (Z.to_nat (DISK_SECTOR_SIZE - offset)) offset buf out);
        x ← load stream;
        _ ← store stream (DiskStream (s32 (ds_pos x + (DISK_SECTOR_SIZE - offset))) (ds_disk x));
        '(rc, rest) ← disk_stream_read_rec fuel' stream rest (total - (DISK_SECTOR_SIZE - offset));
        if rc <? 0 then mret (rc, w ++ rest) else mret (0, w ++ rest)
      else
        '(w, rest) ← lift_outcome (copy_out (Z.to_nat total) offset buf out);
        x ← load stream;
        _ ← store stream (DiskStream (s32 (ds_pos x + total)) (ds_disk x));
        mret (0, w ++ rest)
  end.

Definition disk_stream_read (stream : Z) (out : list Z) (total : Z) : M St (Z * list Z) :=
  disk_stream_read_rec (Z.to_nat (total / DISK_SECTOR_SIZE) + 2) stream out total.

Definition disk_stream_close (stream : Z) : M St unit := free stream.

End Driver.

(** ** What an ATA drive documents *)

(** 16-bit little-endian words of a byte sequence, and back. *)
Fixpoint words (l : list Z) : list Z :=
  match l with
  | a :: b :: l' => (a + 256 * b) :: words l'
  | _ => []
  end.
Fixpoint unwords (ws : list Z) : list Z :=
  match ws with
  | [] => []
  | w :: ws' => w mod 256 :: w / 256 :: unwords ws'
  end.

(** [n] bytes of the medium from byte [k] on. *)
Definition extent (img : list Z) (k n : Z) : list Z :=
  take (Z.to_nat n) (drop (Z.to_nat k) img).

Definition byte (b : Z) : Prop := 0 <= b < 256.

End Disk.

(** The data phase of a read: the words still to be transferred, and how many
    polls of the status register still find the data-request bit clear. *)
Class AtaDrive (D : Type) `{PortIO D} := {
  ata_image : D -> list Z;
  ata_idle : D -> Prop;
  ata_data : D -> list Z -> Prop;
  ata_polls : D -> Z;
  ata_image_bytes d : Forall Disk.byte (ata_image d);
  ata_polls_range d : 0 <= ata_polls d < 2147483648;
  (* READ SECTORS with the 28-bit address and the count in the registers *)
  ata_read_sectors d lba n :
    ata_idle d -> 0 <= lba < 268435456 -> 0 < n < 256 ->
    (lba + n) * 512 <= Z.of_nat (length (ata_image d)) ->
    let d' := outb 0x1F7 0x20 (outb 0x1F5 (lba / 65536 mod 256) (outb 0x1F4 (lba / 256 mod 256)
                (outb 0x1F3 (lba mod 256) (outb 0x1F2 n (outb 0x1F6 (0xE0 + lba / 16777216) d))))) in
    ata_image d' = ata_image d /\
    ata_data d' (Disk.words (Disk.extent (ata_image d) (512 * lba) (512 * n)));
  (* the status register *)
  ata_poll d ws :
    ata_data d ws -> ws <> [] ->
    exists c d', insb 0x1F7 d = (c, d') /\ Disk.byte c /\ ata_image d' = ata_image d /\
      ata_data d' ws /\
      (ata_polls d = 0 -> Z.land c 8 <> 0 /\ ata_polls d' = 0) /\
      (ata_polls d <> 0 -> Z.land c 8 = 0 /\ ata_polls d' = ata_polls d - 1);
  (* the data register; the drive may need time between sectors *)
  ata_word d w ws :
    ata_data d (w :: ws) -> ata_polls d = 0 ->
    exists d', insw 0x1F0 d = (w, d') /\ ata_image d' = ata_image d /\
      (ws = [] -> ata_idle d') /\
      (ws <> [] -> ata_data d' ws /\ (Z.of_nat (length ws) mod 256 <> 0 -> ata_polls d' = 0))
}.

Module DiskProofs.
Import Disk.

Section Proofs.
Context {A D : Type} `{Allocator A} `{AllocatorView A} `{PortIO D} `{!AtaDrive D}.
#[local] Abbreviation St := (kst A D).

(** ** Words and bytes *)

Lemma length_extent img k n :
  0 <= k -> 0 <= n -> k + n <= Z.of_nat (length img) -> length (extent img k n) = Z.to_nat n.
Proof. intros. unfold extent. rewrite length_take, length_drop. lia. Qed.

Lemma extent_bytes img k n : Forall byte img -> Forall byte (extent img k n).
Proof. intros. by apply Forall_take, Forall_drop. Qed.

Lemma unwords_words n l :
  length l = (2 * n)%nat -> Forall byte l ->
  unwords (words l) = l /\ length (words l) = n /\ Forall (fun w => 0 <= w < 65536) (words l).
Proof.
  revert l. induction n as [|n IH]; intros [|a [|b l]] Hl Hb; simpl in Hl; try lia; [done|].
  apply Forall_cons_1 in Hb as [Ha Hb]. apply Forall_cons_1 in Hb as [Hb Hr].
  destruct (IH l) as (E & El & Ef); [lia|done|]. cbn [words unwords length].
  unfold byte in *. rewrite E. split; [|split; [lia|constructor; [lia|done]]].
  f_equal; [zlia|f_equal; zlia].
Qed.

Lemma length_unwords ws : length (unwords ws) = (2 * length ws)%nat.
Proof. induction ws as [|w ws IH]; simpl in *; lia. Qed.

Lemma unwords_app ws ws' : unwords (ws ++ ws') = unwords ws ++ unwords ws'.
Proof. induction ws as [|w ws IH]; simpl; [done|]. by rewrite IH. Qed.

(** Two adjacent overwrites are one. *)
Lemma splice_app {T} k (v w l : list T) :
  (k + length v + length w <= length l)%nat ->
  splice (k + length v) w (splice k v l) = splice k (v ++ w) l.
Proof.
  revert k l. induction v as [|x v IH]; intros k l Hl; simpl in *.
  { by rewrite splice_nil, Nat.add_0_r. }
  rewrite !splice_cons by lia. replace (k + S (length v))%nat with (S k + length v)%nat by lia.
  apply IH. rewrite length_insert. lia.
Qed.

Lemma put_word_splice buf i w :
  0 <= i -> i + 2 <= Z.of_nat (length buf) ->
  put_word buf i w = Ok (splice (Z.to_nat i) (unwords [w]) buf).
Proof.
  intros Hi Hl. unfold put_word. destruct (decide _) as [|Hn]; [|lia].
  cbn [unwords]. rewrite splice_cons by lia. rewrite splice_cons by (rewrite length_insert; lia).
  by rewrite splice_nil.
Qed.

(** ** Polling and transferring *)

Lemma land_s8 c : byte c -> Z.land (s8 (u8 c)) BUSY_BIT = Z.land c 8.
Proof.
  intros Hc. unfold byte in Hc. rewrite u8_small by done. unfold BUSY_BIT.
  assert (Hm : forall x, Z.land x 8 = Z.land (x mod 256) 8).
  { intros x. change 256 with (2 ^ 8). rewrite <- Z.land_ones by lia.
    rewrite <- Z.land_assoc. done. }
  rewrite (Hm (s8 c)). f_equal. unfold s8. zlia.
Qed.

(** The state of the loop: [c] is the last status read. *)
Definition polling (img ws : list Z) (s0 : St) (c : Z) (s : St) : Prop :=
  exists d, s = set_dev s0 d /\ ata_image d = img /\ ata_data d ws /\
    (Z.land c BUSY_BIT <> 0 -> ata_polls d = 0).

Lemma poll_step img ws s0 d :
  ata_image d = img -> ata_data d ws -> ws <> [] ->
  wp (port_in8 ATA_COMMAND_IO_PORT) (set_dev s0 d) (fun c s' =>
    polling img ws s0 (s8 c) s' /\
    (Z.land (s8 c) BUSY_BIT = 0 -> ata_polls (dev s') = ata_polls d - 1)).
Proof.
  intros Hi Hd Hne. destruct (ata_poll _ _ Hd Hne) as (c & d' & Hp & Hc & Hi' & Hd' & Hr0 & Hr1).
  unfold wp, port_in8. simpl. change ATA_COMMAND_IO_PORT with 0x1F7. rewrite Hp.
  rewrite (land_s8 _ Hc). split.
  - exists d'. split; [done|]. split; [congruence|]. split; [done|]. rewrite (land_s8 _ Hc).
    intros Hn. destruct (decide (ata_polls d = 0)) as [E|E]; [by apply Hr0|].
    by destruct (Hr1 E).
  - intros Hz. simpl. destruct (decide (ata_polls d = 0)) as [E|E]; [by destruct (Hr0 E)|].
    by apply Hr1.
Qed.

Lemma wait_ready_ok img ws s0 c s :
  polling img ws s0 c s -> ws <> [] ->
  wp (wait_ready c) s (fun _ s' => exists d, s' = set_dev s0 d /\ ata_image d = img /\
    ata_data d ws /\ ata_polls d = 0).
Proof.
  intros Hc Hne. unfold wait_ready.
  apply wp_loop_m with (Inv := polling img ws s0)
    (meas := fun c s => if Z.land c BUSY_BIT =? 0 then ata_polls (dev s) + 1 else 0); [done| |].
  { pose proof (ata_polls_range (dev s)). destruct (_ =? 0); lia. }
  clear c s Hc. intros c s (d & -> & Hi & Hd & Hr). destruct (Z.eqb_spec (Z.land c BUSY_BIT) 0) as [E|E].
  - apply wp_bind. eapply wp_mono; [by apply poll_step|]. intros c' s' [Hp Hm]. apply wp_ret.
    split; [done|]. simpl. pose proof (ata_polls_range (dev s')). pose proof (ata_polls_range d).
    destruct (Z.eqb_spec (Z.land (s8 c') BUSY_BIT) 0); [rewrite Hm by done; lia|lia].
  - apply wp_ret. exists d. auto.
Qed.

(** [n] words of a sector; [r] sectors follow. *)
Lemma read_words_ok n i buf img ws (s0 : St) d r :
  ata_image d = img -> ata_data d ws -> ata_polls d = 0 ->
  Forall (fun w => 0 <= w < 65536) ws ->
  (1 <= n <= 256)%nat -> length ws = (n + 256 * r)%nat ->
  0 <= i -> i + 2 * Z.of_nat n <= Z.of_nat (length buf) ->
  wp (read_words n i buf) (set_dev s0 d) (fun buf' s' =>
    buf' = splice (Z.to_nat i) (unwords (take n ws)) buf /\
    exists d', s' = set_dev s0 d' /\ ata_image d' = img /\
      (drop n ws = [] -> ata_idle d') /\ (drop n ws <> [] -> ata_data d' (drop n ws))).
Proof.
  revert i buf ws d. induction n as [|n IH]; intros i buf ws d Hi Hd Hp Hw Hn Hl Hi0 Hb; [lia|].
  destruct ws as [|w ws]; [simpl in Hl; lia|]. apply Forall_cons_1 in Hw as [Hw Hws].
  destruct (ata_word _ _ _ Hd Hp) as (d' & Hr & Hi' & Hidle & Hnext).
  cbn [read_words]. apply wp_bind. unfold wp at 1, port_in16. simpl.
  change ATA_DATA_PORT with 0x1F0. rewrite Hr. rewrite u16_small by done.
  apply wp_bind. unfold wp at 1, lift_outcome. rewrite put_word_splice by lia.
  simpl. set (buf1 := splice _ _ _).
  assert (Hl1 : length buf1 = length buf).
  { unfold buf1. rewrite length_splice; [done|]. simpl. lia. }
  change (set_dev (set_dev s0 d) d') with (set_dev s0 d').
  destruct n as [|n].
  - apply wp_ret. split; [by rewrite take_0|]. exists d'. split; [done|]. split; [congruence|].
    rewrite drop_0. split; [done|]. intros Hne. by apply Hnext.
  - assert (Hne : ws <> []) by (intros ->; simpl in Hl; lia).
    cbn [length] in Hl. destruct (Hnext Hne) as [Hd' Hp'].
    eapply wp_mono; [apply (IH (i + 2) buf1 ws d'); try done; try lia; [congruence|]|].
    { apply Hp'. replace (length ws) with (S n + 256 * r)%nat by lia. zlia. }
    intros buf' s' [-> Hs']. split; [|exact Hs'].
    replace (Z.to_nat (i + 2)) with (Z.to_nat i + length (unwords [w]))%nat by (simpl; lia).
    unfold buf1. rewrite splice_app; [done|]. rewrite length_unwords, length_take. cbn [length]. lia.
Qed.

Lemma read_sectors_ok n i buf img ws (s0 : St) d :
  ata_image d = img -> (ws = [] -> ata_idle d) -> (ws <> [] -> ata_data d ws) ->
  Forall (fun w => 0 <= w < 65536) ws ->
  length ws = (256 * n)%nat -> 0 <= i -> i + 512 * Z.of_nat n <= Z.of_nat (length buf) ->
  wp (read_sectors n i buf) (set_dev s0 d) (fun buf' s' =>
    buf' = splice (Z.to_nat i) (unwords ws) buf /\
    exists d', s' = set_dev s0 d' /\ ata_image d' = img /\ ata_idle d').
Proof.
  revert i buf ws d. induction n as [|n IH]; intros i buf ws d Hi Hidle Hd Hw Hl Hi0 Hb.
  { apply nil_length_inv in Hl as ->. apply wp_ret. cbn [unwords]. rewrite splice_nil. eauto 6. }
  assert (Hne : ws <> []) by (intros ->; simpl in Hl; lia).
  cbn [read_sectors]. apply wp_bind. eapply wp_mono; [apply (poll_step img ws); auto|].
  intros c s' [Hp _]. apply wp_bind. eapply wp_mono; [by apply (wait_ready_ok img ws s0)|].
  intros [] s1 (d1 & -> & Hi1 & Hd1 & Hp1). apply wp_bind.
  change (Z.to_nat (DISK_SECTOR_SIZE / 2)) with 256%nat.
  eapply wp_mono; [apply (read_words_ok 256 i buf img ws s0 d1 n); auto; lia|].
  intros buf1 s2 (-> & d2 & -> & Hi2 & Hidle2 & Hd2).
  assert (Hlt : length (unwords (take 256 ws)) = 512%nat)
    by (rewrite length_unwords, length_take; lia).
  eapply wp_mono; [apply (IH (i + DISK_SECTOR_SIZE) _ (drop 256 ws) d2)|].
  - done. - done. - done.
  - by apply Forall_drop.
  - rewrite length_drop. lia.
  - unfold DISK_SECTOR_SIZE. lia.
  - rewrite length_splice by lia. unfold DISK_SECTOR_SIZE. lia.
  - intros buf' s3 [-> Hs3]. split; [|exact Hs3].
    replace (Z.to_nat (i + DISK_SECTOR_SIZE))
      with (Z.to_nat i + length (unwords (take 256 ws)))%nat by (unfold DISK_SECTOR_SIZE; lia).
    rewrite splice_app by (rewrite Hlt, length_unwords, length_drop; lia).
    by rewrite <- unwords_app, take_drop.
Qed.

(** ** Sector and block reads *)

(** The device is an idle drive holding [img]. *)
Definition drive_ok (img : list Z) (d : D) : Prop := ata_idle d /\ ata_image d = img.

Lemma drive_ok_bytes img d : drive_ok img d -> Forall byte img.
Proof. intros [_ <-]. apply ata_image_bytes. Qed.

(** What the six stores put in the registers. *)
Lemma select_register lba :
  0 <= lba < 268435456 -> u8 (Z.lor (Z.shiftr lba 24) 0xE0) = 0xE0 + lba / 16777216.
Proof.
  intros Hl. rewrite Z.shiftr_div_pow2 by lia. change (2 ^ 24) with 16777216.
  rewrite Z.lor_comm, (lor_low_bits 4); [|lia|done|change (2 ^ 4) with 16; zlia].
  apply u8_small. zlia.
Qed.

Lemma low_register lba : u8 (Z.land lba 0xFF) = lba mod 256.
Proof.
  change 0xFF with (Z.ones 8). rewrite Z.land_ones by lia. unfold u8. change (2 ^ 8) with 256. zlia.
Qed.

Lemma shift_register lba k : 0 <= k -> u8 (Z.shiftr lba k) = lba / 2 ^ k mod 256.
Proof. intros. by rewrite Z.shiftr_div_pow2. Qed.

Lemma disk_read_sector_ok lba n buf img s :
  drive_ok img (dev s) -> 0 <= lba < 268435456 -> 0 < n < 256 ->
  (lba + n) * 512 <= Z.of_nat (length img) -> n * 512 <= Z.of_nat (length buf) ->
  wp (disk_read_sector (A:=A) lba n buf) s (fun r s' =>
    r = (0, splice 0 (extent img (512 * lba) (512 * n)) buf) /\
    exists d', s' = set_dev s d' /\ drive_ok img d').
Proof.
  intros Hok Hl Hn Himg Hbuf. pose proof (drive_ok_bytes _ _ Hok) as Hby.
  destruct Hok as [Hidle Hi]. unfold disk_read_sector.
  do 6 (apply wp_bind; unfold wp at 1, port_out8; cbv beta iota zeta).
  rewrite select_register, low_register, !shift_register by lia.
  unfold ATA_COMMAND_IO_PORT, ATA_READ_SECTORS.
  rewrite (u8_small n), (u8_small 0x20) by lia.
  change (2 ^ 8) with 256. change (2 ^ 16) with 65536.
  destruct (ata_read_sectors (dev s) lba n) as [Hi' Hd']; [done..|by rewrite Hi|].
  rewrite Hi in Hi', Hd'. cbn [dev set_dev] in *. revert Hi' Hd'.
  match goal with |- ata_image ?d = _ -> _ => generalize d; intros d' Hi' Hd' end.
  change (set_dev _ d') with (set_dev s d').
  set (ext := extent img (512 * lba) (512 * n)) in *.
  assert (Hle : length ext = (2 * (256 * Z.to_nat n))%nat)
    by (unfold ext; rewrite length_extent; lia).
  destruct (unwords_words _ _ Hle (extent_bytes _ _ _ Hby)) as (Hu & Hlw & Hfw).
  apply wp_bind. eapply wp_mono; [apply (read_sectors_ok (Z.to_nat n) 0 buf img (words ext) s d')|].
  - done.
  - intros E. rewrite E in Hlw. simpl in Hlw. lia.
  - done.
  - done.
  - done.
  - lia.
  - lia.
  - intros buf' s' (-> & d1 & -> & Hi1 & Hd1). apply wp_ret. rewrite Hu. split; [done|].
    exists d1. done.
Qed.

Lemma disk_read_block_ok lba n buf img s :
  drive_ok img (dev s) -> 0 <= lba < 268435456 -> 0 < n < 256 ->
  (lba + n) * 512 <= Z.of_nat (length img) -> n * 512 <= Z.of_nat (length buf) ->
  wp (disk_read_block (A:=A) disk_addr lba n buf) s (fun r s' =>
    r = (0, splice 0 (extent img (512 * lba) (512 * n)) buf) /\
    exists d', s' = set_dev s d' /\ drive_ok img d').
Proof.
  intros. unfold disk_read_block. rewrite s32_small by lia. by apply disk_read_sector_ok.
Qed.

(** ** Streams *)

Lemma copy_out_ok n i buf out :
  0 <= i -> i + Z.of_nat n <= Z.of_nat (length buf) -> (n <= length out)%nat ->
  copy_out n i buf out = Ok (extent buf i (Z.of_nat n), drop n out).
Proof.
  revert i out. induction n as [|n IH]; intros i out Hi Hb Ho.
  { unfold extent. by rewrite take_0, drop_0. }
  cbn [copy_out]. destruct (Z.ltb_spec i 0); [lia|].
  destruct (lookup_lt_is_Some_2 buf (Z.to_nat i)) as [b Hlk]; [lia|]. rewrite Hlk.
  destruct out as [|o out]; [simpl in Ho; lia|]. simpl in Ho.
  cbn [of_option mbind outcome_bind]. rewrite IH by lia. cbn [mbind outcome_bind]. f_equal. f_equal.
  unfold extent. rewrite !Nat2Z.id. rewrite (drop_S _ _ _ Hlk). simpl. do 3 f_equal. lia.
Qed.

(** A sector read, cut at [offset], is the medium at that position. *)
Lemma extent_extent img k n j m :
  0 <= k -> 0 <= j -> 0 <= m -> j + m <= n -> extent (extent img k n) j m = extent img (k + j) m.
Proof.
  intros. unfold extent. rewrite skipn_firstn_comm, take_take, drop_drop.
  f_equal; [lia|f_equal; lia].
Qed.

Lemma extent_app img k n m :
  0 <= k -> 0 <= n -> 0 <= m -> extent img k n ++ extent img (k + n) m = extent img k (n + m).
Proof.
  intros. unfold extent.
  replace (Z.to_nat (n + m)) with (Z.to_nat n + Z.to_nat m)%nat by lia.
  replace (Z.to_nat (k + n)) with (Z.to_nat k + Z.to_nat n)%nat by lia.
  rewrite <- drop_drop. by rewrite take_take_drop.
Qed.

Definition set_stream (s : St) (p q : Z) : St :=
  set_heap s (k_alloc s) (<[p := to_obj (DiskStream q disk_addr)]> (objs s)).

(** One sector of a read at position [q]: load the stream, read its sector. *)
Lemma stream_sector_ok img s p q (Q : Z * list Z -> St -> Prop) :
  drive_ok img (dev s) -> objs s !! p = Some (to_obj (DiskStream q disk_addr)) ->
  0 <= q < Z.of_nat (length img) -> Z.of_nat (length img) < 2147483648 ->
  Z.of_nat (length img) mod 512 = 0 ->
  (forall d', drive_ok img d' -> Q (0, extent img (512 * (q / 512)) 512) (set_dev s d')) ->
  wp (disk_read_block disk_addr (u32 (Z.quot q DISK_SECTOR_SIZE)) 1
        (replicate (Z.to_nat DISK_SECTOR_SIZE) 0)) s Q.
Proof.
  intros Hok Hp Hq Himg Hmod HQ. unfold DISK_SECTOR_SIZE.
  rewrite Z.quot_div_nonneg, u32_small by zlia.
  eapply wp_mono; [apply (disk_read_block_ok _ _ _ img)|].
  - done. - zlia. - lia. - zlia. - rewrite length_replicate. lia.
  - intros r s' (-> & d' & -> & Hd'). change (512 * 1) with 512.
    assert (Hl : length (extent img (512 * (q / 512)) 512) = 512%nat)
      by (rewrite length_extent; zlia).
    replace (splice 0 _ _) with (extent img (512 * (q / 512)) 512); [by apply HQ|].
    unfold splice. rewrite drop_ge by (rewrite length_replicate; lia).
    by rewrite take_0, app_nil_r.
Qed.

Lemma disk_stream_read_rec_ok fuel img s p q out total :
  drive_ok img (dev s) -> objs s !! p = Some (to_obj (DiskStream q disk_addr)) ->
  0 <= q < Z.of_nat (length img) -> 0 <= total -> q + total <= Z.of_nat (length img) ->
  Z.of_nat (length img) < 2147483648 -> Z.of_nat (length img) mod 512 = 0 ->
  total <= Z.of_nat (length out) ->
  q mod 512 + total <= 512 * Z.of_nat fuel -> (0 < fuel)%nat ->
  wp (disk_stream_read_rec (A:=A) fuel p out total) s (fun r s' =>
    r = (0, extent img q total ++ drop (Z.to_nat total) out) /\
    exists d', drive_ok img d' /\ s' = set_dev (set_stream s p (q + total)) d').
Proof.
  revert s q out total. induction fuel as [|fuel IH]; intros s q out total
    Hok Hp Hq Ht Hqt Himg Hmod Hout Hfuel Hf; [lia|].
  cbn [disk_stream_read_rec]. apply wp_bind. eapply wp_load; [exact Hp|].
  cbn [ds_pos ds_disk]. apply wp_bind. eapply stream_sector_ok; [done..|]. intros d1 Hd1.
  cbv beta iota. destruct (Z.ltb_spec 0 0); [lia|].
  set (sec := extent img (512 * (q / 512)) 512).
  assert (Hsec : length sec = 512%nat) by (unfold sec; rewrite length_extent; zlia).
  unfold DISK_SECTOR_SIZE. rewrite Z.rem_mod_nonneg by lia. rewrite s32_small by zlia.
  assert (Hoff : 0 <= q mod 512 < 512) by zlia.
  assert (Hext : forall m, 0 <= m -> q mod 512 + m <= 512 ->
            extent sec (q mod 512) m = extent img q m).
  { intros m Hm Hm'. unfold sec. rewrite extent_extent by zlia. f_equal. zlia. }
  rewrite Z.gtb_ltb. destruct (Z.ltb_spec 512 (q mod 512 + total)) as [Hbig|Hsmall].
  - set (k := 512 - q mod 512). apply wp_bind. unfold wp at 1, lift_outcome.
    rewrite copy_out_ok by lia. cbv beta iota.
    cbn [mbind outcome_bind]. rewrite Z2Nat.id by lia. rewrite Hext by lia.
    apply wp_bind. eapply wp_load; [exact Hp|]. apply wp_bind. eapply wp_store; [exact Hp|].
    cbn [ds_pos ds_disk]. apply wp_bind.
    assert (Hk : 0 < k <= 512) by lia.
    assert (Hdisj : (q + k) mod 512 = 0) by (unfold k; zlia).
    rewrite s32_small by zlia.
    eapply wp_mono; [apply (IH _ (q + k) (drop (Z.to_nat k) out) (total - k))|].
    + exact Hd1.
    + apply lookup_insert_eq.
    + zlia. + lia. + lia. + done. + done.
    + rewrite length_drop. lia.
    + lia.
    + lia.
    + intros r s' (-> & d2 & Hd2 & ->). cbv beta iota. destruct (Z.ltb_spec 0 0); [lia|].
      apply wp_ret. split.
      * f_equal. rewrite app_assoc, extent_app, drop_drop by lia.
        f_equal; [f_equal; lia|f_equal; lia].
      * exists d2. split; [done|]. unfold set_stream, set_dev, set_heap. simpl.
        rewrite insert_insert_eq. do 4 f_equal. lia.
  - apply wp_bind. unfold wp at 1, lift_outcome. rewrite copy_out_ok by lia.
    cbv beta iota. cbn [mbind outcome_bind]. rewrite Z2Nat.id by lia. rewrite Hext by lia.
    apply wp_bind. eapply wp_load; [exact Hp|]. apply wp_bind. eapply wp_store; [exact Hp|].
    cbn [ds_pos ds_disk]. rewrite s32_small by lia. apply wp_ret. split; [done|].
    exists d1. done.
Qed.

Lemma disk_stream_read_ok img s p q out total :
  drive_ok img (dev s) -> objs s !! p = Some (to_obj (DiskStream q disk_addr)) ->
  0 <= q < Z.of_nat (length img) -> 0 <= total -> q + total <= Z.of_nat (length img) ->
  Z.of_nat (length img) < 2147483648 -> Z.of_nat (length img) mod 512 = 0 ->
  total <= Z.of_nat (length out) ->
  wp (disk_stream_read (A:=A) p out total) s (fun r s' =>
    r = (0, extent img q total ++ drop (Z.to_nat total) out) /\
    exists d', drive_ok img d' /\ s' = set_dev (set_stream s p (q + total)) d').
Proof.
  intros. unfold disk_stream_read, DISK_SECTOR_SIZE.
  apply disk_stream_read_rec_ok; try done; [zlia|lia].
Qed.

Context `{!AllocatorLaws A}.

(** A stream for disk 0, on a heap with a free block. *)
Lemma get_disk_stream_ok s L f (Q : Z -> St -> Prop) :
  live s L -> free_blocks s = S f ->
  (forall p a, let s' := set_heap s a (<[p := to_obj (DiskStream 0 disk_addr)]> (objs s)) in
     live s' (<[p := 1%nat]> L) -> free_blocks s' = f -> L !! p = None ->
     objs s !! p = None -> 0 < p <= 2147479552 -> Q p s') ->
  wp (get_disk_stream 0) s Q.
Proof.
  intros Hl Hf HQ. unfold get_disk_stream. change (disk_get 0) with disk_addr.
  change (disk_addr =? 0) with false. cbv iota.
  apply wp_bind. eapply wp_zalloc; [done|unfold sizeof_disk_stream, HEAP_BLOCK_SIZE; lia|done|].
  intros p a s' Hl' Hf' Hfresh Ho Hp.
  apply wp_bind. eapply wp_load; [apply lookup_insert_eq|].
  apply wp_bind. eapply wp_store; [apply lookup_insert_eq|].
  apply wp_bind. eapply wp_load; [apply lookup_insert_eq|].
  apply wp_bind. eapply wp_store; [apply lookup_insert_eq|]. apply wp_ret.
  cbn [ds_pos ds_disk].
  specialize (HQ p a). subst s'. simpl in *. unfold set_heap at 1 2. simpl.
  unfold set_heap in *. simpl in *. rewrite !insert_insert_eq. apply HQ; try done.
  solve_live.
Qed.

Lemma disk_stream_seek_ok s p q q' (Q : Z -> St -> Prop) :
  objs s !! p = Some (to_obj (DiskStream q disk_addr)) ->
  Q 0 (set_stream s p q') -> wp (disk_stream_seek p q') s Q.
Proof.
  intros Hp HQ. unfold disk_stream_seek. apply wp_bind. eapply wp_load; [exact Hp|].
  apply wp_bind. eapply wp_store; [exact Hp|]. by apply wp_ret.
Qed.

(** Using a stream: open it on disk 0, seek to [q], read [n] and then [m] bytes
    into fresh buffers, close it. *)
Definition stream_session (q n m : Z) : M St ((Z * list Z) * (Z * list Z)) :=
  p ← get_disk_stream 0;
  _ ← disk_stream_seek p q;
  r1 ← disk_stream_read p (replicate (Z.to_nat n) 0) n;
  r2 ← disk_stream_read p (replicate (Z.to_nat m) 0) m;
  _ ← disk_stream_close p;
  mret (r1, r2).

Lemma extent_drop_all img q n :
  extent img q n ++ drop (Z.to_nat n) (replicate (Z.to_nat n) 0) = extent img q n.
Proof. rewrite drop_ge by (rewrite length_replicate; lia). apply app_nil_r. Qed.

(** ** Theorems *)

(** Against any drive that follows the ATA documentation,
    [disk_read_block] on the kernel's disk returns 0 with the requested sectors
    of the medium at the start of the buffer, the rest of the buffer and of the
    kernel state unchanged and the drive idle again; on any other disk pointer it
    returns [-EIO] and changes nothing. *)
Lemma disk_read_block_sectors idisk lba n buf img s :
  drive_ok img (dev s) -> 0 <= lba < 268435456 -> 0 < n < 256 ->
  (lba + n) * 512 <= Z.of_nat (length img) -> n * 512 <= Z.of_nat (length buf) ->
  wp (disk_read_block (A:=A) idisk lba n buf) s (fun r s' =>
    if bool_decide (idisk = disk_addr)
    then r = (0, extent img (512 * lba) (512 * n) ++ drop (Z.to_nat (512 * n)) buf) /\
         exists d', s' = set_dev s d' /\ drive_ok img d'
    else r = (- EIO, buf) /\ s' = s).
Proof.
  intros Hok Hl Hn Hi Hb. case_bool_decide as E.
  - subst idisk. eapply wp_mono; [by apply (disk_read_block_ok lba n buf img)|].
    intros r s' [-> Hs]. split; [|done]. f_equal. unfold splice.
    rewrite length_extent by lia. by rewrite take_0.
  - unfold disk_read_block. destruct (Z.eqb_spec idisk disk_addr); [done|]. by apply wp_ret.
Qed.

(** C14 (refinement).  A disk stream is a cursor over the bytes of the medium:
    opening one, seeking to [q] and reading [n] then [m] bytes returns exactly
    the bytes at [[q, q + n)] and [[q + n, q + n + m)], whatever the sector
    boundaries, and closing it leaves the heap and every other object as before. *)
Theorem stream_session_reads s L f img q n m :
  live s L -> free_blocks s = S f -> drive_ok img (dev s) ->
  Z.of_nat (length img) < 2147483648 -> Z.of_nat (length img) mod 512 = 0 ->
  0 <= q -> 0 <= n -> 0 <= m -> q + n < Z.of_nat (length img) ->
  q + n + m <= Z.of_nat (length img) ->
  wp (stream_session q n m) s (fun r s' =>
    r = ((0, extent img q n), (0, extent img (q + n) m)) /\
    live s' L /\ free_blocks s' = free_blocks s /\ objs s' = objs s /\
    drive_ok img (dev s') /\ the_disk s' = the_disk s).
Proof.
  intros Hl Hf Hok Himg Hmod Hq Hn Hm Hqn Hqm. unfold stream_session.
  apply wp_bind. eapply get_disk_stream_ok; [done|done|].
  intros p a s1 Hl1 Hf1 Hfresh Ho Hp. apply wp_bind.
  eapply disk_stream_seek_ok; [apply lookup_insert_eq|].
  apply wp_bind. eapply wp_mono; [apply (disk_stream_read_ok img _ _ q)|].
  { exact Hok. } { apply lookup_insert_eq. } all: try (done || lia).
  { rewrite length_replicate. lia. }
  intros r1 s2 (-> & d2 & Hd2 & ->). rewrite extent_drop_all.
  apply wp_bind. eapply wp_mono; [apply (disk_stream_read_ok img _ _ (q + n))|].
  { exact Hd2. } { apply lookup_insert_eq. } all: try (done || lia).
  { rewrite length_replicate. lia. }
  intros r2 s3 (-> & d3 & Hd3 & ->). rewrite extent_drop_all.
  unfold set_stream, set_dev, set_heap; simpl. rewrite !insert_insert_eq.
  apply wp_bind. unfold disk_stream_close.
  eapply (wp_free p 1%nat _ (<[p := 1%nat]> L)); [|apply lookup_insert_eq|].
  { solve_live. }
  intros a' s4 Hl4 Hf4. apply wp_ret. subst s4. simpl in *.
  rewrite !delete_insert_id in Hl4 by done. rewrite delete_insert_id by done.
  split; [done|]. split; [|split; [|done]].
  - destruct Hl4 as [Hr Hd]. split; [done|]. destruct Hl as [_ Hd0]. done.
  - unfold free_blocks in *. simpl in *. lia.
Qed.

End Proofs.
End DiskProofs.

(** ** A drive that follows the documentation

    A register file, the words of the running transfer, and whether the next
    poll still finds the drive preparing a sector. *)
Module SimAta.
Import Disk.

Record ata := Ata {
  image : list Z; select : Z; count : Z; lba0 : Z; lba1 : Z; lba2 : Z;
  queue : list Z; waiting : bool
}.

Definition sim_insb (port : Z) (d : ata) : Z * ata :=
  if port =? 0x1F7 then
    if waiting d
    then (0x50, Ata (image d) (select d) (count d) (lba0 d) (lba1 d) (lba2 d) (queue d) false)
    else (0x58, d)
  else (0, d).

Definition sim_insw (port : Z) (d : ata) : Z * ata :=
  match queue d with
  | w :: ws =>
      (w, Ata (image d) (select d) (count d) (lba0 d) (lba1 d) (lba2 d) ws
            (Z.of_nat (length ws) mod 256 =? 0))
  | [] => (0, d)
  end.

Definition sim_outb (port v : Z) (d : ata) : ata :=
  let 'Ata img sel n l0 l1 l2 q w := d in
  if port =? 0x1F6 then Ata img v n l0 l1 l2 q w
  else if port =? 0x1F2 then Ata img sel v l0 l1 l2 q w
  else if port =? 0x1F3 then Ata img sel n v l1 l2 q w
  else if port =? 0x1F4 then Ata img sel n l0 v l2 q w
  else if port =? 0x1F5 then Ata img sel n l0 l1 v q w
  else if port =? 0x1F7 then
    let lba := l0 + 256 * l1 + 65536 * l2 + 16777216 * (sel mod 16) in
    Ata img sel n l0 l1 l2 (words (extent (u8 <$> img) (512 * lba) (512 * n))) true
  else d.

#[export] Instance sim_port : PortIO ata :=
  { insb := sim_insb; insw := sim_insw; outb := sim_outb }.

#[export] Program Instance sim_drive : AtaDrive ata := {
  ata_image d := u8 <$> image d;
  ata_idle d := queue d = [];
  ata_data d ws := queue d = ws;
  ata_polls d := c_bool (waiting d)
}.
Next Obligation. intros d. apply Forall_fmap, Forall_forall. intros x _. apply u8_range. Qed.
Next Obligation. intros d. simpl. destruct (waiting d); simpl; lia. Qed.
Next Obligation.
  intros [img sel n0 l0 l1 l2 q w] lba n _ Hl Hn _. simpl. split; [done|].
  do 2 f_equal. zlia.
Qed.
Next Obligation.
  intros [img sel n0 l0 l1 l2 q w] ws Hd Hne. simpl in *. subst q.
  destruct w; do 2 eexists; (split; [reflexivity|]); simpl;
    (split; [unfold byte; lia|]); repeat split; done.
Qed.
Next Obligation.
  intros [img sel n0 l0 l1 l2 q wt] w ws Hd _. simpl in *. subst q.
  eexists. split; [reflexivity|]. split; [done|]. split; [done|]. intros _. split; [done|].
  simpl. intros Hm. by destruct (Z.eqb_spec (Z.of_nat (length ws) mod 256) 0).
Qed.

(** A drive with two sectors, bytes 0 to 255 repeated. *)
Definition two_sectors : list Z := (fun i => u8 (Z.of_nat i)) <$> seq 0 1024.
Definition sim_disk : ata := Ata two_sectors 0 0 0 0 0 [] false.

End SimAta.
Import SimAta KernelHeap.

(** The kernel state with that drive and a four-block heap. *)
Definition sim_state : kst KernelHeap.kmem SimAta.ata :=
  KSt (KernelHeap.KMem Heap.heap4 ∅) ∅ sim_disk (Disk REAL 0 512 0 0) [] [].

Lemma sim_live : live sim_state ∅.
Proof.
  split; [|set_solver]. exists ∅. split; [apply Heap.heap_reach_rep, Heap.heap4_reach|].
  split; [symmetry; apply kmap_empty|vm_compute; congruence].
Qed.

Lemma sim_drive_ok : DiskProofs.drive_ok two_sectors (dev sim_state).
Proof. split; [reflexivity|vm_compute; reflexivity]. Qed.

Lemma disk_read_block_sectors_witness : exists s',
  Disk.disk_read_block 1 1 1 (replicate 512 7) sim_state =
    Ok ((0, drop 512 two_sectors), s').
Proof.
  pose proof (DiskProofs.disk_read_block_sectors (A:=KernelHeap.kmem) 1 1 1 (replicate 512 7) two_sectors sim_state
    sim_drive_ok ltac:(lia) ltac:(lia) ltac:(vm_compute; congruence) ltac:(vm_compute; congruence)) as Hw.
  apply wp_run in Hw as (r & s' & Hr & Hq). rewrite bool_decide_true in Hq by reflexivity.
  destruct Hq as [-> _]. exists s'. exact Hr.
Defined.

Lemma stream_session_reads_witness : exists s',
  DiskProofs.stream_session 510 4 3 sim_state =
    Ok (((0, [254; 255; 0; 1]), (0, [2; 3; 4])), s') /\ objs s' = ∅.
Proof.
  pose proof (DiskProofs.stream_session_reads sim_state ∅ 3 two_sectors 510 4 3
    sim_live ltac:(reflexivity) sim_drive_ok ltac:(vm_compute; reflexivity) ltac:(reflexivity)
    ltac:(lia) ltac:(lia) ltac:(lia) ltac:(vm_compute; reflexivity) ltac:(vm_compute; congruence)) as Hw.
  apply wp_run in Hw as (r & s' & Hr & -> & _ & _ & Ho & _). exists s'.
  split; [exact Hr|exact Ho].
Defined.
