(* ===== verification/PParser.v ===== *)
(** * The path parser: [src/fs/pparser.c]

    A path [0:/bin/shell.elf] becomes a [path_root] with the drive number and a
    linked list of [path_part]s, all on the kernel heap.  A [const char *] is the
    list of bytes from the pointer to the end of its object; the functions that
    move a [const char **] return the new pointer. *)
From stdpp Require Import base gmap list numbers.
From S2P Require Import Prelude Config Memory CString Heap KernelHeap KState.
#[local] Open Scope Z_scope.

Module PParser.

Definition sizeof_path_root : Z := 8.
Definition sizeof_path_part : Z := 8.

(** The characters of the path syntax. *)
Definition slash : Z := 47.
Definition colon : Z := 58.

Section Parser.
Context {A D : Type} `{Allocator A}.
#[local] Abbreviation St := (kst A D).

(** ** Operations *)

Definition path_valid_form (filename : list Z) : outcome bool :=
  len ← CString.strnlen filename MAX_FILE_PATH_CHARS;
  if negb (len >? 2) then Ok false
  else
    c ← of_option (filename !! 0%nat);
    if negb (CString.is_digit (s8 c)) then Ok false
    else r ← Memory.memcmp (drop 1 filename) [colon; slash; 0] 2; Ok (r =? 0).

(** The drive number or an error, and the path past the drive. *)
Definition get_drive_by_path (path : list Z) : outcome (Z * list Z) :=
  ok ← path_valid_form path;
  if negb ok then Ok (- EBADPATH, path)
  else
    c ← of_option (path !! 0%nat);
    let drive_no := CString.ctoi (s8 c) in
    Ok (drive_no, drop 3 path).

Definition pparser_create_root (drive : Z) : M St Z :=
  path_r ← zalloc sizeof_path_root (PathRoot 0 0);
  x ← load path_r;
  _ ← store path_r (PathRoot drive (pr_first x));
  x ← load path_r;
  _ ← store path_r (PathRoot (drive_no x) 0);
  mret path_r.

(** The copying loop: the index [i] after it and the path it stopped at. *)
Fixpoint copy_part (result_path_part : Z) (i : Z) (path : list Z) : M St (Z * list Z) :=
  match path with
  | [] => fault
  | c :: path' =>
      if negb (c =? slash) && negb (c =? 0) then
        buf ← load result_path_part;
        _ ← (if i <? Z.of_nat (length buf)
             then store result_path_part (<[Z.to_nat i := c]> buf) else fault);
        copy_part result_path_part (i + 1) path'
      else mret (i, path)
  end.

Definition pparser_get_path_part (path : list Z) : M St (Z * list Z) :=
  result_path_part ← zalloc MAX_FILE_PATH_CHARS (replicate (Z.to_nat MAX_FILE_PATH_CHARS) 0);
  '(i, path) ← copy_part result_path_part 0 path;
  c ← lift_outcome (of_option (path !! 0%nat));
  let path := if c =? slash then drop 1 path else path in
  if i =? 0 then _ ← free result_path_part; mret (0, path)
  else mret (result_path_part, path).

Definition parse_path_part (last_part : Z) (path : list Z) : M St (Z * list Z) :=
  '(path_part_str, path) ← pparser_get_path_part path;
  if path_part_str =? 0 then mret (0, path)
  else
    part ← zalloc sizeof_path_part (PathPart 0 0);
    x ← load part;
    _ ← store part (PathPart path_part_str (pp_next x));
    x ← load part;
    _ ← store part (PathPart (pp_part x) 0);
    _ ← (if negb (last_part =? 0)
         then x ← load last_part; store last_part (PathPart (pp_part x) part)
         else mret tt);
    mret (part, path).

(** The body of [while (part)]. *)
Definition free_step (part : Z) : M St (Z + unit) :=
  if part =? 0 then mret (inr tt)
  else
    x ← load part;
    let next_part := pp_next x in
    _ ← free (pp_part x);
    _ ← free part;
    mret (inl next_part).

Definition pparser_free (root : Z) : M St unit :=
  x ← load root;
  _ ← loop_m free_step (pr_first x);
  free root.

(** [current_dir_path] is not used. *)
Definition pparser_parse (path : list Z) : M St Z :=
  len ← lift_outcome (CString.strlen path);
  if len >? MAX_FILE_PATH_CHARS then mret 0
  else
    '(drive, tmp_path) ← lift_outcome (get_drive_by_path path);
    if drive <? 0 then mret 0
    else
      path_root ← pparser_create_root drive;
      if path_root =? 0 then mret 0
      else
        '(first_part, tmp_path) ← parse_path_part 0 tmp_path;
        if first_part =? 0 then mret 0
        else
          x ← load path_root;
          _ ← store path_root (PathRoot (drive_no x) first_part);
          r ← parse_path_part first_part tmp_path;
          loop_m (fun '(part, tmp_path) =>
            if part =? 0 then mret (inr path_root)
            else r ← parse_path_part part tmp_path; mret (inl r)) r.

(** ** What a path string denotes *)

(** The parts of the text after the drive, up to the first empty one; [cur] holds
    the characters of the current part. *)
Fixpoint parts_from (cur s : list Z) : list (list Z) :=
  match s with
  | [] => match cur with [] => [] | _ => [cur] end
  | c :: s' =>
      if c =? slash then match cur with [] => [] | _ => cur :: parts_from [] s' end
      else parts_from (cur ++ [c]) s'
  end.
Definition parts_of (s : list Z) : list (list Z) := parts_from [] s.

(** The bytes of a part's buffer: the text, null-padded. *)
Definition pad (x : list Z) : list Z :=
  x ++ replicate (Z.to_nat MAX_FILE_PATH_CHARS - length x) 0.

(** The list of [path_part]s at [p], with the addresses [(part, text)] of each. *)
Fixpoint parts_at (o : gmap Z obj) (p : Z) (ads : list (Z * Z)) (l : list (list Z)) : Prop :=
  match ads, l with
  | [], [] => p = 0
  | (q, str) :: ads', x :: l' =>
      p = q /\ q <> 0 /\ exists next, o !! q = Some (to_obj (PathPart str next)) /\
      o !! str = Some (to_obj (pad x)) /\ parts_at o next ads' l'
  | _, _ => False
  end.

Definition head_addr (ads : list (Z * Z)) : Z :=
  match ads with [] => 0 | (p, _) :: _ => p end.

Fixpoint flat (ads : list (Z * Z)) : list Z :=
  match ads with [] => [] | (p, str) :: ads' => p :: str :: flat ads' end.

(** The allocations of a list of parts, added to [L]. *)
Fixpoint with_parts (ads : list (Z * Z)) (L : gmap Z nat) : gmap Z nat :=
  match ads with
  | [] => L
  | (p, str) :: ads' => <[p := 1%nat]> (<[str := 1%nat]> (with_parts ads' L))
  end.

(** ** Texts *)

(** A character of a part. *)
Definition part_char (c : Z) : Prop := c <> slash /\ c <> 0.

(** A text is a part, or a part, a slash and a text. *)
Lemma text_split text :
  Forall CString.nonzero text ->
  (Forall part_char text) \/
  (exists x text', text = x ++ slash :: text' /\ Forall part_char x).
Proof.
  induction 1 as [|c text Hc Ht IH]; [by left|].
  destruct (decide (c = slash)) as [->|Hs]; [right; by exists [], text|].
  destruct IH as [IH|(x & text' & -> & Hx)].
  - left. by constructor.
  - right. exists (c :: x), text'. split; [done|]. by constructor.
Qed.

Lemma parts_from_app cur x text :
  Forall part_char x -> parts_from cur (x ++ text) = parts_from (cur ++ x) text.
Proof.
  intros Hx. revert cur. induction Hx as [|c x [Hc _] Hx IH]; intros cur; simpl.
  { by rewrite app_nil_r. }
  destruct (Z.eqb_spec c slash); [done|]. rewrite IH. by rewrite <- app_assoc.
Qed.

Lemma parts_of_last x : Forall part_char x -> x <> [] -> parts_of x = [x].
Proof.
  intros Hx Hne. unfold parts_of. rewrite <- (app_nil_r x), parts_from_app by done.
  simpl. rewrite app_nil_r. by destruct x.
Qed.

Lemma parts_of_cons x text :
  Forall part_char x -> x <> [] -> parts_of (x ++ slash :: text) = x :: parts_of text.
Proof.
  intros Hx Hne. unfold parts_of. rewrite parts_from_app by done. simpl.
  by destruct x.
Qed.

(** A text has at most as many parts as characters. *)
Lemma parts_from_length cur text :
  (length (parts_from cur text) <= length cur + length text)%nat.
Proof.
  revert cur. induction text as [|c text IH]; intros cur; simpl.
  { destruct cur; simpl; lia. }
  destruct (c =? slash).
  - destruct cur as [|b cur]; simpl; [lia|]. specialize (IH []). simpl in IH. lia.
  - specialize (IH (cur ++ [c])). rewrite length_app in IH. simpl in IH. lia.
Qed.

(** The first part of a text with parts, and the text left behind it. *)
Lemma parts_of_first text x l :
  Forall CString.nonzero text -> parts_of text = x :: l ->
  exists text', Forall part_char x /\ x <> [] /\ parts_of text' = l /\
    Forall CString.nonzero text' /\ (length x + length text' <= length text)%nat /\
    forall junk, exists c rest, text ++ 0 :: junk = x ++ c :: rest /\ (c = slash \/ c = 0) /\
      (if c =? slash then rest else c :: rest) = text' ++ 0 :: junk.
Proof.
  intros Hn Hp. destruct (text_split _ Hn) as [Hx|(y & text' & -> & Hy)].
  - destruct text as [|c text]; [done|]. rewrite parts_of_last in Hp by done.
    injection Hp as <- <-. exists []. split; [done|]. split; [done|]. split; [done|].
    split; [constructor|]. split; [simpl; lia|]. intros junk. exists 0, junk. eauto.
  - destruct y as [|c y]; [done|]. rewrite parts_of_cons in Hp by done.
    injection Hp as <- <-. exists text'. apply Forall_app in Hn as [_ Hn].
    split; [done|]. split; [done|]. split; [done|]. split; [by inversion Hn|].
    split; [rewrite length_app; simpl; lia|]. intros junk. exists slash, (text' ++ 0 :: junk).
    split; [by rewrite <- app_assoc|]. split; [by left|]. by destruct (Z.eqb_spec slash slash).
Qed.

(** A text without parts is empty or starts with a slash. *)
Lemma parts_of_nil text junk :
  Forall CString.nonzero text -> parts_of text = [] ->
  exists c rest, text ++ 0 :: junk = c :: rest /\ (c = slash \/ c = 0).
Proof.
  intros Hn Hp. destruct text as [|c text]; [exists 0, junk; eauto|].
  exists c, (text ++ 0 :: junk). split; [done|].
  destruct (decide (c = slash)) as [->|Hs]; [by left|]. exfalso.
  destruct (text_split _ Hn) as [Hx|(y & text' & E & Hy)].
  - by rewrite parts_of_last in Hp.
  - destruct y as [|c' y]; [by injection E as -> _|]. rewrite E, parts_of_cons in Hp by done. done.
Qed.

(** ** The operations *)

Lemma copy_part_ok p i x c rest (buf : list Z) s (Q : Z * list Z -> St -> Prop) :
  objs s !! p = Some (to_obj buf) -> Forall part_char x -> c = slash \/ c = 0 ->
  0 <= i -> i + Z.of_nat (length x) <= Z.of_nat (length buf) ->
  Q (i + Z.of_nat (length x), c :: rest)
    (set_heap s (k_alloc s) (<[p := to_obj (splice (Z.to_nat i) x buf)]> (objs s))) ->
  wp (copy_part p i (x ++ c :: rest)) s Q.
Proof.
  intros Hp Hx Hc. revert i buf s Hp. induction Hx as [|b x [Hb1 Hb2] Hx IH];
    intros i buf s Hp Hi Hl HQ; simpl app; cbn [copy_part].
  - assert (negb (c =? slash) && negb (c =? 0) = false) as ->.
    { destruct Hc as [->| ->]; done. }
    apply wp_ret. rewrite splice_nil in HQ.
    rewrite insert_id in HQ by exact Hp. simpl in HQ. rewrite Z.add_0_r in HQ. by destruct s.
  - destruct (Z.eqb_spec b slash); [done|]. destruct (Z.eqb_spec b 0); [done|]. simpl.
    simpl in Hl. apply wp_bind. eapply wp_load; [exact Hp|]. apply wp_bind.
    destruct (Z.ltb_spec i (Z.of_nat (length buf))); [|lia].
    eapply wp_store; [exact Hp|].
    apply (IH (i + 1) (<[Z.to_nat i := b]> buf)).
    + apply lookup_insert_eq.
    + lia.
    + rewrite length_insert. lia.
    + rewrite splice_cons in HQ by lia.
      replace (S (Z.to_nat i)) with (Z.to_nat (i + 1)) in HQ by lia.
      simpl length in HQ. replace (i + 1 + Z.of_nat (length x)) with (i + Z.of_nat (S (length x))) by lia.
      unfold set_heap in *. simpl in *. by rewrite insert_insert_eq.
Qed.

Lemma splice_pad x :
  (length x <= 128)%nat -> splice 0 x (replicate (Z.to_nat MAX_FILE_PATH_CHARS) 0) = pad x.
Proof. intros Hx. unfold splice, pad. by rewrite take_0, drop_replicate. Qed.

Context `{Av : AllocatorView A} `{Aw : !AllocatorLaws A}.

Lemma get_path_part_some x c rest s L f (Q : Z * list Z -> St -> Prop) :
  live s L -> free_blocks s = S f -> Forall part_char x -> x <> [] ->
  (length x <= 128)%nat -> c = slash \/ c = 0 ->
  (forall p a, let s' := set_heap s a (<[p := to_obj (pad x)]> (objs s)) in
     live s' (<[p := 1%nat]> L) -> free_blocks s' = f -> L !! p = None ->
     objs s !! p = None -> 0 < p <= 2147479552 ->
     Q (p, if c =? slash then rest else c :: rest) s') ->
  wp (pparser_get_path_part (x ++ c :: rest)) s Q.
Proof.
  intros Hl Hf Hx Hne Hlen Hc HQ. unfold pparser_get_path_part.
  apply wp_bind. eapply wp_zalloc; [done|unfold MAX_FILE_PATH_CHARS, HEAP_BLOCK_SIZE; lia|done|].
  intros p a s1 Hl1 Hf1 Hfresh Ho Hp. apply wp_bind.
  eapply copy_part_ok; [apply lookup_insert_eq|done|done|lia| |].
  { rewrite length_replicate. unfold MAX_FILE_PATH_CHARS. lia. }
  change (Z.to_nat 0) with 0%nat. rewrite splice_pad by done. cbv iota beta.
  apply wp_bind. unfold wp at 1. simpl.
  destruct (Z.eqb_spec (0 + Z.of_nat (length x)) 0); [destruct x; simpl in *; [done|lia]|].
  apply wp_ret. subst s1. unfold set_heap. simpl. rewrite insert_insert_eq.
  specialize (HQ p a). unfold set_heap in HQ. simpl in HQ.
  assert (E : (if c =? slash then drop 1 (c :: rest) else c :: rest) =
              (if c =? slash then rest else c :: rest)) by done.
  simpl in E. rewrite E. apply HQ; try done.
  solve_live.
Qed.

Lemma get_path_part_none c rest s L f (Q : Z * list Z -> St -> Prop) :
  live s L -> free_blocks s = S f -> c = slash \/ c = 0 ->
  (forall a path', let s' := set_heap s a (objs s) in
     live s' L -> free_blocks s' = S f -> Q (0, path') s') ->
  wp (pparser_get_path_part (c :: rest)) s Q.
Proof.
  intros Hl Hf Hc HQ. unfold pparser_get_path_part.
  apply wp_bind. eapply wp_zalloc; [done|unfold MAX_FILE_PATH_CHARS, HEAP_BLOCK_SIZE; lia|done|].
  intros p a s1 Hl1 Hf1 Hfresh Ho Hp. apply wp_bind.
  apply (copy_part_ok p 0 [] c rest (replicate (Z.to_nat MAX_FILE_PATH_CHARS) 0));
    [apply lookup_insert_eq|constructor|done|lia|simpl; lia|].
  rewrite splice_nil. cbv iota beta. simpl length. apply wp_bind. unfold wp at 1. simpl.
  destruct (Z.eqb_spec (0 + Z.of_nat 0) 0); [|lia]. apply wp_bind.
  eapply (wp_free p 1%nat _ (<[p := 1%nat]> L)); [|apply lookup_insert_eq|].
  { solve_live. }
  intros a' s2 Hl2 Hf2. apply wp_ret. subst s1 s2. unfold set_heap in *. simpl in *.
  rewrite insert_insert_eq, !delete_insert_id in * by done.
  apply HQ; [done|]. unfold free_blocks in *. simpl in *. lia.
Qed.

(** The last part so far, to which a new one is linked. *)
Definition link (last p : Z) (st : Z) (o : gmap Z obj) : gmap Z obj :=
  if last =? 0 then o else <[last := to_obj (PathPart st p)]> o.

Lemma parse_path_part_some last st text x l junk s L f (Q : Z * list Z -> St -> Prop) :
  live s L -> free_blocks s = S (S f) ->
  Forall CString.nonzero text -> (length text <= 128)%nat -> parts_of text = x :: l ->
  (last <> 0 -> objs s !! last = Some (to_obj (PathPart st 0))) ->
  (forall p str a text',
     let s' := set_heap s a (link last p st
       (<[p := to_obj (PathPart str 0)]> (<[str := to_obj (pad x)]> (objs s)))) in
     live s' (<[p := 1%nat]> (<[str := 1%nat]> L)) -> free_blocks s' = f ->
     L !! p = None -> L !! str = None -> p <> str -> p <> 0 ->
     Forall CString.nonzero text' -> (length text' < length text)%nat -> parts_of text' = l ->
     Q (p, text' ++ 0 :: junk) s') ->
  wp (parse_path_part last (text ++ 0 :: junk)) s Q.
Proof.
  intros Hl Hf Hn Hlen Hp Hlast HQ.
  destruct (parts_of_first _ _ _ Hn Hp) as (text' & Hx & Hne & Hl' & Hn' & Hlt & Hsp).
  destruct (Hsp junk) as (c & rest & -> & Hc & Hrest).
  assert (0 < length x)%nat by (destruct x; [done|simpl; lia]).
  unfold parse_path_part. apply wp_bind.
  eapply get_path_part_some; [done|done|done|done|lia|done|].
  intros str a1 s1 Hl1 Hf1 Hs1 Ho1 Hstr. cbv iota beta. rewrite Hrest.
  destruct (Z.eqb_spec str 0); [lia|].
  apply wp_bind. eapply wp_zalloc; [exact Hl1|unfold sizeof_path_part, HEAP_BLOCK_SIZE; lia|done|].
  intros p a2 s2 Hl2 Hf2 Hfp Hop Hpp.
  apply lookup_insert_None in Hfp as [HLp Hps].
  apply wp_bind. eapply wp_load; [apply lookup_insert_eq|].
  apply wp_bind. eapply wp_store; [apply lookup_insert_eq|].
  apply wp_bind. eapply wp_load; [apply lookup_insert_eq|].
  apply wp_bind. eapply wp_store; [apply lookup_insert_eq|]. cbn [pp_part pp_next].
  subst s1 s2. unfold set_heap in *. simpl in *. rewrite !insert_insert_eq.
  apply wp_bind. specialize (HQ p str a2 text'). unfold link in HQ.
  destruct (Z.eqb_spec last 0) as [->|Hl0]; simpl.
  - do 2 apply wp_ret. apply HQ; try done; [solve_live|lia|lia].
  - specialize (Hlast Hl0).
    assert (last <> str) by (intros ->; congruence).
    assert (last <> p).
    { intros ->. destruct Hl as [_ Hd]. apply elem_of_dom_2 in Hlast. apply Hd in Hlast.
      by apply elem_of_dom in Hlast as [? ?]; congruence. }
    assert (Hlk : <[p := OPart (PathPart str 0)]> (<[str := OBytes (pad x)]> (objs s)) !! last
              = Some (to_obj (PathPart st 0))) by (by rewrite !lookup_insert_ne).
    apply wp_bind. eapply wp_load; [exact Hlk|]. eapply wp_store; [exact Hlk|].
    apply wp_ret. cbn [pp_part]. unfold set_heap. simpl. apply HQ; try done; [|lia|lia].
    eapply live_dom; [exact Hl2|done|]. simpl. rewrite !dom_insert.
    apply elem_of_dom_2 in Hlast. revert Hlast. clear. set_solver.
Qed.

Lemma parse_path_part_none last text junk s L f (Q : Z * list Z -> St -> Prop) :
  live s L -> free_blocks s = S f -> Forall CString.nonzero text -> parts_of text = [] ->
  (forall a path', let s' := set_heap s a (objs s) in
     live s' L -> free_blocks s' = S f -> Q (0, path') s') ->
  wp (parse_path_part last (text ++ 0 :: junk)) s Q.
Proof.
  intros Hl Hf Hn Hp HQ. destruct (parts_of_nil _ junk Hn Hp) as (c & rest & -> & Hc).
  unfold parse_path_part. apply wp_bind. eapply get_path_part_none; [done|done|done|].
  intros a path' s' Hl' Hf'. cbv iota beta. change (0 =? 0) with true. apply wp_ret. by apply HQ.
Qed.

(** What the parsing loop leaves: a list of parts behind [last]. *)
Record built (s s' : St) (L : gmap Z nat) (last st : Z) (ads : list (Z * Z))
    (l : list (list Z)) : Prop := {
  built_live : live s' (with_parts ads L);
  built_free : free_blocks s = (2 * length l + free_blocks s')%nat;
  built_last : objs s' !! last = Some (to_obj (PathPart st (head_addr ads)));
  built_parts : parts_at (objs s') (head_addr ads) ads l;
  built_frame a : a <> last -> a ∉ flat ads -> objs s' !! a = objs s !! a;
  built_fresh a : a ∈ flat ads -> L !! a = None;
  built_nodup : NoDup (flat ads);
  built_same : s' = set_heap s (k_alloc s') (objs s')
}.

Lemma with_parts_insert ads q L :
  with_parts ads (<[q := 1%nat]> L) = <[q := 1%nat]> (with_parts ads L).
Proof.
  assert (Hc : forall a b (m : gmap Z nat),
    <[a := 1%nat]> (<[b := 1%nat]> m) = <[b := 1%nat]> (<[a := 1%nat]> m)).
  { intros a b m. destruct (decide (a = b)) as [->|]; [done|]. by apply insert_insert_ne. }
  induction ads as [|[p str] ads IH]; simpl; [done|]. rewrite IH.
  by rewrite (Hc str q), (Hc p q).
Qed.

Lemma live_lookup (s : St) L p : live s L -> is_Some (objs s !! p) -> is_Some (L !! p).
Proof. intros [_ Hd] Hp. apply elem_of_dom, Hd. by apply elem_of_dom. Qed.

(** One more part in front of a built list. *)
Lemma built_cons (s s' : St) L last st p str a ads x l :
  live s L -> objs s !! last = Some (to_obj (PathPart st 0)) -> last <> 0 ->
  L !! p = None -> L !! str = None -> p <> str -> p <> 0 ->
  let s1 := set_heap s a (link last p st
    (<[p := to_obj (PathPart str 0)]> (<[str := to_obj (pad x)]> (objs s)))) in
  free_blocks s = S (S (free_blocks s1)) ->
  built s1 s' (<[p := 1%nat]> (<[str := 1%nat]> L)) p str ads l ->
  built s s' L last st ((p, str) :: ads) (x :: l).
Proof.
  intros Hl Hlast Hl0 Hp Hstr Hne Hp0 s1 Hfree [Hb1 Hb2 Hb3 Hb4 Hb5 Hb6 Hb7 Hb8].
  assert (HLl : is_Some (L !! last)) by (eapply live_lookup; eauto).
  assert (Hlp : last <> p) by (intros ->; rewrite Hp in HLl; by destruct HLl).
  assert (Hls : last <> str) by (intros ->; rewrite Hstr in HLl; by destruct HLl).
  assert (Hnot : forall q, is_Some (<[p := 1%nat]> (<[str := 1%nat]> L) !! q) -> q ∉ flat ads).
  { intros q [? Hq] Hin. apply Hb6 in Hin. congruence. }
  assert (Hs1 : forall q, objs s1 !! q =
    (<[last := to_obj (PathPart st p)]> (<[p := to_obj (PathPart str 0)]>
      (<[str := to_obj (pad x)]> (objs s)))) !! q).
  { intros q. unfold s1, link. simpl. by destruct (Z.eqb_spec last 0). }
  assert (HnL : last ∉ flat ads).
  { apply Hnot. rewrite !lookup_insert_ne by done. done. }
  assert (HnS : str ∉ flat ads).
  { apply Hnot. rewrite lookup_insert_ne by done. rewrite lookup_insert_eq. by eexists. }
  assert (HnP : p ∉ flat ads).
  { apply Hnot. rewrite lookup_insert_eq. by eexists. }
  split.
  - simpl. by rewrite !with_parts_insert in Hb1.
  - simpl. lia.
  - rewrite Hb5, Hs1 by done. by rewrite lookup_insert_eq.
  - simpl. split; [done|]. split; [done|]. exists (head_addr ads). split; [done|]. split; [|done].
    rewrite Hb5, Hs1 by done. rewrite !lookup_insert_ne by done. apply lookup_insert_eq.
  - intros q Hq Hin. simpl in Hin. apply not_elem_of_cons in Hin as [? Hin].
    apply not_elem_of_cons in Hin as [? Hin]. rewrite Hb5, Hs1 by done.
    by rewrite !lookup_insert_ne by done.
  - intros q Hin. simpl in Hin. apply elem_of_cons in Hin as [->|Hin]; [done|].
    apply elem_of_cons in Hin as [->|Hin]; [done|]. specialize (Hb6 q Hin).
    by apply lookup_insert_None in Hb6 as [[? _]%lookup_insert_None _].
  - simpl. constructor; [|by constructor]. by apply not_elem_of_cons.
  - rewrite Hb8. done.
Qed.

(** The parsing loop behind a linked part. *)
Lemma parse_loop_ok root part text junk s L st f (Q : Z -> St -> Prop) :
  live s L -> objs s !! part = Some (to_obj (PathPart st 0)) -> part <> 0 ->
  Forall CString.nonzero text -> (length text <= 128)%nat ->
  free_blocks s = (2 * length (parts_of text) + S f)%nat ->
  (forall s' ads, built s s' L part st ads (parts_of text) -> Q root s') ->
  wp (loop_m (fun '(part, tmp_path) =>
        if part =? 0 then mret (inr root)
        else r ← parse_path_part part tmp_path; mret (inl r)) (part, text ++ 0 :: junk)) s Q.
Proof.
  intros Hl Hp H0 Hn Hlen Hf HQ.
  apply (wp_loop_idx (fun n '(part, path) s =>
    part = 0 /\ Q root s \/
    part <> 0 /\ exists text L st, path = text ++ 0 :: junk /\ live s L /\
      objs s !! part = Some (to_obj (PathPart st 0)) /\
      Forall CString.nonzero text /\ (length text <= 128)%nat /\ n = S (length text) /\
      free_blocks s = (2 * length (parts_of text) + S f)%nat /\
      (forall s' ads, built s s' L part st ads (parts_of text) -> Q root s'))
    _ (S (length text))); [right; split; [done|]; by exists text, L, st|lia|].
  clear Hl Hp H0 Hn Hlen Hf HQ. clear s part text L st. intros n [part path] s [[-> HQ]|(H0 & text & L & st & -> & Hl & Hp & Hn & Hlen & -> & Hf & HQ)].
  { change (0 =? 0) with true. by apply wp_ret. }
  destruct (Z.eqb_spec part 0); [done|]. apply wp_bind.
  destruct (parts_of text) as [|x l] eqn:Ep; simpl length in Hf.
  - change (2 * 0 + S f)%nat with (S f) in Hf.
    eapply parse_path_part_none; [done|done|done|done|]. intros a path' s' Hl' Hf'. apply wp_ret.
    exists 0%nat. split; [lia|]. left. split; [done|]. apply (HQ s' []).
    split; simpl; try done.
    + unfold free_blocks in *. simpl in *. lia.
    + intros q Hq. by apply not_elem_of_nil in Hq.
    + constructor.
  - replace (2 * S (length l) + S f)%nat with (S (S (2 * length l + S f))) in Hf by lia.
    eapply parse_path_part_some; [done|done|done|done|done|by intros _|].
    intros p str a text' s1 Hl1 Hf1 HLp HLs Hne Hp0 Hn' Hlt Hpt. apply wp_ret.
    exists (S (length text')). split; [lia|]. right. split; [done|].
    exists text', (<[p := 1%nat]> (<[str := 1%nat]> L)), str.
    split; [done|]. split; [done|]. split.
    { subst s1. unfold link. simpl. destruct (Z.eqb_spec part 0); [done|].
      rewrite lookup_insert_ne; [apply lookup_insert_eq|].
      intros ->. assert (is_Some (L !! p)) as [? ?]; [|congruence]. eapply live_lookup; eauto. }
    split; [done|]. split; [lia|]. split; [done|]. rewrite Hpt. split; [done|].
    intros s' ads Hb. apply (HQ s' ((p, str) :: ads)).
    eapply (built_cons s s' L part st p str a ads x l); try done.
    change (free_blocks s = S (S (free_blocks s1))). lia.
Qed.

(** The call before the loop and the loop. *)
Lemma parse_rest_ok root part text junk s L st f (Q : Z -> St -> Prop) :
  live s L -> objs s !! part = Some (to_obj (PathPart st 0)) -> part <> 0 ->
  Forall CString.nonzero text -> (length text <= 128)%nat ->
  free_blocks s = (2 * length (parts_of text) + S f)%nat ->
  (forall s' ads, built s s' L part st ads (parts_of text) -> Q root s') ->
  wp (r ← parse_path_part part (text ++ 0 :: junk);
      loop_m (fun '(part, tmp_path) =>
        if part =? 0 then mret (inr root)
        else r ← parse_path_part part tmp_path; mret (inl r)) r) s Q.
Proof.
  intros Hl Hp H0 Hn Hlen Hf HQ. apply wp_bind.
  destruct (parts_of text) as [|x l] eqn:Ep; simpl length in Hf.
  - change (2 * 0 + S f)%nat with (S f) in Hf.
    eapply parse_path_part_none; [done|done|done|done|]. intros a path' s' Hl' Hf'.
    apply (wp_loop_idx (fun _ '(q, _) s1 => q = 0 /\ s1 = s') _ 0); [done|lia|].
    intros n [q path] s1 [-> ->]. change (0 =? 0) with true. apply wp_ret. apply (HQ s' []).
    split; simpl; try done.
    + unfold free_blocks in *. simpl in *. lia.
    + intros q Hq. by apply not_elem_of_nil in Hq.
    + constructor.
  - replace (2 * S (length l) + S f)%nat with (S (S (2 * length l + S f))) in Hf by lia.
    eapply parse_path_part_some; [done|done|done|done|done|by intros _|].
    intros p str a text' s1 Hl1 Hf1 HLp HLs Hne Hp0 Hn' Hlt Hpt.
    eapply parse_loop_ok; [exact Hl1| |done|done|lia|by rewrite Hpt|].
    { subst s1. unfold link. simpl. destruct (Z.eqb_spec part 0); [done|].
      rewrite lookup_insert_ne; [apply lookup_insert_eq|].
      intros ->. assert (is_Some (L !! p)) as [? ?]; [|congruence]. eapply live_lookup; eauto. }
    rewrite Hpt. intros s' ads Hb. apply (HQ s' ((p, str) :: ads)).
    eapply (built_cons s s' L part st p str a ads x l); try done.
    change (free_blocks s = S (S (free_blocks s1))). lia.
Qed.

Lemma create_root_ok drive s L f (Q : Z -> St -> Prop) :
  live s L -> free_blocks s = S f ->
  (forall p a, let s' := set_heap s a (<[p := to_obj (PathRoot drive 0)]> (objs s)) in
     live s' (<[p := 1%nat]> L) -> free_blocks s' = f -> L !! p = None ->
     objs s !! p = None -> 0 < p <= 2147479552 -> Q p s') ->
  wp (pparser_create_root drive) s Q.
Proof.
  intros Hl Hf HQ. unfold pparser_create_root.
  apply wp_bind. eapply wp_zalloc; [done|unfold sizeof_path_root, HEAP_BLOCK_SIZE; lia|done|].
  intros p a s' Hl' Hf' Hfresh Ho Hp.
  apply wp_bind. eapply wp_load; [apply lookup_insert_eq|].
  apply wp_bind. eapply wp_store; [apply lookup_insert_eq|].
  apply wp_bind. eapply wp_load; [apply lookup_insert_eq|].
  apply wp_bind. eapply wp_store; [apply lookup_insert_eq|]. apply wp_ret.
  cbn [drive_no pr_first]. specialize (HQ p a). subst s'. unfold set_heap in *. simpl in *.
  rewrite !insert_insert_eq. apply HQ; try done. solve_live.
Qed.

(** ** Paths *)

(** The string of a path, with its drive digit and text. *)
Definition path_string (d : Z) (text : list Z) : list Z := d :: colon :: slash :: text.

Definition digit (d : Z) : Prop := 48 <= d <= 57.

(** What [pparser_parse] is to make of a string: the drive and the parts. *)
Definition path_of (s : list Z) : option (Z * list (list Z)) :=
  match s with
  | d :: c1 :: c2 :: text =>
      if bool_decide (Z.of_nat (length s) <= MAX_FILE_PATH_CHARS /\ digit d /\
                      c1 = colon /\ c2 = slash)
      then Some (d - 48, parts_of text) else None
  | _ => None
  end.

Lemma strlen_path s0 junk :
  Forall CString.nonzero s0 -> CString.strlen (s0 ++ 0 :: junk) = Ok (Z.of_nat (length s0)).
Proof. intros. apply CString.strlen_cstring. split; [done|]. by eexists. Qed.

Lemma strnlen_path s0 junk :
  Forall CString.nonzero s0 ->
  CString.strnlen (s0 ++ 0 :: junk) MAX_FILE_PATH_CHARS = Ok (Z.min 128 (Z.of_nat (length s0))).
Proof.
  intros. apply CString.strnlen_cstring; [|unfold MAX_FILE_PATH_CHARS; lia].
  split; [done|]. by eexists.
Qed.

(** [path_valid_form] decides the shape of the first three characters. *)
Lemma path_valid_form_ok s0 junk :
  Forall CString.char_byte s0 -> Z.of_nat (length s0) <= 128 ->
  path_valid_form (s0 ++ 0 :: junk) =
    Ok (match s0 with
        | d :: c1 :: c2 :: _ => bool_decide (digit d /\ c1 = colon /\ c2 = slash)
        | _ => false
        end).
Proof.
  intros Hb Hlen. unfold path_valid_form.
  rewrite strnlen_path by (by apply CString.char_byte_nonzero). cbn [mbind outcome_bind].
  rewrite Z.min_r, Z.gtb_ltb by lia.
  destruct s0 as [|d [|c1 [|c2 text]]]; try (simpl; done).
  destruct (Z.ltb_spec 2 (Z.of_nat (length (d :: c1 :: c2 :: text)))); [|simpl in *; lia].
  cbn [negb app]. change ((d :: _) !! 0%nat) with (Some d). cbn [of_option mbind outcome_bind].
  inversion_clear Hb as [|?? Hd Hb']. inversion_clear Hb' as [|?? H1 Hb'']. inversion_clear Hb'' as [|?? H2 _].
  unfold CString.char_byte in *. unfold CString.is_digit.
  assert (Hdig : (s8 d >? 47) && (s8 d <? 58) = bool_decide (digit d)).
  { case_bool_decide as Hdd; unfold digit, s8 in *.
    - apply andb_true_iff. rewrite Z.gtb_lt, Z.ltb_lt. zlia.
    - apply andb_false_iff. rewrite Z.gtb_ltb, !Z.ltb_ge. zlia. }
  rewrite Hdig. clear Hdig. destruct (decide (digit d)) as [Hdd|Hdd].
  - rewrite (bool_decide_true (digit d)) by done. cbn [negb drop].
    unfold Memory.memcmp. change (Z.to_nat 2) with 2%nat. cbn [Memory.memcmp_loop].
    assert (Hs : forall c k, 0 < c < 256 -> 0 < k < 128 -> (s8 c =? s8 k) = bool_decide (c = k)).
    { intros c k Hc Hk. case_bool_decide as E; [subst; apply Z.eqb_refl|]. apply Z.eqb_neq.
      intros E'. apply E. apply s8_inj; [lia|lia|done]. }
    unfold colon, slash in *. rewrite !Hs by lia.
    case_bool_decide as E1; cbn [negb].
    + case_bool_decide as E2; cbn [negb]; cbn [mbind outcome_bind].
      * by rewrite bool_decide_true.
      * rewrite bool_decide_false by tauto. by destruct (_ <? _).
    + cbn [mbind outcome_bind]. rewrite bool_decide_false by tauto. by destruct (_ <? _).
  - rewrite (bool_decide_false (digit d)) by done. cbn [negb].
    rewrite bool_decide_false by tauto. done.
Qed.

Lemma path_of_None_long s0 : MAX_FILE_PATH_CHARS < Z.of_nat (length s0) -> path_of s0 = None.
Proof.
  intros Hl. destruct s0 as [|d [|c1 [|c2 text]]]; try done. unfold path_of.
  rewrite bool_decide_false by lia. done.
Qed.

Lemma get_drive_by_path_ok s0 junk :
  Forall CString.char_byte s0 -> Z.of_nat (length s0) <= 128 ->
  get_drive_by_path (s0 ++ 0 :: junk) =
    Ok (match path_of s0 with
        | Some (n, _) => (n, drop 3 s0 ++ 0 :: junk)
        | None => (- EBADPATH, s0 ++ 0 :: junk)
        end).
Proof.
  intros Hb Hlen. unfold get_drive_by_path. rewrite path_valid_form_ok by done.
  cbn [mbind outcome_bind]. destruct s0 as [|d [|c1 [|c2 text]]]; try done.
  unfold path_of, MAX_FILE_PATH_CHARS.
  destruct (decide (digit d /\ c1 = colon /\ c2 = slash)) as [E|E];
    [rewrite !bool_decide_true by tauto|rewrite !bool_decide_false by tauto; done]. cbn [negb app drop].
  change ((d :: _) !! 0%nat) with (Some d). cbn [of_option mbind outcome_bind].
  do 2 f_equal. unfold CString.ctoi, CString.is_digit. destruct E as [E _]. unfold digit in E.
  replace (s8 d) with d by (unfold s8; zlia).
  assert ((d >? 47) && (d <? 58) = true) as ->; [|done].
  apply andb_true_iff. rewrite Z.gtb_lt, Z.ltb_lt. lia.
Qed.

Lemma path_of_drive s0 n l : path_of s0 = Some (n, l) ->
  0 <= n <= 9 /\ l = parts_of (drop 3 s0) /\ Z.of_nat (length s0) <= 128.
Proof.
  destruct s0 as [|d [|c1 [|c2 text]]]; try done. unfold path_of, MAX_FILE_PATH_CHARS.
  case_bool_decide as E; [|done]. intros [= <- <-]. unfold digit in E. simpl drop.
  split; [lia|]. split; [done|lia].
Qed.

(** A parsed path in memory: the root, the list of parts and nothing else. *)
Record path_built (s s' : St) (L : gmap Z nat) (root : Z) (ads : list (Z * Z))
    (drive : Z) (l : list (list Z)) : Prop := {
  pb_live : live s' (<[root := 1%nat]> (with_parts ads L));
  pb_free : free_blocks s = S (2 * length l + free_blocks s')%nat;
  pb_root : objs s' !! root = Some (to_obj (PathRoot drive (head_addr ads)));
  pb_parts : parts_at (objs s') (head_addr ads) ads l;
  pb_frame a : a ∉ root :: flat ads -> objs s' !! a = objs s !! a;
  pb_fresh a : a ∈ root :: flat ads -> L !! a = None;
  pb_nodup : NoDup (root :: flat ads);
  pb_root_nonnull : root <> 0;
  pb_same : s' = set_heap s (k_alloc s') (objs s')
}.

Lemma not_elem_of_cons_3 (q a b c : Z) l :
  q ∉ a :: b :: c :: l -> q <> a /\ q <> b /\ q <> c /\ q ∉ l.
Proof. rewrite !not_elem_of_cons. tauto. Qed.

Lemma with_parts_None ads L a : with_parts ads L !! a = None -> L !! a = None /\ a ∉ flat ads.
Proof.
  induction ads as [|[p str] ads IH]; simpl; [intros; split; [done|apply not_elem_of_nil]|].
  intros [[H1 H2]%lookup_insert_None H3]%lookup_insert_None.
  destruct (IH H1) as [? ?]. rewrite !not_elem_of_cons. auto.
Qed.

(** From the parts behind the root to the path. *)
Lemma path_built_of s s3 s' L root p str a3 ads drive x l :
  L !! root = None -> root <> 0 ->
  <[root := 1%nat]> L !! p = None -> <[root := 1%nat]> L !! str = None -> p <> str -> p <> 0 ->
  s3 = set_heap s a3 (<[root := to_obj (PathRoot drive p)]> (<[p := to_obj (PathPart str 0)]>
         (<[str := to_obj (pad x)]> (<[root := to_obj (PathRoot drive 0)]> (objs s))))) ->
  free_blocks s = S (S (S (free_blocks s3))) ->
  built s3 s' (<[p := 1%nat]> (<[str := 1%nat]> (<[root := 1%nat]> L))) p str ads l ->
  path_built s s' L root ((p, str) :: ads) drive (x :: l).
Proof.
  intros HLr Hr0 [HLp Hrp]%lookup_insert_None [HLs Hrs]%lookup_insert_None Hps Hp0 -> Hf
    [B1 B2 B3 B4 B5 B6 B7 B8].
  assert (Hnot : forall q, q = p \/ q = str \/ q = root -> q ∉ flat ads).
  { intros q Hq Hin. apply B6 in Hin. rewrite !lookup_insert_None in Hin. intuition congruence. }
  assert (Hfr : forall q, q = str \/ q = root -> objs s' !! q =
    (<[root := to_obj (PathRoot drive p)]> (<[p := to_obj (PathPart str 0)]>
         (<[str := to_obj (pad x)]> (<[root := to_obj (PathRoot drive 0)]> (objs s))))) !! q).
  { intros q Hq. rewrite B5; [done|intuition congruence|apply Hnot; tauto]. }
  split; simpl.
  - rewrite !with_parts_insert in B1.
    eapply live_dom in B1; [|done|reflexivity].
    assert (E : <[p:=1%nat]> (<[str:=1%nat]> (<[root:=1%nat]> (with_parts ads L))) =
                <[root:=1%nat]> (<[p:=1%nat]> (<[str:=1%nat]> (with_parts ads L)))).
    { rewrite (insert_insert_ne _ str root) by done. by rewrite insert_insert_ne. }
    by rewrite <- E.
  - lia.
  - rewrite Hfr by tauto. apply lookup_insert_eq.
  - split; [done|]. split; [done|]. exists (head_addr ads). split; [done|]. split; [|done].
    rewrite Hfr by tauto. rewrite !lookup_insert_ne by congruence. apply lookup_insert_eq.
  - intros q (? & ? & ? & ?)%not_elem_of_cons_3. rewrite B5 by done. simpl.
    by rewrite !lookup_insert_ne by congruence.
  - intros q Hin. rewrite !elem_of_cons in Hin. destruct Hin as [->|[->|[->|Hin]]]; try done.
    apply B6 in Hin. rewrite !lookup_insert_None in Hin. tauto.
  - constructor; [rewrite !not_elem_of_cons; split; [done|split; [done|apply Hnot; tauto]]|].
    constructor; [rewrite not_elem_of_cons; split; [done|apply Hnot; tauto]|].
    constructor; [apply Hnot; tauto|done].
  - done.
  - by rewrite B8.
Qed.

Lemma pparser_parse_ok s0 junk s L f drive x l (Q : Z -> St -> Prop) :
  Forall CString.char_byte s0 -> path_of s0 = Some (drive, x :: l) ->
  live s L -> free_blocks s = (2 * length (x :: l) + S (S f))%nat ->
  (forall root ads s', path_built s s' L root ads drive (x :: l) -> Q root s') ->
  wp (pparser_parse (s0 ++ 0 :: junk)) s Q.
Proof.
  intros Hb Hpath Hl Hf HQ.
  destruct (path_of_drive _ _ _ Hpath) as (Hdr & Hparts & Hlen).
  pose proof (CString.char_byte_nonzero _ Hb) as Hn. unfold pparser_parse.
  apply wp_bind. unfold wp at 1, lift_outcome. rewrite strlen_path by done. cbn [mbind outcome_bind].
  unfold MAX_FILE_PATH_CHARS. rewrite Z.gtb_ltb.
  destruct (Z.ltb_spec 128 (Z.of_nat (length s0))); [lia|].
  apply wp_bind. unfold wp at 1, lift_outcome. rewrite get_drive_by_path_ok by done.
  rewrite Hpath. cbn [mbind outcome_bind]. destruct (Z.ltb_spec drive 0); [lia|].
  replace (2 * length (x :: l) + S (S f))%nat with (S (S (S (2 * length l + S f)))) in Hf
    by (simpl; lia).
  apply wp_bind. eapply create_root_ok; [done|done|]. intros root a1 s1 Hl1 Hf1 HLr Hor Hr.
  destruct (Z.eqb_spec root 0); [lia|]. apply wp_bind.
  eapply (parse_path_part_some 0 0); [exact Hl1|exact Hf1|by apply Forall_drop| |done|done|].
  { rewrite length_drop. lia. }
  intros p str a2 text' s2 Hl2 Hf2 HLp HLs Hps Hp0 Hn' Hlt Hpt. cbv iota beta.
  destruct (Z.eqb_spec p 0); [done|].
  assert (root <> p /\ root <> str) as [Hrp Hrs].
  { rewrite lookup_insert_None in HLp, HLs. tauto. }
  assert (Hroot : objs s2 !! root = Some (to_obj (PathRoot drive 0))).
  { subst s2. unfold link. change (0 =? 0) with true. simpl.
    rewrite !lookup_insert_ne by congruence. apply lookup_insert_eq. }
  apply wp_bind. eapply wp_load; [exact Hroot|].
  apply wp_bind. eapply wp_store; [exact Hroot|]. cbn [drive_no].
  rewrite length_drop in Hlt.
  eapply parse_rest_ok; [|  |exact Hp0|exact Hn'|lia| |].
  - eapply live_store; [exact Hl2|by eexists].
  - simpl. rewrite lookup_insert_ne by done. subst s2. unfold link. change (0 =? 0) with true. simpl.
    apply lookup_insert_eq.
  - rewrite Hpt. exact Hf2.
  - rewrite Hpt. intros s' ads Hbuilt. apply (HQ root ((p, str) :: ads)).
    eapply (path_built_of s _ s' L root p str a2); try done.
    change (free_blocks s = S (S (S (free_blocks s2)))). lia.
Qed.

(** A string that is no path: null, and nothing changes. *)
Lemma pparser_parse_bad s0 junk s :
  Forall CString.char_byte s0 -> path_of s0 = None ->
  pparser_parse (s0 ++ 0 :: junk) s = Ok (0, s).
Proof.
  intros Hb Hpath. pose proof (CString.char_byte_nonzero _ Hb) as Hn.
  unfold pparser_parse, mbind at 1, M_bind at 1, lift_outcome.
  rewrite strlen_path by done. cbn [mbind outcome_bind].
  unfold MAX_FILE_PATH_CHARS. rewrite Z.gtb_ltb.
  destruct (Z.ltb_spec 128 (Z.of_nat (length s0))); [done|].
  unfold mbind at 1, M_bind at 1. rewrite get_drive_by_path_ok by done. rewrite Hpath. done.
Qed.

(** A drive without a part: null, and the root stays allocated. *)
Lemma pparser_parse_root_only s0 junk s L f drive (Q : Z -> St -> Prop) :
  Forall CString.char_byte s0 -> path_of s0 = Some (drive, []) ->
  live s L -> free_blocks s = S (S f) ->
  (forall root a, let s' := set_heap s a (<[root := to_obj (PathRoot drive 0)]> (objs s)) in
     live s' (<[root := 1%nat]> L) -> free_blocks s' = S f -> L !! root = None -> Q 0 s') ->
  wp (pparser_parse (s0 ++ 0 :: junk)) s Q.
Proof.
  intros Hb Hpath Hl Hf HQ.
  destruct (path_of_drive _ _ _ Hpath) as (Hdr & Hparts & Hlen).
  pose proof (CString.char_byte_nonzero _ Hb) as Hn. unfold pparser_parse.
  apply wp_bind. unfold wp at 1, lift_outcome. rewrite strlen_path by done. cbn [mbind outcome_bind].
  unfold MAX_FILE_PATH_CHARS. rewrite Z.gtb_ltb.
  destruct (Z.ltb_spec 128 (Z.of_nat (length s0))); [lia|].
  apply wp_bind. unfold wp at 1, lift_outcome. rewrite get_drive_by_path_ok by done.
  rewrite Hpath. cbn [mbind outcome_bind]. destruct (Z.ltb_spec drive 0); [lia|].
  apply wp_bind. eapply create_root_ok; [done|done|]. intros root a1 s1 Hl1 Hf1 HLr Hor Hr.
  destruct (Z.eqb_spec root 0); [lia|]. apply wp_bind.
  eapply parse_path_part_none; [exact Hl1|exact Hf1|by apply Forall_drop|done|].
  intros a2 path' s2 Hl2 Hf2. change (0 =? 0) with true. apply wp_ret. by apply (HQ root a2).
Qed.

(** ** Freeing *)

Lemma parts_at_ext o o' p ads l :
  (forall a, a ∈ flat ads -> o' !! a = o !! a) -> parts_at o p ads l -> parts_at o' p ads l.
Proof.
  revert p l. induction ads as [|[q str] ads IH]; intros p [|x l] He; simpl; try done.
  intros (-> & Hq & next & H1 & H2 & H3). split; [done|]. split; [done|]. exists next.
  rewrite !He by (simpl; set_solver). split; [done|]. split; [done|].
  apply IH; [|done]. intros a Ha. apply He. simpl. set_solver.
Qed.

Lemma parts_at_head o p ads l : parts_at o p ads l -> p = head_addr ads.
Proof. destruct ads as [|[q str] ads], l as [|x l]; simpl; try done. by intros [-> _]. Qed.

Lemma with_parts_fresh ads L a : L !! a = None -> a ∉ flat ads -> with_parts ads L !! a = None.
Proof.
  intros HL. induction ads as [|[p str] ads IH]; simpl; [done|].
  intros [? [? ?]%not_elem_of_cons]%not_elem_of_cons. rewrite !lookup_insert_ne by done. auto.
Qed.

(** The state after freeing the parts [ads]. *)
Record parts_freed (s s' : St) (L : gmap Z nat) (ads : list (Z * Z)) : Prop := {
  pf_live : live s' L;
  pf_free : free_blocks s' = (2 * length ads + free_blocks s)%nat;
  pf_gone a : a ∈ flat ads -> objs s' !! a = None;
  pf_frame a : a ∉ flat ads -> objs s' !! a = objs s !! a;
  pf_same : s' = set_heap s (k_alloc s') (objs s')
}.

Lemma free_step_ok q str ads x l s L (Q : Z + unit -> St -> Prop) :
  parts_at (objs s) q ((q, str) :: ads) (x :: l) -> live s (with_parts ((q, str) :: ads) L) ->
  NoDup (flat ((q, str) :: ads)) -> (forall a, a ∈ flat ((q, str) :: ads) -> L !! a = None) ->
  (forall s', live s' (with_parts ads L) -> parts_at (objs s') (head_addr ads) ads l ->
     free_blocks s' = S (S (free_blocks s)) ->
     objs s' = delete q (delete str (objs s)) -> s' = set_heap s (k_alloc s') (objs s') ->
     Q (inl (head_addr ads)) s') ->
  wp (free_step q) s Q.
Proof.
  simpl. intros (_ & Hq0 & next & Hq & Hs & Hrest) Hl Hnd HL HQ.
  apply list.NoDup_cons in Hnd as [[Hqs Hqf]%not_elem_of_cons [Hsf Hnd]%list.NoDup_cons].
  unfold free_step. destruct (Z.eqb_spec q 0); [done|].
  apply wp_bind. eapply wp_load; [exact Hq|]. cbn [pp_next pp_part].
  assert (HLs : with_parts ads L !! str = None) by (apply with_parts_fresh; [apply HL; set_solver|done]).
  assert (HLq : with_parts ads L !! q = None) by (apply with_parts_fresh; [apply HL; set_solver|done]).
  apply wp_bind. eapply (wp_free str 1%nat); [exact Hl|by rewrite lookup_insert_ne, lookup_insert_eq|].
  intros a1 s1 Hl1 Hf1. rewrite delete_insert_ne, delete_insert_id in Hl1 by done.
  apply wp_bind. eapply (wp_free q 1%nat); [exact Hl1|apply lookup_insert_eq|].
  intros a2 s2 Hl2 Hf2. rewrite delete_insert_id in Hl2 by done. apply wp_ret.
  pose proof (parts_at_head _ _ _ _ Hrest) as ->.
  apply HQ; [exact Hl2| |unfold free_blocks in *; simpl in *; lia|done|done].
  eapply parts_at_ext; [|exact Hrest]. intros a Ha. subst s1 s2. simpl.
  rewrite !lookup_delete_ne; [done|intros ->; done|intros ->; done].
Qed.

Lemma free_loop_ok ads l s L (Q : unit -> St -> Prop) :
  parts_at (objs s) (head_addr ads) ads l -> live s (with_parts ads L) ->
  NoDup (flat ads) -> (forall a, a ∈ flat ads -> L !! a = None) ->
  Z.of_nat (length ads) < 4294967296 ->
  (forall s', parts_freed s s' L ads -> Q tt s') ->
  wp (loop_m free_step (head_addr ads)) s Q.
Proof.
  intros Hp Hl Hnd HL Hlen HQ.
  apply (wp_loop_idx (fun n part s => exists ads l, n = length ads /\ part = head_addr ads /\
    parts_at (objs s) (head_addr ads) ads l /\ live s (with_parts ads L) /\
    NoDup (flat ads) /\ (forall a, a ∈ flat ads -> L !! a = None) /\
    (forall s', parts_freed s s' L ads -> Q tt s')) _ (length ads)); [by exists ads, l|done|].
  clear Hp Hl Hnd HL Hlen HQ. clear ads l s.
  intros n part s ([|[q str] ads] & l & -> & -> & Hp & Hl & Hnd & HL & HQ).
  - unfold free_step. simpl. change (0 =? 0) with true. apply wp_ret. apply HQ.
    split; [done|done|by intros a Ha%not_elem_of_nil|done|by destruct s].
  - destruct l as [|x l]; [done|]. simpl head_addr in *.
    eapply free_step_ok; [exact Hp|exact Hl|exact Hnd|exact HL|].
    intros s' Hl' Hp' Hf' Ho' Hs'. exists (length ads). split; [simpl; lia|].
    exists ads, l. split; [done|]. split; [done|]. split; [done|]. split; [done|].
    apply list.NoDup_cons in Hnd as [Hnq [Hns Hnd]%list.NoDup_cons]. simpl in Hnq.
    split; [done|]. split; [intros a Ha; apply HL; set_solver|].
    intros s2 [F1 F2 F3 F4 F5]. apply HQ. split.
    + done.
    + simpl. lia.
    + intros a Ha. simpl in Ha. rewrite !elem_of_cons in Ha.
      destruct (decide (a ∈ flat ads)); [by apply F3|]. rewrite F4, Ho' by done.
      destruct Ha as [->|[->|?]]; [apply lookup_delete_eq| |done].
      destruct (decide (q = str)) as [->|]; [apply lookup_delete_eq|].
      rewrite lookup_delete_ne by done. apply lookup_delete_eq.
    + intros a [? [? ?]%not_elem_of_cons]%not_elem_of_cons. rewrite F4, Ho' by done.
      by rewrite !lookup_delete_ne by done.
    + rewrite F5, Hs'. done.
Qed.

Lemma parts_at_length o p ads l : parts_at o p ads l -> length ads = length l.
Proof.
  revert p l. induction ads as [|[q str] ads IH]; intros p [|x l]; simpl; try done.
  intros (_ & _ & next & _ & _ & Hr). by rewrite (IH _ _ Hr).
Qed.

Lemma pparser_free_ok s s1 L root ads drive l (Q : unit -> St -> Prop) :
  path_built s s1 L root ads drive l -> live s L -> Z.of_nat (length l) < 4294967296 ->
  (forall s', live s' L -> free_blocks s' = free_blocks s -> objs s' = objs s ->
     s' = set_heap s (k_alloc s') (objs s') -> Q tt s') ->
  wp (pparser_free root) s1 Q.
Proof.
  intros [B1 B2 B3 B4 B5 B6 B7 B8 B9] Hl Hlen HQ. unfold pparser_free.
  apply list.NoDup_cons in B7 as [Hroot Hnd].
  apply wp_bind. eapply wp_load; [exact B3|]. cbn [pr_first]. apply wp_bind.
  rewrite <- with_parts_insert in B1.
  eapply free_loop_ok; [exact B4|exact B1|done| |by rewrite (parts_at_length _ _ _ _ B4)|].
  { intros a Ha. rewrite lookup_insert_ne by (intros <-; done). apply B6. set_solver. }
  intros s2 [F1 F2 F3 F4 F5].
  eapply (wp_free root 1%nat); [exact F1|apply lookup_insert_eq|].
  intros a s3 Hl3 Hf3. rewrite delete_insert_id in Hl3 by (apply B6; set_solver).
  apply HQ; [done| | |].
  - rewrite (parts_at_length _ _ _ _ B4) in F2. lia.
  - subst s3. simpl. apply map_eq. intros q.
    assert (Hnone : q ∈ root :: flat ads -> objs s !! q = None).
    { intros Hq. apply (live_fresh _ L); [done|by apply B6]. }
    destruct (decide (q = root)) as [->|Hq].
    { rewrite lookup_delete_eq, Hnone; [done|set_solver]. }
    rewrite lookup_delete_ne by done. destruct (decide (q ∈ flat ads)).
    + rewrite F3, Hnone by set_solver. done.
    + rewrite F4, B5 by set_solver. done.
  - subst s3. rewrite F5, B9. done.
Qed.

(** ** Theorems *)

(** C19 (functional).  [pparser_parse] on every null-terminated string, with
    enough free heap blocks: a string that is not [<digit>:/...] of at most 128
    characters gives null and changes nothing; a drive with no part gives null
    and leaves the root struct allocated; any other path gives a root holding the
    drive number and the parts in order, in fresh memory, with every other object
    untouched. *)
Theorem pparser_parse_spec s0 junk s L f :
  Forall CString.char_byte s0 -> live s L ->
  (match path_of s0 with Some (_, l) => 2 * length l + S (S f) | None => free_blocks s end
     = free_blocks s)%nat ->
  wp (pparser_parse (s0 ++ 0 :: junk)) s (fun r s' =>
    match path_of s0 with
    | None => r = 0 /\ s' = s
    | Some (drive, []) => r = 0 /\ exists root a,
        s' = set_heap s a (<[root := to_obj (PathRoot drive 0)]> (objs s)) /\
        live s' (<[root := 1%nat]> L) /\ L !! root = None
    | Some (drive, l) => exists ads, path_built s s' L r ads drive l
    end).
Proof.
  intros Hb Hl Hf. destruct (path_of s0) as [[drive [|x l]]|] eqn:Hp.
  - eapply pparser_parse_root_only; [done|done|done|by rewrite <- Hf|].
    intros root a s' Hl' Hf' HL. split; [done|]. by exists root, a.
  - eapply pparser_parse_ok; [done|done|done|by rewrite <- Hf|]. eauto.
  - unfold wp. by rewrite pparser_parse_bad.
Qed.

(** C35 (safety).  Parsing a path and freeing the result gives back every
    block: the live allocations, the number of free blocks and the objects in
    memory are what they were. *)
Theorem pparser_parse_free s0 junk s L f drive x l :
  Forall CString.char_byte s0 -> path_of s0 = Some (drive, x :: l) -> live s L ->
  free_blocks s = (2 * length (x :: l) + S (S f))%nat ->
  wp (root ← pparser_parse (s0 ++ 0 :: junk); pparser_free root) s (fun _ s' =>
    live s' L /\ free_blocks s' = free_blocks s /\ objs s' = objs s).
Proof.
  intros Hb Hp Hl Hf. apply wp_bind.
  eapply pparser_parse_ok; [done|done|done|exact Hf|]. intros root ads s1 Hpb.
  eapply pparser_free_ok; [exact Hpb|done| |done].
  destruct (path_of_drive _ _ _ Hp) as (_ & Hparts & Hlen).
  pose proof (parts_from_length [] (drop 3 s0)) as Hpl. fold (parts_of (drop 3 s0)) in Hpl.
  rewrite <- Hparts, length_drop in Hpl. simpl length in *. lia.
Qed.

(** The text of a list of parts. *)
Fixpoint join (parts : list (list Z)) : list Z :=
  match parts with
  | [] => []
  | [x] => x
  | x :: parts' => x ++ slash :: join parts'
  end.

(** A part: a non-empty sequence of characters other than the slash. *)
Definition part_ok (x : list Z) : Prop :=
  x <> [] /\ Forall (fun c => CString.char_byte c /\ c <> slash) x.

Lemma part_ok_chars x : part_ok x -> Forall part_char x /\ Forall CString.char_byte x.
Proof.
  intros [_ Hx]. split; eapply Forall_impl; try exact Hx; unfold part_char, CString.char_byte;
    simpl; intuition lia.
Qed.

Lemma parts_of_join parts : Forall part_ok parts -> parts_of (join parts) = parts.
Proof.
  induction 1 as [|x parts Hx Hps IH]; [done|].
  destruct (part_ok_chars _ Hx) as [Hc _]. destruct Hx as [Hne _].
  destruct parts as [|y parts]; simpl.
  - by apply parts_of_last.
  - rewrite parts_of_cons by done. f_equal. exact IH.
Qed.

Lemma join_bytes parts : Forall part_ok parts -> Forall CString.char_byte (join parts).
Proof.
  induction 1 as [|x parts Hx Hps IH]; [constructor|].
  destruct (part_ok_chars _ Hx) as [_ Hc]. destruct parts as [|y parts]; simpl; [done|].
  apply Forall_app. split; [done|]. constructor; [unfold CString.char_byte, slash; lia|done].
Qed.

(** C23 (roundtrip).  Writing a drive and a non-empty list of parts as a path
    string and parsing it gives the same drive and parts back, for every path
    that fits in 128 characters. *)
Theorem pparser_parse_print d parts junk s L f :
  digit d -> Forall part_ok parts -> parts <> [] ->
  Z.of_nat (length (path_string d (join parts))) <= MAX_FILE_PATH_CHARS ->
  live s L -> free_blocks s = (2 * length parts + S (S f))%nat ->
  wp (pparser_parse (path_string d (join parts) ++ 0 :: junk)) s (fun root s' =>
    exists ads, path_built s s' L root ads (d - 48) parts).
Proof.
  intros Hd Hps Hne Hlen Hl Hf. destruct parts as [|x l]; [done|].
  assert (Hp : path_of (path_string d (join (x :: l))) = Some (d - 48, x :: l)).
  { unfold path_of, path_string in *. rewrite bool_decide_true by done.
    by rewrite parts_of_join. }
  eapply pparser_parse_ok; [|exact Hp|done|exact Hf|eauto].
  unfold path_string, digit in *. constructor; [unfold CString.char_byte; lia|].
  constructor; [unfold CString.char_byte, colon; lia|].
  constructor; [unfold CString.char_byte, slash; lia|]. by apply join_bytes.
Qed.

End Parser.

(** ** Witnesses, on a heap of four free blocks *)

Import KernelHeap.

Definition small_state : kst kmem unit :=
  KSt (KMem Heap.heap4 ∅) ∅ tt (Disk REAL 0 512 0 0) [] [].

Lemma small_live : live small_state ∅.
Proof.
  split; [|done]. exists ∅. split; [apply Heap.heap_reach_rep, Heap.heap4_reach|].
  split; [symmetry; apply kmap_empty|vm_compute; congruence].
Qed.

(** "0:/ab" *)
Definition path_ab : list Z := [48; 58; 47; 97; 98].

Lemma path_ab_bytes : Forall CString.char_byte path_ab.
Proof. repeat constructor; unfold CString.char_byte; lia. Qed.

Lemma pparser_parse_spec_witness : exists root s' ads,
  pparser_parse (path_ab ++ [0]) small_state = Ok (root, s') /\
  path_built small_state s' ∅ root ads 0 [[97; 98]].
Proof.
  pose proof (pparser_parse_spec path_ab [] small_state ∅ 0 path_ab_bytes small_live ltac:(reflexivity)) as Hw.
  apply wp_run in Hw as (root & s' & Hr & [ads Hp]).
  exists root, s', ads. split; [exact Hr|exact Hp].
Defined.

Lemma pparser_parse_free_witness : exists s',
  (root ← pparser_parse (path_ab ++ [0]); pparser_free root) small_state = Ok (tt, s') /\ objs s' = ∅.
Proof.
  pose proof (pparser_parse_free path_ab [] small_state ∅ 0 0 [97; 98] []
    path_ab_bytes ltac:(reflexivity) small_live ltac:(reflexivity)) as Hw.
  apply wp_run in Hw as ([] & s' & Hr & _ & _ & Ho). exists s'. split; [exact Hr|exact Ho].
Defined.

Lemma pparser_parse_print_witness : exists root s' ads,
  pparser_parse (path_string 48 (join [[97; 98]]) ++ [0]) small_state = Ok (root, s') /\
  path_built small_state s' ∅ root ads 0 [[97; 98]].
Proof.
  pose proof (pparser_parse_print 48 [[97; 98]] [] small_state ∅ 0 ltac:(unfold digit; lia)
    ltac:(repeat constructor; unfold CString.char_byte, slash; (done || lia))
    ltac:(done) ltac:(vm_compute; congruence) small_live ltac:(reflexivity)) as Hw.
  apply wp_run in Hw as (root & s' & Hr & ads & Hp).
  exists root, s', ads. split; [exact Hr|exact Hp].
Defined.

End PParser.
