(* ===== verification/Fat16.v ===== *)
(** * The FAT16 driver: [src/fs/fat/fat16.c]

    On-disk structures stay packed byte sequences, read through accessors at the
    offsets the packed structs have.  The driver works on the shared state of
    [KState]; a pointer into an array of directory entries is the list of bytes
    from it to the end of the array. *)
From stdpp Require Import base gmap list numbers.
From S2P Require Import Prelude Config Memory CString Heap KernelHeap KState Disk.
Import Disk.
#[local] Open Scope Z_scope.

(** [enum file_mode], [enum file_seek_mode] and [struct file_stat] of [file.h]. *)
Inductive file_mode := READ | WRITE | APPEND | INVALID.
#[export] Instance file_mode_eq : EqDecision file_mode.
Proof. solve_decision. Defined.

Definition SEEK_SET : Z := 0.
Definition SEEK_CUR : Z := 1.
Definition SEEK_END : Z := 2.
Definition FILE_STAT_READ_ONLY : Z := 1.
Record file_stat := FileStat { st_flags : Z; st_filesize : Z }.

(** [ERROR], [ERROR_I] and [IS_ERROR] of [kernel.h]. *)
Definition ERROR (value : Z) : Z := u32 value.
Definition ERROR_I (value : Z) : Z := s32 value.
Definition IS_ERROR (value : Z) : bool := s32 value <? 0.

Module Fat16.

Definition FAT16_SIGNATURE : Z := 0x29.
Definition FAT16_FAT_ENTRY_SIZE : Z := 0x02.
Definition FAT16_BAD_SECTOR : Z := 0xFFF7.
Definition FAT_FILE_READ_ONLY : Z := 0x01.
Definition FAT_FILE_SUBDIRECTORY : Z := 0x10.

(** ** Packed structs *)

Definition byte_at (l : list Z) (k : nat) : Z := default 0 (l !! k).
Definition u16_at (l : list Z) (k : nat) : Z := byte_at l k + 256 * byte_at l (S k).
Definition u32_at (l : list Z) (k : nat) : Z := u16_at l k + 65536 * u16_at l (S (S k)).

(** [struct fat_header]. *)
Definition sizeof_fat_header : Z := 62.
Definition sectors_per_cluster (h : list Z) : Z := byte_at h 13.
Definition reserved_sectors (h : list Z) : Z := u16_at h 14.
Definition fat_copies (h : list Z) : Z := byte_at h 16.
Definition root_dir_entries (h : list Z) : Z := u16_at h 17.
Definition sectors_per_fat (h : list Z) : Z := u16_at h 22.
Definition extended_boot_signature (h : list Z) : Z := byte_at h 38.

(** [struct fat_directory_entry]. *)
Definition sizeof_fat_directory_entry : Z := 32.
Definition ext0 (e : list Z) : Z := byte_at e 8.
Definition attribute (e : list Z) : Z := byte_at e 11.
Definition high_16_bits_first_cluster (e : list Z) : Z := u16_at e 20.
Definition low_16_bits_first_cluster (e : list Z) : Z := u16_at e 26.
Definition filesize (e : list Z) : Z := u32_at e 28.

Definition sizeof_fat_private : Z := 92.
Definition sizeof_fat_directory : Z := 16.
Definition sizeof_fat_easy_directory_entry : Z := 8.
Definition sizeof_fat_file_descriptor : Z := 8.

Definition zero_directory : fat_directory := FatDirectory 0 0 0 0.
Definition zero_private : fat_private :=
  FatPrivate (replicate (Z.to_nat sizeof_fat_header) 0) zero_directory 0 0 0.

(** The address of the global [struct filesystem fat16_fs]. *)
Definition fat16_fs : Z := 2.

(** [strcpy(fat16_fs.name, "FAT16")]: the name field and the address returned. *)
Definition fat16_init (name : list Z) : outcome (list Z * Z) :=
  name ← CString.strcpy name [70; 65; 84; 49; 54; 0]; Ok (name, fat16_fs).

Section Driver.
Context {A D : Type} `{Allocator A} `{PortIO D}.
#[local] Abbreviation St := (kst A D).

(** [*disk] for a [struct disk *]. *)
Definition load_disk (disk : Z) : M St KState.disk :=
  if disk =? disk_addr then gets the_disk else fault.
Definition set_fs_private (disk p : Z) : M St unit :=
  if disk =? disk_addr
  then modify (fun s => let d := the_disk s in
         set_disk s (Disk (d_type d) (d_id d) (d_sector_size d) (d_filesystem d) p))
  else fault.
Definition set_filesystem (disk p : Z) : M St unit :=
  if disk =? disk_addr
  then modify (fun s => let d := the_disk s in
         set_disk s (Disk (d_type d) (d_id d) (d_sector_size d) p (d_fs_private d)))
  else fault.

(** ** Mounting *)

Definition fat16_init_private (disk fat_private : Z) : M St unit :=
  _ ← load (T:=KState.fat_private) fat_private;
  _ ← store fat_private zero_private;
  d ← load_disk disk;
  stream ← get_disk_stream (d_id d);
  x ← load fat_private;
  _ ← store fat_private (FatPrivate (header x) (root_directory x) stream
        (fat_read_stream x) (directory_stream x));
  d ← load_disk disk;
  stream ← get_disk_stream (d_id d);
  x ← load fat_private;
  _ ← store fat_private (FatPrivate (header x) (root_directory x) (cluster_read_stream x)
        stream (directory_stream x));
  d ← load_disk disk;
  stream ← get_disk_stream (d_id d);
  x ← load fat_private;
  store fat_private (FatPrivate (header x) (root_directory x) (cluster_read_stream x)
    (fat_read_stream x) stream).

Definition fat16_sector_to_absolute_pos (disk sector : Z) : M St Z :=
  d ← load_disk disk; mret (s32 (sector * d_sector_size d)).

(** One turn of the [while (1)] loop, on [count] and [entry]. *)
Definition count_step (directory_stream : Z) (x : Z * list Z) : M St ((Z * list Z) + Z) :=
  let '(count, entry) := x in
  '(rc, entry) ← disk_stream_read directory_stream entry sizeof_fat_directory_entry;
  if rc <? 0 then mret (inr rc)
  else if byte_at entry 0 =? 0x00 then mret (inr count)
  else if byte_at entry 0 =? 0xE5 then mret (inl (count, entry))
  else mret (inl (s32 (count + 1), entry)).

Definition fat16_get_total_items_for_directory (disk directory_start_sector : Z) : M St Z :=
  let entry := replicate (Z.to_nat sizeof_fat_directory_entry) 0 in
  directory_start_pos ← fat16_sector_to_absolute_pos disk (s32 directory_start_sector);
  d ← load_disk disk;
  fp ← load (d_fs_private d);
  let directory_stream := directory_stream fp in
  rc ← disk_stream_seek directory_stream directory_start_pos;
  if rc <? 0 then mret rc
  else loop_m (count_step directory_stream) (0, entry).

(** [out_root_dir] is [&fat_private->root_directory].  The size is divided by the
    sector size first, for a number of sectors that nothing uses: a sector size of 0 is
    a fault there. *)
Definition fat16_get_root_directory (disk fat_private : Z) : M St Z :=
  fp ← load fat_private;
  d ← load_disk disk;
  let root_dir_sector :=
    fat_copies (header fp) * sectors_per_fat (header fp) + reserved_sectors (header fp) in
  let root_dir_size := root_dir_entries (header fp) * sizeof_fat_directory_entry in
  _ ← (if d_sector_size d =? 0 then fault else mret tt);
  root_dir_total_items ← fat16_get_total_items_for_directory disk root_dir_sector;
  root_dir ← zalloc root_dir_size (replicate (Z.to_nat root_dir_size) 0);
  if root_dir =? 0 then mret (- ENOMEM)
  else
    fp ← load fat_private;
    let stream := directory_stream fp in
    pos ← fat16_sector_to_absolute_pos disk root_dir_sector;
    rc ← disk_stream_seek stream pos;
    if rc <? 0 then mret rc
    else
      buf ← load root_dir;
      '(rc, buf) ← disk_stream_read stream buf root_dir_size;
      _ ← store root_dir buf;
      if rc <? 0 then mret rc
      else
        fp ← load fat_private;
        _ ← store fat_private (FatPrivate (header fp)
              (FatDirectory root_dir root_dir_total_items root_dir_sector
                 (root_dir_sector + Z.quot root_dir_size (d_sector_size d)))
              (cluster_read_stream fp) (fat_read_stream fp) (directory_stream fp));
        mret 0.

(** The part of [fat16_resolve] between the allocations and [out]. *)
Definition fat16_resolve_body (disk fat_private stream : Z) : M St Z :=
  if stream =? 0 then mret (- ENOMEM)
  else
    fp ← load fat_private;
    '(rc, h) ← disk_stream_read stream (header fp) sizeof_fat_header;
    fp ← load fat_private;
    _ ← store fat_private (FatPrivate h (root_directory fp) (cluster_read_stream fp)
          (fat_read_stream fp) (directory_stream fp));
    if rc <? 0 then mret rc
    else
      fp ← load fat_private;
      if negb (extended_boot_signature (header fp) =? FAT16_SIGNATURE) then mret (- EFSNOTUS)
      else
        rc ← fat16_get_root_directory disk fat_private;
        if rc <? 0 then mret rc
        else _ ← set_filesystem disk fat16_fs; mret rc.

Definition fat16_resolve (disk : Z) : M St Z :=
  fat_private ← zalloc sizeof_fat_private zero_private;
  _ ← fat16_init_private disk fat_private;
  _ ← set_fs_private disk fat_private;
  d ← load_disk disk;
  stream ← get_disk_stream (d_id d);
  rc ← fat16_resolve_body disk fat_private stream;
  _ ← (if negb (stream =? 0) then disk_stream_close stream else mret tt);
  _ ← (if rc <? 0 then _ ← free fat_private; set_fs_private disk 0 else mret tt);
  mret rc.

(** ** File names *)

(** [out] is the buffer and the index [*out] points to. *)
Fixpoint fat16_convert_spaces_to_null (out : list Z) (i : nat) (inp : list Z)
    : outcome (list Z * nat) :=
  match inp with
  | [] => Fault
  | c :: inp' =>
      if negb (c =? 0x00) && negb (c =? 0x20) then
        if decide (i < length out)%nat
        then fat16_convert_spaces_to_null (<[i := c]> out) (S i) inp'
        else Fault
      else if c =? 0x20 then
        if decide (i < length out)%nat then Ok (<[i := 0]> out, i) else Fault
      else Ok (out, i)
  end.

Definition fat16_get_filename (raw_entry out : list Z) (maxlen : Z) : outcome (list Z) :=
  out ← Memory.memset out 0x00 maxlen;
  '(out, i) ← fat16_convert_spaces_to_null out 0 raw_entry;
  if negb (ext0 raw_entry =? 0x00) && negb (ext0 raw_entry =? 0x20) then
    if decide (i < length out)%nat then
      '(out, _) ← fat16_convert_spaces_to_null (<[i := 46]> out) (S i) (drop 8 raw_entry);
      Ok out
    else Fault
  else Ok out.

Definition fat16_clone_raw_dir_entry (raw_entry : list Z) (n : Z) : M St Z :=
  if n <? sizeof_fat_directory_entry then mret 0
  else
    entry_copy ← zalloc n (replicate (Z.to_nat n) 0);
    if entry_copy =? 0 then mret 0
    else
      buf ← load entry_copy;
      buf ← lift_outcome (Memory.memcpy buf raw_entry n);
      _ ← store entry_copy buf;
      mret entry_copy.

(** ** Clusters *)

Definition fat16_cluster_to_start_sector (fp : KState.fat_private) (cluster : Z) : Z :=
  s32 (fd_end_sector (root_directory fp) + (cluster - 2) * sectors_per_cluster (header fp)).

Definition fat16_get_first_cluster (raw_entry : list Z) : Z :=
  Z.lor (low_16_bits_first_cluster raw_entry) (high_16_bits_first_cluster raw_entry).

Definition fat16_get_first_fat_sector (fp : KState.fat_private) : Z :=
  reserved_sectors (header fp).

(** The last assignment stores what [disk_stream_read] returns. *)
Definition fat16_get_fat_entry (disk cluster : Z) : M St Z :=
  d ← load_disk disk;
  fp ← load (d_fs_private d);
  let fat_table_position_bytes := u32 (fat16_get_first_fat_sector fp * d_sector_size d) in
  rc ← disk_stream_seek (fat_read_stream fp)
         (s32 (fat_table_position_bytes + cluster * FAT16_FAT_ENTRY_SIZE));
  if rc <? 0 then mret (u16 rc)
  else
    '(rc, _) ← disk_stream_read (fat_read_stream fp) [0; 0] FAT16_FAT_ENTRY_SIZE;
    let entry := u16 rc in
    mret entry.

Fixpoint follow_chain (clusters_ahead : nat) (disk cluster : Z) : M St Z :=
  match clusters_ahead with
  | O => mret cluster
  | S n =>
      entry ← fat16_get_fat_entry disk cluster;
      if (entry >=? 0xFFF8) && (entry <=? 0xFFFF) then mret (- EIO)
      else if entry =? FAT16_BAD_SECTOR then mret (- EIO)
      else if (entry >=? 0xFFF0) && (entry <=? 0xFFF6) then mret (- EIO)
      else if entry =? 0x0000 then mret (- EIO)
      else follow_chain n disk entry
  end.

(** A division by a zero cluster size is a fault. *)
Definition fat16_get_cluster_in_chain (disk chain_start_cluster offset : Z) : M St Z :=
  d ← load_disk disk;
  fp ← load (d_fs_private d);
  let cluster_size_bytes := sectors_per_cluster (header fp) * d_sector_size d in
  if cluster_size_bytes =? 0 then fault
  else
    let clusters_ahead := Z.quot offset cluster_size_bytes in
    follow_chain (Z.to_nat clusters_ahead) disk chain_start_cluster.

(** Every call after the first has at least one byte less to read. *)
Fixpoint read_internal_rec (fuel : nat) (disk chain_start_cluster offset n : Z) (out : list Z)
    : M St (Z * list Z) :=
  match fuel with
  | O => fun _ => Diverge
  | S fuel' =>
      d ← load_disk disk;
      fp ← load (d_fs_private d);
      let cluster_read_stream := cluster_read_stream fp in
      let cluster_size_bytes := sectors_per_cluster (header fp) * d_sector_size d in
      start_cluster ← fat16_get_cluster_in_chain disk chain_start_cluster offset;
      if start_cluster <? 0 then mret (start_cluster, out)
      else
        let offset_from_cluster := Z.rem offset cluster_size_bytes in
        let start_sector := fat16_cluster_to_start_sector fp start_cluster in
        let start_pos_bytes := s32 (start_sector * d_sector_size d + offset_from_cluster) in
        let bytes_to_read := if n >? cluster_size_bytes then cluster_size_bytes else n in
        rc ← disk_stream_seek cluster_read_stream start_pos_bytes;
        if rc <? 0 then mret (rc, out)
        else
          '(rc, out) ← disk_stream_read cluster_read_stream out bytes_to_read;
          if rc <? 0 then mret (rc, out)
          else
            let n := n - bytes_to_read in
            if n >? 0 then
              '(rc, rest) ← read_internal_rec fuel' disk chain_start_cluster
                 (s32 (offset + bytes_to_read)) n (drop (Z.to_nat bytes_to_read) out);
              mret (rc, take (Z.to_nat bytes_to_read) out ++ rest)
            else mret (rc, out)
  end.

Definition fat16_read_internal (disk chain_start_cluster offset n : Z) (out : list Z)
    : M St (Z * list Z) :=
  read_internal_rec (S (Z.to_nat n)) disk chain_start_cluster offset n out.

(** ** Directories *)

Definition fat16_free_directory (directory : Z) : M St unit :=
  if directory =? 0 then mret tt
  else
    x ← load directory;
    _ ← (if negb (fd_entry x =? 0) then free (fd_entry x) else mret tt);
    free directory.

Definition fat16_easy_dir_entry_free (easy_dir_entry : Z) : M St unit :=
  x ← load easy_dir_entry;
  _ ← match fe_type x with
      | FAT_ITEM_TYPE_DIRECTORY => fat16_free_directory (fe_item x)
      | FAT_ITEM_TYPE_FILE => free (fe_item x)
      end;
  free easy_dir_entry.

Definition fat16_load_fat_directory (disk : Z) (raw_entry : list Z) : M St Z :=
  d ← load_disk disk;
  if Z.land (attribute raw_entry) FAT_FILE_SUBDIRECTORY =? 0 then mret 0
  else
    directory ← zalloc sizeof_fat_directory zero_directory;
    if directory =? 0 then mret 0
    else
      fp ← load (d_fs_private d);
      let cluster := s32 (fat16_get_first_cluster raw_entry) in
      let cluster_sector := fat16_cluster_to_start_sector fp cluster in
      total ← fat16_get_total_items_for_directory disk (u32 cluster_sector);
      x ← load directory;
      _ ← store directory (FatDirectory (fd_entry x) total (fd_sector x) (fd_end_sector x));
      let directory_size := s32 (total * sizeof_fat_directory_entry) in
      entry ← zalloc (u32 directory_size) (replicate (Z.to_nat (u32 directory_size)) 0);
      x ← load directory;
      _ ← store directory (FatDirectory entry (fd_total x) (fd_sector x) (fd_end_sector x));
      if entry =? 0 then _ ← free directory; mret 0
      else
        buf ← load entry;
        '(rc, buf) ← fat16_read_internal disk cluster 0x00 directory_size buf;
        _ ← store entry buf;
        if rc <? 0 then _ ← fat16_free_directory directory; mret 0
        else mret directory.

Definition fat16_get_easy_entry (disk : Z) (raw_entry : list Z) : M St Z :=
  easy_entry ← zalloc sizeof_fat_easy_directory_entry (FatEasy 0 FAT_ITEM_TYPE_DIRECTORY);
  if easy_entry =? 0 then mret 0
  else
    _ ← (if negb (Z.land (attribute raw_entry) FAT_FILE_SUBDIRECTORY =? 0) then
           directory ← fat16_load_fat_directory disk raw_entry;
           x ← load easy_entry;
           _ ← store easy_entry (FatEasy directory (fe_type x));
           x ← load easy_entry;
           store easy_entry (FatEasy (fe_item x) FAT_ITEM_TYPE_DIRECTORY)
         else
           x ← load easy_entry;
           _ ← store easy_entry (FatEasy (fe_item x) FAT_ITEM_TYPE_FILE);
           entry ← fat16_clone_raw_dir_entry raw_entry sizeof_fat_directory_entry;
           x ← load easy_entry;
           store easy_entry (FatEasy entry (fe_type x)));
    mret easy_entry.

(** The loop over the entries from index [i] on; [n] are left, [entry] is the
    last match. *)
Fixpoint find_loop (n : nat) (i : nat) (disk : Z) (directory : fat_directory) (name : list Z)
    (entry : Z) : M St Z :=
  match n with
  | O => mret entry
  | S n' =>
      entries ← load (T:=list Z) (fd_entry directory);
      let raw_entry := drop (32 * i) entries in
      tmp_filename ← lift_outcome (fat16_get_filename raw_entry
        (replicate (Z.to_nat MAX_FILE_PATH_CHARS) 0) MAX_FILE_PATH_CHARS);
      r ← lift_outcome (CString.strnicmp tmp_filename name MAX_FILE_PATH_CHARS);
      entry ← (if r =? 0 then fat16_get_easy_entry disk raw_entry else mret entry);
      find_loop n' (S i) disk directory name entry
  end.

Definition fat16_find_entry_in_directory (disk : Z) (directory : fat_directory) (name : list Z)
    : M St Z :=
  find_loop (Z.to_nat (fd_total directory)) 0 disk directory name 0.

(** The body of [while (next_path_part)], on the current entry and part. *)
Definition walk_step (disk : Z) (x : Z * Z) : M St ((Z * Z) + Z) :=
  let '(curr_part_entry, next_path_part) := x in
  if next_path_part =? 0 then mret (inr curr_part_entry)
  else
    e ← load curr_part_entry;
    match fe_type e with
    | FAT_ITEM_TYPE_FILE => mret (inr 0)
    | FAT_ITEM_TYPE_DIRECTORY =>
        directory ← load (fe_item e);
        p ← load next_path_part;
        name ← load (pp_part p);
        tmp_entry ← fat16_find_entry_in_directory disk directory name;
        _ ← fat16_easy_dir_entry_free curr_part_entry;
        p ← load next_path_part;
        mret (inl (tmp_entry, pp_next p))
    end.

Definition fat16_get_directory_entry (disk path : Z) : M St Z :=
  d ← load_disk disk;
  fp ← load (d_fs_private d);
  p ← load path;
  name ← load (pp_part p);
  first_part_entry ← fat16_find_entry_in_directory disk (root_directory fp) name;
  if first_part_entry =? 0 then mret 0
  else
    p ← load path;
    loop_m (walk_step disk) (first_part_entry, pp_next p).

(** ** The file operations *)

Definition fat16_fopen (disk path : Z) (mode : file_mode) : M St Z :=
  if negb (bool_decide (mode = READ)) then mret (ERROR (- ERDONLY))
  else
    fat_file_descriptor ← zalloc sizeof_fat_file_descriptor (FatFile 0 0);
    if fat_file_descriptor =? 0 then mret (ERROR (- ENOMEM))
    else
      e ← fat16_get_directory_entry disk path;
      x ← load fat_file_descriptor;
      _ ← store fat_file_descriptor (FatFile e (ff_pos x));
      if e =? 0 then _ ← free fat_file_descriptor; mret (ERROR (- EIO))
      else
        x ← load fat_file_descriptor;
        _ ← store fat_file_descriptor (FatFile (easy_directory_entry x) 0);
        mret fat_file_descriptor.

(** [count] elements read so far; [out] is the buffer from the moving pointer. *)
Fixpoint fread_loop (n : nat) (disk entry offset size count : Z) (out : list Z)
    : M St (Z * list Z) :=
  match n with
  | O => mret (count, out)
  | S n' =>
      raw_entry ← load entry;
      '(rc, out) ← fat16_read_internal disk (s32 (fat16_get_first_cluster raw_entry)) offset
                     (s32 size) out;
      if rc <? 0 then mret (count, out)
      else
        '(count, rest) ← fread_loop n' disk entry (s32 (offset + size)) size (count + 1)
                           (drop (Z.to_nat size) out);
        mret (count, take (Z.to_nat size) out ++ rest)
  end.

(** A [size_t]: the error code comes back converted. *)
Definition fat16_fread (disk descriptor size nmemb : Z) (out : list Z) : M St (Z * list Z) :=
  desc ← load descriptor;
  e ← load (easy_directory_entry desc);
  match fe_type e with
  | FAT_ITEM_TYPE_DIRECTORY => mret (u32 (- EINVARG), out)
  | FAT_ITEM_TYPE_FILE =>
      fread_loop (Z.to_nat nmemb) disk (fe_item e) (s32 (ff_pos desc)) size 0 out
  end.

Definition fat16_fseek (private offset whence : Z) : M St Z :=
  desc ← load private;
  e ← load (easy_directory_entry desc);
  match fe_type e with
  | FAT_ITEM_TYPE_DIRECTORY => mret (- EINVARG)
  | FAT_ITEM_TYPE_FILE =>
      raw_entry ← load (fe_item e);
      if offset >=? filesize raw_entry then mret (- EIO)
      else if whence =? SEEK_SET then
        _ ← store private (FatFile (easy_directory_entry desc) offset); mret 0
      else if whence =? SEEK_CUR then
        _ ← store private (FatFile (easy_directory_entry desc) (u32 (ff_pos desc + offset))); mret 0
      else if whence =? SEEK_END then mret (- EUNIMP)
      else mret (- EINVARG)
  end.

(** The result code and [*stat]. *)
Definition fat16_fstat (disk private : Z) (stat : file_stat) : M St (Z * file_stat) :=
  desc ← load private;
  e ← load (easy_directory_entry desc);
  match fe_type e with
  | FAT_ITEM_TYPE_DIRECTORY => mret (- EINVARG, stat)
  | FAT_ITEM_TYPE_FILE =>
      raw_entry ← load (fe_item e);
      let stat := FileStat 0x00 (filesize raw_entry) in
      let stat := if negb (Z.land (attribute raw_entry) FAT_FILE_READ_ONLY =? 0)
                  then FileStat (Z.lor (st_flags stat) FILE_STAT_READ_ONLY) (st_filesize stat)
                  else stat in
      mret (0, stat)
  end.

Definition fat16_free_file_descriptor (desc : Z) : M St unit :=
  x ← load desc;
  _ ← fat16_easy_dir_entry_free (easy_directory_entry x);
  free desc.

Definition fat16_fclose (private : Z) : M St Z :=
  _ ← fat16_free_file_descriptor private;
  mret 0.

End Driver.
End Fat16.
