(* ===== verification/Fat16Proofs.v ===== *)
(** * Properties of the FAT16 driver *)
From stdpp Require Import base gmap list numbers.
From S2P Require Import Prelude Config Memory CString Heap KernelHeap KState Disk Fat16.
Import Disk DiskProofs Fat16.
#[local] Open Scope Z_scope.

Module Fat16Proofs.

Section Proofs.
Context {A D : Type} `{Al : Allocator A} `{Av : AllocatorView A} `{Po : PortIO D} `{At : !AtaDrive D}.
#[local] Abbreviation St := (kst A D).

(** ** Mounted volumes *)

Definition streams (fp : fat_private) : list Z :=
  [cluster_read_stream fp; fat_read_stream fp; directory_stream fp].

(** The kernel's disk is mounted: its private data is at [p] with value [fp], the
    drive holds [img]. *)
Record mounted (img : list Z) (p : Z) (fp : fat_private) (s : St) : Prop := {
  mt_sector : d_sector_size (the_disk s) = 512;
  mt_private : d_fs_private (the_disk s) = p;
  mt_fp : objs s !! p = Some (to_obj fp);
  mt_streams a : a ∈ streams fp -> exists q, objs s !! a = Some (to_obj (DiskStream q disk_addr));
  mt_drive : drive_ok img (dev s);
  mt_size : Z.of_nat (length img) < 2147483648;
  mt_sectors : Z.of_nat (length img) mod 512 = 0
}.

(** Reading moves the streams and the drive; nothing else. *)
Record moved (img : list Z) (fp : fat_private) (s s' : St) : Prop := {
  mv_same : s' = set_dev (set_heap s (k_alloc s) (objs s')) (dev s');
  mv_drive : drive_ok img (dev s');
  mv_frame a : a ∉ streams fp -> objs s' !! a = objs s !! a;
  mv_streams a : a ∈ streams fp -> exists q, objs s' !! a = Some (to_obj (DiskStream q disk_addr))
}.

Lemma moved_refl img p fp s : mounted img p fp s -> moved img fp s s.
Proof. intros [? ? ? ? ? ? ?]. split; [by destruct s|done|done|done]. Qed.

Lemma moved_trans img fp s1 s2 s3 : moved img fp s1 s2 -> moved img fp s2 s3 -> moved img fp s1 s3.
Proof.
  intros [E1 D1 F1 T1] [E2 D2 F2 T2]. split; [|done| |done].
  - rewrite E2, E1. done.
  - intros a Ha. by rewrite F2, F1.
Qed.

(** The private data is no stream. *)
Lemma mounted_private img p fp s : mounted img p fp s -> p ∉ streams fp.
Proof.
  intros Hm Hp. destruct (mt_streams _ _ _ _ Hm _ Hp) as [q Hq].
  rewrite (mt_fp _ _ _ _ Hm) in Hq. done.
Qed.

Lemma moved_mounted img p fp s s' : mounted img p fp s -> moved img fp s s' -> mounted img p fp s'.
Proof.
  intros Hm [E Dv F T]. pose proof (mounted_private _ _ _ _ Hm) as Hp.
  destruct Hm as [M1 M2 M3 M4 M5 M6 M7]. split; try done.
  - rewrite E. done.
  - rewrite E. done.
  - by rewrite F.
Qed.

Lemma moved_live img p fp s s' L : mounted img p fp s -> moved img fp s s' -> live s L -> live s' L.
Proof.
  intros Hm [E Dv F T] Hl. eapply live_dom; [exact Hl|by rewrite E|].
  intros a Ha. apply elem_of_dom in Ha as [o Ho]. apply elem_of_dom.
  destruct (decide (a ∈ streams fp)) as [Hs|Hs].
  - destruct (mt_streams _ _ _ _ Hm _ Hs) as [q Hq]. eauto.
  - rewrite F in Ho by done. eauto.
Qed.

Lemma moved_free img fp s s' : moved img fp s s' -> free_blocks s' = free_blocks s.
Proof. intros [E _ _ _]. by rewrite E. Qed.

Lemma wp_load_disk s (Q : disk -> St -> Prop) :
  Q (the_disk s) s -> wp (load_disk disk_addr) s Q.
Proof. done. Qed.

(** A move of one of the volume's streams. *)
Lemma moved_stream img p fp s a q d' :
  mounted img p fp s -> a ∈ streams fp -> drive_ok img d' ->
  moved img fp s (set_dev (set_stream s a q) d').
Proof.
  intros Hm Ha Hd'. split; [done|done| |].
  - intros b Hb. simpl. rewrite lookup_insert_ne by (intros <-; done). done.
  - intros b Hb. simpl. destruct (decide (b = a)) as [->|Hba].
    + exists q. apply lookup_insert_eq.
    + rewrite lookup_insert_ne by done. by apply (mt_streams _ _ _ _ Hm).
Qed.

Lemma seek_ok img p fp s a q (Q : Z -> St -> Prop) :
  mounted img p fp s -> a ∈ streams fp ->
  (forall s', moved img fp s s' -> mounted img p fp s' ->
     objs s' !! a = Some (to_obj (DiskStream q disk_addr)) -> Q 0 s') ->
  wp (disk_stream_seek a q) s Q.
Proof.
  intros Hm Ha HQ. destruct (mt_streams _ _ _ _ Hm _ Ha) as [q0 Hq0].
  eapply disk_stream_seek_ok; [exact Hq0|].
  assert (Hmv : moved img fp s (set_stream s a q)).
  { apply (moved_stream img p fp s a q (dev s)); [done|done|exact (mt_drive _ _ _ _ Hm)]. }
  apply HQ; [done|by eapply moved_mounted|apply lookup_insert_eq].
Qed.

Lemma read_ok img p fp s a q out total (Q : Z * list Z -> St -> Prop) :
  mounted img p fp s -> a ∈ streams fp -> objs s !! a = Some (to_obj (DiskStream q disk_addr)) ->
  0 <= q < Z.of_nat (length img) -> 0 <= total -> q + total <= Z.of_nat (length img) ->
  total <= Z.of_nat (length out) ->
  (forall s', moved img fp s s' -> mounted img p fp s' ->
     objs s' !! a = Some (to_obj (DiskStream (q + total) disk_addr)) ->
     Q (0, extent img q total ++ drop (Z.to_nat total) out) s') ->
  wp (disk_stream_read a out total) s Q.
Proof.
  intros Hm Ha Hpos Hq Ht Hqt Hout HQ.
  eapply wp_mono; [apply (disk_stream_read_ok img _ _ q); try done; apply Hm|].
  intros r s' (-> & d' & Hd' & ->).
  pose proof (moved_stream img p fp s a (q + total) d' Hm Ha Hd') as Hmv.
  apply HQ; [done|by eapply moved_mounted|apply lookup_insert_eq].
Qed.

(** ** The file allocation table *)

(** Byte positions of a FAT entry and of a cluster's data. *)
Definition fat_pos (fp : fat_private) (cluster : Z) : Z :=
  reserved_sectors (header fp) * 512 + cluster * 2.
Definition cluster_pos (fp : fat_private) (cluster : Z) : Z :=
  (fd_end_sector (root_directory fp) + (cluster - 2) * sectors_per_cluster (header fp)) * 512.
Definition cluster_size (fp : fat_private) : Z := sectors_per_cluster (header fp) * 512.

(** Whatever the table holds, the entry returned is the result code 0. *)
Lemma get_fat_entry_ok img p fp s cluster (Q : Z -> St -> Prop) :
  mounted img p fp s -> 0 <= fat_pos fp cluster -> 0 <= reserved_sectors (header fp) ->
  0 <= cluster -> fat_pos fp cluster + 2 <= Z.of_nat (length img) ->
  (forall s', moved img fp s s' -> Q 0 s') ->
  wp (fat16_get_fat_entry disk_addr cluster) s Q.
Proof.
  intros Hm H0 Hr Hc Hi HQ. pose proof (mt_size _ _ _ _ Hm) as Hsz.
  unfold fat16_get_fat_entry. apply wp_bind, wp_load_disk.
  apply wp_bind. rewrite (mt_private _ _ _ _ Hm). eapply wp_load; [exact (mt_fp _ _ _ _ Hm)|].
  rewrite (mt_sector _ _ _ _ Hm). unfold fat16_get_first_fat_sector, FAT16_FAT_ENTRY_SIZE, fat_pos in *.
  rewrite u32_small, s32_small by lia.
  apply wp_bind. eapply seek_ok; [exact Hm|unfold streams; set_solver|]. intros s1 Hmv1 Hm1 Hp1.
  destruct (Z.ltb_spec 0 0); [lia|]. apply wp_bind.
  eapply read_ok; [exact Hm1|unfold streams; set_solver|exact Hp1|lia|lia|lia|simpl; lia|].
  intros s2 Hmv2 Hm2 _. apply wp_ret. change (u16 0) with 0. apply HQ. by eapply moved_trans.
Qed.

(** Following the chain ends in an I/O error as soon as it has to leave the first
    cluster. *)
Lemma get_cluster_in_chain_ok img p fp s cluster offset (Q : Z -> St -> Prop) :
  mounted img p fp s -> 0 <= fat_pos fp cluster -> 0 <= reserved_sectors (header fp) ->
  0 <= cluster -> fat_pos fp cluster + 2 <= Z.of_nat (length img) ->
  0 < sectors_per_cluster (header fp) -> 0 <= offset ->
  (forall s', moved img fp s s' ->
     Q (if bool_decide (offset < cluster_size fp) then cluster else - EIO) s') ->
  wp (fat16_get_cluster_in_chain disk_addr cluster offset) s Q.
Proof.
  intros Hm H0 Hr Hc Hi Hspc Hoff HQ. unfold fat16_get_cluster_in_chain.
  apply wp_bind, wp_load_disk. apply wp_bind. rewrite (mt_private _ _ _ _ Hm).
  eapply wp_load; [exact (mt_fp _ _ _ _ Hm)|]. rewrite (mt_sector _ _ _ _ Hm).
  fold (cluster_size fp). assert (0 < cluster_size fp) by (unfold cluster_size; lia).
  destruct (Z.eqb_spec (cluster_size fp) 0) as [|_]; [lia|]. rewrite Z.quot_div_nonneg by lia.
  case_bool_decide as Hlt.
  - rewrite Z.div_small by lia. apply wp_ret. apply HQ. by eapply moved_refl.
  - assert (0 < offset / cluster_size fp) by (apply Z.div_str_pos; lia).
    destruct (Z.to_nat (offset / cluster_size fp)) as [|n] eqn:E; [lia|]. cbn [follow_chain].
    apply wp_bind. eapply get_fat_entry_ok; [exact Hm|done|done|done|done|].
    intros s' Hs'. change ((0 >=? 0xFFF8) && (0 <=? 0xFFFF)) with false.
    change (0 =? FAT16_BAD_SECTOR) with false.
    change ((0 >=? 0xFFF0) && (0 <=? 0xFFF6)) with false. change (0 =? 0) with true.
    apply wp_ret. by apply HQ.
Qed.

(** A volume on which the data of a chain starting at [cluster] is in range. *)
Record cluster_ok (img : list Z) (fp : fat_private) (cluster : Z) : Prop := {
  ck_header : 0 <= reserved_sectors (header fp) /\ 0 < sectors_per_cluster (header fp);
  ck_cluster : 2 <= cluster;
  ck_end : 0 <= fd_end_sector (root_directory fp);
  ck_fat : fat_pos fp cluster + 2 <= Z.of_nat (length img);
  ck_data : cluster_pos fp cluster + cluster_size fp <= Z.of_nat (length img)
}.

(** What reading from a chain delivers: from an offset in the first cluster, as many
    bytes of the medium as asked for, but at most a cluster's worth; whether they
    reach over the end of the cluster is not looked at.  A read that starts beyond
    the first cluster, or of more than a cluster, ends in an I/O error. *)
Definition chain_read (img : list Z) (fp : fat_private) (cluster offset n : Z) (out : list Z)
    : Z * list Z :=
  if bool_decide (cluster_size fp <= offset) then (- EIO, out)
  else
    let k := Z.min n (cluster_size fp) in
    (if bool_decide (n <= cluster_size fp) then 0 else - EIO,
     extent img (cluster_pos fp cluster + offset) k ++ drop (Z.to_nat k) out).

Lemma cluster_size_pos img fp cluster : cluster_ok img fp cluster -> 0 < cluster_size fp.
Proof. intros Hc. destruct (ck_header _ _ _ Hc). unfold cluster_size. lia. Qed.

Lemma cluster_pos_nonneg img fp cluster : cluster_ok img fp cluster -> 0 <= cluster_pos fp cluster.
Proof.
  intros Hc. destruct (ck_header _ _ _ Hc). pose proof (ck_cluster _ _ _ Hc).
  pose proof (ck_end _ _ _ Hc). unfold cluster_pos. nia.
Qed.

(** A call at an offset outside the first cluster. *)
Lemma read_internal_rec_beyond fuel img p fp s cluster offset n out (Q : Z * list Z -> St -> Prop) :
  mounted img p fp s -> cluster_ok img fp cluster -> cluster_size fp <= offset ->
  (forall s', moved img fp s s' -> Q (- EIO, out) s') ->
  wp (read_internal_rec (S fuel) disk_addr cluster offset n out) s Q.
Proof.
  intros Hm Hc Hoff HQ. pose proof (cluster_size_pos _ _ _ Hc) as Hcs.
  destruct (ck_header _ _ _ Hc) as [Hr Hspc]. pose proof (ck_cluster _ _ _ Hc).
  cbn [read_internal_rec]. apply wp_bind, wp_load_disk. apply wp_bind. rewrite (mt_private _ _ _ _ Hm).
  eapply wp_load; [exact (mt_fp _ _ _ _ Hm)|]. apply wp_bind.
  eapply get_cluster_in_chain_ok; [exact Hm|unfold fat_pos; lia|done|lia|apply Hc|done|lia|].
  intros s' Hs'. rewrite bool_decide_false by lia. change (- EIO <? 0) with true. apply wp_ret. auto.
Qed.

Lemma read_internal_rec_ok fuel img p fp s cluster offset n out (Q : Z * list Z -> St -> Prop) :
  mounted img p fp s -> cluster_ok img fp cluster -> 0 <= offset -> 0 <= n ->
  n <= Z.of_nat (length out) ->
  (offset < cluster_size fp ->
     cluster_pos fp cluster + offset + Z.min n (cluster_size fp) <= Z.of_nat (length img)) ->
  (forall s', moved img fp s s' -> Q (chain_read img fp cluster offset n out) s') ->
  wp (read_internal_rec (S (S fuel)) disk_addr cluster offset n out) s Q.
Proof.
  intros Hm Hc Hoff Hn Hout Hrange HQ. unfold chain_read in HQ.
  destruct (decide (cluster_size fp <= offset)) as [Hb|Hb].
  { rewrite bool_decide_true in HQ by done. by eapply read_internal_rec_beyond. }
  rewrite bool_decide_false in HQ by done. specialize (Hrange ltac:(lia)).
  pose proof (cluster_size_pos _ _ _ Hc) as Hcs. pose proof (cluster_pos_nonneg _ _ _ Hc) as Hcp.
  destruct (ck_header _ _ _ Hc) as [Hr Hspc]. pose proof (ck_cluster _ _ _ Hc) as Hc2.
  pose proof (mt_size _ _ _ _ Hm) as Hsz. pose proof (ck_data _ _ _ Hc) as Hdata.
  remember (S fuel) as fuel1 eqn:Ef. cbn [read_internal_rec].
  apply wp_bind, wp_load_disk. apply wp_bind. rewrite (mt_private _ _ _ _ Hm).
  eapply wp_load; [exact (mt_fp _ _ _ _ Hm)|]. rewrite (mt_sector _ _ _ _ Hm).
  fold (cluster_size fp). cbv zeta. apply wp_bind.
  eapply get_cluster_in_chain_ok; [exact Hm|unfold fat_pos; lia|done|lia|apply Hc|done|lia|].
  intros s1 Hmv1. rewrite bool_decide_true by lia.
  pose proof (moved_mounted _ _ _ _ _ Hm Hmv1) as Hm1.
  destruct (Z.ltb_spec cluster 0); [lia|]. rewrite Z.rem_small by lia.
  assert (Hss : fat16_cluster_to_start_sector fp cluster * 512 = cluster_pos fp cluster).
  { unfold fat16_cluster_to_start_sector. rewrite s32_small; [done|].
    unfold cluster_pos in *. lia. }
  rewrite Hss, (s32_small (cluster_pos fp cluster + offset)) by lia.
  assert (Hk : (if n >? cluster_size fp then cluster_size fp else n) = Z.min n (cluster_size fp)).
  { rewrite Z.gtb_ltb. destruct (Z.ltb_spec (cluster_size fp) n); lia. }
  rewrite Hk. set (k := Z.min n (cluster_size fp)) in *.
  apply wp_bind. eapply seek_ok; [exact Hm1|unfold streams; set_solver|]. intros s2 Hmv2 Hm2 Hp2.
  destruct (Z.ltb_spec 0 0); [lia|]. apply wp_bind.
  eapply read_ok; [exact Hm2|unfold streams; set_solver|exact Hp2|lia|lia|lia|lia|].
  intros s3 Hmv3 Hm3 _. destruct (Z.ltb_spec 0 0); [lia|].
  assert (Hmv : moved img fp s s3) by (eapply moved_trans; [exact Hmv1|by eapply moved_trans]).
  set (out' := extent _ _ _ ++ drop _ out) in *.
  rewrite Z.gtb_ltb. destruct (Z.ltb_spec 0 (n - k)) as [Hmore|Hdone].
  - assert (Hkc : k = cluster_size fp) by lia. apply wp_bind. subst fuel1.
    eapply read_internal_rec_beyond; [exact Hm3|exact Hc|rewrite s32_small by lia; lia|].
    intros s4 Hmv4. apply wp_ret. rewrite take_drop.
    rewrite bool_decide_false in HQ by lia. apply HQ. by eapply moved_trans.
  - apply wp_ret. rewrite bool_decide_true in HQ by lia. by apply HQ.
Qed.

End Proofs.

(** ** File names *)

(** The 128-byte name buffer holding [x] and null bytes. *)
Definition fill (x : list Z) : list Z := x ++ replicate (128 - length x) 0.

Lemma fill_insert x c : (length x < 128)%nat -> <[length x := c]> (fill x) = fill (x ++ [c]).
Proof.
  intros Hx. unfold fill. rewrite insert_app_r_alt, Nat.sub_diag by lia.
  rewrite length_app. simpl. replace (128 - length x)%nat with (S (128 - (length x + 1))) by lia.
  simpl. by rewrite <- app_assoc.
Qed.

Lemma fill_insert_zero x : (length x < 128)%nat -> <[length x := 0]> (fill x) = fill x.
Proof.
  intros Hx. unfold fill. rewrite insert_app_r_alt, Nat.sub_diag by lia.
  replace (128 - length x)%nat with (S (127 - length x)) by lia. done.
Qed.

Lemma length_fill x : (length x <= 128)%nat -> length (fill x) = 128%nat.
Proof. intros. unfold fill. rewrite length_app, length_replicate. lia. Qed.

(** A character that does not end a name field. *)
Definition name_char (c : Z) : Prop := 0 < c < 256 /\ c <> 32.
Definition name_end (c : Z) : Prop := c = 0 \/ c = 32.

Lemma convert_ok pre x c rest :
  Forall name_char x -> name_end c -> (length pre + length x < 128)%nat ->
  fat16_convert_spaces_to_null (fill pre) (length pre) (x ++ c :: rest) =
    Ok (fill (pre ++ x), length (pre ++ x)).
Proof.
  intros Hx Hc. revert pre. induction Hx as [|b x [Hb1 Hb2] Hx IH]; intros pre Hl;
    cbn [app fat16_convert_spaces_to_null].
  - rewrite app_nil_r. simpl in Hl. destruct Hc as [->| ->].
    + done.
    + change (negb (32 =? 0) && negb (32 =? 32)) with false. change (32 =? 32) with true.
      destruct (decide _) as [_|Hn]; [by rewrite fill_insert_zero by lia|].
      rewrite length_fill in Hn; lia.
  - destruct (Z.eqb_spec b 0); [lia|]. destruct (Z.eqb_spec b 32); [lia|]. cbn [negb andb].
    simpl in Hl. destruct (decide _) as [_|Hn]; [|rewrite length_fill in Hn; lia].
    rewrite fill_insert by lia. replace (S (length pre)) with (length (pre ++ [b]))
      by (rewrite length_app; simpl; lia).
    rewrite IH by (rewrite length_app; simpl; lia). by rewrite <- app_assoc.
Qed.

(** The name a directory entry is listed under. *)
Definition display (base ext : list Z) : list Z :=
  base ++ match ext with [] => [] | _ => 46 :: ext end.

(** The driver reads the entry [raw] as [base] and [ext]: each runs to the first
    space or null byte. *)
Record reads_as (raw base ext : list Z) : Prop := {
  ra_base : Forall name_char base;
  ra_ext : Forall name_char ext;
  ra_name : exists c rest, raw = base ++ c :: rest /\ name_end c;
  ra_tail : exists c rest, drop 8 raw = ext ++ c :: rest /\ name_end c;
  ra_len : (length base + length ext < 127)%nat
}.

Lemma get_filename_ok raw base ext :
  reads_as raw base ext ->
  fat16_get_filename raw (replicate (Z.to_nat MAX_FILE_PATH_CHARS) 0) MAX_FILE_PATH_CHARS =
    Ok (fill (display base ext)).
Proof.
  intros [Hb He (c1 & r1 & Hn & Hc1) (c2 & r2 & Ht & Hc2) Hl]. unfold fat16_get_filename.
  rewrite Memory.memset_ok by (rewrite length_replicate; unfold MAX_FILE_PATH_CHARS; lia).
  rewrite (drop_ge (replicate _ 0)), app_nil_r by (rewrite length_replicate; lia). cbn [mbind outcome_bind].
  change (replicate (Z.to_nat MAX_FILE_PATH_CHARS) (u8 0)) with (fill []).
  pose proof (convert_ok [] base c1 r1 Hb Hc1 ltac:(simpl; lia)) as Hcv. rewrite <- Hn in Hcv.
  cbn [length app] in Hcv. rewrite Hcv.
  cbn [mbind outcome_bind app]. unfold ext0, byte_at.
  replace (raw !! 8%nat) with ((ext ++ c2 :: r2) !! 0%nat)
    by (rewrite <- Ht, lookup_drop; done).
  unfold display. destruct ext as [|b ext].
  - cbn [app lookup list_lookup default id]. rewrite app_nil_r.
    destruct Hc2 as [->| ->]; done.
  - inversion_clear He as [|?? Hb0 He']. destruct Hb0 as [Hb1 Hb2].
    cbn [app lookup list_lookup default id].
    destruct (Z.eqb_spec b 0); [lia|]. destruct (Z.eqb_spec b 32); [lia|]. cbn [negb andb].
    simpl in Hl. destruct (decide _) as [_|Hd]; [|rewrite length_fill in Hd; lia].
    rewrite fill_insert by lia. rewrite Ht.
    replace (S (length base)) with (length (base ++ [46])) by (rewrite length_app; simpl; lia).
    rewrite convert_ok; [|by constructor|done|rewrite length_app; simpl; lia].
    cbn [mbind outcome_bind]. by rewrite <- app_assoc.
Qed.

Lemma fill_cstring x : Forall name_char x -> (length x < 128)%nat -> CString.cstring (fill x) x.
Proof.
  intros Hx Hl. split.
  - eapply Forall_impl; [|exact Hx]. unfold name_char, CString.nonzero. intros; lia.
  - exists (replicate (127 - length x) 0). unfold fill.
    by replace (128 - length x)%nat with (S (127 - length x)) by lia.
Qed.

Lemma display_chars base ext :
  Forall name_char base -> Forall name_char ext -> Forall name_char (display base ext).
Proof.
  intros Hb He. unfold display. apply Forall_app. split; [done|].
  destruct ext as [|c ext]; [constructor|]. constructor; [unfold name_char; lia|done].
Qed.

Lemma length_display base ext : (length (display base ext) <= length base + length ext + 1)%nat.
Proof. unfold display. rewrite length_app. destruct ext; simpl; lia. Qed.

(** Whether the directory search takes the entry [raw] for [name]. *)
Definition entry_matches (raw name : list Z) : outcome bool :=
  tmp ← fat16_get_filename raw (replicate (Z.to_nat MAX_FILE_PATH_CHARS) 0) MAX_FILE_PATH_CHARS;
  r ← CString.strnicmp tmp name MAX_FILE_PATH_CHARS;
  Ok (r =? 0).

(** It does when the names agree up to case. *)
Lemma entry_matches_ok raw base ext name nm :
  reads_as raw base ext -> CString.cstring name nm -> Forall CString.char_byte nm ->
  (length nm <= 128)%nat ->
  entry_matches raw name =
    Ok (bool_decide (CString.lower <$> display base ext = CString.lower <$> nm)).
Proof.
  intros Hr Hn Hb Hl. unfold entry_matches. rewrite (get_filename_ok _ _ _ Hr). cbn [mbind outcome_bind].
  pose proof (display_chars _ _ (ra_base _ _ _ Hr) (ra_ext _ _ _ Hr)) as Hd.
  pose proof (length_display base ext) as Hld. pose proof (ra_len _ _ _ Hr) as Hlr.
  destruct (CString.strnicmp_cstring (fill (display base ext)) name (display base ext) nm
    MAX_FILE_PATH_CHARS) as (r & -> & Hz).
  - apply fill_cstring; [done|lia].
  - done.
  - eapply Forall_impl; [|exact Hd]. unfold name_char, CString.char_byte. intros; lia.
  - done.
  - cbn [mbind outcome_bind]. f_equal. unfold MAX_FILE_PATH_CHARS in Hz.
    rewrite !take_ge in Hz by lia. case_bool_decide as E; [by rewrite Z.eqb_eq, Hz|].
    apply Z.eqb_neq. by rewrite Hz.
Qed.

Lemma entry_matches_inv raw name b :
  entry_matches raw name = Ok b ->
  exists tmp r,
    fat16_get_filename raw (replicate (Z.to_nat MAX_FILE_PATH_CHARS) 0) MAX_FILE_PATH_CHARS = Ok tmp /\
    CString.strnicmp tmp name MAX_FILE_PATH_CHARS = Ok r /\ b = (r =? 0).
Proof.
  unfold entry_matches. destruct (fat16_get_filename _ _ _) as [tmp| | |]; try done.
  cbn [mbind outcome_bind]. destruct (CString.strnicmp _ _ _) as [r| | |] eqn:E; try done.
  cbn [mbind outcome_bind]. intros [= <-]. eauto.
Qed.

Section Files.
Context {A D : Type} `{Al : Allocator A} `{Av : AllocatorView A} `{Po : PortIO D} `{At : !AtaDrive D} `{Aw : !AllocatorLaws A}.
#[local] Abbreviation St := (kst A D).

(** ** Directory search *)

(** One turn of the search loop. *)
Lemma find_loop_step n i dir name entry (entries : list Z) b s (Q : Z -> St -> Prop) :
  objs s !! fd_entry dir = Some (to_obj entries) ->
  entry_matches (drop (32 * i) entries) name = Ok b ->
  wp (e ← (if b then fat16_get_easy_entry disk_addr (drop (32 * i) entries) else mret entry);
      find_loop n (S i) disk_addr dir name e) s Q ->
  wp (find_loop (S n) i disk_addr dir name entry) s Q.
Proof.
  intros He Hm HQ. destruct (entry_matches_inv _ _ _ Hm) as (tmp & r & Hf & Hc & ->).
  cbn [find_loop]. apply wp_bind. eapply wp_load; [exact He|].
  apply wp_bind. unfold wp at 1, lift_outcome. rewrite Hf. cbn [mbind outcome_bind].
  apply wp_bind. unfold wp at 1, lift_outcome. rewrite Hc. cbn [mbind outcome_bind]. exact HQ.
Qed.

Lemma find_loop_skip n i dir name entry (entries : list Z) s (Q : Z -> St -> Prop) :
  objs s !! fd_entry dir = Some (to_obj entries) ->
  (forall j, (i <= j < i + n)%nat -> entry_matches (drop (32 * j) entries) name = Ok false) ->
  Q entry s -> wp (find_loop n i disk_addr dir name entry) s Q.
Proof.
  intros He. revert i. induction n as [|n IH]; intros i Hm HQ; [by apply wp_ret|].
  eapply find_loop_step; [exact He|apply Hm; lia|]. apply wp_bind, wp_ret.
  apply IH; [|done]. intros j Hj. apply Hm. lia.
Qed.

(** A file's entry: a fresh [fat_easy_directory_entry] and a copy of the entry. *)
Lemma get_easy_entry_file raw s L f (Q : Z -> St -> Prop) :
  live s L -> free_blocks s = S (S f) -> (32 <= length raw)%nat ->
  Z.land (attribute raw) FAT_FILE_SUBDIRECTORY = 0 ->
  (forall p c a, let s' := set_heap s a (<[p := to_obj (FatEasy c FAT_ITEM_TYPE_FILE)]>
       (<[c := to_obj (take 32 raw)]> (objs s))) in
     live s' (<[c := 1%nat]> (<[p := 1%nat]> L)) -> free_blocks s' = f ->
     L !! p = None -> L !! c = None -> p <> c -> 0 < p -> Q p s') ->
  wp (fat16_get_easy_entry disk_addr raw) s Q.
Proof.
  intros Hl Hf Hlen Hattr HQ. unfold fat16_get_easy_entry.
  apply wp_bind. eapply wp_zalloc;
    [done|unfold sizeof_fat_easy_directory_entry, HEAP_BLOCK_SIZE; lia|done|].
  intros p a s1 Hl1 Hf1 HLp Hop Hp. destruct (Z.eqb_spec p 0); [lia|].
  rewrite Hattr. change (0 =? 0) with true. cbn [negb]. apply wp_bind.
  apply wp_bind. eapply wp_load; [apply lookup_insert_eq|].
  apply wp_bind. eapply wp_store; [apply lookup_insert_eq|]. cbn [fe_item].
  apply wp_bind. unfold fat16_clone_raw_dir_entry, sizeof_fat_directory_entry.
  change (32 <? 32) with false. cbv iota.
  eapply wp_bind, (wp_zalloc 32 _ _ (<[p := 1%nat]> L) f);
    [solve_live|unfold HEAP_BLOCK_SIZE; lia|done|].
  intros c a2 s2 Hl2 Hf2 HLc Hoc Hc. apply lookup_insert_None in HLc as [HLc Hpc].
  destruct (Z.eqb_spec c 0); [lia|].
  apply wp_bind. eapply wp_load; [apply lookup_insert_eq|].
  apply wp_bind. unfold wp at 1, lift_outcome.
  rewrite Memory.memcpy_ok by (rewrite ?length_replicate; lia). cbn [mbind outcome_bind].
  rewrite drop_ge, app_nil_r by (rewrite length_replicate; lia).
  apply wp_bind. eapply wp_store; [apply lookup_insert_eq|]. apply wp_ret.
  apply wp_bind. subst s1 s2. unfold set_heap in *. simpl in *. rewrite !insert_insert_eq.
  assert (Hlk : <[c := OBytes (take (Z.to_nat 32) raw)]>
     (<[p := OEasy (FatEasy 0 FAT_ITEM_TYPE_FILE)]> (objs s)) !! p =
     Some (to_obj (FatEasy 0 FAT_ITEM_TYPE_FILE))).
  { rewrite lookup_insert_ne by done. apply lookup_insert_eq. }
  eapply wp_load; [exact Hlk|]. eapply wp_store; [exact Hlk|]. apply wp_ret. cbn [fe_type].
  specialize (HQ p c a2). unfold set_heap. simpl.
  rewrite (insert_insert_ne _ c p) by done. rewrite insert_insert_eq.
  change (Z.to_nat 32) with 32%nat. apply HQ; try done; [|lia].
  eapply live_dom; [exact Hl2|done|]. simpl. rewrite !dom_insert. clear. set_solver.
Qed.

(** The search, when exactly one entry matches and it is a file. *)
Lemma find_file_ok dir name (entries : list Z) k s L f (Q : Z -> St -> Prop) :
  objs s !! fd_entry dir = Some (to_obj entries) ->
  (k < Z.to_nat (fd_total dir))%nat -> (32 * k + 32 <= length entries)%nat ->
  (forall j, (j < Z.to_nat (fd_total dir))%nat ->
     entry_matches (drop (32 * j) entries) name = Ok (bool_decide (j = k))) ->
  Z.land (attribute (drop (32 * k) entries)) FAT_FILE_SUBDIRECTORY = 0 ->
  live s L -> free_blocks s = S (S f) ->
  (forall p c a, let s' := set_heap s a (<[p := to_obj (FatEasy c FAT_ITEM_TYPE_FILE)]>
       (<[c := to_obj (take 32 (drop (32 * k) entries))]> (objs s))) in
     live s' (<[c := 1%nat]> (<[p := 1%nat]> L)) -> free_blocks s' = f ->
     L !! p = None -> L !! c = None -> p <> c -> 0 < p -> Q p s') ->
  wp (fat16_find_entry_in_directory disk_addr dir name) s Q.
Proof.
  intros He Hk Hlen Hm Hattr Hl Hf HQ. unfold fat16_find_entry_in_directory.
  assert (is_Some (L !! fd_entry dir)) as [ne HLe].
  { apply elem_of_dom, (proj2 Hl), elem_of_dom. eauto. }
  (* the turns before the match *)
  assert (Hpre : forall n i e, (i + n = Z.to_nat (fd_total dir))%nat -> (i <= k)%nat ->
    wp (find_loop n i disk_addr dir name e) s Q); [|apply Hpre; lia].
  intros n. induction n as [|n IH]; intros i e Hin Hik; [lia|].
  eapply find_loop_step; [exact He|apply Hm; lia|]. case_bool_decide as Eik.
  - subst i. apply wp_bind.
    eapply (get_easy_entry_file _ _ L f); [done|done|rewrite length_drop; lia|done|].
    intros p c a s' Hl' Hf' HLp HLc Hpc Hp. eapply find_loop_skip.
    + subst s'. simpl. rewrite !lookup_insert_ne; [exact He|congruence|congruence].
    + intros j Hj. rewrite Hm by lia. by rewrite bool_decide_false by lia.
    + by apply HQ.
  - apply wp_bind, wp_ret. apply IH; lia.
Qed.

(** ** Open files *)

(** An address that holds something other than a stream is none of the volume's
    streams. *)
Lemma not_stream img p fp (s : St) a o :
  mounted img p fp s -> objs s !! a = Some o -> (forall x : disk_stream, o <> to_obj x) ->
  a ∉ streams fp.
Proof.
  intros Hm Ho Hn Ha. destruct (mt_streams _ _ _ _ Hm _ Ha) as [q Hq].
  apply (Hn (DiskStream q disk_addr)). congruence.
Qed.

(** Allocating beside a mounted volume keeps it mounted. *)
Lemma mounted_insert img p fp (s : St) L a x o :
  mounted img p fp s -> live s L -> L !! x = None ->
  mounted img p fp (set_heap s a (<[x := o]> (objs s))).
Proof.
  intros Hm Hl Hx. pose proof (live_fresh _ _ _ Hl Hx) as Hox.
  destruct Hm as [M1 M2 M3 M4 M5 M6 M7]. split; simpl; try done.
  - rewrite lookup_insert_ne; [done|congruence].
  - intros b Hb. destruct (M4 b Hb) as [q Hq]. exists q. rewrite lookup_insert_ne; [done|congruence].
Qed.

(** An open file: descriptor [desc], entry struct [e] and entry copy [c]. *)
Record open_file (s : St) (desc e c pos : Z) (raw : list Z) : Prop := {
  of_desc : objs s !! desc = Some (to_obj (FatFile e pos));
  of_easy : objs s !! e = Some (to_obj (FatEasy c FAT_ITEM_TYPE_FILE));
  of_raw : objs s !! c = Some (to_obj raw)
}.

Lemma moved_open img p fp (s s' : St) desc e c pos raw :
  mounted img p fp s -> moved img fp s s' -> open_file s desc e c pos raw ->
  open_file s' desc e c pos raw.
Proof.
  intros Hm Hmv [O1 O2 O3].
  split; (rewrite (mv_frame _ _ _ _ Hmv); [done|]);
    (eapply not_stream; [exact Hm|eassumption|done]).
Qed.

(** Opening a file of the root directory by a one-part path. *)
Lemma fat16_fopen_ok img p fp (s : St) L f path str (name entries : list Z) k (Q : Z -> St -> Prop) :
  mounted img p fp s ->
  objs s !! path = Some (to_obj (PathPart str 0)) -> objs s !! str = Some (to_obj name) ->
  objs s !! fd_entry (root_directory fp) = Some (to_obj entries) ->
  (k < Z.to_nat (fd_total (root_directory fp)))%nat -> (32 * k + 32 <= length entries)%nat ->
  (forall j, (j < Z.to_nat (fd_total (root_directory fp)))%nat ->
     entry_matches (drop (32 * j) entries) name = Ok (bool_decide (j = k))) ->
  Z.land (attribute (drop (32 * k) entries)) FAT_FILE_SUBDIRECTORY = 0 ->
  live s L -> free_blocks s = S (S (S f)) ->
  (forall desc e c a, let raw := take 32 (drop (32 * k) entries) in
     let s' := set_heap s a (<[desc := to_obj (FatFile e 0)]>
       (<[e := to_obj (FatEasy c FAT_ITEM_TYPE_FILE)]> (<[c := to_obj raw]> (objs s)))) in
     live s' (<[c := 1%nat]> (<[e := 1%nat]> (<[desc := 1%nat]> L))) -> free_blocks s' = f ->
     L !! desc = None -> L !! e = None -> L !! c = None -> NoDup [desc; e; c] ->
     0 < desc <= 2147479552 -> Q desc s') ->
  wp (fat16_fopen disk_addr path READ) s Q.
Proof.
  intros Hm Hpath Hstr Hent Hk Hlen Hmatch Hattr Hl Hf HQ. unfold fat16_fopen.
  rewrite bool_decide_true by done. cbn [negb]. apply wp_bind.
  eapply wp_zalloc; [done|unfold sizeof_fat_file_descriptor, HEAP_BLOCK_SIZE; lia|done|].
  intros desc a s1 Hl1 Hf1 HLd Hod Hd. destruct (Z.eqb_spec desc 0) as [|_]; [lia|].
  assert (Hfr : forall x o, objs s !! x = Some o -> objs s1 !! x = Some o).
  { intros x o Hx. subst s1. simpl. rewrite lookup_insert_ne; [done|congruence]. }
  assert (Hm1 : mounted img p fp s1) by (by eapply mounted_insert).
  apply wp_bind. unfold fat16_get_directory_entry. apply wp_bind, wp_load_disk.
  rewrite (mt_private _ _ _ _ Hm1). apply wp_bind. eapply wp_load; [exact (mt_fp _ _ _ _ Hm1)|].
  apply wp_bind. eapply wp_load; [by apply Hfr|].
  apply wp_bind. eapply wp_load; [by apply Hfr|]. apply wp_bind.
  eapply find_file_ok; [by apply Hfr|exact Hk|exact Hlen|exact Hmatch|exact Hattr|exact Hl1|exact Hf1|].
  intros e c a2 s2 Hl2 Hf2 HLe HLc Hec He.
  apply lookup_insert_None in HLe as [HLe Hde]. apply lookup_insert_None in HLc as [HLc Hdc].
  destruct (Z.eqb_spec e 0) as [|_]; [lia|].
  assert (Hfr2 : forall x o, objs s !! x = Some o -> objs s2 !! x = Some o).
  { intros x o Hx. assert (is_Some (L !! x)) as [? ?].
    { apply elem_of_dom, (proj2 Hl), elem_of_dom. eauto. }
    subst s2. simpl. rewrite !lookup_insert_ne by congruence. done. }
  apply wp_bind. eapply wp_load; [by apply Hfr2|]. cbn [pp_next].
  apply (wp_loop_idx (fun _ x s0 => x = (e, 0) /\ s0 = s2) _ 0); [done|lia|].
  intros n x s0 [-> ->]. unfold walk_step. change (0 =? 0) with true. apply wp_ret.
  assert (Hdesc : objs s2 !! desc = Some (to_obj (FatFile 0 0))).
  { subst s2 s1. simpl. rewrite !lookup_insert_ne by congruence. apply lookup_insert_eq. }
  apply wp_bind. eapply wp_load; [exact Hdesc|]. apply wp_bind. eapply wp_store; [exact Hdesc|].
  destruct (Z.eqb_spec e 0) as [|_]; [lia|].
  apply wp_bind. eapply wp_load; [apply lookup_insert_eq|].
  apply wp_bind. eapply wp_store; [apply lookup_insert_eq|]. apply wp_ret.
  cbn [easy_directory_entry ff_pos]. subst s1 s2. unfold set_heap in *. simpl in *.
  rewrite insert_insert_eq.
  assert (Eo : forall o, <[desc := o]> (<[e := OEasy (FatEasy c FAT_ITEM_TYPE_FILE)]>
      (<[c := OBytes (take 32 (drop (32 * k) entries))]> (<[desc := OFatFile (FatFile 0 0)]> (objs s)))) =
    <[desc := o]> (<[e := OEasy (FatEasy c FAT_ITEM_TYPE_FILE)]>
      (<[c := OBytes (take 32 (drop (32 * k) entries))]> (objs s)))).
  { intros o. rewrite (insert_insert_ne _ c desc) by done.
    rewrite (insert_insert_ne _ e desc) by done. by rewrite insert_insert_eq. }
  rewrite Eo. apply HQ; try done; [|repeat constructor; set_solver].
  eapply live_dom; [exact Hl2|done|]. simpl. rewrite !dom_insert. clear. set_solver.
Qed.

Lemma fat16_read_internal_ok img p fp (s : St) cluster offset n out (Q : Z * list Z -> St -> Prop) :
  mounted img p fp s -> cluster_ok img fp cluster -> 0 <= offset -> 0 < n ->
  n <= Z.of_nat (length out) ->
  (offset < cluster_size fp ->
     cluster_pos fp cluster + offset + Z.min n (cluster_size fp) <= Z.of_nat (length img)) ->
  (forall s', moved img fp s s' -> Q (chain_read img fp cluster offset n out) s') ->
  wp (fat16_read_internal disk_addr cluster offset n out) s Q.
Proof.
  intros Hm Hc Ho Hn Hout Hr HQ. unfold fat16_read_internal.
  destruct (Z.to_nat n) as [|m] eqn:E; [lia|].
  eapply read_internal_rec_ok; [exact Hm|exact Hc|done|lia|done|done|exact HQ].
Qed.

(** Reading elements inside the first cluster. *)
Lemma fread_loop_ok n img p fp (s : St) entry raw offset size count out (Q : Z * list Z -> St -> Prop) :
  mounted img p fp s -> objs s !! entry = Some (to_obj raw) ->
  cluster_ok img fp (fat16_get_first_cluster raw) -> 0 <= offset -> 0 < size ->
  offset + Z.of_nat n * size <= cluster_size fp -> Z.of_nat n * size <= Z.of_nat (length out) ->
  (forall s', moved img fp s s' ->
     Q (count + Z.of_nat n,
        extent img (cluster_pos fp (fat16_get_first_cluster raw) + offset) (Z.of_nat n * size)
          ++ drop (Z.to_nat (Z.of_nat n * size)) out) s') ->
  wp (fread_loop n disk_addr entry offset size count out) s Q.
Proof.
  intros Hm He Hc. pose proof (cluster_size_pos _ _ _ Hc) as Hcs.
  pose proof (cluster_pos_nonneg _ _ _ Hc) as Hcp. pose proof (ck_data _ _ _ Hc) as Hd.
  pose proof (ck_fat _ _ _ Hc) as Hfat. pose proof (ck_cluster _ _ _ Hc) as Hc2.
  destruct (ck_header _ _ _ Hc) as [Hres _]. unfold fat_pos in Hfat.
  set (cluster := fat16_get_first_cluster raw) in *.
  revert s offset count out Q Hm He. induction n as [|n IH];
    intros s offset count out Q Hm He Hoff Hsz Hfit Hout HQ; pose proof (mt_size _ _ _ _ Hm) as Hi.
  { apply wp_ret. specialize (HQ s (moved_refl _ _ _ _ Hm)).
    change (Z.of_nat 0 * size) with 0 in HQ. change (Z.of_nat 0) with 0 in HQ.
    unfold extent in HQ. change (Z.to_nat 0) with 0%nat in HQ.
    rewrite take_0, drop_0, Z.add_0_r in HQ. exact HQ. }
  cbn [fread_loop]. apply wp_bind. eapply wp_load; [exact He|]. fold cluster.
  rewrite (s32_small cluster), (s32_small size) by lia. apply wp_bind.
  eapply fat16_read_internal_ok; [exact Hm|exact Hc|done|done|lia|lia|]. intros s1 Hmv1.
  unfold chain_read. rewrite bool_decide_false, bool_decide_true by lia. rewrite Z.min_l by lia.
  cbv iota beta. destruct (Z.ltb_spec 0 0); [lia|]. apply wp_bind.
  assert (Hlen : length (extent img (cluster_pos fp cluster + offset) size) = Z.to_nat size)
    by (apply length_extent; lia).
  set (e1 := extent img (cluster_pos fp cluster + offset) size) in *.
  rewrite drop_app_length' by done. rewrite (s32_small (offset + size)) by lia.
  assert (Hs : entry ∉ streams fp) by (eapply not_stream; [exact Hm|exact He|done]).
  eapply IH; [by eapply moved_mounted|by rewrite (mv_frame _ _ _ _ Hmv1)|lia|lia|lia| |].
  { rewrite length_drop. lia. }
  intros s2 Hmv2. apply wp_ret. specialize (HQ s2 (moved_trans _ _ _ _ _ Hmv1 Hmv2)).
  rewrite take_app_length' by done. unfold e1.
  rewrite app_assoc, Z.add_assoc, extent_app, drop_drop by lia.
  replace (count + 1 + Z.of_nat n) with (count + Z.of_nat (S n)) by lia.
  replace (size + Z.of_nat n * size) with (Z.of_nat (S n) * size) by lia.
  replace (Z.to_nat size + Z.to_nat (Z.of_nat n * size))%nat with (Z.to_nat (Z.of_nat (S n) * size)) by lia.
  exact HQ.
Qed.

Lemma fat16_fread_ok img p fp (s : St) desc e c pos raw size nmemb out (Q : Z * list Z -> St -> Prop) :
  mounted img p fp s -> open_file s desc e c pos raw ->
  cluster_ok img fp (fat16_get_first_cluster raw) -> 0 <= pos -> 0 < size -> 0 <= nmemb ->
  pos + nmemb * size <= cluster_size fp -> nmemb * size <= Z.of_nat (length out) ->
  (forall s', moved img fp s s' ->
     Q (nmemb, extent img (cluster_pos fp (fat16_get_first_cluster raw) + pos) (nmemb * size)
          ++ drop (Z.to_nat (nmemb * size)) out) s') ->
  wp (fat16_fread disk_addr desc size nmemb out) s Q.
Proof.
  intros Hm [O1 O2 O3] Hc Hp Hs Hn Hfit Hout HQ. unfold fat16_fread.
  apply wp_bind. eapply wp_load; [exact O1|]. cbn [easy_directory_entry ff_pos].
  apply wp_bind. eapply wp_load; [exact O2|]. cbn [fe_type fe_item].
  pose proof (mt_size _ _ _ _ Hm). pose proof (ck_data _ _ _ Hc). pose proof (cluster_pos_nonneg _ _ _ Hc).
  rewrite (s32_small pos) by nia.
  eapply fread_loop_ok; [exact Hm|exact O3|exact Hc|done|done|rewrite Z2Nat.id by lia; lia|
    rewrite Z2Nat.id by lia; lia|].
  intros s' Hs'. rewrite Z2Nat.id by lia. by apply HQ.
Qed.

(** Closing an open file frees its three allocations. *)
Lemma fat16_fclose_ok (s : St) desc e c pos raw L (Q : Z -> St -> Prop) :
  open_file s desc e c pos raw -> NoDup [desc; e; c] ->
  L !! desc = None -> L !! e = None -> L !! c = None ->
  live s (<[c := 1%nat]> (<[e := 1%nat]> (<[desc := 1%nat]> L))) ->
  (forall a, let s' := set_heap s a (delete desc (delete e (delete c (objs s)))) in
     live s' L -> free_blocks s' = (3 + free_blocks s)%nat -> Q 0 s') ->
  wp (fat16_fclose desc) s Q.
Proof.
  intros [O1 O2 O3] Hnd HLd HLe HLc Hl HQ.
  assert (desc <> e /\ desc <> c /\ e <> c) as (Hde & Hdc & Hec).
  { inversion_clear Hnd as [|?? Hn1 Hnd']. inversion_clear Hnd' as [|?? Hn2 _]. set_solver. }
  unfold fat16_fclose, fat16_free_file_descriptor, fat16_easy_dir_entry_free.
  apply wp_bind. apply wp_bind. eapply wp_load; [exact O1|]. cbn [easy_directory_entry].
  apply wp_bind. apply wp_bind. eapply wp_load; [exact O2|]. cbn [fe_type fe_item].
  apply wp_bind. eapply (wp_free c 1%nat); [exact Hl|apply lookup_insert_eq|].
  intros a1 s1 Hl1 Hf1. rewrite delete_insert_id in Hl1 by (rewrite !lookup_insert_ne by done; done).
  eapply (wp_free e 1%nat); [exact Hl1|apply lookup_insert_eq|].
  intros a2 s2 Hl2 Hf2. rewrite delete_insert_id in Hl2 by (rewrite !lookup_insert_ne by done; done).
  eapply (wp_free desc 1%nat); [exact Hl2|apply lookup_insert_eq|].
  intros a3 s3 Hl3 Hf3. rewrite delete_insert_id in Hl3 by done. apply wp_ret.
  apply (HQ a3); [exact Hl3|]. change (free_blocks s3 = (3 + free_blocks s)%nat). lia.
Qed.

(** ** Counting directory entries *)

(** The first byte of entry [i] of the directory at byte [pos]. *)
Definition first_byte (img : list Z) (pos : Z) (i : nat) : Z :=
  byte_at img (Z.to_nat pos + 32 * i)%nat.

(** The entries in use among the first [m]. *)
Definition used_entries (img : list Z) (pos : Z) (m : nat) : list nat :=
  filter (fun i => first_byte img pos i <> 0xE5) (seq 0 m).

Lemma extent_first_byte img pos i :
  0 <= pos -> pos + 32 * (Z.of_nat i + 1) <= Z.of_nat (length img) ->
  byte_at (extent img (pos + 32 * Z.of_nat i) 32) 0 = first_byte img pos i.
Proof.
  intros Hp Hi. unfold byte_at, first_byte, extent.
  change (Z.to_nat 32) with 32%nat. rewrite lookup_take_lt by lia. rewrite lookup_drop.
  unfold byte_at. do 2 f_equal. lia.
Qed.

Lemma used_entries_S img pos m :
  used_entries img pos (S m) =
    used_entries img pos m ++ (if bool_decide (first_byte img pos m = 0xE5) then [] else [m]).
Proof.
  unfold used_entries. rewrite seq_S, list.filter_app. simpl. f_equal.
  rewrite list.filter_cons, list.filter_nil. case_bool_decide; case_decide; done.
Qed.

Lemma used_entries_length img pos m : (length (used_entries img pos m) <= m)%nat.
Proof.
  unfold used_entries. etrans; [apply length_filter|]. by rewrite length_seq.
Qed.

(** The counting loop, at entry [m - k]. *)
Lemma count_loop_ok img p fp (s : St) pos m (Q : Z -> St -> Prop) :
  mounted img p fp s -> 0 <= pos -> pos + 32 * (Z.of_nat m + 1) <= Z.of_nat (length img) ->
  (forall i, (i < m)%nat -> first_byte img pos i <> 0) -> first_byte img pos m = 0 ->
  objs s !! directory_stream fp = Some (to_obj (DiskStream pos disk_addr)) ->
  (forall s', moved img fp s s' -> Q (Z.of_nat (length (used_entries img pos m))) s') ->
  wp (loop_m (count_step (directory_stream fp)) (0, replicate (Z.to_nat sizeof_fat_directory_entry) 0))
    s Q.
Proof.
  intros Hm Hpos Hlen Hne Hend Hst HQ. pose proof (mt_size _ _ _ _ Hm) as Hsz.
  apply (wp_loop_idx (fun n '(count, entry) s1 =>
    exists i, (i + n = m)%nat /\ length entry = 32%nat /\
      count = Z.of_nat (length (used_entries img pos i)) /\ moved img fp s s1 /\
      objs s1 !! directory_stream fp = Some (to_obj (DiskStream (pos + 32 * Z.of_nat i) disk_addr)))
    _ m).
  { exists 0%nat. split; [done|]. split; [done|]. split; [done|]. split; [by eapply moved_refl|].
    rewrite Hst. do 3 f_equal. lia. }
  { lia. }
  intros n [count entry] s1 (i & Hin & Hle & -> & Hmv & Hst1).
  pose proof (moved_mounted _ _ _ _ _ Hm Hmv) as Hm1. unfold count_step, sizeof_fat_directory_entry.
  apply wp_bind. eapply read_ok; [exact Hm1|unfold streams; set_solver|exact Hst1|lia|lia|lia|lia|].
  intros s2 Hmv2 Hm2 Hst2. destruct (Z.ltb_spec 0 0); [lia|].
  rewrite drop_ge, app_nil_r by (change (Z.to_nat 32) with 32%nat; lia).
  rewrite extent_first_byte by lia.
  assert (Hmv' : moved img fp s s2) by (by eapply moved_trans).
  destruct n as [|n].
  - assert (i = m) as -> by lia. rewrite Hend. change (0 =? 0) with true. apply wp_ret. by apply HQ.
  - destruct (Z.eqb_spec (first_byte img pos i) 0) as [E|_]; [by destruct (Hne i ltac:(lia))|].
    pose proof (used_entries_length img pos i) as Hul.
    assert (Hext : length (extent img (pos + 32 * Z.of_nat i) 32) = 32%nat)
      by (apply length_extent; lia).
    destruct (Z.eqb_spec (first_byte img pos i) 0xE5) as [E|E]; apply wp_ret; exists n;
      (split; [lia|]); exists (S i); (split; [lia|]); (split; [done|]);
      rewrite used_entries_S; (split; [|split; [done|]]).
    + rewrite bool_decide_true, app_nil_r by done. done.
    + rewrite Hst2. do 3 f_equal. lia.
    + rewrite bool_decide_false by done. rewrite length_app. simpl length.
      rewrite s32_small by lia. lia.
    + rewrite Hst2. do 3 f_equal. lia.
Qed.

Lemma get_total_items_ok img p fp (s : St) sector m (Q : Z -> St -> Prop) :
  mounted img p fp s -> 0 <= sector ->
  sector * 512 + 32 * (Z.of_nat m + 1) <= Z.of_nat (length img) ->
  (forall i, (i < m)%nat -> first_byte img (sector * 512) i <> 0) ->
  first_byte img (sector * 512) m = 0 ->
  (forall s', moved img fp s s' ->
     Q (Z.of_nat (length (used_entries img (sector * 512) m))) s') ->
  wp (fat16_get_total_items_for_directory disk_addr sector) s Q.
Proof.
  intros Hm Hs Hlen Hne Hend HQ. pose proof (mt_size _ _ _ _ Hm) as Hsz.
  unfold fat16_get_total_items_for_directory, fat16_sector_to_absolute_pos.
  apply wp_bind. apply wp_bind, wp_load_disk. rewrite (mt_sector _ _ _ _ Hm). apply wp_ret.
  rewrite (s32_small sector), s32_small by lia.
  apply wp_bind, wp_load_disk. rewrite (mt_private _ _ _ _ Hm).
  apply wp_bind. eapply wp_load; [exact (mt_fp _ _ _ _ Hm)|]. apply wp_bind.
  eapply seek_ok; [exact Hm|unfold streams; set_solver|]. intros s1 Hmv1 Hm1 Hp1.
  destruct (Z.ltb_spec 0 0); [lia|].
  eapply count_loop_ok; [exact Hm1| | |exact Hne|exact Hend|exact Hp1|]; [lia|lia|].
  intros s' Hmv. apply HQ. by eapply moved_trans.
Qed.

(** ** Mounting *)

Lemma live_Some (s : St) L a o : live s L -> objs s !! a = Some o -> exists n, L !! a = Some n.
Proof. intros [_ Hd] Ha. apply elem_of_dom, Hd, elem_of_dom. eauto. Qed.

(** One of the three [fat_private->x_stream = get_disk_stream(disk->id)]: a new
    stream, and the private data updated by [upd]. *)
Lemma attach_stream_ok (s : St) L f p fp (upd : Z -> fat_private -> fat_private)
    (k : M St unit) (Q : unit -> St -> Prop) :
  live s L -> free_blocks s = S f -> d_id (the_disk s) = 0 ->
  objs s !! p = Some (to_obj fp) ->
  (forall c a, let s' := set_heap s a (<[p := to_obj (upd c fp)]>
         (<[c := to_obj (DiskStream 0 disk_addr)]> (objs s))) in
     live s' (<[c := 1%nat]> L) -> free_blocks s' = f -> L !! c = None -> 0 < c -> wp k s' Q) ->
  wp (d ← load_disk disk_addr;
      stream ← get_disk_stream (d_id d);
      x ← load p;
      _ ← store p (upd stream x); k) s Q.
Proof.
  intros Hl Hf Hid Hp HQ. apply wp_bind, wp_load_disk. rewrite Hid. apply wp_bind.
  eapply get_disk_stream_ok; [done|done|]. intros c a s1 Hl1 Hf1 HLc Hoc Hc.
  destruct (live_Some _ _ _ _ Hl Hp) as [n Hn].
  assert (Hp1 : objs s1 !! p = Some (to_obj fp)).
  { subst s1. simpl. rewrite lookup_insert_ne by congruence. done. }
  apply wp_bind. eapply wp_load; [exact Hp1|]. apply wp_bind. eapply wp_store; [exact Hp1|].
  apply (HQ c a); [|done|done|lia].
  eapply (live_store s1); [exact Hl1|by eexists].
Qed.

(** The private data after [fat16_init_private]. *)
Record streams_ready (s s' : St) (L : gmap Z nat) (p c1 c2 c3 : Z) : Prop := {
  sr_live : live s' (<[c3 := 1%nat]> (<[c2 := 1%nat]> (<[c1 := 1%nat]> L)));
  sr_fp : objs s' !! p = Some (to_obj (FatPrivate (header zero_private) zero_directory c1 c2 c3));
  sr_streams c : c ∈ [c1; c2; c3] -> objs s' !! c = Some (to_obj (DiskStream 0 disk_addr));
  sr_frame a : a ∉ [p; c1; c2; c3] -> objs s' !! a = objs s !! a;
  sr_fresh c : c ∈ [c1; c2; c3] -> L !! c = None;
  sr_distinct : c1 <> c2 /\ c1 <> c3 /\ c2 <> c3;
  sr_same : s' = set_heap s (k_alloc s') (objs s')
}.

Lemma init_private_ok (s : St) L f p (fp0 : fat_private) (Q : unit -> St -> Prop) :
  live s L -> free_blocks s = S (S (S f)) -> d_id (the_disk s) = 0 ->
  objs s !! p = Some (to_obj fp0) ->
  (forall s' c1 c2 c3, streams_ready s s' L p c1 c2 c3 -> free_blocks s' = f -> Q tt s') ->
  wp (fat16_init_private disk_addr p) s Q.
Proof.
  intros Hl Hf Hid Hp HQ. destruct (live_Some _ _ _ _ Hl Hp) as [n Hn].
  unfold fat16_init_private. apply wp_bind. eapply wp_load; [exact Hp|].
  apply wp_bind. eapply wp_store; [exact Hp|].
  apply (attach_stream_ok _ L (S (S f)) p zero_private (fun c x =>
    FatPrivate (header x) (root_directory x) c (fat_read_stream x) (directory_stream x)));
    [eapply live_store; [exact Hl|by eexists]|exact Hf|exact Hid|apply lookup_insert_eq|].
  intros c1 a1 s1 Hl1 Hf1 HL1 Hc1.
  apply (attach_stream_ok s1 (<[c1 := 1%nat]> L) (S f) p
    (FatPrivate (header zero_private) zero_directory c1 0 0) (fun c x =>
    FatPrivate (header x) (root_directory x) (cluster_read_stream x) c (directory_stream x)));
    [exact Hl1|exact Hf1|exact Hid|apply lookup_insert_eq|].
  intros c2 a2 s2 Hl2 Hf2 HL2 Hc2. apply lookup_insert_None in HL2 as [HL2 H12].
  apply wp_bind, wp_load_disk. change (d_id (the_disk s2)) with (d_id (the_disk s)). rewrite Hid.
  apply wp_bind. eapply get_disk_stream_ok; [exact Hl2|exact Hf2|].
  intros c3 a3 s3 Hl3 Hf3 HL3 Hoc3 Hc3.
  rewrite !lookup_insert_None in HL3. destruct HL3 as [[HL3 H13] H23].
  assert (Hp3 : objs s3 !! p = Some (to_obj (FatPrivate (header zero_private) zero_directory c1 c2 0))).
  { subst s3. simpl. rewrite lookup_insert_ne by congruence. subst s2. simpl. apply lookup_insert_eq. }
  apply wp_bind. eapply wp_load; [exact Hp3|]. eapply wp_store; [exact Hp3|].
  apply (HQ _ c1 c2 c3); [|exact Hf3].
  assert (p <> c1 /\ p <> c2 /\ p <> c3) as (Hp1 & Hp2 & Hp3') by (repeat split; congruence).
  split.
  - eapply live_store; [exact Hl3|by eexists].
  - apply lookup_insert_eq.
  - intros c Hc. subst s3 s2 s1. simpl. rewrite !elem_of_cons in Hc.
    destruct Hc as [->|[->|[->|Hc%not_elem_of_nil]]]; [| | |done];
      rewrite ?lookup_insert_ne by congruence; rewrite ?lookup_insert_eq;
      rewrite ?lookup_insert_ne by congruence; rewrite ?lookup_insert_eq; done.
  - intros a Ha. rewrite !not_elem_of_cons in Ha. subst s3 s2 s1. simpl.
    rewrite !lookup_insert_ne by (intros E; subst; tauto). done.
  - intros c Hc. rewrite !elem_of_cons in Hc.
    destruct Hc as [->|[->|[->|Hc%not_elem_of_nil]]]; done.
  - done.
  - done.
Qed.

(** The layout the header of a volume describes: its root directory has [m]
    entries before the terminating one, and its array fits a heap block. *)
Definition root_sector (h : list Z) : Z := fat_copies h * sectors_per_fat h + reserved_sectors h.
Definition root_size (h : list Z) : Z := root_dir_entries h * sizeof_fat_directory_entry.

Record root_layout (img h : list Z) (m : nat) : Prop := {
  rl_sector : 0 <= root_sector h;
  rl_size : 0 < root_size h <= HEAP_BLOCK_SIZE;
  rl_array : root_sector h * 512 + root_size h <= Z.of_nat (length img);
  rl_scan : root_sector h * 512 + 32 * (Z.of_nat m + 1) <= Z.of_nat (length img);
  rl_used i : (i < m)%nat -> first_byte img (root_sector h * 512) i <> 0;
  rl_end : first_byte img (root_sector h * 512) m = 0
}.

(** If the boot sector carries the FAT16 signature, the header describes a volume. *)
Definition mountable (img : list Z) (m : nat) : Prop :=
  let h := extent img 0 sizeof_fat_header in
  extended_boot_signature h = FAT16_SIGNATURE -> root_layout img h m.

(** The root directory structure the driver keeps. *)
Definition root_of (img h : list Z) (m : nat) (r : Z) : fat_directory :=
  FatDirectory r (Z.of_nat (length (used_entries img (root_sector h * 512) m)))
    (root_sector h) (root_sector h + root_size h / 512).

Definition with_root (fp : fat_private) (d : fat_directory) : fat_private :=
  FatPrivate (header fp) d (cluster_read_stream fp) (fat_read_stream fp) (directory_stream fp).

Record root_loaded (img : list Z) (s s' : St) (L : gmap Z nat) (p r : Z) (fp fp' : fat_private) : Prop := {
  rd_live : live s' (<[r := 1%nat]> L);
  rd_fresh : L !! r = None;
  rd_mounted : mounted img p fp' s';
  rd_entries : objs s' !! r =
    Some (to_obj (extent img (root_sector (header fp) * 512) (root_size (header fp))));
  rd_frame a : a ∉ p :: r :: streams fp -> objs s' !! a = objs s !! a;
  rd_same : s' = set_dev (set_heap s (k_alloc s') (objs s')) (dev s')
}.

(** The states along the way give the postcondition. *)
Lemma root_loaded_intro img (s s1 s3 s4 : St) L p fp h m r a (zeros : list Z) :
  h = header fp -> mounted img p fp s -> moved img fp s s1 -> live s1 L -> L !! r = None -> p <> r ->
  r ∉ streams fp ->
  live (set_heap s1 a (<[r := to_obj zeros]> (objs s1))) (<[r := 1%nat]> L) ->
  moved img fp (set_heap s1 a (<[r := to_obj zeros]> (objs s1))) s3 -> moved img fp s3 s4 ->
  mounted img p fp s4 ->
  root_loaded img s
    (set_heap (set_heap s4 (k_alloc s4)
       (<[r := to_obj (extent img (root_sector h * 512) (root_size h))]> (objs s4))) (k_alloc s4)
       (<[p := to_obj (with_root fp (root_of img h m r))]>
          (<[r := to_obj (extent img (root_sector h * 512) (root_size h))]> (objs s4))))
    L p r fp (with_root fp (root_of img h m r)).
Proof.
  intros -> Hm Hmv1 Hl1 HLr Hpr Hrs Hl2 Hmv3 Hmv4 Hm4.
  pose proof (mounted_private _ _ _ _ Hm) as Hps.
  pose proof (moved_trans _ _ _ _ _ Hmv3 Hmv4) as Hmv34.
  destruct Hm4 as [M1 M2 M3 M4 M5 M6 M7]. split.
  - eapply live_dom; [exact Hl2| |].
    + simpl. rewrite (mv_same _ _ _ _ Hmv34). done.
    + simpl. rewrite !dom_insert.
      assert (Hd : dom (objs s4) ⊆ {[r]} ∪ dom (objs s1)).
      { intros x Hx. apply elem_of_dom in Hx as [o Ho]. apply elem_of_union.
        destruct (decide (x = r)) as [->|Hxr]; [left; set_solver|right]. apply elem_of_dom.
        destruct (decide (x ∈ streams fp)) as [Hin|Hin].
        - destruct (mv_streams _ _ _ _ Hmv1 _ Hin) as [q Hq]. eauto.
        - rewrite (mv_frame _ _ _ _ Hmv34) in Ho by done. simpl in Ho.
          rewrite lookup_insert_ne in Ho by done. eauto. }
      assert (p ∈ dom (objs s4)) by (apply elem_of_dom; eauto). set_solver.
  - done.
  - split; simpl; try done.
    + apply lookup_insert_eq.
    + intros x Hx. rewrite !lookup_insert_ne by (intros ->; done). by apply M4.
  - simpl. rewrite lookup_insert_ne by done. apply lookup_insert_eq.
  - intros x Hx. rewrite !not_elem_of_cons in Hx. destruct Hx as (Hxp & Hxr & Hxs). simpl.
    rewrite !lookup_insert_ne by done. rewrite (mv_frame _ _ _ _ Hmv34) by done. simpl.
    rewrite lookup_insert_ne by done. by rewrite (mv_frame _ _ _ _ Hmv1).
  - rewrite (mv_same _ _ _ _ Hmv34), (mv_same _ _ _ _ Hmv1). done.
Qed.

Lemma get_root_directory_ok img p fp (s : St) L f m (Q : Z -> St -> Prop) :
  mounted img p fp s -> root_layout img (header fp) m -> live s L -> free_blocks s = S f ->
  (forall r s', root_loaded img s s' L p r fp (with_root fp (root_of img (header fp) m r)) ->
     free_blocks s' = f -> Q 0 s') ->
  wp (fat16_get_root_directory disk_addr p) s Q.
Proof.
  intros Hm [R1 R2 R3 R4 R5 R6] Hl Hf HQ. pose proof (mt_size _ _ _ _ Hm) as Hsz.
  unfold fat16_get_root_directory. apply wp_bind. eapply wp_load; [exact (mt_fp _ _ _ _ Hm)|].
  apply wp_bind, wp_load_disk. fold (root_sector (header fp)). fold (root_size (header fp)).
  rewrite (mt_sector _ _ _ _ Hm). change (512 =? 0) with false. cbv iota. apply wp_bind, wp_ret.
  set (h := header fp) in *. apply wp_bind.
  eapply get_total_items_ok; [exact Hm|exact R1|exact R4|exact R5|exact R6|]. intros s1 Hmv1.
  pose proof (moved_mounted _ _ _ _ _ Hm Hmv1) as Hm1.
  pose proof (moved_live _ _ _ _ _ _ Hm Hmv1 Hl) as Hl1.
  apply wp_bind. eapply (wp_zalloc _ _ s1 L f); [exact Hl1|exact R2|by rewrite (moved_free _ _ _ _ Hmv1)|].
  intros r a s2 Hl2 Hf2 HLr Hor Hr. destruct (Z.eqb_spec r 0) as [|_]; [lia|].
  assert (Hm2 : mounted img p fp s2) by (by eapply mounted_insert).
  apply wp_bind. eapply wp_load; [exact (mt_fp _ _ _ _ Hm2)|].
  apply wp_bind. unfold fat16_sector_to_absolute_pos. apply wp_bind, wp_load_disk.
  rewrite (mt_sector _ _ _ _ Hm2). apply wp_ret. rewrite s32_small by lia.
  apply wp_bind. eapply seek_ok; [exact Hm2|unfold streams; set_solver|]. intros s3 Hmv3 Hm3 Hp3.
  destruct (Z.ltb_spec 0 0); [lia|].
  assert (Hrs : r ∉ streams fp).
  { eapply not_stream; [exact Hm2|apply lookup_insert_eq|done]. }
  assert (Hr3 : objs s3 !! r = Some (to_obj (replicate (Z.to_nat (root_size h)) 0))).
  { rewrite (mv_frame _ _ _ _ Hmv3) by done. apply lookup_insert_eq. }
  apply wp_bind. eapply wp_load; [exact Hr3|]. apply wp_bind.
  eapply read_ok; [exact Hm3|unfold streams; set_solver|exact Hp3|lia|lia|lia|rewrite length_replicate; lia|].
  intros s4 Hmv4 Hm4 _. cbv iota beta. rewrite extent_drop_all.
  assert (Hr4 : objs s4 !! r = Some (to_obj (replicate (Z.to_nat (root_size h)) 0))).
  { by rewrite (mv_frame _ _ _ _ Hmv4). }
  apply wp_bind. eapply wp_store; [exact Hr4|]. destruct (Z.ltb_spec 0 0); [lia|].
  assert (Hpr : p <> r).
  { intros ->. pose proof (mt_fp _ _ _ _ Hm4) as E. rewrite Hr4 in E. done. }
  apply wp_bind. eapply (wp_load _ fp).
  { simpl. rewrite lookup_insert_ne by done. exact (mt_fp _ _ _ _ Hm4). }
  apply wp_bind. eapply (wp_store _ fp).
  { simpl. rewrite lookup_insert_ne by done. exact (mt_fp _ _ _ _ Hm4). }
  apply wp_ret. rewrite Z.quot_div_nonneg by lia.
  fold h. apply (HQ r).
  { eapply (root_loaded_intro img s s1 s3 s4 L p fp h m r a); try done. }
  change (free_blocks s4 = f). by rewrite (moved_free _ _ _ _ Hmv4), (moved_free _ _ _ _ Hmv3).
Qed.

Definition with_header (fp : fat_private) (h : list Z) : fat_private :=
  FatPrivate h (root_directory fp) (cluster_read_stream fp) (fat_read_stream fp) (directory_stream fp).

(** The state after the header is read through the stream [t]. *)
Lemma mounted_header img p fp (s : St) t q h d' :
  mounted img p fp s -> t ∉ streams fp -> t <> p -> drive_ok img d' ->
  mounted img p (with_header fp h)
    (set_heap (set_dev (set_stream s t q) d') (k_alloc s)
       (<[p := to_obj (with_header fp h)]> (objs (set_stream s t q)))).
Proof.
  intros Hm Ht Htp Hd. pose proof (mounted_private _ _ _ _ Hm) as Hps.
  destruct Hm as [M1 M2 M3 M4 M5 M6 M7]. split; simpl; try done; [apply lookup_insert_eq|].
  intros a Ha. change (streams (with_header fp h)) with (streams fp) in Ha.
  rewrite !lookup_insert_ne by (intros ->; done). by apply M4.
Qed.

(** The global tables of the file layer. *)
Definition tables (s : St) : list Z * list Z := (filesystems s, file_descriptors s).

(** [fat16_resolve] from the header on: the volume is mounted, or refused for its
    signature, with the private data [fp'] and the stream [t] in place. *)
Record resolved (img : list Z) (s s' : St) (L : gmap Z nat) (p t : Z) (fp : fat_private)
    (m : nat) (rc : Z) : Prop := {
  rv_case : let h := extent img 0 sizeof_fat_header in
    if bool_decide (extended_boot_signature h = FAT16_SIGNATURE)
    then exists r, rc = 0 /\ L !! r = None /\ live s' (<[r := 1%nat]> L) /\
           mounted img p (with_root (with_header fp h) (root_of img h m r)) s' /\
           objs s' !! r = Some (to_obj (extent img (root_sector h * 512) (root_size h))) /\
           the_disk s' = Disk (d_type (the_disk s)) (d_id (the_disk s)) (d_sector_size (the_disk s))
                           fat16_fs (d_fs_private (the_disk s)) /\
           free_blocks s = S (free_blocks s') /\
           (forall a, a ∉ p :: t :: r :: streams fp -> objs s' !! a = objs s !! a)
    else rc = - EFSNOTUS /\ live s' L /\ free_blocks s' = free_blocks s /\
         the_disk s' = the_disk s /\
         (forall a, a ∉ p :: t :: streams fp -> objs s' !! a = objs s !! a);
  rv_tables : tables s' = tables s;
  rv_stream : objs s' !! t = Some (to_obj (DiskStream 62 disk_addr));
  rv_drive : drive_ok img (dev s')
}.

Lemma resolve_body_ok img p t fp (s : St) L f m (Q : Z -> St -> Prop) :
  mounted img p fp s -> objs s !! t = Some (to_obj (DiskStream 0 disk_addr)) -> t ∉ streams fp ->
  0 < t -> length (header fp) = 62%nat -> 512 <= Z.of_nat (length img) ->
  mountable img m ->
  live s L -> free_blocks s = S f ->
  (forall rc s', resolved img s s' L p t fp m rc -> Q rc s') ->
  wp (fat16_resolve_body disk_addr p t) s Q.
Proof.
  intros Hm Ht Hts Ht0 Hh Himg Hrl Hl Hf HQ. unfold fat16_resolve_body.
  destruct (Z.eqb_spec t 0) as [|_]; [lia|].
  apply wp_bind. eapply wp_load; [exact (mt_fp _ _ _ _ Hm)|].
  assert (Htp : t <> p).
  { intros ->. pose proof (mt_fp _ _ _ _ Hm) as E. rewrite Ht in E. done. }
  apply wp_bind. eapply wp_mono.
  { apply (disk_stream_read_ok img s t 0); try apply Hm; try done; unfold sizeof_fat_header; lia. }
  intros rh s1 (-> & d1 & Hd1 & ->). cbv iota beta.
  rewrite drop_ge, app_nil_r by (rewrite Hh; done). change (0 + sizeof_fat_header) with 62.
  set (h := extent img 0 sizeof_fat_header) in *.
  assert (Hp1 : objs (set_dev (set_stream s t 62) d1) !! p = Some (to_obj fp)).
  { simpl. rewrite lookup_insert_ne by done. exact (mt_fp _ _ _ _ Hm). }
  apply wp_bind. eapply wp_load; [exact Hp1|]. apply wp_bind. eapply wp_store; [exact Hp1|].
  destruct (Z.ltb_spec 0 0); [lia|].
  apply wp_bind. eapply wp_load; [apply lookup_insert_eq|]. cbn [header].
  pose proof (mounted_header img p fp s t 62 h d1 Hm Hts Htp Hd1) as Hm2.
  change (FatPrivate h _ _ _ _) with (with_header fp h).
  set (s2 := set_heap _ _ _) in *.
  assert (Hl2 : live s2 L).
  { eapply live_dom; [exact Hl|done|]. simpl. rewrite !dom_insert.
    apply elem_of_dom_2 in Ht. pose proof (elem_of_dom_2 _ _ _ (mt_fp _ _ _ _ Hm)) as Hp.
    revert Ht Hp. clear. set_solver. }
  assert (Ht2 : objs s2 !! t = Some (to_obj (DiskStream 62 disk_addr))).
  { simpl. rewrite lookup_insert_ne by done. apply lookup_insert_eq. }
  assert (Hfr2 : forall a, a <> p -> a <> t -> objs s2 !! a = objs s !! a).
  { intros a Hap Hat. simpl. by rewrite !lookup_insert_ne by done. }
  destruct (Z.eqb_spec (extended_boot_signature h) FAT16_SIGNATURE) as [Esig|Esig]; cbn [negb].
  - apply wp_bind. eapply (get_root_directory_ok img p (with_header fp h) s2 L f m);
      [exact Hm2|exact (Hrl Esig)|exact Hl2|exact Hf|].
    intros r s3 [RD1 RD2 RD3 RD4 RD5 RD6] Hf3. destruct (Z.ltb_spec 0 0); [lia|].
    apply wp_bind. unfold wp at 1. simpl. apply wp_ret. apply HQ.
    assert (Hrt : r <> t) by (intros ->; destruct (live_Some _ _ _ _ Hl2 Ht2); congruence).
    assert (Hdisk : the_disk s3 = the_disk s) by (rewrite RD6; done).
    split; simpl.
    + fold h. rewrite bool_decide_true by done. exists r. split; [done|]. split; [done|].
      split; [exact RD1|]. split; [by destruct RD3; split|]. split; [exact RD4|].
      split; [by rewrite Hdisk|]. split; [change (free_blocks s = S (free_blocks s3)); lia|].
      intros a Ha. rewrite !not_elem_of_cons in Ha. rewrite RD5; [apply Hfr2; tauto|].
      rewrite !not_elem_of_cons. tauto.
    + rewrite RD6. done.
    + rewrite RD5; [exact Ht2|]. rewrite !not_elem_of_cons. split; [done|]. split; [congruence|done].
    + apply RD3.
  - apply wp_ret. apply HQ. split.
    + cbv zeta. fold h. rewrite bool_decide_false by done. split; [done|]. split; [exact Hl2|].
      split; [done|]. split; [done|]. intros a Ha. rewrite !not_elem_of_cons in Ha. apply Hfr2; tauto.
    + done.
    + exact Ht2.
    + apply Hm2.
Qed.

(** ** Theorems *)

(** The state [fat16_resolve] starts from: the kernel's disk, unmounted. *)
Record unmounted (img : list Z) (s : St) : Prop := {
  um_id : d_id (the_disk s) = 0;
  um_sector : d_sector_size (the_disk s) = 512;
  um_drive : drive_ok img (dev s);
  um_size : 512 <= Z.of_nat (length img) < 2147483648;
  um_sectors : Z.of_nat (length img) mod 512 = 0
}.

(** The three streams are distinct. *)
Lemma streams_nodup (s s' : St) L p c1 c2 c3 :
  streams_ready s s' L p c1 c2 c3 -> (forall c, c ∈ [c1; c2; c3] -> c <> p) ->
  NoDup [c1; c2; c3; p].
Proof.
  intros Hs Hp. pose proof (sr_distinct _ _ _ _ _ _ _ Hs) as (H12 & H13 & H23).
  assert (c1 <> p /\ c2 <> p /\ c3 <> p) as (? & ? & ?) by (repeat split; apply Hp; clear; set_solver).
  repeat constructor; rewrite ?not_elem_of_cons; try apply not_elem_of_nil; repeat split; try done;
    apply not_elem_of_nil.
Qed.

(** What [fat16_resolve] is to establish. *)
Definition resolve_post (img : list Z) (s : St) (L : gmap Z nat) (m f : nat) (rc : Z) (s' : St) : Prop :=
  let h := extent img 0 sizeof_fat_header in
  (forall a n, L !! a = Some n -> objs s' !! a = objs s !! a) /\ drive_ok img (dev s') /\ tables s' = tables s /\
  if bool_decide (extended_boot_signature h = FAT16_SIGNATURE)
  then rc = 0 /\ d_filesystem (the_disk s') = fat16_fs /\ free_blocks s' = S f /\
    exists p r fp L', mounted img p fp s' /\ header fp = h /\ root_directory fp = root_of img h m r /\
      objs s' !! r = Some (to_obj (extent img (root_sector h * 512) (root_size h))) /\
      live s' L' /\ L ⊆ L'
  else rc = - EFSNOTUS /\ d_fs_private (the_disk s') = 0 /\ free_blocks s' = S (S (S f)).

(** The end of [fat16_resolve]: the stream is closed and, on an error, the private
    data freed. *)
Lemma resolve_end_ok img (s s4 s5 : St) L p t c1 c2 c3 m f rc :
  let X := <[c3 := 1%nat]> (<[c2 := 1%nat]> (<[c1 := 1%nat]> (<[p := 1%nat]> L))) in
  resolved img s4 s5 (<[t := 1%nat]> X) p t (FatPrivate (header zero_private) zero_directory c1 c2 c3) m rc ->
  X !! t = None -> NoDup [c1; c2; c3; p] -> (forall c, c ∈ [c1; c2; c3; p] -> L !! c = None) ->
  0 < t -> free_blocks s4 = S f -> tables s4 = tables s ->
  (forall a n, L !! a = Some n -> objs s4 !! a = objs s !! a) ->
  wp (_ ← (if negb (t =? 0) then disk_stream_close t else mret tt);
      _ ← (if rc <? 0 then _ ← free p; set_fs_private disk_addr 0 else mret tt);
      mret rc) s5 (resolve_post img s L m f).
Proof.
  intros X [RV1 RVt RV2 RV3] HXt Hnd HL Ht Hf4 Ht4 Hfr4. unfold resolve_post. rewrite Ht4 in RVt.
  set (h := extent img 0 sizeof_fat_header) in *. cbv zeta in RV1.
  assert (HLt : L !! t = None).
  { unfold X in HXt. rewrite !lookup_insert_None in HXt. tauto. }
  assert (Hnin : forall a n, L !! a = Some n -> a ∉ [p; t; c1; c2; c3]).
  { intros a n Ha Hin. rewrite !elem_of_cons in Hin.
    assert (L !! a = None); [|congruence].
    destruct Hin as [->|[->|[->|[->|[->|Hin%not_elem_of_nil]]]]]; try done; apply HL; set_solver. }
  destruct (Z.eqb_spec t 0) as [|_]; [lia|]. cbn [negb]. unfold disk_stream_close.
  case_bool_decide as Esig.
  - destruct RV1 as (r & -> & HLr & Hl5 & Hm5 & Hr5 & Hdisk & Hf5 & Hfr5).
    apply lookup_insert_None in HLr as [HXr Htr].
    apply wp_bind. eapply (wp_free t 1%nat); [exact Hl5|by rewrite lookup_insert_ne, lookup_insert_eq|].
    intros a s6 Hl6 Hf6. rewrite delete_insert_ne, delete_insert_id in Hl6 by done.
    destruct (Z.ltb_spec 0 0); [lia|]. apply wp_bind, wp_ret, wp_ret.
    assert (HXL : L ⊆ <[r := 1%nat]> X).
    { etrans; [|by apply insert_subseteq]. unfold X. clear - Hnd HL.
      apply map_subseteq_spec. intros i n Hi.
      assert (forall c, c ∈ [c1; c2; c3; p] -> c <> i) by (intros c Hc ->; specialize (HL _ Hc); congruence).
      rewrite !lookup_insert_ne by (apply H; set_solver). done. }
    split; [|split; [exact RV3|split; [exact RVt|]]].
    + intros b n Hb. subst s6. simpl. rewrite lookup_delete_ne by congruence.
      assert (X !! b = Some n) as HXb.
      { specialize (Hnin b n Hb). rewrite !not_elem_of_cons in Hnin. unfold X.
        rewrite !lookup_insert_ne by intuition congruence. done. }
      rewrite Hfr5; [by eapply Hfr4|]. specialize (Hnin b n Hb).
      unfold streams. cbn [cluster_read_stream fat_read_stream directory_stream].
      rewrite !not_elem_of_cons in Hnin. rewrite !not_elem_of_cons.
      assert (b <> r) by congruence. tauto.
    + split; [done|]. split; [subst s6; simpl; by rewrite Hdisk|].
      split; [unfold free_blocks in *; simpl in *; lia|].
      exists p, r. do 2 eexists. split.
      { assert (Hts : t ∉ streams (FatPrivate (header zero_private) zero_directory c1 c2 c3)).
        { unfold X in HXt. rewrite !lookup_insert_None in HXt. clear - HXt.
          unfold streams. simpl. set_solver. }
        assert (Htp : t <> p) by (unfold X in HXt; rewrite !lookup_insert_None in HXt; intuition congruence).
        destruct Hm5 as [M1 M2 M3 M4 M5 M6 M7]. subst s6. split; simpl; try done.
        - rewrite lookup_delete_ne by done. exact M3.
        - intros x Hx. destruct (M4 x Hx) as [q Hq]. exists q. rewrite lookup_delete_ne; [done|].
          intros ->. done. }
      split; [done|]. split; [done|]. split; [subst s6; simpl; rewrite lookup_delete_ne by done; exact Hr5|].
      split; [exact Hl6|exact HXL].
  - destruct RV1 as (-> & Hl5 & Hf5 & Hdisk & Hfr5).
    apply wp_bind. eapply (wp_free t 1%nat); [exact Hl5|apply lookup_insert_eq|].
    intros a s6 Hl6 Hf6. rewrite delete_insert_id in Hl6 by done.
    change (- EFSNOTUS <? 0) with true. cbv iota. apply wp_bind. apply wp_bind.
    assert (HXp : X !! p = Some 1%nat).
    { unfold X. inversion_clear Hnd as [|?? N1 Nd]. inversion_clear Nd as [|?? N2 Nd'].
      inversion_clear Nd' as [|?? N3 _].
      assert (c1 <> p /\ c2 <> p /\ c3 <> p) as (? & ? & ?) by (clear - N1 N2 N3; set_solver).
      rewrite !lookup_insert_ne by done. apply lookup_insert_eq. }
    eapply (wp_free p 1%nat); [exact Hl6|exact HXp|]. intros a7 s7 Hl7 Hf7.
    unfold wp at 1. simpl. apply wp_ret. split; [|split; [exact RV3|split; [exact RVt|]]].
    + intros b n Hb. specialize (Hnin b n Hb). rewrite !not_elem_of_cons in Hnin.
      subst s7 s6. simpl. rewrite !lookup_delete_ne by intuition congruence.
      rewrite Hfr5; [by eapply Hfr4|].
      unfold streams. cbn [cluster_read_stream fat_read_stream directory_stream].
      rewrite !not_elem_of_cons. tauto.
    + split; [done|]. split; [done|]. unfold free_blocks in *. simpl in *. lia.
Qed.

Lemma fat16_resolve_ok img s L m f :
  unmounted img s -> live s L -> free_blocks s = (6 + f)%nat ->
  mountable img m ->
  wp (fat16_resolve disk_addr) s (resolve_post img s L m f).
Proof.
  intros Hu Hl Hf Hrl. unfold fat16_resolve. pose proof Hu as [U1 U2 U3 U4 U5].
  apply wp_bind. eapply (wp_zalloc _ _ s L (5 + f)); [exact Hl|
    unfold sizeof_fat_private, HEAP_BLOCK_SIZE; lia|exact Hf|].
  intros p a1 s1 Hl1 Hf1 HLp Hop Hp. apply wp_bind.
  eapply (init_private_ok s1 _ (2 + f) p zero_private); [exact Hl1|exact Hf1|exact U1|apply lookup_insert_eq|].
  intros s2 c1 c2 c3 Hsr Hf2. apply wp_bind. unfold wp at 1. simpl.
  pose proof Hsr as [S1 S2 S3 S4 S5 _ S6].
  assert (Hd2 : the_disk s2 = the_disk s) by (rewrite S6; done).
  assert (Hv2 : dev s2 = dev s) by (rewrite S6; done).
  set (s3 := set_disk s2 _).
  assert (Hm3 : mounted img p (FatPrivate (header zero_private) zero_directory c1 c2 c3) s3).
  { split; simpl; rewrite ?Hd2, ?Hv2; try done; [|lia]. intros b Hb. exists 0. by apply S3. }
  apply wp_bind, wp_load_disk. simpl. rewrite Hd2, U1. apply wp_bind.
  eapply (get_disk_stream_ok s3 _ (S f)); [exact S1|exact Hf2|].
  intros t a4 s4 Hl4 Hf4 HXt Hot Ht. apply wp_bind.
  assert (Hts : t ∉ streams (FatPrivate (header zero_private) zero_directory c1 c2 c3)).
  { rewrite !lookup_insert_None in HXt. clear - HXt. unfold streams. simpl. set_solver. }
  eapply (resolve_body_ok img p t _ s4 _ f m); [|apply lookup_insert_eq|exact Hts|lia|done|lia|exact Hrl|
    exact Hl4|exact Hf4|].
  { eapply mounted_insert; [exact Hm3|exact S1|exact HXt]. }
  intros rc s5 Hres.
  assert (HLc : forall c, c ∈ [c1; c2; c3] -> L !! c = None /\ c <> p).
  { intros c Hc. specialize (S5 c Hc). rewrite lookup_insert_None in S5. intuition congruence. }
  eapply (resolve_end_ok img s s4 s5 L p t c1 c2 c3 m f rc Hres);
    [exact HXt|eapply streams_nodup; [exact Hsr|intros c Hc; by apply HLc]| |lia|exact Hf4|subst s4 s3; rewrite S6; done|].
  - intros c Hc. rewrite !elem_of_cons in Hc. destruct Hc as [->|[->|[->|[->|Hc%not_elem_of_nil]]]];
      [| | |done|done]; apply HLc; set_solver.
  - intros b n Hb. subst s4 s3. simpl.
    assert (forall c, c ∈ [c1; c2; c3] -> c <> b) as Hcb
      by (intros c Hc ->; destruct (HLc _ Hc); congruence).
    rewrite lookup_insert_ne, S4; [subst s1; simpl; rewrite lookup_insert_ne by congruence; done| |].
    + rewrite !not_elem_of_cons. repeat split; try congruence; try (intros ->; by eapply Hcb; [|reflexivity]; set_solver).
      apply not_elem_of_nil.
    + rewrite !lookup_insert_None in HXt. intuition congruence.
Qed.

(** C24 (functional).  Mounting: on a disk whose boot sector carries the FAT16
    signature and describes a root directory that fits the disk and one heap block,
    [fat16_resolve] returns 0, binds the driver to the disk and leaves
    private data that describes the volume: the header bytes of sector 0, the root
    directory's array, its number of used entries and the end of its region.  On
    any disk without the signature, whatever else it holds, it returns [-EFSNOTUS],
    drops the private data and keeps three heap blocks, the streams of the private
    data, allocated.  Nothing that was live before changes. *)
Theorem fat16_resolve_spec img s L m f :
  unmounted img s -> live s L -> free_blocks s = (6 + f)%nat ->
  mountable img m ->
  wp (fat16_resolve disk_addr) s (resolve_post img s L m f).
Proof. apply fat16_resolve_ok. Qed.

(** C25 (functional).  Reading [n] bytes at [offset] from a cluster chain, on
    every branch.  A read of at most a cluster that starts in the first cluster
    returns 0 with the [n] bytes of the medium from that position: the file's if it
    stays inside the cluster, and the bytes that happen to lie behind the cluster if
    it straddles its end, since the next cluster of the chain is not looked for.  A
    read that starts beyond the first cluster returns [-EIO] and writes nothing; a
    read longer than a cluster delivers one cluster's worth of bytes and then returns
    [-EIO], since the table entry of the next cluster is overwritten by the result
    code of the read.  In each case only the volume's streams and the drive move. *)
Theorem fat16_read_internal_spec img p fp (s : St) cluster offset n out :
  mounted img p fp s -> cluster_ok img fp cluster -> 0 <= offset -> 0 < n ->
  n <= Z.of_nat (length out) ->
  (offset < cluster_size fp ->
     cluster_pos fp cluster + offset + Z.min n (cluster_size fp) <= Z.of_nat (length img)) ->
  wp (fat16_read_internal disk_addr cluster offset n out) s (fun r s' =>
    r = chain_read img fp cluster offset n out /\ moved img fp s s' /\ mounted img p fp s').
Proof.
  intros Hm Hc Ho Hn Hout Hr. eapply fat16_read_internal_ok; [done..|].
  intros s' Hmv. split; [done|]. split; [done|]. by eapply moved_mounted.
Qed.

(** C36 (termination).  Counting a directory terminates at its first entry that
    starts with a null byte and returns the number of entries before it that are
    not marked free (0xE5). *)
Theorem fat16_total_items_spec img p fp (s : St) sector m :
  mounted img p fp s -> 0 <= sector ->
  sector * 512 + 32 * (Z.of_nat m + 1) <= Z.of_nat (length img) ->
  (forall i, (i < m)%nat -> first_byte img (sector * 512) i <> 0) ->
  first_byte img (sector * 512) m = 0 ->
  wp (fat16_get_total_items_for_directory disk_addr sector) s (fun n s' =>
    n = Z.of_nat (length (used_entries img (sector * 512) m)) /\ moved img fp s s').
Proof. intros. eapply get_total_items_ok; [done..|]. done. Qed.

End Files.

(** C32 (functional).  The name of a directory entry in the packed 8.3 format:
    a base name of at most seven characters and an extension of at most three,
    space-padded, come back joined by a dot (no dot without an extension) and
    null-terminated; with a three-character extension this needs the attribute
    byte behind it to be 0 or the archive bit. *)
Lemma fat16_get_filename_padded base ext attr tail :
  Forall name_char base -> Forall name_char ext ->
  (length base <= 7)%nat -> (length ext <= 3)%nat ->
  (length ext = 3%nat -> attr = 0 \/ attr = 32) ->
  fat16_get_filename
    (base ++ replicate (8 - length base) 32 ++ ext ++ replicate (3 - length ext) 32 ++ attr :: tail)
    (replicate (Z.to_nat MAX_FILE_PATH_CHARS) 0) MAX_FILE_PATH_CHARS =
    Ok (fill (display base ext)).
Proof.
  intros Hb He Hlb Hle Hattr. apply get_filename_ok. split; [done|done| | |lia].
  - replace (8 - length base)%nat with (S (7 - length base)) by lia.
    eexists 32, _. split; [reflexivity|by right].
  - rewrite app_assoc, drop_app_length' by (rewrite length_app, length_replicate; lia).
    destruct (decide (length ext = 3%nat)) as [E|E].
    + rewrite E. simpl. eexists attr, _. split; [reflexivity|by apply Hattr].
    + replace (3 - length ext)%nat with (S (2 - length ext)) by lia.
      eexists 32, _. split; [reflexivity|by right].
Qed.

Lemma fat16_get_filename_padded_witness :
  fat16_get_filename ([72; 73; 32; 32; 32; 32; 32; 32; 84; 88; 84; 32] ++ replicate 20 0)
    (replicate (Z.to_nat MAX_FILE_PATH_CHARS) 0) MAX_FILE_PATH_CHARS =
    Ok (fill [72; 73; 46; 84; 88; 84]).
Proof.
  apply (fat16_get_filename_padded [72; 73] [84; 88; 84] 32 (replicate 20 0));
    [repeat constructor; lia|repeat constructor; lia|simpl; lia|simpl; lia|by right].
Defined.

(** A base name of eight characters runs into the extension: the entry of
    "AUTOEXEC.BAT" is listed as "AUTOEXECBAT.BAT". *)
Example fat16_get_filename_eight :
  fat16_get_filename
    ([65; 85; 84; 79; 69; 88; 69; 67; 66; 65; 84; 32] ++ replicate 20 0)
    (replicate (Z.to_nat MAX_FILE_PATH_CHARS) 0) MAX_FILE_PATH_CHARS =
    Ok (fill (display [65; 85; 84; 79; 69; 88; 69; 67; 66; 65; 84] [66; 65; 84])).
Proof. vm_compute. reflexivity. Qed.

End Fat16Proofs.

(** ** A sample volume

    Five sectors: the boot sector, one FAT sector, a root directory with the file
    HELLO.TXT, its data cluster and a spare sector. *)
Module SampleVolume.
Import KernelHeap SimAta.

Definition sector (l : list Z) : list Z := l ++ replicate (512 - length l) 0.
Definition boot_sector : list Z :=
  sector (replicate 11 0 ++ [0; 2; 1; 1; 0; 1; 16; 0; 0; 0; 0; 1; 0] ++ replicate 14 0 ++ [0x29]).
Definition hello_entry : list Z :=
  [72; 69; 76; 76; 79; 32; 32; 32; 84; 88; 84; 32] ++ replicate 14 0 ++ [2; 0; 12; 0; 0; 0].
Definition hello_text : list Z := [72; 101; 108; 108; 111; 32; 87; 111; 114; 108; 100; 10].
Definition volume : list Z :=
  boot_sector ++ sector [] ++ sector hello_entry ++ sector hello_text ++ sector [].

Definition heap32 : Heap.heap_desc := Heap.HeapDesc (Heap.HeapTable (replicate 32 0) 32) 0x1000000.

Lemma heap32_reach : Heap.heap_reach heap32 ∅.
Proof.
  apply (Heap.reach_create heap32 0x1000000 0x1020000 (Heap.HeapTable (replicate 32 9) 32));
    try done; simpl; lia.
Qed.

(** The state before mounting. *)
Definition volume_state : kst kmem ata :=
  KSt (KMem heap32 ∅) ∅ (Ata volume 0 0 0 0 0 [] false) (Disk REAL 0 512 0 0)
    (replicate 12 0) (replicate 512 0).

Lemma volume_live : live volume_state ∅.
Proof.
  split; [|done]. exists ∅. split; [apply Heap.heap_reach_rep, heap32_reach|].
  split; [symmetry; apply kmap_empty|vm_compute; congruence].
Qed.

Lemma volume_drive : drive_ok volume (dev volume_state).
Proof. split; [reflexivity|vm_compute; reflexivity]. Qed.

Lemma volume_unmounted : Fat16Proofs.unmounted volume volume_state.
Proof.
  split; [reflexivity|reflexivity|exact volume_drive|vm_compute; split; congruence|reflexivity].
Qed.

Lemma volume_layout : Fat16Proofs.root_layout volume (extent volume 0 sizeof_fat_header) 1.
Proof.
  split; try (vm_compute; congruence).
  - vm_compute. split; congruence.
  - intros [|i] Hi; [vm_compute; congruence|lia].
Qed.

Lemma fat16_resolve_spec_witness : exists s',
  fat16_resolve disk_addr volume_state = Ok (0, s') /\ d_filesystem (the_disk s') = fat16_fs.
Proof.
  pose proof (Fat16Proofs.fat16_resolve_spec volume volume_state ∅ 1 26 volume_unmounted volume_live
    ltac:(reflexivity) (fun _ => volume_layout)) as Hw.
  apply wp_run in Hw as (rc & s' & Hr & _ & _ & _ & Hp). rewrite bool_decide_true in Hp by reflexivity.
  destruct Hp as (-> & Hfs & _). exists s'. split; [exact Hr|exact Hfs].
Defined.

(** A mounted volume. *)
Definition volume_fp : fat_private :=
  FatPrivate (extent volume 0 sizeof_fat_header) (FatDirectory 5 1 2 3) 1 2 3.
Definition mounted_state : kst kmem ata :=
  KSt (KMem heap32 ∅)
    {[ 1 := to_obj (DiskStream 0 disk_addr); 2 := to_obj (DiskStream 0 disk_addr);
       3 := to_obj (DiskStream 0 disk_addr); 4 := to_obj volume_fp;
       5 := to_obj (extent volume 1024 512) ]}
    (Ata volume 0 0 0 0 0 [] false) (Disk REAL 0 512 fat16_fs 4) (replicate 12 0) (replicate 512 0).

Lemma volume_mounted : Fat16Proofs.mounted volume 4 volume_fp mounted_state.
Proof.
  split; [reflexivity|reflexivity|reflexivity| |exact volume_drive|vm_compute; reflexivity|reflexivity].
  intros a Ha. exists 0. unfold Fat16Proofs.streams in Ha. rewrite !elem_of_cons in Ha.
  destruct Ha as [->|[->|[->|Ha%not_elem_of_nil]]]; [reflexivity..|done].
Qed.

Lemma volume_cluster : Fat16Proofs.cluster_ok volume volume_fp 2.
Proof. split; vm_compute; repeat split; congruence. Qed.

Lemma fat16_read_internal_spec_witness : exists s',
  fat16_read_internal disk_addr 2 6 5 (replicate 5 0) mounted_state =
    Ok ((0, [87; 111; 114; 108; 100]), s') /\ Fat16Proofs.moved volume volume_fp mounted_state s'.
Proof.
  pose proof (Fat16Proofs.fat16_read_internal_spec volume 4 volume_fp mounted_state 2 6 5 (replicate 5 0)
    volume_mounted volume_cluster ltac:(lia) ltac:(lia) ltac:(vm_compute; congruence)
    ltac:(intros _; vm_compute; congruence)) as Hw.
  apply wp_run in Hw as (r & s' & Hr & -> & Hmv & _). exists s'. split; [exact Hr|exact Hmv].
Defined.

Lemma fat16_total_items_spec_witness : exists s',
  fat16_get_total_items_for_directory disk_addr 2 mounted_state = Ok (1, s').
Proof.
  assert (H0 : forall i, (i < 1)%nat -> Fat16Proofs.first_byte volume (2 * 512) i <> 0).
  { intros [|i] Hi; [vm_compute; congruence|lia]. }
  assert (H1 : Fat16Proofs.first_byte volume (2 * 512) 1 = 0) by (vm_compute; reflexivity).
  assert (E : Z.of_nat (length (Fat16Proofs.used_entries volume (2 * 512) 1)) = 1)
    by (vm_compute; reflexivity).
  pose proof (Fat16Proofs.fat16_total_items_spec volume 4 volume_fp mounted_state 2 1 volume_mounted
    ltac:(lia) ltac:(vm_compute; congruence) H0 H1) as Hw.
  apply wp_run in Hw as (n & s' & Hr & Hn & _). rewrite E in Hn. subst n. exists s'. exact Hr.
Defined.

End SampleVolume.
