(* ===== verification/Vfs.v ===== *)
(** * The virtual file system: [src/fs/file.c]

    The table of file-system drivers, the table of open files and the operations
    that dispatch to a driver.  A [struct filesystem] is a record of functions;
    the drivers linked into the kernel are given by a map from the address of
    such a struct to its functions. *)
From stdpp Require Import base gmap list numbers strings.
From S2P Require Import Prelude Config Memory CString Heap KernelHeap KState Disk PParser Fat16.
Import Disk.
#[local] Open Scope Z_scope.

Module Vfs.

Definition sizeof_file_descriptor : Z := 16.

(** [struct filesystem] of [file.h]. *)
Record filesystem_ops (St : Type) := FilesystemOps {
  resolve : Z -> M St Z;
  fs_open : Z -> Z -> file_mode -> M St Z;
  fs_fread : Z -> Z -> Z -> Z -> list Z -> M St (Z * list Z);
  fs_fseek : Z -> Z -> Z -> M St Z;
  fs_fstat : Z -> Z -> file_stat -> M St (Z * file_stat);
  fs_fclose : Z -> M St Z
}.
Arguments FilesystemOps {St}.
Arguments resolve {St}.
Arguments fs_open {St}.
Arguments fs_fread {St}.
Arguments fs_fseek {St}.
Arguments fs_fstat {St}.
Arguments fs_fclose {St}.

Section Vfs.
Context {A D : Type} `{Al : Allocator A} `{Po : PortIO D}.
#[local] Abbreviation St := (kst A D).

(** The functions of the [struct filesystem] at an address. *)
Variable driver : Z -> option (filesystem_ops St).

Definition driver_at (fs : Z) : M St (filesystem_ops St) := lift_outcome (of_option (driver fs)).

(** ** The tables *)

(** The index of the first null slot. *)
Fixpoint free_slot (l : list Z) (i : nat) : option nat :=
  match l with
  | [] => None
  | x :: l' => if x =? 0 then Some i else free_slot l' (S i)
  end.

Definition get_free_fs_slot : M St (option nat) := gets (fun s => free_slot (filesystems s) 0).

Definition fs_insert_filesystem (filesystem : Z) : M St unit :=
  if filesystem =? 0 then panic "ERROR: fs_insert_filesystem passed invalid filesystem"
  else
    fs ← get_free_fs_slot;
    match fs with
    | None => panic "ERROR: fs_insert_filesystem no free fs slots"
    | Some i => modify (fun s => set_filesystems s (<[i := filesystem]> (filesystems s)))
    end.

(** [name]: the name field of [fat16_fs], which [fat16_init] fills. *)
Definition fs_static_load (name : list Z) : M St (list Z) :=
  _ ← modify (fun s => set_filesystems s (replicate (Z.to_nat MAX_FILESYSTEMS) 0));
  '(name, fs) ← lift_outcome (Fat16.fat16_init name);
  _ ← fs_insert_filesystem fs;
  mret name.

Definition fs_init (name : list Z) : M St (list Z) :=
  _ ← modify (fun s => set_file_descriptors s (replicate (Z.to_nat MAX_OPEN_FILES) 0));
  fs_static_load name.

(** [file_descriptors[i] = v]. *)
Definition set_descriptor (i v : Z) : M St unit := fun s =>
  if decide (0 <= i < Z.of_nat (length (file_descriptors s)))
  then Ok (tt, set_file_descriptors s (<[Z.to_nat i := v]> (file_descriptors s)))
  else Fault.

Definition free_file_descriptor (desc : Z) : M St unit :=
  x ← load desc;
  _ ← set_descriptor (fdesc_index x) 0;
  free desc.

(** The result code and [*desc_out]. *)
Definition file_new_descriptor : M St (Z * Z) :=
  slot ← gets (fun s => free_slot (file_descriptors s) 0);
  match slot with
  | None => mret (- ENOMEM, 0)
  | Some i =>
      p ← zalloc sizeof_file_descriptor (FileDescriptor 0 0 0 0);
      _ ← set_descriptor (Z.of_nat i) p;
      x ← load p;
      _ ← store p (FileDescriptor (Z.of_nat i) (fdesc_filesystem x) (fdesc_disk x) (fdesc_private x));
      mret (0, p)
  end.

Definition file_get_descriptor (fd : Z) : M St Z :=
  if (fd <? 0) || (fd >? MAX_OPEN_FILES - 1) then mret 0
  else s ← get_state; lift_outcome (of_option (file_descriptors s !! Z.to_nat fd)).

(** The loop over the driver table. *)
Fixpoint resolve_loop (l : list Z) (disk : Z) : M St Z :=
  match l with
  | [] => mret 0
  | fs :: l' =>
      if negb (fs =? 0) then
        ops ← driver_at fs;
        rc ← resolve ops disk;
        if rc =? 0 then mret fs else resolve_loop l' disk
      else resolve_loop l' disk
  end.

(** The table does not change while it is searched. *)
Definition fs_resolve (disk : Z) : M St Z :=
  l ← gets filesystems;
  resolve_loop l disk.

Definition file_get_mode_by_string (str : list Z) : outcome file_mode :=
  r ← CString.strncmp str [114; 0] 1;
  if r =? 0 then Ok READ
  else
    r ← CString.strncmp str [119; 0] 1;
    if r =? 0 then Ok WRITE
    else
      r ← CString.strncmp str [97; 0] 1;
      if r =? 0 then Ok APPEND else Ok INVALID.

(** ** The file operations *)

Definition fopen (filename mode_str : list Z) : M St Z :=
  path_root ← PParser.pparser_parse filename;
  if path_root =? 0 then mret (- EINVARG)
  else
    r ← load path_root;
    if pr_first r =? 0 then mret (- EINVARG)
    else
      let disk := disk_get (drive_no r) in
      if disk =? 0 then mret (- EIO)
      else
        d ← Fat16.load_disk disk;
        if d_filesystem d =? 0 then mret (- EIO)
        else
          mode ← lift_outcome (file_get_mode_by_string mode_str);
          if bool_decide (mode = INVALID) then mret (- EINVARG)
          else
            ops ← driver_at (d_filesystem d);
            file_priv_data ← fs_open ops disk (pr_first r) mode;
            if IS_ERROR file_priv_data then mret (ERROR_I file_priv_data)
            else
              '(rc, file) ← file_new_descriptor;
              if rc <? 0 then mret rc
              else
                d ← Fat16.load_disk disk;
                x ← load file;
                _ ← store file (FileDescriptor (fdesc_index x) (d_filesystem d)
                      (fdesc_disk x) (fdesc_private x));
                x ← load file;
                _ ← store file (FileDescriptor (fdesc_index x) (fdesc_filesystem x)
                      (fdesc_disk x) file_priv_data);
                x ← load file;
                _ ← store file (FileDescriptor (fdesc_index x) (fdesc_filesystem x)
                      disk (fdesc_private x));
                x ← load file;
                mret (fdesc_index x).

(** A [size_t]: the driver's count goes through an [int]. *)
Definition fread (ptr : list Z) (size nmemb fd : Z) : M St (Z * list Z) :=
  if (size =? 0) || (nmemb =? 0) || (fd <? 0) then mret (u32 (- EINVARG), ptr)
  else
    desc ← file_get_descriptor fd;
    if desc =? 0 then mret (u32 (- EINVARG), ptr)
    else
      x ← load desc;
      ops ← driver_at (fdesc_filesystem x);
      '(rc, ptr) ← fs_fread ops (fdesc_disk x) (fdesc_private x) size nmemb ptr;
      mret (u32 (s32 rc), ptr).

Definition fseek (fd offset whence : Z) : M St Z :=
  desc ← file_get_descriptor fd;
  if desc =? 0 then mret (- EINVARG)
  else
    x ← load desc;
    ops ← driver_at (fdesc_filesystem x);
    fs_fseek ops (fdesc_private x) offset whence.

Definition fstat (fd : Z) (stat : file_stat) : M St (Z * file_stat) :=
  desc ← file_get_descriptor fd;
  if desc =? 0 then mret (- EINVARG, stat)
  else
    x ← load desc;
    ops ← driver_at (fdesc_filesystem x);
    fs_fstat ops (fdesc_disk x) (fdesc_private x) stat.

Definition fclose (fd : Z) : M St Z :=
  desc ← file_get_descriptor fd;
  if desc =? 0 then mret (- EINVARG)
  else
    x ← load desc;
    ops ← driver_at (fdesc_filesystem x);
    _ ← fs_fclose ops (fdesc_private x);
    _ ← free_file_descriptor desc;
    mret 0.

End Vfs.

(** The driver linked into the kernel. *)
Definition fat16_ops {A D} `{Allocator A} `{PortIO D} : filesystem_ops (kst A D) :=
  FilesystemOps Fat16.fat16_resolve Fat16.fat16_fopen Fat16.fat16_fread Fat16.fat16_fseek
    Fat16.fat16_fstat Fat16.fat16_fclose.

Definition kernel_driver {A D} `{Allocator A} `{PortIO D} (fs : Z)
    : option (filesystem_ops (kst A D)) :=
  if fs =? Fat16.fat16_fs then Some fat16_ops else None.

End Vfs.
