(* ===== verification/VfsProofs.v ===== *)
(** * Properties of the virtual file system

    The file operations over the FAT16 driver, from a path string to the bytes of
    the file, and the table of open files. *)
From stdpp Require Import base gmap list numbers strings.
From S2P Require Import Prelude Config Memory CString Heap KernelHeap KState Disk PParser Fat16 Fat16Proofs Vfs.
Import Disk DiskProofs Fat16 Fat16Proofs Vfs.
#[local] Open Scope Z_scope.

Module VfsProofs.

Section Proofs.
Context {A D : Type} `{Al : Allocator A} `{Av : AllocatorView A} `{Po : PortIO D} `{At : !AtaDrive D} `{Aw : !AllocatorLaws A}.
#[local] Abbreviation St := (kst A D).
#[local] Abbreviation driver := (@kernel_driver A D Al Po).

(** ** Slots *)

Lemma free_slot_spec l i :
  match free_slot l i with
  | Some j => (i <= j < i + length l)%nat /\ l !! (j - i)%nat = Some 0 /\
      (forall k, (k < j - i)%nat -> exists x, l !! k = Some x /\ x <> 0)
  | None => forall k x, l !! k = Some x -> x <> 0
  end.
Proof.
  revert i. induction l as [|x l IH]; intros i; simpl; [done|].
  destruct (Z.eqb_spec x 0) as [->|Hx].
  - split; [lia|]. rewrite Nat.sub_diag. split; [done|]. intros; lia.
  - specialize (IH (S i)). destruct (free_slot l (S i)) as [j|].
    + destruct IH as (Hj & H0 & Hk). split; [lia|].
      replace (j - i)%nat with (S (j - S i)) by lia. split; [done|].
      intros [|k] Hlt; [by exists x|]. simpl. apply Hk. lia.
    + intros [|k] y Hy; [by injection Hy as <-|by eapply IH].
Qed.

(** ** Frames *)

(** Everything the allocations [L] hold is unchanged. *)
Definition keeps (L : gmap Z nat) (s s' : St) : Prop :=
  forall a n, L !! a = Some n -> objs s' !! a = objs s !! a.

Lemma keeps_trans L s1 s2 s3 : keeps L s1 s2 -> keeps L s2 s3 -> keeps L s1 s3.
Proof. intros H1 H2 a n Ha. etrans; [by eapply H2|by eapply H1]. Qed.

Lemma keeps_weaken L L' s s' : L ⊆ L' -> keeps L' s s' -> keeps L s s'.
Proof. intros Hs Hk a n Ha. eapply Hk. by eapply lookup_weaken. Qed.

(** A mounted volume lives in live allocations. *)
Lemma mounted_keeps img p fp s s' L :
  mounted img p fp s -> live s L -> keeps L s s' ->
  the_disk s' = the_disk s -> dev s' = dev s -> mounted img p fp s'.
Proof.
  intros [M1 M2 M3 M4 M5 M6 M7] Hl Hk Hd Hv.
  assert (Hx : forall a o, objs s !! a = Some o -> objs s' !! a = Some o).
  { intros a o Ho. destruct (live_Some _ _ _ _ Hl Ho) as [n Hn]. by rewrite (Hk a n). }
  split; rewrite ?Hd, ?Hv; auto. intros a Ha. destruct (M4 a Ha) as [q Hq]. eauto.
Qed.

Lemma path_built_keeps s s' L root ads drive l :
  PParser.path_built s s' L root ads drive l -> keeps L s s'.
Proof.
  intros Hp a n Ha. apply (PParser.pb_frame _ _ _ _ _ _ _ Hp). intros Hin.
  apply (PParser.pb_fresh _ _ _ _ _ _ _ Hp) in Hin. congruence.
Qed.

Lemma file_mode_r rest : file_get_mode_by_string (114 :: rest) = Ok READ.
Proof. done. Qed.

(** ** Opening *)

(** A file descriptor for the file whose FAT structures are [desc], [e], [c]. *)
Record opened (img : list Z) (p : Z) (fp : fat_private) (raw : list Z) (i : nat)
    (s s' : St) (L LP : gmap Z nat) (fdp desc e c : Z) : Prop := {
  op_live : live s' (<[fdp := 1%nat]> (<[c := 1%nat]> (<[e := 1%nat]> (<[desc := 1%nat]> LP))));
  op_fresh a : a ∈ [fdp; c; e; desc] -> LP !! a = None;
  op_nodup : NoDup [fdp; c; e; desc];
  op_file : open_file s' desc e c 0 raw;
  op_fd : objs s' !! fdp =
    Some (to_obj (FileDescriptor (Z.of_nat i) fat16_fs disk_addr desc));
  op_table : file_descriptors s' = <[i := fdp]> (file_descriptors s);
  op_mounted : mounted img p fp s';
  op_keeps : keeps L s s';
  op_low : 0 < fdp;
  op_disk : the_disk s' = the_disk s
}.

(** The descriptor table gets the lowest free slot. *)
Lemma file_new_descriptor_ok s L f i (Q : Z * Z -> St -> Prop) :
  live s L -> free_blocks s = S f -> free_slot (file_descriptors s) 0 = Some i ->
  (forall p a, let s' := set_file_descriptors
         (set_heap s a (<[p := to_obj (FileDescriptor (Z.of_nat i) 0 0 0)]> (objs s)))
         (<[i := p]> (file_descriptors s)) in
     live s' (<[p := 1%nat]> L) -> free_blocks s' = f -> L !! p = None -> 0 < p -> Q (0, p) s') ->
  wp file_new_descriptor s Q.
Proof.
  intros Hl Hf Hi HQ. pose proof (free_slot_spec (file_descriptors s) 0) as Hs. rewrite Hi in Hs.
  unfold file_new_descriptor. apply wp_bind. unfold wp at 1, gets. rewrite Hi.
  apply wp_bind. eapply wp_zalloc; [done|unfold sizeof_file_descriptor, HEAP_BLOCK_SIZE; lia|done|].
  intros p a s1 Hl1 Hf1 HLp Hop Hp. apply wp_bind. unfold wp at 1, set_descriptor. simpl.
  destruct (decide _) as [_|Hn]; [|lia]. rewrite Nat2Z.id.
  apply wp_bind. eapply wp_load; [apply lookup_insert_eq|].
  apply wp_bind. eapply wp_store; [apply lookup_insert_eq|]. apply wp_ret.
  specialize (HQ p a). subst s1. unfold set_file_descriptors, set_heap in *. simpl in *.
  rewrite insert_insert_eq. apply HQ; try done; [solve_live|lia].
Qed.

(** A file of the root directory that a one-part path names: the entry at index
    [k] is the only one that matches, and it is a file. *)
Record root_file (fp : fat_private) (s : St) (entries : list Z) (nm : list Z) (k : nat) : Prop := {
  rf_entries : objs s !! fd_entry (root_directory fp) = Some (to_obj entries);
  rf_index : (k < Z.to_nat (fd_total (root_directory fp)))%nat;
  rf_length : (32 * k + 32 <= length entries)%nat;
  rf_match j : (j < Z.to_nat (fd_total (root_directory fp)))%nat ->
    entry_matches (drop (32 * j) entries) (PParser.pad nm) = Ok (bool_decide (j = k));
  rf_file : Z.land (attribute (drop (32 * k) entries)) FAT_FILE_SUBDIRECTORY = 0
}.

(** The end of [fopen]: the descriptor is filled in. *)
Lemma fill_descriptor_ok (s : St) file i desc (Q : Z -> St -> Prop) :
  objs s !! file = Some (to_obj (FileDescriptor i 0 0 0)) ->
  d_filesystem (the_disk s) = fat16_fs ->
  Q i (set_heap s (k_alloc s)
         (<[file := to_obj (FileDescriptor i fat16_fs disk_addr desc)]> (objs s))) ->
  wp (d ← load_disk disk_addr;
      x ← load file;
      _ ← store file (FileDescriptor (fdesc_index x) (d_filesystem d) (fdesc_disk x) (fdesc_private x));
      x ← load file;
      _ ← store file (FileDescriptor (fdesc_index x) (fdesc_filesystem x) (fdesc_disk x) desc);
      x ← load file;
      _ ← store file (FileDescriptor (fdesc_index x) (fdesc_filesystem x) disk_addr (fdesc_private x));
      x ← load file;
      mret (fdesc_index x)) s Q.
Proof.
  intros Hfile Hfs HQ. apply wp_bind, wp_load_disk. rewrite Hfs.
  apply wp_bind. eapply wp_load; [exact Hfile|]. apply wp_bind. eapply wp_store; [exact Hfile|].
  apply wp_bind. eapply wp_load; [apply lookup_insert_eq|].
  apply wp_bind. eapply wp_store; [apply lookup_insert_eq|].
  apply wp_bind. eapply wp_load; [apply lookup_insert_eq|].
  apply wp_bind. eapply wp_store; [apply lookup_insert_eq|].
  apply wp_bind. eapply wp_load; [apply lookup_insert_eq|]. apply wp_ret.
  cbn [fdesc_index fdesc_filesystem fdesc_disk fdesc_private].
  unfold set_heap in *. simpl in *. by rewrite !insert_insert_eq.
Qed.

Lemma path_subseteq (s s' : St) L root ads drive l :
  PParser.path_built s s' L root ads drive l -> L ⊆ <[root := 1%nat]> (PParser.with_parts ads L).
Proof.
  intros Hp. apply map_subseteq_spec. intros a n Ha.
  assert (Hin : a ∉ root :: PParser.flat ads).
  { intros Hin. apply (PParser.pb_fresh _ _ _ _ _ _ _ Hp) in Hin. congruence. }
  apply not_elem_of_cons in Hin as [Hr Hin]. rewrite lookup_insert_ne by congruence.
  clear Hp Hr. induction ads as [|[x y] ads IH]; simpl in *; [done|].
  rewrite !not_elem_of_cons in Hin. rewrite !lookup_insert_ne by intuition congruence. apply IH. tauto.
Qed.

(** The states of [fopen] after the path is parsed. *)
Lemma opened_intro img p fp (s s1 s2 s3 : St) L LP raw i desc e c fdp a2 a3 :
  mounted img p fp s1 -> keeps L s s1 -> live s1 LP -> L ⊆ LP ->
  file_descriptors s1 = file_descriptors s -> the_disk s1 = the_disk s ->
  s2 = set_heap s1 a2 (<[desc := to_obj (FatFile e 0)]>
         (<[e := to_obj (FatEasy c FAT_ITEM_TYPE_FILE)]> (<[c := to_obj raw]> (objs s1)))) ->
  LP !! desc = None -> LP !! e = None -> LP !! c = None -> NoDup [desc; e; c] ->
  s3 = set_file_descriptors
         (set_heap s2 a3 (<[fdp := to_obj (FileDescriptor (Z.of_nat i) 0 0 0)]> (objs s2)))
         (<[i := fdp]> (file_descriptors s2)) ->
  live s3 (<[fdp := 1%nat]> (<[c := 1%nat]> (<[e := 1%nat]> (<[desc := 1%nat]> LP)))) ->
  <[c := 1%nat]> (<[e := 1%nat]> (<[desc := 1%nat]> LP)) !! fdp = None -> 0 < fdp ->
  opened img p fp raw i s
    (set_heap s3 (k_alloc s3)
       (<[fdp := to_obj (FileDescriptor (Z.of_nat i) fat16_fs disk_addr desc)]> (objs s3)))
    L LP fdp desc e c.
Proof.
  intros Hm1 Hk1 Hl1 HLP Ht1 Hdk -> Hd He Hc Hnd -> Hl3 Hfdp H0.
  rewrite !lookup_insert_None in Hfdp. destruct Hfdp as (((HLf & Hdf) & Hef) & Hcf).
  assert (desc <> e /\ desc <> c /\ e <> c) as (Hde & Hdc & Hec).
  { inversion_clear Hnd as [|?? N1 Nd]. inversion_clear Nd as [|?? N2 _]. clear - N1 N2. set_solver. }
  assert (Hk : forall x n, LP !! x = Some n -> x <> desc /\ x <> e /\ x <> c /\ x <> fdp)
    by (intros x n Hx; repeat split; congruence).
  split; simpl.
  - eapply live_store; [exact Hl3|]. simpl. rewrite lookup_insert_eq. by eexists.
  - intros x Hx. rewrite !elem_of_cons in Hx.
    destruct Hx as [->|[->|[->|[->|Hx%not_elem_of_nil]]]]; done.
  - repeat constructor; rewrite ?not_elem_of_cons; repeat split; try congruence; apply not_elem_of_nil.
  - rewrite insert_insert_eq. split; simpl.
    + rewrite lookup_insert_ne by congruence. apply lookup_insert_eq.
    + rewrite !lookup_insert_ne by congruence. apply lookup_insert_eq.
    + rewrite !lookup_insert_ne by congruence. apply lookup_insert_eq.
  - apply lookup_insert_eq.
  - by rewrite Ht1.
  - eapply (mounted_keeps img p fp s1 _ LP); [exact Hm1|exact Hl1| |done|done].
    intros x n Hx. destruct (Hk _ _ Hx) as (? & ? & ? & ?). simpl.
    by rewrite !lookup_insert_ne by congruence.
  - intros x n Hx. simpl. rewrite <- (Hk1 x n Hx).
    destruct (Hk x n) as (? & ? & ? & ?); [by eapply lookup_weaken|].
    by rewrite !lookup_insert_ne by congruence.
  - done.
  - done.
Qed.

Lemma fopen_ok img p fp (s : St) L f s0 junk nm mode entries k i (Q : Z -> St -> Prop) :
  mounted img p fp s -> d_filesystem (the_disk s) = fat16_fs ->
  Forall CString.char_byte s0 -> PParser.path_of s0 = Some (0, [nm]) ->
  root_file fp s entries nm k -> live s L -> free_blocks s = (7 + f)%nat ->
  free_slot (file_descriptors s) 0 = Some i ->
  (forall root ads fdp desc e c s', let LP := <[root := 1%nat]> (PParser.with_parts ads L) in
     opened img p fp (take 32 (drop (32 * k) entries)) i s s' L LP fdp desc e c ->
     L ⊆ LP -> free_blocks s' = f -> Q (Z.of_nat i) s') ->
  wp (fopen driver (s0 ++ 0 :: junk) (114 :: mode)) s Q.
Proof.
  intros Hm Hfs Hb Hpath [R1 R2 R3 R4 R5] Hl Hf Hslot HQ. unfold fopen. apply wp_bind.
  eapply (PParser.pparser_parse_ok s0 junk s L (3 + f)); [exact Hb|exact Hpath|exact Hl|exact Hf|].
  intros root ads s1 Hpb. pose proof (path_built_keeps _ _ _ _ _ _ _ Hpb) as Hk1.
  pose proof Hpb as [B1 B2 B3 B4 B5 B6 B7 B8 B9].
  destruct ads as [|[q str] [|[q' str'] ads]]; [done| |by destruct B4 as (_ & _ & ? & _ & _ & ?)].
  destruct B4 as (_ & Hq0 & next & Hq & Hstr & ->). cbn [PParser.head_addr] in *.
  destruct (Z.eqb_spec root 0); [done|].
  apply wp_bind. eapply wp_load; [exact B3|]. cbn [pr_first drive_no].
  destruct (Z.eqb_spec q 0); [done|]. change (disk_get 0) with disk_addr.
  change (disk_addr =? 0) with false. cbv iota. apply wp_bind, wp_load_disk.
  assert (Hd1 : the_disk s1 = the_disk s) by (rewrite B9; done).
  assert (Hv1 : dev s1 = dev s) by (rewrite B9; done).
  assert (Ht1 : file_descriptors s1 = file_descriptors s) by (rewrite B9; done).
  rewrite Hd1, Hfs. change (fat16_fs =? 0) with false. cbv iota.
  apply wp_bind. unfold wp at 1, lift_outcome. rewrite file_mode_r. cbn [mbind outcome_bind].
  rewrite bool_decide_false by done. apply wp_bind. unfold wp at 1, driver_at, lift_outcome.
  cbn [kernel_driver]. change (kernel_driver fat16_fs) with (Some (@fat16_ops A D Al Po)).
  cbn [of_option mbind outcome_bind fs_open fat16_ops]. apply wp_bind.
  assert (Hm1 : mounted img p fp s1) by (by eapply mounted_keeps).
  destruct (live_Some _ _ _ _ Hl R1) as [nr Hnr].
  eapply (fat16_fopen_ok img p fp s1 _ (S f) q str (PParser.pad nm) entries k);
    [exact Hm1|exact Hq|exact Hstr|by rewrite (Hk1 _ _ Hnr)|exact R2|exact R3|exact R4|exact R5|exact B1| |].
  { simpl in B2. lia. }
  intros desc e c a2 raw s2 Hl2 Hf2 HLd HLe HLc Hnd Hdesc.
  unfold IS_ERROR. rewrite s32_small by lia. destruct (Z.ltb_spec desc 0) as [|_]; [lia|].
  apply wp_bind. eapply (file_new_descriptor_ok s2 _ f i); [exact Hl2|exact Hf2|subst s2; simpl; by rewrite Ht1|].
  intros fdp a3 s3 Hl3 Hf3 HLf Hfdp. destruct (Z.ltb_spec 0 0) as [|_]; [lia|].
  apply (fill_descriptor_ok s3 fdp (Z.of_nat i) desc);
    [apply lookup_insert_eq|subst s3 s2; simpl; by rewrite Hd1|].
  eapply (HQ root [(q, str)] fdp desc e c); [|eapply path_subseteq; exact Hpb|exact Hf3].
  eapply (opened_intro img p fp s s1 s2 s3 L _ raw i desc e c fdp a2 a3);
    [exact Hm1|exact Hk1|exact B1|eapply path_subseteq; exact Hpb|exact Ht1|exact Hd1|reflexivity|exact HLd
    |exact HLe|exact HLc|exact Hnd|reflexivity|exact Hl3|exact HLf|exact Hfdp].
Qed.

(** ** Using an open file *)

Lemma file_get_descriptor_ok (s : St) i fdp (Q : Z -> St -> Prop) :
  file_descriptors s !! i = Some fdp -> (i < 512)%nat -> Q fdp s ->
  wp (file_get_descriptor (Z.of_nat i)) s Q.
Proof.
  intros Hi Hlt HQ. unfold file_get_descriptor, MAX_OPEN_FILES. rewrite Z.gtb_ltb.
  destruct (Z.ltb_spec (Z.of_nat i) 0) as [|_]; [lia|].
  destruct (Z.ltb_spec (512 - 1) (Z.of_nat i)) as [|_]; [lia|]. cbn [orb].
  apply wp_bind. unfold wp at 1, get_state. unfold wp, lift_outcome. rewrite Nat2Z.id, Hi. done.
Qed.

Lemma fread_ok img p fp raw i (s0 s : St) L LP fdp desc e c size nmemb out (Q : Z * list Z -> St -> Prop) :
  opened img p fp raw i s0 s L LP fdp desc e c -> (i < 512)%nat ->
  (i < length (file_descriptors s0))%nat ->
  cluster_ok img fp (fat16_get_first_cluster raw) -> 0 < size -> 0 < nmemb < 2147483648 ->
  nmemb * size <= cluster_size fp -> nmemb * size <= Z.of_nat (length out) ->
  (forall s', moved img fp s s' ->
     Q (nmemb, extent img (cluster_pos fp (fat16_get_first_cluster raw)) (nmemb * size)
          ++ drop (Z.to_nat (nmemb * size)) out) s') ->
  wp (fread driver out size nmemb (Z.of_nat i)) s Q.
Proof.
  intros [O1 O2 O3 O4 O5 O6 O7 O8 O9 O10] Hi Hlen Hc Hs Hn Hfit Hout HQ. unfold fread.
  destruct (Z.eqb_spec size 0) as [|_]; [lia|]. destruct (Z.eqb_spec nmemb 0) as [|_]; [lia|].
  destruct (Z.ltb_spec (Z.of_nat i) 0) as [|_]; [lia|]. cbn [orb].
  apply wp_bind. eapply file_get_descriptor_ok; [|done|].
  { rewrite O6. by apply list_lookup_insert_eq. }
  destruct (Z.eqb_spec fdp 0) as [|_]; [lia|].
  apply wp_bind. eapply wp_load; [exact O5|]. cbn [fdesc_filesystem fdesc_disk fdesc_private].
  apply wp_bind. unfold wp at 1, driver_at, lift_outcome.
  change (kernel_driver fat16_fs) with (Some (@fat16_ops A D Al Po)).
  cbn [of_option mbind outcome_bind fs_fread fat16_ops]. apply wp_bind.
  eapply fat16_fread_ok; [exact O7|exact O4|exact Hc|lia|done|lia|lia|done|].
  intros s' Hmv. apply wp_ret. rewrite s32_small, u32_small by lia.
  specialize (HQ s' Hmv). by rewrite Z.add_0_r.
Qed.

(** The size of an open file, from its directory entry. *)
Lemma fstat_ok img p fp raw i (s0 s : St) L LP fdp desc e c stat (Q : Z * file_stat -> St -> Prop) :
  opened img p fp raw i s0 s L LP fdp desc e c -> (i < 512)%nat ->
  (i < length (file_descriptors s0))%nat ->
  (forall flags, Q (0, FileStat flags (filesize raw)) s) ->
  wp (fstat driver (Z.of_nat i) stat) s Q.
Proof.
  intros [O1 O2 O3 [P1 P2 P3] O5 O6 O7 O8 O9 O10] Hi Hlen HQ. unfold fstat.
  apply wp_bind. eapply file_get_descriptor_ok; [|done|].
  { rewrite O6. by apply list_lookup_insert_eq. }
  destruct (Z.eqb_spec fdp 0) as [|_]; [lia|].
  apply wp_bind. eapply wp_load; [exact O5|]. cbn [fdesc_filesystem fdesc_private fdesc_disk].
  apply wp_bind. unfold wp at 1, driver_at, lift_outcome.
  change (kernel_driver fat16_fs) with (Some (@fat16_ops A D Al Po)).
  cbn [of_option mbind outcome_bind fs_fstat fat16_ops]. unfold fat16_fstat.
  apply wp_bind. eapply wp_load; [exact P1|]. apply wp_bind. eapply wp_load; [exact P2|].
  cbn [fe_type fe_item]. apply wp_bind. eapply wp_load; [exact P3|]. apply wp_ret.
  destruct (negb _); apply HQ.
Qed.

Lemma insert_swap (a b : Z) (m : gmap Z nat) :
  <[a := 1%nat]> (<[b := 1%nat]> m) = <[b := 1%nat]> (<[a := 1%nat]> m).
Proof. destruct (decide (a = b)) as [->|]; [done|]. by apply insert_insert_ne. Qed.

(** Closing gives back the four allocations and the slot. *)
Lemma fclose_ok img p fp raw i (s0 s s1 : St) L LP fdp desc e c (Q : Z -> St -> Prop) :
  opened img p fp raw i s0 s L LP fdp desc e c -> moved img fp s s1 -> L ⊆ LP ->
  (i < 512)%nat -> file_descriptors s0 !! i = Some 0 ->
  (forall s', live s' LP -> free_blocks s' = (4 + free_blocks s)%nat ->
     file_descriptors s' = file_descriptors s0 -> mounted img p fp s' -> the_disk s' = the_disk s0 ->
     (forall a n, L !! a = Some n -> a ∉ streams fp -> objs s' !! a = objs s0 !! a) -> Q 0 s') ->
  wp (fclose driver (Z.of_nat i)) s1 Q.
Proof.
  intros Ho Hmv HLP Hi Hslot HQ. pose proof Ho as [O1 O2 O3 O4 O5 O6 O7 O8 O9 O10].
  pose proof (moved_live _ _ _ _ _ _ O7 Hmv O1) as Hl1.
  pose proof (moved_open _ _ _ _ _ _ _ _ _ _ O7 Hmv O4) as Ho1.
  pose proof (moved_mounted _ _ _ _ _ O7 Hmv) as Hm1.
  assert (Ht1 : file_descriptors s1 = <[i := fdp]> (file_descriptors s0)).
  { rewrite <- O6. rewrite (mv_same _ _ _ _ Hmv). done. }
  assert (Hfd1 : objs s1 !! fdp = Some (to_obj (FileDescriptor (Z.of_nat i) fat16_fs disk_addr desc))).
  { rewrite (mv_frame _ _ _ _ Hmv); [exact O5|]. eapply not_stream; [exact O7|exact O5|done]. }
  pose proof (lookup_lt_Some _ _ _ Hslot) as Hilen.
  unfold fclose. apply wp_bind. eapply file_get_descriptor_ok; [|done|].
  { rewrite Ht1. by apply list_lookup_insert_eq. }
  destruct (Z.eqb_spec fdp 0) as [|_]; [lia|].
  apply wp_bind. eapply wp_load; [exact Hfd1|]. cbn [fdesc_filesystem fdesc_private].
  apply wp_bind. unfold wp at 1, driver_at, lift_outcome.
  change (kernel_driver fat16_fs) with (Some (@fat16_ops A D Al Po)).
  cbn [of_option mbind outcome_bind fs_fclose fat16_ops]. apply wp_bind.
  rewrite (insert_swap fdp c), (insert_swap fdp e), (insert_swap fdp desc) in Hl1.
  assert (fdp <> c /\ fdp <> e /\ fdp <> desc /\ c <> e /\ c <> desc /\ e <> desc)
    as (N1 & N2 & N3 & N4 & N5 & N6).
  { clear - O3. inversion_clear O3 as [|?? X1 Y1]. inversion_clear Y1 as [|?? X2 Y2].
    inversion_clear Y2 as [|?? X3 _]. set_solver. }
  assert (HLn : LP !! fdp = None /\ LP !! c = None /\ LP !! e = None /\ LP !! desc = None)
    by (repeat split; apply O2; clear; set_solver).
  destruct HLn as (HL1 & HL2 & HL3 & HL4).
  eapply (fat16_fclose_ok s1 desc e c 0 raw (<[fdp := 1%nat]> LP)); [exact Ho1| | | | |exact Hl1|].
  { repeat constructor; rewrite ?not_elem_of_cons; repeat split; try congruence; apply not_elem_of_nil. }
  { by rewrite lookup_insert_ne. } { by rewrite lookup_insert_ne. } { by rewrite lookup_insert_ne. }
  intros a2 s2 Hl2 Hf2. apply wp_bind. unfold free_file_descriptor.
  apply wp_bind. eapply (wp_load _ (FileDescriptor (Z.of_nat i) fat16_fs disk_addr desc)).
  { subst s2. simpl. rewrite !lookup_delete_ne by congruence. exact Hfd1. }
  cbn [fdesc_index]. apply wp_bind. unfold wp at 1, set_descriptor. simpl.
  destruct (decide _) as [_|Hn]; [|rewrite Ht1, length_insert in Hn; lia]. rewrite Nat2Z.id.
  eapply (wp_free fdp 1%nat _ (<[fdp := 1%nat]> LP)); [exact Hl2|apply lookup_insert_eq|].
  intros a3 s3 Hl3 Hf3. rewrite delete_insert_id in Hl3 by done. apply wp_ret.
  assert (Hkeep : forall a n, LP !! a = Some n -> objs s3 !! a = objs s1 !! a).
  { intros a n Ha. subst s3. simpl. rewrite !lookup_delete_ne by congruence. done. }
  apply HQ; [exact Hl3| | | | |].
  - pose proof (moved_free _ _ _ _ Hmv) as Hfm. unfold free_blocks in *. simpl in *. lia.
  - subst s3. simpl. rewrite Ht1, list_insert_insert_eq. by apply list_insert_id.
  - subst s3. destruct Hm1 as [M1 M2 M3 M4 M5 M6 M7].
    assert (Hnn : forall a o, objs s1 !! a = Some o ->
      (forall x, o <> to_obj (T:=file_descriptor) x) -> (forall x, o <> to_obj (T:=list Z) x) ->
      (forall x, o <> to_obj (T:=fat_easy_directory_entry) x) ->
      (forall x, o <> to_obj (T:=fat_file_descriptor) x) ->
      a <> fdp /\ a <> desc /\ a <> e /\ a <> c).
    { intros a o Ha H1 H2 H3 H4. destruct Ho1 as [P1 P2 P3].
      repeat split; intros ->;
        [rewrite Hfd1 in Ha|rewrite P1 in Ha|rewrite P2 in Ha|rewrite P3 in Ha]; injection Ha as <-;
        [by eapply H1|by eapply H4|by eapply H3|by eapply H2]. }
    split; simpl; try done.
    + destruct (Hnn _ _ M3) as (? & ? & ? & ?); [done..|]. rewrite !lookup_delete_ne by congruence. done.
    + intros a Ha. destruct (M4 a Ha) as [q Hq]. exists q.
      destruct (Hnn _ _ Hq) as (? & ? & ? & ?); [done..|]. rewrite !lookup_delete_ne by congruence. done.
  - subst s3. simpl. rewrite (mv_same _ _ _ _ Hmv). exact O10.
  - intros a n Ha Hns. rewrite (Hkeep a n) by (by eapply lookup_weaken).
    rewrite (mv_frame _ _ _ _ Hmv) by done. by eapply O8.
Qed.

(** ** Theorems *)

(** Open a file for reading, read [nmemb] elements of [size] bytes, close it. *)
Definition read_file (path mode out : list Z) (size nmemb : Z) : M St (Z * (Z * list Z) * Z) :=
  fd ← fopen driver path mode;
  r ← fread driver out size nmemb fd;
  rc ← fclose driver fd;
  mret (fd, r, rc).

(** The root directory lists the file [nm] at index [k]: entry [j] reads as
    [base j] and [ext j], and only entry [k]'s name is [nm] up to case. *)
Record lists_file (fp : fat_private) (s : St) (entries : list Z) (base ext : nat -> list Z)
    (nm : list Z) (k : nat) : Prop := {
  lf_entries : objs s !! fd_entry (root_directory fp) = Some (to_obj entries);
  lf_index : (k < Z.to_nat (fd_total (root_directory fp)))%nat;
  lf_length : (32 * k + 32 <= length entries)%nat;
  lf_names j : (j < Z.to_nat (fd_total (root_directory fp)))%nat ->
    reads_as (drop (32 * j) entries) (base j) (ext j);
  lf_match j : (j < Z.to_nat (fd_total (root_directory fp)))%nat ->
    (CString.lower <$> display (base j) (ext j) = CString.lower <$> nm <-> j = k);
  lf_file : Z.land (attribute (drop (32 * k) entries)) FAT_FILE_SUBDIRECTORY = 0
}.

Lemma pad_cstring nm : Forall CString.char_byte nm -> (length nm < 128)%nat ->
  CString.cstring (PParser.pad nm) nm.
Proof.
  intros Hb Hl. split; [by apply CString.char_byte_nonzero|].
  exists (replicate (127 - length nm) 0). unfold PParser.pad, MAX_FILE_PATH_CHARS.
  by replace (Z.to_nat 128 - length nm)%nat with (S (127 - length nm)) by lia.
Qed.

Lemma lists_root_file fp s entries base ext nm k :
  lists_file fp s entries base ext nm k -> Forall CString.char_byte nm -> (length nm < 128)%nat ->
  root_file fp s entries nm k.
Proof.
  intros [L1 L2 L3 L4 L5 L6] Hb Hl. split; [done|done|done| |done]. intros j Hj.
  rewrite (entry_matches_ok _ _ _ _ nm (L4 j Hj)); [|by apply pad_cstring|done|lia].
  f_equal. apply bool_decide_ext. by apply L5.
Qed.

(** The bytes of a file in its first cluster. *)
Definition file_start (img : list Z) (fp : fat_private) (raw : list Z) : list Z :=
  extent img (cluster_pos fp (fat16_get_first_cluster raw)) (Z.min (filesize raw) (cluster_size fp)).

(** The first [n] bytes at the file's cluster: of the file, and then what is behind its
    end in the cluster. *)
Lemma file_start_read img fp raw n :
  cluster_ok img fp (fat16_get_first_cluster raw) -> 0 <= n <= cluster_size fp ->
  let pos := cluster_pos fp (fat16_get_first_cluster raw) in
  (n <= filesize raw -> extent img pos n = take (Z.to_nat n) (file_start img fp raw)) /\
  (0 <= filesize raw < n ->
     extent img pos n = file_start img fp raw ++ extent img (pos + filesize raw) (n - filesize raw)).
Proof.
  intros Hc Hn pos. pose proof (cluster_pos_nonneg _ _ _ Hc) as Hpos. unfold file_start. fold pos in Hpos |- *. split.
  - intros Hle. unfold extent. rewrite take_take. f_equal. lia.
  - intros Hlt. rewrite Z.min_l by lia. rewrite extent_app by lia. f_equal. lia.
Qed.

(** C7 (refinement).  Reading a file by name: on a mounted volume whose root
    directory lists [nm], opening "0:/nm" for reading, reading [nmemb] elements of
    [size] bytes, no more than a cluster, and closing returns the lowest free
    descriptor, the count [nmemb] with the bytes, and 0; the descriptor table is as
    before and nothing live has changed but the volume's streams.  Up to the end of
    the file the bytes are the file's, in order.  The end of the file is not looked
    at: past it the count is still [nmemb], and the bytes behind the file's are what
    the cluster holds there.  Three heap blocks, the parsed path, are not given
    back. *)
Theorem vfs_read_file img p fp s L f s0 junk mode nm entries base ext k i size nmemb out :
  mounted img p fp s -> d_filesystem (the_disk s) = fat16_fs ->
  Forall CString.char_byte s0 -> PParser.path_of s0 = Some (0, [nm]) ->
  Forall CString.char_byte nm -> (length nm < 128)%nat ->
  lists_file fp s entries base ext nm k ->
  live s L -> free_blocks s = (7 + f)%nat ->
  free_slot (file_descriptors s) 0 = Some i -> (i < 512)%nat ->
  let raw := take 32 (drop (32 * k) entries) in
  cluster_ok img fp (fat16_get_first_cluster raw) ->
  0 < size -> 0 < nmemb < 2147483648 -> nmemb * size <= cluster_size fp ->
  Z.of_nat (length out) = nmemb * size ->
  wp (read_file (s0 ++ 0 :: junk) (114 :: mode) out size nmemb) s (fun r s' =>
    (exists data, r = (Z.of_nat i, (nmemb, data), 0) /\
       (nmemb * size <= filesize raw ->
          data = take (Z.to_nat (nmemb * size)) (file_start img fp raw)) /\
       (0 <= filesize raw < nmemb * size ->
          data = file_start img fp raw ++
            extent img (cluster_pos fp (fat16_get_first_cluster raw) + filesize raw)
              (nmemb * size - filesize raw))) /\
    file_descriptors s' = file_descriptors s /\ mounted img p fp s' /\
    free_blocks s = (3 + free_blocks s')%nat /\
    (forall a n, L !! a = Some n -> a ∉ streams fp -> objs s' !! a = objs s !! a)).
Proof.
  intros Hm Hfs Hb Hpath Hnb Hnl Hlist Hl Hf Hslot Hi raw Hc Hs Hn Hfit Hout.
  pose proof (free_slot_spec (file_descriptors s) 0) as Hsl. rewrite Hslot in Hsl.
  destruct Hsl as (Hil & Hi0 & _). rewrite Nat.sub_0_r in Hi0.
  unfold read_file. apply wp_bind.
  eapply (fopen_ok img p fp s L f s0 junk nm mode entries k i); try done.
  { by eapply lists_root_file. }
  intros root ads fdp desc e c s1 LP Ho HLP Hf1. apply wp_bind.
  eapply (fread_ok img p fp raw i s s1); [exact Ho|done|lia|exact Hc|done|done|done|lia|].
  intros s2 Hmv. apply wp_bind.
  eapply (fclose_ok img p fp raw i s s1 s2); [exact Ho|exact Hmv|exact HLP|done|done|].
  intros s3 Hl3 Hf3 Ht3 Hm3 _ Hk3. apply wp_ret.
  split; [|split; [done|split; [done|split; [lia|done]]]].
  rewrite drop_ge, app_nil_r by lia. eexists. split; [reflexivity|].
  apply file_start_read; [exact Hc|nia].
Qed.

(** A descriptor that is negative, too large or not open is refused
    with [-EINVARG] by every operation, and the kernel state is unchanged. *)
Theorem vfs_bad_descriptor s fd :
  length (file_descriptors s) = 512%nat ->
  (fd < 0 \/ 511 < fd \/ file_descriptors s !! Z.to_nat fd = Some 0) ->
  (forall ptr size nmemb, fread driver ptr size nmemb fd s = Ok ((u32 (- EINVARG), ptr), s)) /\
  (forall offset whence, fseek driver fd offset whence s = Ok (- EINVARG, s)) /\
  (forall stat, fstat driver fd stat s = Ok ((- EINVARG, stat), s)) /\
  fclose driver fd s = Ok (- EINVARG, s).
Proof.
  intros Hlen Hbad.
  assert (Hg : file_get_descriptor fd s = Ok (0, s)).
  { unfold file_get_descriptor, MAX_OPEN_FILES. rewrite Z.gtb_ltb.
    destruct (Z.ltb_spec fd 0) as [|Hge]; [done|].
    destruct (Z.ltb_spec (512 - 1) fd) as [|Hle]; [done|]. cbn [orb].
    destruct Hbad as [?|[?|Hs]]; [lia|lia|].
    unfold mbind, M_bind, get_state, lift_outcome. by rewrite Hs. }
  unfold fread, fseek, fstat, fclose, mbind, M_bind.
  split; [|split; [|split]]; intros; [destruct (_ || _); [done|]|..]; by rewrite Hg.
Qed.

(** [file_new_descriptor] on every branch: a full table gives
    [-ENOMEM] and changes nothing; otherwise the lowest free slot gets a new
    zeroed descriptor that knows its index; with a free slot but no memory the
    unchecked null pointer is dereferenced. *)
Lemma file_new_descriptor_spec `{!AllocatorExhausted A} (s : St) L :
  live s L ->
  match free_slot (file_descriptors s) 0, free_blocks s with
  | None, _ => file_new_descriptor s = Ok ((- ENOMEM, 0), s)
  | Some i, O => objs s !! 0 = None -> file_new_descriptor s = Fault
  | Some i, S f => wp file_new_descriptor s (fun r s' => exists p,
      r = (0, p) /\ 0 < p /\ L !! p = None /\
      objs s' = <[p := to_obj (FileDescriptor (Z.of_nat i) 0 0 0)]> (objs s) /\
      file_descriptors s' = <[i := p]> (file_descriptors s) /\
      (forall j, (j < i)%nat -> exists x, file_descriptors s !! j = Some x /\ x <> 0))
  end.
Proof.
  intros Hl. pose proof (free_slot_spec (file_descriptors s) 0) as Hs.
  destruct (free_slot (file_descriptors s) 0) as [i|] eqn:Hi.
  - destruct (free_blocks s) as [|f] eqn:Hf.
    + intros H0. unfold file_new_descriptor, mbind, M_bind, gets. rewrite Hi.
      unfold zalloc. rewrite (kzalloc_none _ L); [|apply Hl|unfold sizeof_file_descriptor, HEAP_BLOCK_SIZE; lia|exact Hf].
      change (0 =? 0) with true. cbv iota. unfold set_descriptor. simpl.
      destruct (decide _) as [_|Hn]; [|lia]. unfold load. simpl. by rewrite H0.
    + eapply file_new_descriptor_ok; [exact Hl|exact Hf|exact Hi|].
      intros p a s' _ _ HL Hp. exists p. destruct Hs as (_ & _ & Hk). rewrite Nat.sub_0_r in Hk. done.
  - unfold file_new_descriptor, mbind, M_bind, gets. by rewrite Hi.
Qed.

End Proofs.

(** ** Witnesses on the sample volume *)

Import KernelHeap SimAta SampleVolume.

(** The kernel's own smoke test: mount the volume, open 0:/hello.txt, seek to
    byte 5, read, query its size and close it. *)
Definition hello_path : list Z := [48; 58; 47; 104; 101; 108; 108; 111; 46; 116; 120; 116].

Definition smoke_test : M (kst kmem ata) (Z * Z * (Z * list Z) * (Z * file_stat) * Z) :=
  _ ← fs_init (replicate 20 0);
  _ ← disk_search_and_init (fs_resolve kernel_driver);
  fd ← fopen kernel_driver (hello_path ++ [0]) [114; 0];
  r0 ← fseek kernel_driver fd 5 SEEK_SET;
  r1 ← fread kernel_driver (replicate 7 0) 1 7 fd;
  r2 ← fstat kernel_driver fd (FileStat 9 9);
  r3 ← fclose kernel_driver fd;
  mret (fd, r0, r1, r2, r3).

Example smoke_test_runs :
  match smoke_test volume_state with Ok (r, _) => Some r | _ => None end =
    Some (0, 0, (7, [32; 87; 111; 114; 108; 100; 10]), (0, FileStat 0 12), 0).
Proof. vm_compute. reflexivity. Qed.

(** The sample volume, mounted by the driver. *)
Definition hello_base : nat -> list Z := fun _ => [72; 69; 76; 76; 79].
Definition hello_ext : nat -> list Z := fun _ => [84; 88; 84].
Definition hello_nm : list Z := [104; 101; 108; 108; 111; 46; 116; 120; 116].

Lemma hello_reads : reads_as (extent volume 1024 512) [72; 69; 76; 76; 79] [84; 88; 84].
Proof.
  split; [repeat constructor; unfold name_char; lia|repeat constructor; unfold name_char; lia| | |simpl; lia].
  - exists 32, (drop 6 (extent volume 1024 512)). split; [vm_compute; reflexivity|by right].
  - exists 32, (drop 12 (extent volume 1024 512)). split; [vm_compute; reflexivity|by right].
Qed.

Lemma hello_listed (s : kst kmem ata) r fp :
  root_directory fp = FatDirectory r 1 2 3 -> objs s !! r = Some (to_obj (extent volume 1024 512)) ->
  lists_file fp s (extent volume 1024 512) hello_base hello_ext hello_nm 0.
Proof.
  intros Hr Ho. split; rewrite ?Hr; cbn [fd_entry fd_total].
  - exact Ho.
  - lia.
  - vm_compute. lia.
  - intros j Hj. assert (j = 0%nat) as -> by lia. exact hello_reads.
  - intros j Hj. assert (j = 0%nat) as -> by lia. split; [done|]. intros _. vm_compute. reflexivity.
  - vm_compute. reflexivity.
Qed.

(** What the theorems need of the mounted sample volume. *)
Lemma volume_ready : exists p fp s L,
  mounted volume p fp s /\ d_filesystem (the_disk s) = fat16_fs /\
  lists_file fp s (extent volume 1024 512) hello_base hello_ext hello_nm 0 /\
  live s L /\ free_blocks s = (7 + 20)%nat /\ free_slot (file_descriptors s) 0 = Some 0%nat /\
  header fp = extent volume 0 sizeof_fat_header /\ fd_end_sector (root_directory fp) = 3.
Proof.
  pose proof (fat16_resolve_ok volume volume_state ∅ 1 26 volume_unmounted volume_live
    ltac:(reflexivity) (fun _ => volume_layout)) as Hw.
  apply wp_run in Hw as (rc & s & _ & _ & _ & Ht & Hp). rewrite bool_decide_true in Hp by reflexivity.
  destruct Hp as (_ & Hfs & Hf & p & r & fp & L & Hm & Hh & Hr & He & Hl & _).
  assert (Er : root_of volume (extent volume 0 sizeof_fat_header) 1 r = FatDirectory r 1 2 3).
  { unfold root_of. f_equal; vm_compute; reflexivity. }
  rewrite Er in Hr. exists p, fp, s, L. split; [exact Hm|]. split; [exact Hfs|].
  split; [eapply hello_listed; [exact Hr|exact He]|]. split; [exact Hl|]. split; [exact Hf|].
  split; [injection Ht as _ ->; reflexivity|]. split; [exact Hh|]. by rewrite Hr.
Qed.

Lemma vfs_read_file_witness : exists s s',
  read_file (hello_path ++ [0]) [114; 0] (replicate 12 0) 1 12 s = Ok ((0, (12, hello_text), 0), s') /\
  file_descriptors s' = file_descriptors s.
Proof.
  destruct volume_ready as (p & fp & s & L & Hm & Hfs & Hlist & Hl & Hf & Hslot & Hh & He).
  assert (Hraw : take 32 (drop (32 * 0) (extent volume 1024 512)) = hello_entry) by (vm_compute; reflexivity).
  assert (Hcl : fat16_get_first_cluster hello_entry = 2) by (vm_compute; reflexivity).
  assert (Hspc : sectors_per_cluster (header fp) = 1) by (rewrite Hh; vm_compute; reflexivity).
  assert (Hres : reserved_sectors (header fp) = 1) by (rewrite Hh; vm_compute; reflexivity).
  assert (Hlen : Z.of_nat (length volume) = 2560) by (vm_compute; reflexivity).
  assert (Hpos : cluster_pos fp 2 = 1536) by (unfold cluster_pos; rewrite Hspc, He; reflexivity).
  assert (Hcs : cluster_size fp = 512) by (unfold cluster_size; rewrite Hspc; reflexivity).
  assert (Hck : cluster_ok volume fp 2).
  { split; unfold fat_pos; rewrite ?Hspc, ?Hres, ?Hlen, ?He, ?Hpos, ?Hcs; lia. }
  pose proof (vfs_read_file volume p fp s L 20 hello_path [] [0] hello_nm (extent volume 1024 512)
    hello_base hello_ext 0 0 1 12 (replicate 12 0) Hm Hfs) as Hw.
  cbv zeta in Hw. rewrite Hraw, Hcl, Hpos, Hcs in Hw.
  assert (Hb : Forall CString.char_byte hello_path /\ Forall CString.char_byte hello_nm)
    by (split; repeat constructor; unfold CString.char_byte; lia).
  specialize (Hw (proj1 Hb) ltac:(vm_compute; reflexivity) (proj2 Hb) ltac:(simpl; lia) Hlist Hl Hf Hslot
    ltac:(lia) Hck ltac:(lia) ltac:(lia) ltac:(lia) ltac:(reflexivity)).
  apply wp_run in Hw as (r & s' & Hr & (data & -> & Hdata & _) & Ht & _). exists s, s'. split; [|exact Ht].
  assert (Et : take (Z.to_nat (12 * 1)) (file_start volume fp hello_entry) = hello_text).
  { unfold file_start. rewrite Hcl, Hpos, Hcs. vm_compute. reflexivity. }
  rewrite Hdata, Et in Hr by (vm_compute; discriminate). exact Hr.
Defined.

Lemma vfs_bad_descriptor_witness :
  fclose kernel_driver 7 volume_state = Ok (- EINVARG, volume_state) /\
  fclose kernel_driver (-1) volume_state = Ok (- EINVARG, volume_state).
Proof.
  split; eapply (vfs_bad_descriptor volume_state); try (vm_compute; reflexivity);
    [right; right; reflexivity|left; lia].
Defined.

Lemma file_new_descriptor_spec_witness : exists p s',
  file_new_descriptor volume_state = Ok ((0, p), s') /\
  file_descriptors s' !! 0%nat = Some p.
Proof.
  pose proof (file_new_descriptor_spec volume_state ∅ volume_live) as Hw.
  change (free_slot (file_descriptors volume_state) 0) with (Some 0%nat) in Hw.
  change (free_blocks volume_state) with 32%nat in Hw.
  apply wp_run in Hw as (r & s' & Hr & p & -> & _ & _ & _ & Ht & _). exists p, s'.
  split; [exact Hr|]. rewrite Ht. reflexivity.
Defined.

End VfsProofs.
