(* ===== verification/Gdt.v ===== *)
(** * Segment descriptors: [src/gdt/gdt.c] and the table of [src/kernel.c]

    The kernel describes each segment by its byte-granular base and limit and
    encodes it into the eight bytes the processor reads.  The raw table is the
    list of its bytes; the encoder writes it in place, byte by byte, as the
    code does through a [uint8_t] pointer. *)
From stdpp Require Import base list numbers strings.
From S2P Require Import Prelude Config.
#[local] Open Scope Z_scope.

Module Gdt.

(** ** Data *)

Definition MAX_20_BITS : Z := 1048575.
Definition HIGH_FLAGS_BYTE : nat := 6.

Record segment_descriptor := mk_segment_descriptor {
  base : Z;       (* uint32_t *)
  limit : Z;      (* uint32_t *)
  type : Z;       (* uint8_t *)
}.

(** [sizeof(struct segment_descriptor_raw)]. *)
Definition sizeof_raw : nat := 8.

(** ** Operations *)

Definition areFirst12BitsOne (val : Z) : bool :=
  if negb (Z.land val 0xFFF =? 0xFFF) then false else true.

Definition convertToPageGranularity (val : Z) : Z := Z.shiftr val 12.

(** [raw[k] = v] and the read of [raw[k]], on the bytes of the raw table. *)
Definition put (k : nat) (v : Z) : M (list Z) unit := fun raw =>
  if decide (k < length raw)%nat then Ok (tt, <[k := u8 v]> raw) else Fault.

Definition peek (k : nat) : M (list Z) Z := fun raw =>
  v ← of_option (raw !! k); Ok (v, raw).

(** [target] is the index of the descriptor's first byte. *)
Definition encodeSegmentDescriptor (target : nat) (source : segment_descriptor)
    : M (list Z) unit :=
  if (limit source >? MAX_20_BITS) && negb (areFirst12BitsOne (limit source))
  then panic "encodeSegmentDescriptor: Invalid argument\n"
  else
    put (target + HIGH_FLAGS_BYTE) 0x40 ≫= fun _ =>
    (if limit source >? MAX_20_BITS
     then put (target + HIGH_FLAGS_BYTE) 0xC0 ≫= fun _ =>
          mret (convertToPageGranularity (limit source))
     else mret (limit source)) ≫= fun lim =>
    put (target + 0) (Z.land lim 0xFF) ≫= fun _ =>
    put (target + 1) (Z.land (Z.shiftr lim 8) 0xFF) ≫= fun _ =>
    peek (target + 6) ≫= fun b6 =>
    put (target + 6) (Z.lor b6 (Z.land (Z.shiftr lim 16) 0x0F)) ≫= fun _ =>
    put (target + 2) (Z.land (base source) 0xFF) ≫= fun _ =>
    put (target + 3) (Z.land (Z.shiftr (base source) 8) 0xFF) ≫= fun _ =>
    put (target + 4) (Z.land (Z.shiftr (base source) 16) 0xFF) ≫= fun _ =>
    put (target + 7) (Z.land (Z.shiftr (base source) 24) 0xFF) ≫= fun _ =>
    put (target + 5) (type source).

Definition segment_descriptor_to_raw (desc : list segment_descriptor)
    (total_entries : Z) : M (list Z) unit :=
  for_loop (Z.to_nat total_entries) 0 (fun i =>
    match desc !! Z.to_nat i with
    | Some d => encodeSegmentDescriptor (Z.to_nat i * sizeof_raw) d
    | None => fault
    end).

(** The kernel's table; the task state segment is 27 words at [tss]. *)
Definition sizeof_tss : Z := 27 * 4.

Definition gdt (tss : Z) : list segment_descriptor :=
  [ mk_segment_descriptor 0x00 0x00 0x00;
    mk_segment_descriptor 0x00 0xffffffff 0x9A;
    mk_segment_descriptor 0x00 0xffffffff 0x92;
    mk_segment_descriptor 0x00 0xffffffff 0xF8;
    mk_segment_descriptor 0x00 0xffffffff 0xF2;
    mk_segment_descriptor tss sizeof_tss 0xE9 ].

(** ** What the processor reads

    The layout of a segment descriptor in the processor's manual: base in
    bytes 2, 3, 4 and 7, a 20-bit limit in bytes 0, 1 and the low nibble of
    byte 6, the access byte 5, and the flags G, D/B, L, AVL in the high nibble
    of byte 6.  With G set the limit counts 4 KiB pages. *)

Record hw_descriptor := mk_hw {
  hw_base : Z;
  hw_limit : Z;
  hw_access : Z;
  hw_db : bool;
  hw_long : bool;
  hw_avl : bool;
}.

Definition hw_decode (raw : list Z) : option hw_descriptor :=
  match raw with
  | [b0; b1; b2; b3; b4; b5; b6; b7] =>
      let limit20 := b0 + 256 * b1 + 65536 * (b6 mod 16) in
      let granular := Z.testbit b6 7 in
      Some (mk_hw (b2 + 256 * b3 + 65536 * b4 + 16777216 * b7)
                  (if granular then limit20 * 4096 + 4095 else limit20)
                  b5 (Z.testbit b6 6) (Z.testbit b6 5) (Z.testbit b6 4))
  | _ => None
  end.

(** ** Invariants *)

Definition segment_descriptor_wf (d : segment_descriptor) : Prop :=
  0 <= base d < 2 ^ 32 /\ 0 <= limit d < 2 ^ 32 /\ 0 <= type d < 256.

(** A limit the descriptor can express exactly. *)
Definition encodable (d : segment_descriptor) : bool :=
  (limit d <=? MAX_20_BITS) || (limit d mod 4096 =? 4095).

(** The eight bytes of an encodable descriptor, by arithmetic. *)
Definition descriptor_bytes (d : segment_descriptor) : list Z :=
  let big := limit d >? MAX_20_BITS in
  let lim := if big then limit d / 4096 else limit d in
  [ lim mod 256; lim / 256 mod 256;
    base d mod 256; base d / 256 mod 256; base d / 65536 mod 256;
    type d;
    (if big then 0xC0 else 0x40) + lim / 65536 mod 16;
    base d / 16777216 mod 256 ].

(** ** Lemmas *)

Lemma land_ff x : Z.land x 0xFF = x mod 256.
Proof. exact (Z.land_ones x 8 ltac:(lia)). Qed.
Lemma land_0f x : Z.land x 0x0F = x mod 16.
Proof. exact (Z.land_ones x 4 ltac:(lia)). Qed.

Lemma areFirst12BitsOne_mod x : areFirst12BitsOne x = (x mod 4096 =? 4095).
Proof.
  unfold areFirst12BitsOne. change 0xFFF with (Z.ones 12).
  rewrite Z.land_ones by lia. change (2 ^ 12) with 4096. change (Z.ones 12) with 4095.
  by destruct (_ =? 4095).
Qed.

Lemma nibble_lor b x :
  b = 0x40 \/ b = 0xC0 -> Z.lor b (Z.land x 0x0F) = b + x mod 16.
Proof.
  intros Hb. rewrite land_0f. apply (lor_low_bits 4); [lia| |].
  - by destruct Hb as [-> | ->].
  - change (2 ^ 4) with 16. zlia.
Qed.

Lemma wp_put k v raw (Q : unit -> list Z -> Prop) :
  (k < length raw)%nat -> Q tt (<[k := u8 v]> raw) -> wp (put k v) raw Q.
Proof. intros Hk HQ. unfold wp, put. by rewrite decide_True by done. Qed.

Lemma wp_peek k v raw (Q : Z -> list Z -> Prop) :
  raw !! k = Some v -> Q v raw -> wp (peek k) raw Q.
Proof. intros Hk HQ. unfold wp, peek. by rewrite Hk. Qed.

(** [put] and [peek] in the middle of a table: the descriptor under way. *)
Lemma wp_put_mid pre l j v (Q : unit -> list Z -> Prop) :
  (j < length l)%nat -> Q tt (pre ++ <[j := u8 v]> l) -> wp (put (length pre + j) v) (pre ++ l) Q.
Proof.
  intros Hj HQ. apply wp_put; [rewrite length_app; lia|]. by rewrite insert_app_r.
Qed.

Lemma wp_peek_mid pre l j v (Q : Z -> list Z -> Prop) :
  l !! j = Some v -> Q v (pre ++ l) -> wp (peek (length pre + j)) (pre ++ l) Q.
Proof.
  intros Hj. apply wp_peek. rewrite lookup_app_r by lia. rewrite <- Hj. f_equal. lia.
Qed.

Ltac put_steps :=
  repeat first
    [ apply wp_bind; first [apply wp_put_mid | eapply wp_peek_mid];
        [first [simpl; lia | reflexivity]|]; cbn [insert list_insert]
    | apply wp_put_mid; [simpl; lia|]; cbn [insert list_insert] ].

Lemma u8_bytes x :
  u8 (Z.land x 0xFF) = x mod 256 /\ u8 (Z.land (Z.shiftr x 8) 0xFF) = x / 256 mod 256 /\
  u8 (Z.land (Z.shiftr x 16) 0xFF) = x / 65536 mod 256 /\
  u8 (Z.land (Z.shiftr x 24) 0xFF) = x / 16777216 mod 256.
Proof. rewrite !land_ff, !Z.shiftr_div_pow2 by lia. unfold u8. rewrite !Z.mod_mod by lia. done. Qed.

Lemma u8_flags b x :
  b = 0x40 \/ b = 0xC0 -> u8 (Z.lor (u8 b) (Z.land (Z.shiftr x 16) 0x0F)) = b + x / 65536 mod 16.
Proof.
  intros Hb. rewrite (u8_small b), nibble_lor, Z.shiftr_div_pow2 by lia.
  change (2 ^ 16) with 65536. apply u8_small. zlia.
Qed.

Lemma wp_encode target d raw :
  segment_descriptor_wf d -> encodable d = true ->
  (target + sizeof_raw <= length raw)%nat ->
  wp (encodeSegmentDescriptor target d) raw
    (fun _ raw' => raw' = splice target (descriptor_bytes d) raw).
Proof.
  intros (Hb & Hl & Ht) He Hlen. unfold splice. cbn [length descriptor_bytes].
  assert (exists l, raw = take target raw ++ l ++ drop (target + 8) raw /\ length l = 8%nat)
    as (l & E & Hl8).
  { exists (take 8 (drop target raw)). rewrite <- drop_drop, take_drop, take_drop.
    split; [done|]. rewrite length_take, length_drop. unfold sizeof_raw in Hlen. lia. }
  remember (take target raw) as pre eqn:Ep. remember (drop (target + 8) raw) as post eqn:Eq.
  assert (Hp : target = length pre).
  { rewrite Ep, length_take. unfold sizeof_raw in Hlen. lia. }
  clear Ep Eq Hlen. subst target raw.
  do 8 (destruct l as [|? l]; [done|]). destruct l; [|done]. cbn [app].
  unfold encodeSegmentDescriptor, encodable, HIGH_FLAGS_BYTE in *.
  rewrite areFirst12BitsOne_mod.
  destruct (Z.gtb_spec (limit d) MAX_20_BITS) as [Hbig|Hsmall]; cbn [andb].
  - assert ((limit d mod 4096 =? 4095) = true) as -> by lia. cbn [negb].
    put_steps. apply wp_bind. apply wp_bind, wp_put_mid; [simpl; lia|]. cbn [insert list_insert].
    apply wp_ret. put_steps.
    unfold descriptor_bytes. rewrite (proj2 (Z.gtb_lt _ _)) by lia.
    unfold convertToPageGranularity. rewrite u8_flags by auto.
    rewrite (Z.shiftr_div_pow2 (limit d)) by lia. change (2 ^ 12) with 4096.
    destruct (u8_bytes (limit d / 4096)) as (-> & -> & _).
    destruct (u8_bytes (base d)) as (-> & -> & -> & ->). by rewrite (u8_small (type d)).
  - put_steps. apply wp_bind, wp_ret. put_steps.
    unfold descriptor_bytes. rewrite Z.gtb_ltb, (proj2 (Z.ltb_ge _ _)) by lia.
    rewrite u8_flags by auto.
    destruct (u8_bytes (limit d)) as (-> & -> & _).
    destruct (u8_bytes (base d)) as (-> & -> & -> & ->). by rewrite (u8_small (type d)).
Qed.

(** A descriptor that is not encodable stops the kernel. *)
Lemma encode_panics target d raw :
  encodable d = false -> exists msg, encodeSegmentDescriptor target d raw = Panic msg.
Proof.
  intros He. unfold encodable in He. apply orb_false_iff in He as [H1 H2].
  unfold encodeSegmentDescriptor. rewrite areFirst12BitsOne_mod, H2.
  rewrite Z.gtb_ltb, (proj2 (Z.ltb_lt _ _)) by lia. eexists. reflexivity.
Qed.

(** What the processor makes of a descriptor. *)
Definition hw_view (d : segment_descriptor) : hw_descriptor :=
  mk_hw (base d) (limit d) (type d) true false false.

Lemma flags_bits b n k :
  b = 0x40 \/ b = 0xC0 -> 0 <= n < 16 -> 4 <= k -> Z.testbit (b + n) k = Z.testbit b k.
Proof.
  intros Hb Hn Hk. rewrite <- (lor_low_bits 4) by (by destruct Hb as [-> | ->] || lia).
  rewrite Z.lor_spec, (testbit_high 4 n) by (change (2 ^ 4) with 16; lia). apply orb_false_r.
Qed.

Lemma decode_descriptor_bytes d :
  segment_descriptor_wf d -> encodable d = true ->
  hw_decode (descriptor_bytes d) = Some (hw_view d).
Proof.
  intros (Hb & Hl & Ht) He. unfold encodable, MAX_20_BITS in He.
  unfold hw_decode, descriptor_bytes, hw_view, MAX_20_BITS. change (2 ^ 32) with 4294967296 in *.
  destruct (Z.gtb_spec (limit d) 1048575) as [Hbig|Hsmall].
  - rewrite !flags_bits by (auto; zlia). f_equal. f_equal; try reflexivity; [zlia|].
    change (Z.testbit 192 7) with true. cbv iota.
    assert (limit d mod 4096 = 4095) by lia. zlia.
  - rewrite !flags_bits by (auto; zlia). f_equal. f_equal; try reflexivity; [zlia|].
    change (Z.testbit 64 7) with false. cbv iota. zlia.
Qed.

(** Entry [i] of the raw table. *)
Definition raw_entry (raw : list Z) (i : nat) : list Z :=
  take sizeof_raw (drop (i * sizeof_raw) raw).

Lemma raw_entry_lookup raw raw' i :
  (forall b, (i * sizeof_raw <= b < (i + 1) * sizeof_raw)%nat -> raw' !! b = raw !! b) ->
  raw_entry raw' i = raw_entry raw i.
Proof.
  intros H. unfold raw_entry. apply list_eq. intros j.
  destruct (decide (j < sizeof_raw)%nat) as [Hj|Hj].
  - rewrite !lookup_take_lt, !lookup_drop by done. apply H. lia.
  - by rewrite !lookup_take_ge by lia.
Qed.

Lemma raw_entry_splice raw i d :
  ((i + 1) * sizeof_raw <= length raw)%nat ->
  raw_entry (splice (i * sizeof_raw) (descriptor_bytes d) raw) i = descriptor_bytes d.
Proof.
  intros H. unfold raw_entry, splice.
  rewrite drop_app_length' by (rewrite length_take; lia).
  by rewrite take_app_length'.
Qed.

(** The loop from entry [length pre] on. *)
Lemma to_raw_loop desc (Hwf : Forall segment_descriptor_wf desc) ds : forall pre raw,
  desc = pre ++ ds -> (length desc * sizeof_raw <= length raw)%nat ->
  match for_loop (length ds) (Z.of_nat (length pre)) (fun i =>
          match desc !! Z.to_nat i with
          | Some d => encodeSegmentDescriptor (Z.to_nat i * sizeof_raw) d
          | None => fault
          end) raw with
  | Ok (_, raw') =>
      forallb encodable ds = true /\ length raw' = length raw /\
      (forall j d, ds !! j = Some d -> raw_entry raw' (length pre + j) = descriptor_bytes d) /\
      (forall b, (b < length pre * sizeof_raw \/ length desc * sizeof_raw <= b)%nat ->
                 raw' !! b = raw !! b)
  | Panic _ => forallb encodable ds = false
  | _ => False
  end.
Proof.
  induction ds as [|d ds IH]; intros pre raw E Hlen; cbn [for_loop length].
  { by repeat split. }
  unfold mbind at 1, M_bind at 1. rewrite Nat2Z.id.
  assert (Hd : desc !! length pre = Some d) by (rewrite E; by apply list_lookup_middle).
  assert (Hlt : (length desc = length pre + S (length ds))%nat) by (rewrite E, length_app; done).
  rewrite Hd. cbn [forallb]. destruct (encodable d) eqn:He.
  2:{ destruct (encode_panics (length pre * sizeof_raw) d raw He) as [msg ->]. done. }
  assert (Hwd : segment_descriptor_wf d) by (eapply Forall_lookup_1; eassumption).
  assert (Hfit : ((length pre + 1) * sizeof_raw <= length raw)%nat) by nia.
  destruct (wp_run _ _ _ (wp_encode (length pre * sizeof_raw) d raw Hwd He ltac:(lia)))
    as ([] & raw1 & -> & ->).
  assert (Hl1 : length (splice (length pre * sizeof_raw) (descriptor_bytes d) raw) = length raw).
  { apply length_splice. cbn [length descriptor_bytes]. unfold sizeof_raw in *. lia. }
  specialize (IH (pre ++ [d]) (splice (length pre * sizeof_raw) (descriptor_bytes d) raw)).
  rewrite length_app, Hl1, Nat2Z.inj_add in IH. cbn [length] in IH. change (Z.of_nat 1) with 1 in IH.
  specialize (IH ltac:(by rewrite E, <- app_assoc) Hlen).
  destruct (for_loop _ _ _ _) as [[u raw']| | |]; try done.
  destruct IH as (Hall & Hl' & Hent & Hout). split; [done|]. split; [done|].
  assert (Hframe : forall b, (b < length pre * sizeof_raw \/ (length pre + 1) * sizeof_raw <= b)%nat ->
    splice (length pre * sizeof_raw) (descriptor_bytes d) raw !! b = raw !! b).
  { intros b Hb. apply lookup_splice_out; cbn [length descriptor_bytes]; unfold sizeof_raw in *; lia. }
  split.
  - intros [|j] d' Hj; simpl in Hj.
    + injection Hj as <-. rewrite Nat.add_0_r.
      rewrite <- (raw_entry_splice raw (length pre) d Hfit).
      apply raw_entry_lookup. intros b Hb. apply Hout. lia.
    + rewrite <- (Hent j d' Hj). f_equal. lia.
  - intros b Hb. rewrite Hout, Hframe; unfold sizeof_raw in *; lia || done.
Qed.

(** The whole table. *)
Lemma to_raw_ok (desc : list segment_descriptor) (raw : list Z)
    (Hwf : Forall segment_descriptor_wf desc)
    (Hlen : (length desc * sizeof_raw <= length raw)%nat) :
  match segment_descriptor_to_raw desc (Z.of_nat (length desc)) raw with
  | Ok (_, raw') =>
      forallb encodable desc = true /\ length raw' = length raw /\
      (forall i d, desc !! i = Some d -> hw_decode (raw_entry raw' i) = Some (hw_view d)) /\
      (forall b, (length desc * sizeof_raw <= b)%nat -> raw' !! b = raw !! b)
  | Panic _ => forallb encodable desc = false
  | _ => False
  end.
Proof.
  unfold segment_descriptor_to_raw. rewrite Nat2Z.id.
  pose proof (to_raw_loop desc Hwf desc [] raw eq_refl Hlen) as H.
  change (Z.of_nat (length [])) with 0 in H.
  destruct (for_loop _ _ _ _) as [[u raw']| | |]; try done.
  destruct H as (Hall & Hl & Hent & Hout). repeat split; [done|done| |].
  - intros i d Hd. change i with (length (@nil segment_descriptor) + i)%nat; rewrite (Hent i d Hd).
    apply decode_descriptor_bytes; [by eapply Forall_lookup_1|].
    rewrite forallb_forall in Hall. apply Hall, list_elem_of_In, list_elem_of_lookup_2 with i, Hd.
  - intros b Hb. apply Hout. by right.
Qed.

(** ** Theorems *)

(** C38 (roundtrip): [segment_descriptor_to_raw] run on a table of well-formed
    descriptors either encodes all of them, and then the processor, decoding
    each eight-byte entry, reads back exactly the base, limit and access byte
    of the source descriptor with the 32-bit default size, and nothing beyond
    the table is written; or some limit above 20 bits does not end in twelve
    one bits, cannot be expressed, and the kernel panics.  It never writes out
    of bounds. *)
Theorem segment_descriptor_to_raw_spec (desc : list segment_descriptor) (raw : list Z)
    (Hwf : Forall segment_descriptor_wf desc)
    (Hlen : (length desc * sizeof_raw <= length raw)%nat) :
  match segment_descriptor_to_raw desc (Z.of_nat (length desc)) raw with
  | Ok (_, raw') =>
      forallb encodable desc = true /\ length raw' = length raw /\
      (forall i d, desc !! i = Some d -> hw_decode (raw_entry raw' i) = Some (hw_view d)) /\
      (forall b, (length desc * sizeof_raw <= b)%nat -> raw' !! b = raw !! b)
  | Panic _ => forallb encodable desc = false
  | _ => False
  end.
Proof. by apply to_raw_ok. Qed.

(** The kernel's own table, loaded over a zeroed raw table. *)
Lemma segment_descriptor_to_raw_spec_witness :
  match segment_descriptor_to_raw (gdt 0x105000) 6 (replicate 48 0) with
  | Ok (_, raw') =>
      hw_decode (raw_entry raw' 3) = Some (mk_hw 0 0xffffffff 0xF8 true false false) /\
      hw_decode (raw_entry raw' 5) = Some (mk_hw 0x105000 108 0xE9 true false false)
  | _ => False
  end.
Proof.
  pose proof (segment_descriptor_to_raw_spec (gdt 0x105000) (replicate 48 0)
    ltac:(unfold gdt; repeat (apply Forall_cons; split;
            [unfold segment_descriptor_wf, sizeof_tss; simpl; lia|]); apply Forall_nil_2)
    ltac:(vm_compute; lia)) as H.
  change (Z.of_nat (length (gdt 0x105000))) with 6 in H.
  destruct (segment_descriptor_to_raw (gdt 0x105000) 6 (replicate 48 0)) as [[u raw']| |msg|];
    [|exact H|vm_compute in H; discriminate|exact H].
  destruct H as (_ & _ & H & _).
  split; [exact (H 3%nat _ eq_refl) | exact (H 5%nat _ eq_refl)].
Defined.

End Gdt.
