(* ===== verification/Terminal.v ===== *)
(** * The text terminal: [src/print/print.c]

    The cursor is two 16-bit counters; the frame buffer is memory-mapped at
    [0xB8000], so the cell with index [i] is the 16-bit word at physical address
    [0xB8000 + 2 * i], with no bound on [i]: a cell beyond the screen is
    whatever memory lies there.  The cells are kept apart from the physical memory
    of the other files.  For the 1600 cells of the screen, which nothing else reads
    or writes, that loses nothing; statements about memory while text is printed are
    made of strings that fit on the screen and leave out its bytes. *)
From stdpp Require Import base gmap list numbers strings.
From S2P Require Import Prelude CString.
#[local] Open Scope Z_scope.

Module Terminal.
Import CString.

(** ** Data *)

Definition VGA_WIDTH : Z := 80.
Definition VGA_HEIGHT : Z := 20.
Definition BACKSPACE_ASCII_CHAR : Z := 0x08.

Record terminal := mk_terminal {
  terminal_row : Z;          (* uint16_t *)
  terminal_col : Z;          (* uint16_t *)
  video_mem : gmap Z Z;      (* 16-bit cells from 0xB8000 *)
}.

Definition set_row (v : Z) (t : terminal) : terminal :=
  mk_terminal (u16 v) (terminal_col t) (video_mem t).
Definition set_col (v : Z) (t : terminal) : terminal :=
  mk_terminal (terminal_row t) (u16 v) (video_mem t).

(** Physical address of a cell. *)
Definition cell_addr (i : Z) : Z := 0xB8000 + 2 * i.

(** ** Operations *)

(** Both arguments are [char]s, promoted to [int] with their sign. *)
Definition terminal_make_char (c color : Z) : Z :=
  u16 (Z.lor (Z.shiftl color 8) c).

Definition terminal_put_char (row col c color : Z) (t : terminal) : terminal :=
  mk_terminal (terminal_row t) (terminal_col t)
    (<[row * VGA_WIDTH + col := terminal_make_char c color]> (video_mem t)).

(** [terminal_write_char] and [terminal_backspace] call each other; [write] is
    the former, as the latter sees it. *)
Definition terminal_backspace (write : Z -> Z -> terminal -> terminal) (t : terminal)
    : terminal :=
  if (terminal_row t =? 0) && (terminal_col t =? 0) then t
  else
    let t := if terminal_col t =? 0
             then set_col VGA_WIDTH (set_row (terminal_row t - 1) t) else t in
    let t := set_col (terminal_col t - 1) t in
    let t := write 32 15 t in
    set_col (terminal_col t - 1) t.

(** [depth] bounds the nesting of the calls. *)
Fixpoint terminal_write_char_rec (depth : nat) (c color : Z) (t : terminal) : terminal :=
  match depth with
  | O => t
  | S depth' =>
      if c =? 10 then set_col 0 (set_row (terminal_row t + 1) t)
      else if c =? BACKSPACE_ASCII_CHAR
      then terminal_backspace (terminal_write_char_rec depth') t
      else
        let t := terminal_put_char (terminal_row t) (terminal_col t) c color t in
        let t := set_col (terminal_col t + 1) t in
        if terminal_col t >=? VGA_WIDTH
        then set_col 0 (set_row (terminal_row t + 1) t) else t
  end.

(** A backspace writes a blank and that call nests no further: depth 2. *)
Definition terminal_write_char (c color : Z) (t : terminal) : terminal :=
  terminal_write_char_rec 2 c color t.

Definition terminal_initialize (t : terminal) : terminal :=
  foldl (fun t row =>
    foldl (fun t col => terminal_put_char row col 32 0 t) t (seqZ 0 VGA_WIDTH))
    t (seqZ 0 VGA_HEIGHT).

(** [str] is the bytes from the pointer on. *)
Definition print (str : list Z) : M terminal unit :=
  lift_outcome (strlen str) ≫= fun len =>
  for_loop (Z.to_nat len) 0 (fun i =>
    lift_outcome (of_option (str !! Z.to_nat i)) ≫= fun b =>
    modify (terminal_write_char (s8 b) 15)).

(** ** Specification

    A screen is addressed by the linear position of the cursor: printing a byte
    fills the cell there and moves on, a newline moves to the start of the next
    row, a backspace steps back and blanks the cell it comes to. *)

(** The cell a byte leaves: white on black, unless the byte is negative as a
    [char]; its sign then spills over the attribute. *)
Definition cell_of (b : Z) : Z := if b <? 128 then 0x0F00 + b else 0xFF00 + b.

Definition screen_cells : Z := VGA_WIDTH * VGA_HEIGHT.

(** Where a byte takes the cursor, and the cells it leaves. *)
Definition advance (b p : Z) : Z :=
  if b =? 10 then (p / VGA_WIDTH + 1) * VGA_WIDTH
  else if b =? BACKSPACE_ASCII_CHAR then Z.max 0 (p - 1) else p + 1.

Definition mark (b p : Z) (cells : gmap Z Z) : gmap Z Z :=
  if b =? 10 then cells
  else if b =? BACKSPACE_ASCII_CHAR
  then (if p =? 0 then cells else <[p - 1 := cell_of 32]> cells)
  else <[p := cell_of b]> cells.

Fixpoint type_out (s : list Z) (p : Z) (cells : gmap Z Z) : Z * gmap Z Z :=
  match s with
  | [] => (p, cells)
  | b :: s' => type_out s' (advance b p) (mark b p cells)
  end.

Definition position (t : terminal) : Z := terminal_row t * VGA_WIDTH + terminal_col t.

(** The cursor is on the screen, or at the start of the row behind the last. *)
Definition on_screen (t : terminal) : Prop :=
  0 <= terminal_col t < VGA_WIDTH /\ 0 <= terminal_row t /\ position t <= screen_cells.

(** The string fits on the screen from [p] on: no byte is printed behind the last
    row, and no backspace comes at the start of a row other than the first. *)
Definition byte_fits (b p : Z) : Prop :=
  0 < b < 256 /\
  if b =? BACKSPACE_ASCII_CHAR then p = 0 \/ p mod VGA_WIDTH <> 0 else p < screen_cells.

Fixpoint fits (s : list Z) (p : Z) : Prop :=
  match s with
  | [] => True
  | b :: s' => byte_fits b p /\ fits s' (advance b p)
  end.

(** ** Lemmas *)

Lemma make_char_byte b : 0 <= b < 256 -> terminal_make_char (s8 b) 15 = cell_of b.
Proof.
  intros Hb. unfold terminal_make_char, cell_of. change (Z.shiftl 15 8) with 3840.
  destruct (Z.ltb_spec b 128) as [Hlt|Hge].
  - assert (s8 b = b) as -> by (unfold s8; zlia).
    rewrite (lor_low_bits 8) by (reflexivity || lia). apply u16_small. lia.
  - assert (s8 b = b - 256) as -> by (unfold s8; zlia).
    unfold u16. change 65536 with (2 ^ 16). apply Z.bits_inj'. intros i Hi.
    destruct (Z.lt_ge_cases i 16).
    2:{ rewrite Z.mod_pow2_bits_high by lia. symmetry. apply (testbit_high 16); lia. }
    rewrite Z.mod_pow2_bits_low, Z.lor_spec by lia.
    rewrite <- (lor_low_bits 8 65280 b) by (reflexivity || lia).
    replace (b - 256) with (-256 + b) by lia.
    rewrite <- (lor_low_bits 8 (-256) b) by (reflexivity || lia).
    rewrite !Z.lor_spec, orb_assoc. f_equal.
    assert (Hc : i = 0 \/ i = 1 \/ i = 2 \/ i = 3 \/ i = 4 \/ i = 5 \/ i = 6 \/ i = 7 \/ i = 8 \/
      i = 9 \/ i = 10 \/ i = 11 \/ i = 12 \/ i = 13 \/ i = 14 \/ i = 15) by lia.
    by destruct_or! Hc; subst i.
Qed.

(** A backspace on each of its branches.  At the origin it
    does nothing; past the first column it blanks the cell before the cursor and
    steps back onto it; at the start of a later row it blanks the last cell of
    the row above, but the cursor, which the blank has wrapped to the next row,
    is then decremented below zero: it stays on its row at column 65535. *)
Lemma terminal_backspace_spec (color : Z) (t : terminal) (Ht : 0 <= terminal_col t < VGA_WIDTH /\ 0 <= terminal_row t < 65536) :
  let t' := terminal_write_char BACKSPACE_ASCII_CHAR color t in
  let blank i := <[i := 0x0F20]> (video_mem t) in
  if terminal_col t =? 0 then
    if terminal_row t =? 0 then t' = t
    else t' = mk_terminal (terminal_row t) 65535 (blank (position t - 1))
  else t' = mk_terminal (terminal_row t) (terminal_col t - 1) (blank (position t - 1)).
Proof.
  destruct t as [row col vm]. destruct Ht as (Hc & Hr). cbn in Hc, Hr.
  unfold terminal_write_char, position, VGA_WIDTH in *. cbn [terminal_write_char_rec].
  change (BACKSPACE_ASCII_CHAR =? 10) with false.
  change (BACKSPACE_ASCII_CHAR =? BACKSPACE_ASCII_CHAR) with true.
  change (32 =? 10) with false. change (32 =? BACKSPACE_ASCII_CHAR) with false.
  unfold terminal_backspace, set_col, set_row, terminal_put_char, VGA_WIDTH. cbn -[u16].
  change (terminal_make_char 32 15) with 0x0F20.
  destruct (Z.eqb_spec col 0) as [->|Hc0]; [destruct (Z.eqb_spec row 0) as [->|Hr0]; [done|]|];
    rewrite ?andb_false_r; change (32 =? 10) with false; change (32 =? 8) with false;
    change (32 =? BACKSPACE_ASCII_CHAR) with false; cbn -[u16].
  - change (u16 80 - 1) with 79. change (u16 79) with 79. change (u16 (79 + 1)) with 80.
    change (80 >=? 80) with true. cbn -[u16]. rewrite (u16_small (row - 1)) by lia. 
    replace ((row - 1) * 80 + 79) with (row * 80 + 0 - 1) by lia.
    f_equal. rewrite u16_small; lia.
  - rewrite (u16_small (col - 1)) by lia.
    rewrite (u16_small (col - 1 + 1)) by lia. rewrite Z.geb_leb.
    destruct (Z.leb_spec 80 (col - 1 + 1)); [lia|]. cbn -[u16].
    
    replace (row * 80 + (col - 1)) with (row * 80 + col - 1) by lia.
    f_equal. rewrite u16_small; lia.
Qed.

(** A byte that fits. *)
Lemma write_char_fits b t :
  byte_fits b (position t) -> on_screen t ->
  let t' := terminal_write_char (s8 b) 15 t in
  on_screen t' /\
  position t' = advance b (position t) /\ video_mem t' = mark b (position t) (video_mem t).
Proof.
  intros [Hb Hf] (Hc & Hr & Hn). unfold advance, mark.
  destruct (Z.eqb_spec b BACKSPACE_ASCII_CHAR) as [->|Hbs].
  { change (s8 BACKSPACE_ASCII_CHAR) with BACKSPACE_ASCII_CHAR. change (BACKSPACE_ASCII_CHAR =? 10) with false. cbv iota.
    unfold position, screen_cells, VGA_WIDTH, VGA_HEIGHT in *.
    pose proof (terminal_backspace_spec 15 t ltac:(unfold VGA_WIDTH; lia)) as Ht. cbv zeta in Ht |- *.
    destruct (Z.eqb_spec (terminal_col t) 0) as [H0|H0].
    - destruct (Z.eqb_spec (terminal_row t) 0) as [H1|H1]; [rewrite Ht|zlia].
      unfold on_screen, position, screen_cells, VGA_WIDTH, VGA_HEIGHT. destruct (Z.eqb_spec (terminal_row t * 80 + terminal_col t) 0); [|lia]. split_and!; (done || lia).
    - rewrite Ht. unfold on_screen, position, screen_cells, VGA_WIDTH, VGA_HEIGHT. cbn [terminal_row terminal_col video_mem].
      destruct (Z.eqb_spec (terminal_row t * 80 + terminal_col t) 0); [lia|]. split_and!; (done || lia). }
  destruct t as [row col vm]. cbn in Hc, Hr. unfold position in *. cbn [terminal_row terminal_col video_mem] in *.
  unfold terminal_write_char. cbn [terminal_write_char_rec].
  assert (Hs10 : (s8 b =? 10) = (b =? 10)) by (unfold s8; case_bools; zlia).
  assert (Hs8 : (s8 b =? BACKSPACE_ASCII_CHAR) = false) by (unfold s8, BACKSPACE_ASCII_CHAR in *; case_bools; zlia).
  rewrite Hs10, Hs8. unfold on_screen, position, screen_cells, VGA_WIDTH, VGA_HEIGHT in *.
  destruct (Z.eqb_spec b 10) as [->|Hnl]; unfold set_col, set_row; cbn -[u16].
  - rewrite (u16_small (row + 1)) by lia. change (u16 0) with 0. split_and!; (done || zlia).
  - rewrite (u16_small (col + 1)), make_char_byte by lia.
    rewrite Z.geb_leb. destruct (Z.leb_spec 80 (col + 1)); cbn -[u16].
    + rewrite (u16_small (row + 1)) by lia. change (u16 0) with 0. split_and!; (done || lia).
    + split_and!; (done || lia).
Qed.

Lemma type_out_app s1 s2 p cells :
  type_out (s1 ++ s2) p cells =
  let '(p1, cells1) := type_out s1 p cells in type_out s2 p1 cells1.
Proof. revert p cells. induction s1 as [|b s1 IH]; intros p cells; [done|apply IH]. Qed.

(** What fits leaves the cells outside the screen alone. *)
Lemma type_out_frame s p cells i :
  0 <= p <= screen_cells -> fits s p -> i < 0 \/ screen_cells <= i ->
  snd (type_out s p cells) !! i = cells !! i.
Proof.
  unfold screen_cells, VGA_WIDTH, VGA_HEIGHT. revert p cells. induction s as [|b s IH]; intros p cells Hp Hf Hi; [done|].
  destruct Hf as [[Hb Hfb] Hf]. cbn [type_out].
  unfold screen_cells, VGA_WIDTH, VGA_HEIGHT in Hfb. unfold advance, mark, VGA_WIDTH in *.
  destruct (Z.eqb_spec b BACKSPACE_ASCII_CHAR) as [->|Hbs].
  - change (BACKSPACE_ASCII_CHAR =? 10) with false in *. cbv iota in *. rewrite IH by (done || lia).
    destruct (Z.eqb_spec p 0); [done|]. apply lookup_insert_ne. lia.
  - destruct (b =? 10); rewrite IH by (done || zlia); [done|]. apply lookup_insert_ne. lia.
Qed.

(** The loop of [print]: after [i] iterations the first [i] bytes are typed. *)
Lemma wp_print_loop s rest t :
  on_screen t -> fits s (position t) ->
  wp (for_loop (length s) 0 (fun i =>
        lift_outcome (of_option ((s ++ 0 :: rest) !! Z.to_nat i)) ≫= fun b =>
        modify (terminal_write_char (s8 b) 15))) t
    (fun _ t' => on_screen t' /\
                 (position t', video_mem t') = type_out s (position t) (video_mem t)).
Proof.
  intros Ht Hs.
  eapply wp_mono.
  { apply (wp_for_loop (fun i t' => 0 <= i /\ on_screen t' /\ fits (drop (Z.to_nat i) s) (position t') /\
      (position t', video_mem t') = type_out (take (Z.to_nat i) s) (position t) (video_mem t))).
    - done.
    - intros i t1 Hi (_ & H1 & F1 & E1). apply wp_bind.
      destruct (lookup_lt_is_Some_2 s (Z.to_nat i)) as [b Hb]; [lia|].
      unfold wp at 1, lift_outcome. rewrite lookup_app_l, Hb by lia. cbn -[terminal_write_char].
      rewrite (drop_S _ _ _ Hb) in F1. destruct F1 as [Fb F1].
      destruct (write_char_fits b t1 Fb H1) as (H2 & E2 & E3).
      unfold wp, modify. replace (Z.to_nat (i + 1)) with (S (Z.to_nat i)) by lia.
      split; [lia|]. split; [exact H2|]. rewrite E2, E3. split; [exact F1|].
      rewrite (take_S_r _ _ _ Hb), type_out_app, <- E1. done. }
  intros [] t' (_ & H1 & _ & E1). rewrite take_ge in E1 by lia. done.
Qed.

(** Whatever the cursor, [print] of a terminated string returns. *)
Lemma print_total buf s t : cstring buf s -> exists t', print buf t = Ok (tt, t').
Proof.
  intros Hc.
  assert (H : wp (print buf) t (fun _ _ => True)).
  { unfold print. apply wp_bind. unfold wp at 1, lift_outcome. rewrite (strlen_cstring _ _ Hc).
    cbn -[for_loop]. rewrite Nat2Z.id. destruct Hc as [_ [rest ->]].
    eapply wp_mono; [apply (wp_for_loop (fun _ _ => True)); [done|]|done].
    intros i t1 Hi _. apply wp_bind.
    destruct (lookup_lt_is_Some_2 s (Z.to_nat i)) as [b Hb]; [lia|].
    unfold wp at 1, lift_outcome. by rewrite lookup_app_l, Hb by lia. }
  destruct (wp_run _ _ _ H) as ([] & t' & -> & _). by exists t'.
Qed.

(** ** Theorems *)

Lemma fits_nonzero s : forall p, fits s p -> Forall nonzero s.
Proof.
  induction s as [|b s IH]; intros p; [by intros _|]. intros [[Hb _] Hf]. apply Forall_cons.
  split; [unfold nonzero; lia|by eapply IH].
Qed.

(** Printing a terminated string that fits. *)
Lemma print_run s rest t :
  on_screen t -> fits s (position t) ->
  exists t', print (s ++ 0 :: rest) t = Ok (tt, t') /\ on_screen t' /\
    (position t', video_mem t') = type_out s (position t) (video_mem t) /\
    (forall i, i < 0 \/ screen_cells <= i -> video_mem t' !! i = video_mem t !! i).
Proof.
  intros Ht Hs. destruct (wp_run _ _ _ (wp_print_loop s rest t Ht Hs)) as ([] & t' & Hrun & Hc & E).
  exists t'. split; [|split; [done|split; [done|]]].
  - unfold print, mbind, M_bind at 1, lift_outcome at 1. rewrite (strlen_cstring _ s).
    + cbn -[for_loop]. rewrite Nat2Z.id. exact Hrun.
    + split; [by eapply fits_nonzero|by exists rest].
  - intros i Hi. rewrite <- (type_out_frame s (position t) (video_mem t) i), <- E; [done| |done|done].
    destruct Ht as (? & ? & ?). unfold position, VGA_WIDTH in *. lia.
Qed.

(** C30 (refinement): [print] of a NUL-terminated string that fits on the screen, 20
    rows of 80 cells, from a cursor on the screen: newlines, backspaces and printed
    bytes move the cursor as on the abstract screen, each printed byte is in the cell
    it passed with the attribute 15 (or 0xFF when the byte is negative as a [char]), a
    backspace leaves a blank in the cell it steps back to, the cursor stays on the
    screen, and no cell outside the screen is written.  That the string fits means
    that nothing is printed behind the last row, where the terminal does not scroll,
    and that no backspace comes at the start of a row but the first, where the cursor
    is lost ([terminal_backspace_spec]). *)
Theorem print_spec (s rest : list Z) (t : terminal)
    (Ht : on_screen t) (Hs : fits s (position t)) :
  exists t', print (s ++ 0 :: rest) t = Ok (tt, t') /\ on_screen t' /\
    (position t', video_mem t') = type_out s (position t) (video_mem t) /\
    (forall i, i < 0 \/ screen_cells <= i -> video_mem t' !! i = video_mem t !! i).
Proof. by apply print_run. Qed.

Lemma print_spec_witness :
  let t := mk_terminal 3 78 ∅ in
  exists t', print [72; 105; 33; 63; 8; 10; 62; 0] t = Ok (tt, t') /\
    position t' = 401 /\ video_mem t' !! 318 = Some 0x0F48 /\ video_mem t' !! 320 = Some 0x0F21 /\
    video_mem t' !! 321 = Some 0x0F20.
Proof.
  intros t.
  destruct (print_spec [72; 105; 33; 63; 8; 10; 62] [] t) as (t' & H & _ & E & _).
  - unfold on_screen, position, screen_cells, VGA_WIDTH, VGA_HEIGHT. simpl. lia.
  - vm_compute. repeat split; (discriminate || (right; discriminate)).
  - exists t'. split; [exact H|].
    pose proof (f_equal fst E) as Hp. pose proof (f_equal snd E) as Hv. cbn [fst snd] in Hp, Hv.
    rewrite Hp, Hv. vm_compute. repeat split.
Defined.

Lemma terminal_backspace_spec_witness :
  terminal_write_char BACKSPACE_ASCII_CHAR 15 (mk_terminal 4 0 ∅) =
  mk_terminal 4 65535 (<[319 := 0x0F20]> ∅).
Proof.
  apply (terminal_backspace_spec 15 (mk_terminal 4 0 ∅)).
  unfold VGA_WIDTH. simpl. lia.
Defined.

Lemma seqZ_one x : seqZ x 1 = [x].
Proof. unfold seqZ. cbn. done. Qed.

(** A row of the screen filled from column 0. *)
Lemma put_row_lookup row c cols t i :
  0 <= cols ->
  let t' := foldl (fun t col => terminal_put_char row col c 0 t) t (seqZ 0 cols) in
  terminal_row t' = terminal_row t /\ terminal_col t' = terminal_col t /\
  video_mem t' !! i =
    if decide (row * VGA_WIDTH <= i < row * VGA_WIDTH + cols)
    then Some (terminal_make_char c 0) else video_mem t !! i.
Proof.
  intros Hc. pattern cols. apply natlike_ind; [| |done].
  - cbn. rewrite decide_False by lia. done.
  - intros x Hx (H1 & H2 & H3). rewrite <- Z.add_1_r, seqZ_app, foldl_app, Z.add_0_l, seqZ_one by lia. cbn.
    split; [done|]. split; [done|]. destruct (decide (i = row * VGA_WIDTH + x)) as [->|Hne].
    + rewrite lookup_insert_eq, decide_True by lia. done.
    + rewrite lookup_insert_ne, H3 by done. repeat case_decide; try done; lia.
Qed.

(** [terminal_initialize] blanks exactly the 1600 cells of the
    screen, whatever they held, and leaves the cursor and all other memory. *)
Lemma terminal_initialize_spec (t : terminal) (i : Z) :
  let t' := terminal_initialize t in
  terminal_row t' = terminal_row t /\ terminal_col t' = terminal_col t /\
  video_mem t' !! i =
    if decide (0 <= i < VGA_WIDTH * VGA_HEIGHT) then Some 0x0020 else video_mem t !! i.
Proof.
  unfold terminal_initialize, VGA_HEIGHT.
  assert (H : forall rows, 0 <= rows ->
    let t' := foldl (fun t row =>
      foldl (fun t col => terminal_put_char row col 32 0 t) t (seqZ 0 VGA_WIDTH)) t (seqZ 0 rows) in
    terminal_row t' = terminal_row t /\ terminal_col t' = terminal_col t /\
    video_mem t' !! i =
      if decide (0 <= i < VGA_WIDTH * rows) then Some 0x0020 else video_mem t !! i);
    [|apply H; lia].
  intros rows Hr. pattern rows. apply natlike_ind; [| |done].
  - cbn. rewrite decide_False by lia. done.
  - intros x Hx (H1 & H2 & H3). rewrite <- Z.add_1_r, seqZ_app, foldl_app, Z.add_0_l, seqZ_one by lia.
    cbn [foldl]. destruct (put_row_lookup x 32 VGA_WIDTH (foldl (fun t row =>
      foldl (fun t col => terminal_put_char row col 32 0 t) t (seqZ 0 VGA_WIDTH)) t (seqZ 0 x)) i)
      as (-> & -> & ->); [unfold VGA_WIDTH; lia|]. split; [done|]. split; [done|]. rewrite H3.
    change (terminal_make_char 32 0) with 0x0020. unfold VGA_WIDTH.
    repeat case_decide; try done; lia.
Qed.

(** The terminal does not scroll: after 1844 newlines the next byte lands at
    the megabyte mark, where the kernel image is loaded. *)
Example print_leaves_the_frame_buffer :
  exists t, print (replicate 1844 10 ++ [120; 0]) (mk_terminal 0 0 ∅) = Ok (tt, t) /\
    video_mem t = {[ 147520 := 0x0F78 ]} /\ 0x100000 <= cell_addr 147520.
Proof. eexists. split; [vm_compute; reflexivity|]. split; [reflexivity|]. unfold cell_addr. lia. Qed.

End Terminal.
