(* ===== verification/Idt.v ===== *)
(** * Interrupt tables: [src/idt/idt.c], [src/isr80h/isr80h.c]

    The three tables interrupts are dispatched through: the descriptor table
    the processor reads, the handlers registered for interrupt numbers, and the
    kernel routines registered for system call numbers.  A C function pointer
    stored in one of the last two tables is the name of the function; a gate
    holds a 32-bit address, and the addresses the linker gives are parameters. *)
From stdpp Require Import base list numbers strings.
From S2P Require Import Prelude Config.
#[local] Open Scope Z_scope.

Module Idt.

(** ** Data *)

Definition CONIFEROS_TOTAL_INTERRUPTS : Z := 512.

Record idt_entry := mk_idt_entry {
  offset_1 : Z;     (* uint16_t *)
  selector : Z;     (* uint16_t *)
  zero : Z;         (* uint8_t *)
  type_attr : Z;    (* uint8_t *)
  offset_2 : Z;     (* uint16_t *)
}.

Definition sizeof_idt_entry : Z := 8.

(** The functions whose addresses the kernel stores in its tables. *)
Inductive ISR80H_COMMAND :=
| isr80h_command_0_sum
| isr80h_command_1_print
| isr80h_command_2_get_key_press
| isr80h_command_3_put_char_on_display
| isr80h_command_4_malloc
| isr80h_command_5_free
| isr80h_command_6_execve
| isr80h_command_7_exit.

Inductive INTERRUPT_HANDLER :=
| idt_handle_user_process_exception
| ps2_keyboard_handle_interrupt.

#[export] Instance ISR80H_COMMAND_eq_dec : EqDecision ISR80H_COMMAND.
Proof. solve_decision. Defined.
#[export] Instance INTERRUPT_HANDLER_eq_dec : EqDecision INTERRUPT_HANDLER.
Proof. solve_decision. Defined.

Record idt_state := mk_idt_state {
  idt : list idt_entry;
  idtr : Z * Z;                                           (* limit, base *)
  loaded_idtr : option (Z * Z);                           (* the processor's register *)
  interrupt_handlers : list (option INTERRUPT_HANDLER);
  isr80h_commands : list (option ISR80H_COMMAND);
}.

Definition set_idt (v : list idt_entry) (s : idt_state) : idt_state :=
  mk_idt_state v (idtr s) (loaded_idtr s) (interrupt_handlers s) (isr80h_commands s).
Definition set_idtr (v : Z * Z) (s : idt_state) : idt_state :=
  mk_idt_state (idt s) v (loaded_idtr s) (interrupt_handlers s) (isr80h_commands s).
Definition set_loaded_idtr (v : option (Z * Z)) (s : idt_state) : idt_state :=
  mk_idt_state (idt s) (idtr s) v (interrupt_handlers s) (isr80h_commands s).
Definition set_interrupt_handlers (v : list (option INTERRUPT_HANDLER)) (s : idt_state) : idt_state :=
  mk_idt_state (idt s) (idtr s) (loaded_idtr s) v (isr80h_commands s).
Definition set_isr80h_commands (v : list (option ISR80H_COMMAND)) (s : idt_state) : idt_state :=
  mk_idt_state (idt s) (idtr s) (loaded_idtr s) (interrupt_handlers s) v.

(** ** Operations *)

Definition idt_set (i handler : Z) : M idt_state unit := fun s =>
  if (0 <=? i) && (i <? Z.of_nat (length (idt s)))
  then
    let entry := mk_idt_entry (Z.land (u32 handler) 0x0000ffff) KERNEL_CODE_SELECTOR 0x00 0xEE
                              (u16 (Z.shiftr (u32 handler) 16)) in
    Ok (tt, set_idt (<[Z.to_nat i := entry]> (idt s)) s)
  else Fault.

Definition idt_register_interrupt_handler (interrupt : Z) (interrupt_handler : INTERRUPT_HANDLER)
    : M idt_state Z := fun s =>
  if (interrupt <? 0) || (interrupt >=? CONIFEROS_TOTAL_INTERRUPTS) then Ok (- EINVARG, s)
  else
    if decide (Z.to_nat interrupt < length (interrupt_handlers s))%nat
    then Ok (0, set_interrupt_handlers
                  (<[Z.to_nat interrupt := Some interrupt_handler]> (interrupt_handlers s)) s)
    else Fault.

Definition register_handler_for_exceptions : M idt_state unit :=
  for_loop (Z.to_nat 0x20) 0 (fun i =>
    idt_register_interrupt_handler i idt_handle_user_process_exception ≫= fun _ => mret tt).

Section Boot.

(** Addresses fixed by the linker: the assembly stubs of [idt.asm], the table
    [idt] itself, [idt_zero] and [isr80h_wrapper]. *)
Variables (interrupt_pointer_table : list Z) (idt_addr idt_zero isr80h_wrapper : Z).

Definition idt_init : M idt_state unit :=
  modify (fun s => set_idt (replicate (length (idt s)) (mk_idt_entry 0 0 0 0 0)) s) ≫= fun _ =>
  modify (set_idtr (u16 (CONIFEROS_TOTAL_INTERRUPTS * sizeof_idt_entry - 1), u32 idt_addr)) ≫= fun _ =>
  for_loop (Z.to_nat CONIFEROS_TOTAL_INTERRUPTS) 0 (fun i =>
    lift_outcome (of_option (interrupt_pointer_table !! Z.to_nat i)) ≫= fun p => idt_set i p) ≫= fun _ =>
  idt_set 0 idt_zero ≫= fun _ =>
  idt_set 0x80 isr80h_wrapper ≫= fun _ =>
  register_handler_for_exceptions ≫= fun _ =>
  modify (fun s => set_loaded_idtr (Some (idtr s)) s).

End Boot.

Definition isr80h_register_command (command_id : Z) (command : ISR80H_COMMAND)
    : M idt_state unit := fun s =>
  if (command_id <? 0) || (command_id >=? MAX_ISR80H_COMMANDS)
  then Panic "The command_id is out of bounds\n"
  else
    match isr80h_commands s !! Z.to_nat command_id with
    | None => Fault
    | Some (Some _) => Panic "You're attempting to overwrite an existing command\n"
    | Some None =>
        Ok (tt, set_isr80h_commands (<[Z.to_nat command_id := Some command]> (isr80h_commands s)) s)
    end.

Definition isr80h_register_commands : M idt_state unit :=
  isr80h_register_command 0 isr80h_command_0_sum ≫= fun _ =>
  isr80h_register_command 1 isr80h_command_1_print ≫= fun _ =>
  isr80h_register_command 2 isr80h_command_2_get_key_press ≫= fun _ =>
  isr80h_register_command 3 isr80h_command_3_put_char_on_display ≫= fun _ =>
  isr80h_register_command 4 isr80h_command_4_malloc ≫= fun _ =>
  isr80h_register_command 5 isr80h_command_5_free ≫= fun _ =>
  isr80h_register_command 6 isr80h_command_6_execve ≫= fun _ =>
  isr80h_register_command 7 isr80h_command_7_exit.

(** The static tables at boot: zeroed. *)
Definition boot_state : idt_state :=
  mk_idt_state (replicate 512 (mk_idt_entry 0 0 0 0 0)) (0, 0) None
    (replicate 512 None) (replicate 1024 None).

(** ** What the processor reads from a gate *)

Record gate := mk_gate {
  gate_offset : Z;
  gate_selector : Z;
  gate_type : Z;       (* 14: 32-bit interrupt gate *)
  gate_dpl : Z;
  gate_present : bool;
}.

Definition hw_gate (e : idt_entry) : gate :=
  mk_gate (offset_1 e + 65536 * offset_2 e) (selector e) (type_attr e mod 32)
          (type_attr e / 32 mod 4) (Z.testbit (type_attr e) 7).

(** ** Invariant: the static sizes of the tables *)

Definition sizes (s : idt_state) : Prop :=
  length (idt s) = 512%nat /\ length (interrupt_handlers s) = 512%nat /\
  length (isr80h_commands s) = 1024%nat.

(** ** Lemmas *)

(** A user-callable 32-bit interrupt gate into the kernel code segment. *)
Definition kernel_gate (handler : Z) : gate := mk_gate handler 0x08 14 3 true.

Definition gate_entry (handler : Z) : idt_entry :=
  mk_idt_entry (Z.land (u32 handler) 0xffff) KERNEL_CODE_SELECTOR 0x00 0xEE
    (u16 (Z.shiftr (u32 handler) 16)).

Lemma hw_gate_entry handler :
  0 <= handler < 2 ^ 32 -> hw_gate (gate_entry handler) = kernel_gate handler.
Proof.
  intros Hh. unfold hw_gate, gate_entry, kernel_gate. cbn [offset_1 offset_2 selector type_attr].
  rewrite u32_small by lia. change 0xffff with (Z.ones 16).
  rewrite Z.land_ones, Z.shiftr_div_pow2 by lia. unfold u16.
  change (2 ^ 16) with 65536. f_equal. zlia.
Qed.

Lemma wp_idt_set i handler s (Q : unit -> idt_state -> Prop) :
  0 <= i < Z.of_nat (length (idt s)) ->
  Q tt (set_idt (<[Z.to_nat i := gate_entry handler]> (idt s)) s) ->
  wp (idt_set i handler) s Q.
Proof.
  intros Hi HQ. unfold wp, idt_set.
  rewrite (proj2 (Z.leb_le _ _)), (proj2 (Z.ltb_lt _ _)) by lia. exact HQ.
Qed.

Lemma wp_register_exceptions s :
  length (interrupt_handlers s) = 512%nat ->
  wp register_handler_for_exceptions s (fun _ s' => s' =
    set_interrupt_handlers
      (replicate 32 (Some idt_handle_user_process_exception) ++ drop 32 (interrupt_handlers s)) s).
Proof.
  intros Hlen. unfold register_handler_for_exceptions.
  eapply wp_mono.
  { apply (wp_for_loop (fun i s' => s' = set_interrupt_handlers
      (replicate (Z.to_nat i) (Some idt_handle_user_process_exception)
         ++ drop (Z.to_nat i) (interrupt_handlers s)) s)).
    - destruct s. done.
    - intros i s' Hi ->. apply wp_bind. unfold wp at 1, idt_register_interrupt_handler.
      change CONIFEROS_TOTAL_INTERRUPTS with 512.
      rewrite (proj2 (Z.ltb_ge i 0)), Z.geb_leb, (proj2 (Z.leb_gt 512 i)) by lia.
      cbn [orb interrupt_handlers set_interrupt_handlers].
      rewrite decide_True by (rewrite length_app, length_replicate, length_drop; lia).
      apply wp_ret. unfold set_interrupt_handlers. cbn. f_equal.
      rewrite insert_app_r_alt by (rewrite length_replicate; lia).
      rewrite length_replicate, Nat.sub_diag.
      destruct (drop (Z.to_nat i) (interrupt_handlers s)) as [|h hs] eqn:E.
      { apply (f_equal length) in E. rewrite length_drop in E. simpl in E. lia. }
      replace (Z.to_nat (i + 1)) with (S (Z.to_nat i)) by lia.
      rewrite replicate_S_end, <- app_assoc. cbn. f_equal. f_equal.
      change (S (Z.to_nat i)) with (1 + Z.to_nat i)%nat.
      rewrite Nat.add_comm, <- drop_drop, E. done. }
  intros [] s' ->. done.
Qed.

(** The gates the boot loop installs. *)
Lemma wp_install_gates tbl s :
  length tbl = 512%nat -> length (idt s) = 512%nat ->
  wp (for_loop 512 0 (fun i =>
        lift_outcome (of_option (tbl !! Z.to_nat i)) ≫= fun p => idt_set i p)) s
    (fun _ s' => s' = set_idt (map gate_entry tbl) s).
Proof.
  intros Ht Hs. eapply wp_mono.
  { apply (wp_for_loop (fun i s' => s' = set_idt
      (map gate_entry (take (Z.to_nat i) tbl) ++ drop (Z.to_nat i) (idt s)) s)).
    - destruct s. done.
    - intros i s' Hi ->. apply wp_bind.
      destruct (lookup_lt_is_Some_2 tbl (Z.to_nat i)) as [p Hp]; [lia|].
      unfold wp at 1, lift_outcome. rewrite Hp. cbn -[idt_set].
      apply wp_idt_set; cbn [idt set_idt].
      { rewrite length_app, length_map, length_take, length_drop. lia. }
      unfold set_idt. cbn. f_equal.
      rewrite insert_app_r_alt by (rewrite length_map, length_take; lia).
      rewrite length_map, length_take, Nat.min_l, Nat.sub_diag by lia.
      destruct (drop (Z.to_nat i) (idt s)) as [|e es] eqn:E.
      { apply (f_equal length) in E. rewrite length_drop in E. simpl in E. lia. }
      replace (Z.to_nat (i + 1)) with (S (Z.to_nat i)) by lia.
      rewrite (take_S_r _ _ _ Hp), map_app, <- app_assoc. cbn. f_equal. f_equal.
      change (S (Z.to_nat i)) with (1 + Z.to_nat i)%nat.
      rewrite Nat.add_comm, <- drop_drop, E. done. }
  intros [] s' ->. change (Z.to_nat (0 + Z.of_nat 512)) with 512%nat.
  rewrite take_ge, drop_ge, app_nil_r by lia. done.
Qed.

(** The state [idt_init] leaves. *)
Definition initialised (tbl : list Z) (idt_addr idt_zero isr80h_wrapper : Z) (s : idt_state) : idt_state :=
  mk_idt_state
    (<[128%nat := gate_entry isr80h_wrapper]> (<[0%nat := gate_entry idt_zero]> (map gate_entry tbl)))
    (4095, idt_addr) (Some (4095, idt_addr))
    (replicate 32 (Some idt_handle_user_process_exception) ++ drop 32 (interrupt_handlers s))
    (isr80h_commands s).

Lemma wp_idt_init tbl idt_addr idt_zero isr80h_wrapper s :
  length tbl = 512%nat -> sizes s -> 0 <= idt_addr < 2 ^ 32 ->
  wp (idt_init tbl idt_addr idt_zero isr80h_wrapper) s
    (fun _ s' => s' = initialised tbl idt_addr idt_zero isr80h_wrapper s).
Proof.
  intros Htbl (Hi & Hh & Hc) Ha.
  unfold idt_init. apply wp_bind. unfold wp at 1, modify. apply wp_bind. unfold wp at 1.
  change (u16 (CONIFEROS_TOTAL_INTERRUPTS * sizeof_idt_entry - 1)) with 4095.
  rewrite (u32_small idt_addr) by lia. apply wp_bind.
  change (Z.to_nat CONIFEROS_TOTAL_INTERRUPTS) with 512%nat.
  eapply wp_mono; [apply wp_install_gates; [done|]; cbn; by rewrite length_replicate|].
  intros [] s' ->. apply wp_bind, wp_idt_set; [cbn; rewrite length_map; lia|].
  apply wp_bind, wp_idt_set; [cbn; rewrite length_insert, length_map; lia|].
  apply wp_bind. eapply wp_mono; [by apply wp_register_exceptions|]. intros [] s' ->.
  reflexivity.
Qed.

(** Each gate of that state, as the processor decodes it. *)
Lemma initialised_gate tbl idt_addr idt_zero isr80h_wrapper s i e :
  length tbl = 512%nat ->
  Forall (fun p => 0 <= p < 2 ^ 32) (idt_zero :: isr80h_wrapper :: tbl) ->
  idt (initialised tbl idt_addr idt_zero isr80h_wrapper s) !! i = Some e ->
  hw_gate e = kernel_gate (if decide (i = 0%nat) then idt_zero
                           else if decide (i = 128%nat) then isr80h_wrapper
                           else default 0 (tbl !! i)).
Proof.
  intros Htbl Haddr He. cbn in He.
  apply Forall_cons_1 in Haddr as [Hz Haddr]. apply Forall_cons_1 in Haddr as [Hw Haddr].
  destruct (decide (i = 128%nat)) as [->|H1].
  { rewrite list_lookup_insert_eq in He by (rewrite length_insert, length_map; lia).
    injection He as <-. by apply hw_gate_entry. }
  rewrite list_lookup_insert_ne in He by done. destruct (decide (i = 0%nat)) as [->|H0].
  { rewrite list_lookup_insert_eq in He by (rewrite length_map; lia).
    injection He as <-. by apply hw_gate_entry. }
  rewrite list_lookup_insert_ne in He by done. rewrite list_lookup_fmap in He.
  destruct (tbl !! i) as [p|] eqn:Ep; [|done]. injection He as <-. apply hw_gate_entry.
  exact (Forall_lookup_1 _ _ _ _ Haddr Ep).
Qed.

(** ** Theorems *)

(** C39 (functional): [idt_init] loads a table of 512 present, user-callable
    interrupt gates, each of which the processor decodes to the address of its
    assembly stub, gate 0 to [idt_zero] and gate 0x80 to the system call
    wrapper; it registers the process-terminating handler for exactly the 32
    processor exceptions and leaves the other handlers and the system calls. *)
Theorem idt_init_spec (tbl : list Z) (idt_addr idt_zero isr80h_wrapper : Z) (s : idt_state)
    (Htbl : length tbl = 512%nat) (Hs : sizes s)
    (Haddr : Forall (fun p => 0 <= p < 2 ^ 32) (idt_addr :: idt_zero :: isr80h_wrapper :: tbl)) :
  exists s', idt_init tbl idt_addr idt_zero isr80h_wrapper s = Ok (tt, s') /\ sizes s' /\
    loaded_idtr s' = Some (4095, idt_addr) /\
    (forall i e, idt s' !! i = Some e ->
       hw_gate e = kernel_gate (if decide (i = 0%nat) then idt_zero
                                else if decide (i = 128%nat) then isr80h_wrapper
                                else default 0 (tbl !! i))) /\
    (forall i, (i < 32)%nat ->
       interrupt_handlers s' !! i = Some (Some idt_handle_user_process_exception)) /\
    (forall i, (32 <= i)%nat -> interrupt_handlers s' !! i = interrupt_handlers s !! i) /\
    isr80h_commands s' = isr80h_commands s.
Proof.
  pose proof Hs as (Hi & Hh & Hc). apply Forall_cons_1 in Haddr as [Ha Haddr].
  destruct (wp_run _ _ _ (wp_idt_init tbl idt_addr idt_zero isr80h_wrapper s Htbl Hs Ha))
    as ([] & s' & Hrun & ->).
  exists (initialised tbl idt_addr idt_zero isr80h_wrapper s). split; [done|].
  split; [repeat split; cbn; [by rewrite !length_insert, length_map|rewrite length_drop; lia|done]|].
  split; [done|]. split; [|split; [|split; [|done]]].
  - intros i e. by apply initialised_gate.
  - intros i Hlt. unfold initialised. cbn [interrupt_handlers].
    rewrite lookup_app_l by (rewrite length_replicate; lia). by apply lookup_replicate_2.
  - intros i Hge. unfold initialised. cbn [interrupt_handlers].
    rewrite lookup_app_r by (rewrite length_replicate; lia).
    rewrite length_replicate, lookup_drop. f_equal. lia.
Qed.

Lemma idt_init_spec_witness :
  exists s', idt_init (map (fun i => 0x100100 + 16 * i) (seqZ 0 512)) 0x108000 0x101000 0x102000
               boot_state = Ok (tt, s') /\
    option_map hw_gate (idt s' !! 33%nat) = Some (kernel_gate 0x100310) /\
    option_map hw_gate (idt s' !! 128%nat) = Some (kernel_gate 0x102000).
Proof.
  destruct (idt_init_spec (map (fun i => 0x100100 + 16 * i) (seqZ 0 512)) 0x108000 0x101000
    0x102000 boot_state) as (s' & Hrun & Hs & _ & Hg & _).
  - reflexivity.
  - repeat split.
  - apply Forall_forall. intros x Hx. rewrite !elem_of_cons in Hx.
    destruct Hx as [->|[->|[->|Hx]]]; [lia..|].
    apply list_elem_of_fmap in Hx as (i & -> & Hi). apply elem_of_seqZ in Hi. lia.
  - exists s'. split; [exact Hrun|]. destruct Hs as (Hl & _ & _).
    destruct (lookup_lt_is_Some_2 (idt s') 33) as [e He]; [lia|].
    destruct (lookup_lt_is_Some_2 (idt s') 128) as [e' He']; [lia|].
    rewrite He, He'. cbn [option_map]. rewrite (Hg 33%nat e He), (Hg 128%nat e' He'). split; reflexivity.
Defined.

(** Registering a system call fills exactly its slot when the
    number is in range and the slot is free, and stops the kernel otherwise; it
    never writes outside the table and never replaces a registered routine. *)
Lemma isr80h_register_command_spec (id : Z) (c : ISR80H_COMMAND) (s : idt_state) (Hs : sizes s) :
  match isr80h_register_command id c s with
  | Ok (_, s') =>
      0 <= id < MAX_ISR80H_COMMANDS /\ isr80h_commands s !! Z.to_nat id = Some None /\
      s' = set_isr80h_commands (<[Z.to_nat id := Some c]> (isr80h_commands s)) s /\ sizes s'
  | Panic _ => ~ (0 <= id < MAX_ISR80H_COMMANDS) \/
               exists c', isr80h_commands s !! Z.to_nat id = Some (Some c')
  | _ => False
  end.
Proof.
  destruct Hs as (Hi & Hh & Hc). unfold isr80h_register_command.
  destruct (Z.ltb_spec id 0); [cbn; lia|]. rewrite Z.geb_leb.
  destruct (Z.leb_spec MAX_ISR80H_COMMANDS id); cbn [orb]; [lia|].
  destruct (lookup_lt_is_Some_2 (isr80h_commands s) (Z.to_nat id)) as [o Ho].
  { unfold MAX_ISR80H_COMMANDS in *. lia. }
  rewrite Ho. destruct o as [c'|]; [by right; exists c'|].
  repeat split; try done; try lia. cbn. by rewrite length_insert.
Qed.

Lemma isr80h_register_command_spec_witness :
  match isr80h_register_command 1024 isr80h_command_7_exit boot_state with
  | Panic _ => ~ (0 <= 1024 < MAX_ISR80H_COMMANDS) \/
               exists c', isr80h_commands boot_state !! Z.to_nat 1024 = Some (Some c')
  | _ => False
  end.
Proof.
  pose proof (isr80h_register_command_spec 1024 isr80h_command_7_exit boot_state
                ltac:(repeat split)) as H.
  destruct (isr80h_register_command 1024 isr80h_command_7_exit boot_state) as [[u s']| | |] eqn:E;
    [vm_compute in E; discriminate|exact H|exact H|exact H].
Defined.

(** With the first eight slots free, [isr80h_register_commands]
    binds each system call number of the enumeration to its routine and changes
    no other slot; run a second time it stops the kernel at the first one. *)
Lemma isr80h_register_commands_ok (s : idt_state)
    (Hfree : take 8 (isr80h_commands s) = replicate 8 None) :
  exists s', isr80h_register_commands s = Ok (tt, s') /\
    isr80h_commands s' =
      map Some [isr80h_command_0_sum; isr80h_command_1_print; isr80h_command_2_get_key_press;
                isr80h_command_3_put_char_on_display; isr80h_command_4_malloc;
                isr80h_command_5_free; isr80h_command_6_execve; isr80h_command_7_exit]
      ++ drop 8 (isr80h_commands s) /\
    idt s' = idt s /\ interrupt_handlers s' = interrupt_handlers s /\
    exists msg, isr80h_register_commands s' = Panic msg.
Proof.
  destruct s as [gates reg lreg hs cmds]. cbn in Hfree.
  rewrite <- (take_drop 8 cmds), Hfree. generalize (drop 8 cmds). intros rest.
  eexists. split; [reflexivity|]. split; [reflexivity|]. split; [reflexivity|].
  split; [reflexivity|]. eexists. reflexivity.
Qed.

End Idt.
