(* ===== verification/Keyboard.v ===== *)
(** * Keyboards: [src/keyboard/keyboard.c], [src/keyboard/ps2_keyboard.c]

    Every process owns a ring buffer of 1024 characters.  The interrupt handler
    of the PS/2 driver pushes into the buffer of the current process; the system
    call that reads a key pops from the buffer of the current task's process.
    A free cell of the ring holds 0, and that, not the distance of head and
    tail, is how a pop sees that the buffer is empty. *)
From stdpp Require Import base gmap list numbers strings.
From S2P Require Import Prelude Config CString Terminal KernelHeap KState Disk Idt.
#[local] Open Scope Z_scope.

Module Keyboard.
Import Terminal Idt.

(** ** Data *)

(** [struct keyboard_buffer]; the cells are [char] values. *)
Record keyboard_buffer := mk_keyboard_buffer {
  buffer : list Z;
  head : Z;      (* int *)
  tail : Z;      (* int *)
}.

Definition set_buffer (v : list Z) (k : keyboard_buffer) := mk_keyboard_buffer v (head k) (tail k).
Definition set_head (v : Z) (k : keyboard_buffer) := mk_keyboard_buffer (buffer k) v (tail k).
Definition set_tail (v : Z) (k : keyboard_buffer) := mk_keyboard_buffer (buffer k) (head k) v.

(** The only driver's init function. *)
Inductive keyboard_init_function := ps2_keyboard_init_fn.

(** [struct keyboard], less its name. *)
Record keyboard := mk_keyboard {
  init : option keyboard_init_function;
  next : Z;
}.

(** What the keyboard layer reads and writes: the buffer of each process and
    the process of each task, by address, the two globals that name the current
    ones, the list of drivers, the terminal, the interrupt tables and the
    devices behind the I/O ports. *)
Record kbd (D : Type) := mk_kbd {
  buffers : gmap Z keyboard_buffer;
  task_process : gmap Z Z;
  current_process : Z;
  current_task : Z;
  keyboards : gmap Z keyboard;
  keyboard_list_head : Z;
  keyboard_list_last : Z;
  screen : terminal;
  tables : idt_state;
  ports : D;
}.
Arguments mk_kbd {D}.
Arguments buffers {D}.
Arguments task_process {D}.
Arguments current_process {D}.
Arguments current_task {D}.
Arguments keyboards {D}.
Arguments keyboard_list_head {D}.
Arguments keyboard_list_last {D}.
Arguments screen {D}.
Arguments tables {D}.
Arguments ports {D}.

Definition KEYBOARD_INTERRUPT_NO : Z := 0x21.
Definition PS2_PORT : Z := 0x64.
Definition PS2_COMMAND_ENABLE_FIRST_PORT : Z := 0xAE.
Definition KEY_RELEASED_BIT : Z := 0x80.
Definition PS2_DATA_PORT : Z := 0x60.

(** Scan code set one. *)
Definition keyboard_scan_set_one : list Z :=
  [ 0x00; 0x1B; 49; 50; 51; 52; 53;
    54; 55; 56; 57; 48; 45; 61;
    0x08; 9; 81; 87; 69; 82; 84;
    89; 85; 73; 79; 80; 91; 93;
    0x0d; 0x00; 65; 83; 68; 70; 71;
    72; 74; 75; 76; 59; 39; 96;
    0x00; 92; 90; 88; 67; 86; 66;
    78; 77; 44; 46; 47; 0x00; 42;
    0x00; 0x20; 0x00; 0x00; 0x00; 0x00;
    0x00; 0x00; 0x00; 0x00; 0x00; 0x00;
    0x00; 55; 56; 57; 45; 52; 53;
    54; 43; 49; 50; 51; 48; 46 ].

Section Layer.
Context {D : Type} {Po : PortIO D}.
#[local] Abbreviation St := (kbd D).

Definition set_buffers (v : gmap Z keyboard_buffer) (s : St) : St :=
  mk_kbd v (task_process s) (current_process s) (current_task s) (keyboards s)
    (keyboard_list_head s) (keyboard_list_last s) (screen s) (tables s) (ports s).
Definition set_keyboards (v : gmap Z keyboard) (s : St) : St :=
  mk_kbd (buffers s) (task_process s) (current_process s) (current_task s) v
    (keyboard_list_head s) (keyboard_list_last s) (screen s) (tables s) (ports s).
Definition set_keyboard_list (h l : Z) (s : St) : St :=
  mk_kbd (buffers s) (task_process s) (current_process s) (current_task s) (keyboards s)
    h l (screen s) (tables s) (ports s).
Definition set_screen (v : terminal) (s : St) : St :=
  mk_kbd (buffers s) (task_process s) (current_process s) (current_task s) (keyboards s)
    (keyboard_list_head s) (keyboard_list_last s) v (tables s) (ports s).
Definition set_tables (v : idt_state) (s : St) : St :=
  mk_kbd (buffers s) (task_process s) (current_process s) (current_task s) (keyboards s)
    (keyboard_list_head s) (keyboard_list_last s) (screen s) v (ports s).
Definition set_ports (v : D) (s : St) : St :=
  mk_kbd (buffers s) (task_process s) (current_process s) (current_task s) (keyboards s)
    (keyboard_list_head s) (keyboard_list_last s) (screen s) (tables s) v.

(** Calls into the terminal and the interrupt tables; port accesses. *)
Definition on_screen_of {A} (m : M terminal A) : M St A := zoom screen set_screen m.
Definition on_tables {A} (m : M idt_state A) : M St A := zoom tables set_tables m.
Definition in8 (port : Z) : M St Z := fun s =>
  let '(v, d) := insb port (ports s) in Ok (u8 v, set_ports d s).
Definition out8 (port val : Z) : M St unit := fun s =>
  Ok (tt, set_ports (outb port (u8 val) (ports s)) s).

(** The fields of [process->keyboard_buffer]. *)
Definition load_buffer (process : Z) : M St keyboard_buffer := fun s =>
  k ← of_option (buffers s !! process); Ok (k, s).
Definition store_buffer (process : Z) (k : keyboard_buffer) : M St unit := fun s =>
  Ok (tt, set_buffers (<[process := k]> (buffers s)) s).

(** A string literal, with its newline and terminator. *)
Definition line (s : string) : list Z :=
  map (fun c => Z.of_N (Ascii.N_of_ascii c)) (String.list_ascii_of_string s) ++ [10; 0].
Definition literal (s : string) : list Z :=
  map (fun c => Z.of_N (Ascii.N_of_ascii c)) (String.list_ascii_of_string s) ++ [0].

(** ** The ring buffer: [keyboard.c] *)

(** [tail + 1] is an [int]; [sizeof] makes the remainder unsigned. *)
Definition increment_tail (process : Z) : M St unit :=
  k ← load_buffer process;
  let next_tail_val := s32 (u32 (tail k + 1) mod KEYBOARD_BUFFER_SIZE) in
  _ ← (if next_tail_val =? head k
       then on_screen_of (print (line "ERROR: Keyboard buffer overflow")) else mret tt);
  store_buffer process (set_tail (s32 (u32 (tail k + 1) mod KEYBOARD_BUFFER_SIZE)) k).

(** [buffer[i] = v]. *)
Definition put_cell (process i v : Z) : M St unit :=
  k ← load_buffer process;
  if (0 <=? i) && (i <? Z.of_nat (length (buffer k)))
  then store_buffer process (set_buffer (<[Z.to_nat i := v]> (buffer k)) k)
  else fault.

Definition keyboard_push (c : Z) : M St unit :=
  process ← gets current_process;
  if process =? 0 then mret tt
  else if c =? 0x00 then mret tt
  else
    k ← load_buffer process;
    _ ← put_cell process (tail k) c;
    increment_tail process.

Definition increment_head (process : Z) : M St unit :=
  k ← load_buffer process;
  store_buffer process (set_head (s32 (u32 (head k + 1) mod KEYBOARD_BUFFER_SIZE)) k).

Definition decrement_tail (process : Z) : M St unit :=
  k ← load_buffer process;
  if tail k =? head k then mret tt
  else if tail k =? 0 then store_buffer process (set_tail KEYBOARD_BUFFER_SIZE k)
  else store_buffer process (set_tail (tail k - 1) k).

Definition keyboard_backspace (process : Z) : M St unit :=
  _ ← decrement_tail process;
  k ← load_buffer process;
  store_buffer process (set_tail 0x00 k).

Definition keyboard_pop : M St Z :=
  task ← gets current_task;
  if task =? 0 then mret 0
  else
    process ← (fun s => p ← of_option (task_process s !! task); Ok (p, s));
    k ← load_buffer process;
    val ← (if 0 <=? head k then lift_outcome (of_option (buffer k !! Z.to_nat (head k))) else fault);
    if val =? 0x00 then mret 0
    else
      _ ← put_cell process (head k) 0;
      _ ← increment_head process;
      mret val.

(** ** The PS/2 driver: [ps2_keyboard.c] *)

Definition enable_ps2_first_port : M St unit := out8 PS2_PORT PS2_COMMAND_ENABLE_FIRST_PORT.

Definition ps2_keyboard_init : M St Z :=
  _ ← on_tables (idt_register_interrupt_handler KEYBOARD_INTERRUPT_NO ps2_keyboard_handle_interrupt);
  _ ← enable_ps2_first_port;
  mret 0.

(** The result is a [uint8_t]. *)
Definition ps2_keyboard_scancode_to_char (scancode : Z) : M St Z :=
  let num_elements_scan_set := Z.of_nat (length keyboard_scan_set_one) in
  if scancode >? num_elements_scan_set
  then
    _ ← on_screen_of (print (literal "ps2_keyboard.c scancode_to_char: invalid argument"));
    mret (u8 (- EINVARG))
  else
    b ← lift_outcome (of_option (keyboard_scan_set_one !! Z.to_nat scancode));
    mret (u8 (s8 b)).

Definition handle_interrupt : M St unit :=
  scancode ← in8 PS2_DATA_PORT;
  _ ← in8 PS2_DATA_PORT;
  if negb (Z.land scancode KEY_RELEASED_BIT =? 0) then mret tt
  else
    c ← ps2_keyboard_scancode_to_char scancode;
    if c >? 0 then keyboard_push (s8 c) else mret tt.

(** ** The list of drivers *)

Definition run_init (f : keyboard_init_function) : M St Z :=
  match f with ps2_keyboard_init_fn => ps2_keyboard_init end.

Definition load_keyboard (p : Z) : M St keyboard := fun s =>
  k ← of_option (keyboards s !! p); Ok (k, s).

Definition keyboard_insert (p : Z) : M St Z :=
  k ← load_keyboard p;
  match init k with
  | None => mret (- EINVARG)
  | Some f =>
      last ← gets keyboard_list_last;
      _ ← (if negb (last =? 0)
           then
             l ← load_keyboard last;
             _ ← modify (fun s => set_keyboards (<[last := mk_keyboard (init l) p]> (keyboards s)) s);
             modify (fun s => set_keyboard_list (keyboard_list_head s) p s)
           else modify (set_keyboard_list p p));
      run_init f
  end.

(** [ps2_keyboard] is the address of the driver's structure. *)
Definition keyboard_init (ps2_keyboard : Z) : M St unit :=
  _ ← keyboard_insert ps2_keyboard; mret tt.

End Layer.

(** ** The abstract keyboard: a queue *)

Inductive key_event := Push (c : Z) | Pop.

(** The outputs of the pops and the queue left; an empty queue pops 0, and a 0
    pushed is not a key. *)
Fixpoint fifo (q : list Z) (es : list key_event) : list Z * list Z :=
  match es with
  | [] => ([], q)
  | Push c :: es' => fifo (if c =? 0 then q else q ++ [c]) es'
  | Pop :: es' =>
      let '(outs, q') := fifo (list.tail q) es' in (default 0 (list.head q) :: outs, q')
  end.

(** The queue never holds more than a buffer. *)
Fixpoint fits (q : list Z) (es : list key_event) : bool :=
  match es with
  | [] => true
  | Push c :: es' =>
      ((c =? 0) || (Z.of_nat (length q) <? KEYBOARD_BUFFER_SIZE))
      && fits (if c =? 0 then q else q ++ [c]) es'
  | Pop :: es' => fits (list.tail q) es'
  end.

(** The same events on the kernel's buffers. *)
Fixpoint run_events {D} (es : list key_event) : M (kbd D) (list Z) :=
  match es with
  | [] => mret []
  | Push c :: es' => _ ← keyboard_push c; run_events es'
  | Pop :: es' => v ← keyboard_pop; outs ← run_events es'; mret (v :: outs)
  end.

(** The ring [k] holds the queue [q], the cells from [head] on. *)
Definition ring_rep (k : keyboard_buffer) (q : list Z) : Prop :=
  length (buffer k) = 1024%nat /\ 0 <= head k < 1024 /\
  tail k = (head k + Z.of_nat (length q)) mod 1024 /\ Z.of_nat (length q) <= 1024 /\
  Forall (fun c => c <> 0) q /\
  (forall i, 0 <= i < 1024 ->
     buffer k !! Z.to_nat ((head k + i) mod 1024) = Some (default 0 (q !! Z.to_nat i))).

(** A fresh process's buffer: zeroed. *)
Definition empty_buffer : keyboard_buffer := mk_keyboard_buffer (replicate 1024 0) 0 0.

Lemma ring_rep_empty : ring_rep empty_buffer [].
Proof.
  unfold ring_rep. cbn [buffer head tail empty_buffer length].
  do 5 (split; [try done; try lia; by apply Forall_nil_2|]). intros i Hi.
  apply lookup_replicate_2. change 1024%nat with (Z.to_nat 1024).
  pose proof (Z.mod_pos_bound (0 + i) 1024). lia.
Qed.

(** Two offsets from the head fall on one cell only when they are equal. *)
Lemma ring_index_inj h i j :
  0 <= i < 1024 -> 0 <= j < 1024 -> Z.to_nat ((h + i) mod 1024) = Z.to_nat ((h + j) mod 1024) ->
  i = j.
Proof. intros Hi Hj E. zlia. Qed.

Lemma ring_index_lt x : (Z.to_nat (x mod 1024) < 1024)%nat.
Proof. zlia. Qed.

Lemma next_index x : 0 <= x < 1024 -> s32 (u32 (x + 1) mod KEYBOARD_BUFFER_SIZE) = (x + 1) mod 1024.
Proof.
  intros Hx. rewrite u32_small by lia. unfold KEYBOARD_BUFFER_SIZE. apply s32_small. zlia.
Qed.

(** Writing the cell at the tail appends to the queue. *)
Lemma ring_push k q c :
  ring_rep k q -> Z.of_nat (length q) < 1024 -> c <> 0 ->
  ring_rep (mk_keyboard_buffer (<[Z.to_nat (tail k) := c]> (buffer k)) (head k)
              ((tail k + 1) mod 1024)) (q ++ [c]).
Proof.
  intros (Hl & Hh & Ht & Hq & Hnz & Hb) Hlt Hc. unfold ring_rep. cbn [buffer head tail].
  rewrite length_insert, length_app, Nat2Z.inj_add. cbn [length]. change (Z.of_nat 1) with 1.
  split; [done|]. split; [done|]. split; [rewrite Ht; zlia|]. split; [lia|].
  split; [apply Forall_app; split; [done|by apply Forall_singleton]|].
  intros i Hi. rewrite Ht. destruct (decide (i = Z.of_nat (length q))) as [->|Hne].
  - rewrite list_lookup_insert_eq by (rewrite Hl; apply ring_index_lt).
    rewrite Nat2Z.id, list_lookup_middle by done. done.
  - rewrite list_lookup_insert_ne.
    2:{ intros E. apply Hne. symmetry. eapply (ring_index_inj (head k)); [lia|lia|exact E]. }
    rewrite Hb by done. f_equal. destruct (decide (i < Z.of_nat (length q))).
    + by rewrite lookup_app_l by lia.
    + rewrite !lookup_ge_None_2; [done| |]; rewrite ?length_app; simpl; lia.
Qed.

(** Clearing the cell at the head removes the oldest key. *)
Lemma ring_pop k c q :
  ring_rep k (c :: q) ->
  buffer k !! Z.to_nat (head k) = Some c /\
  ring_rep (mk_keyboard_buffer (<[Z.to_nat (head k) := 0]> (buffer k)) ((head k + 1) mod 1024)
              (tail k)) q.
Proof.
  intros (Hl & Hh & Ht & Hq & Hnz & Hb). cbn [length] in Ht, Hq. rewrite Nat2Z.inj_succ in Ht, Hq.
  assert (Hhd : (head k + 0) mod 1024 = head k) by (rewrite Z.add_0_r; apply Z.mod_small; lia).
  split. { pose proof (Hb 0 ltac:(lia)) as H0. rewrite Hhd in H0. exact H0. }
  unfold ring_rep. cbn [buffer head tail]. rewrite length_insert.
  split; [done|]. split; [zlia|]. split; [rewrite Ht; zlia|]. split; [lia|].
  split; [by apply Forall_cons_1 in Hnz as [_ ?]|].
  intros i Hi.
  assert (E : ((head k + 1) mod 1024 + i) mod 1024 = (head k + (i + 1)) mod 1024) by zlia.
  rewrite E. destruct (decide (i = 1023)) as [->|Hne].
  - assert ((head k + (1023 + 1)) mod 1024 = head k) as -> by zlia.
    rewrite list_lookup_insert_eq by (rewrite Hl; lia).
    rewrite lookup_ge_None_2; [done|]. lia.
  - rewrite list_lookup_insert_ne.
    2:{ intros E'. rewrite <- Hhd in E' at 1. apply ring_index_inj in E'; lia. }
    rewrite Hb by lia. replace (Z.to_nat (i + 1)) with (S (Z.to_nat i)) by lia. done.
Qed.

(** An empty ring holds 0 at its head. *)
Lemma ring_empty k : ring_rep k [] -> buffer k !! Z.to_nat (head k) = Some 0.
Proof.
  intros (Hl & Hh & _ & _ & _ & Hb). specialize (Hb 0 ltac:(lia)).
  rewrite Z.add_0_r, Z.mod_small in Hb by lia. exact Hb.
Qed.

(** ** Pushes and pops on the kernel's state *)

Section Runs.
Context {D : Type} {Po : PortIO D}.
#[local] Abbreviation St := (kbd D).

(** The literals the layer prints are C strings. *)
Lemma c_literal (l l' : list Z) :
  forallb (fun c => negb (c =? 0)) l = true -> CString.cstring (l ++ 0 :: l') l.
Proof.
  intros H. split; [|by exists l']. apply Forall_forall. intros c Hc.
  rewrite forallb_forall in H. apply list_elem_of_In in Hc. specialize (H c Hc).
  unfold CString.nonzero. by destruct (Z.eqb_spec c 0).
Qed.

Lemma overflow_message_prints t : exists t', print (line "ERROR: Keyboard buffer overflow") t = Ok (tt, t').
Proof.
  eapply print_total.
  apply (c_literal (take 32 (line "ERROR: Keyboard buffer overflow")) []). reflexivity.
Qed.

Lemma invalid_message_prints t :
  exists t', print (literal "ps2_keyboard.c scancode_to_char: invalid argument") t = Ok (tt, t').
Proof.
  eapply print_total.
  apply (c_literal (take 49 (literal "ps2_keyboard.c scancode_to_char: invalid argument")) []).
  reflexivity.
Qed.

Lemma wp_load_buffer p k (s : St) (Q : keyboard_buffer -> St -> Prop) :
  buffers s !! p = Some k -> Q k s -> wp (load_buffer p) s Q.
Proof. intros Hk HQ. unfold wp, load_buffer. by rewrite Hk. Qed.

Lemma wp_put_cell p k i v (s : St) (Q : unit -> St -> Prop) :
  buffers s !! p = Some k -> 0 <= i < Z.of_nat (length (buffer k)) ->
  Q tt (set_buffers (<[p := set_buffer (<[Z.to_nat i := v]> (buffer k)) k]> (buffers s)) s) ->
  wp (put_cell p i v) s Q.
Proof.
  intros Hk Hi HQ. unfold put_cell. apply wp_bind. eapply wp_load_buffer; [done|].
  rewrite (proj2 (Z.leb_le _ _)), (proj2 (Z.ltb_lt _ _)) by lia. exact HQ.
Qed.

(** What a step on the ring of process [p] may change. *)
Definition steps_to (p : Z) (k : keyboard_buffer) (s s' : St) : Prop :=
  exists t, s' = set_screen t (set_buffers (<[p := k]> (buffers s)) s).

Lemma wp_increment_tail p k (s : St) :
  buffers s !! p = Some k -> 0 <= tail k < 1024 ->
  wp (increment_tail p) s (fun _ s' => exists t,
    s' = set_screen t (set_buffers (<[p := set_tail ((tail k + 1) mod 1024) k]> (buffers s)) s) /\
    ((tail k + 1) mod 1024 <> head k -> t = screen s)).
Proof.
  intros Hk Ht. unfold increment_tail. apply wp_bind. eapply wp_load_buffer; [done|].
  rewrite next_index by done. apply wp_bind. destruct (Z.eqb_spec ((tail k + 1) mod 1024) (head k)).
  - unfold wp at 1, on_screen_of, zoom.
    destruct (overflow_message_prints (screen s)) as [t ->].
    exists t. split; [reflexivity|]. done.
  - apply wp_ret. exists (screen s). split; [by destruct s|done].
Qed.

(** A key pushed with room in the ring. *)
Lemma wp_keyboard_push c k q (s : St) :
  current_process s <> 0 -> buffers s !! current_process s = Some k -> ring_rep k q ->
  c <> 0 -> Z.of_nat (length q) < 1024 ->
  wp (keyboard_push c) s (fun _ s' =>
    exists k', steps_to (current_process s) k' s s' /\ ring_rep k' (q ++ [c])).
Proof.
  intros Hp Hk Hr Hc Hq. unfold keyboard_push. apply wp_bind. unfold wp at 1, gets.
  rewrite (proj2 (Z.eqb_neq _ _) Hp), (proj2 (Z.eqb_neq c 0x00) Hc).
  assert (Ht : 0 <= tail k < 1024) by (destruct Hr as (_ & _ & -> & _); zlia).
  apply wp_bind. eapply wp_load_buffer; [done|].
  apply wp_bind. eapply wp_put_cell; [done|destruct Hr as (-> & _); lia|].
  eapply wp_mono; [eapply wp_increment_tail; [apply lookup_insert_eq|done]|].
  intros [] s' (t & -> & _). eexists. split; [|by apply ring_push].
  exists t. unfold set_screen, set_buffers. cbn. by rewrite insert_insert_eq.
Qed.

(** A pop: the oldest key, or 0. *)
Lemma wp_keyboard_pop p k q (s : St) :
  current_task s <> 0 -> task_process s !! current_task s = Some p ->
  buffers s !! p = Some k -> ring_rep k q ->
  wp keyboard_pop s (fun v s' => v = default 0 (list.head q) /\
    exists k', steps_to p k' s s' /\ ring_rep k' (list.tail q)).
Proof.
  intros Ht Hp Hk Hr. unfold keyboard_pop. apply wp_bind. unfold wp at 1, gets.
  rewrite (proj2 (Z.eqb_neq _ _) Ht). apply wp_bind. unfold wp at 1. rewrite Hp. cbn [mbind outcome_bind of_option].
  apply wp_bind. eapply wp_load_buffer; [done|].
  assert (Hh : 0 <= head k < 1024) by apply Hr. rewrite (proj2 (Z.leb_le _ _)) by lia.
  destruct q as [|c q].
  - apply wp_bind. unfold wp at 1, lift_outcome. rewrite ring_empty by done.
    apply wp_ret. split; [done|]. exists k. split; [|done]. exists (screen s).
    rewrite insert_id by done. by destruct s.
  - destruct (ring_pop _ _ _ Hr) as [Hc Hr'].
    assert (Hc0 : c <> 0) by (destruct Hr as (_ & _ & _ & _ & Hnz & _); by apply Forall_cons_1 in Hnz as [? _]).
    apply wp_bind. unfold wp at 1, lift_outcome. rewrite Hc. cbn [of_option mbind outcome_bind].
    rewrite (proj2 (Z.eqb_neq c 0x00) Hc0).
    apply wp_bind. eapply wp_put_cell; [done|destruct Hr as (-> & _); lia|].
    apply wp_bind. unfold increment_head. apply wp_bind.
    eapply wp_load_buffer; [apply lookup_insert_eq|].
    unfold wp at 1, store_buffer. apply wp_ret. split; [done|]. eexists. split; [|exact Hr'].
    exists (screen s). unfold set_head, set_buffer. cbn [head buffer tail]. rewrite next_index by done.
    unfold set_screen, set_buffers. cbn. by rewrite insert_insert_eq.
Qed.

(** The current process is the one whose task is running, and holds [q]. *)
Definition session (p : Z) (q : list Z) (s : St) : Prop :=
  p <> 0 /\ current_process s = p /\ current_task s <> 0 /\
  task_process s !! current_task s = Some p /\
  exists k, buffers s !! p = Some k /\ ring_rep k q.

(** What a session leaves alone. *)
Definition same_but (p : Z) (s s' : St) : Prop :=
  current_process s' = current_process s /\ current_task s' = current_task s /\
  task_process s' = task_process s /\ ports s' = ports s /\ tables s' = tables s /\
  (forall p', p' <> p -> buffers s' !! p' = buffers s !! p').

Lemma same_but_refl p s : same_but p s s.
Proof. by repeat split. Qed.

Lemma same_but_trans p s1 s2 s3 : same_but p s1 s2 -> same_but p s2 s3 -> same_but p s1 s3.
Proof.
  intros (?&?&?&?&?&H12) (?&?&?&?&?&H23). do 5 (split; [congruence|]).
  intros p' Hp. by rewrite H23, H12.
Qed.

(** A ring step stays within the session. *)
Lemma session_step p q q' k s s' :
  session p q s -> steps_to p k s s' -> ring_rep k q' -> session p q' s' /\ same_but p s s'.
Proof.
  intros (Hp & Hc & Ht & Htp & _) [t ->] Hr. split.
  - split; [done|]. split; [done|]. split; [done|]. split; [done|].
    exists k. split; [apply lookup_insert_eq|done].
  - do 5 (split; [done|]). intros p' Hp'. by apply lookup_insert_ne.
Qed.

(** The simulation, one event at a time. *)
Lemma wp_run_events p es : forall q (s : St),
  session p q s -> fits q es = true ->
  wp (run_events es) s (fun outs s' => outs = (fifo q es).1 /\ session p (fifo q es).2 s' /\
                                       same_but p s s').
Proof.
  induction es as [|[c|] es IH]; intros q s Hs Hf; cbn [run_events fifo fits] in *.
  - apply wp_ret. split; [done|]. split; [done|]. apply same_but_refl.
  - apply andb_true_iff in Hf as [Hroom Hf]. apply wp_bind.
    assert (H : wp (keyboard_push c) s (fun _ s' =>
              session p (if c =? 0 then q else q ++ [c]) s' /\ same_but p s s')).
    { pose proof Hs as (Hp & Hc & Ht & Htp & k & Hk & Hr). destruct (Z.eqb_spec c 0) as [->|Hc0].
      - unfold keyboard_push. apply wp_bind. unfold wp at 1, gets. rewrite Hc.
        rewrite (proj2 (Z.eqb_neq p 0) Hp). split; [done|apply same_but_refl].
      - unfold KEYBOARD_BUFFER_SIZE in Hroom. cbn [orb] in Hroom.
        eapply wp_mono; [apply (wp_keyboard_push c k q); rewrite ?Hc; auto; lia|].
        intros [] s' (k' & Hst & Hr'). rewrite Hc in Hst. by eapply session_step. }
    eapply wp_mono; [exact H|]. intros [] s1 [H1 F1].
    eapply wp_mono; [by apply IH|]. intros outs s2 (-> & H2 & F2).
    split; [done|]. split; [done|]. by eapply same_but_trans.
  - pose proof Hs as (Hp & Hc & Ht & Htp & k & Hk & Hr). apply wp_bind.
    eapply wp_mono; [by apply (wp_keyboard_pop p k q)|]. intros v s1 (-> & k' & Hst & Hr').
    destruct (session_step _ _ _ _ _ _ Hs Hst Hr') as [H1 F1]. apply wp_bind.
    eapply wp_mono; [by apply IH|]. intros outs s2 (-> & H2 & F2). apply wp_ret.
    destruct (fifo (list.tail q) es) as [outs q']. split; [done|]. split; [done|].
    by eapply same_but_trans.
Qed.

(** Bit 7 of a scan code is set from 128 on. *)
Lemma release_bit sc :
  0 <= sc < 256 -> Z.land sc KEY_RELEASED_BIT = if 128 <=? sc then 128 else 0.
Proof.
  intros Hsc.
  assert (H : forallb (fun x => Z.land x KEY_RELEASED_BIT =? (if 128 <=? x then 128 else 0))
                      (seqZ 0 256) = true) by reflexivity.
  rewrite forallb_forall in H. apply Z.eqb_eq, H, list_elem_of_In, elem_of_seqZ. lia.
Qed.

Lemma scan_set_ascii i b : keyboard_scan_set_one !! i = Some b -> 0 <= b < 128.
Proof.
  intros Hb.
  assert (H : forallb (fun x => (0 <=? x) && (x <? 128)) keyboard_scan_set_one = true) by reflexivity.
  rewrite forallb_forall in H. specialize (H b).
  assert (Hin : (0 <=? b) && (b <? 128) = true); [|lia].
  by apply H, list_elem_of_In, list_elem_of_lookup_2 with i.
Qed.

(** ** Theorems *)

(** C15 (refinement): any interleaving of key presses and reads on the running
    process behaves as a first-in first-out queue, as long as no more than 1024
    keys are ever pending: the reads return exactly the keys pressed, in order,
    and 0 when there is none; the ring ends up holding the keys left, and no
    other process's buffer is touched. *)
Theorem keyboard_fifo (p : Z) (q : list Z) (es : list key_event) (s : St)
    (Hs : session p q s) (Hfits : fits q es = true) :
  exists s', run_events es s = Ok ((fifo q es).1, s') /\ session p (fifo q es).2 s' /\
    same_but p s s'.
Proof.
  destruct (wp_run _ _ _ (wp_run_events p es q s Hs Hfits)) as (outs & s' & E & -> & H & F).
  by exists s'.
Qed.

(** C37 (error): the PS/2 interrupt handler on every scan code.  It reads two
    bytes from the data port and looks at the first.  A key release and a key
    without a character change nothing else; a key of the table is pushed; scan
    code 82, one past the table, reads outside it; any other code prints an
    error and then pushes the error code, truncated to the character 0xFE. *)
Theorem ps2_handle_interrupt_spec (s : St) :
  let '(v, d1) := insb PS2_DATA_PORT (ports s) in
  let '(_, d2) := insb PS2_DATA_PORT d1 in
  let scancode := u8 v in
  let s2 := set_ports d2 (set_ports d1 s) in
  if 128 <=? scancode then handle_interrupt s = Ok (tt, s2)
  else match keyboard_scan_set_one !! Z.to_nat scancode with
       | Some 0 => handle_interrupt s = Ok (tt, s2)
       | Some c => handle_interrupt s = keyboard_push c s2
       | None => if scancode =? 82 then handle_interrupt s = Fault
                 else exists t, handle_interrupt s = keyboard_push (-2) (set_screen t s2)
       end.
Proof.
  destruct (insb PS2_DATA_PORT (ports s)) as [v d1] eqn:E1.
  destruct (insb PS2_DATA_PORT d1) as [v2 d2] eqn:E2. cbv zeta.
  assert (Hrun : handle_interrupt s =
    (if negb (Z.land (u8 v) KEY_RELEASED_BIT =? 0) then mret tt
     else c ← ps2_keyboard_scancode_to_char (u8 v);
          if c >? 0 then keyboard_push (s8 c) else mret tt) (set_ports d2 (set_ports d1 s))).
  { unfold handle_interrupt, mbind at 1, M_bind at 1, in8. rewrite E1.
    unfold mbind at 1, M_bind at 1. cbn [ports set_ports]. by rewrite E2. }
  rewrite Hrun. clear Hrun. generalize (set_ports d2 (set_ports d1 s)). intros s2.
  pose proof (u8_range v) as Hv. generalize dependent (u8 v). intros sc Hsc. rewrite release_bit by done.
  destruct (Z.leb_spec 128 sc) as [Hrel|Hpress]; [reflexivity|].
  change (negb (0 =? 0)) with false. cbv iota. unfold ps2_keyboard_scancode_to_char.
  change (Z.of_nat (length keyboard_scan_set_one)) with 82. rewrite Z.gtb_ltb.
  destruct (keyboard_scan_set_one !! Z.to_nat sc) as [b|] eqn:Eb.
  - pose proof (lookup_lt_Some _ _ _ Eb) as Hlt. change (length keyboard_scan_set_one) with 82%nat in Hlt.
    pose proof (scan_set_ascii _ _ Eb) as Hb. rewrite (proj2 (Z.ltb_ge 82 sc)) by lia.
    assert (Es : s8 b = b) by (unfold s8; zlia). assert (Eu : u8 b = b) by (apply u8_small; lia).
    unfold mbind, M_bind, lift_outcome, of_option, mret, M_ret, mbind, outcome_bind.
    rewrite Es, Eu, Es. destruct b as [|b|b]; [reflexivity|reflexivity|lia].
  - apply lookup_ge_None in Eb. change (length keyboard_scan_set_one) with 82%nat in Eb.
    destruct (Z.eqb_spec sc 82) as [->|Hne]; [reflexivity|].
    rewrite (proj2 (Z.ltb_lt 82 sc)) by lia.
    destruct (invalid_message_prints (screen s2)) as [t Ht]. exists t.
    unfold mbind, M_bind, on_screen_of, zoom. rewrite Ht. reflexivity.
Qed.

(** [keyboard_init] puts the PS/2 driver alone on the empty list
    of keyboards, registers its handler for interrupt 0x21 and sends the
    controller the command that enables the first port; the handlers of other
    interrupts, the key buffers and the screen are as before. *)
Lemma keyboard_init_spec (ps2_keyboard : Z) (s : St)
    (Hd : keyboards s !! ps2_keyboard = Some (mk_keyboard (Some ps2_keyboard_init_fn) 0))
    (Hempty : keyboard_list_last s = 0) (Hs : sizes (tables s)) :
  exists s', keyboard_init ps2_keyboard s = Ok (tt, s') /\
    keyboard_list_head s' = ps2_keyboard /\ keyboard_list_last s' = ps2_keyboard /\
    keyboards s' = keyboards s /\
    interrupt_handlers (tables s') =
      <[33%nat := Some ps2_keyboard_handle_interrupt]> (interrupt_handlers (tables s)) /\
    idt (tables s') = idt (tables s) /\ isr80h_commands (tables s') = isr80h_commands (tables s) /\
    ports s' = outb 0x64 0xAE (ports s) /\ buffers s' = buffers s /\ screen s' = screen s.
Proof.
  destruct Hs as (_ & Hh & _). unfold keyboard_init, keyboard_insert, load_keyboard.
  unfold mbind, M_bind, gets, modify. rewrite Hd. cbn [of_option init outcome_bind].
  rewrite Hempty. change (0 =? 0) with true. cbn [negb run_init].
  unfold ps2_keyboard_init, mbind, M_bind, on_tables, zoom. cbn [tables set_keyboard_list].
  unfold idt_register_interrupt_handler. change ((KEYBOARD_INTERRUPT_NO <? 0) || _) with false.
  cbv iota. rewrite decide_True by (change (Z.to_nat KEYBOARD_INTERRUPT_NO) with 33%nat; lia).
  eexists. split; [reflexivity|]. repeat split.
Qed.

End Runs.

(** ** Witnesses *)

(** A keyboard controller that repeats its data byte. *)
#[local] Instance fixed_scancode : PortIO Z := {
  insb _ d := (d, d); insw _ d := (d, d); outb _ _ d := d }.

(** One process at address 1000 with a task at 2000, running; no key pending. *)
Definition sample (scancode : Z) : kbd Z :=
  mk_kbd {[ 1000 := empty_buffer ]} {[ 2000 := 1000 ]} 1000 2000
    {[ 3000 := mk_keyboard (Some ps2_keyboard_init_fn) 0 ]} 0 0
    (mk_terminal 0 0 ∅) boot_state scancode.

Lemma sample_session sc : session 1000 [] (sample sc).
Proof.
  split; [done|]. split; [done|]. split; [done|]. split; [apply lookup_singleton_eq|].
  exists empty_buffer. split; [apply lookup_singleton_eq|apply ring_rep_empty].
Qed.

Lemma keyboard_fifo_witness :
  exists s', run_events [Push 72; Push 73; Pop; Push 33; Pop; Pop; Pop] (sample 0)
               = Ok ([72; 73; 33; 0], s') /\ session 1000 [] s'.
Proof.
  destruct (keyboard_fifo 1000 [] [Push 72; Push 73; Pop; Push 33; Pop; Pop; Pop] (sample 0)
              (sample_session 0) eq_refl) as (s' & H & H' & _).
  exists s'. exact (conj H H').
Defined.

Lemma keyboard_init_spec_witness :
  exists s', keyboard_init 3000 (sample 0) = Ok (tt, s') /\ keyboard_list_head s' = 3000.
Proof.
  destruct (keyboard_init_spec 3000 (sample 0)) as (s' & H & H' & _);
    [reflexivity|reflexivity|repeat split|].
  exists s'. exact (conj H H').
Defined.

(** A backspace takes no key back: it only rewinds the tail to the first cell. *)
Example keyboard_backspace_keeps_keys :
  exists s', (_ ← keyboard_push 65; _ ← keyboard_push 66; _ ← keyboard_backspace 1000;
              _ ← keyboard_push 67; a ← keyboard_pop; b ← keyboard_pop; mret (a, b)) (sample 0)
             = Ok ((67, 66), s').
Proof. eexists. vm_compute. reflexivity. Qed.

(** The numeric keypad: scan code 0x47 is its 7, and the table gives 9. *)
Example keypad_seven_is_nine : keyboard_scan_set_one !! Z.to_nat 0x47 = Some 57.
Proof. reflexivity. Qed.

End Keyboard.
