(* ===== verification/System.v ===== *)
(** * The running system: tasks, processes and what they share

    The structs of [task.h], [process.h] and [elf_file.h], the globals of
    [task.c], [process.c] and [kernel.c], and the state in which those
    files run: the file-system stack of [KState] over the kernel heap and
    physical memory, the processor's page-directory register, the terminal and
    the interrupt tables.

    Structs are kept in typed stores indexed by address, as in [KState]; an
    access through an address that holds no such struct is a [Fault].  Byte
    buffers (stacks, executables, argument blocks) are physical memory. *)
From stdpp Require Import base gmap list numbers strings.
From S2P Require Import Prelude Config CString Heap PhysMem KernelHeap Paging KState Disk Terminal Idt Keyboard.
#[local] Open Scope Z_scope.

Module System.
Import KernelHeap Paging.

(** ** Structs *)

(** [struct registers] of [task.h]. *)
Record registers := Registers {
  edi : Z; esi : Z; ebp : Z; ebx : Z; edx : Z; ecx : Z; eax : Z;
  ip : Z; cs : Z; eflags : Z; esp : Z; ss : Z }.

Definition zero_registers : registers := Registers 0 0 0 0 0 0 0 0 0 0 0 0.

(** [struct task]. *)
Record task := Task {
  t_paging : Z;
  t_registers : registers;
  t_process : Z;
  t_next : Z;
  t_prev : Z }.

Definition sizeof_task : Z := 64.
Definition zero_task : task := Task 0 zero_registers 0 0 0.

Definition set_paging (v : Z) (t : task) := Task v (t_registers t) (t_process t) (t_next t) (t_prev t).
Definition set_registers (v : registers) (t : task) := Task (t_paging t) v (t_process t) (t_next t) (t_prev t).
Definition set_process (v : Z) (t : task) := Task (t_paging t) (t_registers t) v (t_next t) (t_prev t).
Definition set_next (v : Z) (t : task) := Task (t_paging t) (t_registers t) (t_process t) v (t_prev t).
Definition set_prev (v : Z) (t : task) := Task (t_paging t) (t_registers t) (t_process t) (t_next t) v.

(** [enum executable_format]; a zeroed struct has [BINARY]. *)
Inductive executable_format := BINARY | ELF.

#[export] Instance executable_format_eq_dec : EqDecision executable_format.
Proof. solve_decision. Defined.

(** [struct process_mem_allocation]. *)
Record process_mem_allocation := MemAllocation { ma_ptr : Z; ma_size : Z }.

(** [struct process]; [p_executable] is the union of [binary_executable] and
    [elf_file]. *)
Record process := Process {
  pid : Z;
  p_filename : list Z;
  p_task : Z;
  mem_allocs : list process_mem_allocation;
  p_executable : Z;
  stack_addr : Z;
  p_size : Z;
  p_format : executable_format;
  p_keyboard : Keyboard.keyboard_buffer;
  p_argc : Z;
  p_argv : Z;
  arg_block : Z }.

(** pid and file name 132, task 4, allocations 8192, executable, stack, size and
    format 16, keyboard buffer 1032, arguments 12. *)
Definition sizeof_process : Z := 9388.

Definition zero_process : process :=
  Process 0 (replicate (Z.to_nat MAX_FILE_PATH_CHARS) 0) 0
    (replicate (Z.to_nat PROCESS_MAX_ALLOCATIONS) (MemAllocation 0 0)) 0 0 0 BINARY
    Keyboard.empty_buffer 0 0 0.

Definition set_p_filename (v : list Z) (p : process) :=
  Process (pid p) v (p_task p) (mem_allocs p) (p_executable p) (stack_addr p) (p_size p) (p_format p)
    (p_keyboard p) (p_argc p) (p_argv p) (arg_block p).
Definition set_pid (v : Z) (p : process) :=
  Process v (p_filename p) (p_task p) (mem_allocs p) (p_executable p) (stack_addr p) (p_size p)
    (p_format p) (p_keyboard p) (p_argc p) (p_argv p) (arg_block p).
Definition set_p_task (v : Z) (p : process) :=
  Process (pid p) (p_filename p) v (mem_allocs p) (p_executable p) (stack_addr p) (p_size p)
    (p_format p) (p_keyboard p) (p_argc p) (p_argv p) (arg_block p).
Definition set_mem_allocs (v : list process_mem_allocation) (p : process) :=
  Process (pid p) (p_filename p) (p_task p) v (p_executable p) (stack_addr p) (p_size p) (p_format p)
    (p_keyboard p) (p_argc p) (p_argv p) (arg_block p).
Definition set_executable (v size : Z) (f : executable_format) (p : process) :=
  Process (pid p) (p_filename p) (p_task p) (mem_allocs p) v (stack_addr p) size f
    (p_keyboard p) (p_argc p) (p_argv p) (arg_block p).
Definition set_stack_addr (v : Z) (p : process) :=
  Process (pid p) (p_filename p) (p_task p) (mem_allocs p) (p_executable p) v (p_size p) (p_format p)
    (p_keyboard p) (p_argc p) (p_argv p) (arg_block p).
Definition set_p_keyboard (v : Keyboard.keyboard_buffer) (p : process) :=
  Process (pid p) (p_filename p) (p_task p) (mem_allocs p) (p_executable p) (stack_addr p) (p_size p)
    (p_format p) v (p_argc p) (p_argv p) (arg_block p).
Definition set_args (argc argv : Z) (p : process) :=
  Process (pid p) (p_filename p) (p_task p) (mem_allocs p) (p_executable p) (stack_addr p) (p_size p)
    (p_format p) (p_keyboard p) argc argv (arg_block p).
Definition set_arg_block (v : Z) (p : process) :=
  Process (pid p) (p_filename p) (p_task p) (mem_allocs p) (p_executable p) (stack_addr p) (p_size p)
    (p_format p) (p_keyboard p) (p_argc p) (p_argv p) v.

(** [struct elf_file] of [elf_file.h], less the file name, which no code sets. *)
Record elf_file := ElfFile {
  in_memory_size : Z;
  elf_file_buffer : Z;
  elf_virtual_addr_base : Z;
  elf_virtual_addr_end : Z;
  elf_phys_addr_base : Z;
  elf_phys_addr_end : Z }.

Definition sizeof_elf_file : Z := 152.
Definition zero_elf_file : elf_file := ElfFile 0 0 0 0 0 0.

(** ** The state *)

Record sys (D : Type) := Sys {
  fsys : kst kmem D;
  regs : cpu;                      (* cr3 and [current_pgd] *)
  data_segment : Z;                (* ds, es, fs, gs *)
  user : option registers;         (* what [task_enter_userland] loaded *)
  tasks : gmap Z task;
  procs : gmap Z process;
  elfs : gmap Z elf_file;
  current_task : Z;
  task_list_head : Z;
  task_list_tail : Z;
  current_process : Z;
  processes : list Z;
  kernel_pages : Z;
  screen : Terminal.terminal;
  tables : Idt.idt_state;
  kernel_flags : nat -> Z          (* the EFLAGS each coming [pushf] of the kernel reads, in order *) }.
Arguments Sys {D}.
Arguments fsys {D}.
Arguments regs {D}.
Arguments data_segment {D}.
Arguments user {D}.
Arguments tasks {D}.
Arguments procs {D}.
Arguments elfs {D}.
Arguments current_task {D}.
Arguments task_list_head {D}.
Arguments task_list_tail {D}.
Arguments current_process {D}.
Arguments processes {D}.
Arguments kernel_pages {D}.
Arguments screen {D}.
Arguments tables {D}.
Arguments kernel_flags {D}.

Section State.
Context {D : Type}.
#[local] Abbreviation St := (sys D).

Definition set_fsys (v : kst kmem D) (s : St) : St :=
  Sys v (regs s) (data_segment s) (user s) (tasks s) (procs s) (elfs s) (current_task s)
    (task_list_head s) (task_list_tail s) (current_process s) (processes s) (kernel_pages s)
    (screen s) (tables s) (kernel_flags s).
Definition set_regs (v : cpu) (s : St) : St :=
  Sys (fsys s) v (data_segment s) (user s) (tasks s) (procs s) (elfs s) (current_task s)
    (task_list_head s) (task_list_tail s) (current_process s) (processes s) (kernel_pages s)
    (screen s) (tables s) (kernel_flags s).
Definition set_data_segment (v : Z) (s : St) : St :=
  Sys (fsys s) (regs s) v (user s) (tasks s) (procs s) (elfs s) (current_task s)
    (task_list_head s) (task_list_tail s) (current_process s) (processes s) (kernel_pages s)
    (screen s) (tables s) (kernel_flags s).
Definition set_user (v : option registers) (s : St) : St :=
  Sys (fsys s) (regs s) (data_segment s) v (tasks s) (procs s) (elfs s) (current_task s)
    (task_list_head s) (task_list_tail s) (current_process s) (processes s) (kernel_pages s)
    (screen s) (tables s) (kernel_flags s).
Definition set_tasks (v : gmap Z task) (s : St) : St :=
  Sys (fsys s) (regs s) (data_segment s) (user s) v (procs s) (elfs s) (current_task s)
    (task_list_head s) (task_list_tail s) (current_process s) (processes s) (kernel_pages s)
    (screen s) (tables s) (kernel_flags s).
Definition set_procs (v : gmap Z process) (s : St) : St :=
  Sys (fsys s) (regs s) (data_segment s) (user s) (tasks s) v (elfs s) (current_task s)
    (task_list_head s) (task_list_tail s) (current_process s) (processes s) (kernel_pages s)
    (screen s) (tables s) (kernel_flags s).
Definition set_elfs (v : gmap Z elf_file) (s : St) : St :=
  Sys (fsys s) (regs s) (data_segment s) (user s) (tasks s) (procs s) v (current_task s)
    (task_list_head s) (task_list_tail s) (current_process s) (processes s) (kernel_pages s)
    (screen s) (tables s) (kernel_flags s).
Definition set_current_task (v : Z) (s : St) : St :=
  Sys (fsys s) (regs s) (data_segment s) (user s) (tasks s) (procs s) (elfs s) v
    (task_list_head s) (task_list_tail s) (current_process s) (processes s) (kernel_pages s)
    (screen s) (tables s) (kernel_flags s).
Definition set_task_list_head (v : Z) (s : St) : St :=
  Sys (fsys s) (regs s) (data_segment s) (user s) (tasks s) (procs s) (elfs s) (current_task s)
    v (task_list_tail s) (current_process s) (processes s) (kernel_pages s)
    (screen s) (tables s) (kernel_flags s).
Definition set_task_list_tail (v : Z) (s : St) : St :=
  Sys (fsys s) (regs s) (data_segment s) (user s) (tasks s) (procs s) (elfs s) (current_task s)
    (task_list_head s) v (current_process s) (processes s) (kernel_pages s)
    (screen s) (tables s) (kernel_flags s).
Definition put_current_process (v : Z) (s : St) : St :=
  Sys (fsys s) (regs s) (data_segment s) (user s) (tasks s) (procs s) (elfs s) (current_task s)
    (task_list_head s) (task_list_tail s) v (processes s) (kernel_pages s)
    (screen s) (tables s) (kernel_flags s).
Definition set_processes (v : list Z) (s : St) : St :=
  Sys (fsys s) (regs s) (data_segment s) (user s) (tasks s) (procs s) (elfs s) (current_task s)
    (task_list_head s) (task_list_tail s) (current_process s) v (kernel_pages s)
    (screen s) (tables s) (kernel_flags s).
Definition set_kernel_pages (v : Z) (s : St) : St :=
  Sys (fsys s) (regs s) (data_segment s) (user s) (tasks s) (procs s) (elfs s) (current_task s)
    (task_list_head s) (task_list_tail s) (current_process s) (processes s) v
    (screen s) (tables s) (kernel_flags s).
Definition set_screen (v : Terminal.terminal) (s : St) : St :=
  Sys (fsys s) (regs s) (data_segment s) (user s) (tasks s) (procs s) (elfs s) (current_task s)
    (task_list_head s) (task_list_tail s) (current_process s) (processes s) (kernel_pages s)
    v (tables s) (kernel_flags s).
Definition set_tables (v : Idt.idt_state) (s : St) : St :=
  Sys (fsys s) (regs s) (data_segment s) (user s) (tasks s) (procs s) (elfs s) (current_task s)
    (task_list_head s) (task_list_tail s) (current_process s) (processes s) (kernel_pages s)
    (screen s) v (kernel_flags s).
Definition set_kernel_flags (v : nat -> Z) (s : St) : St :=
  Sys (fsys s) (regs s) (data_segment s) (user s) (tasks s) (procs s) (elfs s) (current_task s)
    (task_list_head s) (task_list_tail s) (current_process s) (processes s) (kernel_pages s)
    (screen s) (tables s) v.

(** ** Calls into the other components *)

Definition on_fs {X} (m : M (kst kmem D) X) : M St X := zoom fsys set_fsys m.
Definition on_mem {X} (m : M kmem X) : M St X :=
  on_fs (zoom k_alloc (fun a s => set_heap s a (objs s)) m).
Definition on_screen {X} (m : M Terminal.terminal X) : M St X := zoom screen set_screen m.
Definition on_tables {X} (m : M Idt.idt_state X) : M St X := zoom tables set_tables m.

(** The physical memory. *)
Definition phys (s : St) : gmap Z Z := mem (k_alloc (fsys s)).

(** ** Accesses through pointers *)

Definition load_task (p : Z) : M St task := fun s =>
  t ← of_option (tasks s !! p); Ok (t, s).
(** [p->field = ...]: the struct with the field replaced. *)
Definition update_task (p : Z) (f : task -> task) : M St unit :=
  t ← load_task p; modify (fun s => set_tasks (<[p := f t]> (tasks s)) s).

Definition load_process (p : Z) : M St process := fun s =>
  x ← of_option (procs s !! p); Ok (x, s).
Definition update_process (p : Z) (f : process -> process) : M St unit :=
  x ← load_process p; modify (fun s => set_procs (<[p := f x]> (procs s)) s).

Definition load_elf (p : Z) : M St elf_file := fun s =>
  x ← of_option (elfs s !! p); Ok (x, s).
Definition update_elf (p : Z) (f : elf_file -> elf_file) : M St unit :=
  x ← load_elf p; modify (fun s => set_elfs (<[p := f x]> (elfs s)) s).

(** A string literal and a line of text, with their terminator. *)
Definition print_line (s : string) : M St unit := on_screen (Terminal.print (Keyboard.line s)).

(** ** Lemmas *)

Lemma wp_load_task p t (s : St) (Q : task -> St -> Prop) :
  tasks s !! p = Some t -> Q t s -> wp (load_task p) s Q.
Proof. intros Ht HQ. unfold wp, load_task. by rewrite Ht. Qed.

Lemma wp_update_task p t f (s : St) (Q : unit -> St -> Prop) :
  tasks s !! p = Some t -> Q tt (set_tasks (<[p := f t]> (tasks s)) s) -> wp (update_task p f) s Q.
Proof. intros Ht HQ. apply wp_bind. by eapply wp_load_task. Qed.

Lemma wp_load_process p x (s : St) (Q : process -> St -> Prop) :
  procs s !! p = Some x -> Q x s -> wp (load_process p) s Q.
Proof. intros Hx HQ. unfold wp, load_process. by rewrite Hx. Qed.

Lemma wp_update_process p x f (s : St) (Q : unit -> St -> Prop) :
  procs s !! p = Some x -> Q tt (set_procs (<[p := f x]> (procs s)) s) ->
  wp (update_process p f) s Q.
Proof. intros Hx HQ. apply wp_bind. by eapply wp_load_process. Qed.

Lemma wp_load_elf p x (s : St) (Q : elf_file -> St -> Prop) :
  elfs s !! p = Some x -> Q x s -> wp (load_elf p) s Q.
Proof. intros Hx HQ. unfold wp, load_elf. by rewrite Hx. Qed.

Lemma wp_update_elf p x f (s : St) (Q : unit -> St -> Prop) :
  elfs s !! p = Some x -> Q tt (set_elfs (<[p := f x]> (elfs s)) s) -> wp (update_elf p f) s Q.
Proof. intros Hx HQ. apply wp_bind. by eapply wp_load_elf. Qed.

Lemma wp_on_fs {X} (m : M (kst kmem D) X) (s : St) (Q : X -> St -> Prop) :
  wp m (fsys s) (fun x f => Q x (set_fsys f s)) -> wp (on_fs m) s Q.
Proof. apply wp_zoom. Qed.

(** The memory after a computation on it. *)
Definition with_kmem (k : kmem) (s : St) : St :=
  set_fsys (set_heap (fsys s) k (objs (fsys s))) s.

Lemma wp_on_mem {X} (m : M kmem X) (s : St) (Q : X -> St -> Prop) :
  wp m (k_alloc (fsys s)) (fun x k => Q x (with_kmem k s)) -> wp (on_mem m) s Q.
Proof. intros H. by apply wp_zoom, wp_zoom. Qed.

End State.

End System.
