(* ===== verification/Elf.v ===== *)
(** * The ELF loader: [src/loader/formats/elf_file.c], [elf.h]

    The file is read into a buffer of the kernel heap; the headers are read from
    that buffer in physical memory, at the offsets of the packed structs.  A
    pointer to a header is its address. *)
From stdpp Require Import base gmap list numbers strings.
From S2P Require Import Prelude Config Memory CString Heap PhysMem KernelHeap Paging KState Disk PParser Fat16 Vfs Terminal Idt Keyboard System.
#[local] Open Scope Z_scope.

Module Elf.
Import KernelHeap System.

(** ** Constants of [elf.h] *)

Definition PF_W : Z := 0x02.
Definition PT_LOAD : Z := 1.
Definition ET_EXEC : Z := 2.
Definition EI_CLASS : Z := 4.
Definition EI_DATA : Z := 5.
Definition ELFCLASSNONE : Z := 0.
Definition ELFCLASS32 : Z := 1.
Definition ELFDATANONE : Z := 0.
Definition ELFDATA2LSB : Z := 1.

Definition elf_signature : list Z := [0x7F; 69; 76; 70].

(** ** The packed headers *)

(** [struct elf32_ehdr]. *)
Definition e_ident (m : gmap Z Z) (header i : Z) : Z := PhysMem.load8 m (u32 (header + i)).
Definition e_type (m : gmap Z Z) (header : Z) : Z := PhysMem.load16 m (header + 16).
Definition e_entry (m : gmap Z Z) (header : Z) : Z := PhysMem.load32 m (header + 24).
Definition e_phoff (m : gmap Z Z) (header : Z) : Z := PhysMem.load32 m (header + 28).
Definition e_shoff (m : gmap Z Z) (header : Z) : Z := PhysMem.load32 m (header + 32).
Definition e_phnum (m : gmap Z Z) (header : Z) : Z := PhysMem.load16 m (header + 44).
Definition e_shstrndx (m : gmap Z Z) (header : Z) : Z := PhysMem.load16 m (header + 50).

(** [struct elf32_phdr]. *)
Definition sizeof_elf32_phdr : Z := 32.
Definition p_type (m : gmap Z Z) (phdr : Z) : Z := PhysMem.load32 m phdr.
Definition p_offset (m : gmap Z Z) (phdr : Z) : Z := PhysMem.load32 m (phdr + 4).
Definition p_vaddr (m : gmap Z Z) (phdr : Z) : Z := PhysMem.load32 m (phdr + 8).
Definition p_filesz (m : gmap Z Z) (phdr : Z) : Z := PhysMem.load32 m (phdr + 16).
Definition p_memsz (m : gmap Z Z) (phdr : Z) : Z := PhysMem.load32 m (phdr + 20).
Definition p_flags (m : gmap Z Z) (phdr : Z) : Z := PhysMem.load32 m (phdr + 24).

(** [struct elf32_shdr]. *)
Definition sizeof_elf32_shdr : Z := 40.
Definition sh_offset (m : gmap Z Z) (shdr : Z) : Z := PhysMem.load32 m (shdr + 16).

(** ** Predicates on the header *)

Definition elf_valid_signature (m : gmap Z Z) (buffer : Z) : outcome bool :=
  r ← Memory.memcmp (PhysMem.bytes_at m buffer 4) elf_signature 4; Ok (r =? 0).

Definition elf_valid_class (m : gmap Z Z) (header : Z) : bool :=
  (e_ident m header EI_CLASS =? ELFCLASSNONE) || (e_ident m header EI_CLASS =? ELFCLASS32).

Definition elf_valid_encoding (m : gmap Z Z) (header : Z) : bool :=
  (e_ident m header EI_DATA =? ELFDATANONE) || (e_ident m header EI_DATA =? ELFDATA2LSB).

Definition elf_is_executable (m : gmap Z Z) (header : Z) : bool := e_type m header =? ET_EXEC.

Definition elf_valid_entry (m : gmap Z Z) (header : Z) : bool :=
  e_entry m header =? TASK_LOAD_VIRTUAL_ADDRESS.

Definition elf_has_program_header_table (m : gmap Z Z) (header : Z) : bool :=
  negb (e_phoff m header =? 0).

Definition valid_elf_file (m : gmap Z Z) (header : Z) : outcome bool :=
  sig ← elf_valid_signature m header;
  Ok (sig && elf_valid_class m header && elf_valid_encoding m header
      && elf_is_executable m header && elf_has_program_header_table m header).

(** ** Addresses inside the file *)

Definition elf_get_ehdr (f : elf_file) : Z :=
  if elf_file_buffer f =? 0 then 0 else elf_file_buffer f.

Definition elf_get_shdr_table (m : gmap Z Z) (header : Z) : Z := u32 (header + e_shoff m header).
Definition elf_get_shdr (m : gmap Z Z) (header index : Z) : Z :=
  u32 (elf_get_shdr_table m header + index * sizeof_elf32_shdr).

Definition elf_get_phdr_table (m : gmap Z Z) (header : Z) : Z :=
  if negb (elf_has_program_header_table m header) then 0 else u32 (header + e_phoff m header).
Definition elf_get_phdr (m : gmap Z Z) (header index : Z) : Z :=
  u32 (elf_get_phdr_table m header + index * sizeof_elf32_phdr).

Definition elf_get_string_table (m : gmap Z Z) (header : Z) : Z :=
  u32 (header + sh_offset m (elf_get_shdr m header (e_shstrndx m header))).

Definition elf_file_get_segment_phys_addr (m : gmap Z Z) (f : elf_file) (phdr : Z) : Z :=
  u32 (elf_file_buffer f + p_offset m phdr).

(** ** Program headers *)

(** The result code and the [struct elf_file] after the call. *)
Definition elf_process_pheader_pt_load (m : gmap Z Z) (f : elf_file) (phdr : Z) : Z * elf_file :=
  if negb (p_type m phdr =? PT_LOAD) then (- EINVARG, f)
  else
    let f :=
      if (elf_virtual_addr_base f >=? p_vaddr m phdr) || (elf_virtual_addr_base f =? 0x00)
      then ElfFile (in_memory_size f) (elf_file_buffer f) (p_vaddr m phdr) (elf_virtual_addr_end f)
             (u32 (elf_file_buffer f + p_offset m phdr)) (elf_phys_addr_end f)
      else f in
    let end_virt_addr := u32 (p_vaddr m phdr + p_filesz m phdr) in
    let f :=
      if (elf_virtual_addr_end f <=? end_virt_addr) || (elf_virtual_addr_end f =? 0x00)
      then ElfFile (in_memory_size f) (elf_file_buffer f) (elf_virtual_addr_base f) end_virt_addr
             (elf_phys_addr_base f) (u32 (elf_file_buffer f + p_offset m phdr + p_filesz m phdr))
      else f in
    (0, f).

Section Loader.
Context {D : Type} {Po : PortIO D}.
#[local] Abbreviation St := (sys D).

Definition elf_process_pheader (elf_file phdr : Z) : M St Z :=
  m ← gets phys;
  if p_type m phdr =? PT_LOAD then
    f ← load_elf elf_file;
    let '(rc, f') := elf_process_pheader_pt_load m f phdr in
    _ ← update_elf elf_file (fun _ => f');
    if rc <? 0
    then _ ← print_line "ERROR: elf_process_pheader: Error processing PT_LOAD segment"; mret rc
    else mret rc
  else mret 0.

(** The loop asks for the table, that is its first entry, in every turn. *)
Definition elf_process_pheaders (elf_file : Z) : M St Z :=
  f ← load_elf elf_file;
  let elf32_ehdr := elf_get_ehdr f in
  n ← gets (fun s => e_phnum (phys s) elf32_ehdr);
  _ ← for_loop (Z.to_nat n) 0 (fun _ =>
        phdr ← gets (fun s => elf_get_phdr_table (phys s) elf32_ehdr);
        rc ← elf_process_pheader elf_file phdr;
        if rc <? 0
        then print_line "ERROR: elf_process_pheaders: Failed to process a program header"
        else mret tt);
  mret 0.

Definition process_elf_file (elf_file : Z) : M St Z :=
  f ← load_elf elf_file;
  if elf_file_buffer f =? 0 then mret (- EINVARG)
  else
    let elf32_ehdr := elf_get_ehdr f in
    m ← gets phys;
    valid ← lift_outcome (valid_elf_file m elf32_ehdr);
    if negb valid
    then _ ← print_line "ERROR: process_elf_file: Invalid ELF file"; mret (- EIFORMAT)
    else
      rc ← elf_process_pheaders elf_file;
      if rc <? 0 then mret rc else mret 0.

(** ** Opening and closing *)

(** [kzalloc(sizeof(struct elf_file))] and [kfree] of such a struct. *)
Definition alloc_elf : M St Z :=
  p ← on_mem (kzalloc sizeof_elf_file);
  _ ← (if p =? 0 then mret tt
       else modify (fun s => set_elfs (<[p := zero_elf_file]> (elfs s)) s));
  mret p.
Definition free_elf (p : Z) : M St unit :=
  _ ← on_mem (kfree p); modify (fun s => set_elfs (delete p (elfs s)) s).

(** [fread(ptr, size, nmemb, fd)] into memory at [ptr]. *)
Definition fread_into (ptr size nmemb fd : Z) : M St Z :=
  if (ptr =? 0) && negb (size * nmemb =? 0) then fault
  else
    m ← gets phys;
    '(rc, bs) ← on_fs (Vfs.fread Vfs.kernel_driver
                  (PhysMem.bytes_at m ptr (Z.to_nat (size * nmemb))) size nmemb fd);
    _ ← on_mem (modify (fun k => KMem (kernel_heap k) (PhysMem.store_bytes (mem k) ptr bs)));
    mret rc.

(** The mode string "r". *)
Definition mode_r : list Z := [114; 0].

(** The result code and [*elf_file_out] (0 when it is not set). *)
Definition elf_file_init (elf_filename : list Z) : M St (Z * Z) :=
  elf_file ← alloc_elf;
  if elf_file =? 0 then mret (- ENOMEM, 0)
  else
    fd ← on_fs (Vfs.fopen Vfs.kernel_driver elf_filename mode_r);
    if fd <? 0 then _ ← free_elf elf_file; mret (fd, 0)
    else
      '(rc, stat) ← on_fs (Vfs.fstat Vfs.kernel_driver fd (FileStat 0 0));
      if rc <? 0 then _ ← free_elf elf_file; mret (rc, 0)
      else
        buffer ← on_mem (kzalloc (st_filesize stat));
        _ ← update_elf elf_file (fun f => ElfFile (in_memory_size f) buffer
              (elf_virtual_addr_base f) (elf_virtual_addr_end f) (elf_phys_addr_base f)
              (elf_phys_addr_end f));
        rc ← fread_into buffer (st_filesize stat) 1 fd;
        if negb (s32 rc =? 1) then
          _ ← print_line "elf_file_init: error reading elf file into elf_file_buffer";
          f ← load_elf elf_file;
          _ ← on_mem (kfree (elf_file_buffer f));
          _ ← free_elf elf_file;
          mret (- EINVARG, 0)
        else
          rc ← process_elf_file elf_file;
          if rc <? 0 then
            f ← load_elf elf_file;
            _ ← on_mem (kfree (elf_file_buffer f));
            _ ← free_elf elf_file;
            _ ← on_fs (Vfs.fclose Vfs.kernel_driver fd);
            mret (rc, 0)
          else
            _ ← on_fs (Vfs.fclose Vfs.kernel_driver fd);
            mret (0, elf_file).

Definition elf_file_close (elf_file : Z) : M St unit :=
  if elf_file =? 0 then mret tt
  else
    f ← load_elf elf_file;
    _ ← on_mem (kfree (elf_file_buffer f));
    free_elf elf_file.

End Loader.

End Elf.
