(* ===== verification/ElfProofs.v ===== *)
(** * The ELF loader, proved

    Which files [process_elf_file] accepts, and what it records of an accepted
    one. *)
From stdpp Require Import base gmap list numbers strings.
From S2P Require Import Prelude Config Memory CString Heap PhysMem KernelHeap Paging KState Disk Terminal Idt Keyboard System Elf.
#[local] Open Scope Z_scope.

Module ElfProofs.
Import KernelHeap System Elf.

(** ** The header *)

(** What an acceptable header holds: the magic number, the class and the byte
    order unset or the machine's, an executable file, a program header table. *)
Definition valid_header (m : gmap Z Z) (h : Z) : Prop :=
  PhysMem.bytes_at m h 4 = elf_signature /\
  (e_ident m h 4 = 0 \/ e_ident m h 4 = 1) /\ (e_ident m h 5 = 0 \/ e_ident m h 5 = 1) /\
  e_type m h = 2 /\ e_phoff m h <> 0.

#[export] Instance valid_header_dec m h : Decision (valid_header m h).
Proof. unfold valid_header. apply _. Defined.

Lemma bytes_at_range m a n : Forall (fun b => 0 <= b < 256) (PhysMem.bytes_at m a n).
Proof.
  apply Forall_forall. intros x Hx. unfold PhysMem.bytes_at in Hx.
  apply list_elem_of_fmap in Hx as (y & -> & _). apply PhysMem.load8_range.
Qed.

Lemma valid_elf_file_ok m h : valid_elf_file m h = Ok (bool_decide (valid_header m h)).
Proof.
  unfold valid_elf_file, elf_valid_signature.
  destruct (Memory.memcmp_spec (PhysMem.bytes_at m h 4) elf_signature 4) as (r & Hr & Hz & _).
  { rewrite PhysMem.length_bytes_at. lia. }
  { simpl. lia. }
  { apply bytes_at_range. }
  { repeat constructor; lia. }
  rewrite Hr. cbn [mbind outcome_bind]. f_equal. apply eq_true_iff_eq.
  rewrite bool_decide_eq_true. unfold valid_header.
  rewrite take_ge in Hz by (rewrite PhysMem.length_bytes_at; lia).
  change (take (Z.to_nat 4) elf_signature) with elf_signature in Hz. rewrite <- Hz.
  unfold elf_valid_class, elf_valid_encoding, elf_is_executable, elf_has_program_header_table,
    EI_CLASS, EI_DATA, ELFCLASSNONE, ELFCLASS32, ELFDATANONE, ELFDATA2LSB, ET_EXEC.
  rewrite !andb_true_iff, !orb_true_iff, negb_true_iff, !Z.eqb_eq, Z.eqb_neq. tauto.
Qed.

(** ** The program headers *)

(** What a fresh struct records of the loadable segment at [phdr]. *)
Definition segment_recorded (m : gmap Z Z) (size buffer phdr : Z) : elf_file :=
  ElfFile size buffer (p_vaddr m phdr) (u32 (p_vaddr m phdr + p_filesz m phdr))
    (u32 (buffer + p_offset m phdr)) (u32 (buffer + p_offset m phdr + p_filesz m phdr)).

Lemma pt_load_fresh m size buffer phdr :
  p_type m phdr = PT_LOAD ->
  elf_process_pheader_pt_load m (ElfFile size buffer 0 0 0 0) phdr
    = (0, segment_recorded m size buffer phdr).
Proof.
  intros Hp. unfold elf_process_pheader_pt_load. rewrite Hp. change (negb (PT_LOAD =? PT_LOAD)) with false.
  cbn [elf_virtual_addr_base elf_virtual_addr_end in_memory_size elf_file_buffer elf_phys_addr_base].
  rewrite !orb_true_r. reflexivity.
Qed.

(** Processing the same segment again changes nothing. *)
Lemma pt_load_again m size buffer phdr :
  p_type m phdr = PT_LOAD ->
  elf_process_pheader_pt_load m (segment_recorded m size buffer phdr) phdr
    = (0, segment_recorded m size buffer phdr).
Proof.
  intros Hp. unfold elf_process_pheader_pt_load, segment_recorded. rewrite Hp.
  change (negb (PT_LOAD =? PT_LOAD)) with false.
  cbn [elf_virtual_addr_base elf_virtual_addr_end in_memory_size elf_file_buffer elf_phys_addr_base].
  rewrite Z.geb_leb, Z.leb_refl. cbn [orb]. cbv iota.
  cbn [elf_virtual_addr_base elf_virtual_addr_end in_memory_size elf_file_buffer elf_phys_addr_base].
  rewrite Z.leb_refl. reflexivity.
Qed.

Section Loading.
Context {D : Type} {Po : PortIO D}.
#[local] Abbreviation St := (sys D).

Definition with_elf (p : Z) (f : elf_file) (s : St) : St := set_elfs (<[p := f]> (elfs s)) s.

(** One turn of the loop over the headers, at the first of them. *)
Lemma wp_pheader (s : St) p f phdr (Q : Z -> St -> Prop) :
  (p_type (phys s) phdr = PT_LOAD -> exists f',
     elf_process_pheader_pt_load (phys s) f phdr = (0, f') /\ Q 0 (with_elf p f' s)) ->
  (p_type (phys s) phdr <> PT_LOAD -> Q 0 (with_elf p f s)) ->
  wp (elf_process_pheader p phdr) (with_elf p f s) Q.
Proof.
  intros H1 H2. unfold elf_process_pheader. apply wp_bind, wp_gets.
  change (phys (with_elf p f s)) with (phys s).
  destruct (Z.eqb_spec (p_type (phys s) phdr) PT_LOAD) as [E|E]; [|by apply wp_ret, H2].
  destruct (H1 E) as (f' & Hf & HQ). apply wp_bind. eapply wp_load_elf; [apply lookup_insert_eq|].
  rewrite Hf. apply wp_bind. eapply wp_update_elf; [apply lookup_insert_eq|].
  destruct (Z.ltb_spec 0 0); [lia|]. apply wp_ret.
  unfold with_elf in *. cbn [elfs set_elfs]. rewrite insert_insert_eq. exact HQ.
Qed.

(** The struct after all headers: the first one decides. *)
Definition after_headers (m : gmap Z Z) (size buffer : Z) (n : nat) : elf_file :=
  if bool_decide ((0 < n)%nat /\ p_type m (elf_get_phdr_table m buffer) = PT_LOAD)
  then segment_recorded m size buffer (elf_get_phdr_table m buffer)
  else ElfFile size buffer 0 0 0 0.

Lemma wp_pheaders (s : St) p size buffer :
  buffer <> 0 ->
  wp (elf_process_pheaders p) (with_elf p (ElfFile size buffer 0 0 0 0) s) (fun rc s' => rc = 0 /\
    s' = with_elf p (after_headers (phys s) size buffer (Z.to_nat (e_phnum (phys s) buffer))) s).
Proof.
  intros Hb. unfold elf_process_pheaders. apply wp_bind. eapply wp_load_elf; [apply lookup_insert_eq|].
  unfold elf_get_ehdr. cbn [elf_file_buffer]. rewrite (proj2 (Z.eqb_neq _ _) Hb).
  apply wp_bind, wp_gets. change (phys (with_elf p _ s)) with (phys s). apply wp_bind. eapply wp_mono.
  { apply (wp_for_loop (fun j s' => s' = with_elf p (after_headers (phys s) size buffer (Z.to_nat j)) s)).
    - reflexivity.
    - intros j s' Hj ->. apply wp_bind, wp_gets. change (phys (with_elf p _ s)) with (phys s).
      apply wp_bind. apply wp_pheader.
      + intros E. exists (segment_recorded (phys s) size buffer (elf_get_phdr_table (phys s) buffer)).
        unfold after_headers. rewrite (bool_decide_true ((0 < Z.to_nat (j + 1))%nat /\ _)) by (split; [lia|done]).
        split; [|by apply wp_ret].
        case_bool_decide; [by apply pt_load_again|by apply pt_load_fresh].
      + intros E. destruct (Z.ltb_spec 0 0); [lia|]. apply wp_ret. unfold after_headers.
        rewrite !bool_decide_false by (intros [_ ?]; done). reflexivity. }
  intros [] s' ->. apply wp_ret. split; [done|]. by rewrite Z.add_0_l, Z2Nat.id by apply PhysMem.load16_range.
Qed.

Lemma print_line_ok msg chars (s : St) :
  CString.cstring (Keyboard.line msg) chars -> exists t', print_line msg s = Ok (tt, set_screen t' s).
Proof.
  intros Hc. destruct (Terminal.print_total _ _ (screen s) Hc) as [t' Ht']. exists t'.
  unfold print_line, on_screen, zoom. by rewrite Ht'.
Qed.

(** The message about an invalid file. *)
Lemma invalid_message :
  CString.cstring (Keyboard.line "ERROR: process_elf_file: Invalid ELF file")
    (removelast (Keyboard.line "ERROR: process_elf_file: Invalid ELF file")).
Proof.
  split; [|by exists []]. apply (bool_decide_unpack _). vm_compute. exact I.
Qed.

(** A file with an acceptable header. *)
Lemma process_elf_file_ok (s : St) (p size buffer : Z) :
  elfs s !! p = Some (ElfFile size buffer 0 0 0 0) -> buffer <> 0 -> valid_header (phys s) buffer ->
  process_elf_file p s =
    Ok (0, with_elf p (after_headers (phys s) size buffer (Z.to_nat (e_phnum (phys s) buffer))) s).
Proof.
  intros Hf Hb Hv. assert (Hs : s = with_elf p (ElfFile size buffer 0 0 0 0) s).
  { unfold with_elf. rewrite insert_id by done. by destruct s. }
  unfold process_elf_file. apply wp_eq, wp_bind. eapply wp_load_elf; [done|]. cbn [elf_file_buffer].
  rewrite (proj2 (Z.eqb_neq _ _) Hb). apply wp_bind, wp_gets, wp_bind. unfold wp at 1, lift_outcome.
  unfold elf_get_ehdr. cbn [elf_file_buffer]. rewrite (proj2 (Z.eqb_neq _ _) Hb).
  rewrite valid_elf_file_ok, bool_decide_true by done. cbn [mbind outcome_bind negb].
  apply wp_bind. rewrite Hs at 1. eapply wp_mono; [by apply wp_pheaders|]. by intros rc s' [-> ->].
Qed.

(** C29 (functional): an ELF file in memory is checked and its segment found.
    Without a buffer the call fails with [-EINVARG]; a file whose header is not
    acceptable fails with [-EIFORMAT], after a message and with the struct
    unchanged; of any other file the struct records where the segment of the
    first program header begins and ends, in the task's memory and in the buffer,
    if that segment is loadable, and nothing otherwise.  The other program
    headers are never read. *)
Theorem process_elf_file_spec (s : St) (p size buffer : Z)
    (Hf : elfs s !! p = Some (ElfFile size buffer 0 0 0 0)) :
  (buffer = 0 -> process_elf_file p s = Ok (- EINVARG, s)) /\
  (buffer <> 0 -> ~ valid_header (phys s) buffer ->
    exists t', process_elf_file p s = Ok (- EIFORMAT, set_screen t' s)) /\
  (buffer <> 0 -> valid_header (phys s) buffer ->
    process_elf_file p s =
      Ok (0, with_elf p (after_headers (phys s) size buffer (Z.to_nat (e_phnum (phys s) buffer))) s)).
Proof.
  split; [|split].
  - intros ->. unfold process_elf_file. apply wp_eq, wp_bind. by eapply wp_load_elf.
  - intros Hb Hv. destruct (print_line_ok _ _ s invalid_message) as [t' Ht'].
    exists t'. unfold process_elf_file. apply wp_eq, wp_bind. eapply wp_load_elf; [done|]. cbn [elf_file_buffer].
    rewrite (proj2 (Z.eqb_neq _ _) Hb). apply wp_bind, wp_gets, wp_bind. unfold wp at 1, lift_outcome.
    unfold elf_get_ehdr. cbn [elf_file_buffer]. rewrite (proj2 (Z.eqb_neq _ _) Hb).
    rewrite valid_elf_file_ok, bool_decide_false by done. cbn [mbind outcome_bind negb].
    apply wp_bind. unfold wp at 1. by rewrite Ht'.
  - intros Hb Hv. by apply process_elf_file_ok.
Qed.

End Loading.

(** ** Witness *)

(** A file at 0x10000 with two loadable segments, at 4 MB and at 5 MB. *)
Definition elf_memory : gmap Z Z :=
  foldr (fun '(a, v) m => PhysMem.store32 m a v) ∅
    [(0x10000, 0x464c457f); (0x10004, 0x0101); (0x10010, 2); (0x1001c, 52); (0x1002c, 2);
     (0x10034, 1); (0x10038, 0x1000); (0x1003c, 0x400000); (0x10044, 0x234);
     (0x10054, 1); (0x10058, 0x2000); (0x1005c, 0x500000); (0x10064, 0x77)].

Definition elf_state : sys unit :=
  Sys (KSt (KMem fresh_heap elf_memory) ∅ tt (Disk REAL 0 512 0 0) [] [])
    (Paging.Cpu 0 0) KERNEL_DATA_SEGMENT None ∅ ∅
    {[ 4096 := ElfFile 0 0x10000 0 0 0 0; 8192 := ElfFile 0 0x20000 0 0 0 0 ]}
    0 0 0 0 (replicate 12 0) 0 (Terminal.mk_terminal 0 0 ∅) Idt.boot_state (fun _ => 2).

Lemma process_elf_file_spec_witness :
  process_elf_file 4096 elf_state =
    Ok (0, with_elf 4096 (ElfFile 0 0x10000 0x400000 0x400234 0x11000 0x11234) elf_state) /\
  exists t', process_elf_file 8192 elf_state = Ok (- EIFORMAT, set_screen t' elf_state).
Proof.
  split.
  - destruct (process_elf_file_spec elf_state 4096 0 0x10000) as (_ & _ & H); [reflexivity|].
    rewrite H; [reflexivity|done|].
    apply (bool_decide_unpack _). vm_compute. exact I.
  - destruct (process_elf_file_spec elf_state 8192 0 0x20000) as (_ & H & _); [reflexivity|].
    apply H; [done|]. apply (bool_decide_unpack _). vm_compute. exact I.
Defined.

End ElfProofs.
