(* ===== verification/Task.v ===== *)
(** * Tasks: [src/task/task.c], and the page-table switch of [src/kernel.c]

    The doubly linked list of tasks, the context saved on an interrupt and
    restored, but for the flags, by [task_exec], and the copies between a task's address space and
    the kernel's.  While the kernel runs on its own page tables an address is a
    physical one; between a switch to a task's page tables and the switch back,
    accesses go through the page walk [walk] of the processor. *)
From stdpp Require Import base gmap list numbers strings.
From S2P Require Import Prelude Config CString Heap PhysMem KernelHeap Paging KState Disk Fat16 Terminal Idt Keyboard System Elf.
#[local] Open Scope Z_scope.

Module Task.
Import KernelHeap Paging System Elf.

(** [struct interrupt_frame] of [idt.h]. *)
Record interrupt_frame := Frame {
  f_edi : Z; f_esi : Z; f_ebp : Z; f_unused_esp : Z; f_ebx : Z; f_edx : Z; f_ecx : Z; f_eax : Z;
  f_ip : Z; f_cs : Z; f_eflags : Z; f_esp : Z; f_ss : Z }.

(** ** The processor's page walk *)

(** The physical address a linear address maps to; [None] is a page fault.  The
    kernel runs in ring 0 without write protection, so only the present bits
    count. *)
Definition walk (m : gmap Z Z) (cr3 va : Z) : option Z :=
  let pde := PhysMem.load32 m (cr3 + 4 * (va / 4194304)) in
  if Z.testbit pde 0 then
    let pte := PhysMem.load32 m (Z.land pde 0xfffff000 + 4 * (va mod 4194304 / 4096)) in
    if Z.testbit pte 0 then Some (Z.land pte 0xfffff000 + va mod 4096) else None
  else None.

Section Tasks.
Context {D : Type}.
#[local] Abbreviation St := (sys D).

(** Byte and word accesses at linear addresses; a page fault in the kernel is
    an access fault. *)
Definition vload8 (va : Z) : M St Z := fun s =>
  pa ← of_option (walk (phys s) (cr3 (regs s)) va); Ok (PhysMem.load8 (phys s) pa, s).

Definition vstore8 (va v : Z) : M St unit := fun s =>
  pa ← of_option (walk (phys s) (cr3 (regs s)) va);
  on_mem (modify (fun k => KMem (kernel_heap k) (PhysMem.store8 (mem k) pa v))) s.

Definition vload32 (va : Z) : M St Z :=
  b0 ← vload8 va;
  b1 ← vload8 (u32 (va + 1));
  b2 ← vload8 (u32 (va + 2));
  b3 ← vload8 (u32 (va + 3));
  mret (b0 + b1 * 256 + b2 * 65536 + b3 * 16777216).

(** Byte accesses at physical addresses: the kernel's own page tables. *)
Definition pload8 (a : Z) : M St Z := gets (fun s => PhysMem.load8 (phys s) a).
Definition pstore8 (a v : Z) : M St unit :=
  on_mem (modify (fun k => KMem (kernel_heap k) (PhysMem.store8 (mem k) a v))).

(** [strncpy] of [string.c] through the given accesses. *)
Fixpoint copy_loop (rd : Z -> M St Z) (wr : Z -> Z -> M St unit) (n : nat) (dest src : Z) : M St unit :=
  match n with
  | O => wr dest 0
  | S n' =>
      b ← rd src;
      if b =? 0 then wr dest 0
      else
        _ ← wr dest b;
        copy_loop rd wr n' (u32 (dest + 1)) (u32 (src + 1))
  end.

Definition vstrncpy (dest src n : Z) : M St unit := copy_loop vload8 vstore8 (Z.to_nat (u32 n)) dest src.
Definition pstrncpy (dest src n : Z) : M St unit := copy_loop pload8 pstore8 (Z.to_nat (u32 n)) dest src.

(** ** Switching page tables *)

Definition set_seg_regs_to_user_data : M St unit := modify (set_data_segment USER_DATA_SEGMENT).
Definition set_seg_regs_to_kernel_data : M St unit := modify (set_data_segment KERNEL_DATA_SEGMENT).

Definition switch_to (paging_desc : Z) : M St unit :=
  c ← gets regs;
  c' ← on_mem (paging_switch paging_desc c);
  modify (set_regs c').

(** [swap_kernel_page_tables] of [kernel.c]. *)
Definition swap_kernel_page_tables : M St unit :=
  _ ← set_seg_regs_to_kernel_data;
  p ← gets kernel_pages;
  switch_to p.

(** ** The task list *)

Definition get_task_list_head : M St Z := gets task_list_head.
Definition get_current_task : M St Z := gets current_task.

Definition task_get_next : M St Z :=
  c ← gets current_task;
  t ← load_task c;
  if t_next t =? 0 then gets task_list_head
  else
    c ← gets current_task;
    t ← load_task c;
    mret (t_next t).

(** The branches of [task_list_remove] that take the task out of the list. *)
Definition task_unlink (task : Z) : M St unit :=
  s ← get_state;
  if (task =? task_list_head s) && (task =? task_list_tail s) then
    _ ← modify (set_task_list_head 0);
    _ ← modify (set_task_list_tail 0);
    modify (set_current_task 0)
  else if task =? task_list_head s then
    t ← load_task task;
    _ ← modify (set_task_list_head (t_next t));
    h ← gets task_list_head;
    update_task h (set_prev 0)
  else if task =? task_list_tail s then
    t ← load_task task;
    _ ← modify (set_task_list_tail (t_prev t));
    h ← gets task_list_tail;
    update_task h (set_next 0)
  else
    t ← load_task task;
    update_task (t_prev t) (set_next (t_next t)).

Definition task_list_remove (task : Z) : M St unit :=
  _ ← task_unlink task;
  c ← gets current_task;
  if task =? c then
    n ← task_get_next;
    modify (set_current_task n)
  else mret tt.

(** [kzalloc(sizeof(struct task))] and [kfree] of such a struct. *)
Definition alloc_task : M St Z :=
  p ← on_mem (kzalloc sizeof_task);
  _ ← (if p =? 0 then mret tt
       else modify (fun s => set_tasks (<[p := zero_task]> (tasks s)) s));
  mret p.
Definition kfree_task (p : Z) : M St unit :=
  _ ← on_mem (kfree p); modify (fun s => set_tasks (delete p (tasks s)) s).

Definition task_free (task : Z) : M St Z :=
  t ← load_task task;
  _ ← on_mem (free_page_tables (t_paging t));
  _ ← task_list_remove task;
  _ ← kfree_task task;
  mret 0.

Definition set_ip (v : Z) (r : registers) : registers :=
  Registers (edi r) (esi r) (ebp r) (ebx r) (edx r) (ecx r) (eax r) v (cs r) (eflags r) (esp r) (ss r).
Definition set_segments (vss vcs vesp : Z) (r : registers) : registers :=
  Registers (edi r) (esi r) (ebp r) (ebx r) (edx r) (ecx r) (eax r) (ip r) vcs (eflags r) vesp vss.

Definition task_init (task process : Z) : M St Z :=
  _ ← update_task task (fun _ => zero_task);
  paging ← on_mem (init_page_tables (Z.lor PAGING_USER_SUPERVISOR PAGING_PRESENT));
  _ ← update_task task (set_paging paging);
  t ← load_task task;
  if t_paging t =? 0 then mret (- EIO)
  else
    _ ← update_task task (fun t => set_registers (set_ip TASK_LOAD_VIRTUAL_ADDRESS (t_registers t)) t);
    x ← load_process process;
    _ ← (if bool_decide (p_format x = ELF) then
           f ← load_elf (p_executable x);
           let elf32_ehdr := elf_get_ehdr f in
           entry ← (if elf32_ehdr =? 0 then fault else gets (fun s => e_entry (phys s) elf32_ehdr));
           update_task task (fun t => set_registers (set_ip entry (t_registers t)) t)
         else mret tt);
    _ ← update_task task (fun t => set_registers
          (set_segments USER_DATA_SEGMENT USER_CODE_SEGMENT (TASK_STACK_VIRT_ADDR - 8) (t_registers t)) t);
    _ ← update_task task (set_process process);
    mret 0.

(** Returns a [struct task *]; an error code comes back as an address. *)
Definition task_new (process : Z) : M St Z :=
  task ← alloc_task;
  if task =? 0 then mret (ERROR (- ENOMEM))
  else
    rc ← task_init task process;
    if negb (rc =? STATUS_OK) then
      _ ← task_free task;
      mret (ERROR (-1))
    else
      h ← gets task_list_head;
      if h =? 0 then
        _ ← modify (set_task_list_head task);
        _ ← modify (set_task_list_tail task);
        _ ← modify (set_current_task task);
        mret task
      else
        tail ← gets task_list_tail;
        _ ← update_task tail (set_next task);
        tail ← gets task_list_tail;
        _ ← update_task task (set_prev tail);
        _ ← modify (set_task_list_tail task);
        tail ← gets task_list_tail;
        _ ← update_task tail (set_next 0);
        mret task.

(** ** Running a task *)

Definition swap_curr_task_page_tables : M St Z :=
  _ ← set_seg_regs_to_user_data;
  c ← gets current_task;
  t ← load_task c;
  _ ← switch_to (t_paging t);
  mret 0.

Definition swap_task_page_tables (task : Z) : M St Z :=
  _ ← set_seg_regs_to_user_data;
  t ← load_task task;
  _ ← switch_to (t_paging t);
  mret 0.

(** [set_current_process] of [process.c]. *)
Definition set_current_process (process : Z) : M St unit := modify (put_current_process process).

(** [task_enter_userland] of [task.asm] does not return: what it loads is the
    processor's from here on.  The EFLAGS image it hands to [iretd] is not the saved
    one but the kernel's own, read by [pushf], with the interrupt flag set; the data
    segment registers get the low half of the saved [ss]. *)
Definition enter_registers (flags : Z) (r : registers) : registers :=
  Registers (edi r) (esi r) (ebp r) (ebx r) (edx r) (ecx r) (eax r) (ip r) (cs r)
    (Z.lor flags 0x200) (esp r) (ss r).

Definition in_userland (r : registers) (s : St) : St :=
  set_kernel_flags (fun n => kernel_flags s (S n))
    (set_data_segment (u16 (ss r)) (set_user (Some (enter_registers (kernel_flags s 0%nat) r)) s)).

Definition task_enter_userland (r : registers) : M St unit := modify (in_userland r).

Definition task_exec (task : Z) : M St unit :=
  _ ← modify (set_current_task task);
  t ← load_task task;
  _ ← set_current_process (t_process t);
  t ← load_task task;
  _ ← switch_to (t_paging t);
  t ← load_task task;
  task_enter_userland (t_registers t).

(** [task_exec(task_get_next())], with which the exit of a process and the handler of
    exceptions hand the processor over. *)
Definition exec_next : M St unit :=
  next ← task_get_next;
  task_exec next.

Definition frame_registers (frame : interrupt_frame) : registers :=
  Registers (f_edi frame) (f_esi frame) (f_ebp frame) (f_ebx frame) (f_edx frame) (f_ecx frame)
    (f_eax frame) (f_ip frame) (f_cs frame) (f_eflags frame) (f_esp frame) (f_ss frame).

Definition task_current_save_state (frame : interrupt_frame) : M St unit :=
  task ← get_current_task;
  if task =? 0 then panic "task_current_save_state: No current task!\n"
  else update_task task (set_registers (frame_registers frame)).

(** ** The task's address space *)

Definition copy_string_from_user_task (task task_virt_addr kernel_virt_addr max : Z) : M St Z :=
  if max >=? PAGING_PAGE_SIZE then mret (- EINVARG)
  else
    tmp ← on_mem (kzalloc (u32 max));
    if tmp =? 0 then mret (- ENOMEM)
    else
      t ← load_task task;
      task_page_directory ← on_mem (get_pgd (t_paging t));
      old_entry ← on_mem (paging_get_pte task_page_directory tmp);
      t ← load_task task;
      _ ← on_mem (paging_map_range (t_paging t) tmp tmp 1
            (Z.lor (Z.lor PAGING_READ_WRITE PAGING_PRESENT) PAGING_USER_SUPERVISOR));
      t ← load_task task;
      _ ← switch_to (t_paging t);
      _ ← vstrncpy tmp task_virt_addr max;
      _ ← swap_kernel_page_tables;
      rc ← on_mem (paging_set task_page_directory tmp old_entry);
      if rc <? 0 then
        _ ← on_mem (kfree tmp);
        mret (- EIO)
      else
        _ ← pstrncpy kernel_virt_addr tmp max;
        mret 0.

Definition task_get_stack_item (task index : Z) : M St Z :=
  if index <? 0 then panic "task_get_stack_item: index must be >= 0.\n"
  else
    t ← load_task task;
    let task_esp := esp (t_registers t) in
    _ ← swap_task_page_tables task;
    item ← vload32 (u32 (task_esp + 4 * index));
    _ ← swap_kernel_page_tables;
    mret item.

Definition task_virtual_address_to_physical (task virtual_address : Z) : M St Z :=
  t ← load_task task;
  pgd ← on_mem (get_pgd (t_paging t));
  on_mem (paging_get_physical_address pgd virtual_address).

End Tasks.

End Task.
