(* ===== verification/TaskProofs.v ===== *)
(** * Tasks: scheduling, context switches and the task list

    The representation of the list of tasks in memory, the operations that keep
    it, the round-robin order in which [task_exec(task_get_next())] enters them,
    and the registers a task gets back when it runs again. *)
From stdpp Require Import base gmap list numbers strings.
From S2P Require Import Prelude Config CString Heap PhysMem KernelHeap Paging KState Disk Fat16 Terminal Idt Keyboard System Elf Task.
#[local] Open Scope Z_scope.

Module TaskProofs.
Import KernelHeap Paging System Elf Task.

Section Lists.
Context {D : Type}.
#[local] Abbreviation St := (sys D).

(** ** The list in memory *)

(** The tasks of [ts], in order, are linked by [next]. *)
Definition forward (s : St) (ts : list Z) : Prop :=
  NoDup ts /\ (0 ∉ ts) /\ task_list_head s = default 0 (head ts) /\
  task_list_tail s = default 0 (last ts) /\
  forall i p, ts !! i = Some p ->
    exists t, tasks s !! p = Some t /\ t_next t = default 0 (ts !! S i).

(** The element before position [i]. *)
Definition before (ts : list Z) (i : nat) : Z :=
  match i with O => 0 | S j => default 0 (ts !! j) end.

Definition backward (s : St) (ts : list Z) : Prop :=
  forall i p t, ts !! i = Some p -> tasks s !! p = Some t -> t_prev t = before ts i.

Definition task_list (s : St) (ts : list Z) : Prop := forward s ts /\ backward s ts.

(** The position after [i], around the list. *)
Definition successor (ts : list Z) (i : nat) : nat :=
  if decide (S i = length ts) then 0%nat else S i.

Lemma forward_nonzero s ts i p : forward s ts -> ts !! i = Some p -> p <> 0.
Proof. intros (_ & H0 & _) Hp ->. by apply H0, list_elem_of_lookup_2 with i. Qed.

Lemma forward_task s ts i p :
  forward s ts -> ts !! i = Some p ->
  exists t, tasks s !! p = Some t /\ t_next t = default 0 (ts !! S i).
Proof. intros (_ & _ & _ & _ & H). apply H. Qed.

(** A list with the same tasks, head and tail. *)
Lemma task_list_ext s s' ts :
  tasks s' = tasks s -> task_list_head s' = task_list_head s ->
  task_list_tail s' = task_list_tail s -> task_list s ts -> task_list s' ts.
Proof.
  intros Ht Hh Htl [(H1 & H2 & H3 & H4 & H5) Hb]. split.
  - unfold forward. rewrite Ht, Hh, Htl. done.
  - unfold backward. by rewrite Ht.
Qed.

(** ** The scheduler *)

Lemma wp_task_get_next s ts i (Q : Z -> St -> Prop) :
  forward s ts -> ts !! i = Some (current_task s) ->
  Q (default 0 (ts !! successor ts i)) s -> wp task_get_next s Q.
Proof.
  intros Hf Hi HQ. destruct (forward_task _ _ _ _ Hf Hi) as (t & Ht & Hn).
  unfold task_get_next. apply wp_bind, wp_gets, wp_bind. eapply wp_load_task; [done|].
  unfold successor in HQ. destruct (decide (S i = length ts)) as [Hlast|Hlast].
  - rewrite lookup_ge_None_2 in Hn by lia. simpl in Hn. rewrite Hn. change (0 =? 0) with true.
    apply wp_gets. destruct Hf as (_ & _ & -> & _). by destruct ts.
  - pose proof (lookup_lt_Some _ _ _ Hi). destruct (lookup_lt_is_Some_2 ts (S i)) as [q Hq]; [lia|].
    rewrite Hq in Hn, HQ. simpl in Hn, HQ.
    rewrite (proj2 (Z.eqb_neq (t_next t) 0)) by (rewrite Hn; by eapply forward_nonzero).
    apply wp_bind, wp_gets, wp_bind. eapply wp_load_task; [done|]. apply wp_ret. by rewrite Hn.
Qed.

Lemma successor_mod ts i :
  (i < length ts)%nat -> successor ts i = ((i + 1) mod length ts)%nat.
Proof.
  intros Hi. unfold successor. destruct (decide (S i = length ts)) as [E|Hne].
  - rewrite Nat.add_1_r, E. by rewrite Nat.Div0.mod_same.
  - rewrite Nat.mod_small; lia.
Qed.

(** Entering a task: its registers, but for the flags, and its page directory are the
    processor's. *)
Lemma wp_task_exec (task : Z) t pgd (s : St) (Q : unit -> St -> Prop) :
  tasks s !! task = Some t -> get_pgd (t_paging t) (k_alloc (fsys s)) = Ok (pgd, k_alloc (fsys s)) ->
  Q tt (in_userland (t_registers t) (set_regs (Cpu pgd pgd)
    (put_current_process (t_process t) (set_current_task task s)))) ->
  wp (task_exec task) s Q.
Proof.
  intros Ht Hpg HQ. unfold task_exec. apply wp_bind, wp_modify, wp_bind. eapply wp_load_task; [exact Ht|].
  apply wp_bind, wp_modify, wp_bind. eapply wp_load_task; [exact Ht|].
  apply wp_bind. unfold switch_to. apply wp_bind, wp_gets, wp_bind, wp_on_mem.
  unfold get_pgd in Hpg. unfold paging_switch. apply wp_bind. unfold wp at 1.
  cbn [k_alloc fsys set_current_task put_current_process].
  rewrite Hpg. apply wp_bind. unfold wp at 1. rewrite Hpg. apply wp_ret, wp_modify.
  apply wp_bind. eapply wp_load_task; [exact Ht|]. apply wp_modify. by destruct s as [[]].
Qed.

(** The tasks [ts] are linked, and the page directory of each can be found. *)
Definition runnable (s : St) (ts : list Z) : Prop :=
  forward s ts /\ forall p t, p ∈ ts -> tasks s !! p = Some t ->
    exists pgd, get_pgd (t_paging t) (k_alloc (fsys s)) = Ok (pgd, k_alloc (fsys s)).

(** The task [p] has been entered from [s]: [s'] runs it. *)
Definition enters (s s' : St) (p : Z) : Prop :=
  current_task s' = p /\ exists t pgd, tasks s !! p = Some t /\
    get_pgd (t_paging t) (k_alloc (fsys s)) = Ok (pgd, k_alloc (fsys s)) /\
    user s' = Some (enter_registers (kernel_flags s 0%nat) (t_registers t)) /\
    regs s' = Cpu pgd pgd /\ current_process s' = t_process t.

(** From [s] to [s'] with [n] calls of [task_exec(task_get_next())]; whatever runs in
    front of, between and after them, tasks and interrupts, keeps the list of tasks
    and the current one. *)
Inductive hand_overs (ts : list Z) (s : St) : nat -> St -> Prop :=
  | ho_start : hand_overs ts s 0 s
  | ho_run n s1 s2 : hand_overs ts s n s1 -> runnable s2 ts -> current_task s2 = current_task s1 ->
      hand_overs ts s n s2
  | ho_exec n s1 s2 : hand_overs ts s n s1 -> exec_next s1 = Ok (tt, s2) -> hand_overs ts s (S n) s2.

Lemma exec_next_runs s ts i : runnable s ts -> ts !! i = Some (current_task s) ->
  exists s', exec_next s = Ok (tt, s') /\ runnable s' ts /\
    ts !! ((i + 1) mod length ts)%nat = Some (current_task s') /\ enters s s' (current_task s').
Proof.
  intros [Hf Hpg] Hi. pose proof (lookup_lt_Some _ _ _ Hi) as Hlt.
  destruct (lookup_lt_is_Some_2 ts (successor ts i)) as [p Hp].
  { rewrite successor_mod by done. apply Nat.mod_upper_bound. lia. }
  destruct (forward_task _ _ _ _ Hf Hp) as (t & Ht & _).
  destruct (Hpg p t (list_elem_of_lookup_2 _ _ _ Hp) Ht) as [pgd Hpgd].
  assert (Hw : wp exec_next s (fun _ s' => s' = in_userland (t_registers t) (set_regs (Cpu pgd pgd)
    (put_current_process (t_process t) (set_current_task p s))))).
  { apply wp_bind. eapply wp_task_get_next; [exact Hf|exact Hi|]. rewrite Hp. by eapply wp_task_exec. }
  destruct (wp_run _ _ _ Hw) as ([] & s' & Hrun & Es). exists s'. split; [exact Hrun|].
  rewrite <- successor_mod by done. subst s'. split; [by split|]. split; [done|]. split; [done|]. by exists t, pgd.
Qed.

Lemma hand_overs_kept s ts i n s' : hand_overs ts s n s' ->
  runnable s ts -> ts !! i = Some (current_task s) ->
  runnable s' ts /\ ts !! ((i + n) mod length ts)%nat = Some (current_task s').
Proof.
  intros Hh Hr Hi. pose proof (lookup_lt_Some _ _ _ Hi) as Hlt.
  induction Hh as [|n s1 s2 _ [_ IH] Hr2 Hc|n s1 s2 _ [IHr IH] He].
  - rewrite Nat.add_0_r, Nat.mod_small by done. done.
  - by rewrite Hc.
  - destruct (exec_next_runs _ _ _ IHr IH) as (s' & He' & Hr' & Hc & _).
    rewrite He in He'. injection He' as <-. split; [exact Hr'|]. rewrite <- Hc. f_equal.
    rewrite Nat.Div0.add_mod_idemp_l. f_equal. lia.
Qed.

(** ** Removal *)

(** What the links of the other tasks become when position [i] is cut out. *)
Lemma delete_lookup_next (ts : list Z) i j p :
  NoDup ts -> (j < length ts)%nat -> j <> i -> ts !! j = Some p ->
  exists k, delete i ts !! k = Some p /\
    default 0 (delete i ts !! S k) =
      (if decide (S j = i) then default 0 (ts !! S i) else default 0 (ts !! S j)) /\
    k = (if decide (j < i)%nat then j else (j - 1)%nat).
Proof.
  intros Hnd Hj Hne Hp. destruct (decide (j < i)%nat) as [Hlt|Hge].
  - exists j. rewrite list_lookup_delete_lt by done. split; [done|]. split; [|done].
    destruct (decide (S j = i)) as [<-|Hne'].
    + by rewrite list_lookup_delete_ge by lia.
    + by rewrite list_lookup_delete_lt by lia.
  - exists (j - 1)%nat. rewrite list_lookup_delete_ge by lia.
    replace (S (j - 1)) with j by lia. split; [done|]. split; [|done].
    rewrite decide_False by lia. by rewrite list_lookup_delete_ge by lia.
Qed.

Lemma delete_lookup (ts : list Z) i k p :
  delete i ts !! k = Some p ->
  exists j, ts !! j = Some p /\ j <> i /\ k = (if decide (j < i)%nat then j else (j - 1)%nat).
Proof.
  intros Hk. destruct (decide (k < i)%nat) as [Hlt|Hge].
  - rewrite list_lookup_delete_lt in Hk by done. exists k. rewrite decide_True by done. split; [done|lia].
  - rewrite list_lookup_delete_ge in Hk by lia. exists (S k). rewrite decide_False by lia. split; [done|lia].
Qed.

(** The forward list after a cut, from the links of the remaining tasks. *)
Lemma forward_delete (s s' : St) ts i x :
  forward s ts -> ts !! i = Some x ->
  task_list_head s' = default 0 (head (delete i ts)) ->
  task_list_tail s' = default 0 (last (delete i ts)) ->
  (forall j p, ts !! j = Some p -> j <> i -> exists t', tasks s' !! p = Some t' /\
     t_next t' = if decide (S j = i) then default 0 (ts !! S i) else default 0 (ts !! S j)) ->
  forward s' (delete i ts).
Proof.
  intros (Hnd & H0 & _) Hx Hh Ht Hlinks.
  assert (Hsub : delete i ts `sublist_of` ts) by apply sublist_delete.
  split; [by eapply sublist_NoDup|]. split.
  { intros Hin. apply H0. by eapply elem_of_submseteq; [|apply sublist_submseteq]. }
  split; [done|]. split; [done|]. intros k p Hk.
  destruct (delete_lookup _ _ _ _ Hk) as (j & Hj & Hne & Ek).
  destruct (Hlinks j p Hj Hne) as (t' & Ht' & Hn'). exists t'. split; [done|]. rewrite Hn'.
  destruct (delete_lookup_next ts i j p Hnd (lookup_lt_Some _ _ _ Hj) Hne Hj) as (k' & _ & <- & Ek').
  by rewrite Ek, Ek'.
Qed.

Lemma last_delete_last (ts : list Z) i :
  S i = length ts -> last (delete i ts) = match i with O => None | S j => ts !! j end.
Proof.
  intros Hl. rewrite last_lookup, length_delete by (apply lookup_lt_is_Some_2; lia).
  destruct i as [|j].
  - destruct ts as [|a [|b ts]]; try done; simpl in Hl; lia.
  - rewrite list_lookup_delete_lt by lia. f_equal. lia.
Qed.

Lemma last_delete_other (ts : list Z) i :
  (S i < length ts)%nat -> last (delete i ts) = last ts.
Proof.
  intros Hl. rewrite !last_lookup, length_delete by (apply lookup_lt_is_Some_2; lia).
  rewrite list_lookup_delete_ge by lia. f_equal. lia.
Qed.

Lemma head_delete (ts : list Z) i :
  head (delete i ts) = if decide (i = 0%nat) then ts !! 1%nat else head ts.
Proof. destruct i, ts as [|a [|b ts]]; done. Qed.

(** Positions of distinct tasks differ. *)
Lemma position_inj (s : St) ts i j p : forward s ts -> ts !! i = Some p -> ts !! j = Some p -> i = j.
Proof. intros (Hnd & _) Hi Hj. by eapply NoDup_lookup. Qed.

Lemma is_head (s : St) ts i x :
  forward s ts -> ts !! i = Some x -> (x =? task_list_head s) = bool_decide (i = 0%nat).
Proof.
  intros Hf Hx. pose proof Hf as (_ & _ & -> & _). pose proof (lookup_lt_Some _ _ _ Hx).
  destruct (lookup_lt_is_Some_2 ts 0) as [h Hh]; [lia|]. rewrite head_lookup, Hh. simpl.
  destruct (Z.eqb_spec x h) as [->|Hne]; case_bool_decide; try done; exfalso.
  - by pose proof (position_inj _ _ _ _ _ Hf Hx Hh).
  - subst i. congruence.
Qed.

Lemma is_tail (s : St) ts i x :
  forward s ts -> ts !! i = Some x -> (x =? task_list_tail s) = bool_decide (S i = length ts).
Proof.
  intros Hf Hx. pose proof Hf as (_ & _ & _ & -> & _). pose proof (lookup_lt_Some _ _ _ Hx).
  destruct (lookup_lt_is_Some_2 ts (pred (length ts))) as [l Hl]; [lia|]. rewrite last_lookup, Hl. simpl.
  destruct (Z.eqb_spec x l) as [->|Hne]; case_bool_decide as Hi; try done; exfalso.
  - pose proof (position_inj _ _ _ _ _ Hf Hx Hl). lia.
  - replace (pred (length ts)) with i in Hl by lia. congruence.
Qed.

(** The links after one task's link changes. *)
Lemma links_update (s : St) (ts : list Z) i q (f : task -> task) (t : task) :
  forward s ts -> tasks s !! q = Some t ->
  (forall j p, ts !! j = Some p -> j <> i -> p = q ->
     t_next (f t) = if decide (S j = i) then default 0 (ts !! S i) else default 0 (ts !! S j)) ->
  (forall j p, ts !! j = Some p -> p <> q -> S j <> i) ->
  forall j p, ts !! j = Some p -> j <> i -> exists t', <[q := f t]> (tasks s) !! p = Some t' /\
     t_next t' = if decide (S j = i) then default 0 (ts !! S i) else default 0 (ts !! S j).
Proof.
  intros Hf Hq Hself Hother j p Hj Hne. destruct (decide (p = q)) as [->|Hpq].
  - exists (f t). rewrite lookup_insert_eq. split; [done|]. by apply (Hself j q).
  - rewrite lookup_insert_ne by done. destruct (forward_task _ _ _ _ Hf Hj) as (t' & Ht' & Hn').
    exists t'. split; [done|]. rewrite decide_False by (by eapply Hother). done.
Qed.

(** The task after position [i] still names [x] as the one before it. *)
Definition stale (s : St) (ts : list Z) (i : nat) (x : Z) : Prop :=
  exists y t, ts !! S i = Some y /\ tasks s !! y = Some t /\ t_prev t = x.

(** What unlinking the task at position [i] establishes. *)
Definition unlinked (ts : list Z) (i : nat) (x : Z) (s s' : St) : Prop :=
  forward s' (delete i ts) /\
  (i = 0%nat \/ S i = length ts -> backward s' (delete i ts)) /\
  (i <> 0%nat -> S i <> length ts -> stale s' ts i x) /\
  current_task s' = (if decide (length ts = 1%nat) then 0 else current_task s) /\
  (forall p, p ∉ ts -> tasks s' !! p = tasks s !! p) /\
  (exists t t', tasks s !! x = Some t /\ tasks s' !! x = Some t' /\ t_next t' = t_next t).

Lemma backward_delete (s : St) (m : gmap Z task) (ts : list Z) i :
  (forall j p t', ts !! j = Some p -> j <> i -> m !! p = Some t' ->
     t_prev t' = before (delete i ts) (if decide (j < i)%nat then j else (j - 1)%nat)) ->
  forall k p t', delete i ts !! k = Some p -> m !! p = Some t' -> t_prev t' = before (delete i ts) k.
Proof.
  intros H k p t' Hk Ht'. destruct (delete_lookup _ _ _ _ Hk) as (j & Hj & Hne & ->). by eapply H.
Qed.

Lemma wp_unlink_head s ts x :
  task_list s ts -> ts !! 0%nat = Some x -> (1 < length ts)%nat ->
  wp (task_unlink x) s (fun _ s' => unlinked ts 0 x s s').
Proof.
  intros [Hf Hb] Hx Hlen. unfold task_unlink. apply wp_bind. unfold wp at 1, get_state.
  rewrite (is_head _ _ _ _ Hf Hx), (is_tail _ _ _ _ Hf Hx).
  rewrite bool_decide_true, bool_decide_false by lia. cbn [andb].
  destruct (forward_task _ _ _ _ Hf Hx) as (t & Ht & Hn).
  destruct (lookup_lt_is_Some_2 ts 1) as [y Hy]; [lia|]. rewrite Hy in Hn. simpl in Hn.
  destruct (forward_task _ _ _ _ Hf Hy) as (ty & Hty & Hny).
  apply wp_bind. eapply wp_load_task; [done|]. apply wp_bind, wp_modify, wp_bind, wp_gets. cbn [task_list_head set_task_list_head].
  rewrite Hn. eapply wp_update_task; [exact Hty|].
  assert (Hxy : x <> y) by (intros ->; by pose proof (position_inj _ _ _ _ _ Hf Hx Hy)).
  split.
  - eapply (forward_delete s); [done|done|cbn; rewrite head_delete, decide_True, Hy by done; done| |].
    + cbn. destruct Hf as (_ & _ & _ & -> & _). by rewrite last_delete_other by lia.
    + cbn [tasks set_tasks set_task_list_head]. eapply links_update; [done|done| |].
      * intros j p Hj Hne ->. rewrite decide_False by lia.
        rewrite (position_inj _ _ _ _ _ Hf Hj Hy). cbn. by rewrite Hny.
      * lia.
  - split.
    { intros _. unfold backward. cbn [tasks set_tasks set_task_list_head]. eapply (backward_delete s).
      intros j p t' Hj Hne Ht'. rewrite decide_False by lia. destruct (decide (p = y)) as [->|Hpy].
      - rewrite lookup_insert_eq in Ht'. injection Ht' as <-.
        rewrite (position_inj _ _ _ _ _ Hf Hj Hy). done.
      - rewrite lookup_insert_ne in Ht' by done. rewrite (Hb j p t' Hj Ht').
        destruct j as [|[|j]]; [done|congruence|]. simpl. destruct ts; [done|]. done. }
    split; [done|]. split; [by rewrite decide_False by lia|]. split.
    + intros p Hp. cbn. apply lookup_insert_ne. intros <-. by apply Hp, list_elem_of_lookup_2 with 1%nat.
    + exists t, t. cbn. by rewrite lookup_insert_ne by done.
Qed.

Lemma wp_unlink_tail s ts i x :
  task_list s ts -> ts !! i = Some x -> S i = length ts -> i <> 0%nat ->
  wp (task_unlink x) s (fun _ s' => unlinked ts i x s s').
Proof.
  intros [Hf Hb] Hx Hlen Hi0. unfold task_unlink. apply wp_bind. unfold wp at 1, get_state.
  rewrite (is_head _ _ _ _ Hf Hx), (is_tail _ _ _ _ Hf Hx).
  rewrite bool_decide_false, bool_decide_true by lia. cbn [andb].
  destruct (forward_task _ _ _ _ Hf Hx) as (t & Ht & Hn).
  destruct i as [|i]; [done|]. destruct (lookup_lt_is_Some_2 ts i) as [y Hy]; [lia|].
  destruct (forward_task _ _ _ _ Hf Hy) as (ty & Hty & Hny).
  pose proof (Hb _ _ _ Hx Ht) as Hprev. simpl in Hprev. rewrite Hy in Hprev. simpl in Hprev.
  apply wp_bind. eapply wp_load_task; [done|]. apply wp_bind, wp_modify, wp_bind, wp_gets. cbn [task_list_tail set_task_list_tail].
  rewrite Hprev. eapply wp_update_task; [exact Hty|].
  assert (Hxy : x <> y) by (intros ->; pose proof (position_inj _ _ _ _ _ Hf Hx Hy); lia).
  assert (Hend : ts !! S (S i) = None) by (apply lookup_ge_None_2; lia).
  split.
  - eapply (forward_delete s); [done|done| | |].
    + cbn. rewrite head_delete, decide_False by lia. apply Hf.
    + cbn. rewrite last_delete_last by lia. by rewrite Hy.
    + cbn [tasks set_tasks set_task_list_tail]. eapply links_update; [done|done| |].
      * intros j p Hj Hne ->. rewrite (position_inj _ _ _ _ _ Hf Hj Hy).
        by rewrite decide_True, Hend by done.
      * intros j p Hj Hpy E. injection E as ->. congruence.
  - split.
    { intros _. unfold backward. cbn [tasks set_tasks set_task_list_tail]. eapply (backward_delete s).
      intros j p t' Hj Hne Ht'. pose proof (lookup_lt_Some _ _ _ Hj).
      rewrite decide_True by lia.
      assert (Hp : t_prev t' = before ts j).
      { destruct (decide (p = y)) as [->|Hpy].
        - rewrite lookup_insert_eq in Ht'. injection Ht' as <-. by apply (Hb j y ty).
        - rewrite lookup_insert_ne in Ht' by done. by apply (Hb j p t'). }
      rewrite Hp. destruct j as [|j]; [done|]. simpl. by rewrite list_lookup_delete_lt by lia. }
    split; [done|]. split; [by rewrite decide_False by lia|]. split.
    + intros p Hp. cbn. apply lookup_insert_ne. intros <-. by apply Hp, list_elem_of_lookup_2 with i.
    + exists t, t. cbn. by rewrite lookup_insert_ne by done.
Qed.

Lemma wp_unlink_middle s ts i x :
  task_list s ts -> ts !! i = Some x -> S i <> length ts -> i <> 0%nat ->
  wp (task_unlink x) s (fun _ s' => unlinked ts i x s s').
Proof.
  intros [Hf Hb] Hx Hlen Hi0. pose proof (lookup_lt_Some _ _ _ Hx) as Hlt.
  unfold task_unlink. apply wp_bind. unfold wp at 1, get_state.
  rewrite (is_head _ _ _ _ Hf Hx), (is_tail _ _ _ _ Hf Hx).
  rewrite !bool_decide_false by lia. cbn [andb].
  destruct (forward_task _ _ _ _ Hf Hx) as (t & Ht & Hn).
  destruct i as [|i]; [done|]. destruct (lookup_lt_is_Some_2 ts i) as [y Hy]; [lia|].
  destruct (forward_task _ _ _ _ Hf Hy) as (ty & Hty & Hny).
  pose proof (Hb _ _ _ Hx Ht) as Hprev. simpl in Hprev. rewrite Hy in Hprev. simpl in Hprev.
  apply wp_bind. eapply wp_load_task; [done|]. rewrite Hprev. eapply wp_update_task; [exact Hty|].
  assert (Hxy : x <> y) by (intros ->; pose proof (position_inj _ _ _ _ _ Hf Hx Hy); lia).
  split.
  - eapply (forward_delete s); [done|done| | |].
    + cbn. rewrite head_delete, decide_False by lia. apply Hf.
    + cbn. destruct Hf as (_ & _ & _ & -> & _). by rewrite last_delete_other by lia.
    + cbn [tasks set_tasks]. eapply links_update; [done|done| |].
      * intros j p Hj Hne ->. rewrite (position_inj _ _ _ _ _ Hf Hj Hy).
        rewrite decide_True by done. cbn. by rewrite Hn.
      * intros j p Hj Hpy E. injection E as ->. congruence.
  - split; [lia|]. split; [|split; [by rewrite decide_False by lia|split]].
    + intros _ _. destruct (lookup_lt_is_Some_2 ts (S (S i))) as [z Hz]; [lia|].
      destruct (forward_task _ _ _ _ Hf Hz) as (tz & Htz & _). exists z, tz. split; [done|].
      pose proof (Hb _ _ _ Hz Htz) as Hpz. simpl in Hpz. rewrite Hx in Hpz. split; [|done].
      cbn. rewrite lookup_insert_ne; [done|]. intros ->. pose proof (position_inj _ _ _ _ _ Hf Hy Hz). lia.
    + intros p Hp. cbn. apply lookup_insert_ne. intros <-. by apply Hp, list_elem_of_lookup_2 with i.
    + exists t, t. cbn. by rewrite lookup_insert_ne by done.
Qed.

Lemma wp_unlink s ts i x :
  task_list s ts -> ts !! i = Some x -> wp (task_unlink x) s (fun _ s' => unlinked ts i x s s').
Proof.
  intros Hl Hx. pose proof (lookup_lt_Some _ _ _ Hx) as Hlt.
  destruct (decide (i = 0%nat)) as [->|Hi0]; [destruct (decide (length ts = 1%nat)) as [H1|H1]|].
  - pose proof Hl as [Hf Hb]. destruct (forward_task _ _ _ _ Hf Hx) as (t & Ht & Hn).
    unfold task_unlink. apply wp_bind. unfold wp at 1, get_state.
    rewrite (is_head _ _ _ _ Hf Hx), (is_tail _ _ _ _ Hf Hx), !bool_decide_true by lia.
    apply wp_bind, wp_modify, wp_bind, wp_modify, wp_modify.
    destruct ts as [|a [|b ts]]; try done.
    split; [by repeat split; [apply NoDup_nil_2|set_solver|]|]. split; [by intros _ ???|].
    split; [done|]. split; [done|]. split; [done|]. by exists t, t.
  - apply wp_unlink_head; [done|done|lia].
  - destruct (decide (S i = length ts)); [by apply wp_unlink_tail|by apply wp_unlink_middle].
Qed.

(** ** Theorems *)

(** C27 (invariant): [task_list_remove] takes exactly the given task out of the
    list the scheduler walks, whatever its position, and when it was the
    current one the task after it, around the list, becomes current.  Removed
    from an end, the list stays doubly linked; removed from the middle, the
    [prev] link of its successor is not repaired and still names it. *)
Theorem task_list_remove_spec (s : St) (ts : list Z) (i c : nat) (x : Z)
    (Hl : task_list s ts) (Hx : ts !! i = Some x) (Hc : ts !! c = Some (current_task s)) :
  exists s', task_list_remove x s = Ok (tt, s') /\ forward s' (delete i ts) /\
    (i = 0%nat \/ S i = length ts -> task_list s' (delete i ts)) /\
    (i <> 0%nat -> S i <> length ts -> stale s' ts i x) /\
    current_task s' =
      (if decide (length ts = 1%nat) then 0
       else if decide (c = i) then default 0 (ts !! successor ts i) else current_task s) /\
    (forall p, p ∉ ts -> tasks s' !! p = tasks s !! p).
Proof.
  pose proof Hl as [Hf Hb].
  assert (Hwp : wp (task_list_remove x) s (fun _ s' => exists s1, unlinked ts i x s s1 /\
    s' = if decide (x = current_task s1)
         then set_current_task (default 0 (ts !! successor ts i)) s1 else s1)).
  { unfold task_list_remove. apply wp_bind. eapply wp_mono; [by apply (wp_unlink s ts i)|].
    intros [] s1 Hu. apply wp_bind, wp_gets. destruct (Z.eqb_spec x (current_task s1)) as [E|E].
    2:{ apply wp_ret. exists s1. by rewrite decide_False. }
    apply wp_bind. pose proof Hu as (Hf1 & _ & _ & Hc1 & _ & t & t' & Ht & Ht' & Hn').
    destruct (decide (length ts = 1%nat)) as [H1|H1].
    { rewrite Hc1 in E. subst x. by pose proof (forward_nonzero _ _ _ _ Hf Hx). }
    destruct (forward_task _ _ _ _ Hf Hx) as (t0 & Ht0 & Hn). rewrite Ht in Ht0.
    injection Ht0 as <-. rewrite Hn in Hn'. unfold task_get_next.
    apply wp_bind, wp_gets, wp_bind. rewrite <- E. eapply wp_load_task; [done|].
    unfold successor. destruct (decide (S i = length ts)) as [Hlast|Hlast].
    - rewrite lookup_ge_None_2 in Hn' by lia. simpl in Hn'. rewrite Hn'. change (0 =? 0) with true.
      apply wp_gets, wp_modify. exists s1. split; [done|]. rewrite decide_True by done.
      do 2 f_equal. destruct Hf1 as (_ & _ & -> & _). rewrite head_delete.
      rewrite decide_False by (intros ->; lia). by destruct ts.
    - pose proof (lookup_lt_Some _ _ _ Hx). destruct (lookup_lt_is_Some_2 ts (S i)) as [q Hq]; [lia|].
      rewrite Hq in Hn' |- *. simpl in Hn'.
      rewrite (proj2 (Z.eqb_neq (t_next t') 0)) by (rewrite Hn'; exact (forward_nonzero _ _ _ _ Hf Hq)).
      apply wp_bind, wp_gets, wp_bind. rewrite <- E. eapply wp_load_task; [done|].
      apply wp_ret, wp_modify. exists s1. split; [done|]. by rewrite decide_True, Hn'. }
  destruct (wp_run _ _ _ Hwp) as ([] & s' & Hrun & s1 & (Hf1 & Hb1 & Hs1 & Hc1 & Hout & _) & ->).
  eexists. split; [exact Hrun|].
  pose proof (forward_nonzero _ _ _ _ Hf Hx) as Hx0.
  assert (Hcx : c = i <-> x = current_task s).
  { split; [intros ->; congruence|]. intros ->. exact (position_inj _ _ _ _ _ Hf Hc Hx). }
  rewrite Hc1. destruct (decide (length ts = 1%nat)) as [H1|H1].
  - rewrite decide_False by done.
    split; [done|]. split; [by intros H; split; [done|apply Hb1]|]. split; [done|]. done.
  - destruct (decide (x = current_task s)) as [E|E].
    + rewrite (decide_True (P:=c = i)) by (by apply Hcx).
      split; [done|]. split; [by intros H; split; [done|apply Hb1]|]. split; [done|]. done.
    + rewrite (decide_False (P:=c = i)) by (by rewrite Hcx).
      split; [done|]. split; [by intros H; split; [done|apply Hb1]|]. split; [done|]. done.
Qed.

(** C16 (liveness): the processor is handed over round robin.  Every call of
    [task_exec(task_get_next())], which ends the exit system call and the handler of
    exceptions, returns into the task after the current one, around the list: on its
    page directory, with its saved registers but for the flags and as its process.
    So the [n]th hand-over enters the task [n] places on, whatever runs in between
    that keeps the list and the current task, and within as many hand-overs as there
    are tasks each of them has been entered. *)
Theorem schedule_round_robin (s : St) (ts : list Z) (i : nat)
    (Hr : runnable s ts) (Hi : ts !! i = Some (current_task s)) :
  (forall n s1, hand_overs ts s n s1 ->
     ts !! ((i + n) mod length ts)%nat = Some (current_task s1) /\
     exists s2 p, exec_next s1 = Ok (tt, s2) /\ enters s1 s2 p /\
       ts !! ((i + S n) mod length ts)%nat = Some p) /\
  (forall p, p ∈ ts -> exists n, (n < length ts)%nat /\
     forall s1 s2, hand_overs ts s n s1 -> exec_next s1 = Ok (tt, s2) -> enters s1 s2 p).
Proof.
  pose proof (lookup_lt_Some _ _ _ Hi) as Hlt.
  assert (H : forall n s1, hand_overs ts s n s1 ->
     ts !! ((i + n) mod length ts)%nat = Some (current_task s1) /\
     exists s2 p, exec_next s1 = Ok (tt, s2) /\ enters s1 s2 p /\ ts !! ((i + S n) mod length ts)%nat = Some p).
  { intros n s1 Hh. destruct (hand_overs_kept _ _ _ _ _ Hh Hr Hi) as [Hr1 Hc]. split; [exact Hc|].
    destruct (exec_next_runs _ _ _ Hr1 Hc) as (s2 & He & _ & Hc2 & Hen). exists s2, (current_task s2).
    split; [exact He|]. split; [exact Hen|]. rewrite <- Hc2, Nat.Div0.add_mod_idemp_l. do 2 f_equal. lia. }
  split; [exact H|]. intros p Hp. apply list_elem_of_lookup_1 in Hp as [j Hj].
  pose proof (lookup_lt_Some _ _ _ Hj) as Hltj.
  set (n := if decide (i < j)%nat then (j - i - 1)%nat else (j + length ts - i - 1)%nat). exists n.
  assert (Hmod : ((i + S n) mod length ts)%nat = j /\ (n < length ts)%nat).
  { subst n. destruct (decide (i < j)%nat).
    - rewrite Nat.mod_small; lia.
    - replace (i + S (j + length ts - i - 1))%nat with (j + 1 * length ts)%nat by lia.
      rewrite Nat.Div0.mod_add, Nat.mod_small; lia. }
  destruct Hmod as [Hmod Hn]. split; [exact Hn|]. intros s1 s2 Hh He.
  destruct (H n s1 Hh) as (_ & s2' & p' & He' & Hen & Hp'). rewrite Hmod, Hj in Hp'.
  injection Hp' as <-. rewrite He in He'. by injection He' as <-.
Qed.

(** C26 (roundtrip): a context switch.  The registers of an interrupted task, saved
    from its frame, are the ones the processor gets when that task runs again,
    whatever tasks run in between ([tasks] elsewhere may change freely), on that
    task's page directory and as that task's process, with the data segments set to
    the saved stack segment.  The flags are the exception: the task goes on with the
    kernel's, interrupts enabled, and not with those it had. *)
Theorem context_switch_roundtrip (frame : interrupt_frame) (s s1 s2 : St) (t : task) (pgd : Z)
    (Hcur : current_task s <> 0) (Ht : tasks s !! current_task s = Some t)
    (Hsave : task_current_save_state frame s = Ok (tt, s1))
    (Hkept : tasks s2 !! current_task s = tasks s1 !! current_task s)
    (Hpg : get_pgd (t_paging t) (k_alloc (fsys s2)) = Ok (pgd, k_alloc (fsys s2))) :
  exists s3, task_exec (current_task s) s2 = Ok (tt, s3) /\
    user s3 = Some (enter_registers (kernel_flags s2 0%nat) (frame_registers frame)) /\
    data_segment s3 = u16 (f_ss frame) /\ regs s3 = Cpu pgd pgd /\
    current_task s3 = current_task s /\ current_process s3 = t_process t /\
    tasks s3 = tasks s2 /\ k_alloc (fsys s3) = k_alloc (fsys s2).
Proof.
  assert (Hs1 : s1 = set_tasks (<[current_task s := set_registers (frame_registers frame) t]> (tasks s)) s).
  { unfold task_current_save_state, get_current_task in Hsave.
    unfold mbind, M_bind, gets in Hsave. rewrite (proj2 (Z.eqb_neq _ _) Hcur) in Hsave.
    unfold update_task, mbind, M_bind, load_task in Hsave. rewrite Ht in Hsave.
    cbn [of_option] in Hsave. by injection Hsave as <-. }
  rewrite Hs1 in Hkept. cbn [tasks set_tasks] in Hkept. rewrite lookup_insert_eq in Hkept.
  assert (Hwp : wp (task_exec (current_task s)) s2 (fun _ s3 =>
    user s3 = Some (enter_registers (kernel_flags s2 0%nat) (frame_registers frame)) /\
    data_segment s3 = u16 (f_ss frame) /\ regs s3 = Cpu pgd pgd /\
    current_task s3 = current_task s /\ current_process s3 = t_process t /\
    tasks s3 = tasks s2 /\ k_alloc (fsys s3) = k_alloc (fsys s2))).
  { eapply wp_task_exec; [exact Hkept|exact Hpg|]. repeat split. }
  destruct (wp_run _ _ _ Hwp) as ([] & s3 & Hrun & H). eauto.
Qed.

End Lists.

(** ** Witnesses *)

(** Three tasks at 4096, 8192 and 12288, the first one running. *)
Definition three_tasks : gmap Z task :=
  {[ 4096 := Task 0x1000 zero_registers 100 8192 0;
     8192 := Task 0x1000 zero_registers 200 12288 4096;
     12288 := Task 0x1000 zero_registers 300 0 8192 ]}.

Definition three_state : sys unit :=
  Sys (KSt (KMem fresh_heap (PhysMem.store32 ∅ 0x1000 0x5000)) ∅ tt (Disk REAL 0 512 0 0) [] [])
    (Cpu 0 0) KERNEL_DATA_SEGMENT None three_tasks ∅ ∅ 4096 4096 12288 100 (replicate 12 0) 0
    (Terminal.mk_terminal 0 0 ∅) Idt.boot_state (fun _ => 2).

Lemma three_list : task_list three_state [4096; 8192; 12288].
Proof.
  split.
  - split; [repeat (apply NoDup_cons_2; [set_solver|]); apply NoDup_nil_2|].
    split; [set_solver|]. split; [done|]. split; [done|].
    intros [|[|[|i]]] p Hp; simpl in Hp; simplify_eq; eexists; split; reflexivity.
  - intros [|[|[|i]]] p t Hp Ht; simpl in Hp; simplify_eq; vm_compute in Ht; by simplify_eq.
Qed.

Lemma task_list_remove_spec_witness :
  exists s', task_list_remove 4096 three_state = Ok (tt, s') /\
    task_list s' [8192; 12288] /\ current_task s' = 8192.
Proof.
  destruct (task_list_remove_spec three_state [4096; 8192; 12288] 0 0 4096 three_list eq_refl eq_refl)
    as (s' & H & _ & Hl & _ & Hc & _).
  exists s'. split; [exact H|]. split; [apply Hl; left; reflexivity|exact Hc].
Defined.

Lemma three_runnable : runnable three_state [4096; 8192; 12288].
Proof.
  split; [apply three_list|]. intros p t Hp Ht. exists 0x5000.
  rewrite !elem_of_cons in Hp. destruct Hp as [->|[->|[->|Hp]]]; [..|by apply not_elem_of_nil in Hp];
    vm_compute in Ht; by simplify_eq.
Qed.

Lemma schedule_round_robin_witness :
  exists s1 s2, exec_next three_state = Ok (tt, s1) /\ enters three_state s1 8192 /\
    exec_next s1 = Ok (tt, s2) /\ enters s1 s2 12288.
Proof.
  destruct (schedule_round_robin three_state [4096; 8192; 12288] 0 three_runnable eq_refl) as [H _].
  destruct (H 0%nat three_state (ho_start _ _)) as (_ & s1 & p1 & R1 & E1 & P1).
  destruct (H 1%nat s1 (ho_exec _ _ _ _ _ (ho_start _ _) R1)) as (_ & s2 & p2 & R2 & E2 & P2).
  injection P1 as <-. injection P2 as <-. exists s1, s2.
  split; [exact R1|]. split; [exact E1|]. split; [exact R2|exact E2].
Defined.

Lemma context_switch_roundtrip_witness :
  let frame := Frame 1 2 3 0 4 5 6 7 0x400010 0x1b 0xa46 0x3fe000 0x23 in
  exists s1 s3, task_current_save_state frame three_state = Ok (tt, s1) /\
    task_exec 4096 s1 = Ok (tt, s3) /\
    user s3 = Some (Registers 1 2 3 4 5 6 7 0x400010 0x1b 0x202 0x3fe000 0x23) /\
    data_segment s3 = 0x23 /\ regs s3 = Cpu 0x5000 0x5000.
Proof.
  intros frame.
  pose (s1 := set_tasks (<[4096 := set_registers (frame_registers frame)
    (Task 0x1000 zero_registers 100 8192 0)]> three_tasks) three_state).
  destruct (context_switch_roundtrip frame three_state s1 s1
    (Task 0x1000 zero_registers 100 8192 0) 0x5000) as (s3 & H & Hu & Hd & Hr & _).
  - discriminate.
  - reflexivity.
  - reflexivity.
  - reflexivity.
  - reflexivity.
  - exists s1, s3. split; [reflexivity|]. split; [exact H|]. split; [exact Hu|]. split; [exact Hd|exact Hr].
Defined.

(** Two removals: the middle task, and then the last, whose [prev] still names
    the freed one.  The second removal writes through the freed task. *)
Example remove_middle_then_tail :
  (_ ← task_list_remove 8192; _ ← modify (fun s => set_tasks (delete 8192 (tasks s)) s);
   task_list_remove 12288) three_state = Fault.
Proof. reflexivity. Qed.

End TaskProofs.
