(* ===== verification/UserMemory.v ===== *)
(** * Reaching into a task's address space

    The page walk against the page tables the kernel maintains, and the two
    functions of [task.c] through which system calls read their arguments:
    [task_get_stack_item] and [copy_string_from_user_task]. *)
From stdpp Require Import base gmap list numbers strings.
From S2P Require Import Prelude Config CString Heap PhysMem KernelHeap Paging KState Disk Fat16 Terminal Idt Keyboard System Elf Task.
#[local] Open Scope Z_scope.

Module UserMemory.
Import KernelHeap Paging System Elf Task.

(** ** The page walk *)

(** Every entry of the directory is present, as [init_page_tables] leaves it. *)
Definition pde_present (m : gmap Z Z) (pgd : Z) : Prop :=
  forall i, 0 <= i < 1024 -> Z.testbit (PhysMem.load32 m (pgd + 4 * i)) 0 = true.

Lemma page_of_indexes va :
  page_of va / 4194304 = va / 4194304 /\ page_of va mod 4194304 / 4096 = va mod 4194304 / 4096.
Proof. unfold page_of. zlia. Qed.

(** The walk reads the same entry as [paging_get_pte]. *)
Lemma walk_pte m pgd va :
  0 <= va < 4294967296 -> pde_present m pgd -> Z.testbit (pte m pgd (page_of va)) 0 = true ->
  walk m pgd va = Some (Z.land (pte m pgd (page_of va)) PGD_ENTRY_TABLE_ADDR + va mod 4096).
Proof.
  intros Hva Hpd Hp. unfold walk. rewrite Hpd by zlia.
  destruct (page_of_indexes va) as [E1 E2]. unfold pte, pte_addr, table_of in *.
  rewrite E1, E2 in Hp |- *. unfold PGD_ENTRY_TABLE_ADDR in *. by rewrite Hp.
Qed.

(** A page mapped to the frame [f] with the present flag. *)
Lemma walk_frame m pgd va f flags :
  0 <= va < 4294967296 -> pde_present m pgd -> page f -> 0 <= flags < 4096 ->
  Z.testbit flags 0 = true -> pte m pgd (page_of va) = f + flags ->
  walk m pgd va = Some (f + va mod 4096).
Proof.
  intros Hva Hpd Hf Hfl Hp E. rewrite walk_pte; [|done|done|].
  - by rewrite E, frame_bits.
  - rewrite E, <- (lor_low_bits 12 f flags); [|lia|apply Hf|done].
    by rewrite Z.lor_spec, Hp, orb_true_r.
Qed.

(** Two memories with the same tables walk alike. *)
Lemma walk_ext m m' pgd va :
  0 <= va < 4294967296 -> PhysMem.same_region m m' pgd 4096 ->
  (forall i, 0 <= i < 1024 -> PhysMem.same_region m m' (table_of m pgd i) 4096) ->
  walk m' pgd va = walk m pgd va.
Proof.
  intros Hva Hd Ht. unfold walk.
  assert (Hi : 0 <= va / 4194304 < 1024) by zlia.
  assert (Hj : 0 <= va mod 4194304 / 4096 < 1024) by zlia.
  assert (E1 : PhysMem.load32 m' (pgd + 4 * (va / 4194304)) = PhysMem.load32 m (pgd + 4 * (va / 4194304))).
  { symmetry. apply (PhysMem.same_region_load32 _ _ pgd 4096); [done|lia|lia]. }
  rewrite E1. destruct (Z.testbit _ 0); [|done].
  specialize (Ht _ Hi). unfold table_of, PGD_ENTRY_TABLE_ADDR in Ht.
  rewrite <- (PhysMem.same_region_load32 m m' _ 4096 _ Ht); [done|lia|lia].
Qed.

Lemma pde_present_ext m m' pgd :
  PhysMem.same_region m m' pgd 4096 -> pde_present m pgd -> pde_present m' pgd.
Proof.
  intros Hs Hp i Hi. rewrite <- (PhysMem.same_region_load32 m m' pgd 4096) by (done || lia).
  by apply Hp.
Qed.

Lemma desc_wf_ext m m' d pgd :
  PhysMem.same_region m m' d 4 -> PhysMem.same_region m m' pgd 4096 ->
  desc_wf m d pgd -> desc_wf m' d pgd.
Proof.
  intros Hd Hp [H1 H2 H3 H4]. split; [done| |by eapply pt_wf_ext|].
  - rewrite <- H2. symmetry. apply (PhysMem.same_region_load32 _ _ d 4); [done|lia|lia].
  - intros i Hi. rewrite <- (table_of_ext m m') by done. by apply H4.
Qed.

(** Mapping one page stores one entry. *)
Lemma map_one_page d pgd va pa prot k :
  desc_wf (mem k) d pgd -> page va -> page pa -> 0 <= prot < 4096 ->
  paging_map_range d va pa 1 prot k = Ok (0, set_mem k (set_pte (mem k) pgd va (pa + prot))).
Proof.
  intros Hd Hv Hp Hprot. unfold paging_map_range. rewrite !aligned_page by done. cbn [negb orb].
  change (Z.to_nat 1) with 1%nat. rewrite map_range_loop_S. unfold mbind, M_bind.
  rewrite (read_desc_ok _ _ _ Hd), paging_set_ok by (done || apply (desc_pt _ _ _ Hd)).
  destruct (Z.ltb_spec 0 0); [lia|]. rewrite (lor_low_bits 12); [|lia|apply Hp|done].
  rewrite (u32_small (pa + prot)); [done|]. unfold page in Hp. zlia.
Qed.


(** A word written back from another memory. *)
Lemma load8_store32_back m m' a b :
  PhysMem.load8 (PhysMem.store32 m' a (PhysMem.load32 m a)) b =
  if decide (a <= b < a + 4) then PhysMem.load8 m b else PhysMem.load8 m' b.
Proof.
  pose proof (PhysMem.load8_range m a). pose proof (PhysMem.load8_range m (a + 1)).
  pose proof (PhysMem.load8_range m (a + 2)). pose proof (PhysMem.load8_range m (a + 3)).
  destruct (decide (a <= b < a + 4)) as [Hin|Hout].
  - assert (Hb : b = a \/ b = a + 1 \/ b = a + 2 \/ b = a + 3) by lia.
    unfold PhysMem.store32, PhysMem.load32.
    destruct Hb as [->|[->|[->| ->]]]; PhysMem.mem_simpl; unfold u8; zlia.
  - by rewrite PhysMem.load8_store32_ne by lia.
Qed.

(** Storing the entry of another page does not change a walk. *)
Lemma walk_set_pte m pgd tmp v va :
  pt_wf m pgd -> page tmp -> 0 <= va < 4294967296 -> page_of va <> tmp ->
  walk (set_pte m pgd tmp v) pgd va = walk m pgd va.
Proof.
  intros Hwf Htmp Hva Hne. unfold walk.
  assert (Hi : 0 <= va / 4194304 < 1024) by zlia.
  rewrite <- (PhysMem.same_region_load32 m _ pgd 4096) with (b := pgd + 4 * (va / 4194304));
    [|by apply set_pte_directory|lia|lia].
  pose proof (pte_set_ne m pgd tmp v (page_of va) Hwf Htmp (page_of_page _ Hva) ltac:(done)) as E.
  unfold pte in E. rewrite pte_addr_set in E by (done || by apply page_of_page).
  unfold pte_addr, table_of, PGD_ENTRY_TABLE_ADDR in E.
  destruct (page_of_indexes va) as [E1 E2]. rewrite E1, E2 in E. by rewrite E.
Qed.

Lemma walk_set_pte_self m pgd tmp flags va :
  pt_wf m pgd -> pde_present m pgd -> page tmp -> 0 <= flags < 4096 -> Z.testbit flags 0 = true ->
  tmp <= va < tmp + 4096 -> walk (set_pte m pgd tmp (tmp + flags)) pgd va = Some va.
Proof.
  intros Hwf Hpd Htmp Hfl Hbit Hva. pose proof (page_bound _ Htmp).
  assert (Hpg : page_of va = tmp) by (unfold page_of, page in *; zlia).
  rewrite (walk_frame _ _ _ tmp flags); [f_equal; unfold page_of in Hpg; lia|lia| |done|done|done|].
  - eapply pde_present_ext; [by apply set_pte_directory|done].
  - rewrite Hpg, pte_set_eq by done. apply u32_small. unfold page in Htmp. zlia.
Qed.

Section Copies.
Context {D : Type}.
#[local] Abbreviation St := (sys D).

(** ** Strings *)

(** The state with a memory, and with the bytes [bs] written at [a]. *)
Definition with_mem (m : gmap Z Z) (s : St) : St := with_kmem (set_mem (k_alloc (fsys s)) m) s.
Definition poked (s : St) (a : Z) (bs : list Z) : St := with_mem (PhysMem.store_bytes (phys s) a bs) s.

Lemma phys_with_mem m (s : St) : phys (with_mem m s) = m.
Proof. done. Qed.

Lemma poked_nil (s : St) a : poked s a [] = s.
Proof. by destruct s as [[[]]]. Qed.

Lemma store_bytes_snoc bs : forall m a b,
  0 <= a -> a + Z.of_nat (length bs) < 4294967296 ->
  PhysMem.store_bytes m a (bs ++ [b]) =
  PhysMem.store8 (PhysMem.store_bytes m a bs) (a + Z.of_nat (length bs)) b.
Proof.
  induction bs as [|x bs IH]; intros m a b Ha Hl; cbn [app PhysMem.store_bytes length] in *.
  - rewrite u32_small by lia. f_equal. lia.
  - rewrite IH by lia. f_equal. lia.
Qed.

Lemma poke_poked (s : St) a bs b :
  0 <= a -> a + Z.of_nat (length bs) < 4294967296 ->
  with_mem (PhysMem.store8 (phys (poked s a bs)) (a + Z.of_nat (length bs)) b) (poked s a bs)
  = poked s a (bs ++ [b]).
Proof. intros. unfold poked. by rewrite store_bytes_snoc. Qed.

(** What a copy of at most [n] bytes of [str] writes. *)
Definition copied (str : list Z) (n : nat) : list Z := take n str ++ [0].

(** The copying loop, against what its accesses do while it runs. *)
Lemma copy_loop_ok (rd : Z -> M St Z) (wr : Z -> Z -> M St unit) src dest pd str n (s : St) :
  0 <= src -> src + Z.of_nat (length str) < 4294967296 -> 0 <= dest -> dest + Z.of_nat n < 4294967296 ->
  Forall CString.char_byte str ->
  (forall i bs, (i <= length str)%nat -> (i < n)%nat -> length bs = i ->
     rd (src + Z.of_nat i) (poked s pd bs) = Ok (default 0 (str !! i), poked s pd bs)) ->
  (forall i bs v, (i <= n)%nat -> length bs = i ->
     wr (dest + Z.of_nat i) v (poked s pd bs) = Ok (tt, poked s pd (bs ++ [v]))) ->
  copy_loop rd wr n dest src s = Ok (tt, poked s pd (copied str n)).
Proof.
  intros Hs Hsn Hd Hdn Hstr Hrd Hwr.
  assert (H : forall j i, (i + j = n)%nat -> (i <= length str)%nat ->
    copy_loop rd wr j (dest + Z.of_nat i) (src + Z.of_nat i) (poked s pd (take i str))
    = Ok (tt, poked s pd (copied str n))).
  { induction j as [|j IH]; intros i Hij Hi; cbn [copy_loop].
    - rewrite (Hwr i) by (lia || by apply length_take_le). unfold copied. do 4 f_equal. f_equal. lia.
    - unfold mbind, M_bind. rewrite (Hrd i) by (lia || by apply length_take_le).
      destruct (str !! i) as [b|] eqn:Eb; cbn [default from_option id].
      + pose proof (Forall_lookup_1 _ _ _ _ Hstr Eb) as Hb. unfold CString.char_byte in Hb.
        pose proof (lookup_lt_Some _ _ _ Eb).
        destruct (Z.eqb_spec b 0) as [|_]; [lia|].
        rewrite (Hwr i) by (lia || by apply length_take_le). rewrite <- (take_S_r _ _ _ Eb).
        rewrite !u32_small by lia.
        replace (dest + Z.of_nat i + 1) with (dest + Z.of_nat (S i)) by lia.
        replace (src + Z.of_nat i + 1) with (src + Z.of_nat (S i)) by lia.
        apply IH; lia.
      + apply lookup_ge_None in Eb. change (0 =? 0) with true. cbv iota.
        rewrite (Hwr i) by (lia || by apply length_take_le). unfold copied.
        by rewrite !take_ge by lia. }
  specialize (H n 0%nat eq_refl ltac:(lia)). rewrite !Z.add_0_r in H.
  simpl in H. by rewrite poked_nil in H.
Qed.

(** ** Accesses *)

Lemma vload8_ok va pa (s : St) :
  walk (phys s) (cr3 (regs s)) va = Some pa -> vload8 va s = Ok (PhysMem.load8 (phys s) pa, s).
Proof. intros H. unfold vload8. by rewrite H. Qed.

Lemma vstore8_ok va pa v (s : St) :
  walk (phys s) (cr3 (regs s)) va = Some pa ->
  vstore8 va v s = Ok (tt, with_mem (PhysMem.store8 (phys s) pa v) s).
Proof. intros H. unfold vstore8. by rewrite H. Qed.

Lemma wp_switch_to d pgd (s : St) (Q : unit -> St -> Prop) :
  d <> 0 -> 0 <= d <= 4294967292 -> PhysMem.load32 (phys s) d = pgd ->
  Q tt (set_regs (Cpu pgd pgd) s) -> wp (switch_to d) s Q.
Proof.
  intros Hd0 Hd Hl HQ. unfold switch_to. apply wp_bind, wp_gets, wp_bind, wp_on_mem.
  assert (Hrd : read_word d 0 (k_alloc (fsys s)) = Ok (pgd, k_alloc (fsys s))).
  { rewrite read_word_ok by lia. replace (d + 4 * 0) with d by lia. by rewrite <- Hl. }
  unfold paging_switch. apply wp_bind. unfold wp at 1. rewrite Hrd. apply wp_bind. unfold wp at 1.
  rewrite Hrd. apply wp_ret, wp_modify. destruct s as [[]]. exact HQ.
Qed.

Lemma wp_swap_kernel kpgd (s : St) (Q : unit -> St -> Prop) :
  kernel_pages s <> 0 -> 0 <= kernel_pages s <= 4294967292 ->
  PhysMem.load32 (phys s) (kernel_pages s) = kpgd ->
  Q tt (set_regs (Cpu kpgd kpgd) (set_data_segment KERNEL_DATA_SEGMENT s)) ->
  wp swap_kernel_page_tables s Q.
Proof.
  intros H0 Hr Hl HQ. unfold swap_kernel_page_tables. apply wp_bind, wp_modify, wp_bind, wp_gets.
  by apply (wp_switch_to _ kpgd).
Qed.

(** ** The kernel's and a task's page tables *)

(** The task at [p] has page tables at [d], with directory [pgd], in memory that
    no allocation may return; the kernel's descriptor names [kpgd]. *)
Record user_task (s : St) (p d pgd kpgd : Z) : Prop := {
  ut_task : exists t, tasks s !! p = Some t /\ t_paging t = d;
  ut_wf : desc_wf (phys s) d pgd;
  ut_present : pde_present (phys s) pgd;
  ut_owned a : d <= a < d + 4 \/ pgd <= a < pgd + 4096 \/ in_tables (phys s) pgd a ->
    ~ in_free (k_alloc (fsys s)) a;
  ut_kernel : kernel_pages s <> 0 /\ 0 <= kernel_pages s <= 4294967292 /\
    PhysMem.load32 (phys s) (kernel_pages s) = kpgd;
  ut_kernel_owned a : kernel_pages s <= a < kernel_pages s + 4 ->
    ~ in_free (k_alloc (fsys s)) a /\ ~ in_tables (phys s) pgd a
}.

(** At [va] the task sees the string [str], in memory that is not free and not
    part of its page tables. *)
Definition user_string (s : St) (pgd va : Z) (str : list Z) : Prop :=
  Forall CString.char_byte str /\ 0 <= va /\ va + Z.of_nat (length str) < 4294967296 /\
  forall i, (i <= length str)%nat -> exists pa,
    walk (phys s) pgd (va + Z.of_nat i) = Some pa /\
    PhysMem.load8 (phys s) pa = default 0 (str !! i) /\
    ~ in_free (k_alloc (fsys s)) pa /\ ~ in_tables (phys s) pgd pa /\
    ~ in_free (k_alloc (fsys s)) (va + Z.of_nat i).

Section Temporary.
Context (s : St) (p d pgd kpgd : Z) (Hu : user_task s p d pgd kpgd).
Context (tmp : Z) (Htmp : page tmp)
  (Hblock : forall a, tmp <= a < tmp + 4096 -> in_free (k_alloc (fsys s)) a).

(** A memory that differs from [s]'s in the temporary block only. *)
Definition off_block (m : gmap Z Z) : Prop :=
  forall a, ~ (tmp <= a < tmp + 4096) -> PhysMem.load8 m a = PhysMem.load8 (phys s) a.

Lemma off_block_same m a n :
  off_block m -> (forall b, a <= b < a + n -> ~ in_free (k_alloc (fsys s)) b) ->
  PhysMem.same_region (phys s) m a n.
Proof. intros Hm Ha b Hb. symmetry. apply Hm. intros Hin. by apply (Ha b Hb), Hblock. Qed.

Lemma off_block_tables m :
  off_block m ->
  PhysMem.same_region (phys s) m d 4 /\ PhysMem.same_region (phys s) m pgd 4096 /\
  (forall i, 0 <= i < 1024 -> PhysMem.same_region (phys s) m (table_of (phys s) pgd i) 4096).
Proof.
  intros Hm. split; [|split].
  - apply off_block_same; [done|]. intros b Hb. apply (ut_owned _ _ _ _ _ Hu). lia.
  - apply off_block_same; [done|]. intros b Hb. apply (ut_owned _ _ _ _ _ Hu). lia.
  - intros i Hi. apply off_block_same; [done|]. intros b Hb. apply (ut_owned _ _ _ _ _ Hu).
    right. right. by exists i.
Qed.

Lemma off_block_wf m : off_block m -> desc_wf m d pgd /\ pde_present m pgd.
Proof.
  intros Hm. destruct (off_block_tables _ Hm) as (H1 & H2 & _).
  split; [eapply desc_wf_ext; [done|done|apply Hu]|eapply pde_present_ext; [done|apply Hu]].
Qed.

Lemma off_block_in_tables m a : off_block m -> in_tables m pgd a <-> in_tables (phys s) pgd a.
Proof.
  intros Hm. destruct (off_block_tables _ Hm) as (_ & H2 & _).
  split; intros (i & Hi & Ha); exists i; split; try done;
    [rewrite (table_of_ext (phys s) m)|rewrite <- (table_of_ext (phys s) m)]; done.
Qed.

Lemma off_block_store m bs :
  off_block m -> Z.of_nat (length bs) <= 4096 -> off_block (PhysMem.store_bytes m tmp bs).
Proof.
  intros Hm Hl a Ha. pose proof (page_bound _ Htmp).
  rewrite PhysMem.load8_store_bytes by lia. rewrite decide_False by lia. by apply Hm.
Qed.

(** The temporary mapping: [tmp] reaches the block, every other page is as before. *)
Definition mapped (m : gmap Z Z) : gmap Z Z := set_pte m pgd tmp (tmp + 7).

Lemma mapped_walk m va :
  off_block m -> 0 <= va < 4294967296 -> page_of va <> tmp ->
  walk (mapped m) pgd va = walk (phys s) pgd va.
Proof.
  intros Hm Hva Hne. destruct (off_block_wf _ Hm) as [Hwf _].
  destruct (off_block_tables _ Hm) as (_ & H2 & H3). unfold mapped.
  rewrite walk_set_pte by (done || apply (desc_pt _ _ _ Hwf)). by apply walk_ext.
Qed.

Lemma mapped_walk_tmp m va : off_block m -> tmp <= va < tmp + 4096 -> walk (mapped m) pgd va = Some va.
Proof.
  intros Hm Hva. destruct (off_block_wf _ Hm) as [Hwf Hp]. unfold mapped.
  apply walk_set_pte_self; [apply (desc_pt _ _ _ Hwf)|done|done|lia|done|done].
Qed.

(** Bytes written to the block leave the walks of the mapped tables alone. *)
Lemma mapped_store_walk m bs va :
  off_block m -> Z.of_nat (length bs) <= 4096 -> 0 <= va < 4294967296 ->
  walk (PhysMem.store_bytes (mapped m) tmp bs) pgd va = walk (mapped m) pgd va.
Proof.
  intros Hm Hl Hva. destruct (off_block_wf _ Hm) as [Hwf _]. pose proof (desc_pt _ _ _ Hwf) as Hpt.
  destruct (off_block_tables _ Hm) as (_ & H2 & H3). pose proof (page_bound _ Htmp).
  assert (Ht : forall i, 0 <= i < 1024 -> table_of (mapped m) pgd i = table_of (phys s) pgd i).
  { intros i Hi. rewrite <- (table_of_ext m (mapped m)) by (done || by apply set_pte_directory).
    symmetry. by apply table_of_ext. }
  assert (Hnot : forall a, pgd <= a < pgd + 4096 \/ in_tables (phys s) pgd a -> ~ (tmp <= a < tmp + 4096)).
  { intros a Ha Hin. apply (ut_owned _ _ _ _ _ Hu a); [tauto|by apply Hblock]. }
  apply walk_ext; [done| |].
  - intros a Ha. rewrite PhysMem.load8_store_bytes by lia. rewrite decide_False; [done|].
    intros Hin. apply (Hnot a); [by left|lia].
  - intros i Hi a Ha. rewrite PhysMem.load8_store_bytes by lia. rewrite decide_False; [done|].
    intros Hin. apply (Hnot a); [|lia]. right. exists i. split; [done|]. by rewrite <- Ht.
Qed.

Lemma mapped_table m i : off_block m -> 0 <= i < 1024 -> table_of (mapped m) pgd i = table_of m pgd i.
Proof.
  intros Hm Hi. destruct (off_block_wf _ Hm) as [Hwf _]. pose proof (desc_pt _ _ _ Hwf) as Hpt.
  symmetry. apply table_of_ext; [by apply set_pte_directory|done].
Qed.

Lemma tables_not_tmp m a :
  off_block m -> pgd <= a < pgd + 4096 \/ in_tables m pgd a -> ~ (tmp <= a < tmp + 4096).
Proof.
  intros Hm Ha Hin. apply (ut_owned _ _ _ _ _ Hu a); [|by apply Hblock].
  rewrite <- (off_block_in_tables m) by done. tauto.
Qed.

(** The directory under a mapping and a buffer. *)
Lemma mapped_store_directory m bs :
  off_block m -> Z.of_nat (length bs) <= 4096 ->
  PhysMem.same_region m (PhysMem.store_bytes (mapped m) tmp bs) pgd 4096.
Proof.
  intros Hm Hl a Ha. pose proof (page_bound _ Htmp). destruct (off_block_wf _ Hm) as [Hwf _].
  rewrite PhysMem.load8_store_bytes by lia. rewrite decide_False.
  - by apply (set_pte_directory _ _ _ _ (desc_pt _ _ _ Hwf)).
  - intros Hin. apply (tables_not_tmp m a); [done|by left|lia].
Qed.

(** Outside the block and the page tables nothing changes under them. *)
Lemma mapped_store_load m bs a :
  off_block m -> Z.of_nat (length bs) <= 4096 -> ~ in_free (k_alloc (fsys s)) a ->
  ~ in_tables (phys s) pgd a ->
  PhysMem.load8 (PhysMem.store_bytes (mapped m) tmp bs) a = PhysMem.load8 (phys s) a.
Proof.
  intros Hm Hl Ha Hnt. pose proof (page_bound _ Htmp).
  assert (Hna : ~ (tmp <= a < tmp + 4096)) by (intros Hin; by apply Ha, Hblock).
  rewrite PhysMem.load8_store_bytes by lia. rewrite decide_False by lia.
  unfold mapped. rewrite set_pte_outside; [by apply Hm|done|]. by rewrite off_block_in_tables.
Qed.

(** Putting the old entry back restores every byte outside the block. *)
Lemma restored m bs a :
  off_block m -> Z.of_nat (length bs) <= 4096 -> ~ (tmp <= a < tmp + 4096) ->
  PhysMem.load8 (set_pte (PhysMem.store_bytes (mapped m) tmp bs) pgd tmp (pte m pgd tmp)) a
  = PhysMem.load8 (phys s) a.
Proof.
  intros Hm Hl Ha. pose proof (page_bound _ Htmp). destruct (page_indexes _ Htmp) as [Hi Hj].
  rewrite <- (Hm a Ha). unfold set_pte, pte.
  assert (E : pte_addr (PhysMem.store_bytes (mapped m) tmp bs) pgd tmp = pte_addr m pgd tmp).
  { unfold pte_addr. f_equal. symmetry. apply table_of_ext; [by apply mapped_store_directory|done]. }
  rewrite E, load8_store32_back. destruct (decide _) as [Hin|Hout]; [done|].
  rewrite PhysMem.load8_store_bytes by lia. rewrite decide_False by lia.
  unfold mapped, set_pte. apply PhysMem.load8_store32_ne. lia.
Qed.

(** The block keeps the buffer when the old entry is put back. *)
Lemma restored_block m bs i b :
  off_block m -> Z.of_nat (length bs) <= 4096 -> bs !! i = Some b -> 0 <= b < 256 ->
  PhysMem.load8 (set_pte (PhysMem.store_bytes (mapped m) tmp bs) pgd tmp (pte m pgd tmp))
    (tmp + Z.of_nat i) = b.
Proof.
  intros Hm Hl Hb Hr. pose proof (page_bound _ Htmp). pose proof (lookup_lt_Some _ _ _ Hb).
  rewrite set_pte_outside; [|done|].
  - rewrite PhysMem.load8_store_bytes by lia. rewrite decide_True by lia.
    replace (tmp + Z.of_nat i - tmp) with (Z.of_nat i) by lia. rewrite Nat2Z.id, Hb. by apply u8_small.
  - intros (j & Hj & Hin). apply (tables_not_tmp m (tmp + Z.of_nat i)); [done| |lia].
    right. exists j. split; [done|].
    by rewrite (table_of_ext m (PhysMem.store_bytes (mapped m) tmp bs)) by (done || by apply mapped_store_directory).
Qed.

End Temporary.

(** ** The copy in and out of the temporary block *)

(** Reading the string through the task's page tables into the block. *)
Lemma vstrncpy_ok s p d pgd kpgd tmp m va str max k1 :
  user_task s p d pgd kpgd -> page tmp ->
  (forall a, tmp <= a < tmp + 4096 -> in_free (k_alloc (fsys s)) a) ->
  off_block s tmp m -> mem k1 = mapped pgd tmp m -> user_string s pgd va str -> 0 < max < 4096 ->
  let s2 := set_regs (Cpu pgd pgd) (with_kmem k1 s) in
  vstrncpy tmp va max s2 = Ok (tt, poked s2 tmp (copied str (Z.to_nat max))).
Proof.
  intros Hu Htmp Hblock Hm Hk1 (Hstr & Hva & Hend & Hbytes) Hmax s2. pose proof (page_bound _ Htmp).
  assert (Hphys : phys s2 = mapped pgd tmp m) by exact Hk1.
  unfold vstrncpy. rewrite u32_small by lia.
  apply copy_loop_ok; [done|lia|lia|lia|done| |].
  - intros i bs Hi Hn Hbs. destruct (Hbytes i Hi) as (pa & Hw & Hc & Hnf & Hnt & Hvf).
    assert (Hpg : page_of (va + Z.of_nat i) <> tmp).
    { intros E. apply Hvf, Hblock. unfold page_of in E. zlia. }
    rewrite (vload8_ok _ pa).
    + unfold poked. rewrite phys_with_mem, Hphys.
      by rewrite (mapped_store_load s p d pgd kpgd Hu tmp Htmp Hblock), Hc by (done || lia).
    + unfold poked. rewrite phys_with_mem, Hphys. change (cr3 _) with pgd.
      rewrite (mapped_store_walk s p d pgd kpgd Hu tmp Htmp Hblock) by (done || lia).
      by rewrite (mapped_walk s p d pgd kpgd Hu tmp Htmp Hblock) by (done || lia).
  - intros i bs v Hi Hbs. rewrite (vstore8_ok _ (tmp + Z.of_nat i)).
    + rewrite <- Hbs, poke_poked by lia. done.
    + unfold poked. rewrite phys_with_mem, Hphys. change (cr3 _) with pgd.
      rewrite (mapped_store_walk s p d pgd kpgd Hu tmp Htmp Hblock) by (done || lia).
      by rewrite (mapped_walk_tmp s p d pgd kpgd Hu tmp Htmp Hblock) by (done || lia).
Qed.

(** Copying a string between two places of the kernel's memory. *)
Lemma pstrncpy_ok (s : St) dest src str n :
  0 <= src -> src + Z.of_nat (length str) < 4294967296 -> 0 <= dest ->
  0 <= n -> dest + n < 4294967296 -> Forall CString.char_byte str ->
  (forall i, (i <= length str)%nat ->
     PhysMem.load8 (phys s) (src + Z.of_nat i) = default 0 (str !! i)) ->
  (src + Z.of_nat (length str) < dest \/ dest + n < src) ->
  pstrncpy dest src n s = Ok (tt, poked s dest (copied str (Z.to_nat n))).
Proof.
  intros Hs Hsl Hd Hn Hdn Hstr Hload Hdis. unfold pstrncpy. rewrite u32_small by lia.
  apply copy_loop_ok; [done|done|done|lia|done| |].
  - intros i bs Hi Hin Hbs. unfold pload8, gets. do 2 f_equal. rewrite <- Hload by done.
    unfold poked. rewrite phys_with_mem, PhysMem.load8_store_bytes by lia.
    by rewrite decide_False by lia.
  - intros i bs v Hi Hbs. rewrite <- Hbs. rewrite <- poke_poked by lia. done.
Qed.

(** The pages of a task whose string is being copied, after the copy into the
    block and the switch back to the kernel's page tables. *)
Lemma wp_copy_in s p d pgd kpgd tmp m va str max k1 {X} (K : M St X) (Q : X -> St -> Prop) :
  user_task s p d pgd kpgd -> page tmp ->
  (forall a, tmp <= a < tmp + 4096 -> in_free (k_alloc (fsys s)) a) ->
  off_block s tmp m -> mem k1 = mapped pgd tmp m -> user_string s pgd va str -> 0 < max < 4096 ->
  wp K (set_regs (Cpu kpgd kpgd) (set_data_segment KERNEL_DATA_SEGMENT
         (with_kmem (set_mem k1 (PhysMem.store_bytes (mapped pgd tmp m) tmp (copied str (Z.to_nat max)))) s))) Q ->
  wp (_ ← switch_to d; _ ← vstrncpy tmp va max; _ ← swap_kernel_page_tables; K) (with_kmem k1 s) Q.
Proof.
  intros Hu Htmp Hblock Hm Hk1 Hstr Hmax HQ.
  assert (Hlen : Z.of_nat (length (copied str (Z.to_nat max))) <= 4096).
  { unfold copied. rewrite length_app, length_take. simpl. lia. }
  destruct (off_block_tables _ _ _ _ _ Hu _ Hblock _ Hm) as (Hd4 & _).
  destruct (desc_page _ _ _ (ut_wf _ _ _ _ _ Hu)) as [Hdp Hd0]. pose proof (page_bound _ Hdp).
  destruct (ut_kernel _ _ _ _ _ Hu) as (Hk0 & Hkr & Hkl).
  apply wp_bind, (wp_switch_to _ pgd); [done|lia| |].
  { change (phys (with_kmem k1 s)) with (mem k1). rewrite Hk1.
    etrans; [|exact (desc_load _ _ _ (ut_wf _ _ _ _ _ Hu))].
    apply PhysMem.load32_ext. intros b Hb. rewrite (Hd4 b Hb). unfold mapped.
    apply set_pte_outside; [done|]. intros (i & Hi & Hin).
    destruct (off_block_wf _ _ _ _ _ Hu _ Hblock _ Hm) as [Hwf' _].
    destruct (page_apart _ _ (table_of_page m pgd i) Hdp (desc_apart _ _ _ Hwf' _ Hi)); lia. }
  apply wp_bind. unfold wp at 1.
  rewrite (vstrncpy_ok s p d pgd kpgd tmp m va str max k1) by done.
  apply wp_bind, (wp_swap_kernel kpgd); [done|done| |].
  - change (phys (poked _ _ _))
      with (PhysMem.store_bytes (mem k1) tmp (copied str (Z.to_nat max))). rewrite Hk1.
    change (kernel_pages (poked _ _ _)) with (kernel_pages s). rewrite <- Hkl.
    apply PhysMem.load32_ext. intros b Hb. destruct (ut_kernel_owned _ _ _ _ _ Hu b Hb).
    by apply (mapped_store_load s p d pgd kpgd).
  - rewrite <- Hk1 in HQ. exact HQ.
Qed.

Lemma copied_take str n : copied (take n str) n = copied str n.
Proof. unfold copied. by rewrite take_take, Nat.min_id. Qed.

Lemma copied_lookup str n i :
  (i <= length (take n str))%nat -> copied str n !! i = Some (default 0 (take n str !! i)).
Proof.
  intros Hi. unfold copied. destruct (decide (i < length (take n str))%nat) as [H|H].
  - rewrite lookup_app_l by done. by destruct (lookup_lt_is_Some_2 _ _ H) as [x ->].
  - rewrite lookup_app_r by lia. rewrite (lookup_ge_None_2 (take n str)) by lia.
    by replace (i - length (take n str))%nat with 0%nat by lia.
Qed.

Lemma copied_byte str n i b :
  Forall CString.char_byte str -> copied str n !! i = Some b -> 0 <= b < 256.
Proof.
  intros Hs Hb. assert (Hall : Forall (fun x => 0 <= x < 256) (copied str n)).
  { unfold copied. apply Forall_app_2.
    - apply Forall_take. eapply Forall_impl; [exact Hs|]. intros x Hx. unfold CString.char_byte in Hx. lia.
    - by apply Forall_singleton. }
  exact (Forall_lookup_1 _ _ _ _ Hall Hb).
Qed.

(** Putting the entry back and copying the string on to the kernel's buffer. *)
Lemma wp_copy_out s p d pgd kpgd tmp m str max kaddr k2 (s4 : St) (Q : Z -> St -> Prop) :
  user_task s p d pgd kpgd -> page tmp ->
  (forall a, tmp <= a < tmp + 4096 -> in_free (k_alloc (fsys s)) a) ->
  off_block s tmp m -> Forall CString.char_byte str -> 0 < max < 4096 ->
  mem k2 = PhysMem.store_bytes (mapped pgd tmp m) tmp (copied str (Z.to_nat max)) ->
  k_alloc (fsys s4) = k2 ->
  0 <= kaddr -> kaddr + max < 4294967296 ->
  (forall a, kaddr <= a <= kaddr + max -> ~ in_free (k_alloc (fsys s)) a) ->
  (forall m', (forall a, ~ (tmp <= a < tmp + 4096) -> PhysMem.load8 m' a =
      if decide (kaddr <= a < kaddr + Z.of_nat (length (copied str (Z.to_nat max))))
      then default 0 (copied str (Z.to_nat max) !! Z.to_nat (a - kaddr))
      else PhysMem.load8 (phys s) a) ->
    Q 0 (with_kmem (set_mem k2 m') s4)) ->
  wp (rc ← on_mem (paging_set pgd tmp (pte m pgd tmp));
      if rc <? 0 then _ ← on_mem (kfree tmp); mret (- EIO)
      else _ ← pstrncpy kaddr tmp max; mret 0) s4 Q.
Proof.
  intros Hu Htmp Hblock Hm Hstr Hmax Hk2 Hs4 Hk0 Hkm Hbuf HQ. pose proof (page_bound _ Htmp).
  set (bs := copied str (Z.to_nat max)) in *.
  assert (Hlen : length bs = S (length (take (Z.to_nat max) str))).
  { subst bs. unfold copied. rewrite length_app. simpl. lia. }
  pose proof (length_take str (Z.to_nat max)) as Htl.
  destruct (off_block_wf _ _ _ _ _ Hu _ Hblock _ Hm) as [Hwf _].
  set (m4 := set_pte (PhysMem.store_bytes (mapped pgd tmp m) tmp bs) pgd tmp (pte m pgd tmp)).
  apply wp_bind, wp_on_mem. unfold wp at 1. rewrite Hs4, paging_set_ok; [|rewrite Hk2|done].
  2: { eapply pt_wf_ext; [|apply (desc_pt _ _ _ Hwf)].
       apply (mapped_store_directory s p d pgd kpgd); [done|done|done|done|lia]. }
  rewrite Hk2. destruct (Z.ltb_spec 0 0); [lia|]. apply wp_bind. unfold wp at 1.
  rewrite (pstrncpy_ok _ kaddr tmp (take (Z.to_nat max) str) max).
  - rewrite copied_take. fold bs. apply wp_ret.
    match goal with |- Q 0 ?st => replace st with (with_kmem (set_mem k2 (PhysMem.store_bytes m4 kaddr bs)) s4)
      by (destruct s4 as [[]]; reflexivity) end.
    apply HQ. intros a Ha. rewrite PhysMem.load8_store_bytes by lia.
    destruct (decide _) as [Hin|Hout].
    + apply u8_small. destruct (bs !! _) as [b|] eqn:E; [|done]. by eapply (copied_byte str).
    + apply (restored s p d pgd kpgd); [done|done|done|done|lia|done].
  - lia.
  - lia.
  - done.
  - lia.
  - done.
  - by apply Forall_take.
  - intros i Hi. change (phys _) with m4. unfold m4.
    apply (restored_block s p d pgd kpgd); [done|done|done|done|lia| |].
    + by apply copied_lookup.
    + apply (copied_byte str (Z.to_nat max) i); [done|by apply copied_lookup].
  - destruct (decide (tmp + Z.of_nat (length (take (Z.to_nat max) str)) < kaddr)); [by left|].
    destruct (decide (kaddr + max < tmp)); [by right|].
    destruct (Hbuf (Z.max kaddr tmp)); [lia|]. apply Hblock. lia.
Qed.

(** A word the task sees at [va]. *)
Definition user_word (s : St) (pgd va : Z) (b : nat -> Z) : Prop :=
  0 <= va /\ va + 3 < 4294967296 /\
  forall i, (i < 4)%nat -> exists pa,
    walk (phys s) pgd (va + Z.of_nat i) = Some pa /\ PhysMem.load8 (phys s) pa = b i.

(** The copy as a whole, from a block to the final memory. *)
Lemma copy_string_run s p d pgd kpgd va kaddr max str L b0 :
  user_task s p d pgd kpgd -> user_string s pgd va str -> kmem_rep (k_alloc (fsys s)) L ->
  Heap.free_run (Heap.entries (Heap.table (kernel_heap (k_alloc (fsys s))))) b0 1 ->
  0 <= kaddr -> kaddr + max < 4294967296 ->
  (forall a, kaddr <= a <= kaddr + max -> ~ in_free (k_alloc (fsys s)) a) -> 0 < max < 4096 ->
  wp (copy_string_from_user_task p va kaddr max) s (fun rc s' => rc = 0 /\ exists tmp k',
    s' = set_regs (Cpu kpgd kpgd) (set_data_segment KERNEL_DATA_SEGMENT (with_kmem k' s)) /\
    kmem_rep k' (<[tmp := 1%nat]> L) /\ L !! tmp = None /\
    (forall a, tmp <= a < tmp + 4096 -> in_free (k_alloc (fsys s)) a) /\
    (forall a, ~ (tmp <= a < tmp + 4096) -> PhysMem.load8 (mem k') a =
      if decide (kaddr <= a < kaddr + Z.of_nat (length (copied str (Z.to_nat max))))
      then default 0 (copied str (Z.to_nat max) !! Z.to_nat (a - kaddr))
      else PhysMem.load8 (phys s) a)).
Proof.
  intros Hu Hstr Hrep Hfree Hk0 Hkm Hbuf Hmax.
  assert (Hbf : Heap.blocks_for max = 1%nat) by (unfold Heap.blocks_for, HEAP_BLOCK_SIZE; zlia).
  destruct (kzalloc_run (k_alloc (fsys s)) L max b0) as
    (tmp & k1 & Hal & Hrep1 & Hnew & Hpos & Hend & Hal4 & Hrange & _ & Hload); [done|lia|by rewrite Hbf|].
  rewrite Hbf in Hrep1, Hrange. unfold HEAP_BLOCK_SIZE in *.
  destruct (ut_task _ _ _ _ _ Hu) as (t & Ht & Hd).
  assert (Htmp : page tmp) by (unfold page; zlia).
  assert (Hblock : forall a, tmp <= a < tmp + 4096 -> in_free (k_alloc (fsys s)) a).
  { intros a Ha. apply Hrange. lia. }
  assert (Hm : off_block s tmp (mem k1)).
  { intros a Ha. rewrite Hload. by rewrite bool_decide_false by lia. }
  destruct (off_block_wf _ _ _ _ _ Hu _ Hblock _ Hm) as [Hwf _].
  unfold copy_string_from_user_task, PAGING_PAGE_SIZE. rewrite Z.geb_leb.
  destruct (Z.leb_spec 4096 max); [lia|]. rewrite (u32_small max) by lia.
  apply wp_bind, wp_on_mem. unfold wp at 1. rewrite Hal. destruct (Z.eqb_spec tmp 0); [lia|].
  apply wp_bind. eapply wp_load_task; [exact Ht|]. rewrite Hd.
  apply wp_bind, wp_on_mem. unfold wp at 1, get_pgd.
  change (k_alloc (fsys (with_kmem k1 s))) with k1. rewrite (read_desc_ok _ _ _ Hwf).
  apply wp_bind, wp_on_mem. unfold wp at 1.
  change (k_alloc (fsys (with_kmem k1 (with_kmem k1 s)))) with k1.
  rewrite (paging_get_pte_ok _ _ _ (desc_pt _ _ _ Hwf) Htmp).
  apply wp_bind. eapply wp_load_task; [exact Ht|]. rewrite Hd.
  apply wp_bind, wp_on_mem. unfold wp at 1. rewrite (map_one_page d pgd) by (done || (split; done)).
  apply wp_bind. eapply wp_load_task; [exact Ht|]. rewrite Hd.
  eapply (wp_copy_in s p d pgd kpgd tmp (mem k1) va str max (set_mem k1 (mapped pgd tmp (mem k1))));
    [done|done|done|done|done|done|done|].
  eapply (wp_copy_out s p d pgd kpgd tmp (mem k1) str max kaddr
    (set_mem k1 (PhysMem.store_bytes (mapped pgd tmp (mem k1)) tmp (copied str (Z.to_nat max)))));
    [done|done|done|done|apply Hstr|done|reflexivity|reflexivity|done|done|done|].
  intros m' Hm'. split; [done|]. exists tmp, (set_mem k1 m').
  split; [by destruct s as [[]]|]. split; [|done].
  destruct Hrep1 as (B & H1 & H2 & H3). by exists B.
Qed.

(** Reading a word of the stack through the task's page tables. *)
Lemma stack_item_run s p d pgd kpgd index t b :
  user_task s p d pgd kpgd -> tasks s !! p = Some t ->
  user_word s pgd (esp (t_registers t) + 4 * index) b -> 0 <= index ->
  task_get_stack_item p index s =
    Ok (b 0%nat + b 1%nat * 256 + b 2%nat * 65536 + b 3%nat * 16777216,
        set_regs (Cpu kpgd kpgd) (set_data_segment KERNEL_DATA_SEGMENT s)).
Proof.
  intros Hu Ht (Hva & Hend & Hb) Hi. destruct (ut_task _ _ _ _ _ Hu) as (t' & Ht' & <-). simplify_eq.
  destruct (ut_kernel _ _ _ _ _ Hu) as (Hk0 & Hkr & Hkl).
  destruct (desc_page _ _ _ (ut_wf _ _ _ _ _ Hu)) as [Hdp Hd0]. pose proof (page_bound _ Hdp).
  unfold task_get_stack_item. destruct (Z.ltb_spec index 0); [lia|]. apply wp_eq.
  apply wp_bind. eapply wp_load_task; [exact Ht|]. apply wp_bind. unfold swap_task_page_tables.
  apply wp_bind, wp_modify, wp_bind. eapply wp_load_task; [exact Ht|].
  apply wp_bind, (wp_switch_to _ pgd); [done|lia|exact (desc_load _ _ _ (ut_wf _ _ _ _ _ Hu))|].
  apply wp_ret, wp_bind. rewrite u32_small by lia. set (s1 := set_regs _ _).
  assert (Hld : forall i, (i < 4)%nat ->
    vload8 (esp (t_registers t) + 4 * index + Z.of_nat i) s1 = Ok (b i, s1)).
  { intros i H4. destruct (Hb i H4) as (pa & Hw & <-). exact (vload8_ok _ pa s1 Hw). }
  unfold wp at 1, vload32, mbind, M_bind. rewrite !u32_small by lia.
  pose proof (Hld 0%nat ltac:(lia)) as Hb0. rewrite Z.add_0_r in Hb0. rewrite Hb0.
  pose proof (Hld 1%nat ltac:(lia)) as Hb1. pose proof (Hld 2%nat ltac:(lia)) as Hb2.
  pose proof (Hld 3%nat ltac:(lia)) as Hb3.
  change (Z.of_nat 1) with 1 in Hb1. change (Z.of_nat 2) with 2 in Hb2.
  change (Z.of_nat 3) with 3 in Hb3.
  rewrite Hb1, Hb2, Hb3. cbn [mret M_ret].
  apply wp_bind, (wp_swap_kernel kpgd); [done|done|done|]. by apply wp_ret.
Qed.

(** ** What system calls rely on *)

(** Reading an argument from a task's stack.  Item [index] is
    the little-endian word the task itself sees at its saved stack pointer plus
    [4 * index], through its own page tables; the kernel's page tables and
    segments are back in force afterwards and nothing else changes.  A negative
    index is refused with a panic before anything is touched. *)
Lemma task_get_stack_item_spec (s : St) (p d pgd kpgd index : Z) (t : task) (b : nat -> Z)
    (Hu : user_task s p d pgd kpgd) (Ht : tasks s !! p = Some t)
    (Hw : user_word s pgd (esp (t_registers t) + 4 * index) b) :
  (0 <= index -> task_get_stack_item p index s =
    Ok (b 0%nat + b 1%nat * 256 + b 2%nat * 65536 + b 3%nat * 16777216,
        set_regs (Cpu kpgd kpgd) (set_data_segment KERNEL_DATA_SEGMENT s))) /\
  (index < 0 -> exists msg, task_get_stack_item p index s = Panic msg).
Proof.
  split; intros Hi.
  - by apply (stack_item_run s p d pgd kpgd index t b).
  - unfold task_get_stack_item. destruct (Z.ltb_spec index 0); [|lia]. eexists. reflexivity.
Qed.

(** C11 (safety): copying a string from a task's memory.  A [max] of a page or
    more is refused.  Otherwise, with a free block, the kernel's buffer receives
    the first [max] characters of the string the task sees and a terminator; the
    task's page tables, its memory and every other byte outside the temporary
    block are as before, and the kernel's page tables are in force.  The
    temporary block stays allocated: this path never frees it. *)
Theorem copy_string_from_user_task_spec (s : St) (p d pgd kpgd va kaddr max : Z) (str : list Z)
    (L : gmap Z nat) (b0 : nat) (Hu : user_task s p d pgd kpgd) (Hstr : user_string s pgd va str)
    (Hrep : kmem_rep (k_alloc (fsys s)) L)
    (Hfree : Heap.free_run (Heap.entries (Heap.table (kernel_heap (k_alloc (fsys s))))) b0 1)
    (Hk0 : 0 <= kaddr) (Hkm : kaddr + max < 4294967296)
    (Hbuf : forall a, kaddr <= a <= kaddr + max -> ~ in_free (k_alloc (fsys s)) a) :
  (4096 <= max -> copy_string_from_user_task p va kaddr max s = Ok (- EINVARG, s)) /\
  (0 < max < 4096 -> exists tmp k',
    copy_string_from_user_task p va kaddr max s =
      Ok (0, set_regs (Cpu kpgd kpgd) (set_data_segment KERNEL_DATA_SEGMENT (with_kmem k' s))) /\
    kmem_rep k' (<[tmp := 1%nat]> L) /\ L !! tmp = None /\
    (forall a, tmp <= a < tmp + 4096 -> in_free (k_alloc (fsys s)) a) /\
    (forall a, ~ (tmp <= a < tmp + 4096) -> PhysMem.load8 (mem k') a =
      if decide (kaddr <= a < kaddr + Z.of_nat (length (copied str (Z.to_nat max))))
      then default 0 (copied str (Z.to_nat max) !! Z.to_nat (a - kaddr))
      else PhysMem.load8 (phys s) a)).
Proof.
  split; intros Hmax.
  - unfold copy_string_from_user_task, PAGING_PAGE_SIZE. rewrite Z.geb_leb.
    by destruct (Z.leb_spec 4096 max); [|lia].
  - destruct (wp_run _ _ _ (copy_string_run _ _ _ _ _ _ _ _ _ _ _ Hu Hstr Hrep Hfree Hk0 Hkm Hbuf Hmax))
      as (rc & s' & Hrun & -> & tmp & k' & -> & H). by exists tmp, k'.
Qed.

End Copies.

(** ** Witnesses *)

(** A directory at 2 MB with its 1024 tables behind it, of which one entry is
    set: the page at 4 MB is the frame at 7 MB, where the string "hi" is, with a
    pointer to it four bytes on.  The descriptor is at 0x1ff000 and the kernel's at 0x1fe000. *)
Definition directory (n : nat) (m : gmap Z Z) : gmap Z Z :=
  foldr (fun i m => PhysMem.store32 m (0x200000 + 4 * i) (0x201000 + 4096 * i + 7)) m (seqZ 0 (Z.of_nat n)).

Definition small_memory : gmap Z Z :=
  PhysMem.store_bytes
    (PhysMem.store32 (PhysMem.store32 (PhysMem.store32 (directory 1024 ∅)
       0x202000 0x700007) 0x1ff000 0x200000) 0x1fe000 0x100000)
    0x700000 [104; 105; 0; 0; 0; 0; 0x40; 0].

Definition small_state : sys unit :=
  Sys (KSt (KMem fresh_heap small_memory) ∅ tt (Disk REAL 0 512 0 0) [] [])
    (Cpu 0 0) KERNEL_DATA_SEGMENT None
    {[ 4096 := Task 0x1ff000 (Registers 0 0 0 0 0 0 0 0 0 0 0x400000 0) 100 0 0 ]} ∅ ∅
    4096 4096 4096 100 (replicate 12 0) 0x1fe000 (Terminal.mk_terminal 0 0 ∅) Idt.boot_state (fun _ => 2).

Lemma small_directory i :
  0 <= i < 1024 -> PhysMem.load32 small_memory (0x200000 + 4 * i) = 0x201000 + 4096 * i + 7.
Proof.
  intros Hi.
  assert (H : forallb (fun i => PhysMem.load32 small_memory (0x200000 + 4 * i) =? 0x201000 + 4096 * i + 7)
    (seqZ 0 1024) = true) by (vm_compute; reflexivity).
  rewrite forallb_forall in H. apply Z.eqb_eq, H, list_elem_of_In, elem_of_seqZ. lia.
Qed.

(** From here on the memory is known by its contents. *)
#[global] Opaque small_memory.

Lemma small_table i : 0 <= i < 1024 -> table_of small_memory 0x200000 i = 0x201000 + 4096 * i.
Proof.
  intros Hi. unfold table_of. rewrite small_directory by done.
  apply frame_bits; [unfold page; zlia|lia].
Qed.

Lemma boot_free_high m a : in_free (KMem fresh_heap m) a -> 0x1000000 <= a.
Proof.
  intros (b & _ & Ha). unfold Heap.block_addr in Ha.
  cbn [kernel_heap fresh_heap Heap.start_addr] in Ha. unfold KERNEL_HEAP_ADDRESS, HEAP_BLOCK_SIZE in Ha. lia.
Qed.

Lemma small_task : user_task small_state 4096 0x1ff000 0x200000 0x100000.
Proof.
  assert (Hin : forall a, in_tables small_memory 0x200000 a -> 0x201000 <= a < 0x601000).
  { intros a (i & Hi & Ha). rewrite small_table in Ha by done. lia. }
  split.
  - eexists. split; reflexivity.
  - split; [split; [done|lia]|vm_compute; reflexivity| |].
    + split; [split; [done|lia]| |].
      * intros i Hi. change (phys small_state) with small_memory. rewrite small_table by done. lia.
      * intros i j Hi Hj. change (phys small_state) with small_memory. rewrite !small_table by done. lia.
    + intros i Hi. change (phys small_state) with small_memory. rewrite small_table by done. lia.
  - intros i Hi. change (phys small_state) with small_memory. rewrite small_directory by done.
    rewrite <- (lor_low_bits 12); [|lia|zlia|lia]. by rewrite Z.lor_spec, orb_true_r.
  - intros a Ha Hf. apply boot_free_high in Hf. destruct Ha as [|[|Ha%Hin]]; lia.
  - split; [done|]. split; [done|]. vm_compute. reflexivity.
  - intros a Ha. change (kernel_pages small_state) with 0x1fe000 in Ha.
    split; [intros Hf%boot_free_high|intros Hf%Hin]; lia.
Qed.

Lemma small_string : user_string small_state 0x200000 0x400000 [104; 105].
Proof.
  split; [repeat constructor; unfold CString.char_byte; lia|]. split; [lia|]. split; [simpl; lia|].
  intros i Hi. exists (0x700000 + Z.of_nat i).
  assert (Hl : forall a, in_tables small_memory 0x200000 a -> 0x201000 <= a < 0x601000).
  { intros a (j & Hj & Ha). rewrite small_table in Ha by done. lia. }
  simpl in Hi. split; [|split; [|split; [|split]]].
  - destruct i as [|[|[|]]]; [vm_compute; reflexivity..|lia].
  - destruct i as [|[|[|]]]; [vm_compute; reflexivity..|lia].
  - intros Hf%boot_free_high. lia.
  - intros Hf%Hl. lia.
  - intros Hf%boot_free_high. lia.
Qed.

Lemma task_get_stack_item_spec_witness :
  exists s', task_get_stack_item 4096 0 small_state = Ok (104 + 105 * 256, s').
Proof.
  destruct (task_get_stack_item_spec small_state 4096 0x1ff000 0x200000 0x100000 0
    (Task 0x1ff000 (Registers 0 0 0 0 0 0 0 0 0 0 0x400000 0) 100 0 0)
    (fun i => default 0 ([104; 105; 0; 0] !! i)) small_task eq_refl) as [H _].
  - split; [cbn; lia|]. split; [cbn; lia|]. intros i Hi. exists (0x700000 + Z.of_nat i).
    destruct i as [|[|[|[|]]]]; [split; vm_compute; reflexivity..|lia].
  - eexists. rewrite H by lia. reflexivity.
Defined.

Lemma copy_string_from_user_task_spec_witness : exists s' k',
  copy_string_from_user_task 4096 0x400000 0x7f0000 15 small_state = Ok (0, s') /\
  copy_string_from_user_task 4096 0x400000 0x7f0000 4096 small_state = Ok (- EINVARG, small_state) /\
  k_alloc (fsys s') = k' /\ PhysMem.load8 (mem k') 0x7f0001 = 105.
Proof.
  assert (Hf : Heap.free_run (Heap.entries (Heap.table (kernel_heap (k_alloc (fsys small_state))))) 0 1).
  { intros j Hj. exists 0. replace j with 0%nat by lia. split; reflexivity. }
  destruct (copy_string_from_user_task_spec small_state 4096 0x1ff000 0x200000 0x100000
    0x400000 0x7f0000 15 [104; 105] ∅ 0 small_task small_string (boot_heap_rep _) Hf) as [_ H];
    [lia|lia|intros a Ha Hi%boot_free_high; lia|].
  destruct H as (tmp & k' & Hr & Hrep & _ & Hblock & Hload); [lia|].
  destruct (copy_string_from_user_task_spec small_state 4096 0x1ff000 0x200000 0x100000
    0x400000 0x7f0000 4096 [104; 105] ∅ 0 small_task small_string (boot_heap_rep _) Hf) as [H2 _];
    [lia|lia|intros a Ha Hi%boot_free_high; lia|].
  eexists _, k'. split; [exact Hr|]. split; [apply H2; lia|]. split; [reflexivity|].
  rewrite Hload; [reflexivity|]. intros Hin%Hblock%boot_free_high. lia.
Defined.

End UserMemory.
