(* ===== verification/Process.v ===== *)
(** * Processes: [src/task/process.c]

    Loading an executable into a new process with its stack, arguments and
    task, the memory a process allocates through system calls, and its end. *)
From stdpp Require Import base gmap list numbers strings.
From S2P Require Import Prelude Config CString Heap PhysMem KernelHeap Paging KState Disk Fat16 Vfs Terminal Idt Keyboard System Elf Task.
#[local] Open Scope Z_scope.

Module Process.
Import KernelHeap Paging System Elf Task.

Section Processes.
Context {D : Type} {Po : PortIO D}.
#[local] Abbreviation St := (sys D).

(** ** The table of processes *)

Definition process_init (process : Z) : M St unit := update_process process (fun _ => zero_process).

Definition get_current_process : M St Z := gets current_process.

Definition process_get (pid : Z) : M St Z :=
  if (pid <? 0) || (pid >=? MAX_PROCESSES) then mret 0
  else l ← gets processes; lift_outcome (of_option (l !! Z.to_nat pid)).

(** [processes[pid] = process]. *)
Definition put_process (pid process : Z) : M St unit := fun s =>
  if decide (0 <= pid < Z.of_nat (length (processes s)))
  then Ok (tt, set_processes (<[Z.to_nat pid := process]> (processes s)) s)
  else Fault.

Fixpoint free_slot_loop (n : nat) (i : Z) : M St Z :=
  match n with
  | O => mret (- EISTAKEN)
  | S n' =>
      l ← gets processes;
      p ← lift_outcome (of_option (l !! Z.to_nat i));
      if p =? 0 then mret i else free_slot_loop n' (i + 1)
  end.

Definition process_get_free_slot : M St Z := free_slot_loop (Z.to_nat MAX_PROCESSES) 0.

(** ** Loading an executable *)

Definition process_load_binary_executable (filename : list Z) (process : Z) : M St Z :=
  fd ← on_fs (Vfs.fopen Vfs.kernel_driver filename mode_r);
  if fd <? 0 then mret (- EIO)
  else
    '(rc, stat) ← on_fs (Vfs.fstat Vfs.kernel_driver fd (FileStat 0 0));
    rc ← (if rc <? 0 then mret rc
          else
            binary_executable ← on_mem (kzalloc (st_filesize stat));
            if binary_executable =? 0 then mret (- ENOMEM)
            else
              r ← fread_into binary_executable (st_filesize stat) 1 fd;
              let rc := s32 r in
              if rc <? 0 then mret rc
              else
                _ ← update_process process
                      (set_executable binary_executable (st_filesize stat) BINARY);
                mret rc);
    _ ← on_fs (Vfs.fclose Vfs.kernel_driver fd);
    mret rc.

(** [process->size] keeps its value. *)
Definition process_load_elf_executable (filename : list Z) (process : Z) : M St Z :=
  '(rc, elf_file) ← elf_file_init filename;
  if rc <? 0 then
    _ ← print_line "process_load_elf_executable: error initializing elf_file";
    mret rc
  else
    _ ← update_process process (fun p => set_executable elf_file (p_size p) ELF p);
    mret 0.

Definition process_load_data (filename : list Z) (process : Z) : M St Z :=
  rc ← process_load_elf_executable filename process;
  if rc =? - EIFORMAT then process_load_binary_executable filename process else mret rc.

(** ** Mapping a process into its task's page tables *)

(** [process->task->paging]. *)
Definition task_paging (process : Z) : M St Z :=
  x ← load_process process;
  t ← load_task (p_task x);
  mret (t_paging t).

Definition user_flags : Z := Z.lor PAGING_PRESENT PAGING_USER_SUPERVISOR.
Definition user_rw_flags : Z := Z.lor user_flags PAGING_READ_WRITE.

Definition process_map_task_binary (process : Z) : M St Z :=
  paging ← task_paging process;
  x ← load_process process;
  on_mem (paging_create_mapping paging TASK_LOAD_VIRTUAL_ADDRESS (p_executable x)
    (paging_align_address (u32 (p_executable x + p_size x))) user_rw_flags).

(** The loop over the program headers; [rc] is the result so far. *)
Fixpoint map_elf_loop (n : nat) (i rc process phdr_table : Z) : M St Z :=
  match n with
  | O => mret rc
  | S n' =>
      let phdr := u32 (phdr_table + i * sizeof_elf32_phdr) in
      x ← load_process process;
      f ← load_elf (p_executable x);
      m ← gets phys;
      let phdr_phys_addr := elf_file_get_segment_phys_addr m f phdr in
      let pflags := if negb (Z.land (p_flags m phdr) PF_W =? 0) then user_rw_flags else user_flags in
      paging ← task_paging process;
      rc ← on_mem (paging_create_mapping paging (paging_align_to_lower_page (p_vaddr m phdr))
             (paging_align_to_lower_page phdr_phys_addr)
             (paging_align_address (u32 (phdr_phys_addr + p_memsz m phdr))) pflags);
      if rc <? 0 then mret rc else map_elf_loop n' (i + 1) rc process phdr_table
  end.

(** A null header or header table is dereferenced by the loop. *)
Definition process_map_task_elf (process : Z) : M St Z :=
  x ← load_process process;
  f ← load_elf (p_executable x);
  let elf32_ehdr := elf_get_ehdr f in
  if elf32_ehdr =? 0 then fault
  else
    m ← gets phys;
    let phdr_table := elf_get_phdr_table m elf32_ehdr in
    let n := Z.to_nat (e_phnum m elf32_ehdr) in
    if (phdr_table =? 0) && (0 <? e_phnum m elf32_ehdr) then fault
    else map_elf_loop n 0 0 process phdr_table.

Definition len_arg_block : Z := MAX_CMMD_ARG_LEN * MAX_NUM_ARGS + 4 * MAX_NUM_ARGS.

Definition process_map_task_memory (process : Z) : M St Z :=
  paging ← task_paging process;
  x ← load_process process;
  rc ← on_mem (paging_create_mapping paging TASK_STACK_VIRT_ADDR_END (stack_addr x)
         (paging_align_address (u32 (stack_addr x + TASK_STACK_SIZE))) user_rw_flags);
  if rc <? 0 then mret rc
  else
    paging ← task_paging process;
    x ← load_process process;
    rc ← on_mem (paging_create_mapping paging COMMAND_LINE_ARG_VIRTUAL_ADDR (arg_block x)
           (paging_align_address (u32 (arg_block x + len_arg_block))) user_rw_flags);
    if rc <? 0 then mret rc
    else
      x ← load_process process;
      match p_format x with
      | ELF => process_map_task_elf process
      | BINARY => process_map_task_binary process
      end.

(** ** Freeing *)

Fixpoint free_allocs_loop (n : nat) (i process : Z) : M St unit :=
  match n with
  | O => mret tt
  | S n' =>
      x ← load_process process;
      a ← lift_outcome (of_option (mem_allocs x !! Z.to_nat i));
      _ ← (if negb (ma_ptr a =? 0) then _ ← on_mem (kfree (ma_ptr a)); mret tt else mret tt);
      free_allocs_loop n' (i + 1) process
  end.

Definition process_free (process : Z) : M St unit :=
  x ← load_process process;
  _ ← match p_format x with
      | ELF => if negb (p_executable x =? 0) then elf_file_close (p_executable x) else mret tt
      | BINARY =>
          if negb (p_executable x =? 0) then _ ← on_mem (kfree (p_executable x)); mret tt
          else mret tt
      end;
  x ← load_process process;
  _ ← (if negb (stack_addr x =? 0) then _ ← on_mem (kfree (stack_addr x)); mret tt else mret tt);
  free_allocs_loop (Z.to_nat PROCESS_MAX_ALLOCATIONS) 0 process.

Definition process_terminate (process : Z) : M St Z :=
  _ ← process_free process;
  x ← load_process process;
  _ ← put_process (pid x) 0;
  mret 0.

(** ** Arguments *)

Definition translate_arg_block_addr_to_userspace_addr (addr arg_block : Z) : Z :=
  if addr <? arg_block then 0
  else
    let diff := u32 (addr - arg_block) in
    u32 (COMMAND_LINE_ARG_VIRTUAL_ADDR + diff).

(** [strcpy] of [string.c] between addresses of the kernel. *)
Definition pstrcpy (dest src : Z) : M St unit :=
  loop_m (fun '(dest, src) =>
    b ← pload8 src;
    if negb (b =? 0) then
      _ ← pstore8 dest b;
      mret (inl (u32 (dest + 1), u32 (src + 1)))
    else
      _ ← pstore8 dest 0;
      mret (inr tt)) (dest, src).

(** Not called by the kernel: an earlier way to pass arguments. *)
Fixpoint stack_args_loop (n : nat) (i arg_strings_location argv : Z) : M St unit :=
  match n with
  | O => mret tt
  | S n' =>
      arg ← on_mem (read_word argv i);
      m ← gets phys;
      arg_len ← lift_outcome (CString.strnlen
                  (PhysMem.bytes_at m arg (Z.to_nat MAX_CMMD_ARG_LEN)) MAX_CMMD_ARG_LEN);
      _ ← pstrcpy arg_strings_location arg;
      stack_args_loop n' (i + 1) (u32 (arg_strings_location + arg_len + 5)) argv
  end.

Definition load_process_stack_memory_with_args (process_stack_ptr argc argv : Z) : M St unit :=
  let argc_location := u32 (process_stack_ptr + TASK_STACK_SIZE - 4) in
  _ ← on_mem (write_word argc_location 0 (u32 argc));
  let argv_char_array_location := u32 (process_stack_ptr + TASK_STACK_SIZE - 12) in
  let arg_strings_location := u32 (argv_char_array_location + 4 * (MAX_CMMD_ARG_LEN + 1)) in
  stack_args_loop (Z.to_nat argc) 0 arg_strings_location argv.

Definition put_argv_argc_in_stack_mem (process_stack_ptr argc argv : Z) : M St unit :=
  let process_stack_flipped := u32 (process_stack_ptr + TASK_STACK_SIZE - 4) in
  _ ← on_mem (write_word process_stack_flipped 0 (u32 argc));
  let process_stack_flipped := u32 (process_stack_ptr + TASK_STACK_SIZE - 8) in
  on_mem (write_word process_stack_flipped 0 argv).

Fixpoint arg_block_loop (n : nat) (i arg_strings arg_block argv : Z) : M St unit :=
  match n with
  | O => mret tt
  | S n' =>
      arg ← on_mem (read_word argv i);
      _ ← pstrcpy arg_strings arg;
      _ ← on_mem (write_word arg_block i
            (translate_arg_block_addr_to_userspace_addr arg_strings arg_block));
      arg_block_loop n' (i + 1) (u32 (arg_strings + MAX_CMMD_ARG_LEN)) arg_block argv
  end.

Definition load_arg_block (arg_block argc argv : Z) : M St unit :=
  arg_block_loop (Z.to_nat argc) 0 (u32 (arg_block + 4 * MAX_NUM_ARGS)) arg_block argv.

(** ** Creating a process *)

(** [kzalloc(sizeof(struct process))]. *)
Definition alloc_process : M St Z :=
  p ← on_mem (kzalloc sizeof_process);
  _ ← (if p =? 0 then mret tt
       else modify (fun s => set_procs (<[p := zero_process]> (procs s)) s));
  mret p.

(** The code after the label [out], with an error code. *)
Definition load_failed (process rc : Z) : M St (Z * Z) :=
  _ ← (if negb (process =? 0) then
         x ← load_process process;
         if negb (p_task x =? 0) then _ ← task_free (p_task x); mret tt else mret tt
       else mret tt);
  _ ← process_free process;
  mret (rc, 0).

(** The result code and [*process] (0 when it is not set).  With a taken [pid]
    the code after [out] reads [_process] before it is set. *)
Definition process_load_for_slot (filename : list Z) (pid argc argv : Z) : M St (Z * Z) :=
  taken ← process_get pid;
  if negb (taken =? 0) then fault
  else
    process ← alloc_process;
    if process =? 0 then load_failed process (- ENOMEM)
    else
      _ ← process_init process;
      rc ← process_load_data filename process;
      if rc <? 0 then load_failed process rc
      else
        process_stack_ptr ← on_mem (kzalloc TASK_STACK_SIZE);
        if process_stack_ptr =? 0 then load_failed process (- ENOMEM)
        else
          let argv := if argc =? 0 then 0 else argv in
          _ ← put_argv_argc_in_stack_mem process_stack_ptr argc COMMAND_LINE_ARG_VIRTUAL_ADDR;
          _ ← update_process process (set_args argc argv);
          x ← load_process process;
          name ← lift_outcome (CString.strncpy (p_filename x) filename MAX_FILE_PATH_CHARS);
          _ ← update_process process (set_p_filename name);
          _ ← update_process process (set_stack_addr process_stack_ptr);
          _ ← update_process process (set_pid (u16 pid));
          arg_block ← on_mem (kzalloc len_arg_block);
          _ ← update_process process (set_arg_block arg_block);
          if arg_block =? 0 then load_failed process (- ENOMEM)
          else
            x ← load_process process;
            _ ← load_arg_block arg_block (p_argc x) (p_argv x);
            task ← task_new process;
            if task <? 0 then load_failed process (ERROR_I task)
            else
              _ ← update_process process (set_p_task task);
              rc ← process_map_task_memory process;
              if rc <? 0 then load_failed process rc
              else
                _ ← put_process pid process;
                mret (rc, process).

Definition process_load_with_args (filename : list Z) (argc argv : Z) : M St (Z * Z) :=
  pid ← process_get_free_slot;
  if pid <? 0 then
    _ ← print_line "Could not load process.  Already at max processes.";
    mret (- EISTAKEN, 0)
  else process_load_for_slot filename pid argc argv.

Definition process_load (filename : list Z) : M St (Z * Z) :=
  pid ← process_get_free_slot;
  if pid <? 0 then
    _ ← print_line "Could not load process.  Already at max processes.";
    mret (- EISTAKEN, 0)
  else process_load_for_slot filename pid 0 0.

(** ** Memory for user programs *)

Fixpoint free_alloc_slot (l : list process_mem_allocation) (i : Z) : Z :=
  match l with
  | [] => - ENOMEM
  | a :: l' => if ma_ptr a =? 0 then i else free_alloc_slot l' (i + 1)
  end.

Definition process_get_free_memory_allocation_slot (process : Z) : M St Z :=
  x ← load_process process;
  mret (free_alloc_slot (mem_allocs x) 0).

Definition process_malloc_syscall_handler (process size : Z) : M St Z :=
  ptr ← on_mem (kzalloc size);
  if ptr =? 0 then
    _ ← on_mem (kfree ptr);
    mret 0
  else
    index ← process_get_free_memory_allocation_slot process;
    if index <? 0 then
      _ ← on_mem (kfree ptr);
      mret 0
    else
      paging ← task_paging process;
      rc ← on_mem (paging_create_mapping paging ptr ptr (paging_align_address (u32 (ptr + size)))
             user_rw_flags);
      if rc <? 0 then
        _ ← on_mem (kfree ptr);
        mret 0
      else
        _ ← update_process process (fun x =>
              set_mem_allocs (<[Z.to_nat index := MemAllocation ptr size]> (mem_allocs x)) x);
        mret ptr.

(** The index of the allocation; [None] is the null pointer. *)
Fixpoint find_alloc (l : list process_mem_allocation) (addr : Z) (i : nat) : option nat :=
  match l with
  | [] => None
  | a :: l' => if ma_ptr a =? addr then Some i else find_alloc l' addr (S i)
  end.

Definition get_process_allocation (process addr : Z) : M St (option nat) :=
  x ← load_process process;
  mret (find_alloc (mem_allocs x) addr 0).

Definition process_free_syscall_handler (process ptr : Z) : M St unit :=
  allocation ← get_process_allocation process ptr;
  match allocation with
  | None => mret tt
  | Some i =>
      paging ← task_paging process;
      x ← load_process process;
      a ← lift_outcome (of_option (mem_allocs x !! i));
      rc ← on_mem (paging_create_mapping paging (ma_ptr a) (ma_ptr a)
             (paging_align_address (u32 (ma_ptr a + ma_size a))) user_flags);
      if rc <? 0 then mret tt
      else
        _ ← on_mem (kfree ptr);
        update_process process (fun x =>
          set_mem_allocs (<[i := MemAllocation 0 0]> (mem_allocs x)) x)
  end.

End Processes.

End Process.
