(* ===== verification/ProcessProofs.v ===== *)
(** * The memory and the arguments of processes, proved

    What [process_malloc_syscall_handler] and [process_free_syscall_handler] do
    to the heap, the process's page tables and its table of allocations, and
    where [load_arg_block] leaves a new process's arguments. *)
From stdpp Require Import base gmap list numbers strings.
From S2P Require Import Prelude Config CString Heap PhysMem KernelHeap Paging KState Disk Fat16 Terminal Idt Keyboard System Elf Task UserMemory Process.
#[local] Open Scope Z_scope.

Module ProcessProofs.
Import KernelHeap Paging System Task UserMemory Process.

(** ** Mapping and freeing blocks *)

(** One to one, a block of [size] bytes: the entries of its pages are stored,
    and nothing else. *)
Lemma map_block d pgd ptr size prot k :
  desc_wf (mem k) d pgd -> page ptr -> 0 <= prot < 4096 -> 0 <= size -> ptr + size <= 2147483648 ->
  exists m', paging_create_mapping d ptr ptr (paging_align_address (u32 (ptr + size))) prot k
      = Ok (0, set_mem k m') /\ desc_wf m' d pgd /\
    (forall i, 0 <= i < 1024 -> table_of m' pgd i = table_of (mem k) pgd i) /\
    (forall a, ~ in_tables (mem k) pgd a -> PhysMem.load8 m' a = PhysMem.load8 (mem k) a) /\
    (forall va, page va -> pte m' pgd va =
       if bool_decide (ptr <= va < ptr + 4096 * Z.of_nat (Heap.blocks_for size))
       then va + prot else pte (mem k) pgd va).
Proof.
  intros Hd Hp Hprot Hs Hend. rewrite u32_small by (unfold page in Hp; lia).
  assert (He : paging_align_address (ptr + size) = ptr + 4096 * Z.of_nat (Heap.blocks_for size)).
  { unfold paging_align_address, paging_is_aligned, PAGING_PAGE_SIZE, Heap.blocks_for, page, u32 in *.
    destruct (Z.eqb_spec ((ptr + size) mod 4096) 0); zlia. }
  assert (Hb : ptr + 4096 * Z.of_nat (Heap.blocks_for size) <= 2147483648).
  { unfold Heap.blocks_for, page in *. zlia. }
  rewrite He, create_mapping_loop; [|done|done|unfold page in *; zlia|lia].
  replace (Z.to_nat ((ptr + 4096 * Z.of_nat (Heap.blocks_for size) - ptr) / 4096))
    with (Heap.blocks_for size) by zlia.
  destruct (map_range_loop_ok (Heap.blocks_for size) d pgd ptr ptr prot k)
    as (m' & Hr & Hd' & Ht & Hout & Hpte); [done|done|done|done|lia|lia|].
  exists m'. split; [done|]. split; [done|]. split; [done|]. split; [done|]. intros va Hva.
  rewrite Hpte by done. rewrite (Z.mul_comm _ 4096). case_bool_decide; [lia|done].
Qed.

(** [kfree(NULL)] indexes the block table below its start. *)
Lemma kfree_null k :
  4096 <= Heap.start_addr (kernel_heap k) <= 2147483648 ->
  0 <= Heap.total_entries (Heap.table (kernel_heap k)) < 2147483648 -> kfree 0 k = Fault.
Proof.
  intros Hs Ht. unfold kfree, Heap.heap_free, Heap.heap_mark_blocks_free, Heap.heap_address_to_block.
  assert (Hb : s32 (0 - Heap.start_addr (kernel_heap k)) `quot` HEAP_BLOCK_SIZE < 0).
  { unfold HEAP_BLOCK_SIZE. rewrite s32_small by lia. zlia. }
  rewrite s32_small by lia.
  destruct (Z.to_nat _) as [|n] eqn:E; [lia|]. cbn [Heap.mark_free_loop].
  unfold Heap.read_entry. by destruct (Z.leb_spec 0 (s32 (0 - Heap.start_addr (kernel_heap k)) `quot` HEAP_BLOCK_SIZE)); [lia|].
Qed.

Lemma kfree_null_rep k L : kmem_rep k L -> kfree 0 k = Fault.
Proof.
  intros (B & Hrep & _ & Hlow). destruct (Heap.rep_ok _ _ Hrep) as (Hl & Hm & H0 & Ha & _).
  unfold low_heap, HEAP_BLOCK_SIZE in *. apply kfree_null; [zlia|lia].
Qed.

(** Without a run of free blocks that is long enough the allocation of the kernel
    does not survive: [kzalloc] overruns the block table, or returns null, and null is
    then given to [kfree]. *)
Lemma kzalloc_no_room k L size : kmem_rep k L -> 0 < size <= 4294963200 ->
  Heap.no_fit (Heap.entries (Heap.table (kernel_heap k))) (Heap.blocks_for size) ->
  kzalloc size k = Fault \/ kzalloc size k = Ok (0, k).
Proof.
  intros (B & Hrep & _) Hs Hno. pose proof (Heap.rep_ok _ _ Hrep) as Hok. unfold kzalloc, kmalloc, mbind, M_bind.
  destruct (decide (Heap.trailing_free (Heap.entries (Heap.table (kernel_heap k))) = 0%nat)).
  - right. rewrite Heap.heap_malloc_full by done. by destruct k.
  - left. by rewrite Heap.heap_malloc_overrun by (done || lia).
Qed.

(** ** The table of allocations *)

(** Slot [i] is the first that [P] holds of. *)
Definition first_slot (P : process_mem_allocation -> Prop) (l : list process_mem_allocation) (i : nat) : Prop :=
  (exists a, l !! i = Some a /\ P a) /\ forall j a, (j < i)%nat -> l !! j = Some a -> ~ P a.

Lemma free_alloc_slot_first l : forall n i,
  first_slot (fun a => ma_ptr a = 0) l i -> free_alloc_slot l n = n + Z.of_nat i.
Proof.
  induction l as [|a l IH]; intros n i ((b & Hb & Hp) & Hf); [done|]. cbn [free_alloc_slot].
  destruct i as [|i].
  - simpl in Hb. simplify_eq. rewrite Hp. change (0 =? 0) with true. cbv iota. lia.
  - destruct (Z.eqb_spec (ma_ptr a) 0) as [E|_]; [by destruct (Hf 0%nat a); [lia|..]|].
    rewrite (IH (n + 1) i); [lia|]. split; [by exists b|].
    intros j c Hj Hc. apply (Hf (S j)); [lia|done].
Qed.

Lemma free_alloc_slot_none l : forall n,
  (forall a, a ∈ l -> ma_ptr a <> 0) -> free_alloc_slot l n = - ENOMEM.
Proof.
  induction l as [|a l IH]; intros n H; [done|]. cbn [free_alloc_slot].
  destruct (Z.eqb_spec (ma_ptr a) 0) as [E|_]; [destruct (H a); [set_solver|done]|].
  apply IH. intros b Hb. apply H. set_solver.
Qed.

Lemma find_alloc_first l ptr : forall n i,
  first_slot (fun a => ma_ptr a = ptr) l i -> find_alloc l ptr n = Some (n + i)%nat.
Proof.
  induction l as [|a l IH]; intros n i ((b & Hb & Hp) & Hf); [done|]. cbn [find_alloc].
  destruct i as [|i].
  - simpl in Hb. simplify_eq. rewrite Z.eqb_refl. f_equal. lia.
  - destruct (Z.eqb_spec (ma_ptr a) ptr) as [E|_]; [by destruct (Hf 0%nat a); [lia|..]|].
    rewrite (IH (S n) i); [f_equal; lia|]. split; [by exists b|].
    intros j c Hj Hc. apply (Hf (S j)); [lia|done].
Qed.

Lemma find_alloc_none l ptr : forall n, (forall a, a ∈ l -> ma_ptr a <> ptr) -> find_alloc l ptr n = None.
Proof.
  induction l as [|a l IH]; intros n H; [done|]. cbn [find_alloc].
  destruct (Z.eqb_spec (ma_ptr a) ptr) as [E|_]; [destruct (H a); [set_solver|done]|].
  apply IH. intros b Hb. apply H. set_solver.
Qed.

Section Allocations.
Context {D : Type} {Po : PortIO D}.
#[local] Abbreviation St := (sys D).

(** The process at [p] with its struct, its task's page tables at [d], and
    nothing of those tables in free memory. *)
Record user_process (s : St) (p : Z) (x : process) (d pgd : Z) : Prop := {
  up_process : procs s !! p = Some x;
  up_task : exists t, tasks s !! p_task x = Some t /\ t_paging t = d;
  up_wf : desc_wf (phys s) d pgd;
  up_owned a : d <= a < d + 4 \/ pgd <= a < pgd + 4096 \/ in_tables (phys s) pgd a ->
    ~ in_free (k_alloc (fsys s)) a
}.

Lemma wp_task_paging p x d pgd (s s' : St) (Q : Z -> St -> Prop) :
  user_process s p x d pgd -> procs s' = procs s -> tasks s' = tasks s -> Q d s' ->
  wp (task_paging p) s' Q.
Proof.
  intros Hu Hp Ht HQ. destruct (up_task _ _ _ _ _ Hu) as (t & Htt & <-). unfold task_paging.
  apply wp_bind. eapply wp_load_process; [rewrite Hp; apply Hu|].
  apply wp_bind. eapply wp_load_task; [by rewrite Ht|]. by apply wp_ret.
Qed.

(** Zeroing free memory leaves the page tables alone. *)
Lemma user_tables_kept s p x d pgd (m : gmap Z Z) :
  user_process s p x d pgd ->
  (forall a, ~ in_free (k_alloc (fsys s)) a -> PhysMem.load8 m a = PhysMem.load8 (phys s) a) ->
  desc_wf m d pgd /\ (forall va, page va -> pte m pgd va = pte (phys s) pgd va) /\
  (forall a, in_tables m pgd a <-> in_tables (phys s) pgd a).
Proof.
  intros Hu Hm.
  assert (Hr : forall a n, (forall b, a <= b < a + n -> d <= b < d + 4 \/ pgd <= b < pgd + 4096 \/
      in_tables (phys s) pgd b) -> PhysMem.same_region (phys s) m a n).
  { intros a n H b Hb. symmetry. by apply Hm, (up_owned _ _ _ _ _ Hu), H. }
  assert (Hd : PhysMem.same_region (phys s) m d 4) by (apply Hr; lia).
  assert (Hp : PhysMem.same_region (phys s) m pgd 4096) by (apply Hr; lia).
  assert (Ht : forall i, 0 <= i < 1024 -> table_of m pgd i = table_of (phys s) pgd i).
  { intros i Hi. symmetry. by apply table_of_ext. }
  split; [eapply desc_wf_ext; [done|done|apply Hu]|]. split.
  - intros va Hva. destruct (page_indexes _ Hva) as [Hi Hj]. unfold pte, pte_addr. rewrite Ht by done.
    symmetry. apply (PhysMem.same_region_load32 _ _ (table_of (phys s) pgd (va / 4194304)) 4096); [|lia|lia].
    apply Hr. intros b Hb. right. right. by exists (va / 4194304).
  - intros a. split; intros (i & Hi & Ha); exists i; (split; [done|]);
      [rewrite <- Ht|rewrite Ht]; done.
Qed.

(** What an allocation of [size] bytes at [ptr] does to memory and tables. *)
Definition allocated (s : St) (pgd ptr size : Z) (m : gmap Z Z) : Prop :=
  (forall a, ptr <= a < ptr + size -> PhysMem.load8 m a = 0) /\
  (forall a, ~ (ptr <= a < ptr + size) -> ~ in_tables (phys s) pgd a ->
     PhysMem.load8 m a = PhysMem.load8 (phys s) a) /\
  (forall va, page va -> pte m pgd va =
     if bool_decide (ptr <= va < ptr + 4096 * Z.of_nat (Heap.blocks_for size))
     then va + 7 else pte (phys s) pgd va).

Lemma malloc_run (s : St) p x d pgd size (L : gmap Z nat) b0 :
  user_process s p x d pgd -> kmem_rep (k_alloc (fsys s)) L -> 0 < size <= 4294963200 ->
  Heap.free_run (Heap.entries (Heap.table (kernel_heap (k_alloc (fsys s))))) b0 (Heap.blocks_for size) ->
  exists ptr k1 m', kzalloc size (k_alloc (fsys s)) = Ok (ptr, k1) /\ new_block (k_alloc (fsys s)) k1 L ptr size /\
    paging_create_mapping d ptr ptr (paging_align_address (u32 (ptr + size))) user_rw_flags k1
      = Ok (0, set_mem k1 m') /\ desc_wf m' d pgd /\ allocated s pgd ptr size m'.
Proof.
  intros Hu Hrep Hsize Hrun. destruct (kzalloc_fits _ L size b0 Hrep Hsize Hrun) as (ptr & k1 & Hal & Hnb).
  pose proof (nb_range _ _ _ _ _ Hnb) as (Hpos & Hend & Hal4). destruct (blocks_for_bounds _ Hsize) as (_ & Hn & _).
  assert (Hfree : forall a, ptr <= a < ptr + size -> in_free (k_alloc (fsys s)) a) by (intros; by eapply nb_size).
  pose proof (nb_load _ _ _ _ _ Hnb) as Hload.
  destruct (user_tables_kept s p x d pgd (mem k1) Hu) as (Hwf & Hpte & Hin).
  { intros a Ha. rewrite Hload, bool_decide_false; [done|]. intros H. by apply Ha, Hfree. }
  unfold HEAP_BLOCK_SIZE in *. assert (Hp : page ptr) by (unfold page; lia).
  destruct (map_block d pgd ptr size user_rw_flags k1) as (m' & Hmap & Hwf' & _ & Hout & Hpte');
    [done|done|by vm_compute|lia|lia|].
  exists ptr, k1, m'. split; [done|]. split; [done|]. split; [done|]. split; [done|]. split; [|split].
  - intros a Ha. rewrite Hout, Hload, bool_decide_true by (done || rewrite Hin; intros Ht;
      by apply (up_owned _ _ _ _ _ Hu a); [tauto|apply Hfree]). done.
  - intros a Ha Ht. rewrite Hout by (by rewrite Hin). by rewrite Hload, bool_decide_false.
  - intros va Hva. rewrite Hpte' by done. case_bool_decide; [done|by apply Hpte].
Qed.

(** The struct with slot [i] of its allocations replaced. *)
Definition with_alloc (i : nat) (a : process_mem_allocation) (x : process) : process :=
  set_mem_allocs (<[i := a]> (mem_allocs x)) x.

(** The two ways the allocation call ends, with and without a free slot. *)
Section Malloc.
Context (s : St) (p : Z) (x : process) (d pgd size : Z) (L : gmap Z nat) (b0 : nat).
Hypothesis Hu : user_process s p x d pgd.
Hypothesis Hrep : kmem_rep (k_alloc (fsys s)) L.
Hypothesis Hsize : 0 < size <= 4294963200.
Hypothesis Hrun : Heap.free_run (Heap.entries (Heap.table (kernel_heap (k_alloc (fsys s))))) b0 (Heap.blocks_for size).

Lemma malloc_slot i : first_slot (fun a => ma_ptr a = 0) (mem_allocs x) i ->
  exists ptr k1 m', process_malloc_syscall_handler p size s =
      Ok (ptr, set_procs (<[p := with_alloc i (MemAllocation ptr size) x]> (procs s)) (with_kmem (set_mem k1 m') s)) /\
    new_block (k_alloc (fsys s)) k1 L ptr size /\ desc_wf m' d pgd /\ allocated s pgd ptr size m'.
Proof.
  destruct (malloc_run s p x d pgd size L b0 Hu Hrep Hsize Hrun) as (ptr & k1 & m' & Hal & Hnb & Hmap & Hpost).
  pose proof (nb_range _ _ _ _ _ Hnb) as (Hp0 & _ & _). intros Hi. exists ptr, k1, m'. split; [|done].
  apply wp_eq. unfold process_malloc_syscall_handler. apply wp_bind, wp_on_mem. unfold wp at 1. rewrite Hal.
  rewrite (proj2 (Z.eqb_neq ptr 0)) by lia. apply wp_bind, wp_bind.
  eapply wp_load_process; [apply Hu|]. apply wp_ret. rewrite (free_alloc_slot_first _ 0 i Hi).
  rewrite (proj2 (Z.ltb_ge _ 0)) by lia. apply wp_bind.
  eapply (wp_task_paging p x d pgd s); [done|done|done|]. apply wp_bind, wp_on_mem.
  unfold wp at 1. change (k_alloc (fsys (with_kmem k1 s))) with k1. rewrite Hmap.
  change (0 <? 0) with false. cbv iota. apply wp_bind. eapply wp_update_process; [apply Hu|].
  apply wp_ret. split; [done|]. replace (Z.to_nat (0 + Z.of_nat i)) with i by lia. by destruct s as [[]].
Qed.

Lemma malloc_full : (forall a, a ∈ mem_allocs x -> ma_ptr a <> 0) ->
  exists ptr k1 k2, process_malloc_syscall_handler p size s = Ok (0, with_kmem k2 s) /\
    new_block (k_alloc (fsys s)) k1 L ptr size /\ freed_block k1 k2 (<[ptr := Heap.blocks_for size]> L) ptr (Heap.blocks_for size).
Proof.
  destruct (malloc_run s p x d pgd size L b0 Hu Hrep Hsize Hrun) as (ptr & k1 & _ & Hal & Hnb & _).
  pose proof (nb_range _ _ _ _ _ Hnb) as (Hp0 & _ & _). intros Hfull.
  destruct (kfree_freed k1 _ ptr _ (nb_rep _ _ _ _ _ Hnb) (lookup_insert_eq _ _ _)) as (k2 & Hfr & Hfb).
  exists ptr, k1, k2. split; [|done]. apply wp_eq. unfold process_malloc_syscall_handler. apply wp_bind, wp_on_mem.
  unfold wp at 1. rewrite Hal, (proj2 (Z.eqb_neq ptr 0)) by lia. apply wp_bind, wp_bind.
  eapply wp_load_process; [apply Hu|]. apply wp_ret. rewrite free_alloc_slot_none by done.
  change (- ENOMEM <? 0) with true. cbv iota. apply wp_bind, wp_on_mem. unfold wp at 1.
  change (k_alloc (fsys (with_kmem k1 s))) with k1. rewrite Hfr. apply wp_ret. split; [done|]. by destruct s as [[]].
Qed.

End Malloc.

Lemma malloc_no_room (s : St) p size L : kmem_rep (k_alloc (fsys s)) L -> 0 < size <= 4294963200 ->
  Heap.no_fit (Heap.entries (Heap.table (kernel_heap (k_alloc (fsys s))))) (Heap.blocks_for size) ->
  process_malloc_syscall_handler p size s = Fault.
Proof.
  intros Hrep Hs Hno. unfold process_malloc_syscall_handler, mbind, M_bind, on_mem, on_fs, zoom.
  destruct (kzalloc_no_room _ _ _ Hrep Hs Hno) as [->| ->]; [done|].
  change (0 =? 0) with true. cbn [mbind outcome_bind]. cbv iota.
  change (k_alloc (fsys (set_fsys _ s))) with (k_alloc (fsys s)). by rewrite (kfree_null_rep _ _ Hrep).
Qed.

(** The free call, of an address that is not recorded and of one that is. *)
Section Free.
Context (s : St) (p : Z) (x : process) (d pgd ptr : Z) (L : gmap Z nat).
Hypothesis Hu : user_process s p x d pgd.
Hypothesis Hrep : kmem_rep (k_alloc (fsys s)) L.

Lemma find_allocation : get_process_allocation p ptr s = Ok (find_alloc (mem_allocs x) ptr 0, s).
Proof. apply wp_eq. unfold get_process_allocation. apply wp_bind. by eapply wp_load_process; [apply Hu|]. Qed.

Lemma free_unknown : (forall a, a ∈ mem_allocs x -> ma_ptr a <> ptr) ->
  process_free_syscall_handler p ptr s = Ok (tt, s).
Proof.
  intros Hno. unfold process_free_syscall_handler. rewrite (bind_run _ _ _ _ _ find_allocation). by rewrite find_alloc_none.
Qed.

Lemma free_recorded i size n : first_slot (fun a => ma_ptr a = ptr) (mem_allocs x) i ->
  mem_allocs x !! i = Some (MemAllocation ptr size) -> L !! ptr = Some n -> page ptr ->
  0 <= size -> ptr + size <= 2147483648 ->
  exists m' k', process_free_syscall_handler p ptr s =
      Ok (tt, set_procs (<[p := with_alloc i (MemAllocation 0 0) x]> (procs s)) (with_kmem k' s)) /\
    freed_block (set_mem (k_alloc (fsys s)) m') k' L ptr n /\ desc_wf m' d pgd /\
    (forall a, ~ in_tables (phys s) pgd a -> PhysMem.load8 m' a = PhysMem.load8 (phys s) a) /\
    (forall va, page va -> pte m' pgd va =
       if bool_decide (ptr <= va < ptr + 4096 * Z.of_nat (Heap.blocks_for size))
       then va + 5 else pte (phys s) pgd va).
Proof.
  intros Hi Ha HL Hp Hs Hend.
  destruct (map_block d pgd ptr size user_flags (k_alloc (fsys s))) as (m' & Hmap & Hwf & _ & Hout & Hpte);
    [apply Hu|done|by vm_compute|done|done|].
  destruct (kfree_freed (set_mem (k_alloc (fsys s)) m') L ptr n) as (k' & Hfr & Hfb); [|done|].
  { destruct Hrep as (B & H1 & H2 & H3). by exists B. }
  exists m', k'. split; [|done]. apply wp_eq. unfold process_free_syscall_handler. apply wp_bind.
  eapply wp_of_run; [apply find_allocation|]. rewrite (find_alloc_first _ _ 0 i Hi). simpl (0 + i)%nat. cbv iota.
  apply wp_bind. eapply (wp_task_paging p x d pgd s); [done|done|done|]. apply wp_bind.
  eapply wp_load_process; [apply Hu|]. rewrite Ha. apply wp_bind, wp_ret, wp_bind, wp_on_mem.
  cbn [ma_ptr ma_size]. unfold wp at 1. rewrite Hmap. change (0 <? 0) with false. cbv iota.
  apply wp_bind, wp_on_mem. unfold wp at 1.
  change (k_alloc (fsys (with_kmem (set_mem (k_alloc (fsys s)) m') s))) with (set_mem (k_alloc (fsys s)) m').
  rewrite Hfr. eapply wp_update_process; [apply Hu|]. split; [done|]. by destruct s as [[]].
Qed.

End Free.

(** The null pointer matches an empty slot, and is then given to [kfree]. *)
Lemma free_null (s : St) p x d pgd i : user_process s p x d pgd ->
  first_slot (fun a => ma_ptr a = 0) (mem_allocs x) i -> mem_allocs x !! i = Some (MemAllocation 0 0) ->
  (forall m, kfree 0 (set_mem (k_alloc (fsys s)) m) = Fault) ->
  process_free_syscall_handler p 0 s = Fault.
Proof.
  intros Hu Hi Ha Hnull. pose proof (up_process _ _ _ _ _ Hu) as Hx. pose proof (find_allocation s p x d pgd 0 Hu) as Hfind.
  assert (Hpg : task_paging p s = Ok (d, s)) by (apply wp_eq; by eapply (wp_task_paging p x d pgd s)).
  assert (Hlp : load_process p s = Ok (x, s)) by (apply wp_eq; by eapply wp_load_process).
  destruct (map_block d pgd 0 0 user_flags (k_alloc (fsys s))) as (m' & Hmap & _);
    [apply Hu|done|by vm_compute|done|lia|].
  unfold process_free_syscall_handler. rewrite (bind_run _ _ _ _ _ Hfind), (find_alloc_first _ _ 0 i Hi). simpl (0 + i)%nat. cbv iota.
  rewrite (bind_run _ _ _ _ _ Hpg), (bind_run _ _ _ _ _ Hlp), Ha.
  unfold mbind, M_bind, lift_outcome, on_mem, on_fs, zoom. cbn [of_option ma_ptr ma_size mbind outcome_bind].
  rewrite Hmap. destruct (Z.ltb_spec 0 0); [lia|].
  change (k_alloc (fsys (set_fsys _ s))) with (set_mem (k_alloc (fsys s)) m').
  by rewrite Hnull.
Qed.

(** C12 (functional): the allocation system call.  With a run of free blocks
    for [size] bytes and a free slot in the process's table, the call returns
    the address of a block no live allocation holds; the bytes read as zero, the
    pages of the block are mapped one to one, present, writable and for user
    mode, every other page of the task and every byte outside the block and the
    page tables is as before, and the block is recorded in the first free slot.
    With all slots taken it returns null, and the heap's live allocations, the
    page tables and the table are as before. *)
Theorem process_malloc_spec (s : St) (p d pgd size : Z) (x : process) (L : gmap Z nat) (b0 : nat)
    (Hu : user_process s p x d pgd) (Hrep : kmem_rep (k_alloc (fsys s)) L)
    (Hsize : 0 < size <= 4294963200)
    (Hrun : Heap.free_run (Heap.entries (Heap.table (kernel_heap (k_alloc (fsys s))))) b0
              (Heap.blocks_for size)) :
  (forall i, first_slot (fun a => ma_ptr a = 0) (mem_allocs x) i ->
    exists ptr k', process_malloc_syscall_handler p size s =
        Ok (ptr, set_procs (<[p := with_alloc i (MemAllocation ptr size) x]> (procs s)) (with_kmem k' s)) /\
      ptr <> 0 /\ L !! ptr = None /\ kmem_rep k' (<[ptr := Heap.blocks_for size]> L) /\
      desc_wf (mem k') d pgd /\ allocated s pgd ptr size (mem k')) /\
  ((forall a, a ∈ mem_allocs x -> ma_ptr a <> 0) ->
    exists k', process_malloc_syscall_handler p size s = Ok (0, with_kmem k' s) /\
      kmem_rep k' L /\
      (forall a, ~ in_free (k_alloc (fsys s)) a -> PhysMem.load8 (mem k') a = PhysMem.load8 (phys s) a)).
Proof.
  split.
  - intros i Hi. destruct (malloc_slot s p x d pgd size L b0 Hu Hrep Hsize Hrun i Hi) as (ptr & k1 & m' & Hr & Hnb & Hwf & Hpost).
    pose proof (nb_range _ _ _ _ _ Hnb) as (Hp0 & _ & _). exists ptr, (set_mem k1 m'). split; [exact Hr|]. split; [lia|].
    split; [apply Hnb|]. split; [|done]. destruct (nb_rep _ _ _ _ _ Hnb) as (B & H1 & H2 & H3). by exists B.
  - intros Hfull. destruct (malloc_full s p x d pgd size L b0 Hu Hrep Hsize Hrun Hfull) as (ptr & k1 & k2 & Hr & Hnb & Hfb).
    exists k2. split; [exact Hr|]. split; [pose proof (fb_rep _ _ _ _ _ Hfb) as H; rewrite delete_insert_id in H; [done|apply Hnb]|].
    intros a Ha. rewrite (fb_mem _ _ _ _ _ Hfb), (nb_load _ _ _ _ _ Hnb), bool_decide_false; [done|].
    intros Hin. by destruct (nb_size _ _ _ _ _ Hnb Hsize a Hin).
Qed.

(** C13 (safety): the free system call.  An address that is no recorded
    allocation of the process changes nothing.  A recorded one is unmapped for
    writing, its block is freed and its slot cleared, and nothing outside the
    page tables changes.  The null pointer is not refused: it matches an empty
    slot of the table, and the kernel's heap is asked to free address 0, which
    indexes the block table below its start. *)
Theorem process_free_spec (s : St) (p d pgd ptr : Z) (x : process) (L : gmap Z nat)
    (Hu : user_process s p x d pgd) (Hrep : kmem_rep (k_alloc (fsys s)) L) :
  ((forall a, a ∈ mem_allocs x -> ma_ptr a <> ptr) ->
    process_free_syscall_handler p ptr s = Ok (tt, s)) /\
  (forall i size n, first_slot (fun a => ma_ptr a = ptr) (mem_allocs x) i ->
    mem_allocs x !! i = Some (MemAllocation ptr size) -> L !! ptr = Some n -> page ptr ->
    0 <= size -> ptr + size <= 2147483648 ->
    exists k', process_free_syscall_handler p ptr s =
        Ok (tt, set_procs (<[p := with_alloc i (MemAllocation 0 0) x]> (procs s)) (with_kmem k' s)) /\
      kmem_rep k' (delete ptr L) /\ desc_wf (mem k') d pgd /\
      (forall a, ~ in_tables (phys s) pgd a -> PhysMem.load8 (mem k') a = PhysMem.load8 (phys s) a) /\
      (forall va, page va -> pte (mem k') pgd va =
         if bool_decide (ptr <= va < ptr + 4096 * Z.of_nat (Heap.blocks_for size))
         then va + 5 else pte (phys s) pgd va)) /\
  (forall i, ptr = 0 -> first_slot (fun a => ma_ptr a = 0) (mem_allocs x) i ->
    mem_allocs x !! i = Some (MemAllocation 0 0) ->
    4096 <= Heap.start_addr (kernel_heap (k_alloc (fsys s))) <= 2147483648 ->
    0 <= Heap.total_entries (Heap.table (kernel_heap (k_alloc (fsys s)))) < 2147483648 ->
    process_free_syscall_handler p ptr s = Fault).
Proof.
  split; [|split].
  - by eapply free_unknown.
  - intros i size n Hi Ha HL Hp Hs Hend.
    destruct (free_recorded s p x d pgd ptr L Hu Hrep i size n Hi Ha HL Hp Hs Hend) as (m' & k' & Hr & Hfb & Hpost).
    exists k'. split; [exact Hr|]. split; [apply Hfb|]. by rewrite (fb_mem _ _ _ _ _ Hfb).
  - intros i -> Hi Ha Hst Htot. eapply free_null; [exact Hu|exact Hi|exact Ha|]. by intros m; apply kfree_null.
Qed.

End Allocations.

(** ** Arguments *)

Section Arguments.
Context {D : Type} {Po : PortIO D}.
#[local] Abbreviation St := (sys D).

Lemma pstrcpy_ok (s : St) dest src str :
  0 <= src -> src + Z.of_nat (length str) < 4294967296 -> 0 <= dest ->
  dest + Z.of_nat (length str) < 4294967296 -> Forall CString.char_byte str ->
  (forall i, (i <= length str)%nat ->
     PhysMem.load8 (phys s) (src + Z.of_nat i) = default 0 (str !! i)) ->
  (src + Z.of_nat (length str) < dest \/ dest + Z.of_nat (length str) < src) ->
  pstrcpy dest src s = Ok (tt, poked s dest (str ++ [0])).
Proof.
  intros Hs Hsl Hd Hdl Hstr Hload Hdis. apply wp_eq. unfold pstrcpy.
  apply (wp_loop_m (fun '(d, c) s' => exists i, (i <= length str)%nat /\
      d = dest + Z.of_nat i /\ c = src + Z.of_nat i /\ s' = poked s dest (take i str))
    (fun '(d, c) _ => src + Z.of_nat (length str) - c)).
  { exists 0%nat. split; [lia|]. split; [lia|]. split; [lia|]. by rewrite poked_nil. }
  { lia. }
  intros [d c] s' (i & Hi & -> & -> & ->). apply wp_bind, wp_gets.
  assert (Hlen : length (take i str) = i) by (by apply length_take_le).
  assert (Hb : PhysMem.load8 (phys (poked s dest (take i str))) (src + Z.of_nat i) = default 0 (str !! i)).
  { rewrite <- Hload by done. unfold poked. rewrite phys_with_mem, PhysMem.load8_store_bytes by lia.
    by rewrite decide_False by lia. }
  rewrite Hb.
  assert (Hput : forall v, pstore8 (dest + Z.of_nat i) v (poked s dest (take i str))
    = Ok (tt, poked s dest (take i str ++ [v]))).
  { intros v. rewrite <- poke_poked by lia. by rewrite Hlen. }
  destruct (str !! i) as [b|] eqn:E; cbn [default from_option id].
  - pose proof (Forall_lookup_1 _ _ _ _ Hstr E) as Hc. unfold CString.char_byte in Hc.
    destruct (Z.eqb_spec b 0); [lia|]. cbn [negb]. apply wp_bind. unfold wp at 1. rewrite Hput.
    apply wp_ret. pose proof (lookup_lt_Some _ _ _ E). rewrite !u32_small by lia.
    split; [|lia]. exists (S i). split; [lia|]. split; [lia|]. split; [lia|].
    by rewrite (take_S_r _ _ _ E).
  - apply lookup_ge_None in E. change (0 =? 0) with true. cbn [negb]. apply wp_bind. unfold wp at 1.
    rewrite Hput. apply wp_ret. split; [done|]. by rewrite take_ge by lia.
Qed.

(** The argument vector of [strs] at [argv], outside the block at [A]. *)
Record args_at (m : gmap Z Z) (A argv : Z) (strs : list (list Z)) : Prop := {
  aa_block : 0 < A /\ A + 180 < 4294967296;
  aa_argc : (length strs <= 5)%nat;
  aa_argv : 0 < argv /\ argv + 4 * Z.of_nat (length strs) <= 4294967296;
  aa_argv_apart a : argv <= a < argv + 4 * Z.of_nat (length strs) -> ~ (A <= a < A + 180);
  aa_string i str : strs !! i = Some str ->
    let p := PhysMem.load32 m (argv + 4 * Z.of_nat i) in
    Forall CString.char_byte str /\ (length str < 32)%nat /\ p + Z.of_nat (length str) < 4294967296 /\
    forall c, (c <= length str)%nat ->
      PhysMem.load8 m (p + Z.of_nat c) = default 0 (str !! c) /\ ~ (A <= p + Z.of_nat c < A + 180)
}.

(** The first [n] arguments are in the block, in memory [m']. *)
Definition args_loaded (m m' : gmap Z Z) (A : Z) (strs : list (list Z)) (n : nat) : Prop :=
  (forall i str, (i < n)%nat -> strs !! i = Some str ->
     PhysMem.load32 m' (A + 4 * Z.of_nat i) = COMMAND_LINE_ARG_VIRTUAL_ADDR + 20 + 32 * Z.of_nat i /\
     forall c, (c <= length str)%nat ->
       PhysMem.load8 m' (A + 20 + 32 * Z.of_nat i + Z.of_nat c) = default 0 (str !! c)) /\
  (forall a, ~ (A <= a < A + 180) -> PhysMem.load8 m' a = PhysMem.load8 m a).

Lemma args_loaded_step m m' A argv strs i str :
  args_at m A argv strs -> args_loaded m m' A strs i -> strs !! i = Some str ->
  args_loaded m
    (PhysMem.store32 (PhysMem.store_bytes m' (A + 20 + 32 * Z.of_nat i) (str ++ [0]))
       (A + 4 * Z.of_nat i) (COMMAND_LINE_ARG_VIRTUAL_ADDR + 20 + 32 * Z.of_nat i)) A strs (S i).
Proof.
  intros Ha [Hl Ho] Hi. destruct (aa_string _ _ _ _ Ha _ _ Hi) as (Hstr & Hlen & _ & _).
  pose proof (aa_block _ _ _ _ Ha) as HA. pose proof (aa_argc _ _ _ _ Ha) as H5.
  pose proof (lookup_lt_Some _ _ _ Hi) as Hi5.
  assert (Hbs : length (str ++ [0]) = S (length str)) by (rewrite length_app; simpl; lia).
  split.
  - intros j str' Hj Hj'. destruct (decide (j = i)) as [->|Hne].
    + replace str' with str in * by congruence. split.
      * rewrite PhysMem.load32_store32_eq. apply u32_small. unfold COMMAND_LINE_ARG_VIRTUAL_ADDR. lia.
      * intros c Hc. rewrite PhysMem.load8_store32_ne by lia.
        rewrite PhysMem.load8_store_bytes by lia. rewrite decide_True by lia.
        replace (Z.to_nat _) with c by lia.
        destruct (decide (c < length str)%nat) as [Hlt|Hge].
        -- rewrite lookup_app_l by done. destruct (lookup_lt_is_Some_2 _ _ Hlt) as [b Hb]. rewrite Hb.
           pose proof (Forall_lookup_1 _ _ _ _ Hstr Hb) as Hcb. unfold CString.char_byte in Hcb.
           apply u8_small. simpl. lia.
        -- rewrite lookup_app_r by lia. replace (c - length str)%nat with 0%nat by lia.
           by rewrite (lookup_ge_None_2 str) by lia.
    + destruct (Hl j str' ltac:(lia) Hj') as [H1 H2].
      destruct (aa_string _ _ _ _ Ha _ _ Hj') as (_ & Hlen' & _ & _). split.
      * rewrite PhysMem.load32_store32_ne by lia. rewrite <- H1.
        apply PhysMem.load32_ext. intros b Hb. rewrite PhysMem.load8_store_bytes by lia.
        by rewrite decide_False by lia.
      * intros c Hc. rewrite <- (H2 c Hc). rewrite PhysMem.load8_store32_ne by lia.
        rewrite PhysMem.load8_store_bytes by lia. by rewrite decide_False by lia.
  - intros a Hna. rewrite PhysMem.load8_store32_ne by lia.
    rewrite PhysMem.load8_store_bytes by lia. rewrite decide_False by lia. by apply Ho.
Qed.

Lemma arg_block_loop_ok (s : St) A argv strs n : forall i m',
  args_at (phys s) A argv strs -> (i + n = length strs)%nat -> args_loaded (phys s) m' A strs i ->
  exists m2, arg_block_loop n (Z.of_nat i) (A + 20 + 32 * Z.of_nat i) A argv (with_mem m' s)
      = Ok (tt, with_mem m2 s) /\ args_loaded (phys s) m2 A strs (length strs).
Proof.
  induction n as [|n IH]; intros i m' Ha Hin Hl; cbn [arg_block_loop].
  { exists m'. split; [done|]. by replace (length strs) with i by lia. }
  destruct (lookup_lt_is_Some_2 strs i ltac:(lia)) as [str Hi].
  destruct (aa_string _ _ _ _ Ha _ _ Hi) as (Hstr & Hlen & Hend & Hc).
  pose proof (aa_block _ _ _ _ Ha) as HA. pose proof (aa_argc _ _ _ _ Ha) as H5.
  pose proof (aa_argv _ _ _ _ Ha) as Hv.
  set (p := PhysMem.load32 (phys s) (argv + 4 * Z.of_nat i)) in *.
  assert (Hp : 0 <= p) by apply PhysMem.load32_range.
  destruct (IH (S i) _ Ha ltac:(lia) (args_loaded_step _ _ _ _ _ _ _ Ha Hl Hi)) as (m2 & Hr & Hl2).
  exists m2. split; [|done]. apply wp_eq, wp_bind, wp_on_mem. unfold wp at 1.
  rewrite read_word_ok by lia. change (mem (k_alloc (fsys (with_mem m' s)))) with m'.
  assert (Hw : PhysMem.load32 m' (argv + 4 * Z.of_nat i) = p).
  { apply PhysMem.load32_ext. intros b Hb. apply Hl, (aa_argv_apart _ _ _ _ Ha). lia. }
  rewrite Hw. apply wp_bind. unfold wp at 1. rewrite (pstrcpy_ok _ _ _ str); [|lia|lia|lia|lia|done| |].
  - apply wp_bind, wp_on_mem. unfold wp at 1. rewrite write_word_ok by lia.
    assert (Ht : translate_arg_block_addr_to_userspace_addr (A + 20 + 32 * Z.of_nat i) A
      = COMMAND_LINE_ARG_VIRTUAL_ADDR + 20 + 32 * Z.of_nat i).
    { unfold translate_arg_block_addr_to_userspace_addr, COMMAND_LINE_ARG_VIRTUAL_ADDR.
      destruct (Z.ltb_spec (A + 20 + 32 * Z.of_nat i) A); [lia|].
      rewrite (u32_small (_ - A)) by lia. rewrite u32_small by lia. lia. }
    rewrite Ht. change MAX_CMMD_ARG_LEN with 32.
    rewrite u32_small by lia.
    replace (A + 20 + 32 * Z.of_nat i + 32) with (A + 20 + 32 * Z.of_nat (S i)) by lia.
    replace (Z.of_nat i + 1) with (Z.of_nat (S i)) by lia.
    unfold wp at 1. 
    match goal with |- context [arg_block_loop _ _ _ _ _ ?st] => 
      change st with (with_mem (PhysMem.store32 (PhysMem.store_bytes m' (A + 20 + 32 * Z.of_nat i) (str ++ [0]))
       (A + 4 * Z.of_nat i) (COMMAND_LINE_ARG_VIRTUAL_ADDR + 20 + 32 * Z.of_nat i)) s) end.
    by rewrite Hr.
  - intros c Hc'. change (phys (with_kmem _ (with_mem m' s))) with m'.
    destruct (Hc c Hc') as [<- Hna]. by apply Hl.
  - destruct (decide (p + Z.of_nat (length str) < A + 20 + 32 * Z.of_nat i)); [by left|].
    destruct (decide (A + 20 + 32 * Z.of_nat i + Z.of_nat (length str) < p)); [by right|].
    destruct (decide (p <= A + 20 + 32 * Z.of_nat i)).
    + destruct (Hc (Z.to_nat (A + 20 + 32 * Z.of_nat i - p))) as [_ Hna]; [lia|]. destruct Hna. lia.
    + destruct (Hc 0%nat) as [_ Hna]; [lia|]. destruct Hna. lia.
Qed.

Lemma load_arg_block_ok (s : St) (A argv : Z) (strs : list (list Z)) : args_at (phys s) A argv strs ->
  exists m', load_arg_block A (Z.of_nat (length strs)) argv s = Ok (tt, with_mem m' s) /\
    args_loaded (phys s) m' A strs (length strs).
Proof.
  intros Ha. destruct (arg_block_loop_ok s A argv strs (length strs) 0 (phys s) Ha eq_refl) as (m' & Hr & Hl).
  { split; [intros i str Hi; lia|done]. }
  exists m'. pose proof (aa_block _ _ _ _ Ha). split; [|exact Hl].
  unfold load_arg_block. rewrite Nat2Z.id, u32_small by (change MAX_NUM_ARGS with 5; lia).
  change (Z.of_nat 0) with 0 in Hr. rewrite Z.mul_0_r, Z.add_0_r in Hr.
  change (4 * MAX_NUM_ARGS) with 20.
  replace (with_mem (phys s) s) with s in Hr by (by destruct s as [[[]]]). exact Hr.
Qed.

(** C28 (functional): command-line arguments reach the new process.  For at
    most five arguments of at most 31 characters, [load_arg_block] leaves in
    word [i] of the block the address, as the process will see it, of a copy of
    argument [i], and at that place of the block the characters and the
    terminator; no byte outside the 180 bytes of the block changes. *)
Theorem load_arg_block_spec (s : St) (A argv : Z) (strs : list (list Z))
    (Ha : args_at (phys s) A argv strs) :
  exists m', load_arg_block A (Z.of_nat (length strs)) argv s = Ok (tt, with_mem m' s) /\
    (forall i str, strs !! i = Some str ->
       PhysMem.load32 m' (A + 4 * Z.of_nat i) = COMMAND_LINE_ARG_VIRTUAL_ADDR + 20 + 32 * Z.of_nat i /\
       forall c, (c <= length str)%nat ->
         PhysMem.load8 m' (A + 20 + 32 * Z.of_nat i + Z.of_nat c) = default 0 (str !! c)) /\
    (forall a, ~ (A <= a < A + 180) -> PhysMem.load8 m' a = PhysMem.load8 (phys s) a).
Proof.
  destruct (load_arg_block_ok s A argv strs Ha) as (m' & Hr & Hl & Ho). exists m'. split; [exact Hr|]. split; [|exact Ho].
  intros i str Hi. apply Hl; [by eapply lookup_lt_Some|done].
Qed.

End Arguments.

(** ** Witnesses *)

(** The process of [small_state]'s task, with its first allocation. *)
Definition small_process (a : process_mem_allocation) : process :=
  with_alloc 0 a (set_p_task 4096 zero_process).
Definition process_state (k : kmem) (x : process) : sys unit :=
  set_procs {[ 100 := x ]} (with_kmem k small_state).

Lemma small_user_process k x :
  (forall a, ~ in_free (KMem fresh_heap small_memory) a -> PhysMem.load8 (mem k) a = PhysMem.load8 small_memory a) ->
  (forall a, in_free k a -> in_free (KMem fresh_heap small_memory) a) -> p_task x = 4096 ->
  user_process (process_state k x) 100 x 0x1ff000 0x200000.
Proof.
  intros Hm Hf Hx. pose proof small_task as Ht.
  assert (Hu : user_process (process_state (k_alloc (fsys small_state)) x) 100 x 0x1ff000 0x200000).
  { split; [done| |exact (ut_wf _ _ _ _ _ Ht)|exact (ut_owned _ _ _ _ _ Ht)].
    rewrite Hx. apply (ut_task _ _ _ _ _ Ht). }
  destruct (user_tables_kept _ _ _ _ _ (mem k) Hu Hm) as (Hwf & _ & Hin).
  split; [done|apply (up_task _ _ _ _ _ Hu)|done|].
  intros a Ha Hfr. apply (up_owned _ _ _ _ _ Hu a); [|exact (Hf _ Hfr)].
  change (phys (process_state k x)) with (mem k) in Ha. by rewrite Hin in Ha.
Qed.

Lemma boot_run : Heap.free_run (Heap.entries (Heap.table fresh_heap)) 0 1.
Proof. intros j Hj. exists 0. replace j with 0%nat by lia. split; reflexivity. Qed.

Lemma small_slot : first_slot (fun a => ma_ptr a = 0) (mem_allocs (small_process (MemAllocation 0 0))) 0.
Proof. split; [by exists (MemAllocation 0 0)|]. lia. Qed.

Lemma process_malloc_spec_witness : exists ptr s',
  process_malloc_syscall_handler 100 10
    (process_state (KMem fresh_heap small_memory) (small_process (MemAllocation 0 0))) = Ok (ptr, s') /\
  ptr <> 0 /\ pte (phys s') 0x200000 ptr = ptr + 7.
Proof.
  set (x := small_process (MemAllocation 0 0)).
  set (s := process_state (KMem fresh_heap small_memory) x).
  assert (Hu : user_process s 100 x 0x1ff000 0x200000) by (apply small_user_process; done).
  destruct (process_malloc_spec s 100 0x1ff000 0x200000 10 x ∅ 0 Hu (boot_heap_rep _) ltac:(lia) boot_run)
    as [H _].
  destruct (H 0%nat small_slot) as (ptr & k' & Hr & H0 & _ & Hrep & _ & _ & _ & Hpte).
  assert (Hp : page ptr /\ ptr < 4294967296).
  { destruct Hrep as (B & Hrep & HL & Hlow). pose proof (lookup_insert_eq ∅ ptr 1%nat) as E.
    change (Heap.blocks_for 10) with 1%nat in HL. rewrite HL in E. unfold live_addrs in E.
    apply lookup_kmap_Some in E as (b & -> & Hb); [|apply _].
    pose proof (Heap.rep_live _ _ Hrep _ _ Hb) as [_ Hc].
    pose proof (Heap.chain_at_bound _ _ _ Nat.lt_0_1 Hc) as Hbd.
    pose proof (Heap.rep_ok _ _ Hrep) as Hok.
    pose proof (block_addr_range _ b Hok ltac:(lia)) as [Hr' _].
    pose proof (block_addr_aligned (kernel_heap k') b Hok). unfold page, HEAP_BLOCK_SIZE in *. lia. }
  exists ptr, (set_procs (<[100 := with_alloc 0 (MemAllocation ptr 10) x]> (procs s)) (with_kmem k' s)).
  split; [exact Hr|]. split; [exact H0|]. etrans; [exact (Hpte ptr (proj1 Hp))|].
  rewrite bool_decide_true; [reflexivity|]. change (Z.of_nat (Heap.blocks_for 10)) with 1. lia.
Defined.

Lemma process_live : exists ptr k, kmem_rep k {[ ptr := 1%nat ]} /\ page ptr /\ ptr <> 0 /\
  ptr + 10 <= 2147483648 /\
  user_process (process_state k (small_process (MemAllocation ptr 10))) 100
    (small_process (MemAllocation ptr 10)) 0x1ff000 0x200000.
Proof.
  destruct (kzalloc_run (KMem fresh_heap small_memory) ∅ 10 0 (boot_heap_rep _) ltac:(lia) boot_run)
    as (ptr & k & _ & Hrep & _ & Hpos & Hend & Hal & Hrange & Hfree & Hload).
  exists ptr, k. split; [exact Hrep|].
  split; [unfold page, HEAP_BLOCK_SIZE in *; lia|]. split; [lia|]. split; [lia|].
  apply small_user_process; [|exact Hfree|done]. intros a Ha. rewrite Hload, bool_decide_false; [done|].
  intros Hin. apply Ha, Hrange. change (Heap.blocks_for 10) with 1%nat. unfold HEAP_BLOCK_SIZE. lia.
Qed.

Lemma small_allocs a b : b ∈ mem_allocs (small_process a) -> b = a \/ b = MemAllocation 0 0.
Proof.
  unfold small_process, with_alloc, set_mem_allocs. cbn [mem_allocs].
  change (mem_allocs (set_p_task 4096 zero_process))
    with (replicate (Z.to_nat PROCESS_MAX_ALLOCATIONS) (MemAllocation 0 0)).
  intros [j Hj]%list_elem_of_lookup_1.
  apply list_lookup_insert_Some in Hj as [(_ & <- & _)|[_ Hj]]; [by left|right].
  by apply lookup_replicate in Hj as [-> _].
Qed.

Lemma process_free_spec_witness : exists ptr k s',
  let s := process_state k (small_process (MemAllocation ptr 10)) in
  process_free_syscall_handler 100 ptr s = Ok (tt, s') /\ kmem_rep (k_alloc (fsys s')) ∅ /\
  process_free_syscall_handler 100 0x123456 s = Ok (tt, s).
Proof.
  destruct process_live as (ptr & k & Hrep & Hp & H0 & Hend & Hu).
  set (x := small_process (MemAllocation ptr 10)) in *.
  destruct (process_free_spec (process_state k x) 100 0x1ff000 0x200000 ptr x {[ ptr := 1%nat ]} Hu Hrep)
    as (_ & H & _).
  destruct (H 0%nat 10 1%nat) as (k' & Hr & Hrep' & _);
    [split; [by exists (MemAllocation ptr 10)|lia]|reflexivity|apply lookup_singleton_eq|exact Hp|lia|exact Hend|].
  destruct (process_free_spec (process_state k x) 100 0x1ff000 0x200000 0x123456 x {[ ptr := 1%nat ]} Hu Hrep)
    as (H' & _ & _).
  exists ptr, k, (set_procs (<[100 := with_alloc 0 (MemAllocation 0 0) x]> (procs (process_state k x)))
    (with_kmem k' (process_state k x))).
  split; [exact Hr|]. split; [by rewrite delete_singleton_eq in Hrep'|]. apply H'.
  intros a [->| ->]%small_allocs; [|done]. cbn [ma_ptr]. intros ->. by destruct Hp as [_ Hp].
Defined.

(** Two arguments, "ls" and "x", at 0x800100 and 0x800140. *)
Definition args_memory : gmap Z Z :=
  PhysMem.store_bytes (PhysMem.store_bytes
    (PhysMem.store32 (PhysMem.store32 ∅ 0x800000 0x800100) 0x800004 0x800140)
    0x800100 [108; 115; 0]) 0x800140 [120; 0].

Lemma load_arg_block_spec_witness : exists m',
  load_arg_block 0x900000 2 0x800000 (with_mem args_memory small_state) = Ok (tt, with_mem m' small_state) /\
  PhysMem.load32 m' 0x900004 = 0x2000034 /\ PhysMem.load8 m' 0x900034 = 120.
Proof.
  assert (H : args_at args_memory 0x900000 0x800000 [[108; 115]; [120]]).
  { split; [lia|simpl; lia|simpl; lia|simpl; lia|].
    intros [|[|i]] str Hi; simpl in Hi; simplify_eq; cbn zeta;
      [change (PhysMem.load32 _ _) with 0x800100|change (PhysMem.load32 _ _) with 0x800140];
      (split; [repeat constructor; unfold CString.char_byte; lia|]; split; [simpl; lia|];
       split; [simpl; lia|]); intros [|[|[|c]]] Hc; simpl in Hc; try lia;
      (split; [reflexivity|lia]). }
  destruct (load_arg_block_spec (with_mem args_memory small_state) 0x900000 0x800000 [[108; 115]; [120]] H)
    as (m' & Hr & Hs & _).
  exists m'. split; [exact Hr|]. destruct (Hs 1%nat [120] eq_refl) as [H1 H2].
  split; [exact H1|]. exact (H2 0%nat ltac:(simpl; lia)).
Defined.

(** A sixth argument does not fit: its pointer overwrites the first argument. *)
Definition six_args_memory : gmap Z Z :=
  PhysMem.store_bytes (foldr (fun i m => PhysMem.store32 m (0x800000 + 4 * i) 0x800100) ∅ (seqZ 0 6))
    0x800100 [108; 115; 0].

Example six_arguments :
  match load_arg_block 0x900000 6 0x800000 (with_mem six_args_memory small_state) with
  | Ok (_, s') => PhysMem.bytes_at (phys s') 0x900014 3
  | _ => []
  end = [180; 0; 0].
Proof. vm_compute. reflexivity. Qed.

(** An argument of 32 characters, as long as [isr80h_command_6_execve] passes them on,
    does not fit its slot either: the terminator of the fifth one is written behind the
    180 bytes of the block. *)
Definition long_args_memory : gmap Z Z :=
  PhysMem.store8 (PhysMem.store_bytes (foldr (fun i m => PhysMem.store32 m (0x800000 + 4 * i) 0x800100) ∅ (seqZ 0 5))
    0x800100 (replicate 32 97 ++ [0])) (0x900000 + 180) 7.

Example long_arguments :
  match load_arg_block 0x900000 5 0x800000 (with_mem long_args_memory small_state) with
  | Ok (_, s') => (PhysMem.load8 long_args_memory (0x900000 + 180), PhysMem.load8 (phys s') (0x900000 + 180))
  | _ => (0, 0)
  end = (7, 0).
Proof. vm_compute. reflexivity. Qed.

(** A process that frees the null pointer brings the kernel down. *)
Example free_null_faults :
  process_free_syscall_handler 100 0
    (process_state (KMem fresh_heap small_memory) (small_process (MemAllocation 0 0))) = Fault.
Proof. vm_compute. reflexivity. Qed.

End ProcessProofs.
