(* ===== verification/LoadProofs.v ===== *)
(** * Loading a program, proved: the file

    [elf_file_init] through every layer: the file is found and read by the
    file-system stack into a buffer of the kernel heap, and checked by the ELF
    loader.  The file-system stack runs at the view of [HeapViews], so that what
    the other components have on the heap is known to stay as it is. *)
From stdpp Require Import base gmap list numbers strings.
From S2P Require Import Prelude Config CString Heap PhysMem KernelHeap HeapViews Paging KState Disk PParser Fat16 Fat16Proofs Vfs VfsProofs Terminal Idt Keyboard System Elf ElfProofs Task UserMemory Process.
#[local] Open Scope Z_scope.

Module LoadProofs.
Import KernelHeap HeapViews Paging KState System Elf ElfProofs Task Process.

Section Load.
Context {D : Type} {Po : PortIO D} {Ad : AtaDrive D}.
#[local] Abbreviation St := (sys D).
#[local] Abbreviation view L0 m0 r := (guarded_view L0 m0 r).

(** ** The file *)

(** A mounted volume with the file [nm] at index [k] of its root directory, and
    the table of open files [T] with a free slot [i]. *)
Context (img : list Z) (p : Z) (fp : fat_private) (entries : list Z) (base ext : nat -> list Z)
  (nm : list Z) (k : nat) (T : list Z) (i : nat).

#[local] Abbreviation raw := (take 32 (drop (32 * k) entries)).
#[local] Abbreviation root_addr := (fd_entry (root_directory fp)).

(** The bytes of the file. *)
Definition file : list Z :=
  Disk.extent img (Fat16Proofs.cluster_pos fp (Fat16.fat16_get_first_cluster raw)) (Fat16.filesize raw).

Record listed : Prop := {
  ls_index : (k < Z.to_nat (fd_total (root_directory fp)))%nat;
  ls_length : (32 * k + 32 <= length entries)%nat;
  ls_names j : (j < Z.to_nat (fd_total (root_directory fp)))%nat ->
    Fat16Proofs.reads_as (drop (32 * j) entries) (base j) (ext j);
  ls_match j : (j < Z.to_nat (fd_total (root_directory fp)))%nat ->
    (CString.lower <$> Fat16Proofs.display (base j) (ext j) = CString.lower <$> nm <-> j = k);
  ls_file : Z.land (Fat16.attribute (drop (32 * k) entries)) Fat16.FAT_FILE_SUBDIRECTORY = 0;
  ls_name : Forall CString.char_byte nm /\ (length nm < 128)%nat;
  ls_cluster : Fat16Proofs.cluster_ok img fp (Fat16.fat16_get_first_cluster raw);
  ls_size : 0 < Fat16.filesize raw <= Fat16Proofs.cluster_size fp /\ Fat16.filesize raw < 2147483648;
  ls_slot : Vfs.free_slot T 0 = Some i /\ (i < 512)%nat
}.

(** The state of the file-system stack between the steps: the allocations [L] are
    its own, [L0] those of others, and [r] blocks are free at the end of the heap. *)
Record ready (f : kst kmem D) (L L0 : gmap Z nat) (r : nat) : Prop := {
  rd_rep : guarded_rep L0 (mem (k_alloc f)) r (k_alloc f) L;
  rd_objs : dom (objs f) ⊆ dom L;
  rd_mounted : Fat16Proofs.mounted img p fp f;
  rd_driver : d_filesystem (the_disk f) = Fat16.fat16_fs;
  rd_root : objs f !! root_addr = Some (to_obj entries);
  rd_table : file_descriptors f = T
}.

Hypothesis Hlisted : listed.

Lemma slot_facts : (i < length T)%nat /\ T !! i = Some 0.
Proof.
  destruct Hlisted as [_ _ _ _ _ _ _ _ [Hs _]]. pose proof (VfsProofs.free_slot_spec T 0) as H. rewrite Hs in H.
  destruct H as (H1 & H2 & _). rewrite Nat.sub_0_r in H2. split; [lia|done].
Qed.

Lemma guarded_weaken L0 m0 r r' kk L : (r' <= r)%nat -> guarded_rep L0 m0 r kk L -> guarded_rep L0 m0 r' kk L.
Proof. intros Hr [H1 H2 H3 H4]. constructor; [done|done|done|lia]. Qed.

(** The view's guard taken from the state itself. *)
Lemma ready_live f L L0 r r' : ready f L L0 r -> (r' <= r)%nat ->
  @live kmem D (view L0 (mem (k_alloc f)) r') f L.
Proof. intros [H1 H2 _ _ _ _] Hr. split; [by eapply guarded_weaken|done]. Qed.

Lemma ready_root_file f L L0 r : ready f L L0 r -> VfsProofs.root_file fp f entries nm k.
Proof.
  intros [_ _ _ _ Hr _]. destruct Hlisted as [? ? ? ? ? [? ?] _ _ _].
  by eapply (VfsProofs.lists_root_file fp f entries base ext nm k).
Qed.

(** Another component allocates. *)
Lemma ready_alloc f L L0 r k' q size :
  ready f L L0 r -> new_block (k_alloc f) k' (L ∪ L0) q size -> 0 < size <= 4294963200 ->
  (Heap.blocks_for size <= r)%nat ->
  ready (set_heap f k' (objs f)) L (<[q := Heap.blocks_for size]> L0) (r - Heap.blocks_for size) /\
  guarded L0 (mem (k_alloc f)) (mem k').
Proof.
  intros [H1 H2 H3 H4 H5 H6] Hb Hs Hr. destruct (guarded_rep_guard _ _ _ _ _ _ _ _ H1 Hb Hs Hr) as [G1 G2].
  split; [|done]. constructor; [exact G1|exact H2| |exact H4|exact H5|exact H6].
  by destruct H3.
Qed.

(** Another component allocates in several steps. *)
Lemma ready_extend f L L0 r r' k' L' :
  ready f L L0 r -> kmem_rep k' L' -> L ∪ L0 ⊆ L' -> (r' <= reserve k')%nat ->
  ready (set_heap f k' (objs f)) L (L' ∖ L) r' /\ L0 ⊆ L' ∖ L.
Proof.
  intros [[G1 G2 G3 G4] R2 R3 R4 R5 R6] Hrep HL Hr.
  assert (HLL : L ⊆ L') by (etrans; [apply map_union_subseteq_l|exact HL]). split.
  - constructor; cbn [k_alloc set_heap objs the_disk file_descriptors]; try done; [|by destruct R3].
    constructor; [by rewrite map_difference_union|by apply map_disjoint_difference_r1|done|done].
  - apply map_subseteq_spec. intros q n Hq. apply lookup_difference_Some. split.
    + eapply lookup_weaken; [|exact HL]. by apply lookup_union_Some_r.
    + by eapply map_disjoint_Some_r.
Qed.

(** Another component writes to memory. *)
Lemma ready_write f L L0 r m : ready f L L0 r -> ready (set_heap f (set_mem (k_alloc f) m) (objs f)) L L0 r.
Proof.
  intros [[G1 G2 G3 G4] H2 H3 H4 H5 H6]. constructor; [|exact H2|by destruct H3|exact H4|exact H5|exact H6].
  constructor; [by destruct G1 as (B & ? & ? & ?); exists B|done|done|done].
Qed.

(** ** Opening, reading, closing *)

(** The file is open: the state of the stack with what [fopen] allocated. *)
Record reading (f0 f : kst kmem D) (L LP L0 : gmap Z nat) (r : nat) (fdp desc e c : Z) : Prop := {
  rg_opened : VfsProofs.opened (Av := view L0 (mem (k_alloc f)) r) img p fp raw i f0 f L LP fdp desc e c;
  rg_subset : L ⊆ LP
}.
#[local] Abbreviation held LP fdp desc e c :=
  (<[fdp := 1%nat]> (<[c := 1%nat]> (<[e := 1%nat]> (<[desc := 1%nat]> LP)))).

Lemma wp_fopen_file f L L0 r s0 junk (Q : Z -> kst kmem D -> Prop) :
  ready f L L0 (7 + r) -> Forall CString.char_byte s0 -> PParser.path_of s0 = Some (0, [nm]) ->
  (forall f' LP fdp desc e c, reading f f' L LP L0 r fdp desc e c ->
     guarded L0 (mem (k_alloc f)) (mem (k_alloc f')) -> Q (Z.of_nat i) f') ->
  wp (Vfs.fopen Vfs.kernel_driver (s0 ++ 0 :: junk) mode_r) f Q.
Proof.
  intros Hr Hb Hpath HQ. pose proof Hr as [G _ Hm Hd _ Ht]. pose proof (ready_root_file _ _ _ _ Hr) as Hroot.
  pose proof (ready_live _ _ _ _ r Hr ltac:(lia)) as Hl.
  assert (Hfree : @free_blocks kmem D (view L0 (mem (k_alloc f)) r) f = (7 + (free_total (k_alloc f) - r - 7))%nat).
  { unfold free_blocks. cbn [alloc_free guarded_view]. pose proof (reserve_le_free (k_alloc f)).
    pose proof (gr_reserve _ _ _ _ _ G). lia. }
  eapply (VfsProofs.fopen_ok (Aw := guarded_laws _ _ _) img p fp f L _ s0 junk nm [0] entries k i);
    [exact Hm|exact Hd|exact Hb|exact Hpath|exact Hroot|exact Hl|exact Hfree|rewrite Ht; apply Hlisted|].
  intros root ads fdp desc e c f' LP Ho HLP _. pose proof (VfsProofs.op_live _ _ _ _ _ _ _ _ _ _ _ _ _ Ho) as [Hg _].
  apply (HQ f' LP fdp desc e c); [|by apply Hg]. split; [|done].
  destruct Ho as [[[G1 G2 G3 G4] O1'] O2 O3 O4 O5 O6 O7 O8 O9 O10]. by split.
Qed.

(** The descriptor is used while others allocate and write. *)
Lemma reading_alloc f0 f L LP L0 r fdp desc e c k' q size :
  reading f0 f L LP L0 r fdp desc e c ->
  new_block (k_alloc f) k' (held LP fdp desc e c ∪ L0) q size -> 0 < size <= 4294963200 ->
  (Heap.blocks_for size <= r)%nat ->
  reading f0 (set_heap f k' (objs f)) L LP (<[q := Heap.blocks_for size]> L0) (r - Heap.blocks_for size) fdp desc e c /\
  guarded L0 (mem (k_alloc f)) (mem k').
Proof.
  intros [[[G O1] O2 O3 O4 O5 O6 O7 O8 O9 O10] HL] Hb Hs Hr.
  destruct (guarded_rep_guard _ _ _ _ _ _ _ _ G Hb Hs Hr) as [G1 G2].
  split; [|done]. split; [|done]. split; try done.
  - by destruct O4.
  - by destruct O7.
Qed.

Lemma reading_write f0 f L LP L0 r fdp desc e c m :
  reading f0 f L LP L0 r fdp desc e c ->
  reading f0 (set_heap f (set_mem (k_alloc f) m) (objs f)) L LP L0 r fdp desc e c.
Proof.
  intros [[[[G1 G2 G3 G4] O1] O2 O3 O4 O5 O6 O7 O8 O9 O10] HL]. split; [|done]. split; try done.
  - by destruct O4.
  - by destruct O7.
Qed.

Lemma wp_fstat_file f0 f L LP L0 r fdp desc e c (Q : Z * file_stat -> kst kmem D -> Prop) :
  reading f0 f L LP L0 r fdp desc e c -> file_descriptors f0 = T ->
  (forall flags, Q (0, FileStat flags (Fat16.filesize raw)) f) ->
  wp (Vfs.fstat Vfs.kernel_driver (Z.of_nat i) (FileStat 0 0)) f Q.
Proof.
  intros [Ho _] HT HQ. destruct slot_facts as [Hi _].
  eapply (VfsProofs.fstat_ok (Av := view L0 (mem (k_alloc f)) r)); [exact Ho|apply Hlisted|by rewrite HT|exact HQ].
Qed.

Lemma wp_fread_file f0 f L LP L0 r fdp desc e c out (Q : Z * list Z -> kst kmem D -> Prop) :
  reading f0 f L LP L0 r fdp desc e c -> file_descriptors f0 = T ->
  Z.of_nat (length out) = Fat16.filesize raw ->
  (forall f', Fat16Proofs.moved img fp f f' -> Q (1, file) f') ->
  wp (Vfs.fread Vfs.kernel_driver out (Fat16.filesize raw) 1 (Z.of_nat i)) f Q.
Proof.
  intros [Ho _] HT Hout HQ. destruct slot_facts as [Hi _]. destruct Hlisted as [_ _ _ _ _ _ Hc [Hsz Hsz2] [_ Hi5]].
  eapply (VfsProofs.fread_ok (Av := view L0 (mem (k_alloc f)) r)); [exact Ho|exact Hi5|by rewrite HT|exact Hc|lia|lia|lia|lia|].
  intros f' Hmv. rewrite Z.mul_1_l, <- Hout, Nat2Z.id, drop_all, app_nil_r, Hout. by apply HQ.
Qed.

(** Closing, after the drive and the streams have moved. *)
Lemma wp_fclose_file f0 f f1 L L1 LP L0 r rr fdp desc e c (Q : Z -> kst kmem D -> Prop) :
  ready f0 L L1 rr -> reading f0 f L LP L0 r fdp desc e c ->
  Fat16Proofs.moved img fp f f1 ->
  (forall f' LQ, ready f' LQ L0 r -> L ⊆ LQ -> guarded L0 (mem (k_alloc f)) (mem (k_alloc f')) -> Q 0 f') ->
  wp (Vfs.fclose Vfs.kernel_driver (Z.of_nat i)) f1 Q.
Proof.
  intros [R1 R2 R3 R4 R5 R6] [Ho HLP] Hmv HQ.
  destruct slot_facts as [Hi Hi0].
  eapply (VfsProofs.fclose_ok (Aw := guarded_laws _ _ _)); [exact Ho|exact Hmv|exact HLP|apply Hlisted|by rewrite R6|].
  intros f' [G Hl] _ Ht Hm Hd Hk. apply (HQ f' LP); [|exact HLP|apply G].
  assert (Hroot : is_Some (L !! root_addr)).
  { apply elem_of_dom, R2, elem_of_dom. by eexists. }
  destruct Hroot as [n Hn]. constructor.
  - destruct G as [G1 G2 G3 G4]. by constructor.
  - exact Hl.
  - exact Hm.
  - by rewrite Hd.
  - rewrite (Hk _ _ Hn); [exact R5|]. eapply Fat16Proofs.not_stream; [exact R3|exact R5|done].
  - by rewrite Ht.
Qed.

(** ** The executable *)

(** The file at address 0 of a memory of its own: the headers are read there. *)
Definition image : gmap Z Z := PhysMem.store_bytes ∅ 0 file.

(** The memory [m] holds the file at [buf]. *)
Definition file_at (m : gmap Z Z) (buf : Z) : Prop :=
  forall a, 0 <= a < Fat16.filesize raw -> PhysMem.load8 m (buf + a) = PhysMem.load8 image a.

#[local] Abbreviation size := (Fat16.filesize raw).
#[local] Abbreviation blocks := (Heap.blocks_for size).

Lemma length_file : Z.of_nat (length file) = size.
Proof.
  destruct Hlisted as [_ _ _ _ _ _ [[Hr Hs] Hc He _ Hd] [Hz _] _]. unfold file. rewrite Disk.DiskProofs.length_extent; [lia| |lia|lia].
  unfold Fat16Proofs.cluster_pos. nia.
Qed.

Lemma file_at_store m buf : 0 <= buf -> buf + size <= 4294967296 -> file_at (PhysMem.store_bytes m buf file) buf.
Proof.
  intros H1 H2 a Ha. pose proof length_file as Hl. destruct Hlisted as [_ _ _ _ _ _ _ [_ Hz] _].
  unfold image. rewrite !PhysMem.load8_store_bytes by lia. rewrite !decide_True by lia.
  do 3 f_equal. lia.
Qed.

Lemma file_at_guarded m m' buf L0 : file_at m buf -> L0 !! buf = Some blocks -> guarded L0 m m' -> file_at m' buf.
Proof.
  intros H HL Hg a Ha. rewrite (Hg buf blocks); [by apply H|done|].
  destruct Hlisted as [_ _ _ _ _ _ _ [Hz Hz2] _]. pose proof (blocks_for_bounds size ltac:(lia)) as (_ & Hb & _).
  unfold HEAP_BLOCK_SIZE. lia.
Qed.

Lemma file_load32 m buf a : file_at m buf -> 0 <= a -> a + 4 <= size -> PhysMem.load32 m (buf + a) = PhysMem.load32 image a.
Proof. intros H H0 H1. unfold PhysMem.load32. rewrite <- !Z.add_assoc, !H by lia. done. Qed.
Lemma file_load16 m buf a : file_at m buf -> 0 <= a -> a + 2 <= size -> PhysMem.load16 m (buf + a) = PhysMem.load16 image a.
Proof. intros H H0 H1. unfold PhysMem.load16. rewrite <- !Z.add_assoc, !H by lia. done. Qed.

(** An acceptable executable: its header and its table of program headers are in
    the file. *)
Record executable : Prop := {
  ex_valid : valid_header image 0;
  ex_header : 52 <= size;
  ex_table : e_phoff image 0 + 32 * e_phnum image 0 <= size
}.

Hypothesis Hexec : executable.

Lemma valid_in_memory m buf : file_at m buf -> 0 <= buf -> buf + size <= 4294967296 -> valid_header m buf.
Proof.
  intros H H0 H1. destruct Hexec as [(V1 & V2 & V3 & V4 & V5) Hh _].
  assert (Hid : forall j, 0 <= j < 16 -> e_ident m buf j = e_ident image 0 j).
  { intros j Hj. unfold e_ident. rewrite !u32_small by lia. apply H. lia. }
  split; [|split_and!].
  - rewrite <- V1. apply list_eq. intros j. destruct (decide (j < 4)%nat) as [Hj|Hj].
    + rewrite !PhysMem.lookup_bytes_at by done. f_equal. exact (Hid (Z.of_nat j) ltac:(lia)).
    + rewrite !lookup_ge_None_2 by (rewrite PhysMem.length_bytes_at; lia). done.
  - by rewrite Hid by lia.
  - by rewrite Hid by lia.
  - unfold e_type. by rewrite (file_load16 m buf 16) by (done || lia).
  - unfold e_phoff. by rewrite (file_load32 m buf 28) by (done || lia).
Qed.

(** An allocation from the blocks at the end of the heap. *)
Lemma wp_on_kzalloc (s : St) L n (Q : Z -> St -> Prop) :
  kmem_rep (k_alloc (fsys s)) L -> 0 < n <= 4294963200 -> (Heap.blocks_for n <= reserve (k_alloc (fsys s)))%nat ->
  (forall q k', new_block (k_alloc (fsys s)) k' L q n -> Q q (with_kmem k' s)) -> wp (on_mem (kzalloc n)) s Q.
Proof.
  intros Hrep Hn Hr HQ. destruct (kzalloc_reserve _ _ n Hrep Hn Hr) as (q & k' & Hz & Hb).
  apply wp_on_mem. eapply wp_of_run; [exact Hz|]. by apply HQ.
Qed.

Lemma wp_ready_alloc (s : St) L L0 r n (Q : Z -> St -> Prop) :
  ready (fsys s) L L0 r -> 0 < n <= 4294963200 -> (Heap.blocks_for n <= r)%nat ->
  (forall q k', new_block (k_alloc (fsys s)) k' (L ∪ L0) q n ->
     ready (set_heap (fsys s) k' (objs (fsys s))) L (<[q := Heap.blocks_for n]> L0) (r - Heap.blocks_for n) ->
     guarded L0 (phys s) (mem k') -> Q q (with_kmem k' s)) -> wp (on_mem (kzalloc n)) s Q.
Proof.
  intros Hr Hn Hb HQ. pose proof (rd_rep _ _ _ _ Hr) as G. eapply (wp_on_kzalloc s (L ∪ L0)); [apply G|done| |].
  - pose proof (gr_reserve _ _ _ _ _ G). lia.
  - intros q k' Hnb. destruct (ready_alloc _ _ _ _ _ _ _ Hr Hnb Hn Hb) as [R1 R2]. by apply HQ.
Qed.

Lemma moved_with (f f' : kst kmem D) kk : Fat16Proofs.moved img fp f f' ->
  Fat16Proofs.moved img fp (set_heap f kk (objs f)) (set_heap f' kk (objs f')).
Proof. intros [M1 M2 M3 M4]. split; [by rewrite M1|done|done|done]. Qed.

(** [fread] of the whole file into a buffer of its size. *)
Lemma wp_fread_into f0 L LP L0 r fdp desc e c (s : St) buf (Q : Z -> St -> Prop) :
  reading f0 (fsys s) L LP L0 r fdp desc e c -> file_descriptors f0 = T -> 0 < buf -> buf + size <= 2147483648 ->
  (forall f1 m, m = PhysMem.store_bytes (phys s) buf file ->
     reading f0 (set_heap (fsys s) (set_mem (k_alloc (fsys s)) m) (objs (fsys s))) L LP L0 r fdp desc e c ->
     Fat16Proofs.moved img fp (set_heap (fsys s) (set_mem (k_alloc (fsys s)) m) (objs (fsys s))) f1 ->
     Q 1 (set_fsys f1 s)) ->
  wp (fread_into buf size 1 (Z.of_nat i)) s Q.
Proof.
  intros Hg HT Hb1 Hb2 HQ. unfold fread_into. rewrite (proj2 (Z.eqb_neq buf 0)) by lia. cbn [andb].
  apply wp_bind, wp_gets, wp_bind, wp_on_fs. rewrite Z.mul_1_r. pose proof (ls_size Hlisted) as [Hz _].
  eapply wp_fread_file; [exact Hg|exact HT|rewrite PhysMem.length_bytes_at; lia|].
  intros f1 Hmv. apply wp_bind, wp_on_mem, wp_modify, wp_ret.
  assert (Hk : k_alloc f1 = k_alloc (fsys s)) by (by rewrite (Fat16Proofs.mv_same _ _ _ _ Hmv)).
  assert (Hs : with_kmem (KMem (kernel_heap (k_alloc f1)) (PhysMem.store_bytes (mem (k_alloc f1)) buf file)) (set_fsys f1 s) =
    set_fsys (set_heap f1 (set_mem (k_alloc (fsys s)) (PhysMem.store_bytes (phys s) buf file)) (objs f1)) s).
  { unfold with_kmem. cbn [fsys set_fsys]. rewrite Hk. reflexivity. }
  cbn [k_alloc fsys set_fsys] in *. rewrite Hs. eapply HQ; [reflexivity|by apply reading_write|by apply moved_with].
Qed.

(** ** [elf_file_init] *)

(** The two allocations that remain: the struct [e] and the buffer [buf]. *)
#[local] Abbreviation with_file L0 e buf := (<[buf := blocks]> (<[e := 1%nat]> L0)).

(** The buffer's memory was free, so that of others is unchanged when it is filled. *)
Lemma guarded_store f0 f L LP L0 r fdp desc e c k' buf :
  reading f0 f L LP L0 r fdp desc e c ->
  new_block (k_alloc f) k' (held LP fdp desc e c ∪ L0) buf size ->
  guarded L0 (mem (k_alloc f)) (PhysMem.store_bytes (mem k') buf file).
Proof.
  intros [[[G _] _ _ _ _ _ _ _ _ _] _] Hnb. pose proof (ls_size Hlisted) as [Hz Hz2]. pose proof length_file as Hlf.
  pose proof (nb_range _ _ _ _ _ Hnb) as (Hb0 & Hb1 & _). pose proof (blocks_for_bounds size ltac:(lia)) as (_ & Hbs & _).
  unfold HEAP_BLOCK_SIZE in Hb1.
  apply (guarded_extends _ _ _ _ _ (set_mem k' (PhysMem.store_bytes (mem k') buf file)) G). intros a Ha. cbn [mem set_mem].
  rewrite PhysMem.load8_store_bytes by lia. rewrite decide_False.
  - rewrite (nb_load _ _ _ _ _ Hnb), bool_decide_false; [done|]. intros Hin.
    by apply Ha, (nb_size _ _ _ _ _ Hnb ltac:(lia)).
  - intros Hin. apply Ha, (nb_size _ _ _ _ _ Hnb ltac:(lia)). lia.
Qed.

(** What [elf_file_init] leaves: the file in the buffer, everything else of others
    as it was. *)
Record file_loaded (f f' : kst kmem D) (L LQ L0 : gmap Z nat) (r : nat) (e buf : Z) : Prop := {
  fl_ready : ready f' LQ (with_file L0 e buf) r;
  fl_subset : L ⊆ LQ;
  fl_kept : guarded L0 (mem (k_alloc f)) (mem (k_alloc f'));
  fl_file : file_at (mem (k_alloc f')) buf;
  fl_fresh : L0 !! e = None /\ (<[e := 1%nat]> L0) !! buf = None;
  fl_range : page buf /\ 0 < buf /\ buf + HEAP_BLOCK_SIZE * Z.of_nat blocks <= 2147483648
}.

Lemma file_loaded_intro (f f2 f5 : kst kmem D) k1 k3 L LP LQ L0 L1 r e buf :
  new_block (k_alloc f) k1 (L ∪ L0) e sizeof_elf_file -> guarded L0 (mem (k_alloc f)) (mem k1) ->
  guarded (<[e := 1%nat]> L0) (mem k1) (mem (k_alloc f2)) ->
  new_block (k_alloc f2) k3 (LP ∪ <[e := 1%nat]> L0) buf size ->
  guarded (<[e := 1%nat]> L0) (mem (k_alloc f2)) (PhysMem.store_bytes (mem k3) buf file) ->
  guarded L1 (PhysMem.store_bytes (mem k3) buf file) (mem (k_alloc f5)) -> L1 = with_file L0 e buf ->
  ready f5 LQ L1 r -> L ⊆ LQ -> file_loaded f f5 L LQ L0 r e buf.
Proof.
  intros Hn1 H1 H2 Hn3 H3 H5 -> Hr HL.
  pose proof (nb_fresh _ _ _ _ _ Hn1) as [_ F1]%lookup_union_None.
  pose proof (nb_fresh _ _ _ _ _ Hn3) as [_ F3]%lookup_union_None.
  pose proof (nb_range _ _ _ _ _ Hn3) as (Hb0 & Hb1 & Hb2).
  pose proof (ls_size Hlisted) as [Hz Hz2]. pose proof (blocks_for_bounds size ltac:(lia)) as (_ & Hbs & _).
  unfold HEAP_BLOCK_SIZE in *. constructor; try done.
  - eapply guarded_trans; [exact H1|by apply insert_subseteq|]. eapply guarded_trans; [exact H2|done|].
    eapply guarded_trans; [exact H3|by apply insert_subseteq|exact H5].
  - eapply file_at_guarded; [|apply lookup_insert_eq|exact H5]. apply file_at_store; lia.
  - split; [|split; [done|done]]. unfold page. lia.
Qed.

Lemma wp_elf_file_init (s : St) L L0 r s0 junk (Q : Z * Z -> St -> Prop) :
  ready (fsys s) L L0 (8 + blocks + r) -> Forall CString.char_byte s0 -> PParser.path_of s0 = Some (0, [nm]) ->
  (forall f' LQ e ef buf, file_loaded (fsys s) f' L LQ L0 r e buf -> elf_file_buffer ef = buf ->
     Q (0, e) (set_elfs (<[e := ef]> (elfs s)) (set_fsys f' s))) ->
  wp (elf_file_init (s0 ++ 0 :: junk)) s Q.
Proof.
  intros Hr Hs0 Hpath HQ. pose proof (ls_size Hlisted) as [Hz Hz2]. unfold elf_file_init, alloc_elf.
  apply wp_bind, wp_bind. eapply wp_ready_alloc; [exact Hr|unfold sizeof_elf_file; lia|change (Heap.blocks_for sizeof_elf_file) with 1%nat; lia|].
  change (Heap.blocks_for sizeof_elf_file) with 1%nat. intros e k1 Hnb1 Hr1 Hg1.
  replace (8 + blocks + r - 1)%nat with (7 + (blocks + r))%nat in Hr1 by lia.
  pose proof (nb_range _ _ _ _ _ Hnb1) as (He0 & _ & _). rewrite (proj2 (Z.eqb_neq e 0)) by lia.
  apply wp_bind, wp_modify, wp_ret. rewrite (proj2 (Z.eqb_neq e 0)) by lia.
  set (s1 := set_elfs _ _). change (ready (fsys s1) L (<[e := 1%nat]> L0) (7 + (blocks + r))) in Hr1.
  apply wp_bind, wp_on_fs. eapply wp_fopen_file; [exact Hr1|exact Hs0|exact Hpath|].
  intros f2 LP fdp desc ee c Hrg Hg2. rewrite (proj2 (Z.ltb_ge (Z.of_nat i) 0)) by lia.
  pose proof (rd_table _ _ _ _ Hr1) as HT.
  apply wp_bind, wp_on_fs. eapply wp_fstat_file; [exact Hrg|exact HT|]. intros flags.
  change (0 <? 0) with false. cbv iota. cbn [st_filesize].
  apply wp_bind. destruct (VfsProofs.op_live _ _ _ _ _ _ _ _ _ _ _ _ _ (rg_opened _ _ _ _ _ _ _ _ _ _ Hrg)) as [G _].
  eapply (wp_on_kzalloc _ (held LP fdp desc ee c ∪ <[e := 1%nat]> L0)); [apply G|lia| |].
  { pose proof (gr_reserve _ _ _ _ _ G). cbn [fsys set_fsys]. lia. }
  intros buf k3 Hnb3. destruct (reading_alloc _ _ _ _ _ _ _ _ _ _ _ _ _ Hrg Hnb3 ltac:(lia) ltac:(lia)) as [Hrg3 _].
  replace (blocks + r - blocks)%nat with r in Hrg3 by lia.
  pose proof (guarded_store _ _ _ _ _ _ _ _ _ _ _ _ Hrg Hnb3) as Hg3.
  pose proof (nb_range _ _ _ _ _ Hnb3) as (Hb0 & Hb1 & Hb2). pose proof (blocks_for_bounds size ltac:(lia)) as (_ & Hbs & _).
  unfold HEAP_BLOCK_SIZE in Hb1, Hb2. cbn [fsys set_fsys] in Hg3, Hnb3.
  apply wp_bind. eapply wp_update_elf; [apply lookup_insert_eq|].
  set (s3' := set_elfs (<[e := ElfFile 0 buf 0 0 0 0]> (elfs s)) (set_fsys (set_heap f2 k3 (objs f2)) s)).
  match goal with |- wp _ ?s3 _ => replace s3 with s3' end.
  2:{ unfold s3'. rewrite <- (insert_insert_eq (elfs s) e (ElfFile 0 buf 0 0 0 0) zero_elf_file). reflexivity. }
  apply wp_bind. eapply (wp_fread_into (fsys s1) L LP _ r fdp desc ee c s3'); [exact Hrg3|exact HT|lia|lia|].
  intros f4 m Hm Hrg4 Hmv. change (negb (s32 1 =? 1)) with false. cbv iota.
  assert (Hfile : file_at m buf) by (rewrite Hm; apply file_at_store; lia).
  assert (Hk4 : k_alloc f4 = set_mem k3 m) by (by rewrite (Fat16Proofs.mv_same _ _ _ _ Hmv)).
  apply wp_bind. eapply wp_of_run.
  { apply (process_elf_file_ok _ e 0 buf); [cbn [elfs set_fsys s3' set_elfs]; apply lookup_insert_eq|lia|].
    unfold phys. cbn [fsys set_fsys]. rewrite Hk4. cbn [mem set_mem]. apply valid_in_memory; [exact Hfile|lia|lia]. }
  change (0 <? 0) with false. cbv iota. set (ef := after_headers _ _ _ _).
  apply wp_bind, wp_on_fs. cbn [fsys with_elf set_elfs set_fsys].
  eapply wp_fclose_file; [exact Hr1|exact Hrg4|exact Hmv|]. intros f5 LQ Hr5 HLQ Hg5. apply wp_ret.
  assert (HQ' : Q (0, e) (set_elfs (<[e := ef]> (elfs s)) (set_fsys f5 s))); [|unfold with_elf; cbn [elfs set_elfs set_fsys s3']; by rewrite insert_insert_eq].
  apply (HQ f5 LQ e ef buf); [|by unfold ef, after_headers; case_bool_decide].
  subst m. by eapply (file_loaded_intro (fsys s) f2 f5 k1 k3).
Qed.

End Load.

(** ** The geometry of a volume *)

(** The file depends on the header and the place of the root directory only, not
    on the addresses the driver allocated. *)
Record same_geometry (fp fp' : fat_private) : Prop := {
  sg_header : header fp = header fp';
  sg_total : fd_total (root_directory fp) = fd_total (root_directory fp');
  sg_end : fd_end_sector (root_directory fp) = fd_end_sector (root_directory fp')
}.

Section Geometry.
Context (img : list Z) (fp fp' : fat_private) (entries : list Z) (k : nat).
Hypothesis Hsame : same_geometry fp fp'.

Lemma cluster_geometry c : Fat16Proofs.cluster_pos fp c = Fat16Proofs.cluster_pos fp' c /\
  Fat16Proofs.cluster_size fp = Fat16Proofs.cluster_size fp' /\ Fat16Proofs.fat_pos fp c = Fat16Proofs.fat_pos fp' c.
Proof.
  destruct Hsame as [H1 H2 H3]. unfold Fat16Proofs.cluster_pos, Fat16Proofs.cluster_size, Fat16Proofs.fat_pos.
  by rewrite H1, H3.
Qed.

Lemma file_geometry : file img fp entries k = file img fp' entries k.
Proof. unfold file. by rewrite (proj1 (cluster_geometry _)). Qed.

Lemma image_geometry : image img fp entries k = image img fp' entries k.
Proof. unfold image. by rewrite file_geometry. Qed.

Lemma executable_geometry : executable img fp entries k -> executable img fp' entries k.
Proof. intros [H1 H2 H3]. rewrite image_geometry in *. by constructor. Qed.

Lemma listed_geometry base ext nm T i :
  listed img fp entries base ext nm k T i -> listed img fp' entries base ext nm k T i.
Proof.
  intros [H1 H2 H3 H4 H5 H6 [C1 C2 C3 C4 C5] H8 H9]. pose proof Hsame as [G1 G2 G3].
  rewrite G2 in *. destruct (cluster_geometry (Fat16.fat16_get_first_cluster (take 32 (drop (32 * k) entries)))) as (E1 & E2 & E3).
  rewrite E1, E2, E3, G1, G3 in *. by constructor.
Qed.

End Geometry.

End LoadProofs.
