(* ===== verification/LaunchProofs.v ===== *)
(** * Loading a program, proved: the task

    The page tables of a new process as lists of mappings, the task that is built
    for it and put in the list, and its stack. *)
From stdpp Require Import base gmap list numbers strings.
From S2P Require Import Prelude Config CString Heap PhysMem KernelHeap HeapViews Paging KState Disk PParser Fat16 Fat16Proofs Vfs VfsProofs Terminal Idt Keyboard System Elf ElfProofs Task UserMemory Process LoadProofs.
#[local] Open Scope Z_scope.

Module LaunchProofs.
Import KernelHeap HeapViews Paging KState System Elf ElfProofs Task UserMemory Process LoadProofs.

(** ** Address spaces *)

(** Consecutive pages, mapped to consecutive frames with the same flags. *)
Record mapping := Mapping { mp_va : Z; mp_pa : Z; mp_pages : Z; mp_flags : Z }.

Definition covers (mp : mapping) (va : Z) : Prop := mp_va mp <= va < mp_va mp + 4096 * mp_pages mp.
#[export] Instance covers_dec mp va : Decision (covers mp va).
Proof. unfold covers. apply _. Defined.

(** The entry of the page [va] after the mappings [maps], the last first, over
    tables that map every page to itself, for user mode and not writable. *)
Fixpoint entry (maps : list mapping) (va : Z) : Z :=
  match maps with
  | [] => va + 5
  | mp :: rest =>
      if bool_decide (covers mp va) then mp_pa mp + (va - mp_va mp) + mp_flags mp else entry rest va
  end.

Record mapping_ok (mp : mapping) : Prop := {
  mo_va : page (mp_va mp);
  mo_pa : page (mp_pa mp);
  mo_pages : 0 <= mp_pages mp;
  mo_end : mp_va mp + 4096 * mp_pages mp <= 4294967296 /\ mp_pa mp + 4096 * mp_pages mp < 4294967296;
  mo_flags : 0 <= mp_flags mp < 4096
}.

(** The tables at [pgd] hold [maps]; since [k0] nothing but the tables has changed. *)
Record space (k0 k : kmem) (d pgd : Z) (maps : list mapping) : Prop := {
  sp_heap : kernel_heap k = kernel_heap k0;
  sp_wf : desc_wf (mem k) d pgd;
  sp_entry va : page va -> pte (mem k) pgd va = entry maps va;
  sp_directory j : 0 <= j < 1024 -> PhysMem.load32 (mem k) (pgd + 4 * j) = table_of (mem k) pgd j + 7;
  sp_tables j : 0 <= j < 1024 -> table_of (mem k) pgd j = table_of (mem k0) pgd j;
  sp_frame a : ~ in_tables (mem k0) pgd a -> PhysMem.load8 (mem k) a = PhysMem.load8 (mem k0) a
}.

(** The descriptor, the directory and its tables. *)
Definition in_paging (m : gmap Z Z) (d pgd a : Z) : Prop :=
  d <= a < d + 4096 \/ pgd <= a < pgd + 4096 \/ in_tables m pgd a.

Lemma directory_apart m pgd a : pt_wf m pgd -> pgd <= a < pgd + 4096 -> ~ in_tables m pgd a.
Proof.
  intros [[Hp _] Ht _] Ha (j & Hj & Hja). destruct (Ht j Hj) as [_ Hne]. pose proof (table_of_page m pgd j).
  destruct (page_apart pgd (table_of m pgd j)); [done|done|congruence|lia|lia].
Qed.

Lemma space_map k0 k d pgd maps mp pe :
  space k0 k d pgd maps -> mapping_ok mp -> pe = mp_pa mp + 4096 * mp_pages mp ->
  exists k', paging_create_mapping d (mp_va mp) (mp_pa mp) pe (mp_flags mp) k = Ok (0, k') /\
    space k0 k' d pgd (mp :: maps).
Proof.
  intros [H1 H2 H3 Hdir H4 H5] [M1 M2 M3 [M4 M4'] M5] ->. pose proof M2 as M2'. unfold page in M2'.
  rewrite create_mapping_loop; [|done|done|unfold page; zlia|lia].
  destruct (map_range_loop_ok (Z.to_nat ((mp_pa mp + 4096 * mp_pages mp - mp_pa mp) / 4096)) d pgd (mp_va mp) (mp_pa mp)
    (mp_flags mp) k) as (m' & Hr & Hd & Ht & Hout & Hpte); [done|done|done|done|zlia|zlia|].
  exists (set_mem k m'). split; [exact Hr|]. constructor; cbn [kernel_heap mem set_mem].
  - done.
  - done.
  - intros va Hva. rewrite Hpte by done. cbn [entry].
    replace (Z.of_nat (Z.to_nat ((mp_pa mp + 4096 * mp_pages mp - mp_pa mp) / 4096)) * 4096) with (4096 * mp_pages mp) by zlia.
    rewrite H3 by done. by rewrite (bool_decide_ext _ (covers mp va)).
  - intros j Hj. rewrite Ht, <- Hdir by done. apply PhysMem.load32_ext. intros a Ha. apply Hout.
    apply directory_apart; [apply H2|lia].
  - intros j Hj. rewrite Ht, H4; done.
  - intros a Ha. rewrite Hout, H5; [done|done|]. intros (j & Hj & Hja). apply Ha. exists j. by rewrite <- H4.
Qed.

Lemma align_upper a : 0 <= a -> a + 4096 <= 4294967296 -> paging_align_address a = page_of (a + 4095).
Proof.
  intros Ha Hb. unfold paging_align_address, paging_is_aligned, PAGING_PAGE_SIZE, page_of.
  destruct (Z.eqb_spec (a mod 4096) 0); [zlia|]. rewrite u32_small; zlia.
Qed.

(** ** The segments of an executable *)

Section Launch.
Context {D : Type} {Po : PortIO D} {Ad : AtaDrive D}.
#[local] Abbreviation St := (sys D).
Context (img : list Z) (p : Z) (fp : fat_private) (entries : list Z) (base ext : nat -> list Z)
  (nm : list Z) (k : nat) (T : list Z) (i : nat).
#[local] Abbreviation image := (LoadProofs.image img fp entries k).
#[local] Abbreviation size := (Fat16.filesize (take 32 (drop (32 * k) entries))).
#[local] Abbreviation file_at := (LoadProofs.file_at img fp entries k).
#[local] Abbreviation phdr j := (e_phoff image 0 + 32 * Z.of_nat j).

(** The pages of segment [j] for the file at [buf]: the offset in the file gives
    the frames, the size in memory their number. *)
Definition segment (buf : Z) (j : nat) : mapping :=
  let first := page_of (buf + p_offset image (phdr j)) in
  let last := page_of (buf + p_offset image (phdr j) + p_memsz image (phdr j) + 4095) in
  Mapping (page_of (p_vaddr image (phdr j))) first ((last - first) / 4096)
    (if negb (Z.land (p_flags image (phdr j)) PF_W =? 0) then 7 else 5).

(** The segments before [n], the last first. *)
Fixpoint segments (buf : Z) (n : nat) : list mapping :=
  match n with O => [] | S n' => segment buf n' :: segments buf n' end.

Record segment_fits (j : nat) : Prop := {
  sf_file : p_offset image (phdr j) + p_memsz image (phdr j) <= 2147475456;
  sf_space : p_vaddr image (phdr j) + p_memsz image (phdr j) + 8192 <= 4294967296
}.

Hypothesis Hlisted : listed img fp entries base ext nm k T i.
Hypothesis Hexec : executable img fp entries k.
Hypothesis Hsegments : forall j, (Z.of_nat j < e_phnum image 0) -> segment_fits j.

Lemma header_ranges m a : 0 <= p_offset m a < 4294967296 /\ 0 <= p_vaddr m a < 4294967296 /\ 0 <= p_memsz m a < 4294967296.
Proof. split_and!; apply PhysMem.load32_range. Qed.

Lemma segment_mapping buf j : 0 <= buf <= 2147483648 -> Z.of_nat j < e_phnum image 0 -> mapping_ok (segment buf j).
Proof.
  intros Hb Hj. destruct (Hsegments j Hj) as [H1 H2].
  destruct (header_ranges image (phdr j)) as (R1 & R2 & R3). revert H1 H2 R1 R2 R3.
  constructor; cbn [segment mp_va mp_pa mp_pages mp_flags]; unfold page, page_of; [zlia..|]. destruct (negb _); lia.
Qed.

(** The fields of a program header, read from the buffer. *)
Lemma header_fields m buf j : file_at m buf -> Z.of_nat j < e_phnum image 0 ->
  p_offset m (buf + phdr j) = p_offset image (phdr j) /\ p_vaddr m (buf + phdr j) = p_vaddr image (phdr j) /\
  p_memsz m (buf + phdr j) = p_memsz image (phdr j) /\ p_flags m (buf + phdr j) = p_flags image (phdr j).
Proof.
  intros Hf Hj. destruct Hexec as [_ _ Ht]. pose proof (PhysMem.load32_range image (0 + 28)) as Hr.
  unfold p_offset, p_vaddr, p_memsz, p_flags, e_phoff in *. rewrite <- !(Z.add_assoc buf).
  split_and!; eapply LoadProofs.file_load32; try exact Hf; lia.
Qed.

(** ** Mapping a process *)

(** The process at [q] with its executable at [buf] and its task's tables at [d]. *)
Record process_at (s : St) (q : Z) (x : process) (buf d : Z) : Prop := {
  pa_process : procs s !! q = Some x;
  pa_elf : exists ef, elfs s !! p_executable x = Some ef /\ elf_file_buffer ef = buf;
  pa_task : exists t, tasks s !! p_task x = Some t /\ t_paging t = d
}.

Lemma process_at_mem s q x buf d kk : process_at s q x buf d -> process_at (with_kmem kk s) q x buf d.
Proof. by intros []. Qed.

Lemma wp_paging_of s q x buf d (Q : Z -> St -> Prop) : process_at s q x buf d -> Q d s -> wp (task_paging q) s Q.
Proof.
  intros [H1 _ (t & H2 & <-)] HQ. unfold task_paging. apply wp_bind. eapply wp_load_process; [exact H1|].
  apply wp_bind. eapply wp_load_task; [exact H2|]. by apply wp_ret.
Qed.

(** One mapping of the process's tables. *)
Lemma wp_map k0 (s : St) d pgd maps mp va pa pe flags (Q : Z -> St -> Prop) :
  space k0 (k_alloc (fsys s)) d pgd maps -> mapping_ok mp ->
  va = mp_va mp -> pa = mp_pa mp -> pe = mp_pa mp + 4096 * mp_pages mp -> flags = mp_flags mp ->
  (forall k', space k0 k' d pgd (mp :: maps) -> Q 0 (with_kmem k' s)) ->
  wp (on_mem (paging_create_mapping d va pa pe flags)) s Q.
Proof.
  intros Hsp Hmp -> -> Hpe -> HQ. apply wp_on_mem.
  destruct (space_map _ _ _ _ _ mp pe Hsp Hmp Hpe) as (k' & Hr & Hsp'). eapply wp_of_run; [exact Hr|]. by apply HQ.
Qed.

Section Mapping.
Context (k0 : kmem) (d pgd buf : Z).
Hypothesis Hbuf : 0 < buf <= 2147483648 /\ buf + size <= 2147483648.
Hypothesis Hfile : file_at (mem k0) buf.
Hypothesis Houtside : forall a, buf <= a < buf + size -> ~ in_tables (mem k0) pgd a.

Lemma space_file kk maps : space k0 kk d pgd maps -> file_at (mem kk) buf.
Proof.
  intros Hsp a Ha. rewrite (sp_frame _ _ _ _ _ Hsp); [by apply Hfile|]. apply Houtside. lia.
Qed.

Lemma wp_map_segments q x maps n : forall j (s : St) (Q : Z -> St -> Prop),
  (j + n = Z.to_nat (e_phnum image 0))%nat -> process_at s q x buf d ->
  space k0 (k_alloc (fsys s)) d pgd (segments buf j ++ maps) ->
  (forall k', space k0 k' d pgd (segments buf (j + n) ++ maps) -> Q 0 (with_kmem k' s)) ->
  wp (map_elf_loop n (Z.of_nat j) 0 q (buf + e_phoff image 0)) s Q.
Proof.
  induction n as [|n IH]; intros j s Q Hn Hp Hsp HQ; cbn [map_elf_loop].
  { apply wp_ret. rewrite Nat.add_0_r in HQ. specialize (HQ _ Hsp). by destruct s as [[]]. }
  pose proof (PhysMem.load16_range image (0 + 44)) as Hr16. assert (Hj : Z.of_nat j < e_phnum image 0) by lia.
  pose proof (PhysMem.load32_range image (0 + 28)) as Hr32. pose proof (ex_table _ _ _ _ Hexec) as Htab.
  destruct (header_fields _ _ _ (space_file _ _ Hsp) Hj) as (F1 & F2 & F3 & F4).
  assert (Hph : u32 (buf + e_phoff image 0 + Z.of_nat j * sizeof_elf32_phdr) = buf + phdr j).
  { unfold sizeof_elf32_phdr, e_phoff in *. rewrite u32_small; lia. }
  cbv zeta. rewrite Hph. destruct Hp as [P1 (ef & P2 & P3) P4].
  apply wp_bind. eapply wp_load_process; [exact P1|]. apply wp_bind. eapply wp_load_elf; [exact P2|].
  apply wp_bind, wp_gets. unfold elf_file_get_segment_phys_addr. rewrite P3. unfold phys in *. rewrite F1, F2, F3, F4.
  pose proof (segment_mapping buf j ltac:(lia) Hj) as Hok. destruct (Hsegments j Hj) as [S1 S2].
  destruct (header_ranges image (phdr j)) as (R1 & R2 & R3).
  apply wp_bind. eapply wp_paging_of; [by split; [|eexists|]|]. apply wp_bind.
  rewrite !(u32_small (buf + _)) by lia. rewrite u32_small by lia. rewrite !align_lower_page_of, align_upper by lia.
  eapply (wp_map k0 s d pgd (segments buf j ++ maps) (segment buf j)); [exact Hsp|exact Hok|exact eq_refl|exact eq_refl| | |].
  { cbn [segment mp_pa mp_pages]. clear -R1 R2 R3. unfold page_of. zlia. }
  { cbn [segment mp_flags]. destruct (negb _); exact eq_refl. }
  intros k' Hsp'. change (0 <? 0) with false. cbv iota.
  replace (Z.of_nat j + 1) with (Z.of_nat (S j)) by lia.
  apply IH; [lia|by split; [|eexists|]|exact Hsp'|]. intros k'' Hsp''.
  rewrite Nat.add_succ_l, <- Nat.add_succ_r in Hsp''. exact (HQ k'' Hsp'').
Qed.

(** The stack and the block for the arguments. *)
Definition stack_map (a : Z) : mapping := Mapping TASK_STACK_VIRT_ADDR_END a 4 7.
Definition arg_map (a : Z) : mapping := Mapping COMMAND_LINE_ARG_VIRTUAL_ADDR a 1 7.

(** The address space of a process: its segments over arguments and stack. *)
Definition process_maps (stack args : Z) : list mapping :=
  segments buf (Z.to_nat (e_phnum image 0)) ++ [arg_map args; stack_map stack].

Lemma block_map a n va : page a -> 0 < a -> a + 4096 * n <= 2147483648 -> 0 <= n -> page va -> va + 4096 * n <= 4294967296 ->
  mapping_ok (Mapping va a n 7).
Proof. intros. constructor; cbn [mp_va mp_pa mp_pages mp_flags]; try done; lia. Qed.

Lemma wp_map_elf q x maps (s : St) (Q : Z -> St -> Prop) :
  process_at s q x buf d -> space k0 (k_alloc (fsys s)) d pgd maps ->
  (forall k', space k0 k' d pgd (segments buf (Z.to_nat (e_phnum image 0)) ++ maps) -> Q 0 (with_kmem k' s)) ->
  wp (process_map_task_elf q) s Q.
Proof.
  intros Hp Hsp HQ. pose proof Hp as [P1 (ef & P2 & P3) P4]. unfold process_map_task_elf.
  apply wp_bind. eapply wp_load_process; [exact P1|]. apply wp_bind. eapply wp_load_elf; [exact P2|].
  unfold elf_get_ehdr. rewrite P3, (proj2 (Z.eqb_neq buf 0)) by lia. cbv zeta.
  rewrite (proj2 (Z.eqb_neq buf 0)) by lia. apply wp_bind, wp_gets.
  pose proof (space_file _ _ Hsp) as Hf. destruct Hexec as [(V1 & V2 & V3 & V4 & V5) Hh Ht].
  pose proof (PhysMem.load32_range image (0 + 28)). pose proof (PhysMem.load16_range image (0 + 44)).
  assert (E1 : e_phoff (phys s) buf = e_phoff image 0) by (eapply LoadProofs.file_load32; [exact Hf|lia|lia]).
  assert (E2 : e_phnum (phys s) buf = e_phnum image 0) by (eapply LoadProofs.file_load16; [exact Hf|lia|lia]).
  unfold elf_get_phdr_table, elf_has_program_header_table. rewrite E1, E2, (proj2 (Z.eqb_neq (e_phoff image 0) 0)) by done.
  cbn [negb]. unfold e_phoff, e_phnum in *. rewrite u32_small by lia. rewrite (proj2 (Z.eqb_neq _ 0)) by lia. cbn [andb].
  eapply (wp_map_segments q x maps _ 0); [done|exact Hp|exact Hsp|exact HQ].
Qed.

Lemma wp_map_task_memory q x (s : St) (Q : Z -> St -> Prop) :
  process_at s q x buf d -> p_format x = ELF -> space k0 (k_alloc (fsys s)) d pgd [] ->
  page (stack_addr x) -> 0 < stack_addr x -> stack_addr x + 16384 <= 2147483648 ->
  page (arg_block x) -> 0 < arg_block x -> arg_block x + 4096 <= 2147483648 ->
  (forall k', space k0 k' d pgd (process_maps (stack_addr x) (arg_block x)) -> Q 0 (with_kmem k' s)) ->
  wp (process_map_task_memory q) s Q.
Proof.
  intros Hp Hx Hsp S1 S2 S3 A1 A2 A3 HQ. pose proof (pa_process _ _ _ _ _ Hp) as P1. unfold process_map_task_memory.
  apply wp_bind. eapply wp_paging_of; [exact Hp|]. apply wp_bind. eapply wp_load_process; [exact P1|]. apply wp_bind.
  unfold page in S1, A1.
  eapply (wp_map k0 s d pgd [] (stack_map (stack_addr x))); [exact Hsp|by apply block_map; try lia|done|done| |done|].
  { change TASK_STACK_SIZE with 16384. rewrite u32_small, align_upper by lia. cbn [stack_map mp_pa mp_pages]. unfold page_of. zlia. }
  intros k1 Hsp1. change (0 <? 0) with false. cbv iota. apply (process_at_mem _ _ _ _ _ k1) in Hp.
  apply wp_bind. eapply wp_paging_of; [exact Hp|]. apply wp_bind. eapply wp_load_process; [exact P1|]. apply wp_bind.
  eapply (wp_map k0 (with_kmem k1 s) d pgd _ (arg_map (arg_block x))); [exact Hsp1|by apply block_map; try lia|done|done| |done|].
  { change len_arg_block with 180. rewrite u32_small, align_upper by lia. cbn [arg_map mp_pa mp_pages]. unfold page_of. zlia. }
  intros k2 Hsp2. change (0 <? 0) with false. cbv iota. apply (process_at_mem _ _ _ _ _ k2) in Hp.
  apply wp_bind. eapply wp_load_process; [exact P1|]. rewrite Hx.
  eapply (wp_map_elf q x); [exact Hp|exact Hsp2|]. intros k3 Hsp3. exact (HQ k3 Hsp3).
Qed.

End Mapping.

(** ** The new task *)

Lemma wp_update_new_task t tk f ts (s : St) (Q : unit -> St -> Prop) :
  Q tt (set_tasks (<[t := f tk]> ts) s) -> wp (update_task t f) (set_tasks (<[t := tk]> ts) s) Q.
Proof.
  intros HQ. eapply wp_update_task; [apply lookup_insert_eq|]. cbn [tasks set_tasks]. by rewrite insert_insert_eq.
Qed.

Lemma wp_update_new_process q x f ps (s : St) (Q : unit -> St -> Prop) :
  Q tt (set_procs (<[q := f x]> ps) s) -> wp (update_process q f) (set_procs (<[q := x]> ps) s) Q.
Proof.
  intros HQ. eapply wp_update_process; [apply lookup_insert_eq|]. cbn [procs set_procs]. by rewrite insert_insert_eq.
Qed.

(** The registers a program starts with, and its task. *)
Definition start_registers (entry_point : Z) : registers :=
  Registers 0 0 0 0 0 0 0 entry_point USER_CODE_SEGMENT 0 (TASK_STACK_VIRT_ADDR - 8) USER_DATA_SEGMENT.
Definition new_task (d entry_point q : Z) : task := Task d (start_registers entry_point) q 0 0.

(** Appending to the list of tasks; the first task becomes the current one. *)
Definition enqueue (t : Z) (s : St) : St :=
  if task_list_head s =? 0 then set_current_task t (set_task_list_tail t (set_task_list_head t s))
  else set_task_list_tail t
    (set_tasks (alter (set_prev (task_list_tail s)) t (alter (set_next t) (task_list_tail s) (tasks s))) s).

#[local] Abbreviation ready := (LoadProofs.ready img p fp entries T).

(** Page tables for the task, which the other allocations do not touch. *)
Record tables_made (f f' : kst kmem D) (L L0 L1 : gmap Z nat) (r : nat) (d pgd : Z) : Prop := {
  tm_ready : ready f' L L1 r;
  tm_subset : L0 ⊆ L1;
  tm_kept : guarded L0 (mem (k_alloc f)) (mem (k_alloc f'));
  tm_space : space (k_alloc f') (k_alloc f') d pgd [];
  tm_apart q n a : (L ∪ L0) !! q = Some n -> q <= a < q + HEAP_BLOCK_SIZE * Z.of_nat n -> ~ in_paging (mem (k_alloc f')) d pgd a;
  tm_desc : L1 !! d = Some 1%nat;
  tm_used a : in_paging (mem (k_alloc f')) d pgd a -> ~ in_free (k_alloc f') a /\ Heap.start_addr (kernel_heap (k_alloc f')) <= a
}.

Lemma wp_init_tables (s : St) L L0 r (Q : Z -> St -> Prop) :
  ready (fsys s) L L0 (1026 + r) ->
  (forall f' L1 d pgd, tables_made (fsys s) f' L L0 L1 r d pgd -> objs f' = objs (fsys s) -> Q d (set_fsys f' s)) ->
  wp (on_mem (init_page_tables (Z.lor PAGING_USER_SUPERVISOR PAGING_PRESENT))) s Q.
Proof.
  intros Hr HQ. pose proof Hr as [[G1 G2 G3 G4] R2 R3 R4 R5 R6]. change (Z.lor PAGING_USER_SUPERVISOR PAGING_PRESENT) with 5.
  set (kk := k_alloc (fsys s)) in *. pose proof (reserve_le_free kk).
  destruct (init_page_tables_ok kk (L ∪ L0) 5 (free_total kk - 1026)) as
    (d & pgd & k' & L' & Hrun & Hrep & HL & [Hd0 Hd1] & _ & Hcount & Hwf & Hpte & Hdir & Hext & Hin); [done|lia|lia|].
  apply wp_on_mem. eapply wp_of_run; [exact Hrun|].
  destruct (ready_extend img p fp entries T _ _ _ _ r _ _ Hr Hrep HL) as [Hr' HL0].
  { apply (ext_reserve _ _ Hext). lia. }
  apply (HQ (set_heap (fsys s) k' (objs (fsys s))) (L' ∖ L) d pgd); [|reflexivity]. constructor; cbn [k_alloc set_heap].
  - exact Hr'.
  - exact HL0.
  - eapply guarded_extends; [by constructor|]. apply (ext_mem _ _ Hext).
  - by constructor.
  - intros q n a Hq Ha Hia. destruct (Hin a Hia) as [Hf _].
    eapply live_not_free; [exact G1|exact Hq|exact Ha|exact Hf].
  - apply lookup_union_None in Hd0 as [Hd0 _]. by apply lookup_difference_Some.
  - intros a Hia. destruct (Hin a Hia) as [Hf Hn]. split; [done|]. rewrite (ext_start _ _ Hext). by apply in_free_start.
Qed.

(** A loaded process before its task: the file is in its buffer. *)
Record process_loaded (s : St) (L0 : gmap Z nat) (q : Z) (x : process) (buf : Z) : Prop := {
  pl_process : procs s !! q = Some x;
  pl_format : p_format x = ELF;
  pl_elf : exists ef, elfs s !! p_executable x = Some ef /\ elf_file_buffer ef = buf;
  pl_file : file_at (phys s) buf;
  pl_buffer : L0 !! buf = Some (Heap.blocks_for size) /\ 0 < buf
}.

#[local] Abbreviation entry_point := (e_entry image 0).

Lemma wp_task_init (s : St) L L0 r t q x buf ts (Q : Z -> St -> Prop) :
  ready (fsys s) L L0 (1026 + r) -> process_loaded s L0 q x buf ->
  (forall f' L1 d pgd, tables_made (fsys s) f' L L0 L1 r d pgd -> objs f' = objs (fsys s) ->
     Q 0 (set_tasks (<[t := new_task d entry_point q]> ts) (set_fsys f' s))) ->
  wp (task_init t q) (set_tasks (<[t := zero_task]> ts) s) Q.
Proof.
  intros Hr [P1 P2 (ef & P3 & P4) P5 [P6 P7]] HQ. unfold task_init.
  apply wp_bind, wp_update_new_task, wp_bind. eapply wp_init_tables; [exact Hr|].
  intros f' L1 d pgd Hm Ho. specialize (HQ f' L1 d pgd Hm Ho).
  pose proof (tm_space _ _ _ _ _ _ _ _ Hm) as Hsp. destruct (desc_page _ _ _ (sp_wf _ _ _ _ _ Hsp)) as [_ Hd].
  assert (Hf : file_at (mem (k_alloc f')) buf).
  { eapply LoadProofs.file_at_guarded; [exact Hlisted|exact P5|exact P6|apply Hm]. }
  change (set_fsys f' (set_tasks ?a s)) with (set_tasks a (set_fsys f' s)).
  apply wp_bind, wp_update_new_task, wp_bind. eapply wp_load_task; [apply lookup_insert_eq|].
  cbn [t_paging set_paging]. rewrite (proj2 (Z.eqb_neq d 0)) by done.
  apply wp_bind, wp_update_new_task, wp_bind. eapply wp_load_process; [exact P1|]. rewrite bool_decide_true by done.
  apply wp_bind, wp_bind. eapply wp_load_elf; [exact P3|]. unfold elf_get_ehdr. rewrite P4, (proj2 (Z.eqb_neq buf 0)) by lia.
  cbv zeta. rewrite (proj2 (Z.eqb_neq buf 0)) by lia. apply wp_bind, wp_gets.
  assert (He : e_entry (phys (set_fsys f' s)) buf = entry_point).
  { pose proof (ex_header _ _ _ _ Hexec). apply (LoadProofs.file_load32 img fp entries k (mem (k_alloc f')) buf 24 Hf); lia. }
  change (e_entry (phys (set_tasks ?a (set_fsys f' s))) buf) with (e_entry (phys (set_fsys f' s)) buf). rewrite He.
  apply wp_update_new_task, wp_bind, wp_update_new_task, wp_bind, wp_update_new_task, wp_ret. exact HQ.
Qed.

(** The state with the new task in the list. *)
Definition with_task (t : Z) (tk : task) (f : kst kmem D) (s : St) : St :=
  enqueue t (set_tasks (<[t := tk]> (tasks s)) (set_fsys f s)).

Lemma wp_enqueue t tk ts (s : St) (Q : Z -> St -> Prop) :
  t_next tk = 0 ->
  (task_list_head s <> 0 -> is_Some (ts !! task_list_tail s) /\ task_list_tail s <> t) ->
  Q t (enqueue t (set_tasks (<[t := tk]> ts) s)) ->
  wp (h ← gets task_list_head;
      if h =? 0 then
        _ ← modify (set_task_list_head t);
        _ ← modify (set_task_list_tail t);
        _ ← modify (set_current_task t);
        mret t
      else
        tail ← gets task_list_tail;
        _ ← update_task tail (set_next t);
        tail ← gets task_list_tail;
        _ ← update_task t (set_prev tail);
        _ ← modify (set_task_list_tail t);
        tail ← gets task_list_tail;
        _ ← update_task tail (set_next 0);
        mret t) (set_tasks (<[t := tk]> ts) s) Q.
Proof.
  intros Hn Htail HQ. unfold enqueue in HQ. apply wp_bind, wp_gets. cbn [task_list_head task_list_tail tasks set_tasks] in *.
  destruct (Z.eqb_spec (task_list_head s) 0) as [E|E].
  - apply wp_bind, wp_modify, wp_bind, wp_modify, wp_bind, wp_modify, wp_ret. exact HQ.
  - destruct (Htail E) as [[u Hu] Hne].
    apply wp_bind, wp_gets, wp_bind. eapply (wp_update_task _ u); [cbn; by rewrite lookup_insert_ne|].
    apply wp_bind, wp_gets, wp_bind. eapply (wp_update_task _ tk); [cbn; by rewrite lookup_insert_ne, lookup_insert_eq|].
    apply wp_bind, wp_modify, wp_bind, wp_gets, wp_bind. eapply wp_update_task; [apply lookup_insert_eq|]. apply wp_ret.
    cbn [task_list_tail tasks set_tasks set_task_list_tail] in *.
    rewrite alter_insert_ne, alter_insert_eq in HQ by done.
    rewrite <- (insert_id ts _ u Hu), alter_insert_eq, (insert_id ts _ u Hu) in HQ.
    rewrite insert_insert_eq, (insert_insert_ne ts (task_list_tail s) t), insert_insert_eq by done.
    replace (set_next 0 (set_prev (task_list_tail s) tk)) with (set_prev (task_list_tail s) tk)
      by (unfold set_next, set_prev; simpl; by rewrite Hn). exact HQ.
Qed.

Lemma wp_task_new (s : St) L L0 r q x buf (Q : Z -> St -> Prop) :
  ready (fsys s) L L0 (1027 + r) -> process_loaded s L0 q x buf ->
  (task_list_head s <> 0 -> is_Some (tasks s !! task_list_tail s)) -> dom (tasks s) ⊆ dom L0 ->
  (forall f' L1 t d pgd, tables_made (fsys s) f' L L0 L1 r d pgd -> L0 !! t = None -> L1 !! t = Some 1%nat -> 0 < t < 2147483648 ->
     Q t (with_task t (new_task d entry_point q) f' s)) ->
  wp (Task.task_new q) s Q.
Proof.
  intros Hr Hp Htail Hdom HQ. unfold Task.task_new, alloc_task. apply wp_bind, wp_bind.
  eapply (LoadProofs.wp_ready_alloc img p fp entries T); [exact Hr|unfold sizeof_task; lia|change (Heap.blocks_for sizeof_task) with 1%nat; lia|].
  change (Heap.blocks_for sizeof_task) with 1%nat. intros t k1 Hnb Hr1 Hg1.
  replace (1027 + r - 1)%nat with (1026 + r)%nat in Hr1 by lia.
  pose proof (nb_range _ _ _ _ _ Hnb) as (Ht0 & Ht1 & _). change (Heap.blocks_for sizeof_task) with 1%nat in Ht1.
  pose proof (nb_fresh _ _ _ _ _ Hnb) as [_ Hfresh]%lookup_union_None. unfold HEAP_BLOCK_SIZE in Ht1.
  rewrite (proj2 (Z.eqb_neq t 0)) by lia. apply wp_bind, wp_modify, wp_ret. rewrite (proj2 (Z.eqb_neq t 0)) by lia.
  apply wp_bind. change (set_tasks (<[t := zero_task]> (tasks (with_kmem k1 s))) (with_kmem k1 s))
    with (set_tasks (<[t := zero_task]> (tasks s)) (with_kmem k1 s)).
  pose proof Hp as [P1 P2 P3 P5 [P6 P7]].
  assert (Hp1 : process_loaded (with_kmem k1 s) (<[t := 1%nat]> L0) q x buf).
  { constructor; [done|done|done|eapply LoadProofs.file_at_guarded; [exact Hlisted|exact P5|exact P6|exact Hg1]|].
    split; [|done]. rewrite lookup_insert_ne; [done|]. intros ->. congruence. }
  eapply wp_task_init; [exact Hr1|exact Hp1|]. intros f' L1 d pgd [M1 M2 M3 M4 M5 M6 M7] Ho.
  change (negb (0 =? STATUS_OK)) with false. cbv iota.
  assert (HL : L0 ⊆ <[t := 1%nat]> L0) by (by apply insert_subseteq).
  apply wp_enqueue; [done| |].
  - intros Hh. destruct (Htail Hh) as [u Hu]. split; [by eexists|]. intros E.
    assert (Hin : t ∈ dom (tasks s)) by (rewrite <- E; by apply elem_of_dom).
    apply Hdom, elem_of_dom in Hin as [? ?]. congruence.
  - apply (HQ f' L1 t d pgd); [|done|eapply lookup_weaken; [apply lookup_insert_eq|exact M2]|lia]. constructor.
    + exact M1.
    + by etrans.
    + eapply guarded_trans; [exact Hg1|exact HL|exact M3].
    + exact M4.
    + intros q' n a Hq' Ha. apply (M5 q' n a); [|done]. eapply lookup_weaken; [exact Hq'|]. by apply map_union_mono_l.
    + exact M6.
    + exact M7.
Qed.

(** The list of tasks is apart from the rest of the state. *)
Section WithTask.
Context (t : Z) (tk : task) (f : kst kmem D) (s : St).

Lemma with_task_fields : procs (with_task t tk f s) = procs s /\ elfs (with_task t tk f s) = elfs s /\
  fsys (with_task t tk f s) = f /\ processes (with_task t tk f s) = processes s.
Proof. unfold with_task, enqueue. by destruct (_ =? _). Qed.

Lemma with_task_procs v : set_procs v (with_task t tk f s) = with_task t tk f (set_procs v s).
Proof. unfold with_task, enqueue. cbn [task_list_head set_tasks set_fsys set_procs]. by destruct (_ =? _). Qed.

Lemma with_task_processes v : set_processes v (with_task t tk f s) = with_task t tk f (set_processes v s).
Proof. unfold with_task, enqueue. cbn [task_list_head set_tasks set_fsys set_processes]. by destruct (_ =? _). Qed.

Lemma with_task_mem kk : with_kmem kk (with_task t tk f s) = with_task t tk (set_heap f kk (objs f)) s.
Proof. unfold with_task, enqueue, with_kmem. cbn [task_list_head set_tasks set_fsys]. by destruct (_ =? _). Qed.

Lemma with_task_tasks : dom (tasks (with_task t tk f s)) = {[t]} ∪ dom (tasks s) /\ task_list_tail (with_task t tk f s) = t.
Proof.
  unfold with_task, enqueue. cbn [task_list_head set_tasks set_fsys].
  destruct (_ =? _); cbn [tasks task_list_tail set_tasks set_current_task set_task_list_tail set_task_list_head set_fsys].
  - by rewrite dom_insert_L.
  - by rewrite !dom_alter_L, dom_insert_L.
Qed.

(** The task itself, up to its place in the list. *)
Lemma with_task_lookup : (task_list_head s <> 0 -> task_list_tail s <> t) ->
  exists tk', tasks (with_task t tk f s) !! t = Some tk' /\ t_paging tk' = t_paging tk /\
    t_registers tk' = t_registers tk /\ t_process tk' = t_process tk.
Proof.
  intros Ht. unfold with_task, enqueue. cbn [task_list_head set_tasks set_fsys].
  destruct (Z.eqb_spec (task_list_head s) 0) as [E|E].
  - exists tk. split; [apply lookup_insert_eq|done].
  - exists (set_prev (task_list_tail s) tk). split; [|done]. cbn [tasks set_tasks set_task_list_tail task_list_tail set_fsys].
    by rewrite lookup_alter_eq, lookup_alter_ne, lookup_insert_eq by auto.
Qed.

End WithTask.

(** ** The stack and the block for arguments *)

(** A new stack: the number of arguments, and the address at which they are. *)
Definition stack_ready (argc : Z) (m : gmap Z Z) (stack : Z) : Prop :=
  PhysMem.load32 m (stack + 16380) = argc /\ PhysMem.load32 m (stack + 16376) = COMMAND_LINE_ARG_VIRTUAL_ADDR /\
  forall a, stack <= a < stack + 16376 -> PhysMem.load8 m a = 0.

Lemma wp_put_args argc stack (s : St) (Q : unit -> St -> Prop) :
  0 <= argc < 4294967296 -> 0 < stack -> stack + 16384 <= 2147483648 ->
  (forall m, (forall a, ~ (stack + 16376 <= a < stack + 16384) -> PhysMem.load8 m a = PhysMem.load8 (phys s) a) ->
     PhysMem.load32 m (stack + 16380) = argc -> PhysMem.load32 m (stack + 16376) = COMMAND_LINE_ARG_VIRTUAL_ADDR ->
     Q tt (with_kmem (set_mem (k_alloc (fsys s)) m) s)) ->
  wp (put_argv_argc_in_stack_mem stack argc COMMAND_LINE_ARG_VIRTUAL_ADDR) s Q.
Proof.
  intros Hc H0 H1 HQ. unfold put_argv_argc_in_stack_mem. change TASK_STACK_SIZE with 16384. cbv zeta.
  rewrite !u32_small by lia. apply wp_bind, wp_on_mem. eapply wp_of_run; [apply write_word_ok; lia|].
  apply wp_on_mem. eapply wp_of_run; [apply write_word_ok; lia|]. rewrite !Z.mul_0_r, !Z.add_0_r.
  set (m1 := PhysMem.store32 (phys s) (stack + 16384 - 4) argc).
  apply (HQ (PhysMem.store32 m1 (stack + 16384 - 8) COMMAND_LINE_ARG_VIRTUAL_ADDR)); unfold m1.
  - intros a Ha. rewrite !PhysMem.load8_store32_ne by lia. done.
  - rewrite PhysMem.load32_store32_ne by lia. replace (stack + 16380) with (stack + 16384 - 4) by lia.
    by rewrite PhysMem.load32_store32_eq, u32_small.
  - replace (stack + 16376) with (stack + 16384 - 8) by lia. by rewrite PhysMem.load32_store32_eq.
Qed.

End Launch.

End LaunchProofs.
