(* ===== verification/StartProofs.v ===== *)
(** * Loading a program, proved: [process_load]

    The whole of [process_load_with_args]: a free slot, the process, the file, the
    stack, the arguments, the task and its page tables; and what the program
    reads, and where it can write, through these in user mode. *)
From stdpp Require Import base gmap list numbers strings.
From S2P Require Import Prelude Config CString Heap PhysMem KernelHeap HeapViews Paging KState Disk PParser Fat16 Fat16Proofs Vfs VfsProofs Terminal Idt Keyboard System Elf ElfProofs Task UserMemory Process ProcessProofs LoadProofs LaunchProofs.
#[local] Open Scope Z_scope.

Module StartProofs.
Import KernelHeap HeapViews Paging KState System Elf ElfProofs Task UserMemory Process ProcessProofs LoadProofs LaunchProofs.

(** ** Accesses in user mode *)

(** Where an access of a user-mode program at [va] goes that needs the flags [bits]
    in both entries, 5 (present, user) to read and 7 (and writable) to write; [None]
    is a page fault. *)
Definition user_access (bits : Z) (m : gmap Z Z) (cr3 va : Z) : option Z :=
  let pde := PhysMem.load32 m (cr3 + 4 * (va / 4194304)) in
  let pte := PhysMem.load32 m (Z.land pde 0xfffff000 + 4 * (va mod 4194304 / 4096)) in
  if (Z.land pde bits =? bits) && (Z.land pte bits =? bits) then Some (Z.land pte 0xfffff000 + va mod 4096) else None.

(** The byte a program reads at [va], and the address it writes to. *)
Definition user_byte (m : gmap Z Z) (pgd va : Z) : option Z := PhysMem.load8 m <$> user_access 5 m pgd va.
Definition user_write (m : gmap Z Z) (pgd va : Z) : option Z := user_access 7 m pgd va.

Lemma land_7 a : Z.land a 7 = a mod 8.
Proof. change 7 with (Z.ones 3). by rewrite Z.land_ones. Qed.
Lemma low_bits b : 0 <= b < 8 -> Z.land 7 b = b.
Proof. intros Hb. rewrite Z.land_comm, land_7. zlia. Qed.

Lemma flag_bits f flags bits : page f -> 0 <= flags < 4096 -> 0 <= bits < 8 -> Z.land (f + flags) bits = Z.land flags bits.
Proof.
  intros [Hf Hm] Hfl Hb. rewrite <- (low_bits bits Hb), !Z.land_assoc. f_equal. rewrite !land_7. zlia.
Qed.

(** An access depends on the entry of the page alone. *)
Lemma access_entry bits k0 k d pgd maps va : space k0 k d pgd maps -> 0 <= va < 4294967296 -> 0 <= bits < 8 ->
  user_access bits (mem k) pgd va =
    (let e := entry maps (page_of va) in if Z.land e bits =? bits then Some (Z.land e PGD_ENTRY_TABLE_ADDR + va mod 4096) else None).
Proof.
  intros [_ Hwf He Hd _ _] Hva Hb. destruct (page_of_indexes va) as [E1 E2]. specialize (Hd (va / 4194304) ltac:(zlia)).
  specialize (He _ (page_of_page va Hva)). unfold user_access, pte, pte_addr in *. rewrite E1, E2 in He. unfold table_of in He at 1.
  unfold PGD_ENTRY_TABLE_ADDR in *. rewrite He. rewrite Hd. rewrite flag_bits by (apply table_of_page || lia).
  by rewrite low_bits, Z.eqb_refl.
Qed.

(** Where the address [va] leads under the mappings [maps]. *)
Fixpoint frame_of (maps : list mapping) (va : Z) : Z :=
  match maps with
  | [] => va
  | mp :: rest => if bool_decide (covers mp (page_of va)) then mp_pa mp + (va - mp_va mp) else frame_of rest va
  end.

Definition readable (mp : mapping) : Prop := mapping_ok mp /\ Z.land (mp_flags mp) 5 = 5.

(** The frame and the flags of the entry; only a mapping makes a page writable. *)
Lemma entry_frame maps va :
  Forall readable maps -> 0 <= va < 4294967296 ->
  exists f flags, entry maps (page_of va) = f + flags /\ page f /\ 0 <= flags < 4096 /\
    Z.land flags 5 = 5 /\ frame_of maps va = f + va mod 4096 /\
    (Z.land flags 7 = 7 -> exists mp, mp ∈ maps /\ covers mp (page_of va) /\ Z.land (mp_flags mp) 7 = 7 /\
       frame_of maps va = mp_pa mp + (va - mp_va mp)).
Proof.
  intros Hm Hva. pose proof (page_of_page va Hva) as Hp. induction Hm as [|mp maps [[M1 M2 M3 M4 M5] Hf] _ IH]; cbn [entry frame_of].
  - exists (page_of va), 5. split_and!; try done; [apply Hp..|unfold page_of; lia].
  - case_bool_decide as Hc.
    + exists (mp_pa mp + (page_of va - mp_va mp)), (mp_flags mp).
      split; [done|]. unfold covers, page in *. split; [unfold page_of in *; zlia|]. split; [done|]. split; [done|].
      split; [unfold page_of; lia|]. intros H7. exists mp. by split; [left|].
    + destruct IH as (f & flags & H1 & H2 & H3 & H4 & H5 & H6). exists f, flags. do 5 (split; [done|]).
      intros H7. destruct (H6 H7) as (mp' & Hin & Hmp). exists mp'. split; [by right|done].
Qed.

Lemma read_space k0 k d pgd maps va :
  space k0 k d pgd maps -> Forall readable maps -> 0 <= va < 4294967296 ->
  user_access 5 (mem k) pgd va = Some (frame_of maps va).
Proof.
  intros Hsp Hm Hva. destruct (entry_frame maps va Hm Hva) as (f & flags & E & Hf & Hfl & Hb & -> & _).
  rewrite (access_entry _ _ _ _ _ _ _ Hsp) by lia. cbv zeta. rewrite E, flag_bits, Hb, frame_bits by (done || lia). done.
Qed.

Lemma write_space k0 k d pgd maps va pa :
  space k0 k d pgd maps -> Forall readable maps -> 0 <= va < 4294967296 -> user_write (mem k) pgd va = Some pa ->
  exists mp, mp ∈ maps /\ covers mp (page_of va) /\ Z.land (mp_flags mp) 7 = 7 /\ pa = mp_pa mp + (va - mp_va mp).
Proof.
  intros Hsp Hm Hva. destruct (entry_frame maps va Hm Hva) as (f & flags & E & Hf & Hfl & Hb & Hfr & Hw).
  unfold user_write. rewrite (access_entry _ _ _ _ _ _ _ Hsp) by lia. cbv zeta. rewrite E, flag_bits, frame_bits by (done || lia).
  destruct (Z.eqb_spec (Z.land flags 7) 7) as [H7|]; [|done]. intros [= <-]. destruct (Hw H7) as (mp & H1 & H2 & H3 & H4).
  exists mp. split_and!; [done|done|done|congruence].
Qed.

(** ** Arguments *)

(** The argument vector of [strs] at [argv], on the heap: the vector and each string
    in a block of [L0]. *)
Record arguments (strs : list (list Z)) (argv : Z) (L0 : gmap Z nat) (m : gmap Z Z) : Prop := {
  ag_count : (length strs <= 5)%nat;
  ag_vector : strs <> [] -> exists n, L0 !! argv = Some n /\ (0 < n)%nat;
  ag_string i str : strs !! i = Some str -> Forall CString.char_byte str /\ (length str < 32)%nat /\
    exists q n, PhysMem.load32 m (argv + 4 * Z.of_nat i) = q /\ L0 !! q = Some n /\ (0 < n)%nat /\
      forall c, (c <= length str)%nat -> PhysMem.load8 m (q + Z.of_nat c) = default 0 (str !! c)
}.

Lemma arguments_none L0 m : arguments [] 0 L0 m.
Proof. by constructor; [simpl; lia| |]. Qed.

Lemma arguments_guarded strs argv L0 L1 m m' :
  arguments strs argv L0 m -> L0 ⊆ L1 -> guarded L0 m m' -> arguments strs argv L1 m'.
Proof.
  intros [H1 H2 H3] HL Hg. constructor; [done| |].
  - intros Hs. destruct (H2 Hs) as (n & Hn & ?). exists n. split; [by eapply lookup_weaken|done].
  - intros i' str Hi. destruct (H3 i' str Hi) as (C1 & C2 & q & n & Hq & HLq & Hn & Hc).
    split; [done|]. split; [done|]. exists q, n. unfold HEAP_BLOCK_SIZE in *. split; [|split; [by eapply lookup_weaken|split; [done|]]].
    + rewrite <- Hq. apply PhysMem.load32_ext. intros a Ha. destruct H2 as (n' & Hn' & Hn0); [by intros ->|].
      pose proof (lookup_lt_Some _ _ _ Hi). apply (Hg argv n' a Hn'). unfold HEAP_BLOCK_SIZE. lia.
    + intros c Hc'. rewrite <- (Hc c Hc'). apply (Hg q n _ HLq). unfold HEAP_BLOCK_SIZE. lia.
Qed.

(** The vector and its strings in the block [A] of the new process. *)
Definition args_ready (strs : list (list Z)) (m : gmap Z Z) (A : Z) : Prop :=
  forall i str, strs !! i = Some str ->
    PhysMem.load32 m (A + 4 * Z.of_nat i) = COMMAND_LINE_ARG_VIRTUAL_ADDR + 20 + 32 * Z.of_nat i /\
    forall c, (c <= length str)%nat -> PhysMem.load8 m (A + 20 + 32 * Z.of_nat i + Z.of_nat c) = default 0 (str !! c).

(** A block that was free holds nothing of the arguments. *)
Lemma arguments_args_at strs argv L L0 r (kk k' : kmem) m0 A :
  arguments strs argv L0 (mem kk) -> guarded_rep L0 m0 r kk L -> new_block kk k' (L ∪ L0) A 180 -> strs <> [] ->
  args_at (mem k') A argv strs.
Proof.
  intros Ha G Hnb Hs. pose proof (nb_range _ _ _ _ _ Hnb) as (A1 & A2 & A3). change (Heap.blocks_for 180) with 1%nat in A2.
  unfold HEAP_BLOCK_SIZE in A2. pose proof G as [G1 G2 _ _].
  assert (Hout : forall q n a, L0 !! q = Some n -> (0 < n)%nat -> q <= a < q + 4096 -> ~ (A <= a < A + 180)).
  { intros q n a Hq Hn Ha' Hin. eapply (live_not_free kk (L ∪ L0) q n a G1); [by apply lookup_union_Some_r|unfold HEAP_BLOCK_SIZE; lia|].
    apply (nb_size _ _ _ _ _ Hnb ltac:(lia)). lia. }
  assert (Hk : guarded L0 (mem kk) (mem k')).
  { intros q n a Hq Ha'. rewrite (nb_load _ _ _ _ _ Hnb), bool_decide_false; [done|]. intros Hin.
    eapply (live_not_free kk (L ∪ L0) q n a G1); [by apply lookup_union_Some_r|exact Ha'|].
    by apply (nb_size _ _ _ _ _ Hnb ltac:(lia)). }
  destruct (arguments_guarded _ _ _ _ _ _ Ha (reflexivity L0) Hk) as [C1 C2 C3]. destruct (C2 Hs) as (n & Hn & Hn0).
  destruct (live_range kk (L ∪ L0) argv n G1) as [V1 V2]; [by apply lookup_union_Some_r|].
  unfold HEAP_BLOCK_SIZE in V2. constructor; [lia|done|lia| |].
  - intros a Ha'. apply (Hout argv n); [done|done|lia].
  - intros i' str Hi. destruct (C3 i' str Hi) as (D1 & D2 & q & n' & Hq & HLq & Hn' & Hc). rewrite Hq.
    destruct (live_range kk (L ∪ L0) q n' G1) as [W1 W2]; [by apply lookup_union_Some_r|]. unfold HEAP_BLOCK_SIZE in W2.
    split; [done|]. split; [done|]. split; [lia|]. intros c Hc'. split; [by apply Hc|]. apply (Hout q n'); [done|done|lia].
Qed.

Section Slot.
Context {D : Type}.

Lemma wp_put_process (s : sys D) slot q y (Q : unit -> sys D -> Prop) :
  processes s !! slot = Some y -> Q tt (set_processes (<[slot := q]> (processes s)) s) ->
  wp (put_process (Z.of_nat slot) q) s Q.
Proof.
  intros Hs HQ. unfold wp, put_process. apply lookup_lt_Some in Hs. rewrite decide_True by lia. by rewrite Nat2Z.id.
Qed.

End Slot.

Section Start.
Context {D : Type} {Po : PortIO D} {Ad : AtaDrive D}.
#[local] Abbreviation St := (sys D).
Context (img : list Z) (p : Z) (fp : fat_private) (entries : list Z) (base ext : nat -> list Z)
  (nm : list Z) (k : nat) (T : list Z) (i : nat).
#[local] Abbreviation image := (LoadProofs.image img fp entries k).
#[local] Abbreviation size := (Fat16.filesize (take 32 (drop (32 * k) entries))).
#[local] Abbreviation blocks := (Heap.blocks_for size).
#[local] Abbreviation file_at := (LoadProofs.file_at img fp entries k).
#[local] Abbreviation ready := (LoadProofs.ready img p fp entries T).
#[local] Abbreviation file_loaded := (LoadProofs.file_loaded img p fp entries k T).
#[local] Abbreviation entry_point := (e_entry image 0).

Hypothesis Hlisted : listed img fp entries base ext nm k T i.
Hypothesis Hexec : executable img fp entries k.
Hypothesis Hsegments : forall j, Z.of_nat j < e_phnum image 0 -> segment_fits img fp entries k j.

(** The arguments, and where the caller keeps them. *)
Context (strs : list (list Z)) (argv : Z).
#[local] Abbreviation argc := (Z.of_nat (length strs)).

(** ** What the program sees *)

#[local] Abbreviation process_maps := (LaunchProofs.process_maps img fp entries k).
#[local] Abbreviation phdr j := (e_phoff image 0 + 32 * Z.of_nat j).
#[local] Abbreviation segment := (LaunchProofs.segment img fp entries k).
#[local] Abbreviation segments := (LaunchProofs.segments img fp entries k).

(** What a program finds in memory when it starts. *)
Record program_memory (m : gmap Z Z) (x : process) (buf d pgd : Z) : Prop := {
  pm_tables : desc_wf m d pgd;
  pm_read va : 0 <= va < 4294967296 ->
    user_access 5 m pgd va = Some (frame_of (process_maps buf (stack_addr x) (arg_block x)) va);
  pm_write va pa : 0 <= va < 4294967296 -> user_write m pgd va = Some pa ->
    exists mp, mp ∈ process_maps buf (stack_addr x) (arg_block x) /\ covers mp (page_of va) /\
      Z.land (mp_flags mp) 7 = 7 /\ pa = mp_pa mp + (va - mp_va mp);
  pm_file : file_at m buf;
  pm_buffer : page buf /\ buf <= 2147483648;
  pm_stack : stack_ready argc m (stack_addr x);
  pm_args : args_ready strs m (arg_block x)
}.

(** The address [va] is byte [b] of segment [j], in a page that no later segment
    shares. *)
Record segment_byte (buf : Z) (j : nat) (b va : Z) : Prop := {
  sb_segment : Z.of_nat j < e_phnum image 0;
  sb_address : va = p_vaddr image (phdr j) + b;
  sb_byte : 0 <= b < p_memsz image (phdr j);
  sb_aligned : p_vaddr image (phdr j) mod 4096 = p_offset image (phdr j) mod 4096;
  sb_last j' : (j < j')%nat -> Z.of_nat j' < e_phnum image 0 -> ~ covers (segment buf j') (page_of va)
}.

(** Under the segments and [maps], only the last segment that covers the page counts. *)
Lemma frame_of_segments buf maps va n : forall j, (j < n)%nat -> covers (segment buf j) (page_of va) ->
  (forall j', (j < j' < n)%nat -> ~ covers (segment buf j') (page_of va)) ->
  frame_of (segments buf n ++ maps) va = mp_pa (segment buf j) + (va - mp_va (segment buf j)).
Proof.
  induction n as [|n IH]; intros j Hj Hc Hno; [lia|]. cbn [LaunchProofs.segments app frame_of].
  destruct (decide (j = n)) as [->|Hne]; [by rewrite bool_decide_true|].
  rewrite bool_decide_false by (apply Hno; lia). apply IH; [lia|done|]. intros j' Hj'. apply Hno. lia.
Qed.

Lemma frame_of_no_segment buf maps va n : (forall j, (j < n)%nat -> ~ covers (segment buf j) (page_of va)) ->
  frame_of (segments buf n ++ maps) va = frame_of maps va.
Proof.
  induction n as [|n IH]; intros Hno; [done|]. cbn [LaunchProofs.segments app frame_of].
  rewrite bool_decide_false by (apply Hno; lia). apply IH. intros j Hj. apply Hno. lia.
Qed.

Lemma segment_byte_frame buf maps j b va : page buf -> buf <= 2147483648 -> segment_byte buf j b va ->
  frame_of (segments buf (Z.to_nat (e_phnum image 0)) ++ maps) va = buf + (p_offset image (phdr j) + b).
Proof.
  intros Hb Hb2 [Hj -> Hby Hal Hlast]. pose proof (PhysMem.load16_range image (0 + 44)).
  destruct (Hsegments j Hj) as [S1 S2]. destruct (header_ranges image (phdr j)) as (R1 & R2 & R3).
  unfold page in Hb. rewrite (frame_of_segments buf maps _ _ j); [|lia| |].
  - cbn [LaunchProofs.segment mp_pa mp_va]. unfold page_of. zlia.
  - unfold covers. cbn [LaunchProofs.segment mp_pa mp_va mp_pages]. unfold page_of. clear -Hal Hby Hb R1 R2 R3. zlia.
  - intros j' Hj'. apply Hlast; [lia|]. unfold e_phnum in *. lia.
Qed.

Lemma image_byte a c : LoadProofs.file img fp entries k !! Z.to_nat a = Some c -> 0 <= a < size ->
  PhysMem.load8 image a = u8 c.
Proof.
  intros Hc Ha. pose proof (length_file _ _ _ _ _ _ _ _ _ Hlisted) as Hl. pose proof (ls_size _ _ _ _ _ _ _ _ _ Hlisted) as [_ Hz].
  unfold LoadProofs.image. rewrite PhysMem.load8_store_bytes by lia. rewrite decide_True by lia.
  by rewrite Z.sub_0_r, Hc.
Qed.

(** Where a segment is in physical memory: at its place in the buffer of the file,
    also past its end when the size in memory is larger than the rest of the file. *)
Lemma program_segment m x buf d pgd j b va : program_memory m x buf d pgd -> segment_byte buf j b va ->
  user_access 5 m pgd va = Some (buf + (p_offset image (phdr j) + b)).
Proof.
  intros [_ Hw _ Hf [Hb Hb2] _ _] Hs. pose proof Hs as [Hj Hva Hby _ _]. destruct (header_ranges image (phdr j)) as (R1 & R2 & R3).
  destruct (Hsegments j Hj) as [_ S2]. rewrite Hw by lia. unfold LaunchProofs.process_maps.
  by rewrite (segment_byte_frame buf _ j b va).
Qed.

Lemma program_bytes m x buf d pgd j b va c : program_memory m x buf d pgd ->
  segment_byte buf j b va -> LoadProofs.file img fp entries k !! Z.to_nat (p_offset image (phdr j) + b) = Some c ->
  user_byte m pgd va = Some (u8 c).
Proof.
  intros Hm Hs Hc. unfold user_byte. rewrite (program_segment _ _ _ _ _ _ _ _ Hm Hs). cbn [fmap option_fmap option_map]. f_equal.
  pose proof (lookup_lt_Some _ _ _ Hc) as Hlt. pose proof (length_file _ _ _ _ _ _ _ _ _ Hlisted) as Hl.
  destruct Hs as [Hj _ Hby _ _]. destruct (header_ranges image (phdr j)) as (R1 & R2 & R3).
  rewrite (pm_file _ _ _ _ _ Hm) by lia. apply image_byte; [done|lia].
Qed.

(** Every address outside the mappings of the process reads physical memory: the
    kernel's code and data, and other processes' memory. *)
Lemma program_reads_memory m x buf d pgd va : program_memory m x buf d pgd -> 0 <= va < 4294967296 ->
  Forall (fun mp => ~ covers mp (page_of va)) (process_maps buf (stack_addr x) (arg_block x)) ->
  user_byte m pgd va = Some (PhysMem.load8 m va).
Proof.
  intros Hm Hva Hno. unfold user_byte. rewrite (pm_read _ _ _ _ _ Hm) by done. cbn [fmap option_fmap option_map]. do 2 f_equal.
  induction Hno as [|mp maps Hc _ IH]; cbn [frame_of]; [done|]. by rewrite bool_decide_false.
Qed.

(** The stack, where no segment is in its place. *)
Lemma program_stack m x buf d pgd o : program_memory m x buf d pgd -> 0 <= o < 16384 ->
  (forall j, Z.of_nat j < e_phnum image 0 -> ~ covers (segment buf j) (page_of (TASK_STACK_VIRT_ADDR_END + o))) ->
  user_byte m pgd (TASK_STACK_VIRT_ADDR_END + o) = Some (PhysMem.load8 m (stack_addr x + o)).
Proof.
  intros [_ Hw _ _ _ _ _] Ho Hno. assert (HE : TASK_STACK_VIRT_ADDR_END = 4173824) by reflexivity.
  assert (HA : COMMAND_LINE_ARG_VIRTUAL_ADDR = 33554432) by reflexivity. pose proof (PhysMem.load16_range image (0 + 44)).
  unfold user_byte. rewrite Hw by lia. unfold LaunchProofs.process_maps.
  rewrite frame_of_no_segment by (intros j Hj; apply Hno; unfold e_phnum in *; lia). cbn [frame_of].
  rewrite bool_decide_false, bool_decide_true.
  - cbn [stack_map mp_pa mp_va fmap option_fmap option_map]. do 2 f_equal. lia.
  - unfold covers, page_of. cbn [stack_map mp_va mp_pages]. rewrite HE. zlia.
  - unfold covers, page_of. cbn [arg_map mp_va mp_pages]. rewrite HE, HA. zlia.
Qed.

(** The page of the arguments, likewise. *)
Lemma program_arguments m x buf d pgd o : program_memory m x buf d pgd -> 0 <= o < 4096 ->
  (forall j, Z.of_nat j < e_phnum image 0 -> ~ covers (segment buf j) COMMAND_LINE_ARG_VIRTUAL_ADDR) ->
  user_byte m pgd (COMMAND_LINE_ARG_VIRTUAL_ADDR + o) = Some (PhysMem.load8 m (arg_block x + o)).
Proof.
  intros [_ Hw _ _ _ _ _] Ho Hno. assert (HA : COMMAND_LINE_ARG_VIRTUAL_ADDR = 33554432) by reflexivity.
  assert (Hp : page_of (COMMAND_LINE_ARG_VIRTUAL_ADDR + o) = COMMAND_LINE_ARG_VIRTUAL_ADDR) by (unfold page_of; rewrite HA; zlia).
  pose proof (PhysMem.load16_range image (0 + 44)). unfold user_byte. rewrite Hw by lia. unfold LaunchProofs.process_maps.
  rewrite frame_of_no_segment by (intros j Hj; rewrite Hp; apply Hno; unfold e_phnum in *; lia). cbn [frame_of]. rewrite Hp.
  rewrite bool_decide_true.
  - cbn [arg_map mp_pa mp_va fmap option_fmap option_map]. do 2 f_equal. lia.
  - unfold covers. cbn [arg_map mp_va mp_pages]. lia.
Qed.

(** The path of the program, in a buffer. *)
Context (s0 junk : list Z).
#[local] Abbreviation path := (s0 ++ 0 :: junk).
Hypothesis Hchars : Forall CString.char_byte s0.
Hypothesis Hpath : PParser.path_of s0 = Some (0, [nm]).
Hypothesis Hshort : (length s0 < 128)%nat.

(** ** The parts of a process *)

Lemma wp_load_data (s : St) ps L L0 r q (Q : Z -> St -> Prop) :
  ready (fsys s) L L0 (8 + blocks + r) ->
  (forall f' LQ e ef buf, file_loaded (fsys s) f' L LQ L0 r e buf -> elf_file_buffer ef = buf ->
     Q 0 (set_procs (<[q := set_executable e 0 ELF zero_process]> ps) (set_elfs (<[e := ef]> (elfs s)) (set_fsys f' s)))) ->
  wp (process_load_data path q) (set_procs (<[q := zero_process]> ps) s) Q.
Proof.
  intros Hr HQ. unfold process_load_data, process_load_elf_executable. apply wp_bind, wp_bind.
  eapply (wp_elf_file_init img p fp entries base ext nm k T i Hlisted Hexec); [exact Hr|done|done|].
  intros f' LQ e ef buf Hfl Hef. change (0 <? 0) with false. cbv iota. apply wp_bind.
  change (set_elfs ?a (set_fsys f' (set_procs ?b s))) with (set_procs b (set_elfs a (set_fsys f' s))).
  apply wp_update_new_process, wp_ret. change (0 =? - EIFORMAT) with false. cbv iota. apply wp_ret. by eapply HQ.
Qed.

Lemma stack_ready_guarded m m' stack L0 :
  stack_ready argc m stack -> L0 !! stack = Some 4%nat -> guarded L0 m m' -> stack_ready argc m' stack.
Proof.
  intros (H1 & H2 & H3) HL Hg. assert (E : forall a, stack <= a < stack + 16384 -> PhysMem.load8 m' a = PhysMem.load8 m a).
  { intros a Ha. apply (Hg stack 4%nat a HL). change HEAP_BLOCK_SIZE with 4096. lia. }
  split_and!.
  - rewrite <- H1. apply PhysMem.load32_ext. intros a Ha. apply E. lia.
  - rewrite <- H2. apply PhysMem.load32_ext. intros a Ha. apply E. lia.
  - intros a Ha. rewrite E by lia. by apply H3.
Qed.

Lemma args_ready_guarded m m' A L0 : arguments strs argv L0 m ->
  args_ready strs m' A -> forall m2 L1, L1 !! A = Some 1%nat -> guarded L1 m' m2 -> args_ready strs m2 A.
Proof.
  intros Ha Hr m2 L1 HL Hg i' str Hi. destruct (Hr i' str Hi) as [H1 H2]. pose proof (ag_count _ _ _ _ Ha).
  destruct (ag_string _ _ _ _ Ha i' str Hi) as (_ & Hl & _). pose proof (lookup_lt_Some _ _ _ Hi).
  assert (E : forall a, A <= a < A + 4096 -> PhysMem.load8 m2 a = PhysMem.load8 m' a).
  { intros a Ha'. apply (Hg A 1%nat a HL). change HEAP_BLOCK_SIZE with 4096. lia. }
  split; [rewrite <- H1; apply PhysMem.load32_ext; intros a Ha'; apply E; lia|].
  intros c Hc. rewrite E by lia. by apply H2.
Qed.

(** A stack with its two words. *)
Lemma wp_new_stack (s : St) L L0 r {A} (E : M St A) (K : Z -> M St A) (Q : A -> St -> Prop) :
  ready (fsys s) L L0 (4 + r) -> (length strs <= 5)%nat ->
  (forall stack k', ready (set_heap (fsys s) k' (objs (fsys s))) L (<[stack := 4%nat]> L0) r ->
     guarded L0 (phys s) (mem k') -> stack_ready argc (mem k') stack -> L0 !! stack = None ->
     page stack -> 0 < stack -> stack + 16384 <= 2147483648 -> wp (K stack) (with_kmem k' s) Q) ->
  wp (stack ← on_mem (kzalloc TASK_STACK_SIZE);
      if stack =? 0 then E
      else _ ← put_argv_argc_in_stack_mem stack argc COMMAND_LINE_ARG_VIRTUAL_ADDR; K stack) s Q.
Proof.
  intros Hr H5 HQ. pose proof (rd_rep _ _ _ _ _ _ _ _ _ Hr) as G. apply wp_bind. change TASK_STACK_SIZE with 16384.
  eapply wp_ready_alloc; [exact Hr|lia|change (Heap.blocks_for 16384) with 4%nat; lia|].
  change (Heap.blocks_for 16384) with 4%nat. intros stack k1 Hnb Hr1 Hg1. replace (4 + r - 4)%nat with r in Hr1 by lia.
  pose proof (nb_range _ _ _ _ _ Hnb) as (S1 & S2 & S3). pose proof (nb_fresh _ _ _ _ _ Hnb) as [_ S4]%lookup_union_None.
  change (Heap.blocks_for 16384) with 4%nat in S2. unfold HEAP_BLOCK_SIZE in S2, S3.
  rewrite (proj2 (Z.eqb_neq stack 0)) by lia. apply wp_bind, wp_put_args; [lia|lia|lia|].
  intros m Hm M1 M2. change (phys (with_kmem k1 s)) with (mem k1) in Hm.
  apply (HQ stack (set_mem k1 m)); [| | |done|unfold page; lia|lia|lia].
  - exact (ready_write _ _ _ _ _ _ _ _ _ _ Hr1).
  - eapply guarded_extends; [exact G|]. intros a Ha. cbn [mem set_mem].
    assert (Hout : ~ (stack <= a < stack + 16384)).
    { intros Hin. apply Ha, (nb_size _ _ _ _ _ Hnb ltac:(lia)). lia. }
    rewrite Hm by lia. by rewrite (nb_load _ _ _ _ _ Hnb), bool_decide_false.
  - split_and!; [done|done|]. intros a Ha. cbn [mem set_mem]. rewrite Hm by lia.
    by rewrite (nb_load _ _ _ _ _ Hnb), bool_decide_true by lia.
Qed.

(** The stack and the block for arguments of a new process. *)
Record parts (f f' : kst kmem D) (L L0 : gmap Z nat) (r : nat) (stack args : Z) : Prop := {
  pt_ready : ready f' L (<[args := 1%nat]> (<[stack := 4%nat]> L0)) r;
  pt_kept : guarded L0 (mem (k_alloc f)) (mem (k_alloc f'));
  pt_stack : stack_ready argc (mem (k_alloc f')) stack;
  pt_args : args_ready strs (mem (k_alloc f')) args;
  pt_fresh : L0 !! stack = None /\ (<[stack := 4%nat]> L0) !! args = None;
  pt_stack_range : page stack /\ 0 < stack /\ stack + 16384 <= 2147483648;
  pt_args_range : page args /\ 0 < args /\ args + 4096 <= 2147483648
}.

(** The process in the slot [slot], before it has a task. *)
Definition new_process (e stack args slot : Z) : process :=
  Process (u16 slot) (s0 ++ replicate (128 - length s0) 0) 0
    (replicate (Z.to_nat PROCESS_MAX_ALLOCATIONS) (MemAllocation 0 0)) e stack 0 ELF Keyboard.empty_buffer
    argc (if argc =? 0 then 0 else argv) args.

Lemma copy_filename :
  CString.strncpy (replicate (Z.to_nat MAX_FILE_PATH_CHARS) 0) path MAX_FILE_PATH_CHARS =
    Ok (s0 ++ replicate (128 - length s0) 0).
Proof.
  change (Z.to_nat MAX_FILE_PATH_CHARS) with 128%nat. rewrite (CString.strncpy_cstring _ _ s0).
  - change (Z.to_nat MAX_FILE_PATH_CHARS) with 128%nat. rewrite take_ge, Nat.min_r, drop_replicate by lia.
    change (0 :: replicate ?n 0) with (replicate (S n) 0). do 3 f_equal. lia.
  - split; [by apply CString.char_byte_nonzero|by exists junk].
  - done.
  - rewrite length_replicate. change (Z.to_nat MAX_FILE_PATH_CHARS) with 128%nat. lia.
Qed.

(** The arguments are copied into their block. *)
Lemma wp_load_args (s : St) k' L L0 m0 r A ps (Q : unit -> St -> Prop) :
  guarded_rep L0 m0 r (k_alloc (fsys s)) L -> arguments strs argv L0 (phys s) ->
  new_block (k_alloc (fsys s)) k' (L ∪ L0) A 180 ->
  (forall m, guarded L0 (phys s) m -> args_ready strs m A -> Q tt (set_procs ps (with_kmem (set_mem k' m) s))) ->
  wp (load_arg_block A argc (if argc =? 0 then 0 else argv)) (set_procs ps (with_kmem k' s)) Q.
Proof.
  intros G Hag Hnb HQ. pose proof (gr_apart _ _ _ _ _ G) as Hdis.
  assert (Hm : forall m, (forall a, ~ (A <= a < A + 180) -> PhysMem.load8 m a = PhysMem.load8 (mem k') a) -> guarded L0 (phys s) m).
  { intros m Hm q n a Hq Ha. assert (Hout : ~ (A <= a < A + 180)).
    { intros Hin. eapply (live_not_free _ (L ∪ L0) q n a (gr_rep _ _ _ _ _ G)); [by apply lookup_union_Some_r|exact Ha|].
      by apply (nb_size _ _ _ _ _ Hnb ltac:(lia)). }
    rewrite Hm by done. by rewrite (nb_load _ _ _ _ _ Hnb), bool_decide_false. }
  destruct strs as [|str l] eqn:E.
  - apply wp_ret. replace k' with (set_mem k' (mem k')) by (by destruct k'). apply (HQ (mem k')); [by apply Hm|intros ? ?; done].
  - rewrite <- E in *. assert (Hne : strs <> []) by (by rewrite E).
    rewrite (proj2 (Z.eqb_neq argc 0)) by (rewrite E; simpl; lia).
    pose proof (arguments_args_at _ _ _ _ _ _ _ _ _ Hag G Hnb Hne) as Hat.
    destruct (load_arg_block_ok (set_procs ps (with_kmem k' s)) A argv strs Hat) as (m & Hrun & Hl & Ho).
    eapply wp_of_run; [exact Hrun|]. apply (HQ m); [by apply Hm|]. intros i' str' Hi. apply Hl; [by eapply lookup_lt_Some|done].
Qed.

Lemma wp_process_parts (s : St) ps L L0 r q e slot {A} (E : M St A) (K : M St A) (Q : A -> St -> Prop) :
  ready (fsys s) L L0 (5 + r) -> arguments strs argv L0 (phys s) ->
  (forall f' stack args, parts (fsys s) f' L L0 r stack args ->
     wp K (set_procs (<[q := new_process e stack args slot]> ps) (set_fsys f' s)) Q) ->
  wp (stack ← on_mem (kzalloc TASK_STACK_SIZE);
      if stack =? 0 then E
      else
        _ ← put_argv_argc_in_stack_mem stack argc COMMAND_LINE_ARG_VIRTUAL_ADDR;
        _ ← update_process q (set_args argc (if argc =? 0 then 0 else argv));
        x ← load_process q;
        name ← lift_outcome (CString.strncpy (p_filename x) path MAX_FILE_PATH_CHARS);
        _ ← update_process q (set_p_filename name);
        _ ← update_process q (set_stack_addr stack);
        _ ← update_process q (set_pid (u16 slot));
        arg_block ← on_mem (kzalloc len_arg_block);
        _ ← update_process q (set_arg_block arg_block);
        if arg_block =? 0 then E
        else
          x ← load_process q;
          _ ← load_arg_block arg_block (p_argc x) (p_argv x);
          K) (set_procs (<[q := set_executable e 0 ELF zero_process]> ps) s) Q.
Proof.
  intros Hr Hag HQ. eapply (wp_new_stack _ _ _ (1 + r)); [exact Hr|apply Hag|]. intros stack k1 Hr1 Hg1 Hst Hfr S1 S2 S3.
  change (with_kmem k1 (set_procs ?a s)) with (set_procs a (with_kmem k1 s)).
  apply wp_bind, wp_update_new_process, wp_bind. eapply wp_load_process; [apply lookup_insert_eq|].
  apply wp_bind. eapply wp_lift; [exact copy_filename|].
  apply wp_bind, wp_update_new_process, wp_bind, wp_update_new_process, wp_bind, wp_update_new_process, wp_bind.
  change len_arg_block with 180.
  eapply (wp_ready_alloc img p fp entries T); [exact Hr1|lia|change (Heap.blocks_for 180) with 1%nat; lia|].
  change (Heap.blocks_for 180) with 1%nat. intros args k2 Hnb Hr2 Hg2. replace (1 + r - 1)%nat with r in Hr2 by lia.
  pose proof (nb_range _ _ _ _ _ Hnb) as (A1 & A2 & A3). pose proof (nb_fresh _ _ _ _ _ Hnb) as [_ A4]%lookup_union_None.
  change (Heap.blocks_for 180) with 1%nat in A2. unfold HEAP_BLOCK_SIZE in A2, A3.
  change (with_kmem k2 (set_procs ?a ?b)) with (set_procs a (with_kmem k2 b)).
  apply wp_bind, wp_update_new_process. rewrite (proj2 (Z.eqb_neq args 0)) by lia.
  apply wp_bind. eapply wp_load_process; [apply lookup_insert_eq|]. apply wp_bind.
  pose proof (arguments_guarded _ _ _ _ _ _ Hag (insert_subseteq _ stack 4%nat Hfr) Hg1) as Hag1.
  eapply (wp_load_args (with_kmem k1 s)); [exact (rd_rep _ _ _ _ _ _ _ _ _ Hr1)|exact Hag1|exact Hnb|].
  intros m Hm Hargs.
  apply (HQ (set_heap (fsys s) (set_mem k2 m) (objs (fsys s))) stack args). constructor; cbn [k_alloc set_heap mem set_mem]; try done.
  - exact (ready_write _ _ _ _ _ _ _ _ _ _ Hr2).
  - eapply guarded_trans; [exact Hg1|by apply insert_subseteq|exact Hm].
  - eapply stack_ready_guarded; [exact Hst|apply lookup_insert_eq|exact Hm].
  - split; [unfold page|]; lia.
Qed.

(** ** The task of a process *)

(** The process's address space, in page tables of its own. *)
Record attached (f f' : kst kmem D) (L L0 L1 : gmap Z nat) (r : nat) (x : process) (buf t d pgd : Z) : Prop := {
  at_ready : ready f' L L1 r;
  at_subset : L0 ⊆ L1;
  at_kept : guarded L0 (mem (k_alloc f)) (mem (k_alloc f'));
  at_space : exists k0, space k0 (k_alloc f') d pgd (process_maps buf (stack_addr x) (arg_block x));
  at_apart a n b : (L ∪ L0) !! a = Some n -> a <= b < a + HEAP_BLOCK_SIZE * Z.of_nat n -> ~ in_paging (mem (k_alloc f')) d pgd b;
  at_desc : L1 !! d = Some 1%nat;
  at_used a : in_paging (mem (k_alloc f')) d pgd a -> ~ in_free (k_alloc f') a /\ Heap.start_addr (kernel_heap (k_alloc f')) <= a;
  at_task : L0 !! t = None /\ L1 !! t = Some 1%nat /\ 0 < t < 2147483648
}.

Definition in_memory (x : process) : Prop :=
  (page (stack_addr x) /\ 0 < stack_addr x /\ stack_addr x + 16384 <= 2147483648) /\
  (page (arg_block x) /\ 0 < arg_block x /\ arg_block x + 4096 <= 2147483648).

(** Mapping leaves the memory of others alone. *)
Lemma attached_intro f f1 k' L L0 L1 r x buf t d pgd :
  tables_made img p fp entries T f f1 L L0 L1 r d pgd ->
  space (k_alloc f1) k' d pgd (process_maps buf (stack_addr x) (arg_block x)) ->
  L0 !! t = None -> L1 !! t = Some 1%nat -> 0 < t < 2147483648 ->
  attached f (set_heap f1 k' (objs f1)) L L0 L1 r x buf t d pgd.
Proof.
  intros [M1 M2 M3 M4 M5 M7 M6] Hsp Ht0 Ht1 Ht.
  assert (Hin : forall a, in_paging (mem k') d pgd a -> in_paging (mem (k_alloc f1)) d pgd a).
  { intros a [Ha|[Ha|(j & Hj & Hja)]]; [by left|by right; left|]. right. right. exists j. by rewrite <- (sp_tables _ _ _ _ _ Hsp). }
  constructor; cbn [k_alloc set_heap]; try done.
  - replace k' with (set_mem (k_alloc f1) (mem k')); [by apply ready_write|].
    destruct k'. unfold set_mem. f_equal. symmetry. apply Hsp.
  - intros q n a Hq Ha. rewrite (sp_frame _ _ _ _ _ Hsp); [by eapply M3|]. intros Ht'. eapply (M5 q n a); [|exact Ha|by right; right].
    apply lookup_union_Some_r; [eapply map_disjoint_weaken_r; [apply M1|exact M2]|exact Hq].
  - by eexists.
  - intros a n b Ha Hb Hi. by apply (M5 a n b Ha Hb), Hin.
  - intros a Ha. replace (kernel_heap k') with (kernel_heap (k_alloc f1)) by (symmetry; apply Hsp).
    unfold in_free. replace (kernel_heap k') with (kernel_heap (k_alloc f1)) by (symmetry; apply Hsp). by apply M6, Hin.
Qed.

Lemma wp_attach (s : St) ps L L0 r q x buf {A} (E : Z -> M St A) (K : Z -> M St A) (Q : A -> St -> Prop) :
  ready (fsys s) L L0 (1027 + r) -> process_loaded img fp entries k (set_procs (<[q := x]> ps) s) L0 q x buf ->
  buf + size <= 2147483648 -> in_memory x ->
  (task_list_head s <> 0 -> is_Some (tasks s !! task_list_tail s)) -> dom (tasks s) ⊆ dom L0 ->
  (forall f' L1 t d pgd, attached (fsys s) f' L L0 L1 r x buf t d pgd ->
     wp (K 0) (with_task t (new_task d entry_point q) f' (set_procs (<[q := set_p_task t x]> ps) s)) Q) ->
  wp (task ← Task.task_new q;
      if task <? 0 then E (ERROR_I task)
      else
        _ ← update_process q (set_p_task task);
        rc ← process_map_task_memory q;
        if rc <? 0 then E rc else K rc) (set_procs (<[q := x]> ps) s) Q.
Proof.
  intros Hr Hp Hb [(X1 & X2 & X3) (X4 & X5 & X6)] Htail Hdom HQ. pose proof Hp as [P1 P2 (ef & P3 & P4) P5 [P6 P7]].
  apply wp_bind. eapply (wp_task_new img p fp entries base ext nm k T i Hlisted Hexec); [exact Hr|exact Hp|exact Htail|exact Hdom|].
  intros f1 L1 t d pgd Hm Ht0 Ht1 Ht. rewrite (proj2 (Z.ltb_ge t 0)) by lia.
  pose proof Hm as [M1 M2 M3 M4 M5]. set (tk := new_task d entry_point q).
  apply wp_bind. eapply (wp_update_process q x).
  { rewrite (proj1 (with_task_fields t tk f1 _)). apply lookup_insert_eq. }
  rewrite with_task_procs, (proj1 (with_task_fields t tk f1 _)). cbn [procs set_procs]. rewrite insert_insert_eq.
  change (set_procs ?a (set_procs ?b s)) with (set_procs a s). set (s2 := set_procs _ s).
  assert (Hne : task_list_head s <> 0 -> task_list_tail s <> t).
  { intros Hh E'. destruct (Htail Hh) as [u Hu]. rewrite E' in Hu.
    assert (Hin : t ∈ dom L0) by (by apply Hdom, elem_of_dom). apply elem_of_dom in Hin as [? ?]. congruence. }
  destruct (with_task_fields t tk f1 s2) as (F1 & F2 & F3 & F4).
  destruct (with_task_lookup t tk f1 s2 Hne) as (tk' & G1 & G2 & _).
  assert (Hat : process_at (with_task t tk f1 s2) q (set_p_task t x) buf d).
  { constructor; [rewrite F1; apply lookup_insert_eq|exists ef; by rewrite F2|by exists tk']. }
  assert (Hf : file_at (mem (k_alloc f1)) buf) by (eapply file_at_guarded; [exact Hlisted|exact P5|exact P6|exact M3]).
  pose proof (ls_size _ _ _ _ _ _ _ _ _ Hlisted) as [Hz Hz2].
  apply wp_bind. eapply (wp_map_task_memory img fp entries k Hexec Hsegments (k_alloc f1) d pgd buf);
    [lia|exact Hf| |exact Hat|exact P2|by rewrite F3|exact X1|exact X2|exact X3|exact X4|exact X5|exact X6|].
  { intros a Ha Hin. apply (M5 buf blocks a); [by apply lookup_union_Some_r; [apply Hr|]| |by right; right]. pose proof (blocks_for_bounds size ltac:(lia)) as (_ & Hbs & _).
    unfold HEAP_BLOCK_SIZE. lia. }
  intros k' Hsp. change (0 <? 0) with false. cbv iota. rewrite with_task_mem. by eapply (HQ _ L1), attached_intro.
Qed.

(** ** [process_load] *)

(** A state in which programs can be loaded: the tasks are allocations of [L0],
    and the last one of the list is a task. *)
Record can_load (s : St) (L L0 : gmap Z nat) (r : nat) : Prop := {
  cl_ready : ready (fsys s) L L0 r;
  cl_tail : task_list_head s <> 0 -> is_Some (tasks s !! task_list_tail s);
  cl_tasks : dom (tasks s) ⊆ dom L0
}.

(** The blocks a program takes: the process 3, its file with the struct
    [elf_file] and the allocations of [fopen], which are freed again, the stack 4,
    the block for arguments 1, the task 1 and its page tables 1026. *)
Definition load_blocks : nat := 1043 + blocks.

Lemma segments_readable buf n : 0 <= buf <= 2147483648 -> Z.of_nat n <= e_phnum image 0 ->
  Forall readable (segments buf n).
Proof.
  intros Hb Hn. induction n as [|n IH]; cbn [LaunchProofs.segments]; [done|]. apply Forall_cons. split; [|apply IH; lia]. split.
  - by apply (segment_mapping img fp entries k Hsegments); [|lia].
  - cbn [LaunchProofs.segment mp_flags]. by destruct (negb _).
Qed.

Lemma maps_readable x buf : 0 <= buf <= 2147483648 -> in_memory x ->
  Forall readable (process_maps buf (stack_addr x) (arg_block x)).
Proof.
  intros Hb [(X1 & X2 & X3) (X4 & X5 & X6)]. pose proof (PhysMem.load16_range image (0 + 44)).
  apply Forall_app. split; [apply segments_readable; [done|unfold e_phnum in *; lia]|].
  apply Forall_cons. split; [|apply Forall_singleton]; (split; [|done]); apply block_map; done || lia.
Qed.

(** The state with the new process. *)
Definition with_process (slot : nat) (q : Z) (x : process) (e : Z) (ef : elf_file) (s : St) : St :=
  set_processes (<[slot := q]> (processes s)) (set_procs (<[q := x]> (procs s)) (set_elfs (<[e := ef]> (elfs s)) s)).

Lemma can_load_with_task (s : St) L L0 LQ L1 r r' t tk f slot q x e ef :
  can_load s L L0 r -> ready f LQ L1 r' -> L0 ⊆ L1 -> L0 !! t = None -> is_Some (L1 !! t) ->
  can_load (with_task t tk f (with_process slot q x e ef s)) LQ L1 r'.
Proof.
  intros [H1 H2 H3] Hr HL Ht0 Ht. set (s' := with_process slot q x e ef s).
  destruct (with_task_fields t tk f s') as (_ & _ & F & _). destruct (with_task_tasks t tk f s') as [F1 F2].
  constructor.
  - by rewrite F.
  - intros _. rewrite F2. apply elem_of_dom. rewrite F1. by apply elem_of_union_l, elem_of_singleton.
  - rewrite F1. apply union_subseteq. split; [by apply singleton_subseteq_l, elem_of_dom|].
    change (tasks s') with (tasks s). etrans; [exact H3|]. by apply subseteq_dom.
Qed.

(** The blocks of a process, without its task and the task's page tables. *)
Definition own (q : Z) (x : process) (buf : Z) : list (Z * nat) :=
  [(arg_block x, 1%nat); (stack_addr x, 4%nat); (buf, blocks); (p_executable x, 1%nat); (q, 3%nat)].

(** The blocks [l] are live and new since [L0]. *)
Definition new_since (L0 L1 : gmap Z nat) (l : list (Z * nat)) : Prop :=
  NoDup l.*1 /\ forall a n, (a, n) ∈ l -> L1 !! a = Some n /\ L0 !! a = None.

(** The page tables at [d] and [pgd] hold heap memory that is not free, apart from
    the allocations [L] and [L0] and the blocks [l]. *)
Definition tables_apart (s : St) (L L0 : gmap Z nat) (l : list (Z * nat)) (d pgd : Z) : Prop :=
  (forall a n b, L !! a = Some n \/ L0 !! a = Some n \/ (a, n) ∈ l -> a <= b < a + HEAP_BLOCK_SIZE * Z.of_nat n ->
     ~ in_paging (phys s) d pgd b) /\
  forall a, in_paging (phys s) d pgd a ->
    ~ in_free (k_alloc (fsys s)) a /\ Heap.start_addr (kernel_heap (k_alloc (fsys s))) <= a.

(** The program is loaded as process [q], the value [x], in the slot [slot], with
    the task [t]; the memory of the allocations [L0] is as it was. *)
Record started (s s' : St) (slot : nat) (L L0 : gmap Z nat) (r : nat) (q : Z) (x : process) (buf t d pgd : Z) : Prop := {
  sd_state : exists e ef f, elf_file_buffer ef = buf /\ p_executable x = e /\
    s' = with_task t (new_task d entry_point q) f (with_process slot q x e ef s);
  sd_process : exists e stack args, x = set_p_task t (new_process e stack args (Z.of_nat slot));
  sd_memory : program_memory (phys s') x buf d pgd;
  sd_kept : guarded L0 (phys s) (phys s');
  sd_next : exists LQ L1, can_load s' LQ L1 r /\ L ⊆ LQ /\ L0 ⊆ L1 /\
    new_since L0 L1 ((t, 1%nat) :: own q x buf) /\
    tables_apart s' LQ L0 (own q x buf) d pgd /\ L1 !! d = Some 1%nat
}.

#[local] Abbreviation with_file L e buf := (<[buf := blocks]> (<[e := 1%nat]> L)).

(** Blocks allocated one after the other. *)
Lemma new_since_weaken L0 L L1 l : new_since L0 L l -> L ⊆ L1 -> new_since L0 L1 l.
Proof. intros [H1 H2] HL. split; [done|]. intros a n Ha. destruct (H2 a n Ha). split; [by eapply lookup_weaken|done]. Qed.

Lemma new_since_insert L0 L a n l : new_since L0 L l -> L0 ⊆ L -> L !! a = None ->
  new_since L0 (<[a := n]> L) ((a, n) :: l).
Proof.
  intros Hn HL Ha. pose proof (new_since_weaken _ _ _ _ Hn (insert_subseteq L a n Ha)) as [H1 H2]. destruct Hn as [_ H3]. split.
  - apply NoDup_cons_2; [|exact H1]. intros ([b n'] & E & Hb)%list_elem_of_fmap. simpl in E. subst b. destruct (H3 _ _ Hb). congruence.
  - intros b n' [E|Hb]%elem_of_cons; [|by apply H2]. injection E as -> ->. split; [apply lookup_insert_eq|by eapply lookup_weaken_None].
Qed.

Lemma new_since_own L0 q e buf stack args x : L0 !! q = None -> (<[q := 3%nat]> L0) !! e = None ->
  (<[e := 1%nat]> (<[q := 3%nat]> L0)) !! buf = None -> (with_file (<[q := 3%nat]> L0) e buf) !! stack = None ->
  (<[stack := 4%nat]> (with_file (<[q := 3%nat]> L0) e buf)) !! args = None ->
  p_executable x = e -> stack_addr x = stack -> arg_block x = args ->
  new_since L0 (<[args := 1%nat]> (<[stack := 4%nat]> (with_file (<[q := 3%nat]> L0) e buf))) (own q x buf).
Proof.
  intros H1 H2 H3 H4 H5 <- <- <-.
  pose proof (insert_subseteq _ q 3%nat H1) as U1. pose proof (transitivity U1 (insert_subseteq _ _ 1%nat H2)) as U2.
  pose proof (transitivity U2 (insert_subseteq _ buf blocks H3)) as U3.
  pose proof (transitivity U3 (insert_subseteq _ _ 4%nat H4)) as U4.
  do 5 (apply new_since_insert; [|assumption || reflexivity|assumption]).
  split; [apply NoDup_nil_2|]. by intros a n Ha%not_elem_of_nil.
Qed.

Lemma started_intro (s : St) k1 f2 f3 f4 slot L L0 LQ L1 r q e ef buf stack args t d pgd :
  can_load s L L0 (load_blocks + r) ->
  arguments strs argv L0 (phys s) ->
  new_block (k_alloc (fsys s)) k1 (L ∪ L0) q sizeof_process -> guarded L0 (phys s) (mem k1) ->
  file_loaded (set_heap (fsys s) k1 (objs (fsys s))) f2 L LQ (<[q := 3%nat]> L0) (5 + (1027 + r)) e buf ->
  elf_file_buffer ef = buf ->
  parts f2 f3 LQ (with_file (<[q := 3%nat]> L0) e buf) (1027 + r) stack args ->
  attached f3 f4 LQ (<[args := 1%nat]> (<[stack := 4%nat]> (with_file (<[q := 3%nat]> L0) e buf))) L1 r
    (new_process e stack args (Z.of_nat slot)) buf t d pgd ->
  let x := set_p_task t (new_process e stack args (Z.of_nat slot)) in
  started s (with_task t (new_task d entry_point q) f4 (with_process slot q x e ef s)) slot L L0 r q x buf t d pgd.
Proof.
  intros Hc Hag Hn G1 [F1 F2 F3 F4 [F5 F5'] (F6 & F7 & F8)] Hef [P1 P2 P3 Pa [P4 P4'] P5 P6] [A1 A2 A3 (k0 & A4) Ap Ad' Au (A5 & A6 & A7)] x.
  pose proof (nb_fresh _ _ _ _ _ Hn) as [_ Hq]%lookup_union_None.
  set (tk := new_task d entry_point q). set (s1 := with_process slot q x e ef s).
  destruct (with_task_fields t tk f4 s1) as (_ & _ & Fs & _).
  assert (Hphys : phys (with_task t tk f4 s1) = mem (k_alloc f4)) by (unfold phys; by rewrite Fs).
  pose proof (insert_subseteq _ args 1%nat P4') as U4. pose proof (insert_subseteq _ stack 4%nat P4) as U3.
  pose proof (insert_subseteq _ buf blocks F5') as U2'. pose proof (insert_subseteq _ e 1%nat F5) as U2.
  pose proof (insert_subseteq _ q 3%nat Hq) as U1.
  pose proof (transitivity U1 (transitivity U2 (transitivity U2' (transitivity U3 U4)))) as U0.
  pose proof (transitivity U0 A2) as U.
  assert (Hbuf : (<[stack := 4%nat]> (with_file (<[q := 3%nat]> L0) e buf)) !! buf = Some blocks).
  { eapply lookup_weaken; [apply lookup_insert_eq|exact U3]. }
  assert (Hg : guarded (<[stack := 4%nat]> (with_file (<[q := 3%nat]> L0) e buf)) (mem (k_alloc f3)) (mem (k_alloc f4))).
  { eapply guarded_trans; [apply guarded_refl|exact U4|exact A3]. }
  constructor; [exists e, ef, f4; done|by exists e, stack, args| | |].
  - rewrite Hphys. assert (Hb : 0 <= buf <= 2147483648) by (unfold HEAP_BLOCK_SIZE in F8; lia). constructor.
    + apply A4.
    + intros va Hva. eapply read_space; [exact A4| |exact Hva]. by apply maps_readable.
    + intros va pa Hva. eapply write_space; [exact A4| |exact Hva]. by apply maps_readable.
    + eapply (file_at_guarded _ _ _ _ _ _ _ _ _ Hlisted); [|exact Hbuf|exact Hg].
      eapply (file_at_guarded _ _ _ _ _ _ _ _ _ Hlisted); [exact F4|apply lookup_insert_eq|exact P2].
    + by split; [|lia].
    + eapply stack_ready_guarded; [exact P3|apply lookup_insert_eq|exact Hg].
    + eapply args_ready_guarded; [exact Hag|exact Pa|apply lookup_insert_eq|exact A3].
  - rewrite Hphys. eapply guarded_trans; [exact G1|exact U1|]. eapply guarded_trans; [exact F3|exact U2|].
    eapply guarded_trans; [|exact U2'|]; [apply guarded_refl|]. eapply guarded_trans; [exact P2|exact U3|exact Hg].
  - exists LQ, L1. split; [eapply can_load_with_task; [exact Hc|exact A1|exact U|by eapply lookup_weaken_None|by eexists]|].
    split; [done|]. split; [done|].
    pose proof (new_since_own L0 q e buf stack args x Hq F5 F5' P4 P4' eq_refl eq_refl eq_refl) as Hown. split.
    + eapply new_since_weaken; [apply (new_since_insert _ _ t 1 _ Hown U0 A5)|]. by apply insert_subseteq_l.
    + split; [|exact Ad']. split; [|rewrite Hphys, Fs; exact Au]. intros a n b Ha Hb. rewrite Hphys. eapply Ap; [|exact Hb].
      destruct Ha as [Ha|Ha]; [by apply lookup_union_Some_l|]. apply lookup_union_Some_r; [apply P1|].
      destruct Ha as [Ha|Ha]; [exact (lookup_weaken _ _ _ _ Ha U0)|by apply Hown].
Qed.

Lemma wp_load_for_slot (s : St) L L0 r slot (Q : Z * Z -> St -> Prop) :
  can_load s L L0 (load_blocks + r) -> arguments strs argv L0 (phys s) -> processes s !! slot = Some 0 -> (slot < 12)%nat ->
  (forall q x buf t d pgd s', started s s' slot L L0 r q x buf t d pgd -> Q (0, q) s') ->
  wp (process_load_for_slot path (Z.of_nat slot) argc argv) s Q.
Proof.
  intros Hc Hag Hslot H12 HQ. pose proof Hc as [Hr Htail Hdom]. unfold load_blocks in Hr.
  unfold process_load_for_slot, process_get, alloc_process. change MAX_PROCESSES with 12.
  rewrite (proj2 (Z.ltb_ge (Z.of_nat slot) 0)), Z.geb_leb, (proj2 (Z.leb_gt 12 _)) by lia. cbn [orb].
  apply wp_bind, wp_bind, wp_gets. eapply wp_lift; [by rewrite Nat2Z.id, Hslot|]. change (negb (0 =? 0)) with false. cbv iota.
  apply wp_bind, wp_bind. eapply (wp_ready_alloc img p fp entries T); [exact Hr|unfold sizeof_process; lia|change (Heap.blocks_for sizeof_process) with 3%nat; lia|].
  change (Heap.blocks_for sizeof_process) with 3%nat. intros q k1 Hnb Hr1 Hg1.
  replace (1043 + blocks + r - 3)%nat with (8 + blocks + (5 + (1027 + r)))%nat in Hr1 by lia.
  pose proof (nb_range _ _ _ _ _ Hnb) as (Hq0 & _ & _). pose proof (nb_fresh _ _ _ _ _ Hnb) as [_ Hq]%lookup_union_None.
  rewrite (proj2 (Z.eqb_neq q 0)) by lia. apply wp_bind, wp_modify, wp_ret. rewrite (proj2 (Z.eqb_neq q 0)) by lia.
  change (procs (with_kmem k1 s)) with (procs s). apply wp_bind. unfold process_init. apply wp_update_new_process.
  apply wp_bind. eapply wp_load_data; [exact Hr1|]. intros f2 LQ e ef buf Hfl Hef. change (0 <? 0) with false. cbv iota.
  pose proof Hfl as [F1 F2 F3 F4 [F5 F5'] (F6 & F7 & F8)].
  assert (Hag2 : arguments strs argv (with_file (<[q := 3%nat]> L0) e buf) (mem (k_alloc f2))).
  { eapply arguments_guarded; [|exact (transitivity (insert_subseteq _ _ _ F5) (insert_subseteq _ _ _ F5'))|].
    - eapply arguments_guarded; [exact Hag|by apply insert_subseteq|exact Hg1].
    - exact F3. }
  eapply wp_process_parts; [exact F1|exact Hag2|]. intros f3 stack args Hp. pose proof Hp as [P1 P2 P3 _ [P4 P4'] P5 P6].
  pose proof (ls_size _ _ _ _ _ _ _ _ _ Hlisted) as [Hz Hz2]. pose proof (blocks_for_bounds size ltac:(lia)) as (_ & Hbs & _).
  eapply (wp_attach _ _ LQ _ r q _ buf); [exact P1| |unfold HEAP_BLOCK_SIZE in F8; lia|by split|exact Htail| |].
  - constructor; [apply lookup_insert_eq|done|exists ef; split; [apply lookup_insert_eq|done]| |split; [|done]].
    + eapply (file_at_guarded _ _ _ _ _ _ _ _ _ Hlisted); [exact F4|apply lookup_insert_eq|exact P2].
    + eapply lookup_weaken; [|by apply insert_subseteq]. eapply lookup_weaken; [|by apply insert_subseteq]. apply lookup_insert_eq.
  - cbn [tasks set_elfs set_fsys with_kmem]. rewrite !dom_insert_L. by do 5 apply union_subseteq_r'.
  - intros f4 L1 t d pgd Hat. apply wp_bind. eapply wp_put_process.
    { rewrite (proj2 (proj2 (proj2 (with_task_fields _ _ _ _)))). exact Hslot. }
    rewrite with_task_processes, (proj2 (proj2 (proj2 (with_task_fields _ _ _ _)))). apply wp_ret.
    pose proof (started_intro s k1 f2 f3 f4 slot L L0 LQ L1 r q e ef buf stack args t d pgd Hc Hag Hnb Hg1 Hfl Hef Hp Hat) as Hs.
    exact (HQ _ _ _ _ _ _ _ Hs).
Qed.

(** ** The slot *)

Lemma free_slot_loop_ok (s : St) n : forall j, (j + n = length (processes s))%nat ->
  free_slot_loop n (Z.of_nat j) s =
    Ok (match Vfs.free_slot (drop j (processes s)) j with Some i => Z.of_nat i | None => - EISTAKEN end, s).
Proof.
  induction n as [|n IH]; intros j Hj; cbn [free_slot_loop].
  - by rewrite drop_ge by lia.
  - destruct (lookup_lt_is_Some_2 (processes s) j) as [y Hy]; [lia|]. rewrite (drop_S _ y) by done. cbn [Vfs.free_slot].
    unfold mbind, M_bind, gets, lift_outcome. rewrite Nat2Z.id, Hy. simpl.
    destruct (y =? 0); [reflexivity|]. replace (Z.of_nat j + 1) with (Z.of_nat (S j)) by lia. apply IH. lia.
Qed.

Lemma get_free_slot_ok (s : St) : length (processes s) = 12%nat ->
  process_get_free_slot s = Ok (match Vfs.free_slot (processes s) 0 with Some i => Z.of_nat i | None => - EISTAKEN end, s).
Proof. intros Hl. apply (free_slot_loop_ok s 12 0). lia. Qed.

Lemma wp_process_load (s : St) L L0 r slot (Q : Z * Z -> St -> Prop) :
  can_load s L L0 (load_blocks + r) -> arguments strs argv L0 (phys s) -> length (processes s) = 12%nat -> Vfs.free_slot (processes s) 0 = Some slot ->
  (forall q x buf t d pgd s', started s s' slot L L0 r q x buf t d pgd -> Q (0, q) s') ->
  wp (process_load_with_args path argc argv) s Q.
Proof.
  intros Hc Hag Hl Hs HQ. pose proof (VfsProofs.free_slot_spec (processes s) 0) as Hf. rewrite Hs in Hf.
  destruct Hf as (H1 & H2 & _). rewrite Nat.sub_0_r in H2. unfold process_load_with_args. apply wp_bind.
  eapply wp_of_run; [by apply get_free_slot_ok|]. rewrite Hs, (proj2 (Z.ltb_ge (Z.of_nat slot) 0)) by lia.
  eapply wp_load_for_slot; [exact Hc|exact Hag|exact H2|lia|exact HQ].
Qed.

Lemma process_load_ok (s : St) L L0 r slot :
  can_load s L L0 (load_blocks + r) -> arguments strs argv L0 (phys s) -> length (processes s) = 12%nat -> Vfs.free_slot (processes s) 0 = Some slot ->
  exists q x buf t d pgd s', process_load_with_args path argc argv s = Ok ((0, q), s') /\ started s s' slot L L0 r q x buf t d pgd.
Proof.
  intros Hc Hag Hl Hs. assert (Hw : wp (process_load_with_args path argc argv) s (fun a s' => a.1 = 0 /\
    exists x buf t d pgd, started s s' slot L L0 r a.2 x buf t d pgd)).
  { eapply wp_process_load; [exact Hc|exact Hag|exact Hl|exact Hs|]. intros q x buf t d pgd s' H. split; [done|]. by exists x, buf, t, d, pgd. }
  apply wp_run in Hw as ([rc q] & s' & Hrun & Hrc & x & buf & t & d & pgd & H). cbn [fst snd] in *. subst rc.
  by exists q, x, buf, t, d, pgd, s'.
Qed.

(** The new task, found by its address. *)
Lemma started_task (s s' : St) slot L L0 r r' q x buf t d pgd :
  can_load s L L0 r' -> started s s' slot L L0 r q x buf t d pgd ->
  processes s' = <[slot := q]> (processes s) /\ procs s' = <[q := x]> (procs s) /\
  exists tk, tasks s' !! t = Some tk /\ t_paging tk = d /\ t_registers tk = start_registers entry_point /\ t_process tk = q.
Proof.
  intros Hc [(e & ef & f & _ & _ & ->) _ _ _ (LQ & L1 & _ & _ & _ & [_ Hnew] & _)].
  destruct (Hnew t 1%nat) as [_ Ht]; [by left|]. set (s1 := with_process slot q x e ef s) in *.
  destruct (with_task_fields t (new_task d entry_point q) f s1) as (F1 & _ & _ & F4).
  split; [exact F4|]. split; [exact F1|]. apply with_task_lookup. intros Hh E.
  destruct (cl_tail _ _ _ _ Hc Hh) as [u Hu]. change (task_list_tail s1) with (task_list_tail s) in E.
  rewrite E in Hu. assert (Hin : t ∈ dom L0) by (by apply (cl_tasks _ _ _ _ Hc), elem_of_dom).
  apply elem_of_dom in Hin as [? ?]. congruence.
Qed.

(** ** What the program can write *)

(** Every writable segment ends in the buffer of the file. *)
Definition writable_in_file : Prop := forall j, Z.of_nat j < e_phnum image 0 ->
  Z.land (p_flags image (phdr j)) PF_W <> 0 -> p_offset image (phdr j) + p_memsz image (phdr j) <= 4096 * Z.of_nat blocks.

Lemma in_segments buf n mp : mp ∈ segments buf n -> exists j, (j < n)%nat /\ mp = segment buf j.
Proof.
  induction n as [|n IH]; cbn [LaunchProofs.segments]; [by intros ?%not_elem_of_nil|].
  intros [->|Hin]%elem_of_cons; [by exists n; split; [lia|]|]. destruct (IH Hin) as (j & Hj & ->). exists j. split; [lia|done].
Qed.

(** A write goes to a block of the process: its file, its stack or its arguments. *)
Lemma program_write m x buf d pgd va pa : program_memory m x buf d pgd -> writable_in_file -> 0 <= buf ->
  0 <= va < 4294967296 -> user_write m pgd va = Some pa ->
  exists a n, (a, n) ∈ [(arg_block x, 1%nat); (stack_addr x, 4%nat); (buf, blocks)] /\
    a <= pa < a + HEAP_BLOCK_SIZE * Z.of_nat n.
Proof.
  intros Hm Hw Hb0 Hva Hpa. destruct (pm_write _ _ _ _ _ Hm va pa Hva Hpa) as (mp & Hin & Hc & Hf & ->).
  pose proof (pm_buffer _ _ _ _ _ Hm) as [Hb Hb2]. pose proof (PhysMem.load16_range image (0 + 44)) as H16.
  unfold covers, page_of, page, HEAP_BLOCK_SIZE in *. unfold LaunchProofs.process_maps in Hin.
  apply elem_of_app in Hin as [Hin|[->|[->|Hin%not_elem_of_nil]%elem_of_cons]%elem_of_cons]; [| | |done].
  - destruct (in_segments _ _ _ Hin) as (j & Hj & ->). assert (Hj' : Z.of_nat j < e_phnum image 0) by (unfold e_phnum in *; lia).
    exists buf, blocks. split; [by do 2 right; left|]. specialize (Hw j Hj'). destruct (header_ranges image (phdr j)) as (R1 & R2 & R3).
    cbn [LaunchProofs.segment mp_pa mp_va mp_pages mp_flags] in *. unfold page_of in *.
    destruct (Z.eqb_spec (Z.land (p_flags image (phdr j)) PF_W) 0) as [|Hp]; [discriminate|]. specialize (Hw Hp).
    clear -Hc Hw R1 R2 R3 Hb Hva. zlia.
  - exists (arg_block x), 1%nat. split; [by left|]. cbn [arg_map mp_pa mp_va mp_pages] in *.
    assert (HA : COMMAND_LINE_ARG_VIRTUAL_ADDR = 33554432) by reflexivity. rewrite HA in *. zlia.
  - exists (stack_addr x), 4%nat. split; [by right; left|]. cbn [stack_map mp_pa mp_va mp_pages] in *.
    assert (HE : TASK_STACK_VIRT_ADDR_END = 4173824) by reflexivity. rewrite HE in *. zlia.
Qed.

(** ** Theorem *)

(** C4 (refinement): [process_load_with_args] of an ELF program in the root directory
    of the mounted volume, when a slot and enough blocks are free, with at most five
    arguments of at most 31 characters; [process_load] is the case of none.  It
    returns 0 and a new process in the lowest free slot, whose task starts at the
    entry point of the file in user mode, with the tables the process was mapped in.
    Through these tables the program reads, at every address of a segment that no
    later one overlays, the byte of the file there; at the stack the new stack, with
    the number of arguments and the address of the vector above zeros; and at that
    address the vector, whose entries lead to the strings.  All memory allocated
    before is as it was, and programs can be loaded again. *)
Theorem process_load_starts (s : St) L L0 r slot :
  can_load s L L0 (load_blocks + r) -> arguments strs argv L0 (phys s) ->
  length (processes s) = 12%nat -> Vfs.free_slot (processes s) 0 = Some slot ->
  exists q x buf t tk pgd s', process_load_with_args path argc argv s = Ok ((0, q), s') /\
    processes s' = <[slot := q]> (processes s) /\ procs s' !! q = Some x /\ p_task x = t /\
    pid x = Z.of_nat slot /\ CString.cstring (p_filename x) s0 /\
    tasks s' !! t = Some tk /\ t_process tk = q /\ t_registers tk = start_registers entry_point /\
    desc_wf (phys s') (t_paging tk) pgd /\
    (forall j b va c, segment_byte buf j b va ->
       LoadProofs.file img fp entries k !! Z.to_nat (p_offset image (phdr j) + b) = Some c ->
       user_byte (phys s') pgd va = Some (u8 c)) /\
    stack_ready argc (phys s') (stack_addr x) /\
    (forall o, 0 <= o < 16384 ->
       (forall j, Z.of_nat j < e_phnum image 0 -> ~ covers (segment buf j) (page_of (TASK_STACK_VIRT_ADDR_END + o))) ->
       user_byte (phys s') pgd (TASK_STACK_VIRT_ADDR_END + o) = Some (PhysMem.load8 (phys s') (stack_addr x + o))) /\
    args_ready strs (phys s') (arg_block x) /\
    (forall o, 0 <= o < 4096 ->
       (forall j, Z.of_nat j < e_phnum image 0 -> ~ covers (segment buf j) COMMAND_LINE_ARG_VIRTUAL_ADDR) ->
       user_byte (phys s') pgd (COMMAND_LINE_ARG_VIRTUAL_ADDR + o) = Some (PhysMem.load8 (phys s') (arg_block x + o))) /\
    guarded L0 (phys s) (phys s') /\ exists LQ L1, can_load s' LQ L1 r /\ L ⊆ LQ /\ L0 ⊆ L1.
Proof.
  intros Hc Hag Hl Hs. pose proof (VfsProofs.free_slot_spec (processes s) 0) as Hf. rewrite Hs in Hf.
  destruct (process_load_ok s L L0 r slot Hc Hag Hl Hs) as (q & x & buf & t & d & pgd & s' & Hrun & Hst).
  destruct (started_task _ _ _ _ _ _ _ _ _ _ _ _ _ Hc Hst) as (F1 & F2 & tk & G1 & G2 & G3 & G4).
  destruct Hst as [_ (e & st & ar & Hx) Hm Hk (LQ & L1 & N1 & N2 & N3 & _)]. exists q, x, buf, t, tk, pgd, s'.
  split; [exact Hrun|]. split; [exact F1|]. split; [rewrite F2; apply lookup_insert_eq|]. split; [by rewrite Hx|].
  split; [rewrite Hx; cbn [pid set_p_task new_process]; unfold u16; zlia|].
  split. { rewrite Hx. split; [by apply CString.char_byte_nonzero|]. exists (replicate (127 - length s0) 0).
    cbn [p_filename set_p_task new_process]. f_equal. by replace (128 - length s0)%nat with (S (127 - length s0)) by lia. }
  split; [exact G1|]. split; [exact G4|]. split; [exact G3|]. split; [rewrite G2; apply Hm|].
  split; [by intros; eapply program_bytes|]. split; [apply Hm|].
  split; [by intros; eapply program_stack|]. split; [apply Hm|]. split; [by intros; eapply program_arguments|].
  split; [exact Hk|]. by exists LQ, L1.
Qed.

End Start.

(** The segments depend on the geometry of the volume only. *)
Section SegmentGeometry.
Context (img : list Z) (fp fp' : fat_private) (entries : list Z) (k : nat).
Hypothesis Hsame : same_geometry fp fp'.

Lemma segment_geometry buf j : segment img fp entries k buf j = segment img fp' entries k buf j.
Proof. unfold segment. by rewrite (image_geometry img fp fp' entries k Hsame). Qed.

Lemma segment_fits_geometry j : segment_fits img fp entries k j -> segment_fits img fp' entries k j.
Proof. intros [H1 H2]. rewrite (image_geometry img fp fp' entries k Hsame) in *. by constructor. Qed.

Lemma segment_byte_geometry buf j b va : segment_byte img fp entries k buf j b va -> segment_byte img fp' entries k buf j b va.
Proof.
  intros [H1 H2 H3 H4 H5]. rewrite (image_geometry img fp fp' entries k Hsame) in *. constructor; try done.
  intros j' Hj Hj'. rewrite <- segment_geometry. by apply H5.
Qed.

End SegmentGeometry.

End StartProofs.
