(* ===== verification/Isr80h.v ===== *)
(** * System calls and interrupts at run time: [src/isr80h/], [src/idt/idt.c]

    The kernel routines behind interrupt 0x80 and the handlers that dispatch to
    them.  [task_exec] leaves the kernel for the task: a routine that ends in it
    has the result [None], and its callers do nothing more.  A returned value is
    [Some] of it.

    The routines keep arrays on the kernel's stack; their addresses, which the
    compiler chooses, are parameters. *)
From stdpp Require Import base gmap list numbers strings.
From S2P Require Import Prelude Config CString Heap PhysMem KernelHeap Paging KState Disk Fat16 Terminal Idt Keyboard System Elf Task Process.
#[local] Open Scope Z_scope.

Module Isr80h.
Import KernelHeap Paging System Task Process.

(** [MAX_STR_SIZE] of [io.c]. *)
Definition MAX_STR_SIZE : Z := 1024.

Section Calls.
Context {D : Type} {Po : PortIO D}.
#[local] Abbreviation St := (sys D).

(** Where [buf] of the print call, [filename] and the variable-length array
    [argv_kernel_copy] of the exec call are. *)
Variables (print_buf execve_filename : Z) (execve_argv : Z -> Z).

(** ** The keyboard's view of the state *)

(** The buffers of the processes and the processes of the tasks; the list of
    drivers is not used by the operations below. *)
Definition kbd_view (s : St) : Keyboard.kbd D :=
  Keyboard.mk_kbd (p_keyboard <$> procs s) (t_process <$> tasks s) (current_process s)
    (current_task s) ∅ 0 0 (screen s) (tables s) (dev (fsys s)).

Definition set_kbd_view (k : Keyboard.kbd D) (s : St) : St :=
  set_procs (map_imap (fun p x =>
      Some (match Keyboard.buffers k !! p with Some b => set_p_keyboard b x | None => x end)) (procs s))
    (set_screen (Keyboard.screen k) (set_tables (Keyboard.tables k)
      (set_fsys (set_dev (fsys s) (Keyboard.ports k)) s))).

Definition on_keyboard {X} (m : M (Keyboard.kbd D) X) : M St X := zoom kbd_view set_kbd_view m.

(** ** The routines *)

Definition isr80h_command_0_sum (frame : interrupt_frame) : M St (option Z) :=
  task ← get_current_task;
  n1 ← task_get_stack_item task 0;
  n2 ← task_get_stack_item task 1;
  mret (Some (u32 (n1 + n2))).

(** [print] reads [buf] up to its terminator, which [strncpy] may have put one
    byte behind the array. *)
Definition isr80h_command_1_print (frame : interrupt_frame) : M St (option Z) :=
  task ← get_current_task;
  user_message ← task_get_stack_item task 0;
  _ ← copy_string_from_user_task task user_message print_buf MAX_STR_SIZE;
  m ← gets phys;
  _ ← on_screen (Terminal.print (PhysMem.bytes_at m print_buf (Z.to_nat (MAX_STR_SIZE + 1))));
  mret (Some 0).

Definition isr80h_command_2_get_key_press (frame : interrupt_frame) : M St (option Z) :=
  c ← on_keyboard Keyboard.keyboard_pop;
  mret (Some (u32 c)).

Definition isr80h_command_3_put_char_on_display (frame : interrupt_frame) : M St (option Z) :=
  task ← get_current_task;
  v ← task_get_stack_item task 0;
  let c := s8 v in
  _ ← on_screen (modify (Terminal.terminal_write_char c 15));
  mret (Some 0).

Definition isr80h_command_4_malloc (frame : interrupt_frame) : M St (option Z) :=
  task ← get_current_task;
  size ← task_get_stack_item task 0;
  task ← get_current_task;
  t ← load_task task;
  ptr ← process_malloc_syscall_handler (t_process t) size;
  mret (Some ptr).

Definition isr80h_command_5_free (frame : interrupt_frame) : M St (option Z) :=
  task ← get_current_task;
  ptr ← task_get_stack_item task 0;
  task ← get_current_task;
  t ← load_task task;
  _ ← process_free_syscall_handler (t_process t) ptr;
  mret (Some 0).

(** [kernel_argv[i] = argv_usr_addr[i]] on the task's page tables. *)
Definition vstore32 (va v : Z) : M St unit :=
  _ ← vstore8 va v;
  _ ← vstore8 (u32 (va + 1)) (v / 256);
  _ ← vstore8 (u32 (va + 2)) (v / 65536);
  vstore8 (u32 (va + 3)) (v / 16777216).

Definition copy_argv_pointers_from_user_task (task argv_usr_addr kernel_argv argc : Z) : M St Z :=
  if s32 (argc * MAX_CMMD_ARG_LEN) >=? PAGING_PAGE_SIZE then mret (- EINVARG)
  else
    t ← load_task task;
    task_page_directory ← on_mem (get_pgd (t_paging t));
    old_entry ← on_mem (paging_get_pte task_page_directory kernel_argv);
    t ← load_task task;
    _ ← on_mem (paging_map_range (t_paging t) kernel_argv kernel_argv 1
          (Z.lor (Z.lor PAGING_READ_WRITE PAGING_PRESENT) PAGING_USER_SUPERVISOR));
    t ← load_task task;
    _ ← switch_to (t_paging t);
    _ ← for_loop (Z.to_nat argc) 0 (fun i =>
          v ← vload32 (u32 (argv_usr_addr + 4 * i));
          vstore32 (u32 (kernel_argv + 4 * i)) v);
    _ ← swap_kernel_page_tables;
    rc ← on_mem (paging_set task_page_directory kernel_argv old_entry);
    if rc <? 0 then mret (- EIO) else mret 0.

(** [argc] is an [int]; a negative length of the array is undefined. *)
Definition isr80h_command_6_execve (frame : interrupt_frame) : M St (option Z) :=
  task ← get_current_task;
  v ← task_get_stack_item task 0;
  let argc := s32 v in
  argv_usr_addr ← task_get_stack_item task 1;
  filename_usr_addr ← task_get_stack_item task 2;
  _ ← copy_string_from_user_task task filename_usr_addr execve_filename MAX_FILE_PATH_CHARS;
  if argc <? 0 then fault
  else
    let argv_kernel_copy := execve_argv argc in
    _ ← copy_argv_pointers_from_user_task task argv_usr_addr argv_kernel_copy argc;
    argv ← on_mem (kmalloc (u32 (argc * 4)));
    _ ← for_loop (Z.to_nat argc) 0 (fun i =>
          p ← on_mem (kmalloc MAX_CMMD_ARG_LEN);
          on_mem (write_word argv i p));
    _ ← for_loop (Z.to_nat argc) 0 (fun i =>
          u ← on_mem (read_word argv_kernel_copy i);
          k ← on_mem (read_word argv i);
          _ ← copy_string_from_user_task task u k MAX_CMMD_ARG_LEN;
          mret tt);
    m ← gets phys;
    '(rc, process) ← process_load_with_args
        (PhysMem.bytes_at m execve_filename (Z.to_nat (MAX_FILE_PATH_CHARS + 1))) argc argv;
    if rc <? 0 then mret (Some 0)
    else
      x ← load_process process;
      _ ← task_exec (p_task x);
      mret None.

Definition isr80h_command_7_exit (frame : interrupt_frame) : M St (option Z) :=
  process ← get_current_process;
  _ ← process_terminate process;
  _ ← exec_next;
  mret None.

(** ** Dispatch: [idt.c] *)

(** A call through the pointer stored in the table. *)
Definition call_command (c : Idt.ISR80H_COMMAND) (frame : interrupt_frame) : M St (option Z) :=
  match c with
  | Idt.isr80h_command_0_sum => isr80h_command_0_sum frame
  | Idt.isr80h_command_1_print => isr80h_command_1_print frame
  | Idt.isr80h_command_2_get_key_press => isr80h_command_2_get_key_press frame
  | Idt.isr80h_command_3_put_char_on_display => isr80h_command_3_put_char_on_display frame
  | Idt.isr80h_command_4_malloc => isr80h_command_4_malloc frame
  | Idt.isr80h_command_5_free => isr80h_command_5_free frame
  | Idt.isr80h_command_6_execve => isr80h_command_6_execve frame
  | Idt.isr80h_command_7_exit => isr80h_command_7_exit frame
  end.

Definition isr80h_handle_command (command_id : Z) (frame : interrupt_frame) : M St (option Z) :=
  if (command_id <? 0) || (command_id >=? MAX_ISR80H_COMMANDS) then mret (Some 0)
  else
    s ← get_state;
    command_func ← lift_outcome (of_option (Idt.isr80h_commands (tables s) !! Z.to_nat command_id));
    match command_func with
    | None => mret (Some 0)
    | Some c => call_command c frame
    end.

Definition isr80h_handler (command_id : Z) (frame : interrupt_frame) : M St (option Z) :=
  _ ← swap_kernel_page_tables;
  _ ← task_current_save_state frame;
  res ← isr80h_handle_command command_id frame;
  match res with
  | None => mret None
  | Some r =>
      _ ← swap_curr_task_page_tables;
      mret (Some r)
  end.

Definition idt_handle_user_process_exception : M St (option unit) :=
  process ← get_current_process;
  _ ← process_terminate process;
  _ ← exec_next;
  mret None.

Definition call_handler (h : Idt.INTERRUPT_HANDLER) : M St (option unit) :=
  match h with
  | Idt.idt_handle_user_process_exception => idt_handle_user_process_exception
  | Idt.ps2_keyboard_handle_interrupt => _ ← on_keyboard Keyboard.handle_interrupt; mret (Some tt)
  end.

(** [outb] on the ports of the machine. *)
Definition out_port (port v : Z) : M St unit :=
  modify (fun s => set_fsys (set_dev (fsys s) (outb port v (dev (fsys s)))) s).

Definition interrupt_handler (interrupt : Z) (frame : interrupt_frame) : M St (option unit) :=
  _ ← swap_kernel_page_tables;
  s ← get_state;
  handler ← (if 0 <=? interrupt
             then lift_outcome (of_option (Idt.interrupt_handlers (tables s) !! Z.to_nat interrupt))
             else fault);
  res ← match handler with
        | Some h => _ ← task_current_save_state frame; call_handler h
        | None => mret (Some tt)
        end;
  match res with
  | None => mret None
  | Some _ =>
      _ ← swap_curr_task_page_tables;
      _ ← out_port 0x20 0x20;
      mret (Some tt)
  end.

End Calls.

End Isr80h.
