(* ===== verification/LifeProofs.v ===== *)
(** * The life of a program, proved

    What a loaded program does in user mode to memory is a sequence of stores
    through its page tables, of allocations and of releases by system calls, up to
    a page fault or to its exit.  An invariant of the process, its blocks and its
    page tables holds over every such sequence that the kernel survives: the stores
    reach blocks of the program only, the rest of memory stays as it is, and the
    exit, by the system call or by an exception, releases the blocks.  The kernel
    faults only on the release of the null pointer and when the heap is used up. *)
From stdpp Require Import base gmap list numbers strings.
From S2P Require Import Prelude Config CString Heap PhysMem KernelHeap HeapViews Paging KState Disk PParser Fat16 Fat16Proofs Vfs VfsProofs Terminal Idt Keyboard System Elf Task TaskProofs UserMemory Process ProcessProofs LoadProofs LaunchProofs StartProofs Isr80h.
#[local] Open Scope Z_scope.

Module LifeProofs.
Import KernelHeap HeapViews Paging KState System Elf Task TaskProofs UserMemory Process ProcessProofs LoadProofs LaunchProofs StartProofs.

(** ** Accesses and page table entries *)

(** An access depends on the directory and on the entry of the page. *)
Lemma access_pte bits m pgd va :
  user_access bits m pgd va =
    (let pde := PhysMem.load32 m (pgd + 4 * (va / 4194304)) in
     let e := pte m pgd (page_of va) in
     if (Z.land pde bits =? bits) && (Z.land e bits =? bits) then Some (Z.land e PGD_ENTRY_TABLE_ADDR + va mod 4096) else None).
Proof. destruct (page_of_indexes va) as [E1 E2]. unfold user_access, pte, pte_addr. by rewrite E1, E2. Qed.

Lemma paging_directory m m' d pgd : PhysMem.same_region m m' pgd 4096 ->
  forall a, in_paging m' d pgd a <-> in_paging m d pgd a.
Proof.
  intros Hp a. unfold in_paging, in_tables. do 2 f_equiv. f_equiv. intros i.
  split; intros [Hi Ha]; (split; [done|]); [rewrite (table_of_ext m m')|rewrite <- (table_of_ext m m')]; done.
Qed.

(** Tables whose bytes are kept give the same accesses. *)
Lemma paging_kept m m' d pgd : desc_wf m d pgd ->
  (forall a, in_paging m d pgd a -> PhysMem.load8 m' a = PhysMem.load8 m a) ->
  desc_wf m' d pgd /\ (forall a, in_paging m' d pgd a <-> in_paging m d pgd a) /\
  forall bits va, 0 <= va < 4294967296 -> user_access bits m' pgd va = user_access bits m pgd va.
Proof.
  intros Hwf Hm. assert (Hr : forall a n, (forall b, a <= b < a + n -> in_paging m d pgd b) -> PhysMem.same_region m m' a n).
  { intros a n H b Hb. symmetry. by apply Hm, H. }
  assert (Hd : PhysMem.same_region m m' d 4) by (apply Hr; unfold in_paging; lia).
  assert (Hp : PhysMem.same_region m m' pgd 4096) by (apply Hr; unfold in_paging; lia).
  assert (Ht : forall i, 0 <= i < 1024 -> table_of m' pgd i = table_of m pgd i) by (intros; symmetry; by apply table_of_ext).
  split; [by eapply desc_wf_ext|]. split.
  - by apply paging_directory.
  - intros bits va Hva. rewrite !access_pte. cbv zeta. destruct (page_indexes _ (page_of_page va Hva)) as [Hi Hj].
    rewrite <- (PhysMem.same_region_load32 m m' pgd 4096 (pgd + 4 * (va / 4194304))) by (done || zlia).
    replace (pte m' pgd (page_of va)) with (pte m pgd (page_of va)); [done|]. unfold pte, pte_addr. rewrite Ht by done.
    apply (PhysMem.same_region_load32 m m' (table_of m pgd (page_of va / 4194304)) 4096); [|lia|lia].
    apply Hr. intros b Hb. right. right. by exists (page_of va / 4194304).
Qed.

(** The pages from [ptr] get entries with the flags [prot]: a store there goes to
    the same address, if the flags allow it, and elsewhere as before. *)
Lemma write_mapped m m' pgd ptr n prot va pa : page ptr -> 0 <= prot < 4096 -> 0 <= va < 4294967296 ->
  PhysMem.same_region m m' pgd 4096 ->
  (forall v, page v -> pte m' pgd v = if bool_decide (ptr <= v < ptr + 4096 * Z.of_nat n) then v + prot else pte m pgd v) ->
  user_write m' pgd va = Some pa ->
  ptr <= va < ptr + 4096 * Z.of_nat n /\ Z.land prot 7 = 7 /\ pa = va \/
  ~ (ptr <= va < ptr + 4096 * Z.of_nat n) /\ user_write m pgd va = Some pa.
Proof.
  intros Hp Hprot Hva Hdir Hpte. unfold user_write. rewrite !access_pte. cbv zeta. pose proof (page_of_page va Hva) as Hv.
  rewrite <- (PhysMem.same_region_load32 m m' pgd 4096 (pgd + 4 * (va / 4194304))) by (done || zlia).
  rewrite Hpte by done. case_bool_decide as Hin.
  - rewrite flag_bits, frame_bits by (done || lia). destruct (Z.eqb_spec (Z.land prot 7) 7) as [H7|]; [|by rewrite andb_false_r].
    destruct (_ && _); [|done]. intros [= <-]. left. unfold page_of, page in *. split_and!; [zlia|zlia|done|lia].
  - intros H. right. split; [|exact H]. unfold page_of, page in *. zlia.
Qed.

(** ** The allocations of a process *)

Definition live (l : list process_mem_allocation) : list Z := filter (fun a => a <> 0) (ma_ptr <$> l).

Lemma elem_of_live l a : a ∈ live l <-> a <> 0 /\ exists b, b ∈ l /\ ma_ptr b = a.
Proof. unfold live. rewrite list_elem_of_filter, list_elem_of_fmap. naive_solver. Qed.

Lemma live_app l1 l2 : live (l1 ++ l2) = live l1 ++ live l2.
Proof. unfold live. by rewrite fmap_app, filter_app. Qed.

Lemma live_cons a l : live (a :: l) = (if decide (ma_ptr a = 0) then [] else [ma_ptr a]) ++ live l.
Proof.
  unfold live. rewrite fmap_cons, filter_cons. destruct (decide (ma_ptr a = 0)), (decide (ma_ptr a <> 0)); done.
Qed.

(** An empty slot is filled, or a slot is cleared. *)
Lemma live_fill l i a b : l !! i = Some a -> ma_ptr a = 0 -> ma_ptr b <> 0 -> live (<[i := b]> l) ≡ₚ ma_ptr b :: live l.
Proof.
  intros Hi Ha Hb. pose proof (lookup_lt_Some _ _ _ Hi) as Hl. rewrite insert_take_drop by done.
  rewrite <- (take_drop_middle _ _ _ Hi) at 3. rewrite !live_app, !live_cons, decide_False, decide_True by done.
  simpl. by rewrite <- Permutation_middle.
Qed.

Lemma live_clear l i a b : l !! i = Some a -> ma_ptr a <> 0 -> ma_ptr b = 0 -> live l ≡ₚ ma_ptr a :: live (<[i := b]> l).
Proof.
  intros Hi Ha Hb. pose proof (lookup_lt_Some _ _ _ Hi) as Hl. rewrite insert_take_drop by done.
  rewrite <- (take_drop_middle _ _ _ Hi) at 1. rewrite !live_app, !live_cons, decide_False, decide_True by done.
  simpl. by rewrite <- Permutation_middle.
Qed.

Lemma insert_elem_inv {A} (l : list A) i a b : b ∈ <[i := a]> l -> b = a \/ b ∈ l.
Proof.
  intros [j Hj]%list_elem_of_lookup_1. apply list_lookup_insert_Some in Hj as [(_ & <- & _)|[_ Hj]]; [by left|].
  right. by eapply list_elem_of_lookup_2.
Qed.

Lemma insert_elem_ne {A} (l : list A) i a b c : l !! i = Some a -> b ∈ l -> b <> a -> b ∈ <[i := c]> l.
Proof.
  intros Hi [j Hj]%list_elem_of_lookup_1 Hne. apply (list_elem_of_lookup_2 _ j). rewrite list_lookup_insert_ne; [done|congruence].
Qed.

(** What a program does to memory: a store, and the system calls that allocate and
    release. *)
Inductive action :=
  | Store (va v : Z)
  | Malloc (size : Z)
  | Free (ptr : Z).

(** Any address may be stored to and any may be released.  Of the sizes, 0 and those
    above 4294963200, which round up to 0 blocks, are left out: for those the kernel
    hands out blocks that stay free ([KernelHeap.kzalloc_zero]). *)
Definition allowed (a : action) : Prop :=
  match a with
  | Store va _ => 0 <= va < 4294967296
  | Malloc size => 0 < size <= 4294963200
  | Free _ => True
  end.

(** The blocks an action may take. *)
Definition cost (a : action) : nat := match a with Malloc size => Heap.blocks_for size | _ => 0%nat end.

Section Life.
Context {D : Type} {Po : PortIO D}.
#[local] Abbreviation St := (sys D).

(** ** The invariant *)

Definition in_block (b : Z) (n : nat) (a : Z) : Prop := b <= a < b + HEAP_BLOCK_SIZE * Z.of_nat n.

(** The blocks a process gives back when it ends. *)
Definition held (x : process) (buf : Z) : list Z := p_executable x :: buf :: stack_addr x :: live (mem_allocs x).

(** They are the allocations [H], each once; the file takes [nb] blocks. *)
Record holds (x : process) (buf : Z) (nb : nat) (H : gmap Z nat) : Prop := {
  hd_nodup : NoDup (held x buf);
  hd_dom : dom H = list_to_set (held x buf);
  hd_buffer : H !! buf = Some nb;
  hd_stack : H !! stack_addr x = Some 4%nat;
  hd_count : length (mem_allocs x) = Z.to_nat PROCESS_MAX_ALLOCATIONS;
  hd_alloc a : a ∈ mem_allocs x -> ma_ptr a <> 0 ->
    H !! ma_ptr a = Some (Heap.blocks_for (ma_size a)) /\ 0 < ma_size a <= 4294963200;
  hd_empty a : a ∈ mem_allocs x -> ma_ptr a = 0 -> a = MemAllocation 0 0
}.

(** The byte [a] is neither free nor in a block of the process. *)
Definition reserved (k : kmem) (x : process) (H : gmap Z nat) (a : Z) : Prop :=
  ~ in_free k a /\ forall b n, H !! b = Some n \/ b = arg_block x /\ n = 1%nat -> ~ in_block b n a.

(** Where a store at [va] may go: to the arguments, the stack, the file or, at the
    same address, to an allocation. *)
Definition own_store (x : process) (buf : Z) (nb : nat) (va pa : Z) : Prop :=
  in_block (arg_block x) 1 pa \/ in_block (stack_addr x) 4 pa \/ in_block buf nb pa \/
  pa = va /\ exists a, a ∈ mem_allocs x /\ ma_ptr a <> 0 /\ in_block (ma_ptr a) (Heap.blocks_for (ma_size a)) va.

(** The process at [p] with the value [x], its file at [buf], page tables at [d] and
    [pgd]; of the allocations it holds [H], all others are [K], and [r] blocks are
    free at the end of the heap. *)
Record program (s : St) (p : Z) (x : process) (buf : Z) (nb : nat) (d pgd : Z) (H K : gmap Z nat) (r : nat) : Prop := {
  pg_process : procs s !! p = Some x;
  pg_elf : p_format x = ELF /\ exists ef, elfs s !! p_executable x = Some ef /\ elf_file_buffer ef = buf;
  pg_task : exists t, tasks s !! p_task x = Some t /\ t_paging t = d;
  pg_tables : desc_wf (phys s) d pgd;
  pg_heap : kmem_rep (k_alloc (fsys s)) (H ∪ K) /\ H ##ₘ K /\ (r <= reserve (k_alloc (fsys s)))%nat;
  pg_held : holds x buf nb H;
  pg_apart a : in_paging (phys s) d pgd a -> reserved (k_alloc (fsys s)) x H a;
  pg_write va pa : 0 <= va < 4294967296 -> user_write (phys s) pgd va = Some pa -> own_store x buf nb va pa
}.

Lemma own_store_block x buf nb H va pa : holds x buf nb H -> own_store x buf nb va pa ->
  exists b n, (H !! b = Some n \/ b = arg_block x /\ n = 1%nat) /\ in_block b n pa.
Proof.
  intros Hh [Ha|[Ha|[Ha|(-> & a & Ha & H0 & Hb)]]].
  - exists (arg_block x), 1%nat. auto.
  - exists (stack_addr x), 4%nat. split; [left; apply Hh|done].
  - exists buf, nb. split; [left; apply Hh|done].
  - exists (ma_ptr a), (Heap.blocks_for (ma_size a)). split; [left; by apply (hd_alloc _ _ _ _ Hh)|done].
Qed.

(** A new allocation in an empty slot, and a released one. *)
Lemma held_fill x buf nb H i a ptr size : holds x buf nb H -> mem_allocs x !! i = Some a -> ma_ptr a = 0 ->
  H !! ptr = None -> ptr <> 0 -> 0 < size <= 4294963200 ->
  holds (with_alloc i (MemAllocation ptr size) x) buf nb (<[ptr := Heap.blocks_for size]> H).
Proof.
  intros [H1 H2 H3 H4 H5 H6 H7] Hi Ha Hp H0 Hs.
  assert (Hperm : held (with_alloc i (MemAllocation ptr size) x) buf ≡ₚ ptr :: held x buf).
  { unfold held. cbn [with_alloc set_mem_allocs p_executable stack_addr mem_allocs].
    rewrite (live_fill _ _ _ (MemAllocation ptr size) Hi Ha H0). cbn [ma_ptr]. by rewrite !(Permutation_swap ptr). }
  assert (Hnew : ptr ∉ held x buf) by (rewrite <- (elem_of_list_to_set (C := gset Z)), <- H2; by apply not_elem_of_dom).
  constructor.
  - rewrite Hperm. by apply NoDup_cons_2.
  - rewrite Hperm, dom_insert_L, H2. done.
  - rewrite lookup_insert_ne; [done|congruence].
  - cbn [with_alloc set_mem_allocs stack_addr]. rewrite lookup_insert_ne; [done|congruence].
  - cbn [with_alloc set_mem_allocs mem_allocs]. by rewrite length_insert.
  - intros b Hb Hb0. cbn [with_alloc set_mem_allocs mem_allocs] in Hb. apply insert_elem_inv in Hb as [->|Hb].
    + by rewrite lookup_insert_eq.
    + destruct (H6 b Hb Hb0) as [E ?]. split; [|done]. rewrite lookup_insert_ne; [done|congruence].
  - intros c Hc Hc0. cbn [with_alloc set_mem_allocs mem_allocs] in Hc. apply insert_elem_inv in Hc as [->|Hc]; [done|by apply H7].
Qed.

Lemma held_clear x buf nb H i ptr size : holds x buf nb H -> mem_allocs x !! i = Some (MemAllocation ptr size) -> ptr <> 0 ->
  holds (with_alloc i (MemAllocation 0 0) x) buf nb (delete ptr H).
Proof.
  intros [H1 H2 H3 H4 H5 H6 H7] Hi H0.
  assert (Hperm : held x buf ≡ₚ ptr :: held (with_alloc i (MemAllocation 0 0) x) buf).
  { unfold held. cbn [with_alloc set_mem_allocs p_executable stack_addr mem_allocs].
    rewrite (live_clear _ _ _ (MemAllocation 0 0) Hi H0 eq_refl). cbn [ma_ptr]. by rewrite !(Permutation_swap ptr). }
  pose proof H1 as H1'. rewrite Hperm in H1'. apply NoDup_cons in H1' as [Hnin Hnd].
  assert (Hb : buf <> ptr) by (intros <-; apply Hnin; by right; left).
  assert (Hs : stack_addr x <> ptr) by (intros <-; apply Hnin; by right; right; left).
  constructor.
  - exact Hnd.
  - rewrite dom_delete_L, H2, Hperm, list_to_set_cons. set_solver.
  - by rewrite lookup_delete_ne.
  - by rewrite lookup_delete_ne.
  - cbn [with_alloc set_mem_allocs mem_allocs]. by rewrite length_insert.
  - intros a Ha Ha0. assert (Hne : ma_ptr a <> ptr).
    { intros <-. apply Hnin. do 3 right. apply elem_of_live. by split; [|exists a]. }
    cbn [with_alloc set_mem_allocs mem_allocs] in Ha. apply insert_elem_inv in Ha as [->|Ha]; [done|].
    rewrite lookup_delete_ne by congruence. by apply H6.
  - intros c Hc Hc0. cbn [with_alloc set_mem_allocs mem_allocs] in Hc. apply insert_elem_inv in Hc as [->|Hc]; [done|by apply H7].
Qed.

(** ** Steps *)

(** What a step of the program may change: the memory, the heap and the table of
    allocations; page tables stay where they are, what is reserved stays so, and the
    reserved bytes outside the page tables keep their values. *)
Record stepped (s s' : St) (p : Z) (x x' : process) (d pgd : Z) (H H' : gmap Z nat) : Prop := {
  st_state : exists l k', x' = set_mem_allocs l x /\ s' = set_procs (<[p := x']> (procs s)) (with_kmem k' s);
  st_paging a : in_paging (phys s') d pgd a <-> in_paging (phys s) d pgd a;
  st_reserved a : reserved (k_alloc (fsys s)) x H a -> reserved (k_alloc (fsys s')) x' H' a;
  st_kept a : reserved (k_alloc (fsys s)) x H a -> ~ in_paging (phys s) d pgd a ->
    PhysMem.load8 (phys s') a = PhysMem.load8 (phys s) a
}.

Lemma stepped_refl (s : St) p x d pgd H : procs s !! p = Some x -> stepped s s p x x d pgd H H.
Proof.
  intros Hx. constructor; try done. exists (mem_allocs x), (k_alloc (fsys s)). split; [by destruct x|].
  rewrite insert_id by done. by destruct s as [[]].
Qed.

Lemma stepped_trans (s1 s2 s3 : St) p x1 x2 x3 d pgd H1 H2 H3 :
  stepped s1 s2 p x1 x2 d pgd H1 H2 -> stepped s2 s3 p x2 x3 d pgd H2 H3 -> stepped s1 s3 p x1 x3 d pgd H1 H3.
Proof.
  intros [(l & k & -> & E) P1 R1 K1] [(l' & k' & -> & E') P2 R2 K2]. constructor.
  - exists l', k'. split; [done|]. rewrite E', E. cbn [procs set_procs with_kmem]. rewrite insert_insert_eq. by destruct s1 as [[]].
  - intros a. by rewrite P2.
  - auto.
  - intros a Ha Hp. rewrite K2, K1; [done|done|done|by apply R1|by rewrite P1].
Qed.

Lemma program_user s p x buf nb d pgd H K r : program s p x buf nb d pgd H K r -> user_process s p x d pgd.
Proof.
  intros Hp. constructor; [apply Hp..|]. intros a Ha. apply (pg_apart _ _ _ _ _ _ _ _ _ _ Hp). unfold in_paging.
  destruct Ha as [Ha|Ha]; [left; lia|by right].
Qed.

(** The directory keeps its bytes when the reserved ones outside the tables do. *)
Lemma directory_kept s p x buf nb d pgd H K r m : program s p x buf nb d pgd H K r ->
  (forall a, reserved (k_alloc (fsys s)) x H a -> ~ in_tables (phys s) pgd a -> PhysMem.load8 m a = PhysMem.load8 (phys s) a) ->
  PhysMem.same_region (phys s) m pgd 4096 /\ forall a, in_paging m d pgd a <-> in_paging (phys s) d pgd a.
Proof.
  intros Hp Hm. assert (Hr : PhysMem.same_region (phys s) m pgd 4096).
  { intros a Ha. symmetry. apply Hm; [apply (pg_apart _ _ _ _ _ _ _ _ _ _ Hp); by right; left|].
    apply directory_apart; [apply (desc_pt _ _ _ (pg_tables _ _ _ _ _ _ _ _ _ _ Hp))|done]. }
  split; [done|]. by apply paging_directory.
Qed.

(** A store in user mode: the byte goes where the page tables lead; [false] is a page
    fault. *)
Definition user_store (pgd va v : Z) : M St bool :=
  m ← gets phys;
  match user_write m pgd va with
  | Some pa => _ ← pstore8 pa v; mret true
  | None => mret false
  end.

Section Step.
Context (p : Z) (buf : Z) (nb : nat) (d pgd : Z) (K : gmap Z nat).
#[local] Abbreviation program s x H r := (program s p x buf nb d pgd H K r).

Lemma store_step (s : St) x H r va v pa : program s x H r -> 0 <= va < 4294967296 -> user_write (phys s) pgd va = Some pa ->
  let s' := with_mem (PhysMem.store8 (phys s) pa v) s in program s' x H r /\ stepped s s' p x x d pgd H H.
Proof.
  intros Hp Hva Hpa s'. pose proof Hp as [P1 P2 P3 P4 P5 P6 P7 P8].
  destruct (own_store_block _ _ _ _ _ _ P6 (P8 va pa Hva Hpa)) as (b & n & Hb & Hin).
  assert (Hm : forall a, reserved (k_alloc (fsys s)) x H a -> PhysMem.load8 (phys s') a = PhysMem.load8 (phys s) a).
  { intros a [_ Ha]. unfold s'. rewrite phys_with_mem. apply PhysMem.load8_store8_ne. intros <-. by apply (Ha b n Hb). }
  destruct (paging_kept (phys s) (phys s') d pgd P4) as (Hwf & Hpg & Hacc); [intros a Ha; by apply Hm, P7|]. split.
  - constructor; try done.
    + intros a Ha%Hpg. by apply P7.
    + intros va' pa' Hva' Hw. apply P8; [done|]. rewrite <- Hw. symmetry. by apply Hacc.
  - constructor; [|done|done|by intros; apply Hm].
    exists (mem_allocs x), (set_mem (k_alloc (fsys s)) (PhysMem.store8 (phys s) pa v)). split; [by destruct x|].
    rewrite insert_id by done. by destruct s as [[]].
Qed.

(** An allocation takes a free block, so nothing reserved is lost. *)
Lemma reserved_new k k1 k2 x x' H L ptr size a : new_block k k1 L ptr size -> arg_block x' = arg_block x ->
  (forall b, in_free k2 b -> in_free k1 b) -> reserved k x H a -> reserved k2 x' (<[ptr := Heap.blocks_for size]> H) a.
Proof.
  intros Hnb Hx Hf [H1 H2]. split; [intros Ha; by apply H1, (nb_mono _ _ _ _ _ Hnb), Hf|]. intros b n Hb Hin.
  rewrite Hx in Hb. destruct Hb as [[[<- <-]|[_ Hb]]%lookup_insert_Some|Hb].
  - by apply H1, (nb_free _ _ _ _ _ Hnb).
  - by apply (H2 b n); [left|].
  - by apply (H2 b n); [right|].
Qed.

(** What is left of the blocks at the end of the heap. *)
Lemma reserve_left (k k1 : kmem) (L : gmap Z nat) ptr size r : new_block k k1 L ptr size -> (r <= reserve k)%nat ->
  (r - Heap.blocks_for size <= reserve k1)%nat.
Proof.
  intros Hnb Hr. destruct (decide (Heap.blocks_for size <= r)%nat); [|lia].
  apply (nb_reserve _ _ _ _ _ Hnb). left. lia.
Qed.

Lemma malloc_slot_step (s : St) x H r size i b0 : program s x H r -> 0 < size <= 4294963200 ->
  Heap.free_run (Heap.entries (Heap.table (kernel_heap (k_alloc (fsys s))))) b0 (Heap.blocks_for size) ->
  first_slot (fun a => ma_ptr a = 0) (mem_allocs x) i ->
  exists ptr x' H' s', process_malloc_syscall_handler p size s = Ok (ptr, s') /\
    program s' x' H' (r - Heap.blocks_for size) /\ stepped s s' p x x' d pgd H H'.
Proof.
  intros Hp Hs Hb0 Hi. pose proof Hp as [P1 P2 P3 P4 (P5 & P5' & P5r) P6 P7 P8]. pose proof (program_user _ _ _ _ _ _ _ _ _ _ Hp) as Hu.
  destruct (malloc_slot s p x d pgd size (H ∪ K) b0 Hu P5 Hs Hb0 i Hi) as (ptr & k1 & m' & Hrun & Hnb & Hwf & Hz & Hout & Hpte).
  pose proof Hnb as [N1 N2 (N3 & N4 & N5) N6 _ _ N8 _ _]. apply lookup_union_None in N2 as [N2 N2'].
  set (x' := with_alloc i (MemAllocation ptr size) x). set (H' := <[ptr := Heap.blocks_for size]> H).
  set (s' := set_procs (<[p := x']> (procs s)) (with_kmem (set_mem k1 m') s)) in *.
  assert (Hres : forall a, reserved (k_alloc (fsys s)) x H a -> reserved (k_alloc (fsys s')) x' H' a).
  { intros a Ha. eapply reserved_new; [exact Hnb|done| |exact Ha]. done. }
  assert (Hkept : forall a, reserved (k_alloc (fsys s)) x H a -> ~ in_tables (phys s) pgd a -> PhysMem.load8 m' a = PhysMem.load8 (phys s) a).
  { intros a [Ha _] Ht. apply Hout; [|done]. intros Hin. by apply Ha, (nb_size _ _ _ _ _ Hnb Hs). }
  destruct (directory_kept _ _ _ _ _ _ _ _ _ _ m' Hp Hkept) as [Hdir Hpg].
  exists ptr, x', H', s'. split; [exact Hrun|]. split; constructor; try done.
  - apply lookup_insert_eq.
  - split; [|split; [by apply map_disjoint_insert_l_2|exact (reserve_left _ _ _ _ _ _ Hnb P5r)]]. unfold H'. rewrite <- insert_union_l.
    destruct N1 as (B & ? & ? & ?). by exists B.
  - destruct Hi as ((a & Ha & Ha0) & _). by eapply held_fill; [..|lia|].
  - intros a Ha%Hpg. by apply Hres, P7.
  - destruct Hi as ((a & Ha & Ha0) & _). pose proof (lookup_lt_Some _ _ _ Ha) as Hil. intros va pa Hva Hw.
    unfold HEAP_BLOCK_SIZE in N5. assert (Hpp : page ptr) by (unfold page, HEAP_BLOCK_SIZE in *; lia).
    destruct (write_mapped _ _ _ ptr (Heap.blocks_for size) 7 _ _ Hpp ltac:(lia) Hva Hdir Hpte Hw) as [(Hin & _ & ->)|[_ Hw']].
    + do 3 right. split; [done|]. exists (MemAllocation ptr size). split; [by apply list_elem_of_insert|]. split; [cbn [ma_ptr]; lia|done].
    + destruct (P8 va pa Hva Hw') as [?|[?|[?|(-> & b & Hb & Hb0' & Hbin)]]]; [by left|by right; left|by right; right; left|].
      do 3 right. split; [done|]. exists b. split; [|done]. eapply insert_elem_ne; [exact Ha|exact Hb|congruence].
  - exists (mem_allocs x'), (set_mem k1 m'). by destruct x.
  - intros a Ha Hnp. apply Hkept; [done|]. intros Ht. apply Hnp. by right; right.
Qed.

Lemma malloc_full_step (s : St) x H r size b0 : program s x H r -> 0 < size <= 4294963200 ->
  Heap.free_run (Heap.entries (Heap.table (kernel_heap (k_alloc (fsys s))))) b0 (Heap.blocks_for size) ->
  (forall a, a ∈ mem_allocs x -> ma_ptr a <> 0) ->
  exists s', process_malloc_syscall_handler p size s = Ok (0, s') /\
    program s' x H (r - Heap.blocks_for size) /\ stepped s s' p x x d pgd H H.
Proof.
  intros Hp Hs Hb0 Hfull. pose proof Hp as [P1 P2 P3 P4 (P5 & P5' & P5r) P6 P7 P8]. pose proof (program_user _ _ _ _ _ _ _ _ _ _ Hp) as Hu.
  destruct (malloc_full s p x d pgd size (H ∪ K) b0 Hu P5 Hs Hb0 Hfull) as (ptr & k1 & k2 & Hrun & Hnb & Hfb).
  pose proof Hnb as [N1 N2 _ N6 Nm _ N8 Nl _]. pose proof Hfb as [F1 F2 _ F4 F5 _].
  assert (Hm : forall a, reserved (k_alloc (fsys s)) x H a -> PhysMem.load8 (mem k2) a = PhysMem.load8 (phys s) a).
  { intros a [Ha _]. rewrite F2, Nl, bool_decide_false; [done|]. intros Hin. by apply Ha, (nb_size _ _ _ _ _ Hnb Hs). }
  assert (Hres : forall a, reserved (k_alloc (fsys s)) x H a -> reserved k2 x H a).
  { intros a [Ha Ha']. split; [|done]. intros [Hf|Hf]%F5; apply Ha; [by apply Nm|by apply N6]. }
  destruct (paging_kept (phys s) (mem k2) d pgd P4) as (Hwf & Hpg & Hacc); [intros a Ha; by apply Hm, P7|].
  exists (with_kmem k2 s). split; [exact Hrun|]. split; constructor; try done.
  - rewrite delete_insert_id in F1 by done. split; [done|]. split; [done|]. change (k_alloc _) with k2.
    pose proof (reserve_left _ _ _ _ _ _ Hnb P5r). lia.
  - intros a Ha%Hpg. by apply Hres, P7.
  - intros va pa Hva Hw. apply P8; [done|]. rewrite <- Hw. symmetry. by apply Hacc.
  - exists (mem_allocs x), k2. split; [by destruct x|]. rewrite insert_id by done. by destruct s as [[]].
  - intros a Ha _. by apply Hm.
Qed.

Lemma free_recorded_step (s : St) x H r ptr i size : program s x H r -> ptr <> 0 ->
  first_slot (fun a => ma_ptr a = ptr) (mem_allocs x) i -> mem_allocs x !! i = Some (MemAllocation ptr size) ->
  exists x' H' s', process_free_syscall_handler p ptr s = Ok (tt, s') /\ program s' x' H' r /\ stepped s s' p x x' d pgd H H'.
Proof.
  intros Hp H0 Hi Ha. pose proof Hp as [P1 P2 P3 P4 (P5 & P5' & P5r) P6 P7 P8]. pose proof (program_user _ _ _ _ _ _ _ _ _ _ Hp) as Hu.
  destruct (hd_alloc _ _ _ _ P6 _ (list_elem_of_lookup_2 _ _ _ Ha) H0) as [HL Hsz]. cbn [ma_ptr ma_size] in HL, Hsz.
  assert (HLu : (H ∪ K) !! ptr = Some (Heap.blocks_for size)) by (by apply lookup_union_Some_l).
  destruct (live_range _ _ _ _ P5 HLu) as (R1 & R2 & _). pose proof (live_aligned _ _ _ _ P5 HLu) as R3.
  destruct (blocks_for_bounds _ Hsz) as (_ & Hb & _). unfold HEAP_BLOCK_SIZE in *. assert (Hpp : page ptr) by (unfold page; lia).
  destruct (free_recorded s p x d pgd ptr (H ∪ K) Hu P5 i size _ Hi Ha HLu Hpp) as (m' & k' & Hrun & Hfb & Hwf & Hout & Hpte); [lia|lia|].
  pose proof Hfb as [F1 F2 _ F4 F5 _]. set (x' := with_alloc i (MemAllocation 0 0) x). set (H' := delete ptr H).
  set (s' := set_procs (<[p := x']> (procs s)) (with_kmem k' s)) in *. assert (Em : phys s' = m') by exact F2.
  assert (Hres : forall a, reserved (k_alloc (fsys s)) x H a -> reserved (k_alloc (fsys s')) x' H' a).
  { intros a [Ha1 Ha2]. split; [intros [Hf|Hf]%F5; [done|by apply (Ha2 ptr (Heap.blocks_for size)); [left|]]|].
    intros b n [[_ Hb']%lookup_delete_Some|Hb']; apply Ha2; [by left|by right]. }
  destruct (directory_kept _ _ _ _ _ _ _ _ _ _ m' Hp) as [Hdir Hpg]; [by intros; apply Hout|].
  exists x', H', s'. split; [exact Hrun|]. split; constructor; try rewrite Em; try done.
  - apply lookup_insert_eq.
  - assert (K !! ptr = None) by (by eapply map_disjoint_Some_l). rewrite delete_union, (delete_id K) in F1 by done.
    split; [done|]. split; [by apply map_disjoint_delete_l|]. etrans; [exact P5r|exact F4].
  - by eapply held_clear.
  - intros a Hin%Hpg. by apply Hres, P7.
  - intros va pa Hva Hw. destruct (write_mapped _ _ _ ptr (Heap.blocks_for size) 5 _ _ Hpp ltac:(lia) Hva Hdir Hpte Hw) as [(_ & H7 & _)|[Hno Hw']]; [done|].
    destruct (P8 va pa Hva Hw') as [?|[?|[?|(-> & b & Hb1 & Hb0 & Hbin)]]]; [by left|by right; left|by right; right; left|].
    do 3 right. split; [done|]. exists b. split; [|done]. eapply insert_elem_ne; [exact Ha|exact Hb1|]. intros ->. by apply Hno.
  - exists (mem_allocs x'), k'. by destruct x.
  - intros a _ Hnp. apply Hout. intros Ht. apply Hnp. by right; right.
Qed.

(** ** Runs *)

Definition act (a : action) : M St bool :=
  match a with
  | Store va v => user_store pgd va v
  | Malloc size => _ ← process_malloc_syscall_handler p size; mret true
  | Free ptr => _ ← process_free_syscall_handler p ptr; mret true
  end.

(** The actions in turn, up to a page fault. *)
Fixpoint program_run (acts : list action) : M St bool :=
  match acts with
  | [] => mret true
  | a :: acts' => go ← act a; if go : bool then program_run acts' else mret false
  end.

(** The invariant holds again, and the step was one. *)
Definition carries_on (s : St) (x : process) (H : gmap Z nat) (r : nat) (s' : St) : Prop :=
  exists x' H', program s' x' H' r /\ stepped s s' p x x' d pgd H H'.

Lemma carries_on_refl (s : St) x H r : program s x H r -> carries_on s x H r s.
Proof. intros Hp. exists x, H. split; [done|]. apply stepped_refl, Hp. Qed.

(** The first slot with a property, or none. *)
Lemma first_slot_or (P : process_mem_allocation -> Prop) `{forall a, Decision (P a)} l :
  (exists i, first_slot P l i) \/ forall a, a ∈ l -> ~ P a.
Proof.
  destruct (list_find P l) as [[i a]|] eqn:E.
  - apply list_find_Some in E as (H1 & H2 & H3). left. exists i. split; [by exists a|]. intros j b Hj Hb. by eapply H3.
  - right. apply Forall_forall. by apply list_find_None in E.
Qed.

(** An action either ends, with the invariant, or is one the kernel does not survive:
    the release of the null pointer, or an allocation for which the blocks at the end
    of the heap are not enough. *)
Lemma store_outcome (s : St) x H r va v : program s x H r -> 0 <= va < 4294967296 ->
  wp (user_store pgd va v) s (fun _ s' => carries_on s x H r s').
Proof.
  intros Hp Hva. unfold user_store. apply wp_bind, wp_gets.
  destruct (user_write (phys s) pgd va) as [pa|] eqn:Hpa; [|by apply wp_ret, carries_on_refl].
  destruct (store_step s x H r va v pa Hp Hva Hpa) as [H1 H2]. apply wp_bind. unfold pstore8. apply wp_on_mem, wp_modify, wp_ret.
  by exists x, H.
Qed.

Lemma malloc_outcome (s : St) x H r size : program s x H r -> 0 < size <= 4294963200 ->
  (exists ptr s', process_malloc_syscall_handler p size s = Ok (ptr, s') /\ carries_on s x H (r - Heap.blocks_for size) s') \/
  process_malloc_syscall_handler p size s = Fault /\ (r < Heap.blocks_for size)%nat.
Proof.
  intros Hp Hs. pose proof (pg_heap _ _ _ _ _ _ _ _ _ _ Hp) as (Hrep & _ & Hr). destruct (blocks_for_bounds _ Hs) as (Hn & _ & Hn32).
  destruct (Heap.fit_or_none (kernel_heap (k_alloc (fsys s))) (Heap.blocks_for size)) as [[b [Hb _]]|Hno]; [|done|done|left|right].
  { destruct Hrep as (B & HB & _). apply (Heap.rep_ok _ _ HB). }
  - destruct (first_slot_or (fun a => ma_ptr a = 0) (mem_allocs x)) as [[i Hi]|Hfull].
    + destruct (malloc_slot_step s x H r size i b Hp Hs Hb Hi) as (ptr & x' & H' & s' & Hrun & Hp' & Hst).
      exists ptr, s'. split; [exact Hrun|]. by exists x', H'.
    + destruct (malloc_full_step s x H r size b Hp Hs Hb Hfull) as (s' & Hrun & Hp' & Hst).
      exists 0, s'. split; [exact Hrun|]. by exists x, H.
  - split; [by eapply malloc_no_room|]. destruct (decide (r < Heap.blocks_for size)%nat) as [|Hge]; [done|exfalso].
    destruct (reserve_run (k_alloc (fsys s)) (Heap.blocks_for size)) as [b Hb]; [lia|]. by apply (Hno b).
Qed.

Lemma free_outcome (s : St) x H r ptr : program s x H r ->
  (exists s', process_free_syscall_handler p ptr s = Ok (tt, s') /\ carries_on s x H r s') \/
  process_free_syscall_handler p ptr s = Fault /\ ptr = 0.
Proof.
  intros Hp. pose proof (program_user _ _ _ _ _ _ _ _ _ _ Hp) as Hu.
  destruct (first_slot_or (fun a => ma_ptr a = ptr) (mem_allocs x)) as [[i Hi]|Hno].
  2:{ left. exists s. split; [by eapply free_unknown|by apply carries_on_refl]. }
  pose proof Hi as (([ptr' size] & Hl & E) & _). cbn [ma_ptr] in E. subst ptr'. destruct (decide (ptr = 0)) as [->|H0]; [right|left].
  - split; [|done]. pose proof (hd_empty _ _ _ _ (pg_held _ _ _ _ _ _ _ _ _ _ Hp) _ (list_elem_of_lookup_2 _ _ _ Hl) eq_refl) as E.
    rewrite E in Hl. eapply free_null; [exact Hu|exact Hi|exact Hl|]. intros m. eapply kfree_null_rep.
    destruct (pg_heap _ _ _ _ _ _ _ _ _ _ Hp) as ((B & HB) & _). by exists B.
  - destruct (free_recorded_step s x H r ptr i size Hp H0 Hi Hl) as (x' & H' & s' & Hrun & Hp' & Hst).
    exists s'. split; [exact Hrun|]. by exists x', H'.
Qed.

Lemma act_outcome (s : St) x H r a : program s x H r -> allowed a ->
  (exists go s', act a s = Ok (go, s') /\ carries_on s x H (r - cost a) s') \/
  act a s = Fault /\ (a = Free 0 \/ (r < cost a)%nat).
Proof.
  intros Hp Ha. destruct a as [va v|size|ptr]; cbn [act allowed cost] in *; rewrite ?Nat.sub_0_r.
  - left. pose proof (store_outcome s x H r va v Hp Ha) as Hw. apply wp_run in Hw as (go & s' & ? & ?). eauto.
  - destruct (malloc_outcome s x H r size Hp Ha) as [(ptr & s' & Hrun & Hc)|[Hrun Hr]]; unfold mbind, M_bind; rewrite Hrun; eauto 6.
  - destruct (free_outcome s x H r ptr Hp) as [(s' & Hrun & Hc)|[Hrun ->]]; unfold mbind, M_bind; rewrite Hrun; eauto 6.
Qed.

Lemma program_weaken (s : St) x H r r' : (r' <= r)%nat -> program s x H r -> program s x H r'.
Proof. intros Hr [H1 H2 H3 H4 (H5 & H6 & H7) H8 H9 H10]. constructor; try done. split; [done|]. split; [done|lia]. Qed.

(** Why a run of a program may take the kernel down, with [r] blocks at the end of
    the heap. *)
Definition fatal (acts : list action) (r : nat) : Prop := Free 0 ∈ acts \/ (r < sum_list_with cost acts)%nat.

Lemma run_outcome acts : forall (s : St) x H r, program s x H r -> Forall allowed acts ->
  (exists go s', program_run acts s = Ok (go, s') /\ carries_on s x H (r - sum_list_with cost acts) s') \/
  program_run acts s = Fault /\ fatal acts r.
Proof.
  induction acts as [|a acts IH]; intros s x H r Hp Ha; cbn [program_run sum_list_with] in *.
  { left. exists true, s. split; [done|]. rewrite Nat.sub_0_r. by apply carries_on_refl. }
  apply Forall_cons in Ha as [Ha Hacts]. unfold mbind, M_bind.
  destruct (act_outcome s x H r a Hp Ha) as [(go & s' & -> & x' & H' & Hp' & Hst)|[-> Hr]]; cbn [mbind outcome_bind].
  2:{ right. split; [done|]. destruct Hr as [->|Hr]; [left; by left|right; cbn; lia]. }
  destruct go.
  - destruct (IH s' x' H' _ Hp' Hacts) as [(go & s2 & Hrun & x2 & H2 & Hp2 & Hst2)|[Hrun Hr]].
    + left. exists go, s2. split; [exact Hrun|]. exists x2, H2. split; [|by eapply stepped_trans].
      eapply program_weaken; [|exact Hp2]. lia.
    + right. split; [exact Hrun|]. destruct Hr as [Hr|Hr]; [left; by right|right; cbn; lia].
  - left. exists false, s'. split; [done|]. exists x', H'. split; [|done]. eapply program_weaken; [|exact Hp']. lia.
Qed.

End Step.

(** ** The end *)







(** *** The list of tasks *)



Lemma with_task_next t tk f (s : St) : t_next tk = 0 -> (task_list_head s <> 0 -> task_list_tail s <> t) ->
  (exists v, tasks (with_task t tk f s) !! t = Some v /\ t_next v = 0) /\
  (task_list_head s <> 0 -> forall v, tasks s !! task_list_tail s = Some v ->
     exists v', tasks (with_task t tk f s) !! task_list_tail s = Some v' /\ t_next v' = t).
Proof.
  intros Hn Hne. unfold with_task, enqueue. cbn [task_list_head set_tasks set_fsys]. destruct (Z.eqb_spec (task_list_head s) 0) as [E|E].
  - split; [|done]. exists tk. cbn. by rewrite lookup_insert_eq.
  - specialize (Hne E). cbn [tasks set_tasks set_task_list_tail task_list_tail set_fsys]. split.
    + exists (set_prev (task_list_tail s) tk). by rewrite lookup_alter_eq, lookup_alter_ne, lookup_insert_eq by auto.
    + intros _ v Hv. exists (set_next t v). by rewrite lookup_alter_ne, lookup_alter_eq, lookup_insert_ne, Hv by auto.
Qed.

Lemma forward_first t tk f (s : St) : task_list_head s = 0 -> t <> 0 -> t_next tk = 0 -> forward (with_task t tk f s) [t].
Proof.
  intros Hh Ht Hn. destruct (with_task_next t tk f s Hn) as [(v & Hv & Hv0) _]; [done|].
  unfold forward. rewrite (proj2 (with_task_tasks _ _ _ _)). split_and!.
  - apply NoDup_singleton.
  - by rewrite list_elem_of_singleton.
  - unfold with_task, enqueue. cbn [task_list_head set_tasks set_fsys]. by rewrite Hh.
  - done.
  - intros j u Hj. apply list_lookup_singleton_Some in Hj as [-> <-]. exists v. by rewrite Hv0.
Qed.


(** *** The exit *)





End Life.

(** ** From the load on *)

Section Loaded.
Context {D : Type} {Po : PortIO D} {Ad : AtaDrive D}.
#[local] Abbreviation St := (sys D).
Context (img : list Z) (p : Z) (fp : fat_private) (entries : list Z) (base ext : nat -> list Z)
  (nm : list Z) (k : nat) (T : list Z) (i : nat).
Hypothesis Hlisted : LoadProofs.listed img fp entries base ext nm k T i.
Hypothesis Hexec : LoadProofs.executable img fp entries k.
Hypothesis Hsegments : forall j, Z.of_nat j < e_phnum (LoadProofs.image img fp entries k) 0 -> segment_fits img fp entries k j.
Hypothesis Hwritable : writable_in_file img fp entries k.
Context (strs : list (list Z)) (argv : Z) (s0 junk : list Z).
Hypothesis Hchars : Forall CString.char_byte s0.
Hypothesis Hpath : PParser.path_of s0 = Some (0, [nm]).
Hypothesis Hshort : (length s0 < 128)%nat.
#[local] Abbreviation blocks := (Heap.blocks_for (Fat16.filesize (take 32 (drop (32 * k) entries)))).
#[local] Abbreviation started := (StartProofs.started img p fp entries k T strs argv s0).
#[local] Abbreviation can_load := (StartProofs.can_load img p fp entries T).

(** The blocks of a new process that its end releases. *)
Definition first_held (x : process) (buf : Z) : gmap Z nat :=
  <[p_executable x := 1%nat]> (<[buf := blocks]> {[stack_addr x := 4%nat]}).

Lemma first_held_lookup x buf b n : first_held x buf !! b = Some n ->
  (b, n) ∈ [(stack_addr x, 4%nat); (buf, blocks); (p_executable x, 1%nat)].
Proof.
  unfold first_held. intros [[<- <-]|[_ [[<- <-]|[_ [<- <-]%lookup_singleton_Some]]%lookup_insert_Some]]%lookup_insert_Some; rewrite !elem_of_cons; tauto.
Qed.

(** The process of a loaded program satisfies the invariant. *)
Lemma started_holds (s s' : St) slot L L0 r q x buf t d pgd LQ L1 : started s s' slot L L0 r q x buf t d pgd ->
  LQ ##ₘ L1 -> new_since L0 L1 ((t, 1%nat) :: own entries k q x buf) -> holds x buf blocks (first_held x buf) /\ first_held x buf ⊆ LQ ∪ L1.
Proof.
  intros Hst Hd [Hnd Hnew]. destruct Hst as [_ (e & st & ar & Hx) _ _ _]. unfold own in Hnd, Hnew. cbn [fmap list_fmap fst] in Hnd.
  rewrite !NoDup_cons in Hnd. destruct Hnd as (_ & _ & N1 & N2 & _).
  assert (Hma : mem_allocs x = replicate (Z.to_nat PROCESS_MAX_ALLOCATIONS) (MemAllocation 0 0)) by (by rewrite Hx).
  assert (Hl : live (mem_allocs x) = []) by (by rewrite Hx).
  assert (Hc : length (mem_allocs x) = Z.to_nat PROCESS_MAX_ALLOCATIONS) by (by rewrite Hx).
  rewrite !not_elem_of_cons in N1, N2. destruct N1 as (E2 & E3 & _), N2 as (E1 & _). clear Hx. split; [constructor|].
  - unfold held. rewrite Hl, !NoDup_cons, !not_elem_of_cons. pose proof (not_elem_of_nil (A := Z)). split_and!; auto using NoDup_nil_2.
  - unfold held, first_held. rewrite Hl, !dom_insert_L, dom_singleton_L. by rewrite !list_to_set_cons, list_to_set_nil, (right_id_L ∅ (∪)).
  - unfold first_held. by rewrite lookup_insert_ne, lookup_insert_eq.
  - unfold first_held. by rewrite !lookup_insert_ne, lookup_singleton_eq.
  - exact Hc.
  - intros a Ha Ha0. assert (Hin : ma_ptr a ∈ live (mem_allocs x)) by (apply elem_of_live; eauto). rewrite Hl in Hin. by apply not_elem_of_nil in Hin.
  - intros a Ha _. rewrite Hma in Ha. apply elem_of_replicate in Ha as [-> _]. done.
  - apply map_subseteq_spec. intros b n Hb%first_held_lookup. apply lookup_union_Some_r; [done|]. apply Hnew.
    rewrite !elem_of_cons in *. tauto.
Qed.

(** The bytes of the blocks [L] and [L0] and those below the heap. *)
Definition foreign (s : St) (L L0 : gmap Z nat) (a : Z) : Prop :=
  (exists b n, (L !! b = Some n \/ L0 !! b = Some n) /\ in_block b n a) \/ a < Heap.start_addr (kernel_heap (k_alloc (fsys s))).

Lemma started_program (s s' : St) slot L L0 r r' q x buf t d pgd : can_load s L L0 r' -> started s s' slot L L0 r q x buf t d pgd ->
  exists LQ L1, can_load s' LQ L1 r /\ L ⊆ LQ /\ L0 ⊆ L1 /\
    program s' q x buf blocks d pgd (first_held x buf) ((LQ ∪ L1) ∖ first_held x buf) r /\
    (forall a, foreign s' L L0 a -> reserved (k_alloc (fsys s')) x (first_held x buf) a /\ ~ in_paging (phys s') d pgd a).
Proof.
  intros Hc Hst. destruct (started_task img p fp entries k T strs argv s0 _ _ _ _ _ _ _ _ _ _ _ _ _ Hc Hst) as (_ & F2 & tk & G1 & G2 & _).
  pose proof Hst as [(e & ef & f & Hef & Hpe & Hs') (e' & st & ar & Hx) Hm _ (LQ & L1 & N1 & N2 & N3 & N4 & [N5 N6] & _)].
  pose proof (cl_ready _ _ _ _ _ _ _ _ _ N1) as Hr. pose proof (rd_rep _ _ _ _ _ _ _ _ _ Hr) as [R1 R2 _ R4].
  destruct (started_holds _ _ _ _ _ _ _ _ _ _ _ _ _ _ Hst R2 N4) as [Hh Hsub]. exists LQ, L1.
  assert (Hown : forall b n, first_held x buf !! b = Some n \/ b = arg_block x /\ n = 1%nat -> (b, n) ∈ own entries k q x buf).
  { intros b n [Hb%first_held_lookup|[-> ->]]; unfold own; rewrite !elem_of_cons in *; tauto. }
  assert (Hp_task : p_task x = t) by (by rewrite Hx). do 3 (split; [done|]). split.
  - constructor.
    + rewrite F2. apply lookup_insert_eq.
    + split; [by rewrite Hx|]. exists ef. split; [|done]. rewrite Hs', (proj1 (proj2 (with_task_fields _ _ _ _))), Hpe. apply lookup_insert_eq.
    + exists tk. by rewrite Hp_task.
    + apply Hm.
    + rewrite map_difference_union by done. split; [done|]. split; [by apply map_disjoint_difference_r1|done].
    + done.
    + intros a Ha. split; [by apply N6|]. intros b n Hb Hin. by apply (N5 b n a); [right; right; apply Hown| |].
    + intros va pa Hva Hw. destruct (program_write img fp entries k strs s0 Hshort _ _ _ _ _ _ _ Hm Hwritable ltac:(apply (proj1 (pm_buffer _ _ _ _ _ _ _ _ _ _ Hm))) Hva Hw) as (a & n & Ha & Hin).
      apply elem_of_cons in Ha as [[= -> ->]|[[= -> ->]|[[= -> ->]|Ha%not_elem_of_nil]%elem_of_cons]%elem_of_cons]; [by left|by right; left|by right; right; left|done].
  - assert (Hlive : forall b n, (b, n) ∈ own entries k q x buf -> (LQ ∪ L1) !! b = Some n /\ L0 !! b = None /\ LQ !! b = None).
    { intros b n Hb. destruct (proj2 N4 b n) as [H1 H0]; [by right|].
      split; [by apply lookup_union_Some_r|]. split; [done|]. by eapply map_disjoint_Some_r. }
    intros a [(b & n & Hb & Hin)|Ha].
    + assert (HbU : (LQ ∪ L1) !! b = Some n).
      { destruct Hb as [Hb|Hb]; [apply lookup_union_Some_l|apply lookup_union_Some_r; [done|]]; by eapply lookup_weaken. }
      split; [split; [by eapply live_not_free|]|]; [intros b' n' Hb' Hin'|].
      * destruct (Hlive b' n' (Hown _ _ Hb')) as (H1 & H2 & H3). eapply (live_apart _ _ b n b' n' a R1 HbU H1); [|exact Hin|exact Hin'].
        intros <-. destruct Hb as [Hb|Hb]; [|congruence]. pose proof (lookup_weaken _ _ _ _ Hb N2). congruence.
      * apply (N5 b n a); [|exact Hin]. destruct Hb as [Hb|Hb]; [left; exact (lookup_weaken _ _ _ _ Hb N2)|by right; left].
    + split; [split|]; [intros Hf%in_free_start; lia|intros b' n' Hb' Hin'|intros [_ Hf]%N6; lia].
      destruct (Hlive b' n' (Hown _ _ Hb')) as (H1 & _). destruct (live_range _ _ _ _ R1 H1) as (_ & _ & ?). unfold in_block in Hin'. lia.
Qed.



(** ** Theorems *)

(** C5 (invariant): isolation.  A loaded program, whose writable segments end inside
    its file, makes stores in user mode at any addresses, allocations by the system
    call of 1 byte up to 4294963200 bytes and releases of any addresses, in any order
    and up to a page fault if there is one.  Then no byte changes of the blocks that
    were allocated before the program was loaded, those of the kernel and of other
    programs included, nor of the memory below the heap, where the kernel is; the
    other processes, all tasks and the table of processes are as before.  The only
    other outcome is that the kernel faults in a system call, and that only if the
    program releases the null pointer or asks in all for more blocks than the [r] that
    the load leaves at the end of the heap. *)
Theorem program_isolated (s : St) L L0 r slot acts :
  can_load s L L0 (load_blocks entries k + r) -> arguments strs argv L0 (phys s) ->
  length (processes s) = 12%nat -> Vfs.free_slot (processes s) 0 = Some slot -> Forall allowed acts ->
  exists q x tk pgd s1, process_load_with_args (s0 ++ 0 :: junk) (Z.of_nat (length strs)) argv s = Ok ((0, q), s1) /\
    procs s1 !! q = Some x /\ tasks s1 !! p_task x = Some tk /\ desc_wf (phys s1) (t_paging tk) pgd /\
    ((exists go s2, program_run q pgd acts s1 = Ok (go, s2) /\
      (forall a, foreign s1 L L0 a -> PhysMem.load8 (phys s2) a = PhysMem.load8 (phys s1) a) /\
      (forall q', q' <> q -> procs s2 !! q' = procs s1 !! q') /\ tasks s2 = tasks s1 /\ processes s2 = processes s1) \/
     (program_run q pgd acts s1 = Fault /\ fatal acts r)).
Proof.
  intros Hc Hag Hl Hs Hacts.
  destruct (process_load_ok img p fp entries base ext nm k T i Hlisted Hexec Hsegments strs argv s0 junk Hchars Hpath Hshort s L L0 _ slot Hc Hag Hl Hs)
    as (q & x & buf & t & d & pgd & s1 & Hrun & Hst).
  destruct (started_program _ _ _ _ _ _ _ _ _ _ _ _ _ Hc Hst) as (LQ & L1 & _ & _ & _ & Hp & Hfor).
  destruct (pg_task _ _ _ _ _ _ _ _ _ _ Hp) as (tk & Ht & Hd). exists q, x, tk, pgd, s1. split; [exact Hrun|].
  split; [apply Hp|]. split; [exact Ht|]. split; [rewrite Hd; apply Hp|].
  destruct (run_outcome q buf _ d pgd _ acts s1 x _ r Hp Hacts) as [(go & s2 & Hrun2 & x2 & H2 & _ & [(l & k2 & _ & Es) _ _ Hkept])|Hf]; [left|by right].
  exists go, s2. split; [exact Hrun2|]. split; [|rewrite Es; split; [|done]].
  - intros a Ha. destruct (Hfor a Ha). by apply Hkept.
  - intros q' Hq. cbn. by rewrite lookup_insert_ne.
Qed.


End Loaded.

End LifeProofs.
