(* ===== verification/Isr80hProofs.v ===== *)
(** * System calls from entry to exit, proved

    The path of interrupt 0x80 through every layer: the switch to the kernel's
    page tables, the saved context, the dispatch through the table of commands,
    the routine with its accesses to the task's memory, and the switch back. *)
From stdpp Require Import base gmap list numbers strings.
From S2P Require Import Prelude Config CString Heap PhysMem KernelHeap Paging KState Disk Fat16 Terminal Idt Keyboard System Elf Task UserMemory Process Isr80h.
#[local] Open Scope Z_scope.

Module Isr80hProofs.
Import KernelHeap Paging System Task UserMemory Process Isr80h.

Section Calls.
Context {D : Type} {Po : PortIO D} (print_buf execve_filename : Z) (execve_argv : Z -> Z).
#[local] Abbreviation St := (sys D).
#[local] Abbreviation handler := (isr80h_handler print_buf execve_filename execve_argv).

(** ** Entering and leaving the kernel *)

(** A state with the same memory and the same page tables for the task. *)
Lemma user_task_same (s s' : St) p d pgd kpgd :
  user_task s p d pgd kpgd -> fsys s' = fsys s -> kernel_pages s' = kernel_pages s ->
  (exists t, tasks s' !! p = Some t /\ t_paging t = d) -> user_task s' p d pgd kpgd.
Proof.
  intros [H1 H2 H3 H4 H5 H6] Hf Hk Ht.
  split; rewrite ?Hk; unfold phys in *; rewrite ?Hf; done.
Qed.

Lemma user_word_same (s s' : St) pgd va b :
  user_word s pgd va b -> phys s' = phys s -> user_word s' pgd va b.
Proof. intros H Hp. unfold user_word. by rewrite Hp. Qed.

(** The state in which a routine runs. *)
Definition entered (s : St) (p kpgd : Z) (t : task) (frame : interrupt_frame) : St :=
  set_tasks (<[p := set_registers (frame_registers frame) t]> (tasks s))
    (set_regs (Cpu kpgd kpgd) (set_data_segment KERNEL_DATA_SEGMENT s)).

Lemma entered_task (s : St) p d pgd kpgd t frame :
  user_task s p d pgd kpgd -> tasks s !! p = Some t ->
  user_task (entered s p kpgd t frame) p d pgd kpgd.
Proof.
  intros Hu Ht. apply (user_task_same s); [done|done|done|].
  destruct (ut_task _ _ _ _ _ Hu) as (t' & Ht' & <-). simplify_eq.
  exists (set_registers (frame_registers frame) t). split; [apply lookup_insert_eq|done].
Qed.

(** The routine returns to the task: its page tables and segments are back. *)
Definition left (pgd : Z) (s : St) : St :=
  set_regs (Cpu pgd pgd) (set_data_segment USER_DATA_SEGMENT s).

Lemma wp_handler (s : St) p d pgd kpgd t frame id (Q : option Z -> St -> Prop) :
  user_task s p d pgd kpgd -> current_task s = p -> p <> 0 -> tasks s !! p = Some t ->
  wp (isr80h_handle_command print_buf execve_filename execve_argv id frame) (entered s p kpgd t frame)
    (fun r s3 => match r with
       | None => Q None s3
       | Some v => current_task s3 = p /\ (exists t3, tasks s3 !! p = Some t3 /\ t_paging t3 = d) /\
           PhysMem.load32 (phys s3) d = pgd /\ Q (Some v) (left pgd s3)
       end) ->
  wp (handler id frame) s Q.
Proof.
  intros Hu <- Hp Ht H. unfold isr80h_handler.
  destruct (ut_kernel _ _ _ _ _ Hu) as (Hk0 & Hkr & Hkl).
  apply wp_bind, (wp_swap_kernel kpgd); [done|done|done|]. apply wp_bind.
  unfold task_current_save_state. apply wp_bind, wp_gets.
  change (current_task (set_regs _ _)) with (current_task s).
  destruct (Z.eqb_spec (current_task s) 0); [done|]. eapply wp_update_task; [exact Ht|].
  apply wp_bind. eapply wp_mono; [exact H|]. intros [v|] s3; [|done].
  intros (Hc & (t3 & Ht3 & Hd3) & Hl3 & HQ). apply wp_bind. unfold swap_curr_task_page_tables.
  destruct (desc_page _ _ _ (ut_wf _ _ _ _ _ Hu)) as [Hdp Hd0]. pose proof (page_bound _ Hdp).
  apply wp_bind, wp_modify, wp_bind, wp_gets, wp_bind.
  eapply wp_load_task; [cbn [current_task set_data_segment tasks]; rewrite Hc; exact Ht3|].
  rewrite Hd3. apply wp_bind, (wp_switch_to _ pgd); [done|lia|exact Hl3|].
  apply wp_ret, wp_ret. exact HQ.
Qed.

(** The routine registered for a number. *)
Lemma wp_handle_command id c frame (s : St) (Q : option Z -> St -> Prop) :
  0 <= id < 1024 -> Idt.isr80h_commands (tables s) !! Z.to_nat id = Some (Some c) ->
  wp (call_command print_buf execve_filename execve_argv c frame) s Q ->
  wp (isr80h_handle_command print_buf execve_filename execve_argv id frame) s Q.
Proof.
  intros Hid Hc H. unfold isr80h_handle_command. change MAX_ISR80H_COMMANDS with 1024.
  rewrite (proj2 (Z.ltb_ge id 0)), Z.geb_leb, (proj2 (Z.leb_gt 1024 id)) by lia. cbn [orb].
  apply wp_bind. unfold wp at 1, get_state. apply wp_bind. unfold wp at 1, lift_outcome. rewrite Hc. exact H.
Qed.

(** The word at item [index] of the stack of an interrupted task. *)
Definition stack_word (s : St) (pgd : Z) (frame : interrupt_frame) (index : Z) (b : nat -> Z) : Prop :=
  user_word s pgd (f_esp frame + 4 * index) b.
Definition word (b : nat -> Z) : Z := b 0%nat + b 1%nat * 256 + b 2%nat * 65536 + b 3%nat * 16777216.

(** Fetching an argument inside a routine changes nothing. *)
Lemma wp_argument (s : St) p d pgd kpgd t frame index b (Q : Z -> St -> Prop) :
  user_task s p d pgd kpgd -> tasks s !! p = Some t -> stack_word s pgd frame index b -> 0 <= index ->
  Q (word b) (entered s p kpgd t frame) ->
  wp (task_get_stack_item p index) (entered s p kpgd t frame) Q.
Proof.
  intros Hu Ht Hb Hi HQ. unfold wp.
  by rewrite (stack_item_run _ p d pgd kpgd index (set_registers (frame_registers frame) t) b);
    [|apply entered_task|apply lookup_insert_eq|exact Hb|].
Qed.

(** A system call number that is out of range or has no
    routine is answered with 0; the task's context is saved, and the task's page
    tables and segments are in force again. *)
Theorem isr80h_unknown_command (s : St) (p d pgd kpgd id : Z) (t : task) (frame : interrupt_frame)
    (Hu : user_task s p d pgd kpgd) (Hc : current_task s = p) (Hp : p <> 0)
    (Ht : tasks s !! p = Some t) (Hsz : length (Idt.isr80h_commands (tables s)) = 1024%nat)
    (Hid : forall c, Idt.isr80h_commands (tables s) !! Z.to_nat id = Some (Some c) -> ~ 0 <= id < 1024) :
  handler id frame s = Ok (Some 0, left pgd (entered s p kpgd t frame)).
Proof.
  apply wp_eq. eapply (wp_handler s p d pgd kpgd t); [done|done|done|done|].
  assert (Hend : wp (mret (Some 0)) (entered s p kpgd t frame)
    (fun r s3 => match r with
     | None => None = Some 0 /\ s3 = left pgd (entered s p kpgd t frame)
     | Some v => current_task s3 = p /\ (exists t3, tasks s3 !! p = Some t3 /\ t_paging t3 = d) /\
         PhysMem.load32 (phys s3) d = pgd /\ Some v = Some 0 /\
         left pgd s3 = left pgd (entered s p kpgd t frame) end)).
  { apply wp_ret. split; [done|]. pose proof (entered_task s p d pgd kpgd t frame Hu Ht) as H.
    split; [apply H|]. split; [apply (desc_load _ _ _ (ut_wf _ _ _ _ _ H))|done]. }
  unfold isr80h_handle_command. change MAX_ISR80H_COMMANDS with 1024.
  destruct (Z.ltb_spec id 0); [done|]. rewrite Z.geb_leb. destruct (Z.leb_spec 1024 id); [done|].
  cbn [orb]. apply wp_bind. unfold wp at 1, get_state. apply wp_bind. unfold wp at 1, lift_outcome.
  change (tables (entered s p kpgd t frame)) with (tables s).
  destruct (lookup_lt_is_Some_2 (Idt.isr80h_commands (tables s)) (Z.to_nat id)) as [[c|] E]; [lia| |].
  - destruct (Hid c E). lia.
  - rewrite E. exact Hend.
Qed.

(** The sum system call, end to end: the two words on top of the interrupted
    task's stack are added modulo 2^32. *)
Lemma isr80h_sum_call s p d pgd kpgd t frame b1 b2 :
  user_task s p d pgd kpgd -> current_task s = p -> p <> 0 -> tasks s !! p = Some t ->
  Idt.isr80h_commands (tables s) !! 0%nat = Some (Some Idt.isr80h_command_0_sum) ->
  stack_word s pgd frame 0 b1 -> stack_word s pgd frame 1 b2 ->
  handler 0 frame s = Ok (Some (u32 (word b1 + word b2)), left pgd (entered s p kpgd t frame)).
Proof.
  intros Hu Hc Hp Ht Hreg H1 H2.
  apply wp_eq. eapply (wp_handler s p d pgd kpgd t); [done|done|done|done|].
  eapply wp_handle_command; [lia|exact Hreg|]. cbn [call_command]. unfold isr80h_command_0_sum.
  apply wp_bind, wp_gets. change (current_task (entered _ _ _ _ _)) with (current_task s). rewrite Hc.
  apply wp_bind. eapply wp_argument; [done|done|done|lia|].
  apply wp_bind. eapply wp_argument; [done|done|done|lia|]. apply wp_ret.
  pose proof (entered_task s p d pgd kpgd t frame Hu Ht) as H.
  split; [done|]. split; [apply H|]. split; [apply (desc_load _ _ _ (ut_wf _ _ _ _ _ H))|done].
Qed.






End Calls.

(** ** Witnesses *)

(** The two registered routines used below, in the state of [UserMemory]'s
    witnesses: the task runs with its stack pointer at the address of "hi". *)
Definition call_state : sys unit :=
  set_tables (Idt.set_isr80h_commands
    (<[0%nat := Some Idt.isr80h_command_0_sum]> (<[1%nat := Some Idt.isr80h_command_1_print]>
       (<[7%nat := Some Idt.isr80h_command_7_exit]> (replicate 1024 None)))) Idt.boot_state)
    small_state.

#[local] Instance no_ports : PortIO unit :=
  {| insb := fun _ d => (0, d); insw := fun _ d => (0, d); outb := fun _ _ d => d |}.

Definition call_frame : interrupt_frame := Frame 1 2 3 0 4 5 6 7 0x400100 0x1b 0x202 0x400004 0x23.
Definition call_task : task := Task 0x1ff000 (Registers 0 0 0 0 0 0 0 0 0 0 0x400000 0) 100 0 0.

Lemma call_user_task : user_task call_state 4096 0x1ff000 0x200000 0x100000.
Proof.
  apply (user_task_same small_state); [apply small_task|done|done|]. by exists call_task.
Qed.

Lemma isr80h_unknown_command_witness :
  isr80h_handler 0x5f0000 0x5f1000 (fun _ => 0x5f2000) 99 call_frame call_state =
    Ok (Some 0, left 0x200000 (entered call_state 4096 0x100000 call_task call_frame)).
Proof.
  apply (isr80h_unknown_command 0x5f0000 0x5f1000 (fun _ => 0x5f2000) call_state 4096 0x1ff000 0x200000
    0x100000 99 call_task call_frame call_user_task eq_refl); [done|done| |].
  - cbn [tables call_state set_tables Idt.isr80h_commands Idt.set_isr80h_commands].
    by rewrite !length_insert, length_replicate.
  - intros c Hc. exfalso. revert Hc. cbn [tables call_state set_tables Idt.isr80h_commands Idt.set_isr80h_commands].
    change (Z.to_nat 99) with 99%nat.
    rewrite !list_lookup_insert_ne by lia. intros [? _]%lookup_replicate. done.
Defined.


(** A process that exits is taken from the table of processes, but its task
    stays in the list of tasks: with no other task the kernel runs the task of
    the process it has just freed. *)
Definition exiting_state : sys unit :=
  set_procs {[ 100 := set_p_task 4096 zero_process ]}
    (set_processes (<[0%nat := 100]> (replicate 12 0)) call_state).

Example exit_runs_the_task_again :
  match isr80h_handler 0x7f0000 0x5f1000 (fun _ => 0x5f2000) 7 call_frame exiting_state with
  | Ok (None, s') => (processes s', current_task s', user s')
  | _ => ([], 0, None)
  end = (replicate 12 0, 4096, Some (frame_registers call_frame)).
Proof. vm_compute. reflexivity. Qed.

End Isr80hProofs.
