(* ===== verification/Kernel.v ===== *)
(** * The kernel's entry: [src/kernel.c]

    [kernel_main] brings up the components in order, loads the shell and enters
    it; [run_smoke_tests] exercises the file system.  The state is that of
    [System] together with what only the start of the kernel touches: the segment
    table and the task state segment, the registers that refer to them, and the
    list of keyboard drivers. *)
From stdpp Require Import base gmap list numbers strings.
From S2P Require Import Prelude Config Memory CString Heap PhysMem KernelHeap Paging KState Disk PParser Fat16 Vfs Gdt Terminal Idt Keyboard System Elf Task Process.
#[local] Open Scope Z_scope.

Module Kernel.
Import KernelHeap Paging KState System Task Process.

(** ** State *)

Record machine (D : Type) := Machine {
  m_sys : sys D;
  gdt_raw : list Z;                (* the bytes of the raw segment table *)
  gdtr : option (Z * Z);           (* its address and the size loaded *)
  tss : list Z;                    (* the words of the task state segment *)
  task_register : option Z;
  paging_enabled : bool;
  keyboards : gmap Z Keyboard.keyboard;
  keyboard_list_head : Z;
  keyboard_list_last : Z
}.
Arguments Machine {D}.
Arguments m_sys {D}.
Arguments gdt_raw {D}.
Arguments gdtr {D}.
Arguments tss {D}.
Arguments task_register {D}.
Arguments paging_enabled {D}.
Arguments keyboards {D}.
Arguments keyboard_list_head {D}.
Arguments keyboard_list_last {D}.

Definition TSS_GDT_INDEX : Z := 5.

Section Entry.
Context {D : Type} {Po : PortIO D}.
#[local] Abbreviation St := (machine D).

(** What the linker and other code choose or do: the addresses of the raw segment
    table, of the task state segment, of the driver's structure, of the interrupt
    table and the entry stubs, the function of the Rust library, and the stack
    under the array of the smoke tests. *)
Variables (gdt_addr tss_addr ps2_keyboard : Z) (stubs : list Z) (idt_addr idt_zero isr80h_wrapper : Z)
  (rust_plus_2_callable : Z -> Z) (smoke_stack : list Z).

Definition set_m_sys (v : sys D) (s : St) : St :=
  Machine v (gdt_raw s) (gdtr s) (tss s) (task_register s) (paging_enabled s) (keyboards s)
    (keyboard_list_head s) (keyboard_list_last s).
Definition set_gdt_raw (v : list Z) (s : St) : St :=
  Machine (m_sys s) v (gdtr s) (tss s) (task_register s) (paging_enabled s) (keyboards s)
    (keyboard_list_head s) (keyboard_list_last s).
Definition set_gdtr (v : option (Z * Z)) (s : St) : St :=
  Machine (m_sys s) (gdt_raw s) v (tss s) (task_register s) (paging_enabled s) (keyboards s)
    (keyboard_list_head s) (keyboard_list_last s).
Definition set_tss (v : list Z) (s : St) : St :=
  Machine (m_sys s) (gdt_raw s) (gdtr s) v (task_register s) (paging_enabled s) (keyboards s)
    (keyboard_list_head s) (keyboard_list_last s).
Definition set_task_register (v : option Z) (s : St) : St :=
  Machine (m_sys s) (gdt_raw s) (gdtr s) (tss s) v (paging_enabled s) (keyboards s)
    (keyboard_list_head s) (keyboard_list_last s).
Definition set_paging_enabled (v : bool) (s : St) : St :=
  Machine (m_sys s) (gdt_raw s) (gdtr s) (tss s) (task_register s) v (keyboards s)
    (keyboard_list_head s) (keyboard_list_last s).
Definition set_keyboard_drivers (v : gmap Z Keyboard.keyboard) (h l : Z) (s : St) : St :=
  Machine (m_sys s) (gdt_raw s) (gdtr s) (tss s) (task_register s) (paging_enabled s) v h l.

(** ** Calls into the components *)

Definition on_sys {X} (m : M (sys D) X) : M St X := zoom m_sys set_m_sys m.

(** The keyboard layer with its list of drivers. *)
Definition kbd_view (s : St) : Keyboard.kbd D :=
  Keyboard.mk_kbd (p_keyboard <$> procs (m_sys s)) (t_process <$> tasks (m_sys s)) (current_process (m_sys s))
    (current_task (m_sys s)) (keyboards s) (keyboard_list_head s) (keyboard_list_last s)
    (screen (m_sys s)) (tables (m_sys s)) (dev (fsys (m_sys s))).
Definition set_kbd_view (k : Keyboard.kbd D) (s : St) : St :=
  set_keyboard_drivers (Keyboard.keyboards k) (Keyboard.keyboard_list_head k) (Keyboard.keyboard_list_last k)
    (set_m_sys
      (set_procs (map_imap (fun p x =>
          Some (match Keyboard.buffers k !! p with Some b => set_p_keyboard b x | None => x end)) (procs (m_sys s)))
        (set_screen (Keyboard.screen k) (set_tables (Keyboard.tables k)
          (set_fsys (set_dev (fsys (m_sys s)) (Keyboard.ports k)) (m_sys s))))) s).
Definition on_keyboard {X} (m : M (Keyboard.kbd D) X) : M St X := zoom kbd_view set_kbd_view m.

(** [kernel_heap_init] of [kernel_heap.c] on the memory at the table's address. *)
Definition init_heap : M St unit :=
  s ← get_state;
  let k := k_alloc (fsys (m_sys s)) in
  '(rc, h) ← lift_outcome (kernel_heap_init (kernel_heap k)
      (PhysMem.bytes_at (mem k) KERNEL_HEAP_TABLE_ADDR (Z.to_nat (KERNEL_HEAP_SIZE / HEAP_BLOCK_SIZE))));
  _ ← on_sys (modify (with_kmem (KMem h (mem k))));
  if rc <? 0 then on_sys (print_line "Failed to create kernel heap") else mret tt.

(** [tss.esp0 = ...] and [tss.ss0 = ...]: the words 1 and 2. *)
Definition put_tss (i : nat) (v : Z) : M St unit := fun s =>
  if decide (i < length (tss s))%nat then Ok (tt, set_tss (<[i := v]> (tss s)) s) else Fault.

(** ** [run_smoke_tests] *)

(** The array [buf] is not initialised; the bytes of the stack from it on are
    [smoke_stack], and [print] reads up to a terminator there. *)
Definition run_smoke_tests : M St unit :=
  _ ← on_sys (print_line "Begin Tests --------------------------");
  root_path ← on_sys (on_fs (PParser.pparser_parse (Keyboard.literal "0:/bin/shell.bin")));
  _ ← (if negb (root_path =? 0) then on_sys (print_line "Parse path worked") else mret tt);
  disk_stream ← on_sys (on_fs (Disk.get_disk_stream 0));
  rc ← on_sys (on_fs (Disk.disk_stream_seek disk_stream 0x201));
  _ ← (if rc <? 0 then on_sys (print_line "Error on disk_stream_seek") else mret tt);
  _ ← on_sys (on_fs (Disk.disk_stream_read disk_stream [0] 1));
  _ ← on_sys (on_fs (Disk.disk_stream_seek disk_stream 511));
  _ ← on_sys (on_fs (Disk.disk_stream_read disk_stream (replicate 4 0) 4));
  _ ← lift_outcome (CString.strcpy (replicate 20 0) (Keyboard.literal "hello!"));
  fd ← on_sys (on_fs (Vfs.fopen Vfs.kernel_driver (Keyboard.literal "0:/hello.txt") (Keyboard.literal "r")));
  _ ← (if fd <? 0 then on_sys (print_line "Error opening file")
       else
         _ ← on_sys (print_line "We opened '0:/hello.txt'");
         length ← lift_outcome (CString.strlen (Keyboard.literal "Hello World"));
         _ ← on_sys (on_fs (Vfs.fseek Vfs.kernel_driver fd 5 Fat16.SEEK_SET));
         '(n, buf) ← on_sys (on_fs (Vfs.fread Vfs.kernel_driver (take (Z.to_nat length) smoke_stack) 1 length fd));
         _ ← (if n =? 0 then on_sys (print_line "ERROR: fread")
              else
                _ ← on_sys (on_screen (Terminal.print
                      (Keyboard.literal "Contents of 0:/hello.txt (starting at 5th byte): ")));
                _ ← on_sys (on_screen (Terminal.print (buf ++ drop (Z.to_nat length) smoke_stack)));
                on_sys (on_screen (Terminal.print [10; 0])));
         '(_, stat) ← on_sys (on_fs (Vfs.fstat Vfs.kernel_driver fd (FileStat 0 0)));
         _ ← (if st_filesize stat =? 12 then on_sys (print_line "fstat success")
              else on_sys (print_line "ERROR: fstat"));
         _ ← on_sys (on_fs (Vfs.fclose Vfs.kernel_driver fd));
         on_sys (print_line "Closed file descriptor"));
  on_sys (on_screen (Terminal.print (removelast (Keyboard.line "End Tests --------------------------") ++ [10; 0]))).

(** ** [kernel_main] *)

(** Up to the load of the shell. *)
Definition kernel_init : M St unit :=
  _ ← on_sys (on_screen (modify Terminal.terminal_initialize));
  raw ← gets gdt_raw;
  raw ← lift_outcome (Memory.memset raw 0 (TOTAL_GDT_SEGMENTS * Z.of_nat Gdt.sizeof_raw));
  _ ← modify (set_gdt_raw raw);
  _ ← zoom gdt_raw set_gdt_raw (Gdt.segment_descriptor_to_raw (Gdt.gdt tss_addr) TOTAL_GDT_SEGMENTS);
  _ ← modify (set_gdtr (Some (gdt_addr, TOTAL_GDT_SEGMENTS * Z.of_nat Gdt.sizeof_raw)));
  _ ← init_heap;
  _ ← on_sys (on_fs (Vfs.fs_init (replicate 20 0)));
  _ ← on_sys (on_fs (Disk.disk_search_and_init (Vfs.fs_resolve Vfs.kernel_driver)));
  _ ← on_sys (on_tables (Idt.idt_init stubs idt_addr idt_zero isr80h_wrapper));
  _ ← modify (set_tss (replicate 27 0));
  _ ← put_tss 1 KERNEL_STACK_ADDR;
  _ ← put_tss 2 KERNEL_DATA_SELECTOR;
  _ ← modify (set_task_register (Some (TSS_GDT_INDEX * Z.of_nat Gdt.sizeof_raw)));
  d ← on_sys (on_mem (init_page_tables (Z.lor (Z.lor PAGING_READ_WRITE PAGING_PRESENT) PAGING_USER_SUPERVISOR)));
  _ ← on_sys (modify (set_kernel_pages d));
  _ ← on_sys (switch_to d);
  _ ← modify (set_paging_enabled true);
  _ ← on_sys (on_tables Idt.isr80h_register_commands);
  on_keyboard (Keyboard.keyboard_init ps2_keyboard).

(** [task_exec] enters the task and does not return. *)
Definition kernel_main : M St unit :=
  _ ← kernel_init;
  '(rc, process) ← on_sys (process_load (Keyboard.literal "0:/shell.elf"));
  if rc <? 0 then panic "Failed to load 0:/shell.elf\n"
  else
    let b := rust_plus_2_callable 2 in
    _ ← (if b =? 4 then on_sys (print_line "Rust integration test passed")
         else on_sys (print_line "Rust integration test failed"));
    head ← on_sys get_task_list_head;
    on_sys (task_exec head).

End Entry.

End Kernel.
