(* ===== verification/KernelProofs.v ===== *)
(** * The kernel's entry: theorems

    What the machine looks like when the components are up and the shell is about
    to be loaded, from a machine as the boot sector leaves it with a FAT16 disk. *)
From stdpp Require Import base gmap list numbers strings.
From S2P Require Import Prelude Config Memory CString Heap PhysMem KernelHeap HeapViews Paging KState Disk PParser Fat16 Fat16Proofs Vfs VfsProofs Gdt Terminal Idt Keyboard System Elf ElfProofs Task UserMemory Process LoadProofs LaunchProofs StartProofs Kernel.
#[local] Open Scope Z_scope.

Module KernelProofs.
Import KernelHeap HeapViews Paging KState System Elf Task UserMemory Process LaunchProofs StartProofs Kernel.

Section Boot.
Context {D : Type} {Po : PortIO D} {Ad : AtaDrive D}.
#[local] Abbreviation St := (machine D).

Lemma wp_on_sys {X} (m : M (sys D) X) (s : St) (Q : X -> St -> Prop) :
  wp m (m_sys s) (fun x s' => Q x (set_m_sys s' s)) -> wp (on_sys m) s Q.
Proof. apply wp_zoom. Qed.

(** ** The file systems *)

Definition mounted_table : list Z := Fat16.fat16_fs :: replicate 11 0.

Lemma wp_fs_init (s : kst kmem D) (Q : list Z -> kst kmem D -> Prop) :
  (forall name, Q name (set_filesystems (set_file_descriptors s (replicate 512 0)) mounted_table)) ->
  wp (Vfs.fs_init (replicate 20 0)) s Q.
Proof. intros HQ. apply HQ. Qed.

(** The header and the root directory of the volume on [img], whose root has [m]
    entries before its end. *)
Definition volume_header (img : list Z) : list Z := Disk.extent img 0 Fat16.sizeof_fat_header.
Definition root_entries (img : list Z) : list Z :=
  Disk.extent img (Fat16Proofs.root_sector (volume_header img) * 512) (Fat16Proofs.root_size (volume_header img)).

Record volume_mounted (img : list Z) (m : nat) (fp : fat_private) (f : kst kmem D) : Prop := {
  vm_header : header fp = volume_header img;
  vm_root : exists r, root_directory fp = Fat16Proofs.root_of img (volume_header img) m r /\
    objs f !! r = Some (to_obj (root_entries img))
}.

Lemma wp_disk_init {Av : AllocatorView kmem} {Aw : AllocatorLaws kmem} img (s : kst kmem D) L m f (Q : unit -> kst kmem D -> Prop) :
  filesystems s = mounted_table -> live s L -> free_blocks s = (6 + f)%nat ->
  DiskProofs.drive_ok img (dev s) -> 512 <= Z.of_nat (length img) < 2147483648 -> Z.of_nat (length img) mod 512 = 0 ->
  Fat16Proofs.root_layout img (volume_header img) m ->
  Fat16.extended_boot_signature (volume_header img) = Fat16.FAT16_SIGNATURE ->
  (forall s' p fp L', Fat16Proofs.mounted img p fp s' -> d_filesystem (the_disk s') = Fat16.fat16_fs ->
     live s' L' -> free_blocks s' = S f -> volume_mounted img m fp s' -> file_descriptors s' = file_descriptors s -> Q tt s') ->
  wp (Disk.disk_search_and_init (Vfs.fs_resolve Vfs.kernel_driver)) s Q.
Proof.
  intros Hfs Hl Hf Hd Hsz Hmod Hroot Hsig HQ. unfold Disk.disk_search_and_init. apply wp_bind, wp_modify.
  set (s1 := set_disk s _). apply wp_bind. unfold Vfs.fs_resolve. apply wp_bind, wp_gets.
  change (filesystems s1) with (filesystems s). rewrite Hfs. unfold mounted_table. cbn [Vfs.resolve_loop].
  change (negb (Fat16.fat16_fs =? 0)) with true. cbv iota. apply wp_bind. unfold Vfs.driver_at, Vfs.kernel_driver.
  rewrite Z.eqb_refl. apply (wp_ret (St := kst kmem D)). apply wp_bind. eapply wp_mono.
  { apply (Fat16Proofs.fat16_resolve_ok img s1 L m f); [by split|exact Hl|exact Hf|by intros _]. }
  intros rc s' (_ & _ & Ht & Hpost). rewrite bool_decide_true in Hpost by exact Hsig.
  destruct Hpost as (-> & Hdf & Hfree & p & r & fp & L' & Hm & Hh & Hr & He & Hl' & _).
  change (0 =? 0) with true. cbv iota. apply wp_ret, wp_modify. eapply (HQ _ p fp L'); try done.
  - destruct Hm as [H1 H2 H3 H4 H5 H6 H7]. by split.
  - split; [exact Hh|]. by exists r.
  - by injection Ht.
Qed.

(** ** The machine before and after *)

Section Start.
Context (gdt_addr tss_addr ps2_keyboard : Z) (stubs : list Z) (idt_addr idt_zero isr80h_wrapper : Z).
Context (img : list Z).

(** No process and no task. *)
Definition no_tasks (s : St) : Prop :=
  processes (m_sys s) = replicate 12 0 /\ tasks (m_sys s) = ∅ /\ task_list_head (m_sys s) = 0.

(** The volume is mounted with no file open, and [r] blocks are free at the end of
    the heap. *)
Definition volume_ready (m r : nat) (f : kst kmem D) : Prop :=
  exists p fp L L0, volume_mounted img m fp f /\
    LoadProofs.ready img p fp (root_entries img) (replicate 512 0) f L L0 r.

(** The boot code's machine: zeroed tables, no objects on the heap, an idle drive
    with [img], and the driver's structure, not yet in the list. *)
Record reset (s : St) : Prop := {
  rs_raw : length (gdt_raw s) = 48%nat;
  rs_tables : Idt.sizes (tables (m_sys s));
  rs_calls : Idt.isr80h_commands (tables (m_sys s)) = replicate 1024 None;
  rs_objs : objs (fsys (m_sys s)) = ∅;
  rs_drive : DiskProofs.drive_ok img (dev (fsys (m_sys s)));
  rs_size : 512 <= Z.of_nat (length img) < 2147483648 /\ Z.of_nat (length img) mod 512 = 0;
  rs_driver : keyboards s !! ps2_keyboard =
    Some (Keyboard.mk_keyboard (Some Keyboard.ps2_keyboard_init_fn) 0);
  rs_list : keyboard_list_last s = 0;
  rs_tasks : no_tasks s
}.

(** The addresses fit a machine word. *)
Record linked : Prop := {
  ln_stubs : length stubs = 512%nat /\ Forall (fun p => 0 <= p < 2 ^ 32) stubs;
  ln_tables : 0 <= idt_addr < 2 ^ 32 /\ 0 <= idt_zero < 2 ^ 32 /\ 0 <= isr80h_wrapper < 2 ^ 32 /\
    0 <= tss_addr < 2 ^ 32
}.

(** A disk with a FAT16 volume. *)
Record fat16_disk (m : nat) : Prop := {
  fd_root : Fat16Proofs.root_layout img (volume_header img) m;
  fd_signature : Fat16.extended_boot_signature (volume_header img) = Fat16.FAT16_SIGNATURE
}.

(** Everything is up. *)
Record booted (m : nat) (s : St) : Prop := {
  bt_segments i d : Gdt.gdt tss_addr !! i = Some d ->
    Gdt.hw_decode (Gdt.raw_entry (gdt_raw s) i) = Some (Gdt.hw_view d);
  bt_gdtr : gdtr s = Some (gdt_addr, 48);
  bt_tss : tss s !! 1%nat = Some KERNEL_STACK_ADDR /\ tss s !! 2%nat = Some KERNEL_DATA_SELECTOR;
  bt_task_register : task_register s = Some 40;
  bt_paging : paging_enabled s = true /\ exists pgd, regs (m_sys s) = Cpu pgd pgd /\
    desc_wf (phys (m_sys s)) (kernel_pages (m_sys s)) pgd /\
    forall va, page va -> pte (phys (m_sys s)) pgd va = va + 7;
  bt_heap : exists L, kmem_rep (k_alloc (fsys (m_sys s))) L /\
    Heap.free_count (Heap.entries (Heap.table (kernel_heap (k_alloc (fsys (m_sys s)))))) = Z.to_nat 24569;
  bt_volume : volume_ready m (Z.to_nat 24568) (fsys (m_sys s));
  bt_gates i e : Idt.idt (tables (m_sys s)) !! i = Some e ->
    Idt.hw_gate e = Idt.kernel_gate (if decide (i = 0%nat) then idt_zero
      else if decide (i = 128%nat) then isr80h_wrapper else default 0 (stubs !! i));
  bt_handlers : (forall i, (i < 32)%nat -> Idt.interrupt_handlers (tables (m_sys s)) !! i =
      Some (Some Idt.idt_handle_user_process_exception)) /\
    Idt.interrupt_handlers (tables (m_sys s)) !! 33%nat = Some (Some Idt.ps2_keyboard_handle_interrupt);
  bt_calls : take 8 (Idt.isr80h_commands (tables (m_sys s))) =
    map Some [Idt.isr80h_command_0_sum; Idt.isr80h_command_1_print; Idt.isr80h_command_2_get_key_press;
      Idt.isr80h_command_3_put_char_on_display; Idt.isr80h_command_4_malloc; Idt.isr80h_command_5_free;
      Idt.isr80h_command_6_execve; Idt.isr80h_command_7_exit];
  bt_keyboard : keyboard_list_head s = ps2_keyboard /\ keyboard_list_last s = ps2_keyboard;
  bt_tasks : no_tasks s
}.

(** ** The steps *)

(** The segment table. *)
Lemma wp_segments {X} (s : St) (k : M St X) (Q : X -> St -> Prop) :
  length (gdt_raw s) = 48%nat -> 0 <= tss_addr < 2 ^ 32 ->
  (forall raw, (forall i d, Gdt.gdt tss_addr !! i = Some d ->
       Gdt.hw_decode (Gdt.raw_entry raw i) = Some (Gdt.hw_view d)) ->
     wp k (set_gdtr (Some (gdt_addr, 48)) (set_gdt_raw raw s)) Q) ->
  wp (raw ← gets gdt_raw;
      raw ← lift_outcome (Memory.memset raw 0 (TOTAL_GDT_SEGMENTS * Z.of_nat Gdt.sizeof_raw));
      _ ← modify (set_gdt_raw raw);
      _ ← zoom gdt_raw set_gdt_raw (Gdt.segment_descriptor_to_raw (Gdt.gdt tss_addr) TOTAL_GDT_SEGMENTS);
      _ ← modify (set_gdtr (Some (gdt_addr, TOTAL_GDT_SEGMENTS * Z.of_nat Gdt.sizeof_raw)));
      k) s Q.
Proof.
  intros Hraw Htss HQ. apply wp_bind, wp_gets, wp_bind.
  change (TOTAL_GDT_SEGMENTS * Z.of_nat Gdt.sizeof_raw) with 48.
  rewrite Memory.memset_ok by lia. apply (wp_ret (St := St)). apply wp_bind, wp_modify, wp_bind, wp_zoom.
  assert (Hl : length (replicate (Z.to_nat 48) (u8 0) ++ drop (Z.to_nat 48) (gdt_raw s)) = 48%nat).
  { rewrite length_app, length_replicate, length_drop. lia. }
  cbn [gdt_raw set_gdt_raw]. revert Hl. generalize (replicate (Z.to_nat 48) (u8 0) ++ drop (Z.to_nat 48) (gdt_raw s)).
  intros raw0 Hl.
  assert (Hwf : Forall Gdt.segment_descriptor_wf (Gdt.gdt tss_addr)).
  { unfold Gdt.gdt. repeat (apply Forall_cons; split; [unfold Gdt.segment_descriptor_wf, Gdt.sizeof_tss; simpl; lia|]).
    apply Forall_nil_2. }
  pose proof (Gdt.to_raw_ok (Gdt.gdt tss_addr) raw0 Hwf ltac:(rewrite Hl; vm_compute; lia)) as H.
  change (Z.of_nat (length (Gdt.gdt tss_addr))) with TOTAL_GDT_SEGMENTS in H. unfold wp.
  destruct (Gdt.segment_descriptor_to_raw _ _ raw0) as [[u raw']| |msg|]; [|done|vm_compute in H; discriminate|done].
  destruct H as (_ & _ & Hdec & _). exact (HQ raw' Hdec).
Qed.

(** The kernel heap. *)
Lemma table_size : Z.to_nat (KERNEL_HEAP_SIZE / HEAP_BLOCK_SIZE) = kernel_heap_blocks.
Proof. unfold kernel_heap_blocks. f_equal. Qed.

#[local] Opaque kernel_heap_blocks fresh_heap.

Lemma wp_init_heap (s : St) (Q : unit -> St -> Prop) :
  Q tt (set_m_sys (with_kmem (KMem fresh_heap (phys (m_sys s))) (m_sys s)) s) -> wp init_heap s Q.
Proof.
  intros HQ. unfold init_heap. rewrite table_size. apply wp_bind, wp_get_state. cbv zeta.
  apply wp_bind. eapply wp_lift; [apply kernel_heap_init_fresh, PhysMem.length_bytes_at|].
  apply wp_bind, wp_on_sys, wp_modify. change (0 <? 0) with false. apply wp_ret. exact HQ.
Qed.

(** The page tables, switched to. *)
Lemma wp_page_tables {X} (s : St) m r f (k : M St X) (Q : X -> St -> Prop) :
  volume_ready m (1026 + r) (fsys (m_sys s)) -> free_total (k_alloc (fsys (m_sys s))) = (1026 + f)%nat ->
  (forall d pgd k1, volume_ready m r (set_heap (fsys (m_sys s)) k1 (objs (fsys (m_sys s)))) -> free_total k1 = f ->
     desc_wf (mem k1) d pgd -> (forall va, page va -> pte (mem k1) pgd va = va + 7) ->
     wp k (set_paging_enabled true (set_m_sys
       (set_regs (Cpu pgd pgd) (set_kernel_pages d (with_kmem k1 (m_sys s)))) s)) Q) ->
  wp (d ← on_sys (on_mem (init_page_tables (Z.lor (Z.lor PAGING_READ_WRITE PAGING_PRESENT) PAGING_USER_SUPERVISOR)));
      _ ← on_sys (modify (set_kernel_pages d));
      _ ← on_sys (switch_to d);
      _ ← modify (set_paging_enabled true);
      k) s Q.
Proof.
  intros (p & fp & L & L0 & Hv & Hr) Hf HQ. change (Z.lor (Z.lor PAGING_READ_WRITE PAGING_PRESENT) PAGING_USER_SUPERVISOR) with 7.
  pose proof (LoadProofs.rd_rep _ _ _ _ _ _ _ _ _ Hr) as [Hrep _ _ Hres].
  destruct (init_page_tables_ok _ _ 7 _ Hrep ltac:(lia) Hf)
    as (d & pgd & k1 & L' & Hrun & Hrep' & HL & _ & _ & Hf' & Hwf & Hpte & _ & Hext & _).
  destruct (LoadProofs.ready_extend _ _ _ _ _ _ _ _ _ r _ _ Hr Hrep' HL) as [Hr' _].
  { apply (ext_reserve _ _ Hext). lia. }
  apply wp_bind, wp_on_sys, wp_on_mem. unfold wp at 1. rewrite Hrun. apply wp_bind, wp_on_sys, wp_modify.
  apply wp_bind, wp_on_sys. destruct (desc_page _ _ _ Hwf) as [Hd Hd0]. pose proof (page_bound _ Hd).
  apply (UserMemory.wp_switch_to d pgd).
  - lia.
  - lia.
  - exact (desc_load _ _ _ Hwf).
  - apply wp_bind, wp_modify. apply (HQ d pgd k1); [|exact Hf'|exact Hwf|exact Hpte].
    exists p, fp, L, (L' ∖ L). split; [|exact Hr']. by destruct Hv.
Qed.

(** The keyboard driver. *)
Lemma wp_keyboard (s : St) (Q : unit -> St -> Prop) :
  keyboards s !! ps2_keyboard = Some (Keyboard.mk_keyboard (Some Keyboard.ps2_keyboard_init_fn) 0) ->
  keyboard_list_last s = 0 -> (33 < length (Idt.interrupt_handlers (tables (m_sys s))))%nat ->
  (forall s', keyboard_list_head s' = ps2_keyboard -> keyboard_list_last s' = ps2_keyboard ->
     gdt_raw s' = gdt_raw s -> gdtr s' = gdtr s -> tss s' = tss s -> task_register s' = task_register s ->
     paging_enabled s' = paging_enabled s -> regs (m_sys s') = regs (m_sys s) -> (no_tasks s -> no_tasks s') ->
     kernel_pages (m_sys s') = kernel_pages (m_sys s) ->
     fsys (m_sys s') = set_dev (fsys (m_sys s)) (outb 0x64 0xAE (dev (fsys (m_sys s)))) ->
     tables (m_sys s') = Idt.set_interrupt_handlers
       (<[33%nat := Some Idt.ps2_keyboard_handle_interrupt]> (Idt.interrupt_handlers (tables (m_sys s)))) (tables (m_sys s)) ->
     Q tt s') ->
  wp (on_keyboard (Keyboard.keyboard_init ps2_keyboard)) s Q.
Proof.
  intros Hk Hlast Hh HQ. apply wp_zoom. apply wp_bind. unfold Keyboard.keyboard_insert.
  apply wp_bind. unfold wp at 1, Keyboard.load_keyboard. cbn [Keyboard.keyboards kbd_view]. rewrite Hk.
  cbn [of_option mbind outcome_bind Keyboard.init]. apply wp_bind, wp_gets. cbn [Keyboard.keyboard_list_last kbd_view].
  rewrite Hlast. change (negb (0 =? 0)) with false. cbv iota. apply wp_bind, wp_modify.
  cbn [Keyboard.run_init]. apply wp_bind, wp_zoom. unfold wp at 1, Idt.idt_register_interrupt_handler.
  change ((Keyboard.KEYBOARD_INTERRUPT_NO <? 0) || (Keyboard.KEYBOARD_INTERRUPT_NO >=? Idt.CONIFEROS_TOTAL_INTERRUPTS))
    with false. cbv iota. change (Z.to_nat Keyboard.KEYBOARD_INTERRUPT_NO) with 33%nat.
  rewrite decide_True by exact Hh. apply wp_bind. unfold wp at 1, Keyboard.enable_ps2_first_port, Keyboard.out8.
  apply wp_ret, wp_ret. by apply HQ.
Qed.

(** Paging is on; the system calls and the keyboard are still to come. *)
Record prepared (tb : Idt.idt_state) (m : nat) (s : St) : Prop := {
  pr_segments i d : Gdt.gdt tss_addr !! i = Some d ->
    Gdt.hw_decode (Gdt.raw_entry (gdt_raw s) i) = Some (Gdt.hw_view d);
  pr_registers : gdtr s = Some (gdt_addr, 48) /\ task_register s = Some 40 /\ paging_enabled s = true;
  pr_tss : tss s !! 1%nat = Some KERNEL_STACK_ADDR /\ tss s !! 2%nat = Some KERNEL_DATA_SELECTOR;
  pr_paging : exists pgd, regs (m_sys s) = Cpu pgd pgd /\
    desc_wf (phys (m_sys s)) (kernel_pages (m_sys s)) pgd /\
    forall va, page va -> pte (phys (m_sys s)) pgd va = va + 7;
  pr_heap : exists L, kmem_rep (k_alloc (fsys (m_sys s))) L /\
    Heap.free_count (Heap.entries (Heap.table (kernel_heap (k_alloc (fsys (m_sys s)))))) = Z.to_nat 24569;
  pr_volume : volume_ready m (Z.to_nat 24568) (fsys (m_sys s));
  pr_tables : tables (m_sys s) = Idt.initialised stubs idt_addr idt_zero isr80h_wrapper tb;
  pr_driver : keyboards s !! ps2_keyboard =
    Some (Keyboard.mk_keyboard (Some Keyboard.ps2_keyboard_init_fn) 0) /\ keyboard_list_last s = 0;
  pr_tasks : no_tasks s
}.

Hypothesis Hlinked : linked.
Hypothesis Hps2 : forall d, DiskProofs.drive_ok img d -> DiskProofs.drive_ok img (outb 0x64 0xAE d).

Lemma wp_finish tb m (s : St) : prepared tb m s -> Idt.sizes tb -> Idt.isr80h_commands tb = replicate 1024 None ->
  wp (_ ← on_sys (on_tables Idt.isr80h_register_commands); on_keyboard (Keyboard.keyboard_init ps2_keyboard)) s
    (fun _ s' => booted m s').
Proof.
  intros [P1 (P2 & P3 & P4) P5 (pgd & P6 & P7 & P8) (L & P9 & P10) (p & fp & LV & L0 & [V1 V2] & P12) P13 [P14 P15] P16] (_ & Hh & _) Hc.
  destruct (Idt.isr80h_register_commands_ok (tables (m_sys s))) as (tb' & Hrun & Hcalls & Hidt & Hhand & _).
  { rewrite P13. cbn [Idt.initialised Idt.isr80h_commands]. by rewrite Hc. }
  apply wp_bind, wp_on_sys, wp_zoom. eapply wp_of_run; [exact Hrun|].
  assert (Hlen : length (Idt.interrupt_handlers tb') = 512%nat).
  { rewrite Hhand, P13. cbn [Idt.initialised Idt.interrupt_handlers].
    rewrite length_app, length_replicate, length_drop. lia. }
  apply wp_keyboard; [exact P14|exact P15|change (33 < length (Idt.interrupt_handlers tb'))%nat; lia|].
  intros s' K1 K2 K3 K4 K5 K6 K7 K8 Kn K9 K10 K11. cbn [tables m_sys set_m_sys set_tables] in K11.
  constructor.
  - intros i d Hd. rewrite K3. by apply P1.
  - by rewrite K4.
  - by rewrite K5.
  - by rewrite K6.
  - rewrite K7. split; [exact P4|]. exists pgd. unfold phys. rewrite K8, K9, K10. by split_and!.
  - exists L. rewrite K10. by split.
  - rewrite K10. exists p, fp, LV, L0. split; [by split|]. destruct P12 as [R1 R2 [M1 M2 M3 M4 M5 M6 M7] R4 R5 R6].
    constructor; try assumption. constructor; try assumption. by apply Hps2.
  - intros i e. rewrite K11. cbn [Idt.idt Idt.set_interrupt_handlers]. rewrite Hidt, P13.
    destruct Hlinked as [[Hs1 Hs2] (_ & Hi2 & Hi3 & _)].
    apply Idt.initialised_gate; [exact Hs1|]. constructor; [exact Hi2|]. constructor; [exact Hi3|exact Hs2].
  - rewrite K11. cbn [Idt.interrupt_handlers Idt.set_interrupt_handlers]. split.
    + intros i Hi. rewrite list_lookup_insert_ne by lia. rewrite Hhand, P13. cbn [Idt.initialised Idt.interrupt_handlers].
      rewrite lookup_app_l by (rewrite length_replicate; lia). by apply lookup_replicate_2.
    + apply list_lookup_insert_eq. lia.
  - rewrite K11. cbn [Idt.isr80h_commands Idt.set_interrupt_handlers]. by rewrite Hcalls.
  - by split.
  - by apply Kn.
Qed.

(** The kernel heap at boot, in the view that keeps [Z.to_nat 25594] blocks free. *)
Lemma boot_live (f : kst kmem D) m0 :
  objs f = ∅ -> k_alloc f = KMem fresh_heap m0 -> @live kmem D (guarded_view ∅ m0 (Z.to_nat 25594)) f ∅.
Proof.
  intros Ho Hk. split; [|by rewrite Ho]. rewrite Hk. constructor.
  - rewrite map_union_empty. apply boot_heap_rep.
  - apply map_disjoint_empty_l.
  - apply guarded_refl.
  - rewrite boot_heap_reserve. pose proof kernel_heap_blocks_Z. lia.
Qed.

Lemma boot_free (f : kst kmem D) m0 :
  k_alloc f = KMem fresh_heap m0 -> @free_blocks kmem D (guarded_view ∅ m0 (Z.to_nat 25594)) f = (6 + 0)%nat.
Proof. intros Hk. unfold free_blocks. cbn [alloc_free guarded_view]. rewrite Hk, boot_heap_free. lia. Qed.

(** What mounting leaves for the loads of programs. *)
Lemma live_volume_ready m r (f : kst kmem D) p fp L m0 :
  Fat16Proofs.mounted img p fp f -> d_filesystem (the_disk f) = Fat16.fat16_fs ->
  @live kmem D (guarded_view ∅ m0 r) f L -> @free_blocks kmem D (guarded_view ∅ m0 r) f = 1%nat ->
  volume_mounted img m fp f -> file_descriptors f = replicate 512 0 ->
  volume_ready m r f /\ free_total (k_alloc f) = S r.
Proof.
  intros Hm Hd [[G1 G2 G3 G4] Ho] Hf Hv Ht. split.
  - exists p, fp, L, ∅. split; [done|]. pose proof Hv as [_ (r' & Hr & He)]. constructor; try done.
    by rewrite Hr.
  - unfold free_blocks in Hf. cbn [alloc_free guarded_view] in Hf. pose proof (reserve_le_free (k_alloc f)). lia.
Qed.

Lemma wp_kernel_init (s : St) (m : nat) : reset s -> fat16_disk m ->
  wp (kernel_init gdt_addr tss_addr ps2_keyboard stubs idt_addr idt_zero isr80h_wrapper) s (fun _ s' => booted m s').
Proof.
  intros [R1 R2 R3 R4 R5 [R6 R7] R8 R9 R10] [Hroot Hsig]. destruct Hlinked as [[Hs1 Hs2] (Hi1 & _ & _ & Ht)].
  unfold kernel_init. apply wp_bind, wp_on_sys, wp_zoom, wp_modify.
  apply wp_segments; [exact R1|exact Ht|]. intros raw Hraw. apply wp_bind, wp_init_heap.
  apply wp_bind, wp_on_sys, wp_on_fs, wp_fs_init. intros name.
  apply wp_bind, wp_on_sys, wp_on_fs. cbn [m_sys set_m_sys fsys set_fsys].
  set (r := Z.to_nat 25594). set (m0 := phys (m_sys s)).
  eapply (wp_disk_init (Av := guarded_view ∅ m0 r) (Aw := guarded_laws ∅ m0 r) img _ ∅ m 0);
    [reflexivity|by apply boot_live| |exact R5|exact R6|exact R7|exact Hroot|exact Hsig|].
  { by apply boot_free. }
  intros fs p fp L Hm Hfs Hlv Hfree Hv Hfd.
  apply wp_bind, wp_on_sys, wp_zoom. eapply wp_mono; [by apply Idt.wp_idt_init|]. intros [] tb ->.
  apply wp_bind, wp_modify. apply wp_bind. unfold wp at 1, put_tss. simpl decide. cbv iota.
  apply wp_bind. unfold wp at 1, put_tss. simpl decide. cbv iota. apply wp_bind, wp_modify.
  destruct (live_volume_ready m r fs p fp L m0 Hm Hfs Hlv Hfree Hv Hfd) as [Hvr Hft].
  replace r with (1026 + Z.to_nat 24568)%nat in Hvr by (unfold r; lia).
  eapply (wp_page_tables _ m (Z.to_nat 24568) (Z.to_nat 24569)); [exact Hvr|etrans; [exact Hft|unfold r; lia]|].
  intros d pgd k1 Hvr1 Hf1 Hwf Hpte. apply (wp_finish (tables (m_sys s))); [|exact R2|exact R3].
  pose proof Hvr1 as (p1 & fp1 & L1 & L01 & _ & Hrd). pose proof (LoadProofs.rd_rep _ _ _ _ _ _ _ _ _ Hrd) as [Hrep1 _ _ _].
  constructor.
  - exact Hraw.
  - by split_and!.
  - by split.
  - exists pgd. by split_and!.
  - exists (L1 ∪ L01). by split.
  - exact Hvr1.
  - reflexivity.
  - by split.
  - exact R10.
Qed.

(** ** Theorem *)

(** The kernel comes up.  From the machine the boot code leaves,
    with a FAT16 disk, the part of [kernel_main] before the shell is loaded runs
    to its end, and then every segment descriptor and every gate decodes as
    meant, the task state segment names the kernel's stack, the page tables in
    use map every page to itself, the heap is consistent and has lost exactly
    five blocks to the volume and 1026 to the page tables, the volume is mounted,
    the eight system calls are bound, and the exceptions and the keyboard have
    their handlers. *)
Theorem kernel_init_boots (s : St) (m : nat) (Hreset : reset s) (Hdisk : fat16_disk m) :
  exists s', kernel_init gdt_addr tss_addr ps2_keyboard stubs idt_addr idt_zero isr80h_wrapper s = Ok (tt, s') /\
    booted m s'.
Proof.
  destruct (wp_run _ _ _ (wp_kernel_init s m Hreset Hdisk)) as ([] & s' & Hrun & Hb). by exists s'.
Qed.

End Start.

End Boot.

(** ** The sample volume *)

Import SimAta SampleVolume.

Definition boot_stubs : list Z := map (fun i => 0x100100 + 16 * i) (seqZ 0 512).
Definition boot_machine : machine ata :=
  Machine (Sys (KSt (KMem fresh_heap ∅) ∅ (dev volume_state) (Disk REAL 0 0 0 0) (replicate 12 0) (replicate 512 0))
      (Cpu 0 0) 0x10 None ∅ ∅ ∅ 0 0 0 0 (replicate 12 0) 0 (Terminal.mk_terminal 0 0 ∅) Idt.boot_state (fun _ => 2))
    (replicate 48 7) None [] None false
    {[ 0x109000 := Keyboard.mk_keyboard (Some Keyboard.ps2_keyboard_init_fn) 0 ]} 0 0.

Lemma kernel_init_boots_witness : exists s',
  kernel_init 0x107000 0x105000 0x109000 boot_stubs 0x108000 0x101000 0x102000 boot_machine = Ok (tt, s') /\
  gdtr s' = Some (0x107000, 48) /\ task_register s' = Some 40 /\ keyboard_list_head s' = 0x109000.
Proof.
  destruct (kernel_init_boots 0x107000 0x105000 0x109000 boot_stubs 0x108000 0x101000 0x102000 volume) with
    (s := boot_machine) (m := 1%nat) as (s' & Hrun & Hb).
  - split; [|lia]. split; [reflexivity|]. apply Forall_forall. intros x Hx.
    apply list_elem_of_fmap in Hx as (i & -> & Hi). apply elem_of_seqZ in Hi. lia.
  - intros [] H. exact H.
  - split; try reflexivity; [repeat split|exact volume_drive| |repeat split].
    split; [vm_compute; split; congruence|reflexivity].
  - split; [exact volume_layout|vm_compute; reflexivity].
  - exists s'. destruct Hb as [_ B2 _ B4 _ _ _ _ _ _ [B11 _] _]. split; [exact Hrun|]. by split_and!.
Defined.

(** The disabled smoke tests on the sample volume: the path is parsed, the file
    found and its size right, as the screen says at the end. *)
Definition smoke_machine : machine ata := set_m_sys (set_fsys volume_state (m_sys boot_machine)) boot_machine.

Definition smoke_run : M (machine ata) unit :=
  _ ← on_sys (on_fs (Vfs.fs_init (replicate 20 0)));
  _ ← on_sys (on_fs (Disk.disk_search_and_init (Vfs.fs_resolve Vfs.kernel_driver)));
  run_smoke_tests (replicate 11 0 ++ [0]).

(** The characters at the start of a row, up to the first cell never written. *)
Definition row_text (t : Terminal.terminal) (row : Z) : list Z :=
  map (fun c => c mod 256) (omap (fun col => Terminal.video_mem t !! (row * Terminal.VGA_WIDTH + col)) (seqZ 0 24)).

Example smoke_tests_pass :
  match smoke_run smoke_machine with
  | Ok (_, s') => map (row_text (screen (m_sys s'))) [1; 2; 5; 6]
  | _ => []
  end = map (fun t => removelast (Keyboard.literal t))
    ["Parse path worked"; "We opened '0:/hello.txt'"; "fstat success"; "Closed file descriptor"].
Proof. vm_compute. reflexivity. Qed.

End KernelProofs.
