(* ===== verification/MainProofs.v ===== *)
(** * From reset to the shell

    The whole of [kernel_main]: on a disk with the program 0:/shell.elf, the
    machine comes up, loads the program and enters it in user mode. *)
From stdpp Require Import base gmap list numbers strings.
From S2P Require Import Prelude Config CString Heap PhysMem KernelHeap HeapViews Paging KState Disk PParser Fat16 Fat16Proofs Vfs VfsProofs Terminal Idt Keyboard System Elf ElfProofs Task TaskProofs UserMemory Process LoadProofs LaunchProofs StartProofs Isr80h LifeProofs Kernel KernelProofs.
#[local] Open Scope Z_scope.

Module MainProofs.
Import KernelHeap HeapViews Paging KState System Elf ElfProofs Task TaskProofs UserMemory Process LoadProofs LaunchProofs StartProofs Kernel KernelProofs.

(** ** The disk *)

(** The path the kernel loads, and the name in it. *)
Definition shell_path : list Z := [48; 58; 47; 115; 104; 101; 108; 108; 46; 101; 108; 102].
Definition shell_name : list Z := [115; 104; 101; 108; 108; 46; 101; 108; 102].

(** The volume on [img] as mounted, whatever the addresses. *)
Definition disk_fp (img : list Z) (m : nat) : fat_private :=
  FatPrivate (volume_header img) (Fat16Proofs.root_of img (volume_header img) m 0) 0 0 0.

Section Main.
Context {D : Type} {Po : PortIO D} {Ad : AtaDrive D}.
#[local] Abbreviation St := (machine D).
Context (gdt_addr tss_addr ps2_keyboard : Z) (stubs : list Z) (idt_addr idt_zero isr80h_wrapper : Z)
  (rust_plus_2_callable : Z -> Z).
Context (img : list Z) (m : nat) (base ext : nat -> list Z) (k : nat).
#[local] Abbreviation entries := (root_entries img).
#[local] Abbreviation image := (LoadProofs.image img (disk_fp img m) entries k).
#[local] Abbreviation phdr j := (e_phoff image 0 + 32 * Z.of_nat j).

(** The root directory holds the shell: an ELF program, in one cluster. *)
Record shell_disk : Prop := {
  sh_volume : fat16_disk img m;
  sh_listed : listed img (disk_fp img m) entries base ext shell_name k (replicate 512 0) 0;
  sh_executable : executable img (disk_fp img m) entries k;
  sh_segments j : Z.of_nat j < e_phnum image 0 -> segment_fits img (disk_fp img m) entries k j;
  sh_blocks : (load_blocks entries k <= Z.to_nat 24568)%nat
}.

Lemma mounted_geometry fp (f : kst kmem D) : volume_mounted img m fp f -> same_geometry (disk_fp img m) fp.
Proof. intros [H1 (r & H2 & _)]. by constructor; rewrite ?H1, ?H2. Qed.

(** ** The steps after the components are up *)

(** The first task of the list. *)
Lemma with_task_first t tk (f : kst kmem D) (s : sys D) : task_list_head s = 0 ->
  task_list_head (with_task t tk f s) = t /\ tasks (with_task t tk f s) !! t = Some tk /\
  tables (with_task t tk f s) = tables s.
Proof.
  intros H. unfold with_task, enqueue. cbn [task_list_head set_tasks set_fsys]. rewrite H. change (0 =? 0) with true.
  cbv iota. split; [done|]. split; [apply lookup_insert_eq|done].
Qed.

Lemma desc_get_pgd (kk : kmem) d pgd : desc_wf (mem kk) d pgd -> get_pgd d kk = Ok (pgd, kk).
Proof.
  intros [[Hd Hd0] Hl _ _]. pose proof (page_bound _ Hd). unfold get_pgd. rewrite read_word_ok by lia.
  replace (d + 4 * 0) with d by lia. by rewrite Hl.
Qed.

(** What [StartProofs] shows of the memory, for the volume as it is on the disk. *)
Lemma shell_memory fp mm x buf d pgd : same_geometry (disk_fp img m) fp -> shell_disk ->
  program_memory img fp entries k [] mm x buf d pgd ->
  (forall j b va c, segment_byte img (disk_fp img m) entries k buf j b va ->
     LoadProofs.file img (disk_fp img m) entries k !! Z.to_nat (p_offset image (phdr j) + b) = Some c ->
     user_byte mm pgd va = Some (u8 c)) /\
  (forall o, 0 <= o < 16384 -> (forall j, Z.of_nat j < e_phnum image 0 ->
       ~ covers (segment img (disk_fp img m) entries k buf j) (page_of (TASK_STACK_VIRT_ADDR_END + o))) ->
     user_byte mm pgd (TASK_STACK_VIRT_ADDR_END + o) = Some (PhysMem.load8 mm (stack_addr x + o))).
Proof.
  intros Hg [S1 S2 S3 S4 S5] Hm. split.
  - intros j b va c Hb Hc. eapply (program_bytes img fp entries base ext shell_name k (replicate 512 0) 0
      (listed_geometry _ _ _ _ _ Hg _ _ _ _ _ S2)); [|exact Hm|by eapply segment_byte_geometry|].
    + intros j' Hj'. eapply segment_fits_geometry; [exact Hg|]. apply S4. by rewrite (image_geometry _ _ _ _ _ Hg).
    + by rewrite <- (image_geometry _ _ _ _ _ Hg), <- (file_geometry _ _ _ _ _ Hg).
  - intros o Ho Hno. eapply program_stack; [exact Hm|done|]. intros j Hj. rewrite <- (segment_geometry _ _ _ _ _ Hg).
    apply Hno. by rewrite (image_geometry _ _ _ _ _ Hg).
Qed.

(** The shell runs: the processor is in user mode at its entry point, with the
    kernel's flags and interrupts enabled, on its own tables, through which it finds its segments and its stack; the interrupt tables
    are those of [kernel_init]. *)
Record in_shell (s s' : St) (q stack buf pgd : Z) : Prop := {
  is_user : exists flags, user (m_sys s') = Some (enter_registers flags (start_registers (e_entry image 0)));
  is_data : data_segment (m_sys s') = USER_DATA_SEGMENT;
  is_tables : regs (m_sys s') = Cpu pgd pgd /\ paging_enabled s' = paging_enabled s;
  is_process : current_process (m_sys s') = q /\ processes (m_sys s') = q :: replicate 11 0;
  is_segments j b va c : segment_byte img (disk_fp img m) entries k buf j b va ->
    LoadProofs.file img (disk_fp img m) entries k !! Z.to_nat (p_offset image (phdr j) + b) = Some c ->
    user_byte (phys (m_sys s')) pgd va = Some (u8 c);
  is_stack : stack_ready 0 (phys (m_sys s')) stack;
  is_stack_pages o : 0 <= o < 16384 ->
    (forall j, Z.of_nat j < e_phnum image 0 ->
       ~ covers (segment img (disk_fp img m) entries k buf j) (page_of (TASK_STACK_VIRT_ADDR_END + o))) ->
    user_byte (phys (m_sys s')) pgd (TASK_STACK_VIRT_ADDR_END + o) = Some (PhysMem.load8 (phys (m_sys s')) (stack + o));
  is_interrupts : tables (m_sys s') = tables (m_sys s)
}.

Lemma wp_print_line_any msg chars (s : sys D) (Q : unit -> sys D -> Prop) :
  CString.cstring (Keyboard.line msg) chars -> (forall t, Q tt (set_screen t s)) -> wp (print_line msg) s Q.
Proof. intros Hc HQ. destruct (print_line_ok msg chars s Hc) as [t Ht]. eapply wp_of_run; [exact Ht|apply HQ]. Qed.

Lemma rust_passed : CString.cstring (Keyboard.line "Rust integration test passed")
  (removelast (Keyboard.line "Rust integration test passed")).
Proof. split; [|by exists []]. apply (bool_decide_unpack _). vm_compute. exact I. Qed.
Lemma rust_failed : CString.cstring (Keyboard.line "Rust integration test failed")
  (removelast (Keyboard.line "Rust integration test failed")).
Proof. split; [|by exists []]. apply (bool_decide_unpack _). vm_compute. exact I. Qed.

Lemma shell_can_load (s : St) : volume_ready img m (Z.to_nat 24568) (fsys (m_sys s)) -> no_tasks s ->
  (load_blocks entries k <= Z.to_nat 24568)%nat ->
  exists p fp L L0 r, same_geometry (disk_fp img m) fp /\ (load_blocks entries k + r)%nat = Z.to_nat 24568 /\
    can_load img p fp entries (replicate 512 0) (m_sys s) L L0 (load_blocks entries k + r).
Proof.
  intros (p & fp & L & L0 & Hv & Hr) (_ & Ht & Hh) Hb. exists p, fp, L, L0, (Z.to_nat 24568 - load_blocks entries k)%nat.
  split; [by eapply mounted_geometry|]. split; [lia|]. constructor.
  - by replace (load_blocks entries k + (Z.to_nat 24568 - load_blocks entries k))%nat with (Z.to_nat 24568) by lia.
  - by rewrite Hh.
  - rewrite Ht, dom_empty_L. apply empty_subseteq.
Qed.

Lemma wp_enter_shell (s : St) (Q : unit -> St -> Prop) :
  volume_ready img m (Z.to_nat 24568) (fsys (m_sys s)) -> no_tasks s -> shell_disk ->
  (forall s' q stack buf pgd, in_shell s s' q stack buf pgd -> Q tt s') ->
  wp ('(rc, process) ← on_sys (process_load (Keyboard.literal "0:/shell.elf"));
      if rc <? 0 then panic "Failed to load 0:/shell.elf\n"
      else
        let b := rust_plus_2_callable 2 in
        _ ← (if b =? 4 then on_sys (print_line "Rust integration test passed")
             else on_sys (print_line "Rust integration test failed"));
        head ← on_sys get_task_list_head;
        on_sys (task_exec head)) s Q.
Proof.
  intros Hv Hn Hdisk HQ. pose proof Hdisk as [S1 S2 S3 S4 S5]. pose proof Hn as (Hp & Ht & Hh).
  destruct (shell_can_load s Hv Hn S5) as (p & fp & L & L0 & r & Hg & _ & Hc).
  assert (Hsg : forall j, Z.of_nat j < e_phnum (LoadProofs.image img fp entries k) 0 -> segment_fits img fp entries k j).
  { intros j Hj. eapply segment_fits_geometry; [exact Hg|]. apply S4. by rewrite (image_geometry _ _ _ _ _ Hg). }
  apply wp_bind, wp_on_sys. change (process_load (Keyboard.literal "0:/shell.elf")) with (process_load_with_args (D := D) (shell_path ++ [0]) (Z.of_nat (length (@nil (list Z)))) 0).
  assert (Hch : Forall CString.char_byte shell_path) by (repeat constructor; unfold CString.char_byte; lia).
  eapply (wp_process_load img p fp entries base ext shell_name k (replicate 512 0) 0
    (listed_geometry _ _ _ _ _ Hg _ _ _ _ _ S2) (executable_geometry _ _ _ _ _ Hg S3) Hsg [] 0 shell_path [] Hch
    ltac:(vm_compute; reflexivity) ltac:(simpl; lia) (m_sys s) L L0 r 0); [exact Hc|apply arguments_none|by rewrite Hp|by rewrite Hp|].
  intros q x buf t d pgd s1 Hst. change (0 <? 0) with false. cbv iota zeta.
  destruct Hst as [(e & ef & f & _ & _ & Hs1) _ Hm _ _].
  destruct (with_task_first t (new_task d (e_entry (LoadProofs.image img fp entries k) 0) q) f
    (with_process 0 q x e ef (m_sys s)) Hh) as (F1 & F2 & F3).
  assert (F4 : processes s1 = q :: replicate 11 0).
  { rewrite Hs1. etrans; [apply with_task_fields|]. cbn [processes with_process set_processes]. by rewrite Hp. }
  rewrite <- Hs1 in F1, F2, F3. clear Hs1.
  assert (Hend : forall scr, wp (head ← on_sys get_task_list_head; on_sys (task_exec head))
    (set_m_sys (set_screen scr s1) (set_m_sys s1 s)) Q).
  { intros scr. apply wp_bind, wp_on_sys, wp_gets, wp_on_sys. cbn [m_sys set_m_sys set_screen task_list_head].
    rewrite F1. eapply wp_task_exec; [exact F2| |].
    { apply desc_get_pgd. cbn [t_paging new_task]. apply Hm. }
    apply (HQ _ q (stack_addr x) buf pgd). 
    destruct (shell_memory _ _ _ _ _ _ Hg Hdisk Hm) as [M1 M2].
    constructor; cbn [m_sys set_m_sys user set_user regs set_regs]; try done.
    - eexists. by rewrite (image_geometry _ _ _ _ _ Hg).
    - apply Hm. }
  apply wp_bind. destruct (_ =? 4); apply wp_on_sys.
  - eapply wp_print_line_any; [exact rust_passed|exact Hend].
  - eapply wp_print_line_any; [exact rust_failed|exact Hend].
Qed.

(** ** Theorem *)

Hypothesis Hlinked : linked tss_addr stubs idt_addr idt_zero isr80h_wrapper.
Hypothesis Hps2 : forall d, DiskProofs.drive_ok img d -> DiskProofs.drive_ok img (outb 0x64 0xAE d).

(** C2 (liveness): from reset to the shell.  From the machine the boot code leaves,
    with a FAT16 disk that holds the program 0:/shell.elf, [kernel_main] reaches
    user mode: the processor is at the program's entry point with the user segments
    and an empty stack, on page tables through which the program reads its own
    segments, byte by byte as the file has them, and its stack; the shell is the
    current and only process, and the interrupt tables are those set up before. *)
Theorem kernel_main_enters_shell (s : St) :
  reset ps2_keyboard img s -> shell_disk ->
  exists s1 s' q stack buf pgd,
    kernel_init gdt_addr tss_addr ps2_keyboard stubs idt_addr idt_zero isr80h_wrapper s = Ok (tt, s1) /\
    booted gdt_addr tss_addr ps2_keyboard stubs idt_zero isr80h_wrapper img m s1 /\
    kernel_main gdt_addr tss_addr ps2_keyboard stubs idt_addr idt_zero isr80h_wrapper rust_plus_2_callable s = Ok (tt, s') /\
    in_shell s1 s' q stack buf pgd.
Proof.
  intros Hreset Hdisk.
  pose proof (wp_kernel_init gdt_addr tss_addr ps2_keyboard stubs idt_addr idt_zero isr80h_wrapper img
    Hlinked Hps2 s m Hreset (sh_volume Hdisk)) as Hw.
  apply wp_run in Hw as ([] & s1 & Hrun & Hb).
  pose proof (wp_enter_shell s1 (fun _ s' => exists q stack buf pgd, in_shell s1 s' q stack buf pgd)
    (bt_volume _ _ _ _ _ _ _ _ _ Hb) (bt_tasks _ _ _ _ _ _ _ _ _ Hb) Hdisk) as Hw.
  apply wp_run in Hw as ([] & s' & Hrun' & q & stack & buf & pgd & Hin); [|by eauto].
  exists s1, s', q, stack, buf, pgd. split; [exact Hrun|]. split; [exact Hb|]. split; [|exact Hin].
  unfold kernel_main. unfold mbind at 1, M_bind at 1. rewrite Hrun. exact Hrun'.
Qed.

End Main.

(** ** A disk with a program *)

Import SimAta SampleVolume.

(** An ELF program of one writable segment: 96 bytes, mapped at 0x400000, with 12 bytes of
    code at 0x400054. *)
Definition program : list Z :=
  [0x7f; 0x45; 0x4c; 0x46; 1; 1; 1; 0; 0; 0; 0; 0; 0; 0; 0; 0; 2; 0; 3; 0; 1; 0; 0; 0; 0x54; 0; 0x40; 0;
   52; 0; 0; 0; 0; 0; 0; 0; 0; 0; 0; 0; 52; 0; 32; 0; 1; 0; 0; 0; 0; 0; 0; 0] ++
  [1; 0; 0; 0; 0; 0; 0; 0; 0; 0; 0x40; 0; 0; 0; 0x40; 0; 96; 0; 0; 0; 96; 0; 0; 0; 7; 0; 0; 0; 0; 16; 0; 0] ++
  [0xb8; 7; 0; 0; 0; 0xcd; 0x80; 0xeb; 0xfe; 0x90; 0x90; 0x90].
Definition program_entry : list Z :=
  [83; 72; 69; 76; 76; 32; 32; 32; 69; 76; 70; 32] ++ replicate 14 0 ++ [2; 0; 96; 0; 0; 0].
Definition program_volume : list Z :=
  boot_sector ++ sector [] ++ sector program_entry ++ sector program ++ sector [].
Definition program_base : nat -> list Z := fun _ => [83; 72; 69; 76; 76].
Definition program_ext : nat -> list Z := fun _ => [69; 76; 70].

Lemma program_root : root_entries program_volume = sector program_entry.
Proof. vm_compute. reflexivity. Qed.

Lemma program_size : Fat16.filesize (take 32 (drop (32 * 0) (root_entries program_volume))) = 96.
Proof. vm_compute. reflexivity. Qed.

Lemma program_reads : Fat16Proofs.reads_as (sector program_entry) [83; 72; 69; 76; 76] [69; 76; 70].
Proof.
  split; [repeat constructor; unfold Fat16Proofs.name_char; lia|repeat constructor; unfold Fat16Proofs.name_char; lia| | |simpl; lia].
  - exists 32, (drop 6 (sector program_entry)). split; [vm_compute; reflexivity|by right].
  - exists 32, (drop 12 (sector program_entry)). split; [vm_compute; reflexivity|by right].
Qed.

Lemma program_total : fd_total (root_directory (disk_fp program_volume 1)) = 1.
Proof. vm_compute. reflexivity. Qed.

Lemma program_listed : listed program_volume (disk_fp program_volume 1) (root_entries program_volume)
  program_base program_ext shell_name 0 (replicate 512 0) 0.
Proof.
  constructor; rewrite ?program_size, ?program_total.
  - lia.
  - vm_compute. lia.
  - intros j Hj. assert (j = 0%nat) as -> by lia. rewrite program_root. exact program_reads.
  - intros j Hj. assert (j = 0%nat) as -> by lia. split; [done|]. intros _. vm_compute. reflexivity.
  - vm_compute. reflexivity.
  - split; [repeat constructor; unfold CString.char_byte; lia|simpl; lia].
  - split; vm_compute; repeat split; congruence.
  - vm_compute. repeat split; congruence.
  - split; [reflexivity|lia].
Qed.

Lemma program_file : LoadProofs.file program_volume (disk_fp program_volume 1) (root_entries program_volume) 0 = program.
Proof. vm_compute. reflexivity. Qed.

Definition program_image : gmap Z Z := PhysMem.store_bytes ∅ 0 program.

Lemma program_in_memory : LoadProofs.image program_volume (disk_fp program_volume 1) (root_entries program_volume) 0 = program_image.
Proof. unfold LoadProofs.image. by rewrite program_file. Qed.

(** The fields of the program's headers. *)
Lemma program_header : e_phnum program_image 0 = 1 /\ e_phoff program_image 0 = 52 /\ e_entry program_image 0 = 0x400054 /\
  p_offset program_image 52 = 0 /\ p_vaddr program_image 52 = 0x400000 /\ p_memsz program_image 52 = 96.
Proof. vm_compute. repeat split. Qed.

Lemma program_shell_disk : shell_disk program_volume 1 program_base program_ext 0.
Proof.
  destruct program_header as (H1 & H2 & _ & H4 & H5 & H6). constructor.
  - split; [|vm_compute; reflexivity]. split; try (vm_compute; congruence); [vm_compute; split; congruence|].
    intros [|j] Hj; [vm_compute; congruence|lia].
  - exact program_listed.
  - split; rewrite ?program_size, ?program_in_memory, ?H1, ?H2; [|lia|lia].
    split; [vm_compute; reflexivity|]. split; [right; reflexivity|]. split; [right; reflexivity|]. split; [reflexivity|vm_compute; congruence].
  - intros j Hj. rewrite program_in_memory, H1 in Hj. assert (j = 0%nat) as -> by lia.
    split; rewrite program_in_memory, H2; change (52 + 32 * Z.of_nat 0) with 52; rewrite ?H4, ?H5, H6; lia.
  - unfold load_blocks. rewrite program_size. change (Heap.blocks_for 96) with 1%nat. lia.
Qed.

Definition shell_machine : machine ata :=
  set_m_sys (set_fsys (set_dev (fsys (m_sys boot_machine)) (Ata program_volume 0 0 0 0 0 [] false)) (m_sys boot_machine))
    boot_machine.

Lemma shell_machine_reset : reset 0x109000 program_volume shell_machine.
Proof.
  split; try reflexivity; [repeat split|split; [reflexivity|vm_compute; reflexivity]| |repeat split].
  split; [vm_compute; split; congruence|reflexivity].
Qed.

(** The keyboard controller's port is not the drive's. *)
Lemma ata_keyboard_port img (d : ata) : DiskProofs.drive_ok img d -> DiskProofs.drive_ok img (outb 0x64 0xAE d).
Proof. by destruct d. Qed.

Lemma boot_linked : linked 0x105000 boot_stubs 0x108000 0x101000 0x102000.
Proof.
  split; [|lia]. split; [reflexivity|]. apply Forall_forall. intros x Hx.
  apply list_elem_of_fmap in Hx as (i & -> & Hi). apply elem_of_seqZ in Hi. lia.
Qed.

(** The first byte of the code is in the only segment of the program. *)
Lemma program_code buf : segment_byte program_volume (disk_fp program_volume 1) (root_entries program_volume) 0 buf 0 84 0x400054.
Proof.
  destruct program_header as (H1 & H2 & _ & H4 & H5 & H6).
  constructor; rewrite ?program_in_memory, ?H2; change (52 + 32 * Z.of_nat 0) with 52; rewrite ?program_size, ?H1, ?H4, ?H5, ?H6; try lia.
  - reflexivity.
Qed.

Lemma kernel_main_enters_shell_witness : exists s' pgd flags,
  kernel_main 0x107000 0x105000 0x109000 boot_stubs 0x108000 0x101000 0x102000 (fun x => x + 2) shell_machine = Ok (tt, s') /\
  user (m_sys s') = Some (enter_registers flags (start_registers 0x400054)) /\ regs (m_sys s') = Cpu pgd pgd /\
  user_byte (phys (m_sys s')) pgd 0x400054 = Some 0xb8.
Proof.
  destruct (kernel_main_enters_shell 0x107000 0x105000 0x109000 boot_stubs 0x108000 0x101000 0x102000 (fun x => x + 2)
    program_volume 1 program_base program_ext 0) with (s := shell_machine)
    as (s1 & s' & q & stack & buf & pgd & _ & _ & Hrun & [[flags U1] _ [U2 _] _ U4 _ _ _]).
  - exact boot_linked.
  - apply ata_keyboard_port.
  - exact shell_machine_reset.
  - exact program_shell_disk.
  - exists s', pgd, flags. split; [exact Hrun|]. destruct program_header as (_ & H2 & H3 & H4 & _).
    rewrite program_in_memory, H3 in U1. split; [exact U1|]. split; [exact U2|].
    apply (U4 0%nat 84 0x400054 0xb8 (program_code buf)). rewrite program_file, program_in_memory, H2.
    change (52 + 32 * Z.of_nat 0) with 52. rewrite H4. reflexivity.
Defined.

(** The loader on the machine that has come up, with an argument on the heap. *)
Section Argument.
Context {D : Type} {Po : PortIO D} {Ad : AtaDrive D} (img : list Z) (p : Z) (fp : fat_private) (entries T : list Z).

Lemma one_argument (s : sys D) L L0 r str : Forall CString.char_byte str -> (length str < 32)%nat ->
  can_load img p fp entries T s L L0 (2 + r) ->
  exists argv L1 kk, can_load img p fp entries T (with_kmem kk s) L L1 r /\ arguments [str] argv L1 (mem kk).
Proof.
  intros Hstr Hlen [Hr Ht Hd]. pose proof (rd_rep _ _ _ _ _ _ _ _ _ Hr) as [G1 _ _ G4].
  destruct (kzalloc_reserve _ _ 4 G1) as (q1 & k1 & _ & B1); [lia|change (Heap.blocks_for 4) with 1%nat; lia|].
  destruct (ready_alloc _ _ _ _ _ _ _ _ _ _ _ _ Hr B1) as [R1 _]; [lia|change (Heap.blocks_for 4) with 1%nat; lia|].
  change (Heap.blocks_for 4) with 1%nat in R1. pose proof (rd_rep _ _ _ _ _ _ _ _ _ R1) as [H1 _ _ H4].
  destruct (kzalloc_reserve _ _ 32 H1) as (q2 & k2 & _ & B2); [lia|change (Heap.blocks_for 32) with 1%nat; lia|].
  destruct (ready_alloc _ _ _ _ _ _ _ _ _ _ _ _ R1 B2) as [R2 _]; [lia|change (Heap.blocks_for 32) with 1%nat; lia|].
  change (Heap.blocks_for 32) with 1%nat in R2. replace (2 + r - 1 - 1)%nat with r in R2 by lia.
  pose proof (nb_fresh _ _ _ _ _ B1) as [_ F1]%lookup_union_None. pose proof (nb_fresh _ _ _ _ _ B2) as [_ F2]%lookup_union_None.
  pose proof (nb_range _ _ _ _ _ B1) as (N1 & N1' & N1''). pose proof (nb_range _ _ _ _ _ B2) as (N2 & N2' & N2'').
  change (Heap.blocks_for 4) with 1%nat in N1'. change (Heap.blocks_for 32) with 1%nat in N2'. unfold HEAP_BLOCK_SIZE in *.
  assert (Hne : q1 <> q2) by (intros ->; by rewrite lookup_insert_eq in F2).
  set (m := PhysMem.store_bytes (PhysMem.store32 (mem k2) q1 q2) q2 (str ++ [0])).
  assert (Hl : length (str ++ [0]) = S (length str)) by (rewrite length_app; simpl; lia).
  assert (Hb : forall b, PhysMem.load8 m b = if decide (q2 <= b < q2 + Z.of_nat (S (length str)))
    then u8 (default 0 ((str ++ [0]) !! Z.to_nat (b - q2))) else PhysMem.load8 (PhysMem.store32 (mem k2) q1 q2) b).
  { intros b. unfold m. rewrite PhysMem.load8_store_bytes, Hl by lia. done. }
  exists q1, (<[q2 := 1%nat]> (<[q1 := 1%nat]> L0)), (set_mem k2 m). split.
  - split; [exact (ready_write _ _ _ _ _ _ _ _ _ m R2)|exact Ht|]. rewrite !dom_insert_L. by do 2 apply union_subseteq_r'.
  - constructor; [simpl; lia| |].
    + intros _. exists 1%nat. split; [|lia]. by rewrite lookup_insert_ne, lookup_insert_eq.
    + intros j str' Hj. apply list_lookup_singleton_Some in Hj as [-> <-]. split; [done|]. split; [done|].
      exists q2, 1%nat. split; [|split; [apply lookup_insert_eq|split; [lia|]]].
      * rewrite Z.mul_0_r, Z.add_0_r. transitivity (PhysMem.load32 (PhysMem.store32 (mem k2) q1 q2) q1).
        -- apply PhysMem.load32_ext. intros b Hb'. cbn [mem set_mem]. rewrite Hb, decide_False by zlia. done.
        -- rewrite PhysMem.load32_store32_eq. apply u32_small. lia.
      * intros c Hc. cbn [mem set_mem]. rewrite Hb, decide_True by lia. replace (Z.to_nat (q2 + Z.of_nat c - q2)) with c by lia.
        destruct (decide (c < length str)%nat) as [Hlt|].
        -- rewrite lookup_app_l by done. destruct (lookup_lt_is_Some_2 str c Hlt) as [b0 Hb0]. rewrite Hb0.
           pose proof (Forall_lookup_1 _ _ _ _ Hstr Hb0) as Hcb. unfold CString.char_byte in Hcb. apply u8_small. simpl. lia.
        -- rewrite lookup_app_r by lia. replace (c - length str)%nat with 0%nat by lia. by rewrite (lookup_ge_None_2 str) by lia.
Qed.

End Argument.

Definition hi : list Z := [104; 105].

(** What the theorems on loading need. *)
Lemma loading_state : exists s p fp L L0 r argv, processes s = replicate 12 0 /\ same_geometry (disk_fp program_volume 1) fp /\
  task_list_head s = 0 /\ (2000 <= r)%nat /\
  can_load (D := ata) program_volume p fp (root_entries program_volume) (replicate 512 0) s L L0
    (load_blocks (root_entries program_volume) 0 + r) /\ arguments [hi] argv L0 (phys s).
Proof.
  pose proof (wp_kernel_init 0x107000 0x105000 0x109000 boot_stubs 0x108000 0x101000 0x102000 program_volume boot_linked
    (ata_keyboard_port _) shell_machine 1 shell_machine_reset (sh_volume _ _ _ _ _ program_shell_disk)) as Hw.
  apply wp_run in Hw as ([] & s1 & _ & Hb). pose proof program_shell_disk as [_ _ _ _ S5].
  pose proof (bt_tasks _ _ _ _ _ _ _ _ _ Hb) as Hn. pose proof Hn as (Hp & _ & Hhead).
  destruct (shell_can_load program_volume 1 0 s1 (bt_volume _ _ _ _ _ _ _ _ _ Hb) Hn S5) as (p & fp & L & L0 & r & Hg & Hsum & Hc).
  assert (Hl : load_blocks (root_entries program_volume) 0 = 1044%nat).
  { unfold load_blocks. rewrite program_size. reflexivity. }
  replace (load_blocks (root_entries program_volume) 0 + r)%nat
    with (2 + (load_blocks (root_entries program_volume) 0 + (r - 2)))%nat in Hc by lia.
  destruct (one_argument _ _ _ _ _ _ L L0 _ hi ltac:(repeat constructor; unfold CString.char_byte; lia) ltac:(simpl; lia) Hc)
    as (argv & L1 & kk & Hc' & Ha).
  exists (with_kmem kk (m_sys s1)), p, fp, L, L1, (r - 2)%nat, argv. split; [exact Hp|]. split; [exact Hg|].
  split; [exact Hhead|]. split; [lia|]. split; [exact Hc'|exact Ha].
Qed.

Lemma shell_path_chars : Forall CString.char_byte shell_path.
Proof. repeat constructor; unfold CString.char_byte; lia. Qed.

Lemma process_load_starts_witness : exists s argv q x s' pgd,
  process_load_with_args (shell_path ++ [0]) 1 argv s = Ok ((0, q), s') /\ processes s' = q :: replicate 11 0 /\
  procs s' !! q = Some x /\ user_byte (phys s') pgd 0x400054 = Some 0xb8 /\
  PhysMem.load8 (phys s') (arg_block x + 20) = 104 /\ PhysMem.load8 (phys s') (arg_block x + 21) = 105.
Proof.
  destruct loading_state as (s & p & fp & L & L0 & r & argv & Hp & Hg & _ & _ & Hc & Ha). pose proof program_shell_disk as [_ S2 S3 S4 S5].
  destruct (process_load_starts program_volume p fp (root_entries program_volume) program_base program_ext shell_name 0
    (replicate 512 0) 0) with (strs := [hi]) (argv := argv) (s0 := shell_path) (junk := @nil Z) (s := s) (L := L) (L0 := L0) (r := r)
    (slot := 0%nat) as (q & x & buf & t & tk & pgd & s' & Hrun & Hps & Hx & _ & _ & _ & _ & _ & _ & _ & Hseg & _ & _ & Har & _).
  - exact (listed_geometry _ _ _ _ _ Hg _ _ _ _ _ S2).
  - exact (executable_geometry _ _ _ _ _ Hg S3).
  - intros j Hj. eapply segment_fits_geometry; [exact Hg|]. apply S4. by rewrite (image_geometry _ _ _ _ _ Hg).
  - exact shell_path_chars.
  - vm_compute. reflexivity.
  - simpl. lia.
  - exact Hc.
  - exact Ha.
  - by rewrite Hp.
  - by rewrite Hp.
  - exists s, argv, q, x, s', pgd. split; [exact Hrun|]. split; [by rewrite Hps, Hp|]. split; [exact Hx|]. split.
    + apply (Hseg 0%nat 84 0x400054 0xb8); [eapply segment_byte_geometry; [exact Hg|exact (program_code buf)]|].
      destruct program_header as (_ & H2 & _ & H4 & _).
      rewrite <- (file_geometry _ _ _ _ _ Hg), <- (image_geometry _ _ _ _ _ Hg), program_file, program_in_memory, H2.
      change (52 + 32 * Z.of_nat 0) with 52. rewrite H4. reflexivity.
    + destruct (Har 0%nat hi eq_refl) as [_ Hch]. pose proof (Hch 0%nat ltac:(simpl; lia)) as C0. pose proof (Hch 1%nat ltac:(simpl; lia)) as C1.
      split; [etrans; [|exact C0]|etrans; [|exact C1]]; f_equal; lia.
Defined.

(** The program meets the conditions of the theorems on its life. *)
Lemma program_conditions fp : same_geometry (disk_fp program_volume 1) fp ->
  listed program_volume fp (root_entries program_volume) program_base program_ext shell_name 0 (replicate 512 0) 0 /\
  executable program_volume fp (root_entries program_volume) 0 /\
  (forall j, Z.of_nat j < e_phnum (LoadProofs.image program_volume fp (root_entries program_volume) 0) 0 ->
     segment_fits program_volume fp (root_entries program_volume) 0 j) /\
  writable_in_file program_volume fp (root_entries program_volume) 0.
Proof.
  intros Hg. pose proof program_shell_disk as [_ S2 S3 S4 _]. split_and!.
  - exact (listed_geometry _ _ _ _ _ Hg _ _ _ _ _ S2).
  - exact (executable_geometry _ _ _ _ _ Hg S3).
  - intros j Hj. eapply segment_fits_geometry; [exact Hg|]. apply S4. by rewrite (image_geometry _ _ _ _ _ Hg).
  - intros j Hj _. rewrite <- (image_geometry _ _ _ _ _ Hg), program_in_memory in *.
    destruct program_header as (H1 & H2 & _ & H4 & _ & H6). rewrite H1 in Hj. assert (j = 0%nat) as -> by lia.
    rewrite H2. change (52 + 32 * Z.of_nat 0) with 52. rewrite H4, H6, program_size. change (Heap.blocks_for 96) with 1%nat. lia.
Qed.

Lemma shell_path_parts : PParser.path_of shell_path = Some (0, [shell_name]).
Proof. vm_compute. reflexivity. Qed.

(** An allocation of two blocks, stores to it and to the code, its release, and a
    store to the kernel. *)
Definition some_actions (ptr : Z) : list LifeProofs.action :=
  [LifeProofs.Malloc 5000; LifeProofs.Store ptr 1; LifeProofs.Store 0x400054 0x90; LifeProofs.Free ptr; LifeProofs.Store 0x100000 0].

Lemma some_actions_allowed : Forall LifeProofs.allowed (some_actions 0x1234000).
Proof. repeat constructor; cbn [LifeProofs.allowed]; (lia || done). Qed.

Lemma some_actions_safe r : (2 <= r)%nat -> ~ LifeProofs.fatal (some_actions 0x1234000) r.
Proof.
  intros Hr [Hf|Hf].
  - unfold some_actions in Hf. rewrite !elem_of_cons in Hf. destruct Hf as [[=]|[[=]|[[=]|[[=]|[[=]|Hf%not_elem_of_nil]]]]]. done.
  - change (sum_list_with _ _) with 2%nat in Hf. lia.
Qed.

Lemma program_isolated_witness : exists s argv q pgd s1 go s2,
  process_load_with_args (shell_path ++ [0]) 1 argv s = Ok ((0, q), s1) /\
  LifeProofs.program_run q pgd (some_actions 0x1234000) s1 = Ok (go, s2) /\
  PhysMem.load8 (phys s2) argv = PhysMem.load8 (phys s1) argv.
Proof.
  destruct loading_state as (s & p & fp & L & L0 & r & argv & Hp & Hg & _ & Hr & Hc & Ha).
  destruct (program_conditions fp Hg) as (C1 & C2 & C3 & C4).
  destruct (LifeProofs.program_isolated program_volume p fp (root_entries program_volume) program_base program_ext shell_name 0
    (replicate 512 0) 0 C1 C2 C3 C4 [hi] argv shell_path [] shell_path_chars shell_path_parts ltac:(simpl; lia) s L L0 r 0
    (some_actions 0x1234000) Hc Ha ltac:(by rewrite Hp) ltac:(by rewrite Hp) some_actions_allowed)
    as (q & x & tk & pgd & s1 & Hrun & _ & _ & _ & [(go & s2 & Hrun2 & Hsame & _)|[_ Hfatal]]);
    [|exfalso; apply (some_actions_safe r); [lia|exact Hfatal]].
  exists s, argv, q, pgd, s1, go, s2. split; [exact Hrun|]. split; [exact Hrun2|]. apply Hsame. left.
  destruct (ag_vector _ _ _ _ Ha ltac:(done)) as (n & Hn & Hn0). exists argv, n. split; [by right|].
  unfold LifeProofs.in_block, HEAP_BLOCK_SIZE. lia.
Defined.




End MainProofs.
