(* ===== verification/UserLib.v ===== *)
(** * The user library: numbers as text

    [itoa] of [src/user_programs/stdlib/src/stdlib.c].  A buffer is the list of
    its bytes; a store outside it is a [Fault].  The text is that of the reference
    [decimal], and reads back as the number. *)
From stdpp Require Import base gmap list numbers strings.
From S2P Require Import Prelude.
#[local] Open Scope Z_scope.

Module UserLib.

(** ** Operations *)

(** [buffer[i]] and [buffer[i] = c]. *)
Definition get (i : Z) : M (list Z) Z := fun buffer =>
  if 0 <=? i then c ← of_option (buffer !! Z.to_nat i); Ok (c, buffer) else Fault.
Definition put (i c : Z) : M (list Z) unit := fun buffer =>
  if (0 <=? i) && (i <? Z.of_nat (length buffer)) then Ok (tt, <[Z.to_nat i := c]> buffer) else Fault.

Definition reverse_str (len : Z) : M (list Z) Z :=
  loop_m (fun '(l, r) =>
    if l <? r then
      tmp ← get l;
      c ← get r;
      _ ← put l c;
      _ ← put r tmp;
      mret (inl (l + 1, r - 1))
    else mret (inr 0)) (0, len - 1).

(** The digits, least significant first; the number of characters written. *)
Definition itoa_digits (num : Z) : M (list Z) Z :=
  loop_m (fun '(num, i) =>
    if negb (num =? 0) then
      let remainder := Z.rem num 10 in
      _ ← put i (s8 (48 + remainder));
      mret (inl (Z.quot num 10, i + 1))
    else mret (inr i)) (num, 0).

(** The buffer after the call is the state. *)
Definition itoa (num : Z) : M (list Z) unit :=
  if num =? 0 then
    _ ← put 0 48;
    put 1 10
  else
    let negative := num <? 0 in
    let num := if num <? 0 then s32 (- num) else num in
    i ← itoa_digits num;
    i ← (if negative then _ ← put i 45; mret (i + 1) else mret i);
    _ ← put i 0;
    _ ← reverse_str i;
    mret tt.

(** ** Lemmas *)

Lemma wp_get_char i c (b : list Z) (Q : Z -> list Z -> Prop) :
  b !! i = Some c -> Q c b -> wp (get (Z.of_nat i)) b Q.
Proof.
  intros Hc HQ. unfold wp, get. rewrite (proj2 (Z.leb_le _ _)) by lia. by rewrite Nat2Z.id, Hc.
Qed.

Lemma wp_put_char i c (b : list Z) (Q : unit -> list Z -> Prop) :
  (i < length b)%nat -> Q tt (<[i := c]> b) -> wp (put (Z.of_nat i) c) b Q.
Proof.
  intros Hi HQ. unfold wp, put. rewrite (proj2 (Z.leb_le _ _)), (proj2 (Z.ltb_lt _ _)) by lia.
  by rewrite Nat2Z.id.
Qed.

(** [reverse_str] reverses a prefix of the buffer. *)
Lemma wp_reverse_str (s rest : list Z) :
  Z.of_nat (length s) < 4294967296 ->
  wp (reverse_str (Z.of_nat (length s))) (s ++ rest) (fun _ b => b = reverse s ++ rest).
Proof.
  intros Hn. unfold reverse_str.
  apply (wp_loop_m (fun '(l, r) b => 0 <= l /\ r = Z.of_nat (length s) - 1 - l /\
      l <= Z.of_nat (length s) /\ length b = length (s ++ rest) /\
      forall k, b !! k = if decide ((k < length s)%nat /\ (Z.of_nat k < l \/ r < Z.of_nat k))
                         then s !! (length s - 1 - k)%nat else (s ++ rest) !! k)
    (fun '(l, r) _ => Z.max 0 (r - l + 1))).
  - split; [lia|]. split; [lia|]. split; [lia|]. split; [done|]. intros k. by rewrite decide_False by lia.
  - lia.
  - intros [l r] b (Hl & -> & Hl' & Hlen & Hb). set (n := length s) in *.
    rewrite length_app in Hlen. fold n in Hlen.
    destruct (Z.ltb_spec l (Z.of_nat n - 1 - l)) as [Hlt|Hge].
    + set (i := Z.to_nat l). set (j := (n - 1 - i)%nat).
      replace l with (Z.of_nat i) by lia.
      replace (Z.of_nat n - 1 - Z.of_nat i) with (Z.of_nat j) by lia.
      destruct (lookup_lt_is_Some_2 s i) as [x Hx]; [lia|].
      destruct (lookup_lt_is_Some_2 s j) as [y Hy]; [lia|].
      assert (Hbi : b !! i = Some x).
      { rewrite Hb, decide_False by lia. by apply lookup_app_l_Some. }
      assert (Hbj : b !! j = Some y).
      { rewrite Hb, decide_False by lia. by apply lookup_app_l_Some. }
      apply wp_bind, (wp_get_char i x); [done|]. apply wp_bind, (wp_get_char j y); [done|].
      apply wp_bind, wp_put_char; [lia|]. apply wp_bind, wp_put_char; [rewrite length_insert; lia|].
      apply wp_ret. split; [|lia]. split; [lia|]. split; [lia|]. split; [lia|].
      split; [rewrite !length_insert, length_app; lia|]. intros k.
      destruct (decide (k = j)) as [->|Hkj].
      { rewrite list_lookup_insert_eq by (rewrite length_insert; lia). rewrite decide_True by lia.
        by replace (n - 1 - j)%nat with i by lia. }
      rewrite list_lookup_insert_ne by done. destruct (decide (k = i)) as [->|Hki].
      { rewrite list_lookup_insert_eq by lia. by rewrite decide_True by lia. }
      rewrite list_lookup_insert_ne, Hb by done.
      destruct (decide ((k < n)%nat /\ (Z.of_nat k < Z.of_nat i + 1 \/ Z.of_nat j - 1 < Z.of_nat k))).
      * by rewrite decide_True by lia.
      * by rewrite decide_False by lia.
    + apply wp_ret. apply list_eq. intros k. rewrite Hb. fold n.
      destruct (decide (k < n)%nat) as [Hk|Hk].
      * rewrite (lookup_app_l (reverse s)) by (rewrite length_reverse; fold n; lia).
        rewrite reverse_lookup by (fold n; lia). fold n.
        replace (n - S k)%nat with (n - 1 - k)%nat by lia.
        destruct (decide _); [done|]. rewrite lookup_app_l by (fold n; lia). f_equal. lia.
      * rewrite decide_False by lia. rewrite !lookup_app_r by (rewrite ?length_reverse; fold n; lia).
        by rewrite length_reverse.
Qed.

(** What a sequence of digits, least significant first, stands for. *)
Fixpoint digits_value (ds : list Z) : Z :=
  match ds with [] => 0 | d :: ds' => (d - 48) + 10 * digits_value ds' end.

Lemma digits_value_app ds ds' :
  digits_value (ds ++ ds') = digits_value ds + 10 ^ Z.of_nat (length ds) * digits_value ds'.
Proof.
  induction ds as [|d ds IH]; cbn [app digits_value length].
  - change (10 ^ Z.of_nat 0) with 1. lia.
  - rewrite IH, Nat2Z.inj_succ, Z.pow_succ_r by lia. lia.
Qed.

Definition digit (d : Z) : Prop := 48 <= d <= 57.

(** The digit loop, on a number of at most ten digits. *)
Lemma wp_itoa_digits num (buf : list Z) :
  0 <= num < 10 ^ 10 -> (11 <= length buf)%nat ->
  wp (itoa_digits num) buf (fun i b => exists ds, i = Z.of_nat (length ds) /\ (length ds <= 10)%nat /\
    b = ds ++ drop (length ds) buf /\ Forall digit ds /\ digits_value ds = num /\
    (forall d, last ds = Some d -> d <> 48)).
Proof.
  intros Hn Hlen. unfold itoa_digits.
  apply (wp_loop_m (fun '(m, i) b => exists ds, i = Z.of_nat (length ds) /\ (length ds <= 10)%nat /\
      b = ds ++ drop (length ds) buf /\ Forall digit ds /\
      digits_value ds + 10 ^ Z.of_nat (length ds) * m = num /\ 0 <= m < 10 ^ (10 - Z.of_nat (length ds)) /\
      (m = 0 -> forall d, last ds = Some d -> d <> 48)) (fun '(m, i) _ => 10 - i)).
  - exists []. simpl. split; [done|]. split; [lia|]. split; [by rewrite drop_0|]. split; [constructor|].
    split; [lia|]. split; [exact Hn|done].
  - lia.
  - intros [m i] b (ds & -> & Hl & -> & Hd & Hv & Hm & Hlast).
    destruct (Z.eqb_spec m 0) as [->|Hm0]; cbn [negb].
    + apply wp_ret. exists ds. repeat split; auto. lia.
    + assert (Hl9 : (length ds < 10)%nat).
      { destruct (decide (length ds = 10%nat)) as [E|]; [|lia]. rewrite E in Hm. simpl in Hm. lia. }
      rewrite Z.rem_mod_nonneg, Z.quot_div_nonneg by lia.
      assert (Hs8 : s8 (48 + m mod 10) = 48 + m mod 10) by (unfold s8; zlia). rewrite Hs8.
      apply wp_bind, wp_put_char; [rewrite length_app, length_drop; lia|]. apply wp_ret.
      split; [|rewrite ?length_app; lia]. exists (ds ++ [48 + m mod 10]). rewrite length_app. cbn [length].
      split; [lia|]. split; [lia|]. split.
      { rewrite (drop_S buf (default 0 (buf !! length ds)) (length ds)).
        - rewrite insert_app_r_alt, Nat.sub_diag by lia. rewrite <- app_assoc. simpl.
          by rewrite Nat.add_1_r.
        - destruct (lookup_lt_is_Some_2 buf (length ds)) as [y ->]; [lia|done]. }
      split; [apply Forall_app; split; [done|repeat constructor; unfold digit; zlia]|].
      rewrite digits_value_app. cbn [digits_value]. rewrite Nat2Z.inj_add. change (Z.of_nat 1) with 1.
      rewrite Z.pow_add_r by lia. change (10 ^ 1) with 10.
      split; [rewrite <- Hv; pose proof (Z.div_mod m 10); nia|]. split.
      { replace (10 - Z.of_nat (length ds)) with (Z.succ (10 - (Z.of_nat (length ds) + 1))) in Hm by lia.
        rewrite Z.pow_succ_r in Hm by lia. zlia. }
      intros H0 d. rewrite last_snoc. intros [= <-]. zlia.
Qed.

Lemma insert_drop_snoc (ds buf : list Z) c :
  (length ds < length buf)%nat ->
  <[length ds := c]> (ds ++ drop (length ds) buf) = (ds ++ [c]) ++ drop (length (ds ++ [c])) buf.
Proof.
  intros Hl. destruct (lookup_lt_is_Some_2 buf (length ds) Hl) as [y Hy].
  rewrite (drop_S _ _ _ Hy), insert_app_r_alt, Nat.sub_diag, length_app by lia.
  rewrite <- app_assoc. simpl. by rewrite Nat.add_1_r.
Qed.

(** ** The reference *)

(** The digits of a number, least significant first. *)
Fixpoint digits (fuel : nat) (n : Z) : list Z :=
  match fuel with
  | O => []
  | S fuel' => if n =? 0 then [] else (48 + n mod 10) :: digits fuel' (n / 10)
  end.

(** What [itoa] prints: sign and digits; for zero a digit and a newline. *)
Definition decimal (num : Z) : list Z :=
  if num =? 0 then [48; 10]
  else (if num <? 0 then [45] else []) ++ reverse (digits 10 (Z.abs num)).

(** Digits without a zero at the end are determined by their value. *)
Lemma digits_unique ds : forall fuel, Forall digit ds -> (forall d, last ds = Some d -> d <> 48) ->
  (length ds <= fuel)%nat -> ds = digits fuel (digits_value ds).
Proof.
  induction ds as [|d ds IH]; intros fuel Hd Hlast Hf.
  { destruct fuel; done. }
  destruct fuel as [|fuel]; [simpl in Hf; lia|]. cbn [digits digits_value length] in *.
  apply Forall_cons_1 in Hd as [Hd Hds]. unfold digit in Hd.
  assert (Hpos : 0 <= digits_value ds).
  { clear -Hds. induction Hds as [|e es He Hes IHe]; simpl; unfold digit in *; lia. }
  assert (Hne : ds <> [] -> digits_value ds <> 0).
  { intros Hn E. rewrite (IH fuel) in Hn; [|done| |lia].
    - rewrite E in Hn. by destruct fuel.
    - intros e He. apply Hlast. by destruct ds. }
  destruct (Z.eqb_spec (d - 48 + 10 * digits_value ds) 0) as [E0|E0].
  - destruct ds as [|e ds]; [|specialize (Hne ltac:(done)); lia]. simpl in E0. by specialize (Hlast d eq_refl ltac:(lia)).
  - replace ((d - 48 + 10 * digits_value ds) mod 10) with (d - 48) by zlia.
    replace ((d - 48 + 10 * digits_value ds) / 10) with (digits_value ds) by zlia.
    f_equal; [lia|]. apply IH; [done| |lia]. intros e He. apply Hlast. by destruct ds.
Qed.

(** What [itoa] leaves in a buffer of at least twelve bytes. *)
Lemma itoa_run (num : Z) (buf : list Z) (Hbuf : (12 <= length buf)%nat)
    (Hnum : -2147483648 < num < 2147483648) :
  (num = 0 -> itoa num buf = Ok (tt, 48 :: 10 :: drop 2 buf)) /\
  (num <> 0 -> exists ds, itoa num buf = Ok (tt, decimal num ++ 0 :: drop (S (length (decimal num))) buf) /\
     decimal num = (if num <? 0 then 45 :: ds else ds) /\ Forall digit ds /\ (0 < length ds <= 10)%nat /\
     head ds <> Some 48 /\ digits_value (reverse ds) = Z.abs num).
Proof.
  split; intros H0.
  - subst num. destruct buf as [|x [|y buf]]; simpl in Hbuf; [lia|lia|].
    apply wp_eq. unfold itoa. change (0 =? 0) with true. cbv iota.
    apply wp_bind, (wp_put_char 0); [simpl; lia|]. by apply (wp_put_char 1); [simpl; lia|].
  - unfold itoa. rewrite (proj2 (Z.eqb_neq _ _) H0).
    assert (Habs : (if num <? 0 then s32 (- num) else num) = Z.abs num).
    { destruct (Z.ltb_spec num 0); [rewrite s32_small by lia|]; lia. }
    rewrite Habs.
    destruct (wp_run _ _ _ (wp_itoa_digits (Z.abs num) buf ltac:(lia) ltac:(lia)))
      as (i & b & Hrun & ds & -> & Hl & -> & Hd & Hv & Hlast).
    set (w := if num <? 0 then ds ++ [45] else ds).
    assert (Hw : (length w <= 11)%nat).
    { subst w. destruct (num <? 0); [rewrite length_app; simpl; lia|lia]. }
    assert (Hdn : ds <> []) by (intros ->; simpl in Hv; lia).
    assert (Hdec : decimal num = reverse w).
    { unfold decimal. rewrite (proj2 (Z.eqb_neq _ _) H0), <- Hv, <- (digits_unique ds 10) by done.
      subst w. destruct (num <? 0); [by rewrite reverse_app|done]. }
    rewrite Hdec. exists (reverse ds). split; [|split; [|split; [|split; [|split]]]].
    + rewrite (bind_run _ _ _ _ _ Hrun). apply wp_eq, wp_bind.
      assert (Hsign : wp (if num <? 0 then _ ← put (Z.of_nat (length ds)) 45; mret (Z.of_nat (length ds) + 1)
          else mret (Z.of_nat (length ds))) (ds ++ drop (length ds) buf)
          (fun i b => i = Z.of_nat (length w) /\ b = w ++ drop (length w) buf)).
      { subst w. destruct (num <? 0).
        - apply wp_bind, wp_put_char; [rewrite length_app, length_drop; lia|]. apply wp_ret.
          split; [rewrite length_app; simpl; lia|]. by rewrite insert_drop_snoc by lia.
        - by apply wp_ret. }
      eapply wp_mono; [exact Hsign|]. intros i b [-> ->]. destruct (num <? 0);
        (apply wp_bind, wp_put_char; [rewrite length_app, length_drop; lia|]);
        rewrite insert_drop_snoc, <- app_assoc by lia; apply wp_bind;
        (eapply wp_mono; [apply wp_reverse_str; lia|]); intros _ b ->; apply wp_ret;
        (split; [done|]); rewrite length_app, length_reverse; simpl; do 3 f_equal; lia.
    + subst w. destruct (num <? 0); [by rewrite reverse_app|done].
    + by apply Forall_reverse.
    + rewrite length_reverse. destruct ds; [done|simpl in *; lia].
    + rewrite head_reverse. intros E. by apply (Hlast 48).
    + by rewrite reverse_involutive.
Qed.

(** ** Theorem *)

(** What a printed number stands for: an optional sign and decimal digits. *)
Definition number_value (text : list Z) : Z :=
  match text with
  | [] => 0
  | c :: ds => if c =? 45 then - digits_value (reverse ds) else digits_value (reverse text)
  end.

(** C40 (roundtrip): [itoa] prints what it is given.  For every [int] but zero
    and the least, with a buffer of at least twelve bytes, the buffer afterwards
    starts with the number's decimal text, terminated: an optional sign and digits
    without a leading zero whose value is the number; the rest is unchanged.  For
    zero the text is "0" and a newline, and no terminator is written. *)
Theorem itoa_spec (num : Z) (buf : list Z) (Hbuf : (12 <= length buf)%nat)
    (Hnum : -2147483648 < num < 2147483648) :
  (num = 0 -> itoa num buf = Ok (tt, 48 :: 10 :: drop 2 buf)) /\
  (num <> 0 -> exists text ds, itoa num buf = Ok (tt, text ++ 0 :: drop (S (length text)) buf) /\
     text = decimal num /\ text = (if num <? 0 then 45 :: ds else ds) /\ Forall digit ds /\
     (0 < length ds <= 10)%nat /\ head ds <> Some 48 /\ number_value text = num).
Proof.
  destruct (itoa_run num buf Hbuf Hnum) as [Hz Hnz]. split; [exact Hz|]. intros H0.
  destruct (Hnz H0) as (ds & Hrun & Hdec & Hd & Hl & Hh & Hv). exists (decimal num), ds.
  split_and!; try done; try lia. rewrite Hdec. unfold number_value. destruct (Z.ltb_spec num 0).
  - change (45 =? 45) with true. cbv iota. lia.
  - destruct ds as [|c ds]; [simpl in Hl; lia|]. apply Forall_cons_1 in Hd as [Hc _]. unfold digit in Hc.
    destruct (Z.eqb_spec c 45); lia.
Qed.

Lemma itoa_spec_witness : exists text ds,
  itoa (-1203) (replicate 12 7) = Ok (tt, text ++ 0 :: drop (S (length text)) (replicate 12 7)) /\
  text = 45 :: ds /\ number_value text = -1203 /\ itoa 0 (replicate 12 7) = Ok (tt, 48 :: 10 :: replicate 10 7).
Proof.
  destruct (itoa_spec (-1203) (replicate 12 7)) as [_ H]; [simpl; lia|lia|].
  destruct H as (text & ds & Hr & _ & Ht & _ & _ & _ & Hv); [lia|].
  destruct (itoa_spec 0 (replicate 12 7)) as [H0 _]; [simpl; lia|lia|].
  exists text, ds. split; [exact Hr|]. split; [exact Ht|]. split; [exact Hv|exact (H0 eq_refl)].
Defined.

(** The least [int] has no negation; with the processor's wrap-around its text
    is not a number. *)
Example itoa_least : itoa (-2147483648) (replicate 12 0) = Ok (tt, [45; 46; 47; 44; 41; 44; 40; 45; 42; 44; 40; 0]).
Proof. vm_compute. reflexivity. Qed.

End UserLib.
