(* ===== verification/UserProc.v ===== *)
(** * A user program and its system calls

    The state of a running user program: the bytes it can access, the tokeniser's
    static variable, what the kernel will answer to its next requests for keys and
    memory, and what the program has asked the kernel to show and to run.  The
    calls are those of [src/user_programs/stdlib/src/coniferos.asm], with the
    effect the routines of [Isr80h] have for the caller. *)
From stdpp Require Import base gmap list numbers strings.
From S2P Require Import Prelude Config CString.
#[local] Open Scope Z_scope.

Module UserProc.

(** ** State *)

(** A program the user program started: its file name and its arguments, as the
    kernel copied them. *)
Record launch : Type := Launch { l_filename : list Z; l_args : list (list Z) }.

Record uproc : Type := mk_uproc {
  um : gmap Z Z;              (* bytes by virtual address; others cannot be accessed *)
  remainder : Z;              (* the static variable of [strtok] *)
  owned : gmap Z Z;           (* allocations not yet freed: address to size *)
  typed : list Z;             (* what the next [get_key] calls return; 0: no key *)
  granted : list Z;           (* what the next [malloc] calls return; 0: no memory *)
  shown : list Z;             (* characters given to the terminal *)
  launched : list launch
}.

Definition set_um m (s : uproc) : uproc :=
  mk_uproc m (remainder s) (owned s) (typed s) (granted s) (shown s) (launched s).
Definition set_remainder r (s : uproc) : uproc :=
  mk_uproc (um s) r (owned s) (typed s) (granted s) (shown s) (launched s).
Definition set_owned o (s : uproc) : uproc :=
  mk_uproc (um s) (remainder s) o (typed s) (granted s) (shown s) (launched s).
Definition set_typed k (s : uproc) : uproc :=
  mk_uproc (um s) (remainder s) (owned s) k (granted s) (shown s) (launched s).
Definition set_granted g (s : uproc) : uproc :=
  mk_uproc (um s) (remainder s) (owned s) (typed s) g (shown s) (launched s).
Definition set_shown o (s : uproc) : uproc :=
  mk_uproc (um s) (remainder s) (owned s) (typed s) (granted s) o (launched s).
Definition set_launched l (s : uproc) : uproc :=
  mk_uproc (um s) (remainder s) (owned s) (typed s) (granted s) (shown s) l.

#[local] Abbreviation U := (M uproc).

(** ** Memory accesses *)

(** A byte; [char] reads sign it. *)
Definition load (a : Z) : U Z := fun s => b ← of_option (um s !! a); Ok (b, s).
Definition load_char (a : Z) : U Z := b ← load a; mret (s8 b).
Definition store (a v : Z) : U unit := fun s =>
  match um s !! a with
  | Some _ => Ok (tt, set_um (<[a := u8 v]> (um s)) s)
  | None => Fault
  end.

(** A pointer, little endian. *)
Definition load32 (a : Z) : U Z :=
  b0 ← load a;
  b1 ← load (a + 1);
  b2 ← load (a + 2);
  b3 ← load (a + 3);
  mret (b0 + b1 * 256 + b2 * 65536 + b3 * 16777216).
Definition store32 (a v : Z) : U unit :=
  _ ← store a v;
  _ ← store (a + 1) (v / 256);
  _ ← store (a + 2) (v / 65536);
  store (a + 3) (v / 16777216).

(** The bytes of an object, and an object written: [bs] at address [p]. *)
Fixpoint fill (p : Z) (bs : list Z) (m : gmap Z Z) : gmap Z Z :=
  match bs with
  | [] => m
  | b :: bs' => fill (p + 1) bs' (<[p := b]> m)
  end.

Definition bytes_from (m : gmap Z Z) (p : Z) (n : nat) : option (list Z) :=
  mapM (fun i => m !! (p + i)) (seqZ 0 (Z.of_nat n)).

(** A computation on the [n] characters of an array, as in [UserLib]. *)
Definition on_buffer {A} (p : Z) (n : nat) (m : M (list Z) A) : U A := fun s =>
  match bytes_from (um s) p n with
  | Some bs =>
      match m bs with
      | Ok (a, bs') => Ok (a, set_um (fill p (map u8 bs') (um s)) s)
      | Fault => Fault
      | Panic msg => Panic msg
      | Diverge => Diverge
      end
  | None => Fault
  end.

(** What the kernel copies from a string of the program: up to its terminator,
    at most [n] characters. *)
Fixpoint read_string (n : nat) (a : Z) : U (list Z) :=
  match n with
  | O => mret []
  | S n' =>
      b ← load a;
      if b =? 0 then mret [] else t ← read_string n' (a + 1); mret (b :: t)
  end.

(** The characters of a string literal. *)
Definition chars (t : string) : list Z :=
  map (fun c => Z.of_N (Ascii.N_of_ascii c)) (String.list_ascii_of_string t).

(** ** System calls: [coniferos.asm]

    Each stub puts the number of the call in [eax] and its arguments on the stack
    and raises interrupt 0x80.  The definitions are what the calls do as the
    program sees them, by the kernel's routines in [Isr80h]. *)

(** The kernel copies at most [MAX_STR_SIZE] characters. *)
Definition print (message : Z) : U unit :=
  t ← read_string 1024 message;
  modify (fun s => set_shown (shown s ++ t) s).

Definition coniferos_putchar (c : Z) : U unit :=
  modify (fun s => set_shown (shown s ++ [u8 c]) s).

(** When the keys of the model are used up no key ever comes. *)
Definition coniferos_get_key : U Z := fun s =>
  match typed s with
  | [] => Ok (0, s)
  | k :: ks => Ok (k, set_typed ks s)
  end.

(** The kernel zeroes what it hands out. *)
Definition coniferos_malloc (size : Z) : U Z := fun s =>
  match granted s with
  | [] => Ok (0, s)
  | p :: ps =>
      if p =? 0 then Ok (0, set_granted ps s)
      else Ok (p, set_granted ps (set_owned (<[p := size]> (owned s))
                    (set_um (fill p (replicate (Z.to_nat size) 0) (um s)) s)))
  end.

(** The bytes can no longer be written; an address the program does not own is
    ignored.  The null pointer reaches the kernel's heap, which it corrupts. *)
Definition coniferos_free (ptr : Z) : U unit := fun s =>
  match owned s !! ptr with
  | Some size =>
      Ok (tt, set_owned (delete ptr (owned s))
                (set_um (filter (fun x => ~ (ptr <= x.1 < ptr + size)) (um s)) s))
  | None => if ptr =? 0 then Fault else Ok (tt, s)
  end.

Definition read_argv (n : nat) (argv : Z) : U (list (list Z)) :=
  (fix go n argv :=
     match n with
     | O => mret []
     | S n' =>
         p ← load32 argv;
         t ← read_string (Z.to_nat MAX_CMMD_ARG_LEN) p;
         r ← go n' (argv + 4);
         mret (t :: r)
     end) n argv.

(** The call returns when the program it started has ended, or could not be
    started.  From a page's worth of arguments on, the kernel does not copy their
    pointers and uses an array it has not written. *)
Definition coniferos_execve (filename argv argc : Z) : U unit :=
  if (argc <? 0) || (argc * MAX_CMMD_ARG_LEN >=? 4096) then fault
  else
    name ← read_string (Z.to_nat MAX_FILE_PATH_CHARS) filename;
    args ← read_argv (Z.to_nat argc) argv;
    modify (fun s => set_launched (launched s ++ [Launch name args]) s).

(** ** Contents of memory *)

(** The bytes [bs] are at [p]. *)
Definition holds (m : gmap Z Z) (p : Z) (bs : list Z) : Prop :=
  forall i b, bs !! i = Some b -> m !! (p + Z.of_nat i) = Some b.

(** The terminated string [t] is at [p]. *)
Definition string_at (m : gmap Z Z) (p : Z) (t : list Z) : Prop :=
  Forall CString.char_byte t /\ holds m p (t ++ [0]).

(** The [n] bytes from [p] on can be accessed. *)
Definition mapped (m : gmap Z Z) (p : Z) (n : nat) : Prop :=
  forall i, (i < n)%nat -> is_Some (m !! (p + Z.of_nat i)).

Definition apart (p : Z) (n : nat) (q : Z) (k : nat) : Prop :=
  p + Z.of_nat n <= q \/ q + Z.of_nat k <= p.

#[export] Instance apart_dec p n q k : Decision (apart p n q k).
Proof. unfold apart. apply _. Defined.

(** ** Lemmas *)

Lemma lookup_fill bs : forall p m a,
  fill p bs m !! a =
    if decide (p <= a < p + Z.of_nat (length bs)) then bs !! Z.to_nat (a - p) else m !! a.
Proof.
  induction bs as [|b bs IH]; intros p m a; cbn [fill length].
  { by rewrite decide_False by lia. }
  rewrite IH. destruct (decide (a = p)) as [->|Hne].
  - rewrite decide_False, decide_True by lia. rewrite Z.sub_diag. apply lookup_insert_eq.
  - rewrite lookup_insert_ne by done.
    destruct (decide (p + 1 <= a < p + 1 + Z.of_nat (length bs))).
    + rewrite decide_True by lia. by replace (Z.to_nat (a - p)) with (S (Z.to_nat (a - (p + 1)))) by lia.
    + by rewrite decide_False by lia.
Qed.

Lemma fill_app bs bs' p m :
  fill p (bs ++ bs') m = fill (p + Z.of_nat (length bs)) bs' (fill p bs m).
Proof.
  revert p m. induction bs as [|b bs IH]; intros p m; cbn [fill length app].
  - f_equal. lia.
  - rewrite IH. f_equal. lia.
Qed.

Lemma fill_snoc bs b p m : fill p (bs ++ [b]) m = <[p + Z.of_nat (length bs) := b]> (fill p bs m).
Proof. by rewrite fill_app. Qed.

Lemma holds_fill bs p m : holds (fill p bs m) p bs.
Proof.
  intros i b Hi. pose proof (lookup_lt_Some _ _ _ Hi). rewrite lookup_fill, decide_True by lia.
  by replace (Z.to_nat (p + Z.of_nat i - p)) with i by lia.
Qed.

Lemma holds_fill_apart bs p q cs m :
  apart p (length bs) q (length cs) -> holds m q cs -> holds (fill p bs m) q cs.
Proof.
  intros Ha H i b Hi. pose proof (lookup_lt_Some _ _ _ Hi). unfold apart in Ha.
  rewrite lookup_fill, decide_False by lia. by apply H.
Qed.

Lemma string_at_fill_apart bs p q t m :
  apart p (length bs) q (S (length t)) -> string_at m q t -> string_at (fill p bs m) q t.
Proof.
  intros Ha [Ht H]. split; [done|]. apply holds_fill_apart; [|done].
  rewrite length_app. simpl. by rewrite Nat.add_1_r.
Qed.

Lemma string_at_fill t p m : Forall CString.char_byte t -> string_at (fill p (t ++ [0]) m) p t.
Proof. intros Ht. split; [done|apply holds_fill]. Qed.

Lemma mapped_fill bs p m q n : mapped m q n -> mapped (fill p bs m) q n.
Proof.
  intros H i Hi. rewrite lookup_fill. destruct (decide _) as [Hd|]; [|by apply H].
  apply lookup_lt_is_Some_2. lia.
Qed.

Lemma holds_mapped m p bs : holds m p bs -> mapped m p (length bs).
Proof. intros H i Hi. destruct (lookup_lt_is_Some_2 _ _ Hi) as [b Hb]. eauto. Qed.

Lemma holds_app m p bs cs :
  holds m p (bs ++ cs) <-> holds m p bs /\ holds m (p + Z.of_nat (length bs)) cs.
Proof.
  split.
  - intros H. split; intros i b Hi.
    + apply H. by apply lookup_app_l_Some.
    + rewrite <- Z.add_assoc, <- Nat2Z.inj_add. apply H. rewrite lookup_app_r by lia.
      by replace (length bs + i - length bs)%nat with i by lia.
  - intros [H1 H2] i b Hi. apply lookup_app_Some in Hi as [Hi|[Hl Hi]]; [by apply H1|].
    apply H2 in Hi. by replace (p + Z.of_nat i) with (p + Z.of_nat (length bs) + Z.of_nat (i - length bs)) by lia.
Qed.

Lemma string_at_suffix m p t u : string_at m p (t ++ u) -> string_at m (p + Z.of_nat (length t)) u.
Proof.
  intros [Ht H]. apply Forall_app in Ht as [_ Hu]. split; [done|].
  rewrite <- app_assoc in H. by apply holds_app in H as [_ ?].
Qed.

(** The characters of a string and its terminator. *)
Lemma string_at_char m p t i c : string_at m p t -> t !! i = Some c -> m !! (p + Z.of_nat i) = Some c.
Proof. intros [_ H] Hi. apply H. by apply lookup_app_l_Some. Qed.

Lemma string_at_nul m p t : string_at m p t -> m !! (p + Z.of_nat (length t)) = Some 0.
Proof. intros [_ H]. apply H. by rewrite lookup_app_r, Nat.sub_diag by lia. Qed.

(** ** Changes of memory *)

(** [m'] is [m] but for the [n] bytes from [a] on, and what could be accessed
    still can. *)
Definition changed (a : Z) (n : nat) (m m' : gmap Z Z) : Prop :=
  (forall x, ~ (a <= x < a + Z.of_nat n) -> m' !! x = m !! x) /\
  (forall x, is_Some (m !! x) -> is_Some (m' !! x)).

Lemma changed_refl a n m : changed a n m m.
Proof. done. Qed.

Lemma changed_trans a n m1 m2 m3 : changed a n m1 m2 -> changed a n m2 m3 -> changed a n m1 m3.
Proof. intros [H1 H2] [H3 H4]. split; [|auto]. intros x Hx. by rewrite H3, H1. Qed.

Lemma changed_weaken a n b k m m' :
  changed a n m m' -> b <= a -> a + Z.of_nat n <= b + Z.of_nat k -> changed b k m m'.
Proof. intros [H1 H2] ??. split; [|done]. intros x Hx. apply H1. lia. Qed.

Lemma changed_fill p bs m : changed p (length bs) m (fill p bs m).
Proof.
  split.
  - intros x Hx. by rewrite lookup_fill, decide_False.
  - intros x Hx. rewrite lookup_fill. destruct (decide _); [|done]. apply lookup_lt_is_Some_2. lia.
Qed.

Lemma changed_area a n m m' :
  (forall x, ~ (a <= x < a + Z.of_nat n) -> m' !! x = m !! x) -> mapped m' a n -> changed a n m m'.
Proof.
  intros H Hm. split; [done|]. intros x Hx. destruct (decide (a <= x < a + Z.of_nat n)) as [Hin|Hout].
  - pose proof (Hm (Z.to_nat (x - a)) ltac:(lia)) as Hy. by replace (a + Z.of_nat (Z.to_nat (x - a))) with x in Hy by lia.
  - by rewrite H.
Qed.

Lemma mapped_changed a n m m' p k : changed a n m m' -> mapped m p k -> mapped m' p k.
Proof. intros [_ H] Hm i Hi. by apply H, Hm. Qed.

Lemma holds_changed a n m m' p bs : changed a n m m' -> apart a n p (length bs) -> holds m p bs -> holds m' p bs.
Proof.
  intros [H _] Ha Hh i b Hi. pose proof (lookup_lt_Some _ _ _ Hi). unfold apart in Ha.
  rewrite H by lia. by apply Hh.
Qed.

Lemma string_at_changed a n m m' p t :
  changed a n m m' -> apart a n p (S (length t)) -> string_at m p t -> string_at m' p t.
Proof.
  intros H Ha [Ht Hh]. split; [done|]. eapply holds_changed; [done| |done].
  rewrite length_app. simpl. by rewrite Nat.add_1_r.
Qed.

(** ** Weakest preconditions *)

Lemma wp_get_byte a b (s : uproc) (Q : Z -> uproc -> Prop) : um s !! a = Some b -> Q b s -> wp (load a) s Q.
Proof. intros H HQ. unfold wp, load. by rewrite H. Qed.

Lemma wp_load_char a b (s : uproc) (Q : Z -> uproc -> Prop) :
  um s !! a = Some b -> Q (s8 b) s -> wp (load_char a) s Q.
Proof. intros. unfold load_char. apply wp_bind. by eapply wp_get_byte. Qed.

Lemma wp_put_byte a v (s : uproc) (Q : unit -> uproc -> Prop) :
  is_Some (um s !! a) -> Q tt (set_um (<[a := u8 v]> (um s)) s) -> wp (store a v) s Q.
Proof. intros [b H] HQ. unfold wp, store. by rewrite H. Qed.

(** [bytes_from] and [holds] say the same. *)
Lemma bytes_from_holds m p bs : holds m p bs -> bytes_from m p (length bs) = Some bs.
Proof.
  intros H. unfold bytes_from. apply mapM_Some. apply Forall2_same_length_lookup_2.
  { rewrite length_seqZ. lia. }
  intros i x b Hx Hb. apply lookup_seqZ in Hx as [-> _]. by apply H.
Qed.

Lemma bytes_from_holds_2 m p n bs : bytes_from m p n = Some bs -> holds m p bs.
Proof.
  unfold bytes_from. intros H i b Hi. apply mapM_Some in H.
  destruct (Forall2_lookup_r _ _ _ _ _ H Hi) as (x & Hx & Hb). by apply lookup_seqZ in Hx as [-> _].
Qed.

Lemma wp_on_buffer {A} p bs (m : M (list Z) A) (s : uproc) (Q : A -> uproc -> Prop) :
  holds (um s) p bs -> wp m bs (fun a bs' => Q a (set_um (fill p (map u8 bs') (um s)) s)) ->
  wp (on_buffer p (length bs) m) s Q.
Proof.
  intros H Hm. unfold wp, on_buffer in *. rewrite (bytes_from_holds _ _ _ H).
  by destruct (m bs) as [[a bs']| | |].
Qed.

Lemma wp_read_string n : forall a t (s : uproc) (Q : list Z -> uproc -> Prop),
  string_at (um s) a t -> Q (take n t) s -> wp (read_string n a) s Q.
Proof.
  induction n as [|n IH]; intros a t s Q Ht HQ; [exact HQ|].
  cbn [read_string]. apply wp_bind. destruct t as [|c t].
  - apply (wp_get_byte a 0).
    { pose proof (string_at_nul _ _ _ Ht) as H. simpl in H. by rewrite Z.add_0_r in H. }
    change (0 =? 0) with true. cbv iota. exact HQ.
  - apply (wp_get_byte a c).
    { pose proof (string_at_char _ _ _ 0 c Ht eq_refl) as H. by rewrite Z.add_0_r in H. }
    assert (Hc : c <> 0).
    { destruct Ht as [Hc _]. apply Forall_cons_1 in Hc as [Hc _]. unfold CString.char_byte in Hc. lia. }
    apply Z.eqb_neq in Hc. rewrite Hc. apply wp_bind, (IH (a + 1) t).
    + by apply (string_at_suffix _ _ [c]) in Ht.
    + exact HQ.
Qed.

(** [load32] and [store32] are inverse. *)
Lemma wp_load32 a bs (s : uproc) (Q : Z -> uproc -> Prop) :
  length bs = 4%nat -> holds (um s) a bs ->
  Q (foldr (fun b acc => b + 256 * acc) 0 bs) s -> wp (load32 a) s Q.
Proof.
  intros Hl H HQ. destruct bs as [|b0 [|b1 [|b2 [|b3 [|? ?]]]]]; try done.
  unfold load32. apply wp_bind, (wp_get_byte _ b0); [by rewrite <- (Z.add_0_r a); apply (H 0%nat)|].
  apply wp_bind, (wp_get_byte _ b1); [by apply (H 1%nat)|].
  apply wp_bind, (wp_get_byte _ b2); [by apply (H 2%nat)|].
  apply wp_bind, (wp_get_byte _ b3); [by apply (H 3%nat)|]. apply wp_ret. simpl in HQ.
  by replace (b0 + b1 * 256 + b2 * 65536 + b3 * 16777216)
    with (b0 + 256 * (b1 + 256 * (b2 + 256 * (b3 + 256 * 0)))) by lia.
Qed.

(** The bytes of a 32-bit word. *)
Definition word_bytes (v : Z) : list Z := [u8 v; u8 (v / 256); u8 (v / 65536); u8 (v / 16777216)].

Lemma wp_store32 a v (s : uproc) (Q : unit -> uproc -> Prop) :
  mapped (um s) a 4 -> Q tt (set_um (fill a (word_bytes v) (um s)) s) -> wp (store32 a v) s Q.
Proof.
  intros H HQ. unfold store32.
  pose proof (H 0%nat ltac:(lia)) as H0. rewrite Z.add_0_r in H0.
  pose proof (H 1%nat ltac:(lia)) as H1. pose proof (H 2%nat ltac:(lia)) as H2.
  pose proof (H 3%nat ltac:(lia)) as H3.
  apply wp_bind, wp_put_byte; [done|]. apply wp_bind, wp_put_byte.
  { simpl. rewrite lookup_insert_ne by lia. done. }
  apply wp_bind, wp_put_byte. { simpl. rewrite !lookup_insert_ne by lia. done. }
  apply wp_put_byte. { simpl. rewrite !lookup_insert_ne by lia. done. }
  unfold word_bytes in HQ. cbn [fill] in HQ.
  replace (a + 1 + 1) with (a + 2) in HQ by lia. by replace (a + 2 + 1) with (a + 3) in HQ by lia.
Qed.

Lemma word_bytes_value v : 0 <= v < 4294967296 ->
  foldr (fun b acc => b + 256 * acc) 0 (word_bytes v) = v.
Proof. intros. unfold word_bytes, u8. simpl. zlia. Qed.

Lemma wp_load_word a v (s : uproc) (Q : Z -> uproc -> Prop) :
  0 <= v < 4294967296 -> holds (um s) a (word_bytes v) -> Q v s -> wp (load32 a) s Q.
Proof. intros Hv H HQ. eapply wp_load32; [|exact H|]; [done|]. by rewrite word_bytes_value. Qed.

End UserProc.
