(* ===== verification/UserString.v ===== *)
(** * The user library's strings and memory areas

    [src/user_programs/stdlib/src/string.c] and [memory.c], on the memory of a
    user program.  Most functions repeat the kernel's, which [Memory] and
    [CString] model on the bytes of one object; [string_functions_agree] relates
    the two.  [strtok] is the library's own. *)
From stdpp Require Import base gmap list numbers strings.
From S2P Require Import Prelude Memory CString UserProc.
#[local] Open Scope Z_scope.

Module UserString.
Import UserProc.

#[local] Abbreviation U := (M uproc).

(** ** [string.c] *)

Definition tolower (c1 : Z) : Z :=
  if (c1 >=? 65) && (c1 <=? 90) then s8 (c1 + 32) else c1.

Definition strlen (ptr : Z) : U Z :=
  loop_m (fun '(i, ptr) =>
    c ← load_char ptr;
    if negb (c =? 0) then mret (inl (i + 1, ptr + 1)) else mret (inr i)) (0, ptr).

Definition strnlen (s maxlen : Z) : U Z :=
  loop_m (fun i =>
    if u32 i <? maxlen then
      c ← load_char (s + i);
      if c =? 0 then mret (inr i) else mret (inl (i + 1))
    else mret (inr i)) 0.

Definition strnlen_terminator (s maxlen terminator : Z) : U Z :=
  loop_m (fun i =>
    if u32 i <? maxlen then
      c ← load_char (s + i);
      if (c =? 0) || (c =? terminator) then mret (inr i) else mret (inl (i + 1))
    else mret (inr i)) 0.

Definition is_digit (c : Z) : bool := (c >? 47) && (c <? 58).

Definition ctoi (c : Z) : Z := if is_digit c then c - 48 else -1.

Definition strcpy (dest src : Z) : U Z :=
  tmp ← loop_m (fun '(src, tmp) =>
    c ← load_char src;
    if negb (c =? 0) then
      _ ← store tmp c;
      mret (inl (src + 1, tmp + 1))
    else mret (inr tmp)) (src, dest);
  _ ← store tmp 0;
  mret dest.

(** [n-- > 0]: the comparison is of the value before. *)
Definition strncmp (s1 s2 n : Z) : U Z :=
  loop_m (fun '(n, s1, s2) =>
    if n >? 0 then
      u1 ← load s1;
      u2 ← load s2;
      if negb (u1 =? u2) then mret (inr (u1 - u2))
      else if u1 =? 0 then mret (inr 0)
      else mret (inl (n - 1, s1 + 1, s2 + 1))
    else mret (inr 0)) (n, s1, s2).

Definition strnicmp (s1 s2 n : Z) : U Z :=
  loop_m (fun '(n, s1, s2) =>
    if n >? 0 then
      u1 ← load s1;
      u2 ← load s2;
      if negb (u1 =? u2) && negb (tolower (s8 u1) =? tolower (s8 u2))
      then mret (inr (tolower (s8 u1) - tolower (s8 u2)))
      else if u1 =? 0 then mret (inr 0)
      else mret (inl (n - 1, s1 + 1, s2 + 1))
    else mret (inr 0)) (n, s1, s2).

Definition strncpy (dest src n : Z) : U Z :=
  i ← loop_m (fun i =>
    if u32 i <? n then
      c ← load_char (src + i);
      if c =? 0 then mret (inr i)
      else
        _ ← store (dest + i) c;
        mret (inl (i + 1))
    else mret (inr i)) 0;
  _ ← store (dest + i) 0;
  mret dest.

(** A turn of the scan of [strtok], at the character [i] of the remainder. *)
Definition strtok_scan (delim out_tok i : Z) : U (Z + Z) :=
  r ← gets remainder;
  c ← load_char (r + i);
  if negb (c =? 0) then
    if c =? delim then
      _ ← store (out_tok + i) 0;
      _ ← modify (set_remainder (r + i + 1));
      mret (inr out_tok)
    else
      _ ← store (out_tok + i) c;
      mret (inl (i + 1))
  else
    _ ← store (out_tok + i) 0;
    _ ← modify (set_remainder 0);
    mret (inr out_tok).

(** The array [next_token] is not used; its length is computed, also from the
    null pointer. *)
Definition strtok (str delim out_tok : Z) : U Z :=
  _ ← (if negb (str =? 0) then modify (set_remainder str) else mret tt);
  r ← gets remainder;
  if r =? 0 then mret 0
  else
    _ ← strlen str;
    loop_m (strtok_scan delim out_tok) 0.

(** ** [memory.c] *)

Definition memset (p c n : Z) : U Z :=
  _ ← loop_m (fun i =>
    if u32 i <? n then _ ← store (p + i) c; mret (inl (i + 1)) else mret (inr tt)) 0;
  mret p.

Definition memcmp (s1 s2 n : Z) : U Z :=
  loop_m (fun '(n, c1, c2) =>
    if n >? 0 then
      b1 ← load_char c1;
      b2 ← load_char c2;
      if negb (b1 =? b2) then mret (inr (if b1 <? b2 then -1 else 1))
      else mret (inl (n - 1, c1 + 1, c2 + 1))
    else mret (inr 0)) (n, s1, s2).

Definition memcpy (dest src n : Z) : U Z :=
  _ ← loop_m (fun '(n, d, s) =>
    if negb (n =? 0) then
      b ← load s;
      _ ← store d b;
      mret (inl (n - 1, d + 1, s + 1))
    else mret (inr tt)) (n, dest, src);
  mret dest.

(** ** Agreement with the kernel's functions *)

Definition byte (b : Z) : Prop := 0 <= b < 256.

Lemma byte_s8_eqb b : byte b -> (s8 b =? 0) = (b =? 0).
Proof. unfold byte. intros Hb. pose proof (s8_zero b Hb). destruct (Z.eqb_spec b 0), (Z.eqb_spec (s8 b) 0); tauto. Qed.

Lemma u8_s8 b : byte b -> u8 (s8 b) = b.
Proof. unfold byte, u8, s8. zlia. Qed.

(** The first byte of an object and the rest. *)
Lemma holds_cons m p b bs : holds m p (b :: bs) <-> m !! p = Some b /\ holds m (p + 1) bs.
Proof.
  change (b :: bs) with ([b] ++ bs). rewrite holds_app. simpl. split; intros [H1 H2]; split; auto.
  - rewrite <- (Z.add_0_r p). by apply (H1 0%nat).
  - intros [|i] c Hi; [|done]. injection Hi as <-. by rewrite Z.add_0_r.
Qed.

Section Agreement.
Variable s : uproc.

Lemma strlen_agree p bs r :
  holds (um s) p bs -> Forall byte bs -> Z.of_nat (length bs) < 4294967296 ->
  CString.strlen bs = Ok r -> strlen p s = Ok (r, s).
Proof.
  intros H Hb Hl Hr. apply wp_eq. unfold strlen.
  apply (wp_loop_idx (fun n '(i, p) s1 => s1 = s /\ exists bs, length bs = n /\ holds (um s) p bs /\
    Forall byte bs /\ CString.strlen_loop i bs = Ok r) _ (length bs)); [eauto 10|done|].
  intros n [i q] s1 (-> & [|b t] & <- & Hq & Ht & Hi); [done|].
  apply Forall_cons_1 in Ht as [Hbb Ht]. apply holds_cons in Hq as [Hq0 Hq].
  apply wp_bind. eapply wp_load_char; [exact Hq0|]. rewrite byte_s8_eqb by done. cbn [CString.strlen_loop] in Hi.
  destruct (b =? 0); apply wp_ret; simpl.
  - by injection Hi as ->.
  - exists (length t). split; [simpl; lia|]. eauto 10.
Qed.

Lemma strnlen_terminator_agree p bs maxlen terminator r :
  holds (um s) p bs -> Forall byte bs -> Z.of_nat (length bs) < 2147483648 -> 0 <= maxlen < 4294967296 ->
  CString.strnlen_terminator bs maxlen terminator = Ok r -> strnlen_terminator p maxlen terminator s = Ok (r, s).
Proof.
  intros H Hb Hl Hm Hr. apply wp_eq. unfold strnlen_terminator.
  apply (wp_loop_idx (fun n i s1 => s1 = s /\ 0 <= i /\ exists bs, length bs = n /\ i + Z.of_nat n < 2147483648 /\
    holds (um s) (p + i) bs /\ Forall byte bs /\
    CString.strnlen_terminator_loop (Z.to_nat (maxlen - i)) i bs terminator = Ok r) _ (length bs)); [|lia|].
  { split; [done|]. split; [done|]. exists bs. rewrite Z.add_0_r, Z.sub_0_r. auto with lia. }
  intros n i s1 (-> & Hi0 & t & <- & Hn & Hq & Ht & Hi).
  rewrite u32_small by lia. destruct (Z.ltb_spec i maxlen) as [Hlt|Hge].
  - replace (Z.to_nat (maxlen - i)) with (S (Z.to_nat (maxlen - (i + 1)))) in Hi by lia.
    destruct t as [|b t]; [done|]. apply Forall_cons_1 in Ht as [Hbb Ht].
    apply holds_cons in Hq as [Hq0 Hq]. apply wp_bind. eapply wp_load_char; [exact Hq0|].
    rewrite byte_s8_eqb by done. cbn [CString.strnlen_terminator_loop] in Hi.
    destruct ((b =? 0) || (s8 b =? terminator)); apply wp_ret; simpl; [by injection Hi as ->|].
    exists (length t). simpl in Hn. split; [simpl; lia|]. split; [done|]. split; [lia|]. exists t.
    rewrite Z.add_assoc. auto with lia.
  - replace (Z.to_nat (maxlen - i)) with O in Hi by lia. injection Hi as ->. by apply wp_ret.
Qed.

(** [strnlen] is the case of a terminator that no [char] equals. *)
Lemma strnlen_is_terminator n i bs : CString.strnlen_loop n i bs = CString.strnlen_terminator_loop n i bs 128.
Proof.
  revert i bs. induction n as [|n IH]; intros i [|b bs]; try done. simpl. rewrite IH.
  pose proof (s8_range b). rewrite (proj2 (Z.eqb_neq (s8 b) 128)) by lia. by destruct (b =? 0).
Qed.

(** The two loops differ in the test only. *)
Lemma strnlen_agree p bs maxlen r :
  holds (um s) p bs -> Forall byte bs -> Z.of_nat (length bs) < 2147483648 -> 0 <= maxlen < 4294967296 ->
  CString.strnlen bs maxlen = Ok r -> strnlen p maxlen s = Ok (r, s).
Proof.
  intros H Hb Hl Hm Hr. unfold CString.strnlen in Hr. rewrite strnlen_is_terminator in Hr.
  etrans; [|by apply (strnlen_terminator_agree p bs maxlen 128 r)].
  unfold strnlen, strnlen_terminator, loop_m. apply (f_equal (fun o => match o with Some o => o | None => Diverge end)).
  apply while_ext. intros [i s1]. unfold loop_step. simpl. destruct (u32 i <? maxlen); [|done].
  unfold mbind, M_bind, load_char, mbind, M_bind. destruct (load (p + i) s1) as [[b s2]| | |]; try done. simpl.
  pose proof (s8_range b). rewrite (proj2 (Z.eqb_neq (s8 b) 128)) by lia. by rewrite orb_false_r.
Qed.

(** A comparison loop: [f] decides on a pair of bytes or goes on to the next. *)
Section Comparison.
Context (f : Z -> Z -> option Z) (compare_list : nat -> list Z -> list Z -> outcome Z)
  (body : Z * Z * Z -> U (Z * Z * Z + Z)).
Hypothesis compare_list_0 : forall bs cs, compare_list 0 bs cs = Ok 0.
Hypothesis compare_list_nil : forall n bs cs, bs = [] \/ cs = [] -> compare_list (S n) bs cs = Fault.
Hypothesis compare_list_cons : forall n b bs c cs,
  compare_list (S n) (b :: bs) (c :: cs) = match f b c with Some r => Ok r | None => compare_list n bs cs end.
Hypothesis body_0 : forall p q, body (0, p, q) s = Ok (inr 0, s).
Hypothesis body_S : forall n p q b c, um s !! p = Some b -> um s !! q = Some c -> 0 < n ->
  body (n, p, q) s = Ok (match f b c with Some r => inr r | None => inl (n - 1, p + 1, q + 1) end, s).

Lemma comparison_agree p q bs cs n r :
  holds (um s) p bs -> holds (um s) q cs -> 0 <= n < 4294967296 ->
  compare_list (Z.to_nat n) bs cs = Ok r -> loop_m body (n, p, q) s = Ok (r, s).
Proof.
  intros Hp Hq Hn Hr. apply wp_eq.
  apply (wp_loop_idx (fun k '(n, p, q) s1 => s1 = s /\ n = Z.of_nat k /\ exists bs cs,
    holds (um s) p bs /\ holds (um s) q cs /\ compare_list k bs cs = Ok r) _ (Z.to_nat n)); [|lia|].
  { split; [done|]. split; [lia|]. by exists bs, cs. }
  clear p q bs cs n Hp Hq Hn Hr. intros k [[n p] q] s1 (-> & -> & bs & cs & Hp & Hq & Hr).
  unfold wp. destruct k as [|k].
  { rewrite compare_list_0 in Hr. injection Hr as <-. by rewrite body_0. }
  destruct bs as [|b bs]; [by rewrite compare_list_nil in Hr by auto|].
  destruct cs as [|c cs]; [by rewrite compare_list_nil in Hr by auto|].
  apply holds_cons in Hp as [Hp0 Hp]. apply holds_cons in Hq as [Hq0 Hq].
  rewrite (body_S _ _ _ _ _ Hp0 Hq0) by lia. rewrite compare_list_cons in Hr.
  destruct (f b c); [by injection Hr as ->|].
  exists k. split; [lia|]. split; [done|]. split; [lia|]. by exists bs, cs.
Qed.
End Comparison.

(** The loop bodies on two readable bytes. *)
Ltac comparison f compare_list :=
  intros Hp Hq Hn Hr; refine (comparison_agree f compare_list _ _ _ _ _ _ _ _ _ _ _ _ Hp Hq Hn Hr);
  [done
  |by intros ? [|? ?] [|? ?] [?|?]
  |intros k b bs' c cs'; simpl; change CString.tolower with tolower; repeat (case_match; try done)
  |done
  |intros k p' q' b c Hp' Hq' Hk; rewrite Z.gtb_ltb, (proj2 (Z.ltb_lt _ _)) by done;
   unfold mbind, M_bind, load_char, load, mbind, M_bind; rewrite Hp'; simpl; rewrite Hq'; simpl;
   repeat (case_match; try done)].

Lemma strncmp_agree p q bs cs n r :
  holds (um s) p bs -> holds (um s) q cs -> 0 <= n < 4294967296 ->
  CString.strncmp bs cs n = Ok r -> strncmp p q n s = Ok (r, s).
Proof.
  comparison (fun b c => if negb (b =? c) then Some (b - c) else if b =? 0 then Some 0 else None)
    CString.strncmp_loop.
Qed.

Lemma strnicmp_agree p q bs cs n r :
  holds (um s) p bs -> holds (um s) q cs -> 0 <= n < 4294967296 ->
  CString.strnicmp bs cs n = Ok r -> strnicmp p q n s = Ok (r, s).
Proof.
  comparison (fun b c => if negb (b =? c) && negb (tolower (s8 b) =? tolower (s8 c))
      then Some (tolower (s8 b) - tolower (s8 c)) else if b =? 0 then Some 0 else None)
    CString.strnicmp_loop.
Qed.

Lemma memcmp_agree p q bs cs n r :
  holds (um s) p bs -> holds (um s) q cs -> 0 <= n < 4294967296 ->
  Memory.memcmp bs cs n = Ok r -> memcmp p q n s = Ok (r, s).
Proof.
  comparison (fun b c => if negb (s8 b =? s8 c) then Some (if s8 b <? s8 c then -1 else 1) else None)
    Memory.memcmp_loop.
Qed.

End Agreement.

(** ** Writing an object from its start *)

(** The object at [dest] is to become [all']; [i] bytes are done, [rest] is what
    follows them and [rest'] what is to replace it. *)
Definition copied (s : uproc) (dest i : Z) (rest rest' all' : list Z) (s1 : uproc) : Prop :=
  exists pre, Z.of_nat (length pre) = i /\ s1 = set_um (fill dest pre (um s)) s /\
    holds (um s) (dest + i) rest /\ all' = pre ++ rest'.

Lemma copied_start s dest ds ds' : holds (um s) dest ds -> copied s dest 0 ds ds' ds' s.
Proof. exists []. rewrite Z.add_0_r. split; [done|]. split; [by destruct s|done]. Qed.

Lemma copied_step s dest i d rest v rest' all' s1 :
  copied s dest i (d :: rest) (u8 v :: rest') all' s1 ->
  wp (store (dest + i) v) s1 (fun _ s2 => copied s dest (i + 1) rest rest' all' s2).
Proof.
  intros (pre & <- & -> & Hr & ->). apply holds_cons in Hr as [Hd Hr]. apply wp_put_byte.
  { simpl. rewrite lookup_fill, decide_False by lia. eauto. }
  exists (pre ++ [u8 v]). split; [rewrite length_app; simpl; lia|]. split; [by rewrite fill_snoc|].
  rewrite <- app_assoc. split; [by rewrite Z.add_assoc|done].
Qed.

Lemma fill_held bs p m : holds m p bs -> fill p bs m = m.
Proof.
  intros H. apply map_eq. intros a. rewrite lookup_fill. destruct (decide _) as [Hd|]; [|done].
  destruct (lookup_lt_is_Some_2 bs (Z.to_nat (a - p))) as [b Hb]; [lia|]. rewrite Hb. symmetry.
  apply H in Hb. by replace (p + Z.of_nat (Z.to_nat (a - p))) with a in Hb by lia.
Qed.

Lemma copied_end s dest i rest all' s1 :
  copied s dest i rest rest all' s1 -> s1 = set_um (fill dest all' (um s)) s.
Proof.
  intros (pre & <- & -> & Hr & ->). f_equal. rewrite fill_app. symmetry. apply fill_held.
  intros j b Hj. rewrite lookup_fill, decide_False by lia. by apply Hr.
Qed.

Lemma copied_read s dest i rest rest' all' s1 a :
  copied s dest i rest rest' all' s1 -> ~ (dest <= a < dest + i) -> um s1 !! a = um s !! a.
Proof. intros (pre & <- & -> & _ & _) Ha. simpl. by rewrite lookup_fill, decide_False. Qed.

Section Copies.
Variable s : uproc.

Lemma memset_agree p c ds n ds' :
  holds (um s) p ds -> 0 <= n < 2147483648 -> Memory.memset ds c n = Ok ds' ->
  memset p c n s = Ok (p, set_um (fill p ds' (um s)) s).
Proof.
  intros H Hn Hr. apply wp_eq, wp_bind.
  assert (Hle : (Z.to_nat n <= length ds)%nat).
  { unfold Memory.memset in Hr. clear Hn. revert Hr. generalize (Z.to_nat n) as k. intros k.
    assert (G : forall k i ds, Memory.memset_loop k i c ds = Ok ds' -> (k <= length ds - i)%nat).
    { clear. induction k as [|k IH]; intros i ds Hr; simpl in Hr; [lia|]. case_decide; [|done].
      apply IH in Hr. rewrite length_insert in Hr. lia. }
    intros Hr. apply G in Hr. lia. }
  rewrite Memory.memset_ok in Hr by lia. injection Hr as <-.
  apply (wp_loop_idx (fun k i s1 => 0 <= i /\ i + Z.of_nat k = n /\ copied s p i (drop (Z.to_nat i) ds)
    (replicate k (u8 c) ++ drop (Z.to_nat n) ds) (replicate (Z.to_nat n) (u8 c) ++ drop (Z.to_nat n) ds) s1)
    _ (Z.to_nat n)); [|lia|].
  { split; [done|]. split; [lia|]. by apply copied_start. }
  intros k i s1 (Hi & Hk & Hc). rewrite u32_small by lia. destruct (Z.ltb_spec i n).
  - destruct k as [|k]; [lia|]. destruct (lookup_lt_is_Some_2 ds (Z.to_nat i)) as [d Hd]; [lia|].
    rewrite (drop_S _ _ _ Hd) in Hc. apply wp_bind. eapply wp_mono; [eapply copied_step; exact Hc|].
    intros [] s2 Hc2. apply wp_ret. exists k. split; [lia|]. split; [lia|]. split; [lia|].
    by replace (Z.to_nat (i + 1)) with (S (Z.to_nat i)) by lia.
  - replace k with O in Hc by lia. replace i with n in Hc by lia. apply wp_ret, wp_ret. split; [done|].
    by eapply copied_end.
Qed.

Lemma memcpy_agree dest src ds bs n ds' :
  holds (um s) dest ds -> holds (um s) src bs -> Forall byte bs ->
  apart dest (length ds) src (length bs) -> 0 <= n < 4294967296 ->
  Memory.memcpy ds bs n = Ok ds' -> memcpy dest src n s = Ok (dest, set_um (fill dest ds' (um s)) s).
Proof.
  intros Hd Hs Hb Ha Hn Hr. apply wp_eq, wp_bind. unfold apart in Ha.
  apply (wp_loop_idx (fun k '(n', d, q) s1 => n' = Z.of_nat k /\ exists i ds1 bs1 ds1', 0 <= i /\ d = dest + i /\
    q = src + i /\ i + Z.of_nat (length ds1) = Z.of_nat (length ds) /\
    i + Z.of_nat (length bs1) = Z.of_nat (length bs) /\ holds (um s) q bs1 /\ Forall byte bs1 /\
    Memory.memcpy_loop k ds1 bs1 = Ok ds1' /\ copied s dest i ds1 ds1' ds' s1) _ (Z.to_nat n)); [|lia|].
  { split; [lia|]. exists 0, ds, bs, ds'. rewrite !Z.add_0_r. split_and!; auto using copied_start with lia. }
  clear Hb Hs Hd Hr. intros k [[n' d] q] s1 (-> & i & ds1 & bs1 & ds1' & Hi & -> & -> & Hl1 & Hl2 & Hs & Hb & Hr & Hc).
  destruct k as [|k].
  { apply wp_ret, wp_ret. split; [done|]. injection Hr as ->. by eapply copied_end. }
  rewrite (proj2 (Z.eqb_neq _ _)) by lia. cbn [negb].
  destruct ds1 as [|d ds1]; [done|]. destruct bs1 as [|b bs1]; [done|]. cbn [Memory.memcpy_loop] in Hr.
  cbn [length] in Hl1, Hl2.
  destruct (Memory.memcpy_loop k ds1 bs1) as [r| | |] eqn:Er; try done. injection Hr as <-.
  apply holds_cons in Hs as [Hs0 Hs]. apply Forall_cons_1 in Hb as [Hb0 Hb].
  apply wp_bind. eapply wp_get_byte.
  { rewrite (copied_read _ _ _ _ _ _ _ _ Hc) by lia. exact Hs0. }
  apply wp_bind. eapply wp_mono.
  { eapply copied_step. by rewrite u8_small. }
  intros [] s2 Hc2. apply wp_ret. exists k. split; [lia|]. split; [lia|].
  exists (i + 1), ds1, bs1, r. split_and!; try lia; try done; by rewrite Z.add_assoc.
Qed.

(** The terminating store of the string copies. *)
Lemma copied_nul dest i ds1 ds1' ds' s1 :
  copied s dest i ds1 ds1' ds' s1 -> CString.write_nul ds1 = Ok ds1' ->
  wp (store (dest + i) 0) s1 (fun _ s2 => s2 = set_um (fill dest ds' (um s)) s).
Proof.
  intros Hc Hr. destruct ds1 as [|d ds1]; [done|]. injection Hr as <-.
  eapply wp_mono; [eapply (copied_step _ _ _ _ _ 0); exact Hc|]. intros [] s2 Hc2. by eapply copied_end.
Qed.

Lemma strncpy_agree dest src ds bs n ds' :
  holds (um s) dest ds -> holds (um s) src bs -> Forall byte bs ->
  apart dest (length ds) src (length bs) -> 0 <= n < 2147483648 ->
  CString.strncpy ds bs n = Ok ds' -> strncpy dest src n s = Ok (dest, set_um (fill dest ds' (um s)) s).
Proof.
  intros Hd Hs Hb Ha Hn Hr. apply wp_eq, wp_bind. unfold apart in Ha.
  apply (wp_loop_idx (fun k i s1 => 0 <= i /\ i + Z.of_nat k = n /\ exists ds1 bs1 ds1',
    i + Z.of_nat (length ds1) = Z.of_nat (length ds) /\
    i + Z.of_nat (length bs1) = Z.of_nat (length bs) /\ holds (um s) (src + i) bs1 /\ Forall byte bs1 /\
    CString.strncpy_loop k ds1 bs1 = Ok ds1' /\ copied s dest i ds1 ds1' ds' s1) _ (Z.to_nat n)); [|lia|].
  { split; [lia|]. split; [lia|]. exists ds, bs, ds'. rewrite !Z.add_0_r. split_and!; auto using copied_start with lia. }
  clear Hb Hs Hd Hr. intros k i s1 (Hi & Hk & ds1 & bs1 & ds1' & Hl1 & Hl2 & Hs & Hb & Hr & Hc).
  rewrite u32_small by lia. destruct (Z.ltb_spec i n) as [Hlt|Hge]; destruct k as [|k]; try lia.
  2: { apply wp_ret, wp_bind. eapply wp_mono; [by eapply copied_nul|]. done. }
  destruct bs1 as [|b bs1]; [done|]. cbn [CString.strncpy_loop length] in *.
  apply holds_cons in Hs as [Hs0 Hs]. apply Forall_cons_1 in Hb as [Hb0 Hb].
  apply wp_bind. eapply wp_load_char.
  { destruct ds1; (rewrite (copied_read _ _ _ _ _ _ _ _ Hc); [exact Hs0|simpl in *; lia]). }
  rewrite byte_s8_eqb by done. destruct (b =? 0).
  { apply wp_ret, wp_bind. eapply wp_mono; [by eapply copied_nul|]. done. }
  destruct ds1 as [|d ds1]; [done|]. cbn [length] in *.
  destruct (CString.strncpy_loop k ds1 bs1) as [r| | |] eqn:Er; try done. injection Hr as <-.
  apply wp_bind. eapply wp_mono.
  { eapply copied_step. by rewrite u8_s8. }
  intros [] s2 Hc2. apply wp_ret. exists k. split; [lia|]. split; [lia|]. split; [lia|].
  exists ds1, bs1, r. split_and!; try lia; try done; by rewrite Z.add_assoc.
Qed.

Lemma strcpy_agree dest src ds bs ds' :
  holds (um s) dest ds -> holds (um s) src bs -> Forall byte bs ->
  apart dest (length ds) src (length bs) -> Z.of_nat (length bs) < 4294967296 ->
  CString.strcpy ds bs = Ok ds' -> strcpy dest src s = Ok (dest, set_um (fill dest ds' (um s)) s).
Proof.
  intros Hd Hs Hb Ha Hn Hr. apply wp_eq, wp_bind. unfold apart in Ha.
  apply (wp_loop_idx (fun k '(q, d) s1 => exists i ds1 bs1 ds1', 0 <= i /\ q = src + i /\ d = dest + i /\
    length bs1 = k /\ i + Z.of_nat (length ds1) = Z.of_nat (length ds) /\
    i + Z.of_nat (length bs1) = Z.of_nat (length bs) /\ holds (um s) (src + i) bs1 /\ Forall byte bs1 /\
    CString.strcpy ds1 bs1 = Ok ds1' /\ copied s dest i ds1 ds1' ds' s1) _ (length bs)); [|lia|].
  { exists 0, ds, bs, ds'. rewrite !Z.add_0_r. split_and!; auto using copied_start with lia. }
  clear Hb Hs Hd Hr. intros k [q d] s1 (i & ds1 & bs1 & ds1' & Hi & -> & -> & <- & Hl1 & Hl2 & Hs & Hb & Hr & Hc).
  destruct ds1 as [|d ds1], bs1 as [|b bs1]; cbn [CString.strcpy length] in *; try done;
    [by destruct (negb (b =? 0))|].
  apply holds_cons in Hs as [Hs0 Hs]. apply Forall_cons_1 in Hb as [Hb0 Hb].
  apply wp_bind. eapply wp_load_char.
  { rewrite (copied_read _ _ _ _ _ _ _ _ Hc) by lia. exact Hs0. }
  rewrite byte_s8_eqb by done. destruct (b =? 0); cbn [negb] in *.
  { apply wp_ret, wp_bind. eapply wp_mono; [by eapply copied_nul|]. done. }
  destruct (CString.strcpy ds1 bs1) as [r| | |] eqn:Er; try done. injection Hr as <-.
  apply wp_bind. eapply wp_mono.
  { eapply copied_step. by rewrite u8_s8. }
  intros [] s2 Hc2. apply wp_ret. exists (length bs1). split; [lia|].
  exists (i + 1), ds1, bs1, r. split_and!; try lia; try done; by rewrite Z.add_assoc.
Qed.

End Copies.

(** ** Strings *)

Lemma char_byte_byte t : Forall CString.char_byte t -> Forall byte (t ++ [0]).
Proof.
  intros H. apply Forall_app. split; [|by repeat constructor].
  eapply Forall_impl; [exact H|]. unfold CString.char_byte, byte. lia.
Qed.

Lemma string_cstring t : Forall CString.char_byte t -> CString.cstring (t ++ [0]) t.
Proof. intros H. split; [by apply CString.char_byte_nonzero|]. by exists []. Qed.

Lemma wp_strlen p t (s : uproc) (Q : Z -> uproc -> Prop) :
  string_at (um s) p t -> Z.of_nat (length t) < 2147483648 ->
  Q (Z.of_nat (length t)) s -> wp (strlen p) s Q.
Proof.
  intros [Ht H] Hl HQ. unfold wp.
  rewrite (strlen_agree s p (t ++ [0]) (Z.of_nat (length t))); [done|done|by apply char_byte_byte| |].
  - rewrite length_app. simpl. lia.
  - by apply CString.strlen_cstring, string_cstring.
Qed.

(** A mapped area holds some bytes. *)
Lemma mapped_holds m p n : mapped m p n -> exists bs, length bs = n /\ holds m p bs.
Proof.
  induction n as [|n IH]; intros H.
  - exists []. split; [done|]. by intros i b Hi.
  - destruct IH as (bs & Hl & Hb); [intros i Hi; apply H; lia|].
    destruct (H n) as [b Hn]; [lia|]. exists (bs ++ [b]). split; [rewrite length_app; simpl; lia|].
    apply holds_app. split; [done|]. apply holds_cons. rewrite Hl. split; [done|]. by intros i c Hi.
Qed.

(** [strncpy] writes the characters it copies and a terminator. *)
Lemma wp_strncpy dest src t n (s : uproc) (Q : Z -> uproc -> Prop) :
  string_at (um s) src t -> 0 <= n < 2147483648 -> let w := take (Z.to_nat n) t in
  mapped (um s) dest (S (length w)) -> apart dest (S (length w)) src (S (length t)) ->
  Q dest (set_um (fill dest (w ++ [0]) (um s)) s) -> wp (strncpy dest src n) s Q.
Proof.
  intros [Ht H] Hn w Hm Ha HQ. destruct (mapped_holds _ _ _ Hm) as (ds & Hl & Hd).
  assert (Hw : length w = (Z.to_nat n `min` length t)%nat) by (subst w; by rewrite length_take).
  unfold wp. rewrite (strncpy_agree s dest src ds (t ++ [0]) n (w ++ [0])); [done|done|done| | |done|].
  - by apply char_byte_byte.
  - rewrite Hl, length_app. simpl. by rewrite Nat.add_1_r.
  - rewrite (CString.strncpy_cstring ds (t ++ [0]) t n) by (done || lia || by apply string_cstring).
    fold w. by rewrite drop_ge by lia.
Qed.

Lemma wp_memset p c n (s : uproc) (Q : Z -> uproc -> Prop) :
  0 <= n < 2147483648 -> mapped (um s) p (Z.to_nat n) ->
  Q p (set_um (fill p (replicate (Z.to_nat n) (u8 c)) (um s)) s) -> wp (memset p c n) s Q.
Proof.
  intros Hn Hm HQ. destruct (mapped_holds _ _ _ Hm) as (ds & Hl & Hd). unfold wp.
  rewrite (memset_agree s p c ds n (replicate (Z.to_nat n) (u8 c))); [done|done|done|].
  rewrite Memory.memset_ok by lia. by rewrite drop_ge, app_nil_r by lia.
Qed.

(** ** Tokens *)

(** The text up to the first delimiter, and what follows the delimiter. *)
Fixpoint next_word (delim : Z) (t : list Z) : list Z * option (list Z) :=
  match t with
  | [] => ([], None)
  | c :: t' =>
      if s8 c =? delim then ([], Some t')
      else let '(w, r) := next_word delim t' in (c :: w, r)
  end.

(** The pieces between the delimiters: one more than there are delimiters. *)
Fixpoint split (delim : Z) (t : list Z) : list (list Z) :=
  match t with
  | [] => [[]]
  | c :: t' =>
      if s8 c =? delim then [] :: split delim t'
      else match split delim t' with
           | w :: ws => (c :: w) :: ws
           | [] => [[c]]
           end
  end.

Lemma split_next_word delim t :
  split delim t = (next_word delim t).1 ::
    match (next_word delim t).2 with Some t' => split delim t' | None => [] end.
Proof.
  induction t as [|c t IH]; [done|]. cbn [split next_word]. destruct (s8 c =? delim); [done|].
  rewrite IH. by destruct (next_word delim t) as [w r].
Qed.

(** How the text is made of the word and the rest. *)
Lemma next_word_app delim t w r : next_word delim t = (w, r) ->
  Forall (fun c => s8 c <> delim) w /\
  match r with
  | Some t' => exists c, s8 c = delim /\ t = w ++ c :: t'
  | None => t = w
  end.
Proof.
  revert w. induction t as [|c t IH]; intros w H; cbn [next_word] in H.
  { injection H as <- <-. done. }
  destruct (Z.eqb_spec (s8 c) delim) as [E|E].
  { injection H as <- <-. split; [done|]. by exists c. }
  destruct (next_word delim t) as [w' r'] eqn:Ew. injection H as <- <-.
  destruct (IH w' eq_refl) as [Hw Hr]. split; [by constructor|].
  destruct r' as [t'|]; [|by rewrite Hr]. destruct Hr as (d & Hd & ->). by exists d.
Qed.

Lemma next_word_length delim t : (length (next_word delim t).1 <= length t)%nat.
Proof.
  destruct (next_word delim t) as [w r] eqn:E. apply next_word_app in E as [_ Hr]. simpl.
  destruct r as [t'|]; [destruct Hr as (c & _ & ->)|rewrite Hr; done]. rewrite length_app. lia.
Qed.

(** Where the text [strtok] goes on with starts. *)
Definition token_rest (r : Z) (delim : Z) (t : list Z) : Z :=
  match (next_word delim t).2 with
  | Some _ => r + Z.of_nat (length (next_word delim t).1) + 1
  | None => 0
  end.

Lemma string_at_rest m r delim t t' :
  string_at m r t -> (next_word delim t).2 = Some t' -> string_at m (token_rest r delim t) t'.
Proof.
  unfold token_rest. destruct (next_word delim t) as [w [u|]] eqn:E; [|done]. intros Ht [= ->]. simpl.
  apply next_word_app in E as (_ & c & _ & ->). change (c :: t') with ([c] ++ t') in Ht.
  rewrite app_assoc in Ht. apply string_at_suffix in Ht. rewrite length_app in Ht. simpl in Ht.
  by replace (r + Z.of_nat (length w) + 1) with (r + Z.of_nat (length w + 1)) by lia.
Qed.

Section Strtok.
Context (delim out r : Z) (t : list Z) (s : uproc).
Hypothesis Hr : remainder s = r.
Hypothesis Ht : string_at (um s) r t.
Hypothesis Hl : Z.of_nat (length t) < 2147483648.
#[local] Abbreviation word := (next_word delim t).1.
Hypothesis Hm : mapped (um s) out (S (length word)).
Hypothesis Ha : apart out (S (length word)) r (S (length t)).

Definition token_state : uproc :=
  set_remainder (token_rest r delim t) (set_um (fill out (word ++ [0]) (um s)) s).

(** The scan, from the state in which [i] characters are copied. *)
Definition token_inv (n : nat) (i : Z) (s1 : uproc) : Prop :=
  exists pre post, t = pre ++ post /\ n = length post /\ i = Z.of_nat (length pre) /\
    Forall (fun c => s8 c <> delim) pre /\ s1 = set_um (fill out pre (um s)) s.

Lemma next_word_prefix pre post : Forall (fun c => s8 c <> delim) pre ->
  next_word delim (pre ++ post) = (pre ++ (next_word delim post).1, (next_word delim post).2).
Proof.
  intros H. induction H as [|c pre Hc H IH]; cbn [app next_word].
  - by destruct (next_word delim post).
  - rewrite (proj2 (Z.eqb_neq _ _) Hc), IH. done.
Qed.

(** The end of the word: its terminator and the new [remainder]. *)
Lemma token_stop pre s1 (rest : Z) : word = pre -> s1 = set_um (fill out pre (um s)) s ->
  rest = token_rest r delim t ->
  wp (_ ← store (out + Z.of_nat (length pre)) 0; _ ← modify (set_remainder rest); mret (inr out)) s1
    (fun (x : Z + Z) s2 => x = inr out /\ s2 = token_state).
Proof.
  intros Hw -> ->. apply wp_bind, wp_put_byte.
  { simpl. rewrite lookup_fill, decide_False by lia. apply Hm. rewrite Hw. lia. }
  apply wp_bind, wp_modify, wp_ret. split; [done|]. unfold token_state. simpl. by rewrite Hw, fill_snoc.
Qed.

(** The byte at hand, which the copy has not touched. *)
Lemma token_read pre post s1 b (Q : Z -> uproc -> Prop) :
  t = pre ++ post -> (length pre <= length word)%nat -> s1 = set_um (fill out pre (um s)) s ->
  (post ++ [0]) !! 0%nat = Some b -> Q (s8 b) s1 -> wp (load_char (r + Z.of_nat (length pre))) s1 Q.
Proof.
  intros E Hp -> Hb HQ. eapply wp_load_char; [|exact HQ]. simpl. unfold apart in Ha.
  assert (length pre <= length t)%nat by (rewrite E, length_app; lia).
  rewrite lookup_fill, decide_False by lia. destruct Ht as [_ Ht0]. apply Ht0.
  rewrite E, <- app_assoc, lookup_app_r, Nat.sub_diag by lia. done.
Qed.

Lemma wp_strtok_scan :
  wp (loop_m (strtok_scan delim out) 0) s (fun x s2 => x = out /\ s2 = token_state).
Proof.
  apply (wp_loop_idx token_inv _ (length t)); [|lia|].
  { exists [], t. split_and!; try done. by destruct s. }
  intros n i s1 (pre & post & E & -> & -> & Hpre & Hs1). unfold strtok_scan. apply wp_bind, wp_gets.
  assert (Hr1 : remainder s1 = r) by (by rewrite Hs1). rewrite Hr1.
  pose proof (next_word_prefix pre post Hpre) as Hw. rewrite <- E in Hw.
  assert (Hc : Forall CString.char_byte post) by (destruct Ht as [Ht0 _]; rewrite E in Ht0; by apply Forall_app in Ht0 as [_ ?]).
  assert (Hpl : (length pre <= length word)%nat) by (rewrite Hw; simpl; rewrite length_app; lia).
  apply wp_bind. destruct post as [|c post].
  - eapply token_read; eauto. change (s8 0) with 0. change (0 =? 0) with true. cbn [negb].
    eapply wp_mono; [apply token_stop|]; [by rewrite Hw; simpl; rewrite app_nil_r|done| |by intros x s2 [-> ->]].
    unfold token_rest. by rewrite Hw.
  - eapply token_read; eauto. apply Forall_cons_1 in Hc as [Hc Hpost].
    rewrite byte_s8_eqb by (unfold byte, CString.char_byte in *; lia).
    rewrite (proj2 (Z.eqb_neq c 0)) by (unfold CString.char_byte in Hc; lia). cbn [negb].
    cbn [next_word] in Hw. destruct (Z.eqb_spec (s8 c) delim) as [Ed|Ed].
    + eapply wp_mono; [apply token_stop|]; [by rewrite Hw; simpl; rewrite app_nil_r|done| |by intros x s2 [-> ->]].
      unfold token_rest. rewrite Hw. simpl. rewrite app_nil_r. lia.
    + assert (Hlt : (length pre < length word)%nat).
      { rewrite Hw. destruct (next_word delim post). simpl. rewrite length_app. simpl. lia. }
      apply wp_bind, wp_put_byte.
      { rewrite Hs1. simpl. rewrite lookup_fill, decide_False by lia. apply Hm. lia. }
      apply wp_ret. exists (length post). split; [simpl; lia|]. exists (pre ++ [c]), post.
      rewrite <- app_assoc. split_and!; [done|done|rewrite length_app; simpl; lia| |].
      * apply Forall_app. by repeat constructor.
      * rewrite Hs1. simpl. rewrite u8_s8 by (unfold byte, CString.char_byte in *; lia).
        by rewrite fill_snoc.
Qed.

End Strtok.

(** One call of [strtok], a first one or one that goes on: the word is in [out],
    and [remainder] is where the next one starts. *)
Lemma wp_strtok str delim out r t z (s : uproc) (Q : Z -> uproc -> Prop) :
  r = (if str =? 0 then remainder s else str) -> r <> 0 ->
  string_at (um s) r t -> Z.of_nat (length t) < 2147483648 ->
  string_at (um s) str z -> Z.of_nat (length z) < 2147483648 ->
  mapped (um s) out (S (length (next_word delim t).1)) ->
  apart out (S (length (next_word delim t).1)) r (S (length t)) ->
  Q out (set_remainder (token_rest r delim t) (set_um (fill out ((next_word delim t).1 ++ [0]) (um s)) s)) ->
  wp (strtok str delim out) s Q.
Proof.
  intros Hr Hr0 Ht Hl Hz Hlz Hm Ha HQ. unfold strtok. apply wp_bind.
  assert (Hfirst : wp (if negb (str =? 0) then modify (set_remainder str) else mret tt) s
    (fun _ s1 => s1 = set_remainder r s)).
  { destruct (str =? 0); cbn [negb].
    - apply wp_ret. subst r. by destruct s.
    - apply wp_modify. by rewrite Hr. }
  eapply wp_mono; [exact Hfirst|]. intros [] s1 ->. apply wp_bind, wp_gets. simpl.
  rewrite (proj2 (Z.eqb_neq _ _) Hr0). apply wp_bind. eapply wp_strlen; [exact Hz|done|].
  eapply wp_mono; [by apply (wp_strtok_scan delim out r t)|]. intros x s2 [-> ->]. exact HQ.
Qed.

(** After the last word. *)
Lemma wp_strtok_done delim out (s : uproc) (Q : Z -> uproc -> Prop) :
  remainder s = 0 -> Q 0 s -> wp (strtok 0 delim out) s Q.
Proof.
  intros Hr HQ. unfold strtok. apply wp_bind. change (0 =? 0) with true. cbn [negb]. apply wp_ret.
  apply wp_bind, wp_gets. rewrite Hr. exact HQ.
Qed.

(** ** A text being split *)

(** The words still to come, in the text that lies in [[lo, hi)]. *)
Definition pending (m : gmap Z Z) (delim lo hi r : Z) (words : list (list Z)) : Prop :=
  (r = 0 /\ words = []) \/
  (exists t, string_at m r t /\ words = split delim t /\ 0 < lo <= r /\ r + Z.of_nat (length t) < hi).

Lemma pending_changed a n m m' delim lo hi r words :
  changed a n m m' -> apart a n lo (Z.to_nat (hi - lo)) -> pending m delim lo hi r words ->
  pending m' delim lo hi r words.
Proof.
  intros Hc Ha [?|(t & Ht & Hw & Hlo & Hhi)]; [by left|]. right. exists t. split; [|done].
  eapply string_at_changed; [exact Hc| |exact Ht]. unfold apart in *. lia.
Qed.

Lemma pending_fill m delim lo hi r words p bs :
  apart p (length bs) lo (Z.to_nat (hi - lo)) -> pending m delim lo hi r words ->
  pending (fill p bs m) delim lo hi r words.
Proof. apply pending_changed, changed_fill. Qed.

Lemma pending_next m delim lo hi r t out :
  string_at m r t -> 0 < lo <= r -> r + Z.of_nat (length t) < hi ->
  let w := (next_word delim t).1 in
  apart out (S (length w)) lo (Z.to_nat (hi - lo)) ->
  pending (fill out (w ++ [0]) m) delim lo hi (token_rest r delim t)
    (match (next_word delim t).2 with Some t' => split delim t' | None => [] end).
Proof.
  intros Ht Hlo Hhi w Ha. apply pending_fill.
  { rewrite length_app. simpl. by rewrite Nat.add_1_r. }
  destruct (next_word delim t).2 as [t'|] eqn:E.
  - right. exists t'. split; [by eapply string_at_rest|]. split; [done|]. unfold token_rest. rewrite E.
    destruct (next_word delim t) as [w' r'] eqn:En. simpl in E. subst r'.
    apply next_word_app in En as (_ & c & _ & ->). rewrite length_app in Hhi. simpl in *. lia.
  - left. unfold token_rest. by rewrite E.
Qed.

(** A call that goes on. *)
Lemma wp_strtok_next delim out lo hi w words z (s : uproc) (Q : Z -> uproc -> Prop) :
  pending (um s) delim lo hi (remainder s) (w :: words) -> hi - lo < 2147483648 ->
  string_at (um s) 0 z -> Z.of_nat (length z) < 2147483648 ->
  mapped (um s) out (S (length w)) -> apart out (S (length w)) lo (Z.to_nat (hi - lo)) ->
  (forall r', pending (fill out (w ++ [0]) (um s)) delim lo hi r' words ->
     Q out (set_remainder r' (set_um (fill out (w ++ [0]) (um s)) s))) ->
  wp (strtok 0 delim out) s Q.
Proof.
  intros [[_ ?]|(t & Ht & Hw & Hlo & Hhi)] Hb Hz Hlz Hm Ha HQ; [done|].
  rewrite split_next_word in Hw. injection Hw as -> ->.
  eapply (wp_strtok 0 delim out (remainder s) t z); try done; try lia.
  - unfold apart in *. lia.
  - apply HQ. by apply pending_next.
Qed.

(** The pieces are no longer than the text, and of its characters. *)
Definition word_of (t w : list Z) : Prop := (length w <= length t)%nat /\ Forall CString.char_byte w.

Lemma split_words delim t : Forall CString.char_byte t -> Forall (word_of t) (split delim t).
Proof.
  intros H. induction H as [|c t Hc H IH]; cbn [split]; [by repeat constructor|].
  assert (Forall (word_of (c :: t)) (split delim t)) as H'.
  { eapply Forall_impl; [exact IH|]. unfold word_of. simpl. intros w [??]. split; [lia|done]. }
  destruct (s8 c =? delim); [by constructor; [split; [simpl; lia|]|]|].
  rewrite split_next_word in *. apply Forall_cons_1 in IH as [[H1 H3] _]. apply Forall_cons_1 in H' as [_ H2].
  constructor; [|done]. split; [simpl in *; lia|by constructor].
Qed.

Lemma split_count delim t : (length (split delim t) <= S (length t))%nat.
Proof.
  induction t as [|c t IH]; [done|]. cbn [split]. destruct (s8 c =? delim); [simpl; lia|].
  rewrite split_next_word in *. simpl in *. lia.
Qed.

(** ** Theorems *)

(** The way [string.h] says [strtok] is used, and [test_strtok] of the test
    program uses it: the words one after the other, each read from [out]. *)
Definition tokenize (max : nat) (str delim out : Z) : U (list (list Z)) :=
  token ← strtok str delim out;
  loop_m (fun '(token, words) =>
    if negb (token =? 0) then
      w ← read_string max token;
      token ← strtok 0 delim out;
      mret (inl (token, words ++ [w]))
    else mret (inr words)) (token, []).

(** What the theorem below assumes of the memory. *)
Section Tokenize.
Context (s : uproc) (str delim out : Z) (max : nat) (t z : list Z).
Hypothesis Hstr : 0 < str.
Hypothesis Ht : string_at (um s) str t.
Hypothesis Hz : string_at (um s) 0 z.
Hypothesis Hout : mapped (um s) out max.
Hypothesis Hlen : (length t < max)%nat.
Hypothesis Hmax : Z.of_nat max < 2147483648.
Hypothesis Hzl : Z.of_nat (length z) < 2147483648.
Hypothesis Ha : apart out max str (S (length t)).
Hypothesis Ha0 : apart out max 0 (S (length z)).
#[local] Abbreviation hi := (str + Z.of_nat (S (length t))).

(** Memory that differs from the initial one in the output buffer only. *)
Definition only_out (m : gmap Z Z) : Prop :=
  (forall a, ~ (out <= a < out + Z.of_nat max) -> m !! a = um s !! a) /\ mapped m out max /\ string_at m 0 z.

Lemma only_out_fill w m : (length w < max)%nat -> only_out m -> only_out (fill out (w ++ [0]) m).
Proof.
  intros Hw (H1 & H2 & H3). split; [|split; [by apply mapped_fill|]].
  - intros a Hna. rewrite lookup_fill, length_app. simpl. rewrite decide_False by lia. auto.
  - apply string_at_fill_apart; [|done]. rewrite length_app. unfold apart in *. simpl. lia.
Qed.

(** Between two calls: [words] have been read; a word is in the buffer, or none
    is left. *)
Definition tok_inv (n : nat) (tw : Z * list (list Z)) (s1 : uproc) : Prop :=
  exists r m, s1 = set_remainder r (set_um m s) /\ only_out m /\
    ((tw = (0, split delim t) /\ r = 0) \/
     (tw.1 = out /\ exists w rest, string_at m out w /\ pending m delim str hi r rest /\
        split delim t = tw.2 ++ w :: rest /\ n = S (length rest))).

Lemma split_word words w rest : split delim t = words ++ w :: rest -> word_of t w.
Proof.
  intros E. destruct Ht as [Hc _]. apply (split_words delim) in Hc. rewrite E in Hc.
  apply Forall_app in Hc as [_ Hc]. by apply Forall_cons_1 in Hc as [? _].
Qed.

Lemma tok_word n words w rest m r : word_of t w -> only_out m ->
  pending (fill out (w ++ [0]) m) delim str hi r rest -> split delim t = words ++ w :: rest -> n = S (length rest) ->
  tok_inv n (out, words) (set_remainder r (set_um (fill out (w ++ [0]) m) s)).
Proof.
  intros [Hw Hc] Hm Hp E ->. exists r, (fill out (w ++ [0]) m). split; [done|].
  split; [apply only_out_fill; [lia|done]|]. right. split; [done|]. exists w, rest. auto using string_at_fill.
Qed.

Lemma tok_first : wp (strtok str delim out) s (fun token s1 => tok_inv (length (split delim t)) (token, []) s1).
Proof.
  pose proof (split_next_word delim t) as E. pose proof (split_word [] _ _ E) as [Hl Hc].
  eapply (wp_strtok str delim out str t t); try done; try lia.
  { by rewrite (proj2 (Z.eqb_neq str 0)) by lia. }
  { intros i Hi. apply Hout. lia. }
  { unfold apart in *. lia. }
  eapply tok_word; [by split|by split_and!| |exact E|by rewrite E].
  apply pending_next; try done; try lia. unfold apart in *. lia.
Qed.

Lemma tok_step n words s1 : tok_inv n (out, words) s1 ->
  wp (w ← read_string max out; token ← strtok 0 delim out;
      mret (inl (token, words ++ [w]) : Z * list (list Z) + list (list Z))) s1
    (fun r s2 => exists n' tw, r = inl tw /\ (n' < n)%nat /\ tok_inv n' tw s2).
Proof.
  intros (r & m & -> & Hm & [[[= Ho _] _]|(_ & w & rest & Hw & Hp & E & ->)]); [unfold apart in Ha0; lia|].
  destruct (split_word _ _ _ E) as [Hl _]. apply wp_bind. eapply wp_read_string; [exact Hw|].
  rewrite take_ge by lia. apply wp_bind. destruct rest as [|w' rest].
  - destruct Hp as [[-> _]|(t' & _ & Hbad & _)]; [|by rewrite split_next_word in Hbad].
    apply wp_strtok_done; [done|]. apply wp_ret. eexists 0%nat, _. split; [done|]. split; [lia|].
    exists 0, m. split; [done|]. split; [done|]. left. by rewrite E.
  - assert (E' : split delim t = (words ++ [w]) ++ w' :: rest) by (by rewrite <- app_assoc).
    pose proof (split_word _ _ _ E') as [Hl' Hc']. destruct Hm as (Hm1 & Hm2 & Hm3).
    eapply (wp_strtok_next delim out str hi w' rest z); simpl; try done; try lia.
    { intros i Hi. apply Hm2. lia. }
    { unfold apart in *. lia. }
    intros r' Hp'. apply wp_ret. eexists (S (length rest)), _. split; [done|]. split; [simpl; lia|].
    by eapply tok_word.
Qed.

End Tokenize.

(** C9 (equivalence): [strtok] splits.  Called as its header says, first with a
    string and then with the null pointer until it returns the null pointer, it
    delivers exactly the pieces between the delimiters, empty ones included, for
    every string and delimiter; nothing outside the output buffer is written, and
    the tokeniser is left ready for another string.  Every call after the first
    also reads the string at address 0, which must be readable. *)
Theorem strtok_split (s : uproc) (str delim out : Z) (max : nat) (t z : list Z)
    (Hstr : 0 < str) (Ht : string_at (um s) str t) (Hz : string_at (um s) 0 z)
    (Hout : mapped (um s) out max) (Hlen : (length t < max)%nat)
    (Hmax : Z.of_nat max < 2147483648) (Hzl : Z.of_nat (length z) < 2147483648)
    (Ha : apart out max str (S (length t))) (Ha0 : apart out max 0 (S (length z))) :
  exists m', tokenize max str delim out s = Ok (split delim t, set_remainder 0 (set_um m' s)) /\
    forall a, ~ (out <= a < out + Z.of_nat max) -> m' !! a = um s !! a.
Proof.
  assert (H : wp (tokenize max str delim out) s (fun ws s' => ws = split delim t /\ exists m',
    s' = set_remainder 0 (set_um m' s) /\ only_out s out max z m')).
  { apply wp_bind. eapply wp_mono; [by apply (tok_first s str delim out max t z)|]. intros token s1 H1.
    eapply (wp_loop_idx (tok_inv s str delim out max t z)); [exact H1|pose proof (split_count delim t); lia|].
    clear token s1 H1. intros n [token words] s1 H1.
    assert (Hcase : (token = 0 /\ words = split delim t /\ exists m', s1 = set_remainder 0 (set_um m' s) /\
      only_out s out max z m') \/ (token = out /\ out <> 0)).
    { destruct H1 as (r & m & -> & Hm & [[[= -> ->] ->]|[Hto _]]); [left; eauto|right].
      split; [exact Hto|]. unfold apart in Ha0. lia. }
    destruct Hcase as [(-> & -> & Hend)|[-> Hout0]].
    - by apply wp_ret.
    - rewrite (proj2 (Z.eqb_neq out 0)) by done. cbn [negb].
      eapply wp_mono; [by apply (tok_step s str delim out max t z)|]. intros r s2 (n' & tw & -> & ? & ?). eauto. }
  destruct (wp_run _ _ _ H) as (ws & s' & Hrun & -> & m' & -> & Hm' & _). by exists m'.
Qed.

(** A program with a text of two words and an empty one, an output buffer, and
    the bytes of the interrupt vectors at address 0. *)
Definition sample_text : list Z := [97; 98; 32; 32; 99].
Definition sample : uproc :=
  mk_uproc (fill 100 (sample_text ++ [0]) (fill 200 (replicate 16 7) (fill 0 [83; 255; 0; 240] ∅)))
    0 ∅ [] [] [] [].

Lemma sample_holds : string_at (um sample) 100 sample_text /\ string_at (um sample) 0 [83; 255] /\
  holds (um sample) 200 (replicate 16 7).
Proof.
  split_and!.
  - apply string_at_fill. repeat constructor.
  - apply string_at_fill_apart; [right; simpl; lia|]. apply string_at_fill_apart; [right; simpl; lia|].
    split; [repeat constructor|]. intros i b Hi. rewrite lookup_fill.
    pose proof (lookup_lt_Some _ _ _ Hi) as Hl. simpl in Hl. rewrite decide_True by (simpl; lia).
    rewrite Z.add_0_l, Z.sub_0_r, Nat2Z.id. by destruct i as [|[|[|i]]].
  - apply holds_fill_apart; [left; simpl; lia|]. apply holds_fill.
Qed.

Lemma strtok_split_witness : exists m',
  tokenize 16 100 32 200 sample = Ok ([[97; 98]; []; [99]], set_remainder 0 (set_um m' sample)).
Proof.
  destruct sample_holds as (H1 & H2 & H3). pose proof (holds_mapped _ _ _ H3) as H4.
  destruct (strtok_split sample 100 32 200 16 sample_text [83; 255]) as (m' & Hm & _);
    [lia|done|done|done|simpl; lia|lia|simpl; lia|right; simpl; lia|right; simpl; lia|].
  exists m'. exact Hm.
Defined.

(** C31 (equivalence): the library's functions are the kernel's.  On a program's
    memory that holds the objects [bs] at [p] and [cs], apart from it, at [q],
    each function that repeats one of the kernel's returns, whenever the kernel's
    stays within the objects, what the kernel's returns on them, and the copying
    ones leave the destination as the kernel's do and the rest of memory alone. *)
Theorem string_functions_agree (s : uproc) (p q : Z) (bs cs : list Z)
    (Hp : holds (um s) p bs) (Hq : holds (um s) q cs) (Hbs : Forall byte bs) (Hcs : Forall byte cs)
    (Ha : apart p (length bs) q (length cs)) (Hl : Z.of_nat (length bs) < 2147483648)
    (Hlc : Z.of_nat (length cs) < 2147483648) (n : Z) (Hn : 0 <= n < 2147483648) :
  (forall r, CString.strlen bs = Ok r -> strlen p s = Ok (r, s)) /\
  (forall r, CString.strnlen bs n = Ok r -> strnlen p n s = Ok (r, s)) /\
  (forall c r, CString.strnlen_terminator bs n c = Ok r -> strnlen_terminator p n c s = Ok (r, s)) /\
  (forall r, CString.strncmp bs cs n = Ok r -> strncmp p q n s = Ok (r, s)) /\
  (forall r, CString.strnicmp bs cs n = Ok r -> strnicmp p q n s = Ok (r, s)) /\
  (forall r, Memory.memcmp bs cs n = Ok r -> memcmp p q n s = Ok (r, s)) /\
  (forall c r, Memory.memset bs c n = Ok r -> memset p c n s = Ok (p, set_um (fill p r (um s)) s)) /\
  (forall r, Memory.memcpy bs cs n = Ok r -> memcpy p q n s = Ok (p, set_um (fill p r (um s)) s)) /\
  (forall r, CString.strncpy bs cs n = Ok r -> strncpy p q n s = Ok (p, set_um (fill p r (um s)) s)) /\
  (forall r, CString.strcpy bs cs = Ok r -> strcpy p q s = Ok (p, set_um (fill p r (um s)) s)).
Proof.
  split_and!; intros.
  - eapply strlen_agree; eauto with lia.
  - eapply strnlen_agree; eauto with lia.
  - eapply strnlen_terminator_agree; eauto with lia.
  - eapply strncmp_agree; eauto with lia.
  - eapply strnicmp_agree; eauto with lia.
  - eapply memcmp_agree; eauto with lia.
  - eapply memset_agree; eauto with lia.
  - eapply memcpy_agree; eauto with lia.
  - eapply strncpy_agree; eauto with lia.
  - eapply strcpy_agree; eauto with lia.
Qed.

Lemma string_functions_agree_witness :
  strlen 100 sample = Ok (5, sample) /\ strncmp 100 200 3 sample = Ok (90, sample) /\
  memcpy 100 200 2 sample = Ok (100, set_um (fill 100 [7; 7; 32; 32; 99; 0] (um sample)) sample).
Proof.
  destruct sample_holds as ([_ H1] & _ & H3).
  assert (HB : Forall byte (sample_text ++ [0]) /\ Forall byte (replicate 16 7)).
  { split; [|apply Forall_replicate]; repeat constructor; unfold byte; lia. }
  destruct HB as [HB1 HB2].
  pose proof (fun n => string_functions_agree sample 100 200 (sample_text ++ [0]) (replicate 16 7) H1 H3 HB1 HB2
    ltac:(left; simpl; lia) ltac:(simpl; lia) ltac:(simpl; lia) n) as A.
  split_and!.
  - by destruct (A 0 ltac:(lia)) as (A1 & _); apply A1.
  - by destruct (A 3 ltac:(lia)) as (_ & _ & _ & A4 & _); apply A4.
  - by destruct (A 2 ltac:(lia)) as (_ & _ & _ & _ & _ & _ & _ & A8 & _); apply A8.
Defined.

End UserString.
