(* ===== verification/UserIO.v ===== *)
(** * The user library's input and output

    [stdio.c], [coniferos.c] and the allocation wrappers of [stdlib.c] of
    [src/user_programs/stdlib/src/].  [printf] is proved against a formatter on
    texts, line input against a line editor. *)
From stdpp Require Import base gmap list numbers strings.
From S2P Require Import Prelude CString UserLib UserProc UserString.
#[local] Open Scope Z_scope.

Module UserIO.
Import UserProc UserString.

#[local] Abbreviation U := (M uproc).

(** ** [stdlib.c] *)

Definition malloc (size : Z) : U Z := coniferos_malloc size.

Definition free (ptr : Z) : U unit := coniferos_free ptr.

(** ** [coniferos.c] *)

Definition coniferos_get_key_blocking : U Z :=
  loop_m (fun key =>
    if key =? 0 then key ← coniferos_get_key; mret (inl key) else mret (inr key)) 0.

(** The function is declared to return an [int] and returns nothing. *)
Definition coniferos_terminal_readline (out max : Z) : U unit :=
  i ← loop_m (fun i =>
    if i <? max then
      k ← coniferos_get_key_blocking;
      let key := s8 k in
      if key =? 13 then mret (inr i)
      else
        _ ← coniferos_putchar key;
        if (key =? 8) && (i >=? 1) then
          _ ← store (out + (i - 1)) 0;
          mret (inl (i - 2 + 1))
        else
          _ ← store (out + i) key;
          mret (inl (i + 1))
    else mret (inr i)) 0;
  store (out + i) 0.

(** ** [stdio.c] *)

Definition putchar (character : Z) : U Z :=
  _ ← coniferos_putchar (s8 character);
  mret 0.

(** The next argument of a variadic function: a word of the caller's stack. *)
Definition va_arg (v1 : list Z) : U (Z * list Z) :=
  match v1 with
  | [] => fault
  | w :: v1' => mret (w, v1')
  end.

(** [str] is the address of the array in the case of [i]; its initialiser zeroes
    it.  The array of the same name outside is not used. *)
Definition printf (str fmt : Z) (v1 : list Z) : U Z :=
  loop_m (fun '(p, v1) =>
    c ← load_char p;
    if c =? 0 then mret (inr 0)
    else if negb (c =? 37) then
      _ ← putchar c;
      mret (inl (p + 1, v1))
    else
      let p := p + 1 in
      c ← load_char p;
      if c =? 105 then
        '(w, v1) ← va_arg v1;
        let ival := s32 w in
        _ ← memset str 0 12;
        _ ← on_buffer str 12 (UserLib.itoa ival);
        _ ← print str;
        mret (inl (p + 1, v1))
      else if c =? 115 then
        '(sval, v1) ← va_arg v1;
        _ ← print sval;
        mret (inl (p + 1, v1))
      else
        _ ← putchar c;
        mret (inl (p + 1, v1))) (fmt, v1).

(** ** The line editor *)

(** What a key does to the line: backspace removes a character, and is itself a
    character on an empty line. *)
Definition edit_char (k : Z) (l : list Z) : list Z :=
  if (s8 k =? 8) && bool_decide (l <> []) then removelast l else l ++ [u8 k].

(** The line after the keys up to the carriage return or the length [max], what
    was echoed, and the keys left. *)
Fixpoint edit (max : nat) (line keys : list Z) : option (list Z * list Z * list Z) :=
  if decide (max <= length line)%nat then Some (line, [], keys)
  else match keys with
       | [] => None
       | k :: keys' =>
           if k =? 0 then edit max line keys'
           else if s8 k =? 13 then Some (line, [], keys')
           else
             '(l, echo, rest) ← edit max (edit_char k line) keys';
             Some (l, u8 k :: echo, rest)
       end.

(** ** The formatter *)

Inductive arg : Type := AInt (n : Z) | AStr (t : list Z).

(** [None]: the format asks for an argument that is not there, or ends in a
    percent sign. *)
Fixpoint format (fmt : list Z) (args : list arg) : option (list Z) :=
  match fmt with
  | [] => Some []
  | c :: fmt' =>
      if c =? 37 then
        match fmt' with
        | [] => None
        | d :: fmt2 =>
            if d =? 105 then
              match args with
              | AInt n :: args' => app (UserLib.decimal n) <$> format fmt2 args'
              | _ => None
              end
            else if d =? 115 then
              match args with
              | AStr t :: args' => app (take 1024 t) <$> format fmt2 args'
              | _ => None
              end
            else cons d <$> format fmt2 args
        end
      else cons c <$> format fmt' args
  end.

(** ** Lemmas: input *)

Lemma wp_get_key_blocking k keys pre (s : uproc) (Q : Z -> uproc -> Prop) :
  typed s = pre ++ k :: keys -> Forall (eq 0) pre -> k <> 0 -> Z.of_nat (length pre) < 2147483648 ->
  Q k (set_typed keys s) -> wp coniferos_get_key_blocking s Q.
Proof.
  intros Ht Hpre Hk Hl HQ. unfold coniferos_get_key_blocking.
  apply (wp_loop_idx (fun n key s1 => (key = k /\ s1 = set_typed keys s) \/
    (key = 0 /\ exists pre, Forall (eq 0) pre /\ n = S (length pre) /\ s1 = set_typed (pre ++ k :: keys) s))
    _ (S (length pre))); [|lia|].
  { right. split; [done|]. exists pre. split_and!; try done. rewrite <- Ht. by destruct s. }
  intros n key s1 [[-> ->]|(-> & pre' & Hp & -> & ->)].
  - rewrite (proj2 (Z.eqb_neq _ _) Hk). by apply wp_ret.
  - change (0 =? 0) with true. cbv iota. apply wp_bind. unfold wp at 1, coniferos_get_key. simpl.
    destruct pre' as [|x pre']; simpl; apply wp_ret.
    + exists 0%nat. split; [lia|]. by left.
    + apply Forall_cons_1 in Hp as [<- Hp]. exists (S (length pre')). split; [lia|]. right. eauto 10.
Qed.

(** The next key that is one. *)
Lemma edit_next max line keys r :
  edit max line keys = Some r -> (length line < max)%nat ->
  exists pre k keys', keys = pre ++ k :: keys' /\ Forall (eq 0) pre /\ k <> 0 /\
    edit max line (k :: keys') = Some r.
Proof.
  intros He Hl. induction keys as [|k keys IH].
  { simpl in He. by rewrite decide_False in He by lia. }
  destruct (Z.eqb_spec k 0) as [->|Hk].
  - cbn [edit] in He. rewrite decide_False in He by lia. change (0 =? 0) with true in He. cbv iota in He.
    destruct (IH He) as (pre & k & keys' & -> & Hp & Hk & He'). exists (0 :: pre), k, keys'. auto.
  - exists [], k, keys. auto.
Qed.

Lemma u8_s8_any k : u8 (s8 k) = u8 k.
Proof. unfold u8, s8. zlia. Qed.

Section Readline.
Context (s : uproc) (out max : Z) (room : nat) (line echo rest : list Z).
Hypothesis Hkeys : Z.of_nat (length (typed s)) < 2147483648.
Hypothesis Hroom : max <= Z.of_nat room.
Hypothesis Hend : (length line < room)%nat.
Hypothesis Hout : mapped (um s) out room.

(** Memory that differs from the initial one in the buffer only, which starts
    with [l]. *)
Definition line_at (l : list Z) (m : gmap Z Z) : Prop :=
  holds m out l /\ mapped m out room /\
  forall a, ~ (out <= a < out + Z.of_nat room) -> m !! a = um s !! a.

Definition typing (m : gmap Z Z) (keys done : list Z) : uproc :=
  set_shown (shown s ++ done) (set_typed keys (set_um m s)).

Lemma wp_line_store l l' m keys done i c (Q : unit -> uproc -> Prop) :
  line_at l m -> 0 <= i < Z.of_nat room ->
  holds (<[out + i := u8 c]> m) out l' ->
  (forall m', line_at l' m' -> Q tt (typing m' keys done)) ->
  wp (store (out + i) c) (typing m keys done) Q.
Proof.
  intros (Hh & Hm & Hf) Hi Hh' HQ. assert (Hio : is_Some (m !! (out + i))).
  { pose proof (Hm (Z.to_nat i) ltac:(lia)) as H. by rewrite Z2Nat.id in H by lia. }
  apply wp_put_byte; [done|].
  change (Q tt (typing (<[out + i := u8 c]> m) keys done)). apply HQ. split; [done|]. split.
  - intros j Hj. destruct (decide (Z.of_nat j = i)) as [<-|Hne].
    + rewrite lookup_insert_eq. done.
    + rewrite lookup_insert_ne by lia. by apply Hm.
  - intros a Ha. rewrite lookup_insert_ne by lia. by apply Hf.
Qed.

Definition edit_inv (n : nat) (i : Z) (s1 : uproc) : Prop :=
  exists l m keys done echo1, i = Z.of_nat (length l) /\ (length l <= Z.to_nat max)%nat /\ n = length keys /\
    (length keys <= length (typed s))%nat /\
    line_at l m /\ s1 = typing m keys done /\ edit (Z.to_nat max) l keys = Some (line, echo1, rest) /\
    echo = done ++ echo1.

Lemma holds_snoc m p l c : holds m p l -> m !! (p + Z.of_nat (length l)) = Some c -> holds m p (l ++ [c]).
Proof. intros H Hc. apply holds_app. split; [done|]. intros [|i] b Hi; [|done]. injection Hi as <-. by rewrite Z.add_0_r. Qed.

Lemma holds_insert_out m p l a c : holds m p l -> p + Z.of_nat (length l) <= a -> holds (<[a := c]> m) p l.
Proof.
  intros H Ha i b Hi. pose proof (lookup_lt_Some _ _ _ Hi). rewrite lookup_insert_ne by lia. by apply H.
Qed.

Lemma wp_readline_char k l m keys done : line_at l m -> Z.of_nat (length l) < max ->
  let i := Z.of_nat (length l) in
  wp (if (s8 k =? 8) && (i >=? 1) then
        _ ← store (out + (i - 1)) 0;
        mret (inl (i - 2 + 1))
      else
        _ ← store (out + i) (s8 k);
        mret (inl (i + 1))) (typing m keys done)
    (fun (r : Z + Z) s2 => r = inl (Z.of_nat (length (edit_char k l))) /\
       exists m', line_at (edit_char k l) m' /\ s2 = typing m' keys done).
Proof.
  intros Hm Hlt i. unfold edit_char.
  assert (Hsnoc : wp (_ ← store (out + i) (s8 k); mret (inl (i + 1))) (typing m keys done)
    (fun (r : Z + Z) s2 => r = inl (Z.of_nat (length (l ++ [u8 k]))) /\
       exists m', line_at (l ++ [u8 k]) m' /\ s2 = typing m' keys done)).
  { subst i. apply wp_bind. eapply wp_line_store; [exact Hm|lia| |].
    { apply holds_snoc; [apply holds_insert_out; [apply Hm|lia]|]. rewrite lookup_insert_eq. by rewrite u8_s8_any. }
    intros m' Hm'. apply wp_ret. split; [|eauto]. rewrite length_app. simpl. f_equal. lia. }
  destruct (s8 k =? 8); cbn [andb]; [|exact Hsnoc].
  destruct l as [|x l _] using rev_ind.
  - rewrite bool_decide_false by (by intros []). exact Hsnoc.
  - subst i. rewrite length_app in *. cbn [length] in *.
    assert ((Z.of_nat (length l + 1) >=? 1) = true) as -> by (rewrite Z.geb_leb; apply Z.leb_le; lia).
    rewrite bool_decide_true, removelast_last by (by destruct l).
    apply wp_bind. eapply (wp_line_store _ l); [exact Hm|lia| |].
    { apply holds_insert_out; [|lia]. destruct Hm as [Hh _]. by apply holds_app in Hh as [? _]. }
    intros m' Hm'. apply wp_ret. split; [f_equal; lia|eauto].
Qed.

Lemma edit_char_length k l : (length (edit_char k l) <= S (length l))%nat.
Proof.
  unfold edit_char. destruct (_ && _); [|rewrite length_app; simpl; lia].
  destruct l as [|x l _] using rev_ind; [simpl; lia|]. rewrite removelast_last, length_app. simpl. lia.
Qed.

(** One key. *)
Lemma wp_readline_key n i s1 : edit_inv n i s1 ->
  wp (if i <? max then
      k ← coniferos_get_key_blocking;
      let key := s8 k in
      if key =? 13 then mret (inr i)
      else
        _ ← coniferos_putchar key;
        if (key =? 8) && (i >=? 1) then
          _ ← store (out + (i - 1)) 0;
          mret (inl (i - 2 + 1))
        else
          _ ← store (out + i) key;
          mret (inl (i + 1))
    else mret (inr i)) s1 (fun r s2 => match r with
      | inl i' => exists n', (n' < n)%nat /\ edit_inv n' i' s2
      | inr i' => i' = Z.of_nat (length line) /\ (length line <= Z.to_nat max)%nat /\
                  exists m, line_at line m /\ s2 = typing m rest echo
      end).
Proof.
  intros (l & m & keys & done & echo1 & -> & Hl & -> & Hk & Hm & -> & He & ->).
  destruct (Z.ltb_spec (Z.of_nat (length l)) max) as [Hlt|Hge].
  2: {
    apply wp_ret. destruct keys; cbn [edit] in He; rewrite decide_True in He by lia;
      injection He as -> <- <-; rewrite app_nil_r; split_and!; eauto.
  }
  destruct (edit_next _ _ _ _ He ltac:(lia)) as (pre & k & keys' & -> & Hp & Hk0 & He'). rewrite length_app in Hk.
  simpl in Hk. apply wp_bind. eapply (wp_get_key_blocking k keys' pre); try done; [lia|].
  cbn [edit] in He'. rewrite decide_False in He' by lia. rewrite (proj2 (Z.eqb_neq _ _) Hk0) in He'.
  cbv zeta. destruct (s8 k =? 13).
  { injection He' as -> <- <-. rewrite app_nil_r. apply wp_ret. split_and!; eauto. }
  apply wp_bind, wp_modify. rewrite u8_s8_any.
  destruct (edit (Z.to_nat max) _ keys') as [[[l2 echo2] rest2]|] eqn:E2; [|done].
  injection He' as -> <- ->.
  assert (Hst : set_shown (shown (set_typed keys' (typing m (pre ++ k :: keys') done)) ++ [u8 k])
    (set_typed keys' (typing m (pre ++ k :: keys') done)) = typing m keys' (done ++ [u8 k])).
  { unfold typing. simpl. by rewrite <- app_assoc. }
  rewrite Hst. clear Hst.
  eapply wp_mono; [by apply wp_readline_char|]. intros r s2 (-> & m' & Hm' & ->).
  pose proof (edit_char_length k l). exists (length keys'). split; [rewrite length_app; simpl; lia|].
  exists (edit_char k l), m', keys', (done ++ [u8 k]), echo2.
  split_and!; try reflexivity; try assumption; [lia|lia|by rewrite <- app_assoc].
Qed.

(** The whole line. *)
Lemma wp_readline : edit (Z.to_nat max) [] (typed s) = Some (line, echo, rest) ->
  wp (coniferos_terminal_readline out max) s (fun _ s' => exists m,
    line_at (line ++ [0]) m /\ s' = typing m rest echo).
Proof.
  intros He. apply wp_bind. eapply wp_mono.
  { apply (wp_loop_idx edit_inv _ (length (typed s)) 0 s _); [|lia|apply wp_readline_key].
    exists [], (um s), (typed s), [], echo. split_and!; try done; try (simpl; lia).
    unfold typing. rewrite app_nil_r. by destruct s. }
  intros i s1 (-> & Hl & m & Hm & ->). eapply (wp_line_store _ (line ++ [0])); [exact Hm|lia| |eauto].
  apply holds_snoc; [apply holds_insert_out; [apply Hm|lia]|]. by rewrite lookup_insert_eq.
Qed.

End Readline.

(** ** Lemmas: output *)

Lemma wp_print p t (s : uproc) (Q : unit -> uproc -> Prop) :
  string_at (um s) p t -> Q tt (set_shown (shown s ++ take 1024 t) s) -> wp (print p) s Q.
Proof.
  intros Ht HQ. apply wp_bind. eapply wp_read_string; [exact Ht|]. by apply wp_modify.
Qed.

(** The text of a number in a zeroed array. *)
Lemma decimal_chars num : -2147483648 < num < 2147483648 ->
  Forall CString.char_byte (UserLib.decimal num) /\ (length (UserLib.decimal num) <= 11)%nat.
Proof.
  intros Hn. destruct (decide (num = 0)) as [->|H0].
  { split; [|simpl; lia]. by repeat constructor. }
  destruct (UserLib.itoa_run num (replicate 12 0)) as [_ H]; [simpl; lia|lia|].
  destruct (H H0) as (ds & _ & -> & Hd & Hl & _).
  assert (Forall CString.char_byte ds).
  { eapply Forall_impl; [exact Hd|]. unfold UserLib.digit, CString.char_byte. lia. }
  destruct (num <? 0); simpl; (split; [|lia]); [constructor|]; done.
Qed.

Lemma wp_itoa_zeroed num (Q : unit -> list Z -> Prop) : -2147483648 < num < 2147483648 ->
  (forall pad, length (UserLib.decimal num ++ 0 :: pad) = 12%nat -> Q tt (UserLib.decimal num ++ 0 :: pad)) ->
  wp (UserLib.itoa num) (replicate 12 0) Q.
Proof.
  intros Hn HQ. destruct (decimal_chars num Hn) as [_ Hl].
  destruct (UserLib.itoa_run num (replicate 12 0)) as [Hz Hnz]; [simpl; lia|lia|].
  unfold wp. destruct (decide (num = 0)) as [->|H0].
  - rewrite (Hz eq_refl). by apply (HQ (replicate 9 0)).
  - destruct (Hnz H0) as (ds & -> & _). apply HQ. rewrite length_app. cbn [length].
    rewrite length_drop, length_replicate. lia.
Qed.

Section Printf.
Context (s : uproc) (str : Z).

(** The word that passes an argument: its strings are apart from the array. *)
Definition arg_word (m : gmap Z Z) (w : Z) (a : arg) : Prop :=
  match a with
  | AInt n => s32 w = n /\ n <> -2147483648
  | AStr t => string_at m w t /\ apart str 12 w (S (length t))
  end.

(** Memory that differs from the initial one in the array only. *)
Definition only_str (m : gmap Z Z) : Prop :=
  mapped m str 12 /\ forall a, ~ (str <= a < str + 12) -> m !! a = um s !! a.

Lemma only_str_string m p t : only_str m -> apart str 12 p (S (length t)) ->
  string_at (um s) p t -> string_at m p t.
Proof.
  intros [_ H] Ha [Ht Hh]. split; [done|]. intros i b Hi. rewrite H; [by apply Hh|].
  pose proof (lookup_lt_Some _ _ _ Hi) as Hl. rewrite length_app in Hl. unfold apart in Ha. simpl in Hl. lia.
Qed.

Lemma only_str_fill m bs : length bs = 12%nat -> only_str m -> only_str (fill str bs m).
Proof.
  intros Hl [H1 H2]. split; [by apply mapped_fill|]. intros a Ha. rewrite lookup_fill, decide_False by lia. auto.
Qed.

Definition printed (m : gmap Z Z) (t : list Z) : uproc := set_shown (shown s ++ t) (set_um m s).

Lemma wp_putchar m t c (Q : Z -> uproc -> Prop) : Q 0 (printed m (t ++ [u8 c])) -> wp (putchar (s8 c)) (printed m t) Q.
Proof.
  intros HQ. apply wp_bind, wp_modify, wp_ret. rewrite !u8_s8_any. unfold printed in *. simpl.
  assert (s8 (s8 c) = s8 c) as E by (unfold s8; zlia). rewrite ?E, ?u8_s8_any, <- app_assoc. exact HQ.
Qed.

(** A number. *)
Lemma wp_printf_int {A} m t n (k : U A) (Q : A -> uproc -> Prop) :
  only_str m -> -2147483648 < n < 2147483648 ->
  (forall m', only_str m' -> wp k (printed m' (t ++ UserLib.decimal n)) Q) ->
  wp (_ ← memset str 0 12; _ ← on_buffer str 12 (UserLib.itoa n); _ ← print str; k) (printed m t) Q.
Proof.
  intros Hm Hn HQ. apply wp_bind, wp_memset; [lia|apply Hm|]. apply wp_bind.
  apply (wp_on_buffer str (replicate 12 0)); [apply holds_fill|]. apply wp_itoa_zeroed; [done|].
  intros pad Hpad. destruct (decimal_chars n Hn) as [Hc Hl].
  assert (Hu : map u8 (UserLib.decimal n ++ 0 :: pad) = UserLib.decimal n ++ 0 :: map u8 pad).
  { rewrite map_app. f_equal. clear -Hc. induction Hc as [|c l Hc _ IH]; simpl; [done|].
    unfold CString.char_byte in Hc. by rewrite IH, u8_small by lia. }
  rewrite Hu. set (m' := fill str (UserLib.decimal n ++ 0 :: map u8 pad) (fill str (replicate 12 0) m)).
  assert (Hm' : only_str m').
  { apply only_str_fill; [by rewrite <- Hu, length_map|]. by apply only_str_fill; [apply length_replicate|]. }
  apply wp_bind. eapply (wp_print str (UserLib.decimal n)).
  { split; [done|]. assert (H : holds m' str ((UserLib.decimal n ++ [0]) ++ map u8 pad)).
    { rewrite <- app_assoc. apply holds_fill. }
    by apply holds_app in H as [? _]. }
  rewrite take_ge by lia. specialize (HQ m' Hm'). unfold printed in *. simpl.
  rewrite <- app_assoc. exact HQ.
Qed.

Lemma s8_eqb c k : 0 <= c < 256 -> 0 <= k < 128 -> (s8 c =? k) = (c =? k).
Proof. intros. unfold s8. destruct (Z.eqb_spec c k); [apply Z.eqb_eq|apply Z.eqb_neq]; zlia. Qed.

Lemma wp_printf_str {A} m t w u (k : U A) (Q : A -> uproc -> Prop) :
  string_at m w u -> wp k (printed m (t ++ take 1024 u)) Q -> wp (_ ← print w; k) (printed m t) Q.
Proof.
  intros Hu HQ. apply wp_bind. eapply wp_print; [exact Hu|]. unfold printed in *. simpl.
  rewrite <- app_assoc. exact HQ.
Qed.

(** The format from [p] on, what it makes of the arguments, and what is printed. *)
Definition printf_inv (text : list Z) (n : nat) (pv : Z * list Z) (s1 : uproc) : Prop :=
  exists m fmt args shown1 text1, s1 = printed m shown1 /\ only_str m /\ n = length fmt /\
    string_at (um s) pv.1 fmt /\ apart str 12 pv.1 (S (length fmt)) /\ Forall2 (arg_word (um s)) pv.2 args /\
    format fmt args = Some text1 /\ text = shown1 ++ text1.

Lemma printf_next text n m fmt args shown1 text1 p v :
  only_str m -> string_at (um s) p fmt -> apart str 12 p (S (length fmt)) -> Forall2 (arg_word (um s)) v args ->
  format fmt args = Some text1 -> text = shown1 ++ text1 -> (length fmt < n)%nat ->
  exists n', (n' < n)%nat /\ printf_inv text n' (p, v) (printed m shown1).
Proof. intros. exists (length fmt). split; [done|]. exists m, fmt, args, shown1, text1. auto 10. Qed.

(** The character at the front of the text at [p]. *)
Lemma wp_printf_char m t p c fmt (Q : Z -> uproc -> Prop) :
  only_str m -> string_at (um s) p (c :: fmt) -> apart str 12 p (S (S (length fmt))) ->
  Q (s8 c) (printed m t) -> wp (load_char p) (printed m t) Q.
Proof.
  intros Hm Hf Ha HQ. eapply wp_load_char; [|exact HQ].
  pose proof (only_str_string m p (c :: fmt) Hm Ha Hf) as H.
  pose proof (string_at_char _ _ _ 0 c H eq_refl) as H0. by rewrite Z.add_0_r in H0.
Qed.

Lemma string_at_cons m p c fmt : string_at m p (c :: fmt) -> string_at m (p + 1) fmt /\ 0 < c < 256.
Proof.
  intros H. split; [by apply (string_at_suffix _ _ [c]) in H|]. destruct H as [H _].
  by apply Forall_cons_1 in H as [? _].
Qed.

(** A conversion: [d] is the character after the percent sign. *)
Lemma wp_printf_conversion text n m d fmt args shown1 text1 p v :
  only_str m -> string_at (um s) p (d :: fmt) -> apart str 12 p (S (S (length fmt))) ->
  Forall2 (arg_word (um s)) v args -> format (37 :: d :: fmt) args = Some text1 -> text = shown1 ++ text1 ->
  (length fmt < n)%nat ->
  wp (c ← load_char p;
      if c =? 105 then
        '(w, v1) ← va_arg v;
        let ival := s32 w in
        _ ← memset str 0 12;
        _ ← on_buffer str 12 (UserLib.itoa ival);
        _ ← print str;
        mret (inl (p + 1, v1))
      else if c =? 115 then
        '(sval, v1) ← va_arg v;
        _ ← print sval;
        mret (inl (p + 1, v1))
      else
        _ ← putchar c;
        mret (inl (p + 1, v) : Z * list Z + Z)) (printed m shown1)
    (fun r s2 => match r with
       | inl pv => exists n', (n' < n)%nat /\ printf_inv text n' pv s2
       | inr r => False
       end).
Proof.
  intros Hm Hp Ha Hv Hf -> Hn. apply wp_bind. eapply wp_printf_char; [done|done|done|].
  destruct (string_at_cons _ _ _ _ Hp) as [Hp1 Hd]. rewrite !s8_eqb by lia.
  assert (Ha1 : apart str 12 (p + 1) (S (length fmt))) by (unfold apart in *; lia).
  cbn [format] in Hf. change (37 =? 37) with true in Hf. cbv iota in Hf.
  destruct (d =? 105).
  { destruct args as [|[k|u] args]; try done. apply fmap_Some in Hf as (text2 & Hf & ->).
    apply Forall2_cons_inv_r in Hv as (w & v' & [Hw Hw'] & Hv & ->). apply wp_bind, wp_ret. cbv zeta.
    rewrite Hw. pose proof (s32_range w). apply wp_printf_int; [done|lia|]. intros m' Hm'. apply wp_ret.
    eapply printf_next; eauto. by rewrite app_assoc. }
  destruct (d =? 115).
  { destruct args as [|[k|u] args]; try done. apply fmap_Some in Hf as (text2 & Hf & ->).
    apply Forall2_cons_inv_r in Hv as (w & v' & [Hw Hw'] & Hv & ->). apply wp_bind, wp_ret.
    eapply wp_printf_str; [by apply only_str_string|]. apply wp_ret.
    eapply printf_next; eauto. by rewrite app_assoc. }
  apply fmap_Some in Hf as (text2 & Hf & ->). apply wp_bind, wp_putchar, wp_ret. rewrite u8_small by lia.
  eapply printf_next; eauto. by rewrite <- app_assoc.
Qed.

Lemma wp_printf fmt_addr v fmt args text : string_at (um s) fmt_addr fmt ->
  apart str 12 fmt_addr (S (length fmt)) -> Forall2 (arg_word (um s)) v args ->
  format fmt args = Some text -> Z.of_nat (length fmt) < 2147483648 -> mapped (um s) str 12 ->
  wp (printf str fmt_addr v) s (fun r s' => r = 0 /\ exists m', only_str m' /\ s' = printed m' text).
Proof.
  intros Hp Ha Hv Hf Hl Hm. apply (wp_loop_idx (printf_inv text) _ (length fmt)); [|lia|].
  { exists (um s), fmt, args, [], text. split_and!; try done. unfold printed. rewrite app_nil_r. by destruct s. }
  clear fmt_addr v fmt args Hp Ha Hv Hf Hl Hm.
  intros n [p v] s1 (m & fmt & args & shown1 & text1 & -> & Hm & -> & Hp & Ha & Hv & Hf & ->). simpl in Hp, Ha, Hv.
  destruct fmt as [|c fmt].
  - apply wp_bind. eapply (wp_load_char _ 0).
    { pose proof (string_at_nul _ _ _ (only_str_string _ _ _ Hm Ha Hp)) as H0. simpl in H0. by rewrite Z.add_0_r in H0. }
    injection Hf as <-. rewrite app_nil_r. change (s8 0 =? 0) with true. apply wp_ret. eauto.
  - apply wp_bind. eapply wp_printf_char; [done|done|done|].
    destruct (string_at_cons _ _ _ _ Hp) as [Hp1 Hc]. rewrite !s8_eqb by lia.
    rewrite (proj2 (Z.eqb_neq c 0)) by lia.
    assert (Ha1 : apart str 12 (p + 1) (S (length fmt))) by (unfold apart in *; simpl in Ha; lia).
    destruct (Z.eqb_spec c 37) as [->|Hne]; cbn [negb].
    + destruct fmt as [|d fmt]; [done|]. cbv zeta. eapply wp_mono.
      { eapply (wp_printf_conversion (shown1 ++ text1) (S (S (length fmt)))); eauto. }
      intros [pv|r] s2; [|done]. done.
    + cbn [format] in Hf. rewrite (proj2 (Z.eqb_neq c 37) Hne) in Hf. apply fmap_Some in Hf as (text2 & Hf & ->).
      apply wp_bind, wp_putchar, wp_ret. rewrite u8_small by lia.
      eapply printf_next; eauto. by rewrite <- app_assoc.
Qed.

End Printf.

(** ** Theorems *)

(** C17 (equivalence): [printf] formats.  For every format string whose
    conversions the arguments answer, as the reference [format] says, it prints
    the formatted text and returns 0; memory changes in its own array only.  A
    number is printed by [itoa], so that zero is followed by a newline, a string
    up to 1024 characters, and any other character after a percent sign stands
    for itself. *)
Theorem printf_format (s : uproc) (str fmt : Z) (v : list Z) (t : list Z) (args : list arg) (text : list Z)
    (Hfmt : string_at (um s) fmt t) (Hstr : mapped (um s) str 12) (Ha : apart str 12 fmt (S (length t)))
    (Hargs : Forall2 (arg_word str (um s)) v args) (Hlen : Z.of_nat (length t) < 2147483648)
    (Htext : format t args = Some text) :
  exists m', printf str fmt v s = Ok (0, set_shown (shown s ++ text) (set_um m' s)) /\
    forall a, ~ (str <= a < str + 12) -> m' !! a = um s !! a.
Proof.
  destruct (wp_run _ _ _ (wp_printf s str fmt v t args text Hfmt Ha Hargs Htext Hlen Hstr))
    as (r & s' & Hrun & -> & m' & [_ Hm'] & ->).
  by exists m'.
Qed.

(** C18 (refinement): line input is the line editor.  From the keys a user types,
    polls that find no key included, it takes those the editor takes and echoes
    them, and leaves the edited line, terminated, in the buffer; nothing outside
    the buffer is written.  The buffer needs [max] bytes for a line ended by the
    return key, and one more when [max] characters were typed. *)
Theorem readline_edits (s : uproc) (out max : Z) (room : nat) (line echo rest : list Z)
    (Hkeys : Z.of_nat (length (typed s)) < 2147483648)
    (Hroom : max <= Z.of_nat room) (Hout : mapped (um s) out room)
    (Hedit : edit (Z.to_nat max) [] (typed s) = Some (line, echo, rest)) (Hline : (length line < room)%nat) :
  exists m', coniferos_terminal_readline out max s =
      Ok (tt, set_shown (shown s ++ echo) (set_typed rest (set_um m' s))) /\
    holds m' out (line ++ [0]) /\ forall a, ~ (out <= a < out + Z.of_nat room) -> m' !! a = um s !! a.
Proof.
  destruct (wp_run _ _ _ (wp_readline s out max room line echo rest Hkeys Hroom Hline Hout Hedit))
    as ([] & s' & Hrun & m' & (Hh & _ & Hf) & ->).
  by exists m'.
Qed.

(** A program with a format string, a string to print, the array of [printf] and
    a line buffer, and a user who types, corrects and ends a line. *)
Definition fmt_text : list Z := [110; 61; 37; 105; 59; 37; 115; 37; 37].
Definition io_sample : uproc :=
  mk_uproc (fill 100 (fmt_text ++ [0]) (fill 200 [97; 98; 0] (fill 300 (replicate 12 7) (fill 400 (replicate 5 7) ∅))))
    0 ∅ [0; 97; 0; 98; 8; 99; 13; 100] [] [33] [].

Lemma io_sample_holds : string_at (um io_sample) 100 fmt_text /\ string_at (um io_sample) 200 [97; 98] /\
  holds (um io_sample) 300 (replicate 12 7) /\ holds (um io_sample) 400 (replicate 5 7).
Proof.
  split_and!.
  - apply string_at_fill. repeat constructor.
  - apply string_at_fill_apart; [left; simpl; lia|]. apply (string_at_fill [97; 98]). repeat constructor.
  - do 2 (apply holds_fill_apart; [left; simpl; lia|]). apply holds_fill.
  - do 3 (apply holds_fill_apart; [left; simpl; lia|]). apply holds_fill.
Qed.

Lemma printf_format_witness : exists m',
  printf 300 100 [4294967291; 200] io_sample =
    Ok (0, set_shown [33; 110; 61; 45; 53; 59; 97; 98; 37] (set_um m' io_sample)).
Proof.
  destruct io_sample_holds as (H1 & H2 & H3 & _). pose proof (holds_mapped _ _ _ H3) as H4.
  destruct (printf_format io_sample 300 100 [4294967291; 200] fmt_text [AInt (-5); AStr [97; 98]]
    [110; 61; 45; 53; 59; 97; 98; 37]) as (m' & Hrun & _); [done|done|right; simpl; lia| |simpl; lia|done|].
  { constructor; [by split|]. constructor; [split; [done|right; simpl; lia]|constructor]. }
  exists m'. exact Hrun.
Defined.

Lemma readline_edits_witness : exists m',
  coniferos_terminal_readline 400 5 io_sample =
    Ok (tt, set_shown [33; 97; 98; 8; 99] (set_typed [100] (set_um m' io_sample))) /\
  holds m' 400 [97; 99; 0].
Proof.
  destruct io_sample_holds as (_ & _ & _ & H4). pose proof (holds_mapped _ _ _ H4) as H5.
  destruct (readline_edits io_sample 400 5 5 [97; 99] [97; 98; 8; 99] [100]) as (m' & Hrun & Hh & _);
    [simpl; lia|lia|exact H5|reflexivity|simpl; lia|].
  exists m'. by split.
Defined.

(** As many keys as the buffer has bytes: the terminator goes behind it. *)
Example readline_overrun :
  coniferos_terminal_readline 400 5 (set_typed [97; 98; 99; 100; 101; 13] io_sample) = Fault.
Proof. vm_compute. reflexivity. Qed.

(** The library's number zero ends the line. *)
Example printf_zero :
  match printf 300 100 [0; 200] io_sample with
  | Ok (_, s') => shown s' = [33; 110; 61; 48; 10; 59; 97; 98; 37]
  | _ => False
  end.
Proof. vm_compute. reflexivity. Qed.

(** A format that ends in a percent sign: the scan goes on behind the string. *)
Example printf_percent_end :
  printf 300 500 [] (set_um (fill 500 [97; 37; 0] (um io_sample)) io_sample) = Fault.
Proof. vm_compute. reflexivity. Qed.

End UserIO.
