(* ===== verification/Shell.v ===== *)
(** * The shell: [src/user_programs/shell/src/]

    Reading a command line, splitting it into a list of tokens on the heap, and
    starting the program it names with the rest as arguments.  [ShellProofs] has
    the theorems. *)
From stdpp Require Import base gmap list numbers strings.
From S2P Require Import Prelude Config CString UserProc UserString UserIO.
#[local] Open Scope Z_scope.

Module Shell.
Import UserProc UserString UserIO.

#[local] Abbreviation U := (M uproc).

Definition MAX_COMMAND_LEN : Z := 1024.

(** [shell.h] has a constant of its own for the length of a token. *)
Definition MAX_CMMD_ARG_LEN : Z := 128.

(** [struct command_token]: the token at offset 0, then the pointer. *)
Definition off_next : Z := 128.
Definition sizeof_command_token : Z := 132.

(** The string literals. *)
Definition argv_error_text : list Z := chars "shell.c: ERROR: could not allocate memory for argv".
Definition prompt_text : list Z := chars "> ".
Definition prefix_text : list Z := chars "0:/".
Definition title_text : list Z := chars "ConiferOS shell v0.0.1" ++ [10].
Definition rule_text : list Z := chars "-----------------------" ++ [10].
Definition hint_text : list Z := chars "Try executing 'ECHO.ELF HELLO'" ++ [10].
Definition rule2_text : list Z := chars "-----------------------" ++ [10; 10].
Definition literals : list (list Z) :=
  [argv_error_text; prompt_text; prefix_text; title_text; rule_text; hint_text; rule2_text].

Section Program.

(** Where the string literals, the arrays of [main] and [parse_command] and the
    array of [printf] are. *)
Variables (literal : list Z -> Z) (path_buf token_buf str : Z).

(** ** Operations *)

(** The result is the array and the new value of [*arg_count]. *)
Definition create_argv_array (command arg_count : Z) : U (Z * Z) :=
  let itr := command in
  if itr =? 0 then mret (0, arg_count)
  else
    itr ← load32 (itr + off_next);
    count ← loop_m (fun '(itr, count) =>
      if negb (itr =? 0) then
        next ← load32 (itr + off_next);
        mret (inl (next, count + 1))
      else mret (inr count)) (itr, 0);
    argv ← malloc (u32 ((count + 1) * 4));
    if argv =? 0 then
      _ ← printf str (literal argv_error_text) [];
      mret (0, arg_count)
    else
      itr ← load32 (command + off_next);
      _ ← loop_m (fun '(i, itr) =>
        if i <? count then
          _ ← store32 (argv + 4 * i) itr;
          next ← load32 (itr + off_next);
          mret (inl (i + 1, next))
        else mret (inr tt)) (0, itr);
      _ ← store32 (argv + 4 * count) 0;
      mret (argv, count).

Definition parse_command (command command_len : Z) : U Z :=
  if command_len >? MAX_COMMAND_LEN then mret 0
  else
    token ← strtok command 32 token_buf;
    if token =? 0 then mret 0
    else
      root_command ← malloc sizeof_command_token;
      if root_command =? 0 then mret 0
      else
        _ ← strncpy root_command token MAX_CMMD_ARG_LEN;
        _ ← store32 (root_command + off_next) 0;
        _ ← memset token_buf 0 1024;
        token ← strtok 0 32 token_buf;
        loop_m (fun '(token, current) =>
          if negb (token =? 0) then
            next_arg ← malloc sizeof_command_token;
            if next_arg =? 0 then
              _ ← free root_command;
              mret (inr 0)
            else
              _ ← strncpy next_arg token MAX_CMMD_ARG_LEN;
              _ ← store32 (next_arg + off_next) 0;
              _ ← store32 (current + off_next) next_arg;
              _ ← memset token_buf 0 1024;
              token ← strtok 0 32 token_buf;
              mret (inl (token, next_arg))
          else mret (inr root_command)) (token, root_command).

(** One turn of the endless loop of [main]. *)
Definition command : U unit :=
  _ ← printf str (literal prompt_text) [];
  let path_prefix := literal prefix_text in
  len_path_prefix ← strlen path_prefix;
  _ ← strncpy path_buf (literal prefix_text) len_path_prefix;
  _ ← coniferos_terminal_readline (path_buf + len_path_prefix) (1024 - len_path_prefix);
  root ← parse_command path_buf MAX_COMMAND_LEN;
  '(argv, argc) ← create_argv_array root 0;
  coniferos_execve root argv argc.

(** [main] up to and including its [n]th turn. *)
Definition main (n : nat) : U unit :=
  _ ← printf str (literal title_text) [];
  _ ← printf str (literal rule_text) [];
  _ ← printf str (literal hint_text) [];
  _ ← printf str (literal rule2_text) [];
  for_loop n 0 (fun _ => command).

End Program.

End Shell.
