(* ===== verification/ShellProofs.v ===== *)
(** * The shell: theorems

    The token list a command line is turned into, the argument array made of it,
    and a session from the keys typed to the programs started. *)
From stdpp Require Import base gmap list numbers strings.
From S2P Require Import Prelude Config CString UserProc UserString UserIO Shell.
#[local] Open Scope Z_scope.

Module ShellProofs.
Import UserProc UserString UserIO Shell.

#[local] Abbreviation U := (M uproc).
#[local] Opaque fill.

(** ** Token lists *)

(** A [struct command_token] with the token [w] and the pointer [q].  A word of
    128 characters or more is cut there; its terminator is then the low byte of
    the pointer. *)
Definition node (m : gmap Z Z) (p : Z) (w : list Z) (q : Z) : Prop :=
  string_at m p (take 128 w) /\ holds m (p + 128) (word_bytes q).

Definition chain (m : gmap Z Z) (ps : list Z) (ws : list (list Z)) : Prop :=
  length ps = length ws /\
  forall i p w, ps !! i = Some p -> ws !! i = Some w -> node m p w (default 0 (ps !! S i)).

Lemma node_changed a n m m' p w q : changed a n m m' -> apart a n p 132 -> node m p w q -> node m' p w q.
Proof.
  intros Hc Ha [H1 H2]. split.
  - eapply string_at_changed; [done| |done]. rewrite length_take. unfold apart in *. lia.
  - eapply holds_changed; [done| |done]. unfold apart, word_bytes in *. simpl. lia.
Qed.

(** The pointer of a node is set: an address whose low byte is zero. *)
Lemma node_set_next m p w q : u8 q = 0 -> node m p w 0 -> node (fill (p + 128) (word_bytes q) m) p w q.
Proof.
  intros Hq [[Hc Hh] _]. split; [|apply holds_fill]. split; [done|]. intros i b Hi.
  pose proof (lookup_lt_Some _ _ _ Hi) as Hl. rewrite length_app, length_take in Hl. cbn [length] in Hl.
  rewrite lookup_fill. destruct (decide _) as [Hd|]; [|by apply Hh].
  unfold word_bytes in Hd. simpl in Hd. assert (i = 128%nat) as -> by lia.
  rewrite lookup_app_r in Hi by (rewrite length_take; lia). rewrite length_take in Hi.
  replace (128 - 128 `min` length w)%nat with 0%nat in Hi by lia. injection Hi as <-.
  replace (Z.to_nat (p + Z.of_nat 128 - (p + 128))) with 0%nat by lia. simpl. by rewrite Hq.
Qed.

Lemma chain_changed a n m m' ps ws :
  changed a n m m' -> Forall (fun p => apart a n p 132) ps -> chain m ps ws -> chain m' ps ws.
Proof.
  intros Hc Hp [Hl H]. split; [done|]. intros i p w Hi Hw. eapply node_changed; [done| |by apply H].
  by eapply Forall_lookup in Hi; [|exact Hp].
Qed.

(** Pages: what the kernel answers to a request for memory. *)
Definition page (p : Z) : Prop := 0 < p /\ p mod 4096 = 0 /\ p + 4096 <= 4294967296.

Lemma page_low p : page p -> u8 p = 0.
Proof. unfold page, u8. zlia. Qed.

Lemma pages_apart p q : page p -> page q -> p <> q -> apart p 4096 q 4096.
Proof. unfold page, apart. zlia. Qed.

Lemma apart_weaken a n b k n' k' : apart a n b k -> (n' <= n)%nat -> (k' <= k)%nat -> apart a n' b k'.
Proof. unfold apart. lia. Qed.

(** The last node of a list. *)
Lemma chain_last m ps p ws w : chain m (ps ++ [p]) (ws ++ [w]) -> node m p w 0.
Proof.
  intros [Hl H]. rewrite !length_app in Hl. simpl in Hl. specialize (H (length ps) p w).
  rewrite (lookup_ge_None_2 (ps ++ [p]) (S _)) in H by (rewrite length_app; simpl; lia).
  apply H; rewrite lookup_app_r by lia; [by rewrite Nat.sub_diag|].
  by replace (length ps - length ws)%nat with 0%nat by lia.
Qed.

(** Distinct pages are far enough from each other for a node each. *)
Lemma pages_far n ps q : (n <= 4096)%nat -> Forall page (ps ++ [q]) -> NoDup (ps ++ [q]) ->
  Forall (fun p => apart q n p 132) ps.
Proof.
  intros Hn Hpg Hnd. apply Forall_app in Hpg as [Hps Hq]. apply Forall_cons_1 in Hq as [Hq _].
  apply NoDup_app in Hnd as (_ & Hni & _). rewrite Forall_forall. intros p Hp.
  eapply apart_weaken; [apply pages_apart|lia|lia]; [done| |].
  - by apply (proj1 (Forall_forall _ _) Hps).
  - intros ->. apply (Hni p Hp). left.
Qed.

(** A node is appended. *)
Lemma chain_snoc m ps p ws w q w' : chain m (ps ++ [p]) (ws ++ [w]) -> node m q w' 0 ->
  Forall page (ps ++ [p; q]) -> NoDup (ps ++ [p; q]) ->
  chain (fill (p + 128) (word_bytes q) m) (ps ++ [p; q]) (ws ++ [w; w']).
Proof.
  intros Hch Hq Hpg Hnd. pose proof Hch as [Hl H]. rewrite !length_app in Hl. simpl in Hl. split; [rewrite !length_app; simpl; lia|].
  assert (Hpq : page p /\ page q).
  { apply Forall_app in Hpg as [_ Hpg]. apply Forall_cons_1 in Hpg as [? Hpg].
    by apply Forall_cons_1 in Hpg as [? _]. }
  destruct Hpq as [Hp Hq'].
  pose proof (changed_fill (p + 128) (word_bytes q) m) as Hcg.
  assert (Hfar : forall x, page x -> x <> p -> apart (p + 128) (length (word_bytes q)) x 132).
  { intros x Hx Hne. pose proof (pages_apart _ _ Hx Hp Hne). unfold apart, word_bytes in *. simpl. lia. }
  intros i x y Hi Hy. destruct (lt_eq_lt_dec i (length ps)) as [[Hlt|Heq]|Hgt].
  - rewrite lookup_app_l in Hi by done. rewrite lookup_app_l in Hy by lia.
    eapply node_changed; [exact Hcg| |].
    + apply Hfar.
      * apply Forall_app in Hpg as [Hpg _]. by eapply Forall_lookup in Hi; [|exact Hpg].
      * intros ->. apply NoDup_app in Hnd as (_ & Hnd & _). apply (Hnd p); [by eapply list_elem_of_lookup_2|left].
    + assert (Hnext : (ps ++ [p; q]) !! S i = (ps ++ [p]) !! S i).
      { change [p; q] with ([p] ++ [q]). rewrite app_assoc. apply lookup_app_l. rewrite length_app. simpl. lia. }
      rewrite Hnext. apply H; by apply lookup_app_l_Some.
  - subst i. rewrite lookup_app_r, Nat.sub_diag in Hi by lia. injection Hi as <-.
    rewrite lookup_app_r in Hy by lia. replace (length ps - length ws)%nat with 0%nat in Hy by lia. injection Hy as <-.
    rewrite lookup_app_r by lia. replace (S (length ps) - length ps)%nat with 1%nat by lia. simpl.
    apply node_set_next; [by apply page_low|]. by eapply chain_last.
  - pose proof (lookup_lt_Some _ _ _ Hi) as Hil. rewrite length_app in Hil. simpl in Hil.
    assert (i = S (length ps)) as -> by lia.
    rewrite lookup_app_r in Hi by lia. rewrite lookup_app_r in Hy by lia. replace (S (length ps) - length ps)%nat with 1%nat in Hi by lia.
    replace (S (length ps) - length ws)%nat with 1%nat in Hy by lia. injection Hi as <-. injection Hy as <-.
    rewrite lookup_ge_None_2 by (rewrite length_app; simpl; lia). simpl.
    eapply node_changed; [exact Hcg| |exact Hq]. apply Hfar; [done|].
    intros ->. apply NoDup_app in Hnd as (_ & _ & Hnd). inversion Hnd as [|? ? Hni]. apply Hni. left.
Qed.

(** ** The program's memory *)

Section Program.
Context (literal : list Z -> Z) (path_buf token_buf str : Z) (z : list Z).

(** The areas the program writes, and those it only reads: its literals and the
    bytes at address 0. *)
Definition arrays : list (Z * nat) := [(path_buf, 1024%nat); (token_buf, 1024%nat); (str, 12%nat)].
Definition constants : list (Z * nat) := (0, S (length z)) :: map (fun t => (literal t, S (length t))) literals.

Definition clear_of (a : Z) (n : nat) (areas : list (Z * nat)) : Prop :=
  Forall (fun x => apart a n x.1 x.2) areas.

(** How the linker and the compiler placed them. *)
Record placed : Prop := {
  placed_path : 0 < path_buf;
  placed_arrays : apart path_buf 1024 token_buf 1024 /\ apart path_buf 1024 str 12 /\ apart token_buf 1024 str 12;
  placed_constants : Forall (fun x => clear_of x.1 x.2 constants) arrays;
  placed_zero : Z.of_nat (length z) < 2147483648
}.

(** What the program finds in its memory at every turn. *)
Record layout (m : gmap Z Z) : Prop := {
  layout_path : mapped m path_buf 1024;
  layout_token : mapped m token_buf 1024;
  layout_str : mapped m str 12;
  layout_zero : string_at m 0 z;
  layout_literals : forall t, t ∈ literals -> string_at m (literal t) t
}.

Lemma layout_changed a n m m' : changed a n m m' -> clear_of a n constants -> layout m -> layout m'.
Proof.
  intros Hc Ha [H1 H2 H3 H4 H5]. apply Forall_cons_1 in Ha as [Hz Hl].
  split; eauto using mapped_changed, string_at_changed.
  intros t Ht. eapply string_at_changed; [done| |by apply H5].
  apply (proj1 (Forall_forall _ _) Hl (literal t, S (length t))). apply list_elem_of_fmap. by exists t.
Qed.

Hypothesis Hplaced : placed.

(** Writing an array keeps the layout. *)
Lemma layout_array a n k m m' : (a, n) ∈ arrays -> (k <= n)%nat -> changed a k m m' -> layout m -> layout m'.
Proof.
  intros Ha Hk Hc. apply layout_changed with a n; [eapply changed_weaken; [done|lia|lia]|].
  destruct Hplaced as [_ _ H _]. exact (proj1 (Forall_forall _ _) H (a, n) Ha).
Qed.

(** A page the kernel may hand out. *)
Definition free_page (p : Z) : Prop := page p /\ clear_of p 4096 arrays /\ clear_of p 4096 constants.

Lemma clear_of_weaken a n n' areas : clear_of a n areas -> (n' <= n)%nat -> clear_of a n' areas.
Proof. intros H Hn. eapply Forall_impl; [exact H|]. intros x Hx. eapply apart_weaken; [exact Hx|lia|lia]. Qed.

Lemma layout_page p k m m' : free_page p -> (k <= 4096)%nat -> changed p k m m' -> layout m -> layout m'.
Proof. intros (_ & _ & H) Hk Hc. eapply layout_changed; [exact Hc|]. by eapply clear_of_weaken. Qed.

Lemma page_arrays p : free_page p -> apart p 4096 path_buf 1024 /\ apart p 4096 token_buf 1024 /\ apart p 4096 str 12.
Proof.
  intros (_ & H & _). apply Forall_cons_1 in H as [H1 H]. apply Forall_cons_1 in H as [H2 H].
  by apply Forall_cons_1 in H as [H3 _].
Qed.

(** ** A new token *)

(** The state of the program, but for what the model of the shell changes. *)
Context (ty sh : list Z) (la : list launch).

Lemma wp_malloc size q g m r o (Q : Z -> uproc -> Prop) : q <> 0 ->
  Q q (mk_uproc (fill q (replicate (Z.to_nat size) 0) m) r (<[q := size]> o) ty g sh la) ->
  wp (malloc size) (mk_uproc m r o ty (q :: g) sh la) Q.
Proof.
  intros Hq HQ. unfold wp, malloc, coniferos_malloc. simpl. by rewrite (proj2 (Z.eqb_neq _ _) Hq).
Qed.

(** [strncpy] into the new struct and its null pointer. *)
Lemma wp_new_node {A} q w m r o g (k : U A) (Q : A -> uproc -> Prop) :
  string_at m token_buf w -> (length w < 1024)%nat -> free_page q ->
  (forall m', node m' q w 0 -> changed q 132 m m' -> wp k (mk_uproc m' r o ty g sh la) Q) ->
  wp (_ ← strncpy q token_buf MAX_CMMD_ARG_LEN; _ ← store32 (q + off_next) 0; k)
    (mk_uproc (fill q (replicate 132 0) m) r o ty g sh la) Q.
Proof.
  intros Hw Hl Hq HQ. destruct (page_arrays q Hq) as (_ & Ha & _).
  set (m0 := fill q (replicate 132 0) m).
  assert (Hc0 : changed q 132 m m0).
  { pose proof (changed_fill q (replicate 132 0) m) as H. by rewrite length_replicate in H. }
  assert (Hm0 : mapped m0 q 132).
  { pose proof (holds_mapped _ _ _ (holds_fill (replicate 132 0) q m)) as H. by rewrite length_replicate in H. }
  assert (Hlw : (length (take 128 w) <= 128)%nat) by (rewrite length_take; lia).
  apply wp_bind. eapply (wp_strncpy q token_buf w MAX_CMMD_ARG_LEN); change (Z.to_nat MAX_CMMD_ARG_LEN) with 128%nat.
  { simpl. eapply string_at_changed; [exact Hc0| |exact Hw]. unfold apart in *. lia. }
  { unfold MAX_CMMD_ARG_LEN. lia. }
  { intros i Hi. apply Hm0. lia. }
  { unfold apart in *. lia. }
  set (m1 := fill q (take 128 w ++ [0]) m0).
  assert (Hc1 : changed q 132 m m1).
  { eapply changed_trans; [exact Hc0|]. eapply changed_weaken; [apply changed_fill|lia|].
    rewrite length_app. cbn [length]. lia. }
  apply wp_bind, wp_store32.
  { intros i Hi. unfold off_next. rewrite <- Z.add_assoc. replace (128 + Z.of_nat i) with (Z.of_nat (128 + i)) by lia.
    simpl um. apply (mapped_fill _ q m0 q 132 Hm0). lia. }
  apply HQ.
  - apply node_set_next; [done|]. split.
    + apply string_at_fill. destruct Hw as [Hc _]. by apply Forall_take.
    + (* the pointer is written next; before, its bytes are those of the zeroed page *)
      intros i b Hi. simpl um. subst m1. rewrite lookup_fill, length_app. cbn [length].
      assert (Hi4 : (i < 4)%nat) by (apply lookup_lt_Some in Hi; by simpl in Hi).
      assert (b = 0) as -> by (by destruct i as [|[|[|[|?]]]]; simpl in Hi; simplify_eq).
      destruct (decide _) as [Hd|].
      * rewrite lookup_app_r by (rewrite length_take in *; lia).
        replace (Z.to_nat (q + 128 + Z.of_nat i - q) - length (take 128 w))%nat with 0%nat by lia. done.
      * subst m0. rewrite lookup_fill, decide_True by (rewrite length_replicate; lia).
        by rewrite lookup_replicate_2 by lia.
  - eapply changed_trans; [exact Hc1|]. eapply changed_weaken; [apply changed_fill|unfold off_next; lia|].
    unfold off_next, word_bytes. simpl. lia.
Qed.

(** ** The command line *)

Section Line.
Context (t : list Z).
Hypothesis Ht : (length t < 1024)%nat.
Hypothesis Htc : Forall CString.char_byte t.
#[local] Abbreviation hi := (path_buf + Z.of_nat (S (length t))).
#[local] Abbreviation words := (split 32 t).

(** The next token, if any, is in the buffer. *)
Definition token_ready (m : gmap Z Z) (r token : Z) (ws : list (list Z)) : Prop :=
  match ws with
  | [] => token = 0 /\ r = 0
  | w :: ws' => token = token_buf /\ word_of t w /\ string_at m token_buf w /\ pending m 32 path_buf hi r ws'
  end.

Lemma token_buf_nonzero : token_buf <> 0.
Proof.
  destruct Hplaced as [_ _ H _]. apply Forall_cons_1 in H as [_ H]. apply Forall_cons_1 in H as [H _].
  apply Forall_cons_1 in H as [H _]. unfold apart in H. simpl fst in H. simpl snd in H. lia.
Qed.

Lemma wp_next_token {A} m r o g ws (k : Z -> U A) (Q : A -> uproc -> Prop) :
  layout m -> pending m 32 path_buf hi r ws -> Forall (word_of t) ws ->
  (forall token m' r', changed token_buf 1024 m m' -> token_ready m' r' token ws ->
     wp (k token) (mk_uproc m' r' o ty g sh la) Q) ->
  wp (_ ← memset token_buf 0 1024; token ← strtok 0 32 token_buf; k token) (mk_uproc m r o ty g sh la) Q.
Proof.
  intros Hm Hp Hws HQ. destruct Hplaced as [Hpp (Ha1 & _ & _) Hcc Hz]. apply wp_bind, wp_memset; [lia|apply Hm|].
  set (m1 := fill token_buf (replicate (Z.to_nat 1024) (u8 0)) m).
  assert (Hc1 : changed token_buf 1024 m m1).
  { pose proof (changed_fill token_buf (replicate (Z.to_nat 1024) (u8 0)) m) as H. by rewrite length_replicate in H. }
  assert (Hm1 : layout m1) by (eapply (layout_array token_buf 1024); [right; left|reflexivity|done|done]).
  apply wp_bind. destruct ws as [|w ws].
  { destruct Hp as [[-> _]|(t' & _ & Hbad & _)]; [|by rewrite split_next_word in Hbad].
    apply wp_strtok_done; [done|]. by apply HQ. }
  apply Forall_cons_1 in Hws as [[Hl Hc] _].
  eapply (wp_strtok_next 32 token_buf path_buf hi w ws z); cbn [um remainder set_um].
  - apply pending_fill; [|done]. rewrite length_replicate. unfold apart in *. lia.
  - lia.
  - exact (layout_zero _ Hm1).
  - exact Hz.
  - intros i Hi. apply (layout_token _ Hm1). lia.
  - unfold apart in *. lia.
  - intros r' Hp'. apply HQ.
    + eapply changed_trans; [exact Hc1|]. eapply changed_weaken; [apply changed_fill|lia|].
      rewrite length_app. cbn [length]. lia.
    + split; [done|]. split; [done|]. split; [by apply string_at_fill|done].
Qed.

Lemma free_pages_page l : Forall free_page l -> Forall page l.
Proof. intros H. eapply Forall_impl; [exact H|]. by intros x [? _]. Qed.

Lemma pages_clear_token l : Forall free_page l -> Forall (fun p => apart token_buf 1024 p 132) l.
Proof.
  intros H. eapply Forall_impl; [exact H|]. intros x Hx. apply page_arrays in Hx as (_ & Hx & _).
  unfold apart in *. lia.
Qed.

(** The pages for the tokens, and those left for later. *)
Context (ps g : list Z).
Hypothesis Hps : Forall free_page ps.
Hypothesis Hnd : NoDup ps.
Hypothesis Hlen : length ps = length words.

(** Tokens made so far and to come; [current] is the last one made. *)
Definition parse_inv (n : nat) (tc : Z * Z) (s1 : uproc) : Prop :=
  exists ps1 ps2 ws1 w ws2 m r o,
    ps = ps1 ++ tc.2 :: ps2 /\ words = ws1 ++ w :: ws2 /\ length ps1 = length ws1 /\ n = length ws2 /\
    chain m (ps1 ++ [tc.2]) (ws1 ++ [w]) /\ layout m /\ token_ready m r tc.1 ws2 /\
    s1 = mk_uproc m r o ty (ps2 ++ g) sh la.

Lemma words_of l1 l2 : words = l1 ++ l2 -> Forall (word_of t) l2.
Proof. intros E. pose proof (split_words 32 t Htc) as H. rewrite E in H. by apply Forall_app in H as [_ ?]. Qed.

(** A further token: the new struct, the link to it and the next token. *)
Lemma wp_parse_step n current s1 token root : parse_inv n (token, current) s1 -> token <> 0 ->
  wp (next_arg ← malloc sizeof_command_token;
      if next_arg =? 0 then
        _ ← free root;
        mret (inr 0)
      else
        _ ← strncpy next_arg token MAX_CMMD_ARG_LEN;
        _ ← store32 (next_arg + off_next) 0;
        _ ← store32 (current + off_next) next_arg;
        _ ← memset token_buf 0 1024;
        token ← strtok 0 32 token_buf;
        mret (inl (token, next_arg) : Z * Z + Z)) s1
    (fun x s2 => match x with inl tc => exists n', (n' < n)%nat /\ parse_inv n' tc s2 | inr _ => False end).
Proof.
  intros (ps1 & ps2 & ws1 & w & ws2 & m & r & o & Eps & Ews & Hl1 & -> & Hch & Hm & Htok & ->) Ht0. simpl in *.
  destruct ws2 as [|w2 ws2]; [by destruct Htok|]. destruct Htok as (-> & [Hw2 Hw2c] & Hs2 & Hp).
  assert (Hl2 : length ps2 = length (w2 :: ws2)).
  { rewrite Eps, Ews, !length_app in Hlen. simpl in *. lia. }
  destruct ps2 as [|q ps2]; [done|].
  assert (Hall : Forall free_page (ps1 ++ [current; q]) /\ NoDup (ps1 ++ [current; q])).
  { change (current :: q :: ps2) with ([current; q] ++ ps2) in Eps. rewrite app_assoc in Eps.
    rewrite Eps in Hps, Hnd. apply Forall_app in Hps as [? _]. by apply NoDup_app in Hnd as (? & _). }
  destruct Hall as [Hfp Hnd'].
  assert (Hq : free_page q) by (apply Forall_app in Hfp as [_ H]; by do 2 apply Forall_cons_1 in H as [? H]).
  assert (Hcur : free_page current) by (apply Forall_app in Hfp as [_ H]; by apply Forall_cons_1 in H as [? _]).
  assert (Hq0 : q <> 0) by (destruct Hq as [[? _] _]; lia).
  apply wp_bind. apply wp_malloc; [done|]. rewrite (proj2 (Z.eqb_neq _ _) Hq0).
  change (Z.to_nat sizeof_command_token) with 132%nat.
  refine (wp_new_node q w2 m _ _ _ _ _ Hs2 _ Hq _).
  { lia. }
  intros m1 Hn1 Hc1.
  assert (Hm1 : layout m1) by (refine (layout_page _ _ _ _ Hq _ Hc1 Hm); lia).
  assert (Hne : Forall (fun p => apart q 132 p 132) (ps1 ++ [current])).
  { apply pages_far; [lia|..]; rewrite <- app_assoc; [by apply free_pages_page|done]. }
  pose proof (chain_changed _ _ _ _ _ _ Hc1 Hne Hch) as Hch1.
  apply wp_bind, wp_store32.
  { destruct (chain_last _ _ _ _ _ Hch1) as [_ Hn]. exact (holds_mapped _ _ _ Hn). }
  cbn [um set_um]. set (m2 := fill (current + off_next) (word_bytes q) m1).
  assert (Hc2 : changed current 132 m1 m2).
  { eapply changed_weaken; [apply changed_fill|unfold off_next; lia|]. unfold off_next, word_bytes. simpl. lia. }
  pose proof (chain_snoc _ _ _ _ _ _ _ Hch1 Hn1 (free_pages_page _ Hfp) Hnd') as Hch2.
  assert (Hm2 : layout m2) by (refine (layout_page _ _ _ _ Hcur _ Hc2 Hm1); lia).
  destruct (page_arrays q Hq) as (Hqp & _). destruct (page_arrays current Hcur) as (Hcp & _).
  apply (wp_next_token m2 r _ (ps2 ++ g) ws2); [done| | |].
  - apply pending_fill; [unfold apart, off_next, word_bytes in *; simpl; lia|].
    eapply pending_changed; [exact Hc1| |exact Hp]. unfold apart in *. lia.
  - eapply (words_of (ws1 ++ [w; w2])). by rewrite <- app_assoc.
  - intros token m3 r3 Hc3 Htok. apply wp_ret. exists (length ws2). split; [simpl; lia|].
    exists (ps1 ++ [current]), ps2, (ws1 ++ [w]), w2, ws2, m3, r3, (<[q := sizeof_command_token]> o). simpl.
    rewrite <- !app_assoc. split_and!; try done.
    + rewrite !length_app, Hl1. done.
    + eapply chain_changed; [exact Hc3|by apply pages_clear_token|exact Hch2].
    + eapply (layout_array token_buf 1024); [right; left|reflexivity|done|done].
Qed.

(** No token is left. *)
Lemma parse_end n current s1 : parse_inv n (0, current) s1 ->
  exists m' o', s1 = mk_uproc m' 0 o' ty g sh la /\ chain m' ps words /\ layout m'.
Proof.
  intros (ps1 & ps2 & ws1 & w & ws2 & m & r & o & Eps & Ews & Hl1 & _ & Hch & Hm & Htok & ->). simpl in *.
  destruct ws2 as [|w2 ws2]; [|destruct Htok as [H _]; by destruct token_buf_nonzero].
  destruct Htok as [_ ->].
  assert (ps2 = []) as ->.
  { rewrite Eps, Ews, !length_app in Hlen. destruct ps2; [done|simpl in Hlen; lia]. }
  exists m, o. split; [done|]. by rewrite Eps, Ews.
Qed.

(** The whole line: a list of its words, on the pages in order. *)
Lemma wp_parse_command m r o len : layout m -> string_at m path_buf t -> len <= MAX_COMMAND_LEN ->
  wp (parse_command token_buf path_buf len) (mk_uproc m r o ty (ps ++ g) sh la)
    (fun root s' => head ps = Some root /\ exists m' o', s' = mk_uproc m' 0 o' ty g sh la /\
       chain m' ps words /\ layout m').
Proof.
  intros Hm Hs Hl. pose proof (placed_path Hplaced). destruct (placed_arrays Hplaced) as (Ha & _).
  unfold parse_command. rewrite Z.gtb_ltb, (proj2 (Z.ltb_ge _ _) Hl).
  pose proof (split_next_word 32 t) as E. 
  assert (Hcons : exists p ps2, ps = p :: ps2).
  { clear -Hlen E. rewrite E in Hlen. destruct ps; [done|eauto]. }
  destruct Hcons as (p & ps2 & Ep). assert (ps ++ g = p :: ps2 ++ g) as -> by (by rewrite Ep).
  pose proof (words_of [] _ E) as Hw. apply Forall_cons_1 in Hw as [[Hw Hwc] Hws].
  set (w := (next_word 32 t).1) in *. apply wp_bind. eapply (wp_strtok path_buf 32 token_buf path_buf t t); try done; try lia.
  { by rewrite (proj2 (Z.eqb_neq path_buf 0)) by lia. }
  { intros i Hi. apply (layout_token _ Hm). fold w in Hi. lia. }
  { fold w. unfold apart in *. lia. }
  rewrite (proj2 (Z.eqb_neq _ _) token_buf_nonzero). fold w.
  set (m1 := fill token_buf (w ++ [0]) m).
  assert (Hc1 : changed token_buf 1024 m m1).
  { eapply changed_weaken; [apply changed_fill|lia|]. rewrite length_app. cbn [length]. lia. }
  assert (Hm1 : layout m1) by (eapply (layout_array token_buf 1024); [right; left|reflexivity|done|done]).
  assert (Hp : free_page p) by (clear -Hps Ep; rewrite Ep in Hps; by apply Forall_cons_1 in Hps as [? _]).
  assert (Hp0 : p <> 0) by (destruct Hp as [[? _] _]; lia).
  apply wp_bind. apply wp_malloc; [done|]. rewrite (proj2 (Z.eqb_neq _ _) Hp0).
  change (Z.to_nat sizeof_command_token) with 132%nat.
  refine (wp_new_node p w m1 _ _ _ _ _ (string_at_fill w token_buf m Hwc) _ Hp _); [lia|].
  intros m2 Hn2 Hc2. assert (Hm2 : layout m2) by (refine (layout_page _ _ _ _ Hp _ Hc2 Hm1); lia).
  destruct (page_arrays p Hp) as (Hpp & _ & _).
  assert (Hpend : pending m2 32 path_buf hi (token_rest path_buf 32 t)
    (match (next_word 32 t).2 with Some t' => split 32 t' | None => [] end)).
  { eapply pending_changed; [exact Hc2|unfold apart in *; lia|]. apply pending_next; [done|lia|lia|].
    fold w. unfold apart in *. lia. }
  refine (wp_next_token m2 _ _ (ps2 ++ g) _ _ _ Hm2 Hpend Hws _).
  intros token m3 r3 Hc3 Htok.
  apply (wp_loop_idx parse_inv) with (n := length (match (next_word 32 t).2 with Some t' => split 32 t' | None => [] end)).
  - exists [], ps2, [], w. eexists _, m3, r3, _. split_and!; [done|exact E|done|done| | |exact Htok|done].
    + eapply chain_changed; [exact Hc3|apply pages_clear_token, Forall_singleton, Hp|].
      split; [done|]. intros [|i] x y Hi Hy; [|done]. injection Hi as <-. by injection Hy as <-.
    + eapply (layout_array token_buf 1024); [right; left|reflexivity|done|done].
  - pose proof (split_count 32 t) as H1. rewrite E in H1. simpl in H1. lia.
  - intros n [tok current] s1 Hinv. destruct (Z.eqb_spec tok 0) as [->|Htok0]; cbn [negb].
    + apply wp_ret. split; [by rewrite Ep|]. by eapply parse_end.
    + eapply wp_mono; [by apply (wp_parse_step n current s1 tok p)|]. by intros [tc|x] s2.
Qed.

End Line.

(** ** The argument array *)

Lemma chain_tail m p ps w ws : chain m (p :: ps) (w :: ws) -> node m p w (default 0 (ps !! 0%nat)) /\ chain m ps ws.
Proof.
  intros [Hl H]. split; [by apply (H 0%nat)|]. split; [by simpl in Hl; lia|].
  intros i q u Hq Hu. by apply (H (S i)).
Qed.

(** The pointer of a node of a list on pages. *)
Lemma wp_load_next m ps ws i q (s : uproc) (Q : Z -> uproc -> Prop) :
  um s = m -> chain m ps ws -> Forall page ps -> ps !! i = Some q ->
  Q (default 0 (ps !! S i)) s -> wp (load32 (q + off_next)) s Q.
Proof.
  intros <- [Hl H] Hpg Hq HQ.
  destruct (lookup_lt_is_Some_2 ws i) as [w Hw]; [rewrite <- Hl; by eapply lookup_lt_Some|].
  eapply wp_load_word; [|exact (proj2 (H i q w Hq Hw))|exact HQ].
  destruct (ps !! S i) as [x|] eqn:Ex; simpl; [|lia].
  eapply Forall_lookup in Ex; [|exact Hpg]. destruct Ex as (? & _ & ?). lia.
Qed.

Section Argv.
Context (a : Z) (ps g : list Z) (ws : list (list Z)).
Hypothesis Ha : free_page a.
Hypothesis Hpg : Forall page ps.
Hypothesis Hna : Forall (fun p => apart a 4096 p 132) ps.
Hypothesis Hlen : (length ps < 1023)%nat.

Lemma wp_count m r o gr (Q : Z -> uproc -> Prop) : chain m ps ws ->
  Q (Z.of_nat (length ps)) (mk_uproc m r o ty gr sh la) ->
  wp (loop_m (fun '(itr, count) =>
      if negb (itr =? 0) then
        next ← load32 (itr + off_next);
        mret (inl (next, count + 1))
      else mret (inr count)) (default 0 (ps !! 0%nat), 0)) (mk_uproc m r o ty gr sh la) Q.
Proof.
  intros Hch HQ.
  apply (wp_loop_idx (fun n '(itr, count) s1 => exists i, (i <= length ps)%nat /\ itr = default 0 (ps !! i) /\
    count = Z.of_nat i /\ n = (length ps - i)%nat /\ s1 = mk_uproc m r o ty gr sh la) _ (length ps)); [|lia|].
  { exists 0%nat. split_and!; try done; lia. }
  intros n [itr count] s1 (i & Hi & -> & -> & -> & ->). destruct (ps !! i) as [q|] eqn:Eq; simpl default.
  - assert (Hq : page q) by (by eapply Forall_lookup in Eq; [|exact Hpg]).
    rewrite (proj2 (Z.eqb_neq q 0)) by (destruct Hq; lia). cbn [negb]. apply wp_bind.
    eapply wp_load_next; [done|exact Hch|exact Hpg|exact Eq|]. apply wp_ret.
    apply lookup_lt_Some in Eq. exists (length ps - S i)%nat. split; [lia|]. exists (S i). split_and!; try done; lia.
  - change (0 =? 0) with true. cbn [negb]. apply wp_ret. apply lookup_ge_None in Eq.
    by replace i with (length ps) by lia.
Qed.

(** The pointers stored so far. *)
Definition argv_inv (m : gmap Z Z) (r : Z) (o : gmap Z Z) (n : nat) (x : Z * Z) (s1 : uproc) : Prop :=
  exists m' i, x = (Z.of_nat i, default 0 (ps !! i)) /\ (i <= length ps)%nat /\ n = (length ps - i)%nat /\
    s1 = mk_uproc m' r o ty g sh la /\ changed a 4096 m m' /\
    forall j q, ps !! j = Some q -> (j < i)%nat -> holds m' (a + 4 * Z.of_nat j) (word_bytes q).

Lemma wp_fill_argv m r o (Q : unit -> uproc -> Prop) :
  chain m ps ws -> mapped m a (4 * S (length ps)) ->
  (forall m', changed a 4096 m m' ->
     (forall j q, ps !! j = Some q -> holds m' (a + 4 * Z.of_nat j) (word_bytes q)) ->
     Q tt (mk_uproc m' r o ty g sh la)) ->
  wp (loop_m (fun '(i, itr) =>
        if i <? Z.of_nat (length ps) then
          _ ← store32 (a + 4 * i) itr;
          next ← load32 (itr + off_next);
          mret (inl (i + 1, next))
        else mret (inr tt)) (0, default 0 (ps !! 0%nat))) (mk_uproc m r o ty g sh la) Q.
Proof.
  intros Hch Hm HQ. apply (wp_loop_idx (argv_inv m r o) _ (length ps)); [|lia|].
  { exists m, 0%nat. split_and!; try done; try lia. }
  intros n x s1 (m1 & i & -> & Hi & -> & -> & Hc & Hst).
  destruct (Z.ltb_spec (Z.of_nat i) (Z.of_nat (length ps))) as [Hlt|Hge].
  - destruct (lookup_lt_is_Some_2 ps i) as [q Eq]; [lia|]. rewrite Eq. simpl default.
    apply wp_bind, wp_store32.
    { intros j Hj. cbn [um]. apply (proj2 Hc). rewrite <- Z.add_assoc.
      replace (4 * Z.of_nat i + Z.of_nat j) with (Z.of_nat (4 * i + j)) by lia. apply Hm. lia. }
    cbn [um set_um remainder owned typed granted shown launched].
    set (m2 := fill (a + 4 * Z.of_nat i) (word_bytes q) m1).
    assert (Hc2 : changed a 4096 m m2).
    { eapply changed_trans; [exact Hc|]. eapply changed_weaken; [apply changed_fill|lia|]. cbn [length word_bytes]. lia. }
    apply wp_bind. eapply (wp_load_next m2 ps ws i q); [done| |exact Hpg|exact Eq|].
    { eapply chain_changed; [exact Hc2|exact Hna|exact Hch]. }
    apply wp_ret. exists (length ps - S i)%nat. split; [lia|]. exists m2, (S i).
    split; [f_equal; lia|]. split; [lia|]. split; [done|]. split; [done|]. split; [done|].
    intros j x Hj Hji. destruct (decide (j = i)) as [->|Hne].
    + rewrite Eq in Hj. injection Hj as <-. apply holds_fill.
    + apply holds_fill_apart; [|apply Hst; [done|lia]]. unfold apart. cbn [length word_bytes]. lia.
  - apply wp_ret. apply HQ; [done|]. intros j q Hj. apply Hst; [done|]. apply lookup_lt_Some in Hj. lia.
Qed.

Lemma wp_create_argv p w m r o c : chain m (p :: ps) (w :: ws) -> page p -> apart a 4096 p 132 -> layout m ->
  wp (create_argv_array literal str p c) (mk_uproc m r o ty (a :: g) sh la)
    (fun x s' => x = (a, Z.of_nat (length ps)) /\ exists m' o', s' = mk_uproc m' r o' ty g sh la /\
       chain m' (p :: ps) (w :: ws) /\ layout m' /\
       forall j q, ps !! j = Some q -> holds m' (a + 4 * Z.of_nat j) (word_bytes q)).
Proof.
  intros Hch Hp Hpa Hm. destruct (chain_tail _ _ _ _ _ Hch) as [Hn Hch'].
  assert (Hpp : Forall page (p :: ps)) by (by constructor).
  assert (Hap : Forall (fun p => apart a 4096 p 132) (p :: ps)) by (by constructor).
  unfold create_argv_array. cbv zeta. rewrite (proj2 (Z.eqb_neq p 0)) by (destruct Hp; lia). apply wp_bind.
  eapply (wp_load_next m (p :: ps) (w :: ws) 0); [done|done|done|done|]. simpl lookup.
  apply wp_bind. eapply wp_count; [exact Hch'|].
  assert (Ha0 : a <> 0) by (destruct Ha as [[? _] _]; lia).
  apply wp_bind, wp_malloc; [done|]. rewrite (proj2 (Z.eqb_neq a 0) Ha0). rewrite u32_small by lia.
  set (m1 := fill a _ m).
  assert (Hsz : Z.to_nat ((Z.of_nat (length ps) + 1) * 4) = (4 * S (length ps))%nat) by lia.
  assert (Hc1 : changed a 4096 m m1).
  { eapply changed_weaken; [apply changed_fill|lia|]. rewrite length_replicate, Hsz. lia. }
  assert (Hm1 : mapped m1 a (4 * S (length ps))).
  { rewrite <- Hsz. rewrite <- (length_replicate _ 0). apply (holds_mapped m1 a), holds_fill. }
  pose proof (chain_changed _ _ _ _ _ _ Hc1 Hap Hch) as Hch1.
  apply wp_bind. eapply (wp_load_next m1 (p :: ps) (w :: ws) 0); [done|done|done|done|]. simpl lookup.
  apply wp_bind. eapply wp_fill_argv; [exact (proj2 (chain_tail _ _ _ _ _ Hch1))|exact Hm1|].
  intros m2 Hc2 Hst. apply wp_bind, wp_store32.
  { intros j Hj. cbn [um]. apply (proj2 Hc2). rewrite <- Z.add_assoc.
    replace (4 * Z.of_nat (length ps) + Z.of_nat j) with (Z.of_nat (4 * length ps + j)) by lia. apply Hm1. lia. }
  cbn [um set_um remainder owned typed granted shown launched]. apply wp_ret. split; [done|].
  set (m3 := fill (a + 4 * Z.of_nat (length ps)) (word_bytes 0) m2).
  assert (Hc3 : changed a 4096 m m3).
  { eapply changed_trans; [exact Hc1|]. eapply changed_trans; [exact Hc2|].
    eapply changed_weaken; [apply changed_fill|lia|]. cbn [length word_bytes]. lia. }
  eexists m3, _. split; [done|]. split; [by eapply chain_changed|].
  split; [refine (layout_page _ _ _ _ Ha _ Hc3 Hm); lia|].
  intros j q Hj. apply holds_fill_apart; [|by apply Hst]. apply lookup_lt_Some in Hj.
  unfold apart. cbn [length word_bytes]. lia.
Qed.

End Argv.

(** ** Starting the program *)

Lemma wp_read_argv m ps ws : forall a (s : uproc) (Q : list (list Z) -> uproc -> Prop), um s = m ->
  Forall2 (fun q w => page q /\ string_at m q (take 128 w)) ps ws ->
  (forall j q, ps !! j = Some q -> holds m (a + 4 * Z.of_nat j) (word_bytes q)) ->
  Q (take 32 <$> ws) s -> wp (read_argv (length ps) a) s Q.
Proof.
  intros a s Q Hs H. revert a Q. induction H as [|q w ps ws [Hq Hw] H IH]; intros a Q Hh HQ; [exact HQ|].
  cbn [length]. unfold read_argv. apply wp_bind. eapply (wp_load_word a q).
  { destruct Hq as (? & _ & ?). lia. }
  { rewrite Hs. rewrite <- (Z.add_0_r a). by apply (Hh 0%nat). }
  apply wp_bind. eapply wp_read_string; [rewrite Hs; exact Hw|]. change (Z.to_nat Config.MAX_CMMD_ARG_LEN) with 32%nat.
  rewrite take_take. apply wp_bind. apply (IH (a + 4)).
  - intros j x Hj. replace (a + 4 + 4 * Z.of_nat j) with (a + 4 * Z.of_nat (S j)) by lia. by apply Hh.
  - apply wp_ret. exact HQ.
Qed.

Lemma wp_execve m r o g p w ps ws a (Q : unit -> uproc -> Prop) :
  chain m (p :: ps) (w :: ws) -> Forall page (p :: ps) -> (length ps < 128)%nat ->
  (forall j q, ps !! j = Some q -> holds m (a + 4 * Z.of_nat j) (word_bytes q)) ->
  Q tt (mk_uproc m r o ty g sh (la ++ [Launch (take 128 w) (take 32 <$> ws)])) ->
  wp (coniferos_execve p a (Z.of_nat (length ps))) (mk_uproc m r o ty g sh la) Q.
Proof.
  intros Hch Hpg Hl Hst HQ. destruct (chain_tail _ _ _ _ _ Hch) as [[Hw _] [Hlen Htl]].
  apply Forall_cons_1 in Hpg as [Hp Hpg]. unfold coniferos_execve, Config.MAX_CMMD_ARG_LEN.
  rewrite (proj2 (Z.ltb_ge _ _)), Z.geb_leb, (proj2 (Z.leb_gt _ _)) by lia. cbn [orb].
  apply wp_bind. eapply wp_read_string; [exact Hw|]. change (Z.to_nat MAX_FILE_PATH_CHARS) with 128%nat.
  rewrite take_take. apply wp_bind. rewrite Nat2Z.id. eapply (wp_read_argv m ps ws); [done| |done|].
  - apply Forall2_same_length_lookup_2; [done|]. intros i q u Hq Hu.
    split; [by eapply Forall_lookup in Hq; [|exact Hpg]|]. exact (proj1 (Htl i q u Hq Hu)).
  - apply wp_modify. exact HQ.
Qed.

End Program.

(** ** A command *)

(** What the shell starts for a line. *)
Definition words_of_line (line : list Z) : list (list Z) := split 32 (prefix_text ++ line).
Definition run_line (line : list Z) : launch :=
  match words_of_line line with
  | w :: ws => Launch (take 128 w) (take 32 <$> ws)
  | [] => Launch [] []
  end.

(** The line has a program and fewer than 128 arguments, and was ended before
    the buffer was full. *)
Definition line_fits (line : list Z) : Prop :=
  (length line < 1021)%nat /\ (length (words_of_line line) <= 128)%nat.

#[export] Instance line_fits_dec line : Decision (line_fits line).
Proof. unfold line_fits. apply _. Defined.

(** Keys that are bytes make a line of characters. *)
Lemma edit_chars max keys : forall line l echo rest,
  Forall CString.char_byte line -> Forall byte keys -> edit max line keys = Some (l, echo, rest) ->
  Forall CString.char_byte l /\ Forall byte rest /\ (length rest <= length keys)%nat.
Proof.
  induction keys as [|k keys IH]; intros line l echo rest Hl Hk He; cbn [edit] in He; (case_decide; [by simplify_eq|]).
  { done. }
  apply Forall_cons_1 in Hk as [Hk Hks]. unfold byte in Hk.
  destruct (Z.eqb_spec k 0).
  { destruct (IH _ _ _ _ Hl Hks He) as (? & ? & ?). split_and!; [done..|simpl; lia]. }
  destruct (s8 k =? 13); [simplify_eq; split_and!; [done..|simpl; lia]|].
  destruct (edit max (edit_char k line) keys) as [[[l' e'] r']|] eqn:E; [|done]. simpl in He. simplify_eq.
  assert (Hec : Forall CString.char_byte (edit_char k line));
    [|destruct (IH _ _ _ _ Hec Hks E) as (? & ? & ?); split_and!; [done..|simpl; lia]].
  unfold edit_char. destruct (_ && _).
  - destruct line as [|x line _] using rev_ind; [done|]. rewrite removelast_last. by apply Forall_app in Hl as [? _].
  - apply Forall_app. split; [done|]. constructor; [|done]. unfold CString.char_byte. rewrite u8_small by lia. lia.
Qed.

Section Session.
Context (literal : list Z -> Z) (path_buf token_buf str : Z) (z : list Z).
Hypothesis Hplaced : placed literal path_buf token_buf str z.
#[local] Abbreviation layout := (layout literal path_buf token_buf str z).
#[local] Abbreviation free_page := (free_page literal path_buf token_buf str z).

(** A literal printed as it is. *)
Lemma wp_print_literal t m r o ty g sh la (Q : Z -> uproc -> Prop) :
  t ∈ literals -> format t [] = Some t -> (length t < 128)%nat -> layout m ->
  (forall m', layout m' -> Q 0 (mk_uproc m' r o ty g (sh ++ t) la)) ->
  wp (printf str (literal t) []) (mk_uproc m r o ty g sh la) Q.
Proof.
  intros Ht Hf Hl Hm HQ.
  assert (Happ : apart str 12 (literal t) (S (length t))).
  { destruct Hplaced as [_ _ H _]. unfold arrays in H. do 2 apply Forall_cons_1 in H as [_ H].
    apply Forall_cons_1 in H as [H _]. apply Forall_cons_1 in H as [_ H].
    apply (proj1 (Forall_forall _ _) H (literal t, S (length t))). apply list_elem_of_fmap. by exists t. }
  eapply wp_mono.
  { apply (wp_printf _ str (literal t) [] t [] t); [by apply (layout_literals _ _ _ _ _ _ Hm)|done|constructor|done|lia|].
    apply (layout_str _ _ _ _ _ _ Hm). }
  intros x s' (-> & m' & [Hmap Hsame] & ->). apply HQ.
  apply (layout_array _ _ _ _ _ Hplaced str 12 12 m m'); [do 2 right; left|done| |done].
  by apply changed_area.
Qed.

(** The prefix and the line after it. *)
Lemma wp_command_line {A} m r o ty g sh la line echo rest (k : U A) (Q : A -> uproc -> Prop) :
  layout m -> edit 1021 [] ty = Some (line, echo, rest) -> (length line < 1021)%nat ->
  Forall byte ty -> Z.of_nat (length ty) < 2147483648 ->
  (forall m', layout m' -> string_at m' path_buf (prefix_text ++ line) ->
     wp k (mk_uproc m' r o rest g (sh ++ echo) la) Q) ->
  wp (len ← strlen (literal prefix_text);
      _ ← strncpy path_buf (literal prefix_text) len;
      _ ← coniferos_terminal_readline (path_buf + len) (1024 - len);
      k) (mk_uproc m r o ty g sh la) Q.
Proof.
  intros Hm He Hl Hty Htl HQ.
  assert (Hpre : prefix_text ∈ literals) by (do 2 right; left).
  assert (Happ : apart path_buf 1024 (literal prefix_text) 4).
  { destruct Hplaced as [_ _ H _]. unfold arrays in H. apply Forall_cons_1 in H as [H _].
    apply Forall_cons_1 in H as [_ H].
    apply (proj1 (Forall_forall _ _) H (literal prefix_text, 4%nat)). apply list_elem_of_fmap. by exists prefix_text. }
  apply wp_bind. eapply wp_strlen; [by apply (layout_literals _ _ _ _ _ _ Hm)|simpl; lia|].
  change (Z.of_nat (length prefix_text)) with 3. apply wp_bind.
  eapply (wp_strncpy path_buf (literal prefix_text) prefix_text 3); [by apply (layout_literals _ _ _ _ _ _ Hm)|lia| | |];
    change (take (Z.to_nat 3) prefix_text) with prefix_text.
  { intros i Hi. apply (layout_path _ _ _ _ _ _ Hm). simpl in Hi. lia. }
  { unfold apart in *. simpl length. lia. }
  cbn [um set_um remainder owned typed granted shown launched]. set (m1 := fill path_buf (prefix_text ++ [0]) m).
  assert (Hc1 : changed path_buf 1024 m m1) by (eapply changed_weaken; [apply changed_fill|lia|simpl; lia]).
  assert (Hm1 : layout m1).
  { by apply (layout_array _ _ _ _ _ Hplaced path_buf 1024 1024 m m1); [left| | |]. }
  apply wp_bind. eapply wp_mono.
  { apply (wp_readline _ (path_buf + 3) (1024 - 3) 1021 line echo rest); [done|lia|lia| |exact He].
    intros i Hi. rewrite <- Z.add_assoc. replace (3 + Z.of_nat i) with (Z.of_nat (3 + i)) by lia.
    apply (layout_path _ _ _ _ _ _ Hm1). lia. }
  intros [] s' (m2 & (Hh & Hmap & Hsame) & ->).
  assert (Hc2 : changed path_buf 1024 m1 m2).
  { eapply changed_weaken; [apply (changed_area (path_buf + 3) 1021); [exact Hsame|exact Hmap]|lia|lia]. }
  apply HQ.
  - by apply (layout_array _ _ _ _ _ Hplaced path_buf 1024 1024 m1 m2); [left| | |].
  - destruct (edit_chars _ _ _ _ _ _ (Forall_nil_2 _) Hty He) as (Hlc & _).
    split; [apply Forall_app; split; [by repeat constructor|done]|]. rewrite <- app_assoc. apply holds_app.
    split; [|exact Hh]. intros i b Hi. pose proof (lookup_lt_Some _ _ _ Hi) as Hlt. simpl in Hlt.
    rewrite Hsame by lia. apply (holds_fill (prefix_text ++ [0]) path_buf m). by apply lookup_app_l_Some.
Qed.

(** One turn of the shell. *)
Lemma wp_command m r o ty ps a g sh la line echo rest :
  layout m -> edit 1021 [] ty = Some (line, echo, rest) -> line_fits line ->
  Forall byte ty -> Z.of_nat (length ty) < 2147483648 ->
  length ps = length (words_of_line line) -> Forall free_page (ps ++ [a]) -> NoDup (ps ++ [a]) ->
  wp (command literal path_buf token_buf str) (mk_uproc m r o ty (ps ++ a :: g) sh la)
    (fun _ s' => exists m' r' o', layout m' /\
       s' = mk_uproc m' r' o' rest g (sh ++ prompt_text ++ echo) (la ++ [run_line line])).
Proof.
  intros Hm He [Hl1 Hl2] Hty Htl Hps Hpg Hnd. unfold command. apply wp_bind.
  apply wp_print_literal; [right; left|done|simpl; lia|done|]. intros m1 Hm1. cbv zeta.
  eapply wp_command_line; [exact Hm1|exact He|done|done|done|]. intros m2 Hm2 Ht2.
  assert (Htl2 : (length (prefix_text ++ line) < 1024)%nat) by (rewrite length_app; simpl; lia).
  pose proof Hpg as Hpg'. apply Forall_app in Hpg' as [Hpf Ha]. apply Forall_cons_1 in Ha as [Ha _].
  assert (Hnd' : NoDup ps) by (by apply NoDup_app in Hnd as (? & _)).
  apply wp_bind. eapply wp_mono.
  { eapply (wp_parse_command literal path_buf token_buf str z Hplaced); try done. exact (proj1 Ht2). }
  intros root s' (Hroot & m3 & o3 & -> & Hch & Hm3).
  destruct ps as [|p ps]; [done|]. injection Hroot as <-. unfold run_line. fold (words_of_line line) in Hch.
  destruct (words_of_line line) as [|w ws]; [done|]. simpl in Hps, Hl2.
  assert (Hpages : Forall page ((p :: ps) ++ [a])) by (eapply Forall_impl; [exact Hpg|by intros x [? _]]).
  pose proof (pages_far 4096 (p :: ps) a ltac:(lia) Hpages Hnd) as Hfar.
  apply Forall_app in Hpages as [Hpages _]. apply Forall_cons_1 in Hfar as [Hfp Hfps].
  pose proof (Forall_cons_1 _ _ _ Hpages) as [Hp0 Hps0].
  apply wp_bind. eapply wp_mono.
  { eapply (wp_create_argv literal path_buf token_buf str z _ _ _ a ps g ws); try done. lia. }
  intros x s' (-> & m4 & o4 & -> & Hch4 & Hm4 & Hst).
  eapply wp_execve; [exact Hch4|done|lia|exact Hst|].
  exists m4, 0, o4. split; [done|]. by rewrite <- app_assoc.
Qed.

(** What a user sees and starts in [n] turns, given the keys: the screen, the
    programs, the number of pages the shell asks for, and the keys left. *)
Fixpoint session (n : nat) (keys : list Z) : option (list Z * list launch * nat * list Z) :=
  match n with
  | O => Some ([], [], 0%nat, keys)
  | S n' =>
      '(line, echo, rest) ← edit 1021 [] keys;
      if decide (line_fits line) then
        '(text, started, pages, rest') ← session n' rest;
        Some (prompt_text ++ echo ++ text, run_line line :: started,
              (S (length (words_of_line line)) + pages)%nat, rest')
      else None
  end.

Lemma wp_turns n : forall i m r o ty ps g sh la text started pages rest,
  layout m -> session n ty = Some (text, started, pages, rest) ->
  Forall byte ty -> Z.of_nat (length ty) < 2147483648 ->
  length ps = pages -> Forall free_page ps -> NoDup ps ->
  wp (for_loop n i (fun _ => command literal path_buf token_buf str)) (mk_uproc m r o ty (ps ++ g) sh la)
    (fun _ s' => exists m' r' o', layout m' /\ s' = mk_uproc m' r' o' rest g (sh ++ text) (la ++ started)).
Proof.
  induction n as [|n IH]; intros i m r o ty ps g sh la text started pages rest Hm Hs Hty Htl Hps Hpg Hnd.
  { injection Hs as <- <- <- <-. apply nil_length_inv in Hps as ->. apply wp_ret. rewrite !app_nil_r. eauto. }
  cbn [session] in Hs. destruct (edit 1021 [] ty) as [[[line echo] rest1]|] eqn:He; [|done]. simpl in Hs.
  case_decide as Hf; [|done]. destruct (session n rest1) as [[[[text1 started1] pages1] rest2]|] eqn:Hs1; [|done].
  injection Hs as <- <- <- <-.
  set (k := length (words_of_line line)) in *. pose proof (take_drop k ps) as E.
  destruct (drop k ps) as [|a ps2] eqn:Ed.
  { apply (f_equal length) in Ed. rewrite length_drop in Ed. simpl in Ed. lia. }
  assert (Hk : length (take k ps) = k) by (rewrite length_take; lia).
  assert (Hl2 : length ps2 = pages1).
  { apply (f_equal length) in Ed. rewrite length_drop in Ed. simpl in Ed. lia. }
  rewrite <- E in Hpg, Hnd. change (a :: ps2) with ([a] ++ ps2) in Hpg, Hnd. rewrite app_assoc in Hpg, Hnd.
  apply Forall_app in Hpg as [Hpg1 Hpg2]. apply NoDup_app in Hnd as (Hnd1 & _ & Hnd2).
  destruct (edit_chars _ _ _ _ _ _ (Forall_nil_2 _) Hty He) as (_ & Hty1 & Hlr).
  rewrite <- E, <- app_assoc. cbn [for_loop]. apply wp_bind. eapply wp_mono.
  { eapply (wp_command m r o ty (take k ps) a (ps2 ++ g)); try done. }
  intros [] s' (m1 & r1 & o1 & Hm1 & ->). eapply wp_mono.
  { eapply (IH (i + 1) m1 r1 o1 rest1 ps2 g); try done. lia. }
  intros [] s' (m' & r' & o' & Hm' & ->). exists m', r', o'. split; [done|]. by rewrite <- !app_assoc.
Qed.

End Session.

(** ** Theorems *)

Definition banner : list Z := title_text ++ rule_text ++ hint_text ++ rule2_text.

(** C3 (refinement): a session of the shell.  For every sequence of keys that
    makes [n] command lines, each ended before its buffer is full and with fewer
    than 128 arguments, the shell shows its banner, the prompts and the edited
    keys, and starts, in order, the programs the lines name: the words between
    single blanks, the first with the drive in front and cut at 128 characters,
    the arguments cut at the kernel's 32.  The kernel must have answered its
    requests with free pages, one per word and one for the argument array of each
    line; none is given back. *)
Theorem shell_session (literal : list Z -> Z) (path_buf token_buf str : Z) (z : list Z) (n : nat) (s : uproc)
    (ps g text rest : list Z) (started : list launch)
    (Hplaced : placed literal path_buf token_buf str z)
    (Hm : layout literal path_buf token_buf str z (um s))
    (Hkeys : Forall byte (typed s)) (Hlen : Z.of_nat (length (typed s)) < 2147483648)
    (Hsession : session n (typed s) = Some (text, started, length ps, rest))
    (Hgranted : granted s = ps ++ g) (Hpages : Forall (free_page literal path_buf token_buf str z) ps)
    (Hdistinct : NoDup ps) :
  exists m' r' o', main literal path_buf token_buf str n s =
    Ok (tt, mk_uproc m' r' o' rest g (shown s ++ banner ++ text) (launched s ++ started)).
Proof.
  destruct s as [m r o ty gr sh la]. simpl in *. subst gr.
  assert (H : wp (main literal path_buf token_buf str n) (mk_uproc m r o ty (ps ++ g) sh la) (fun _ s' => exists m' r' o',
    s' = mk_uproc m' r' o' rest g (sh ++ banner ++ text) (la ++ started))).
  { unfold main. repeat (apply wp_bind; eapply (wp_print_literal literal path_buf token_buf str z Hplaced);
      [unfold literals; set_solver|reflexivity|simpl; lia|eassumption|]; clear Hm; intros ? Hm).
    eapply wp_mono; [by eapply (wp_turns literal path_buf token_buf str z Hplaced)|].
    intros [] s' (m9 & r9 & o9 & _ & ->). exists m9, r9, o9. unfold banner. by rewrite <- !app_assoc. }
  destruct (wp_run _ _ _ H) as ([] & s' & Hrun & m9 & r9 & o9 & ->). by exists m9, r9, o9.
Qed.

(** A program in memory, with pages the kernel will hand out, and a user who
    types one command. *)
Definition lit (t : list Z) : Z :=
  4194304 + 64 * Z.of_nat (default 0%nat (fst <$> list_find (eq t) literals)).
Definition sample_memory : gmap Z Z :=
  foldr (fun t => fill (lit t) (t ++ [0]))
    (fill 8192 (replicate 1024 7) (fill 12288 (replicate 1024 7) (fill 16384 (replicate 12 7) (fill 0 [83; 255; 0; 240] ∅))))
    literals.
Definition sample_pages : list Z := [16777216; 16781312; 16785408].
Definition sample_shell : uproc :=
  mk_uproc sample_memory 0 ∅ (chars "ECHO.ELF HELLO" ++ [13]) sample_pages [] [].

#[local] Transparent fill.

Lemma shell_sample_holds p bs : bytes_from sample_memory p (length bs) = Some bs -> holds sample_memory p bs.
Proof. apply bytes_from_holds_2. Qed.

Lemma sample_placed : placed lit 8192 12288 16384 [83; 255].
Proof.
  split; [lia|unfold apart; simpl; lia| |simpl; lia].
  apply (bool_decide_eq_true_1 (Forall (fun x => Forall (fun y => apart x.1 x.2 y.1 y.2) _) _)). vm_compute. reflexivity.
Qed.

Lemma sample_layout : layout lit 8192 12288 16384 [83; 255] sample_memory.
Proof.
  split.
  - apply (holds_mapped _ _ (replicate 1024 7)), shell_sample_holds. vm_compute. reflexivity.
  - apply (holds_mapped _ _ (replicate 1024 7)), shell_sample_holds. vm_compute. reflexivity.
  - apply (holds_mapped _ _ (replicate 12 7)), shell_sample_holds. vm_compute. reflexivity.
  - split; [by repeat constructor|]. apply shell_sample_holds. vm_compute. reflexivity.
  - apply Forall_forall. unfold literals. repeat constructor; apply shell_sample_holds; vm_compute; reflexivity.
Qed.

Lemma shell_session_witness : exists m' r' o',
  main lit 8192 12288 16384 1 sample_shell =
    Ok (tt, mk_uproc m' r' o' [] [] (banner ++ prompt_text ++ chars "ECHO.ELF HELLO")
              [Launch (chars "0:/ECHO.ELF") [chars "HELLO"]]).
Proof.
  refine (shell_session lit 8192 12288 16384 [83; 255] 1 sample_shell sample_pages [] _ []
    [Launch (chars "0:/ECHO.ELF") [chars "HELLO"]] sample_placed sample_layout _ _ _ _ _ _).
  - apply (bool_decide_eq_true_1 (Forall (fun b => 0 <= b < 256) _)). vm_compute. reflexivity.
  - simpl. lia.
  - vm_compute. reflexivity.
  - reflexivity.
  - apply (bool_decide_eq_true_1 (Forall (fun p => (0 < p /\ p mod 4096 = 0 /\ p + 4096 <= 4294967296) /\
      Forall (fun y => apart p 4096 y.1 y.2) _ /\ Forall (fun y => apart p 4096 y.1 y.2) _) _)). vm_compute. reflexivity.
  - apply (bool_decide_eq_true_1 (NoDup sample_pages)). vm_compute. reflexivity.
Defined.

(** Nothing is freed: the tokens and the argument array stay allocated. *)
Example shell_keeps_pages :
  match main lit 8192 12288 16384 1 sample_shell with
  | Ok (_, s') => size (owned s') = 3%nat
  | _ => False
  end.
Proof. vm_compute. reflexivity. Qed.

(** Without memory the token list is null, and the shell starts the program named
    by the bytes at address 0. *)
Example shell_without_memory :
  match main lit 8192 12288 16384 1 (set_granted [] sample_shell) with
  | Ok (_, s') => launched s' = [Launch [83; 255] []]
  | _ => False
  end.
Proof. vm_compute. reflexivity. Qed.

(** When memory ends at the second token the first is freed and the null list
    returned. *)
Example shell_memory_ends :
  match main lit 8192 12288 16384 1 (set_granted [16777216] sample_shell) with
  | Ok (_, s') => launched s' = [Launch [83; 255] []] /\ size (owned s') = 0%nat
  | _ => False
  end.
Proof. vm_compute. done. Qed.

(** Two blanks are an empty argument between them. *)
Example shell_two_blanks : run_line (chars "LS  X") = Launch (chars "0:/LS") [[]; chars "X"].
Proof. vm_compute. reflexivity. Qed.

(** A full line: the terminator is written behind the buffer. *)
Example shell_long_line :
  main lit 8192 12288 16384 1 (set_typed (replicate 1021 65) sample_shell) = Fault.
Proof. vm_compute. reflexivity. Qed.

End ShellProofs.
