(* ===== verification/Echo.v ===== *)
(** * The echo program: [src/user_programs/echo/src/echo.c]

    The arguments the kernel passed are printed one per line, each as a format
    string. *)
From stdpp Require Import base gmap list numbers strings.
From S2P Require Import Prelude CString UserProc UserString UserIO.
#[local] Open Scope Z_scope.

Module Echo.
Import UserProc UserString UserIO.

#[local] Abbreviation U := (M uproc).

Section Program.

(** The string literal and the array of [printf]. *)
Variables (newline str : Z).

Definition main (argc argv : Z) : U Z :=
  _ ← loop_m (fun i =>
    if i <? argc then
      _ ← printf str newline [];
      p ← load32 (argv + 4 * i);
      _ ← printf str p [];
      mret (inl (i + 1))
    else mret (inr tt)) 0;
  _ ← printf str newline [];
  mret 0.

(** ** What it prints *)

Context (s : uproc).
Hypothesis Hstr : mapped (um s) str 12.
Hypothesis Hnl : string_at (um s) newline [10] /\ apart str 12 newline 2.

(** The state between two calls of [printf]. *)
Definition echoed (t : list Z) (s1 : uproc) : Prop :=
  exists m, only_str s str m /\ s1 = set_shown (shown s ++ t) (set_um m s).

Lemma wp_echo_text p t text done s1 : echoed done s1 -> string_at (um s) p t -> apart str 12 p (S (length t)) ->
  Z.of_nat (length t) < 2147483648 -> format t [] = Some text ->
  wp (printf str p []) s1 (fun _ s2 => echoed (done ++ text) s2).
Proof.
  intros (m & Hm & ->) Hp Ha Hl Hf.
  pose proof (only_str_string s str m p t Hm Ha Hp) as Hp'.
  eapply wp_mono.
  { apply (wp_printf _ str p [] t [] text); [exact Hp'|exact Ha|constructor|exact Hf|exact Hl|apply Hm]. }
  intros x s' (_ & m' & [Hm1 Hm2] & ->). exists m'. split.
  - split; [exact Hm1|]. intros a Hna. rewrite (Hm2 a Hna). by apply Hm.
  - unfold printed. simpl. by rewrite <- app_assoc.
Qed.

(** Every argument is printed on a line of its own, after formatting. *)
Lemma wp_main argv (ps : list Z) (ts us : list (list Z)) :
  Forall2 (fun p t => 0 <= p < 4294967296 /\ string_at (um s) p t /\ apart str 12 p (S (length t)) /\
    Z.of_nat (length t) < 2147483648) ps ts ->
  Forall2 (fun t u => format t [] = Some u) ts us ->
  (forall i p, ps !! i = Some p -> holds (um s) (argv + 4 * Z.of_nat i) (word_bytes p) /\
     apart str 12 (argv + 4 * Z.of_nat i) 4) ->
  Z.of_nat (length ps) < 2147483648 ->
  wp (main (Z.of_nat (length ps)) argv) s (fun r s' => r = 0 /\
    exists m', only_str s str m' /\
      s' = set_shown (shown s ++ concat (map (cons 10) us) ++ [10]) (set_um m' s)).
Proof.
  intros Hts Hus Hargv Hl. destruct Hnl as [Hn Hna].
  pose proof (Forall2_length _ _ _ Hts) as L1. pose proof (Forall2_length _ _ _ Hus) as L2.
  apply wp_bind.
  apply (wp_loop_idx (fun n i s1 => exists k, i = Z.of_nat k /\ (k <= length ps)%nat /\ n = (length ps - k)%nat /\
    echoed (concat (map (cons 10) (take k us))) s1) _ (length ps)); [|lia|].
  { exists 0%nat. split_and!; [done|lia|lia|]. exists (um s). split; [by split|]. simpl. rewrite app_nil_r. by destruct s. }
  intros n i s1 (k & -> & Hk & -> & He).
  destruct (Z.ltb_spec (Z.of_nat k) (Z.of_nat (length ps))) as [Hlt|Hge].
  - destruct (lookup_lt_is_Some_2 ps k) as [p Hp]; [lia|]. destruct (lookup_lt_is_Some_2 us k) as [u Hu]; [lia|].
    destruct (Forall2_lookup_l _ _ _ _ _ Hts Hp) as (t & Ht & Hp0 & Hps & Hpa & Hpl).
    destruct (Forall2_lookup_l _ _ _ _ _ Hus Ht) as (u' & Hu' & Hf). rewrite Hu in Hu'. injection Hu' as <-.
    apply wp_bind. eapply wp_mono; [by eapply (wp_echo_text newline [10] [10]); [| | |simpl; lia|]|].
    intros x2 s2 He2. destruct (Hargv k p Hp) as [Hw Hwa]. apply wp_bind. eapply (wp_load_word _ p); [lia| |].
    { destruct He2 as (m & Hm & ->). exact (holds_changed str 12 (um s) m _ (word_bytes p) (changed_area str 12 _ _ (proj2 Hm) (proj1 Hm)) Hwa Hw). }
    apply wp_bind. eapply wp_mono; [eapply (wp_echo_text p t u); [exact He2|exact Hps|exact Hpa|exact Hpl|exact Hf]|]. intros x3 s3 He3. apply wp_ret.
    exists (length ps - S k)%nat. split; [lia|]. exists (S k). split_and!; [lia|lia|done|].
    rewrite (take_S_r _ _ _ Hu), map_app, concat_app. simpl. rewrite app_nil_r.
    by rewrite <- app_assoc in He3.
  - apply wp_ret. apply wp_bind. rewrite take_ge in He by lia.
    eapply wp_mono; [by eapply (wp_echo_text newline [10] [10]); [| | |simpl; lia|]|].
    intros x2 s2 (m & Hm & ->). apply wp_ret. split; [done|]. by exists m.
Qed.

End Program.

(** An argument is a format string: one with a conversion makes [printf] read an
    argument that was not passed. *)
Example echo_format :
  main 100 200 1 300 (mk_uproc (fill 100 [10; 0] (fill 200 (replicate 12 0) (fill 300 (word_bytes 400)
    (fill 400 [37; 115; 0] ∅)))) 0 ∅ [] [] [] []) = Fault.
Proof. vm_compute. reflexivity. Qed.

End Echo.
