(* ===== verification/TestLib.v ===== *)
(** * The library's test program: [src/user_programs/test_stdlib/tstlib.c]

    The tests that [main] has commented out are functions of the program too;
    each is run below on a concrete memory. *)
From stdpp Require Import base gmap list numbers strings.
From S2P Require Import Prelude CString UserLib UserProc UserString UserIO.
#[local] Open Scope Z_scope.

Module TestLib.
Import UserProc UserString UserIO.

#[local] Abbreviation U := (M uproc).

Section Program.

(** Where the string literals, the array of [printf] and the local arrays are. *)
Variables (literal : list Z -> Z) (printf_str str token_buf path_buf args : Z).

Definition line (t : string) : list Z := chars t ++ [10].

Definition test_malloc_and_free : U unit :=
  ptr ← malloc 512;
  _ ← (if negb (ptr =? 0) then print (literal (line "Memory was allocated")) else mret tt);
  free ptr.

Definition test_itoa : U unit :=
  _ ← print (literal (line "Testing itoa........."));
  _ ← memset str 0 12;
  _ ← on_buffer str 12 (UserLib.itoa 12345);
  _ ← print str;
  print (literal [10]).

(** The second [print] is given a character where it expects a pointer. *)
Definition test_putchar : U unit :=
  _ ← print (literal (line "Testing putchar........."));
  _ ← putchar 90;
  print 10.

Definition test_printf : U unit :=
  _ ← printf printf_str (literal (line "This is a %s test. Here is a random integer: %i"))
        [literal (chars "printf"); 10];
  mret tt.

(** The local array [str] is initialised from the literal. *)
Definition test_strtok : U unit :=
  _ ← print (literal (line "Testing strtok"));
  _ ← strcpy str (literal (chars "ConiferOS C standard library"));
  token ← strtok str 32 token_buf;
  _ ← loop_m (fun token =>
    if negb (token =? 0) then
      _ ← printf printf_str (literal (line "Token: %s")) [token];
      _ ← memset token_buf 0 1024;
      token ← strtok 0 32 token_buf;
      mret (inl token)
    else mret (inr tt)) token;
  print (literal (line "End of strtok test")).

Definition test_exec_with_args : U unit :=
  _ ← strcpy path_buf (literal (chars "0:/echo.elf"));
  _ ← store32 args (literal (chars "first_argument"));
  _ ← store32 (args + 4) 0;
  coniferos_execve path_buf args 1.

(** [main] up to its [n]th look at the keyboard. *)
Definition main (n : nat) : U unit :=
  _ ← print (literal (line "Hello from the standard library test!"));
  _ ← test_exec_with_args;
  for_loop n 0 (fun _ =>
    key ← coniferos_get_key;
    if negb (key =? 0) then print (literal (line "Key was pressed")) else mret tt).

End Program.

(** ** The program's answers to its keys *)

Section Keys.
Context (literal : list Z -> Z) (path_buf args : Z).
#[local] Abbreviation hello := (line "Hello from the standard library test!").
#[local] Abbreviation pressed := (line "Key was pressed").
#[local] Abbreviation echo_elf := (chars "0:/echo.elf").
#[local] Abbreviation first := (chars "first_argument").

(** One line is shown for every key found, none for a look that finds none. *)
Definition answers (n : nat) (keys : list Z) : list Z :=
  concat (map (fun k => if k =? 0 then [] else pressed) (take n keys)).

Lemma wp_keys n : forall i s, string_at (um s) (literal pressed) pressed ->
  wp (for_loop n i (fun _ =>
    key ← coniferos_get_key;
    if negb (key =? 0) then print (literal pressed) else mret tt)) s
    (fun _ s' => s' = set_shown (shown s ++ answers n (typed s)) (set_typed (drop n (typed s)) s)).
Proof.
  induction n as [|n IH]; intros i s Hs; cbn [for_loop].
  - apply wp_ret. unfold answers. simpl. rewrite app_nil_r. by destruct s.
  - apply wp_bind, wp_bind. destruct s as [m r o ty gr sh la]. destruct ty as [|k ty].
    + apply (wp_of_run _ _ 0 (mk_uproc m r o [] gr sh la)); [reflexivity|].
      change (negb (0 =? 0)) with false. cbv iota. apply wp_ret. eapply wp_mono; [by apply IH|].
      intros _ s' ->. unfold answers. simpl. by rewrite !take_nil, !drop_nil.
    + apply (wp_of_run _ _ k (mk_uproc m r o ty gr sh la)); [reflexivity|].
      unfold answers. cbn [typed take drop map concat]. destruct (Z.eqb_spec k 0) as [->|Hk]; cbn [negb].
      * apply wp_ret. eapply wp_mono; [by apply IH|]. intros _ s' ->. reflexivity.
      * eapply wp_print; [exact Hs|]. eapply wp_mono; [by apply IH|]. intros _ s' ->.
        unfold set_shown, set_typed, answers. simpl. by rewrite <- app_assoc.
Qed.

(** The memory of the program: its literals, and apart from them and from each
    other the arrays it writes. *)
Record prepared (m : gmap Z Z) (old : list Z) : Prop := {
  p_hello : string_at m (literal hello) hello;
  p_pressed : string_at m (literal pressed) pressed /\ apart path_buf 12 (literal pressed) 17 /\ apart args 8 (literal pressed) 17;
  p_echo : string_at m (literal echo_elf) echo_elf /\ apart path_buf 12 (literal echo_elf) 12;
  p_first : string_at m (literal first) first /\ apart path_buf 12 (literal first) 15 /\ apart args 8 (literal first) 15 /\
    0 <= literal first < 4294967296;
  p_path : holds m path_buf old /\ length old = 12%nat;
  p_args : mapped m args 8 /\ apart args 8 path_buf 12
}.

Lemma copy_echo_elf old : length old = 12%nat -> CString.strcpy old (echo_elf ++ [0]) = Ok (echo_elf ++ [0]).
Proof.
  intros H. do 12 (destruct old as [|? old]; [done|]). destruct old; [|done]. vm_compute. reflexivity.
Qed.

Lemma wp_test_exec s old : prepared (um s) old ->
  wp (test_exec_with_args literal path_buf args) s (fun _ s' =>
    string_at (um s') (literal pressed) pressed /\
    s' = set_launched (launched s ++ [Launch echo_elf [first]]) (set_um (um s') s)).
Proof.
  intros [_ (Hp & Hp1 & Hp2) [[_ He] He1] (Hf & Hf1 & Hf2 & Hf3) [Ho Hol] [Ha Ha1]].
  unfold test_exec_with_args. apply wp_bind. eapply wp_of_run.
  { eapply strcpy_agree; [exact Ho|exact He|by repeat constructor|by rewrite Hol|simpl; lia|by apply copy_echo_elf]. }
  assert (Hh : string_at (fill path_buf (echo_elf ++ [0]) (um s)) path_buf echo_elf) by (apply string_at_fill; by repeat constructor).
  apply (string_at_fill_apart (echo_elf ++ [0]) path_buf) in Hp, Hf; [|done..].
  apply (mapped_fill (echo_elf ++ [0]) path_buf) in Ha.
  set (m1 := fill path_buf _ _) in *. clearbody m1.
  assert (Ha4 : mapped m1 args 4) by (intros i Hi; apply Ha; lia).
  assert (Hb4 : mapped m1 (args + 4) 4) by (intros i Hi; pose proof (Ha (4 + i)%nat ltac:(lia)) as Hx; by rewrite Nat2Z.inj_add, Z.add_assoc in Hx).
  apply wp_bind, wp_store32; [exact Ha4|]. apply wp_bind, wp_store32; [by apply mapped_fill|]. cbn [um set_um].
  set (m2 := fill (args + 4) _ _).
  assert (Hc : changed args 8 m1 m2).
  { apply changed_trans with (fill args (word_bytes (literal first)) m1);
      (eapply changed_weaken; [apply changed_fill|simpl; lia|simpl; lia]). }
  apply (string_at_changed _ _ _ _ _ _ Hc) in Hp, Hf, Hh; [|done..].
  assert (Hw : holds m2 args (word_bytes (literal first))) by (apply holds_fill_apart; [right; simpl; lia|apply holds_fill]).
  unfold coniferos_execve. change (_ || _) with false. cbv iota.
  apply wp_bind. eapply wp_read_string; [exact Hh|]. apply wp_bind. change (Z.to_nat 1) with 1%nat. unfold read_argv.
  apply wp_bind. eapply (wp_load_word args); [exact Hf3|exact Hw|]. apply wp_bind. eapply wp_read_string; [exact Hf|].
  apply wp_bind, wp_ret, wp_ret. apply wp_modify. split; [exact Hp|reflexivity].
Qed.

(** The program starts the echo program once and then answers the keys. *)
Lemma wp_test_main n s old : prepared (um s) old ->
  wp (main literal path_buf args n) s (fun _ s' =>
    shown s' = shown s ++ hello ++ answers n (typed s) /\ typed s' = drop n (typed s) /\
    launched s' = launched s ++ [Launch echo_elf [first]]).
Proof.
  intros Hp. unfold main. apply wp_bind. eapply wp_print; [apply Hp|]. apply wp_bind.
  eapply wp_mono; [by apply (wp_test_exec _ old)|]. intros _ s1 [H1 ->]. cbn [um set_um set_launched] in H1.
  eapply wp_mono; [by apply wp_keys|]. intros _ s' ->. simpl. by rewrite <- app_assoc.
Qed.

End Keys.

(** ** The disabled tests *)

(** The literals of the tests 64 bytes apart, the arrays, and at address 0 the
    bytes of the interrupt vectors. *)
Definition test_literals : list (list Z) :=
  [line "Memory was allocated"; line "Testing itoa........."; [10]; line "Testing putchar.........";
   line "This is a %s test. Here is a random integer: %i"; chars "printf"; line "Testing strtok";
   chars "ConiferOS C standard library"; line "Token: %s"; line "End of strtok test"].
Definition test_lit (t : list Z) : Z :=
  4194304 + 64 * Z.of_nat (default 0%nat (fst <$> list_find (eq t) test_literals)).
Definition test_state (pages : list Z) : uproc :=
  mk_uproc (foldr (fun t => fill (test_lit t) (t ++ [0]))
      (fill 8192 (replicate 1024 7) (fill 12288 (replicate 64 7) (fill 16384 (replicate 12 7)
        (fill 0 [83; 255; 0; 240; 83; 255; 0; 240; 195; 226; 0; 240] ∅)))) test_literals)
    0 ∅ [] pages [] [].
Definition output (m : U unit) (pages : list Z) : option (list Z) :=
  match m (test_state pages) with Ok (_, s') => Some (shown s') | _ => None end.

(** The library does what the tests expect of it. *)
Example tests_pass :
  output (test_malloc_and_free test_lit) [16777216] = Some (line "Memory was allocated") /\
  output (test_itoa test_lit 12288) [] = Some (line "Testing itoa........." ++ line "12345") /\
  output (test_printf test_lit 16384) [] = Some (line "This is a printf test. Here is a random integer: 10") /\
  output (test_strtok test_lit 16384 12288 8192) [] =
    Some (line "Testing strtok" ++ line "Token: ConiferOS" ++ line "Token: C" ++ line "Token: standard" ++
          line "Token: library" ++ line "End of strtok test").
Proof. vm_compute. done. Qed.

(** Without memory the test frees the null pointer. *)
Example test_without_memory : output (test_malloc_and_free test_lit) [] = None.
Proof. vm_compute. done. Qed.

(** The character given as a pointer prints what is at address 10, not a newline. *)
Example test_putchar_pointer :
  match test_putchar test_lit (set_um (<[10 := 65]> (<[11 := 0]> (um (test_state [])))) (test_state [])) with
  | Ok (_, s') => shown s' = line "Testing putchar........." ++ [90; 65]
  | _ => False
  end.
Proof. vm_compute. done. Qed.

End TestLib.
